(* ===== verification/_CoqProject ===== *)
-Q . S2P
Prelude.v
Outcome.v
StdMap.v
External.v
Objects.v
Store.v
Messages.v
Codec.v
Parser.v
SessionId.v
NtlpMsg.v
AuctionRule.v
Aqueue.v
Events.v
Session.v
NiSession.v
NiSpec.v
NrSession.v
NrSpec.v
NfSession.v
NfSpec.v
SessionExamples.v
SessionManager.v
Dispatcher.v
DispatcherSpec.v
DispatcherExamples.v
Threads.v
Locks.v
WorkersSpec.v
GistMapper.v
Installer.v
Daemon.v
DaemonSpec.v
Handshake.v
Answer.v
Path.v
PathBack.v
PathRefresh.v
Config.v
Journal.v
XmlKey.v
Splitter.v
XmlMessage.v
XmlMemory.v
Command.v
XmlSpec.v
XmlRoundtrip.v
XmlExamples.v
Startup.v
Main.v
DaemonExamples.v
Sequential.v
EventMemory.v
ThreadsExamples.v
