(* ===== verification/Prelude.v ===== *)
(** * Verification of the A-NSLP auctioning signalling daemon

    The A-NSLP daemon signals auction requests along the path of a data flow,
    on top of GIST.  A node keeps a session per request: the initiator's at
    the start of the path (NI), the responder's at its end (NR), a forwarder's
    on each node between them (NF).  A CREATE sets the sessions up, a RESPONSE
    answers it, BIDDING messages carry the auction, REFRESH messages prolong
    or end the session.

    ** The parts and how they interact

    Bytes from GIST, timer messages and calls of the API arrive in one input
    queue.  [anslp_daemon::main_loop] takes a message, [gistka_mapper] makes
    an event of it - for bytes by the parser of the information elements -,
    the [dispatcher] finds or creates the session of the event, the session
    handles it as a state machine, and what it does goes back through the
    services of the dispatcher: messages are serialized and given to GIST,
    timers are started, rules are handed to an installer, which puts events
    into the queue of the auctioning application.

    ** The files (in the order of compilation; code under src/)

    Foundations
    - Prelude: machine integers, generic lemmas, the hint databases [anslp]
      and [anslp_rw].
    - Outcome: values, C++ exceptions and faults; the state monad [M] all
      stateful code is written in, and its weakest preconditions.
    - StdMap: [std::map] under an [operator<] of the program.
    - External: the libraries outside of the sources, as classes of operations
      ([Libs], [NetMsg], [ProtlibIE]) and of laws; concrete instances.
    Messages (src/src/msg, src/include/msg)
    - Objects: the six object classes.  Store: the object store of a message.
      Messages: the five message classes and their abstract view.
    - Codec: serialize, deserialize and the registry.  Parser: what the parser
      lets through.
    The node (src/src, src/include)
    - SessionId (session_id), NtlpMsg (ntlp_msg), AuctionRule (auction_rule,
      mspec_rule_key), Aqueue (aqueue), Events (events, anslp_timers).
    - Session: the base class, and the interface to the dispatcher: the class
      [Dispatcher] of services, [Platform] of what lies below, [Effects] of
      what they promise.  A session is verified against these.
    - NiSession, NrSession, NfSession: the three session classes, a function
      per state handler and per branch of the long ones.  NiSpec, NrSpec,
      NfSpec: their invariants, protocols and theorems.
    - SessionManager (session_manager), Dispatcher (dispatcher: process and
      create_session), DispatcherSpec: the node.
    - GistMapper (gistka_mapper), Installer (auction_rule_installer and its two
      subclasses), Daemon (the services of dispatcher.cpp, the main loop of
      anslp_daemon.cpp), DaemonSpec: the daemon.  Daemon implements the
      interfaces of Session, and proves their promises.
    - Handshake, Answer: two daemons, a request from the one to the other,
      and the two ends of the answer to it.  Path, PathBack, PathRefresh: any
      number of forwarders in between.
    - Threads (thread_mutex_lockable, lock, and dispatcher::process cut where
      threads interleave): any number of workers over sessions behind
      pointers.  Locks: what holds of the locks, and where they fail.
      WorkersSpec: workers on different sessions.  Sequential: workers that
      take turns.
    - Startup (anslp_daemon: startup and shutdown): the life of a daemon
      around its main loop.  Main (main): the program around the daemon.
    - EventMemory (events.h): what an event owns, on pointers.
    - Config (anslp_config), Journal (benchmark_journal), Command
      (netauct_rule_installer::execute_command, the HTTP client).
    XML (src/src/msg)
    - XmlKey (xml_object_key), Splitter (anslp_ipap_message_splitter),
      XmlMessage (anslp_ipap_xml_message: writing and reading a document),
      XmlMemory: the documents and buffers it takes and gives back.
      XmlSpec and XmlRoundtrip: what is written, and that it is read back.
    Examples
    - SessionExamples, DispatcherExamples, DaemonExamples, ThreadsExamples,
      XmlExamples: concrete sessions, nodes, daemons, workers and documents
      the theorems are applied to.

    A class of the source is a [Record] or an [Inductive] with its name, a
    method a definition with its name, prefixed where two classes share it
    ([create_get_session_lifetime], [d_send_message]); a [dynamic_cast] is a
    match.  Integers are [Z] with their wrap-around written out.  [M S A] is
    [S -> outcome A * S]: the state survives exceptions and faults.

    ** What the theorems show

    - Refinement.  The protocol of each session class is an automaton
      ([ni_step], [nr_step], [nf_step]); [ni_refines_protocol],
      [nr_refines_protocol] and [nf_refines_protocol] show that on every
      sequence of valid events the state machine keeps its invariant and
      follows the automaton, and which exceptions and faults are possible.
      [node_refines_protocol] lifts this to the table of sessions of a node,
      [daemon_refines_protocol] to the main loop, from the bytes that come in
      to the bytes that are given to GIST.
    - Threads.  [workers_refine_node]: workers that are concerned with
      different sessions do together what the node does with one event after
      the other; [turns_are_dispatch]: workers that take turns are the
      dispatcher; [session_mutual_exclusion] and [workers_finish]: the lock of
      a session excludes, and blocks nobody for ever unless its handler has
      thrown.
      Where the code is not safe is shown by [abandoned_lock_blocks] and
      [double_removal_crashes].
    - Start and end.  [main_runs]: from the command line to the exit code, 1
      exactly when the command line is not taken or the file not read;
      [daemon_life]: from the registration with GIST to the shutdown;
      [interfaces_are_words], [parse_commandline_cases]: what is read at the
      start.
    - Memory.  [event_objects_freed]: events free what they own.
      [execute_command_cases], [xml_object_life], [get_message_leaks]: what
      the users of libcurl and libxml2 give back, and what they lose.
    - Composition.  [session_setup] follows a request from the user at one
      daemon to the session of the responder at another, [path_setup] across
      any number of forwarders; [path_answered] follows the answer from the
      responder's application back to the user's session, with what the
      applications on the way add to it; [path_refreshed] follows a REFRESH,
      or the one that ends the session, to the responder and back.
    - Messages.  [object_roundtrip], [message_roundtrip] and
      [mapper_roundtrip]: what is written is read back, and an information
      code about an object type cannot be written; [parsed_well_formed],
      [map_receive_cases] and [deserialize_msg_terminates]: what becomes of
      arbitrary bytes.  [xml_roundtrip]: a message written as a document is
      read back; [split_files]: what the splitter makes of records of one type.
    - Functional behaviour.  [..._cases], [..._reported], [ni_create_request]
      and others say what a handler does on every branch and under which
      condition, the messages it sends included: a CREATE or REFRESH is
      refused exactly when it is [unauthorized], and what the services of the
      dispatcher answer is tied to the answer itself by [says].
    - The node.  [dispatcher_isolation], [dispatcher_opens],
      [dispatch_serves]: sessions do not disturb each other, are opened as
      what they should be, and are retired when they are done.
    - The installers keep the contract the dispatcher relies on, and hand over
      exactly the requested objects.
    - Errors.  What goes wrong is stated as theorems too: payloads that abort
      the daemon ([nonzero_padding_aborts], [stray_payload_stops_daemon]), messages that cannot be written
      ([error_response_not_serializable]), timers that are not stopped
      ([nf_confirmed_refresh_times_out]), and others.

    ** Bounds and fuel

    [deserialize_objects] is given the number of bytes left in the buffer;
    every round consumes some, and [deserialize_msg_terminates] shows that
    this is enough on every input.  [create_unique_id] retries until the
    random ID is unused: it may not end on a generator that repeats itself,
    and its fuel is an argument; [create_unique_id_fresh] shows that as many
    retries as there are sessions are enough when it does not repeat itself,
    and the fault [Loop_bound] is listed where an event can draw an ID.
    [cleanup_loop] is given the number of events in the queue, and
    [cleanup_closes] shows that it ends.  [parse_loop] of session IDs is given
    the length of the text ([parse_ends]), and 20 digits are enough for the
    words [to_string] prints, and for the record numbers of a document.  The
    loops over an XML document are structural in its nodes.  A worker makes at
    most seven steps for an event ([workers_finish]).  The loop that prunes
    rules is structural in the map it erases from.

    The intervals and timeouts of [setup_session] are computed in binary64.
    Where the result does not fit the integer it is converted to - a refresh
    interval for a lifetime beyond 3/4 of 2^32 without retries, a response
    timeout for a configured one beyond 2/3 of 2^31 - C++ leaves the
    conversion undefined; the model wraps around.

    Messages sent by a daemon: [dispatcher::send_message] may not throw and
    ends the program when a message cannot be written.  The state [world] of
    Daemon keeps the first such fault; nothing is given to GIST after it, and
    the main loop ends with it once the event has been processed.

    ** Assumptions

    The laws of the libraries ([LibsLaws], [NetMsgLaws], [ProtlibIELaws],
    [GistLaws], [CqueueLaws], [IpapLaws], [IpapBuildLaws], [XmlLaws]) state their documented behaviour; each has a
    concrete instance.  The theorems about events ask for valid ones
    ([event_valid]): messages as the classes build them, which is what the
    parser returns for any bytes.  The theorems about daemons assume of the
    payloads no more than that they are bytes.

    ** Not modelled

    - Inside a handler threads do not interleave: it is one step on the world
      the workers share beside the sessions, and so is each operation of the
      session manager, which its mutex makes atomic.  The memory model of the
      machine, and the cancellation of threads, are left out.
    - The starters of threads and the initialization of the libraries: calls
      of protlib, OpenSSL and the NTLP.  The reader of the configuration file
      is a parameter.
    - libcurl, libxslt, libxml2 and the IPAP library: parameters, with laws
      where something is proved from them.
    - Logging; memory, apart from objects deleted twice, and pointers to
      objects that are gone where a handler or a worker meets them.
    - [get_nr_address], [execute_command] and the copy constructor of
      [anslp_ipap_xml_message] are modelled, though nothing calls them; the
      constructors for test cases, which set a state, are not. *)
From stdpp Require Export base option list numbers strings.
From Stdlib Require Export ZArith Lia.

(** ** Machine integers.

    The C++ code keeps its counters, lifetimes and sequence numbers in
    [uint32], its wire fields in [uint16] and [uint8].  They are [Z] values
    brought back into range by the functions below wherever the code stores
    the result of an arithmetic operation. *)
Declare Scope anslp_scope.
Delimit Scope anslp_scope with anslp.

Definition u8 (z : Z) : Z := z mod 2 ^ 8.
Definition u16 (z : Z) : Z := z mod 2 ^ 16.
Definition u32 (z : Z) : Z := z mod 2 ^ 32.

(** [int] from [uint32]. *)
Definition int32 (z : Z) : Z := ((z + 2 ^ 31) mod 2 ^ 32 - 2 ^ 31)%Z.

Definition is_u8 (z : Z) : Prop := (0 <= z < 2 ^ 8)%Z.
Definition is_u16 (z : Z) : Prop := (0 <= z < 2 ^ 16)%Z.
Definition is_u32 (z : Z) : Prop := (0 <= z < 2 ^ 32)%Z.

Lemma u32_range z : is_u32 (u32 z).
Proof. unfold is_u32, u32. apply Z.mod_pos_bound. lia. Qed.

Lemma u16_range z : is_u16 (u16 z).
Proof. unfold is_u16, u16. apply Z.mod_pos_bound. lia. Qed.

Lemma u8_range z : is_u8 (u8 z).
Proof. unfold is_u8, u8. apply Z.mod_pos_bound. lia. Qed.

Lemma u32_small z : is_u32 z -> u32 z = z.
Proof. unfold is_u32, u32. intros; apply Z.mod_small; lia. Qed.

Lemma u16_small z : is_u16 z -> u16 z = z.
Proof. unfold is_u16, u16. intros; apply Z.mod_small; lia. Qed.

Lemma u8_small z : is_u8 z -> u8 z = z.
Proof. unfold is_u8, u8. intros; apply Z.mod_small; lia. Qed.

(** The successor of a [uint32], with its wrap-around made explicit. *)
Lemma u32_succ_cases z :
  is_u32 z -> (z = 2 ^ 32 - 1 /\ u32 (z + 1) = 0)%Z
              \/ (z < 2 ^ 32 - 1 /\ u32 (z + 1) = z + 1)%Z.
Proof.
  unfold is_u32, u32. intros Hz.
  destruct (decide (z = 2 ^ 32 - 1)%Z) as [->|Hne].
  - left. split; [done|reflexivity].
  - right. split; [lia|]. apply Z.mod_small; lia.
Qed.

Create HintDb anslp.
#[export] Hint Resolve u32_range u16_range u8_range : anslp.
Create Rewrite HintDb anslp_rw.
#[export] Hint Rewrite u32_small u16_small u8_small using (assumption || lia) : anslp_rw.

(** Fields of a word: a shifted value and a small one do not overlap. *)
Lemma lor_shiftl_add a b n :
  (0 <= n -> 0 <= b < 2 ^ n -> Z.lor (Z.shiftl a n) b = a * 2 ^ n + b)%Z.
Proof.
  intros Hn Hb. rewrite <- Z.shiftl_mul_pow2 by lia. symmetry. apply Z.add_nocarry_lor.
  apply Z.bits_inj'. intros k Hk. rewrite Z.land_spec, Z.bits_0, Z.shiftl_spec by lia.
  destruct (decide (k < n)%Z) as [Hlt|Hge].
  - by rewrite Z.testbit_neg_r by lia.
  - rewrite (Z.testbit_eqb b) by lia.
    assert (b < 2 ^ k)%Z by (apply Z.lt_le_trans with (2 ^ n)%Z; [lia|apply Z.pow_le_mono_r; lia]).
    by rewrite Z.div_small, andb_false_r by lia.
Qed.

(** The low [n] bits, by masking with [2^n - 1]. *)
Lemma land_mask z n : (0 <= n)%Z -> Z.land z (2 ^ n - 1) = (z mod 2 ^ n)%Z.
Proof. intros. rewrite <- Z.land_ones by done. f_equal. rewrite Z.ones_equiv. lia. Qed.

(** ** Proof tactics shared by the components. *)

(** Decide one boolean comparison on [Z] met in the goal or a hypothesis. *)
Ltac z_cases :=
  match goal with
  | |- context [(?a <? ?b)%Z] => destruct (Z.ltb_spec a b)
  | |- context [(?a <=? ?b)%Z] => destruct (Z.leb_spec a b)
  | |- context [(?a =? ?b)%Z] => destruct (Z.eqb_spec a b)
  | H : context [(?a <? ?b)%Z] |- _ => destruct (Z.ltb_spec a b)
  | H : context [(?a <=? ?b)%Z] |- _ => destruct (Z.leb_spec a b)
  | H : context [(?a =? ?b)%Z] |- _ => destruct (Z.eqb_spec a b)
  end.

(** Split the innermost [match] of the goal, keeping the equation. *)
Ltac split_match :=
  match goal with
  | |- context [match ?x with _ => _ end] =>
      lazymatch x with
      | context [match _ with _ => _ end] => fail
      | _ => let E := fresh "E" in destruct x eqn:E
      end
  end.

Ltac split_match_in H :=
  match type of H with
  | context [match ?x with _ => _ end] =>
      lazymatch x with
      | context [match _ with _ => _ end] => fail
      | _ => let E := fresh "E" in destruct x eqn:E
      end
  end.

(** ** Generic list lemmas. *)

Lemma fold_left_invariant {A B} (P : A -> Prop) (f : A -> B -> A) (l : list B) a :
  P a -> (forall x b, P x -> P (f x b)) -> P (fold_left f l a).
Proof. revert a. induction l; cbn; auto. Qed.

Lemma fold_left_max_ge {B} (g : B -> Z) (l : list B) a :
  (a <= fold_left (fun r b => Z.max r (g b)) l a)%Z.
Proof. revert a. induction l as [|b l IH]; cbn; intros; [lia|]. specialize (IH (Z.max a (g b))). lia. Qed.

Lemma rev_sublist {A} (l k : list A) : l `sublist_of` k -> rev l `sublist_of` rev k.
Proof.
  induction 1 as [|x l k H IH|x l k H IH]; cbn; [done| |].
  - by apply sublist_app.
  - by apply sublist_inserts_r.
Qed.

Lemma elem_of_rev {A} (x : A) (l : list A) : x ∈ rev l <-> x ∈ l.
Proof. rewrite !list_elem_of_In. symmetry. apply List.in_rev. Qed.
