(* ===== verification/Outcome.v ===== *)
(** * Outcomes of the C++ code: values, exceptions and faults

    The program signals failures in two ways.  It throws C++ exceptions
    ([request_error], [auction_rule_installer_error], [override_lifetime] of
    include/session.h and include/auction_rule_installer.h), which some caller
    may catch; and it runs into faults no caller sees: a failed [assert], a
    null pointer dereferenced, an object deleted twice, a non-void function
    that ends without a return.  The state monad [M] keeps the three apart. *)
From S2P Require Import Prelude.

(** [request_error] of include/session.h: the text and the severity and
    response code a RESPONSE message would carry. *)
Record request_error := mk_request_error {
  err_msg : string;
  err_severity : Z;
  err_response_code : Z }.

(** The exceptions of the program.  [auction_rule_installer_error] derives
    from [request_error]; [override_lifetime] is a class of its own. *)
Inductive exn :=
  | Request_error (e : request_error)
  | Installer_error (e : request_error)
  | Override_lifetime (e : request_error)
  | Invalid_argument (what : string)
  (* thrown by protlib: a NetMsg access out of range, an information element
     that cannot be written or read *)
  | Net_msg_error
  | Ie_error (what : string)
  (* of the XML classes: protlib's Error, its subclasses
     anslp_ipap_bad_argument and anslp_ipap_memory_allocation, and the IPAP
     library's ipap_bad_argument *)
  | Lib_error (what : string)
  | Bad_argument (what : string)
  | Memory_allocation (what : string)
  | Ipap_bad_argument
  (* configParExceptionNoRepository of protlib *)
  | No_repository.

(** Faults: behaviour the language leaves undefined or that aborts. *)
Inductive fault :=
  | Assertion_failed
  | Null_dereference
  | Double_delete
  | Use_after_free
  | Missing_return
  | Out_of_bounds
  (* an exception out of a function declared [throw ()] *)
  | Terminated
  (* no behaviour of the program: the bound the model puts on a loop was
     reached; theorems show that it never is *)
  | Loop_bound.

Inductive outcome (A : Type) :=
  | Normal (a : A)
  | Raised (e : exn)
  | Faulted (f : fault).
Arguments Normal {A} _.
Arguments Raised {A} _.
Arguments Faulted {A} _.

#[export] Instance fault_eq_dec : EqDecision fault.
Proof. solve_decision. Defined.
#[export] Instance request_error_eq_dec : EqDecision request_error.
Proof. solve_decision. Defined.
#[export] Instance exn_eq_dec : EqDecision exn.
Proof. solve_decision. Defined.

(** The state monad with outcomes. *)
Definition M (S A : Type) : Type := S -> outcome A * S.

Section Monad.
Context {S : Type}.

Definition ret {A} (a : A) : M S A := fun s => (Normal a, s).
Definition raise {A} (e : exn) : M S A := fun s => (Raised e, s).
Definition trip {A} (f : fault) : M S A := fun s => (Faulted f, s).

Definition bind {A B} (m : M S A) (k : A -> M S B) : M S B := fun s =>
  match m s with
  | (Normal a, s') => k a s'
  | (Raised e, s') => (Raised e, s')
  | (Faulted f, s') => (Faulted f, s')
  end.

(** [try m catch h]: the handler sees every exception and re-raises those
    its catch clauses do not name; a fault is never caught. *)
Definition catch {A} (m : M S A) (h : exn -> M S A) : M S A := fun s =>
  match m s with
  | (Raised e, s') => h e s'
  | r => r
  end.

Definition get : M S S := fun s => (Normal s, s).
Definition modify (f : S -> S) : M S unit := fun s => (Normal tt, f s).
Definition lift_outcome {A} (o : outcome A) : M S A := fun s => (o, s).

(** [assert(b)]. *)
Definition assert_that (b : bool) : M S unit :=
  if b then ret tt else trip Assertion_failed.

(** Use of a pointer: a null pointer is a fault. *)
Definition deref {A} (p : option A) : M S A :=
  match p with Some a => ret a | None => trip Null_dereference end.

(** Use of a pointer behind [assert(p != NULL)]. *)
Definition asserted {A} (p : option A) : M S A :=
  match p with Some a => ret a | None => trip Assertion_failed end.

Fixpoint iterM {A} (f : A -> M S unit) (l : list A) : M S unit :=
  match l with
  | [] => ret tt
  | a :: l' => bind (f a) (fun _ => iterM f l')
  end.
End Monad.

Declare Scope outcome_scope.
Delimit Scope outcome_scope with outcome.
Notation "x <- m ;; k" := (bind m (fun x => k))
  (at level 100, m at next level, right associativity) : outcome_scope.
Notation "m ;;; k" := (bind m (fun _ => k))
  (at level 100, right associativity) : outcome_scope.
Open Scope outcome_scope.

(** Outcomes without state. *)
Definition obind {A B} (o : outcome A) (k : A -> outcome B) : outcome B :=
  match o with
  | Normal a => k a
  | Raised e => Raised e
  | Faulted f => Faulted f
  end.

Definition of_pointer {A} (p : option A) : outcome A :=
  match p with Some a => Normal a | None => Faulted Null_dereference end.

Fixpoint mapO {A B} (f : A -> outcome B) (l : list A) : outcome (list B) :=
  match l with
  | [] => Normal []
  | a :: l' => obind (f a) (fun b => obind (mapO f l') (fun bs => Normal (b :: bs)))
  end.

(** ** Laws of the monad and a weakest-precondition reading of it. *)
Section Laws.
Context {S : Type}.

Lemma bind_ret_l {A B} (a : A) (k : A -> M S B) s : bind (ret a) k s = k a s.
Proof. reflexivity. Qed.

Lemma bind_assoc {A B C} (m : M S A) (k : A -> M S B) (h : B -> M S C) s :
  bind (bind m k) h s = bind m (fun a => bind (k a) h) s.
Proof. unfold bind. by destruct (m s) as [[a|e|f] s']. Qed.

(** [wp m Q s]: running [m] from [s] ends in an outcome and a state that
    satisfy [Q]. *)
Definition wp {A} (m : M S A) (Q : outcome A -> S -> Prop) (s : S) : Prop :=
  Q (fst (m s)) (snd (m s)).

Lemma wp_ret {A} (a : A) Q s : Q (Normal a) s -> wp (ret a) Q s.
Proof. done. Qed.

Lemma wp_raise {A} e (Q : outcome A -> S -> Prop) s : Q (Raised e) s -> wp (raise e) Q s.
Proof. done. Qed.

Lemma wp_eq {A} (m : M S A) Q s o s' : m s = (o, s') -> Q o s' -> wp m Q s.
Proof. unfold wp. by intros ->. Qed.

Lemma wp_bind {A B} (m : M S A) (k : A -> M S B) Q s :
  wp m (fun o s' => match o with
                    | Normal a => wp (k a) Q s'
                    | Raised e => Q (Raised e) s'
                    | Faulted f => Q (Faulted f) s'
                    end) s ->
  wp (bind m k) Q s.
Proof. unfold wp, bind. by destruct (m s) as [[a|e|f] s']. Qed.

Lemma wp_catch {A} (m : M S A) h Q s :
  wp m (fun o s' => match o with Raised e => wp (h e) Q s' | _ => Q o s' end) s ->
  wp (catch m h) Q s.
Proof. unfold wp, catch. by destruct (m s) as [[a|e|f] s']. Qed.

Lemma wp_mono {A} (m : M S A) (Q Q' : outcome A -> S -> Prop) s :
  wp m Q s -> (forall o s', Q o s' -> Q' o s') -> wp m Q' s.
Proof. unfold wp. auto. Qed.

Lemma wp_iter {A} (f : A -> M S unit) (I : S -> Prop) (Q : outcome unit -> S -> Prop) l s :
  I s ->
  (forall a s', I s' -> wp (f a) (fun o s'' => match o with Normal _ => I s'' | _ => Q o s'' end) s') ->
  (forall s', I s' -> Q (Normal tt) s') ->
  wp (iterM f l) Q s.
Proof.
  intros HI Hf HQ. revert s HI. induction l as [|a l IH]; cbn; intros s HI; [by apply HQ|].
  apply wp_bind. eapply wp_mono; [by apply Hf|]. intros [[]|e|g] s' H; auto.
Qed.
End Laws.
