(* ===== verification/StdMap.v ===== *)
(** * std::map with a user-defined operator<

    The program keeps its objects in [std::map]s whose keys are compared by an
    [operator<] of its own.  A map is the list of its entries in the order an
    iteration visits them; two keys are the same entry when neither is less
    than the other, whatever their fields are.  The operations follow the
    container's specification; the laws hold when [operator<] is a strict
    weak order, and the sections below state them once for every key type. *)
From S2P Require Import Prelude.

Section StdMap.
Context {K V : Type} (lt : K -> K -> bool).

(** The equivalence a [std::map] induces on its keys. *)
Definition key_equiv (a b : K) : bool := negb (lt a b) && negb (lt b a).

(** [m.find(k)], as a pointer to the value. *)
Fixpoint map_find (k : K) (m : list (K * V)) : option V :=
  match m with
  | [] => None
  | (k', v) :: m' => if key_equiv k k' then Some v else map_find k m'
  end.

(** [m[k] = v]: an entry equivalent to [k] keeps its own key. *)
Fixpoint map_set (k : K) (v : V) (m : list (K * V)) : list (K * V) :=
  match m with
  | [] => [(k, v)]
  | (k', v') :: m' =>
      if lt k k' then (k, v) :: (k', v') :: m'
      else if lt k' k then (k', v') :: map_set k v m'
      else (k', v) :: m'
  end.

(** [m.erase(k)]. *)
Fixpoint map_erase (k : K) (m : list (K * V)) : list (K * V) :=
  match m with
  | [] => []
  | (k', v') :: m' => if key_equiv k k' then m' else (k', v') :: map_erase k m'
  end.

Definition map_of_entries (l : list (K * V)) : list (K * V) :=
  fold_left (fun m kv => map_set (fst kv) (snd kv) m) l [].

(** Well-formed maps: keys strictly increasing. *)
Fixpoint map_sorted (m : list (K * V)) : Prop :=
  match m with
  | [] => True
  | (k, _) :: m' => Forall (fun kv => lt k (fst kv) = true) m' /\ map_sorted m'
  end.
End StdMap.

(** What [std::map] asks of [operator<]. *)
Class StrictWeakOrder {K} (lt : K -> K -> bool) : Prop := {
  swo_irrefl : forall a, lt a a = false;
  swo_trans : forall a b c, lt a b = true -> lt b c = true -> lt a c = true;
  swo_incomp_trans : forall a b c,
    lt a b = false -> lt b a = false -> lt b c = false -> lt c b = false ->
    lt a c = false /\ lt c a = false }.

(** An [operator<] obtained by comparing an integer image of the key. *)
#[export] Instance swo_by_image {K} (f : K -> Z) :
  StrictWeakOrder (fun a b => (f a <? f b)%Z).
Proof. constructor; intros; rewrite ?Z.ltb_lt, ?Z.ltb_ge in *; lia. Qed.

Section Laws.
Context {K V : Type} {lt : K -> K -> bool} `{!StrictWeakOrder lt}.
Implicit Types (m : list (K * V)).

Lemma swo_asym a b : lt a b = true -> lt b a = false.
Proof.
  intros H. destruct (lt b a) eqn:E; [|done].
  pose proof (swo_trans _ _ _ H E) as F. by rewrite swo_irrefl in F.
Qed.

Lemma key_equiv_spec a b : key_equiv lt a b = true <-> lt a b = false /\ lt b a = false.
Proof. unfold key_equiv. destruct (lt a b), (lt b a); naive_solver. Qed.

Lemma key_equiv_refl a : key_equiv lt a a = true.
Proof. apply key_equiv_spec. by rewrite swo_irrefl. Qed.

Lemma key_equiv_sym a b : key_equiv lt a b = key_equiv lt b a.
Proof. unfold key_equiv. by destruct (lt a b), (lt b a). Qed.

Lemma key_equiv_lt_l a b c : key_equiv lt a b = true -> lt a c = lt b c.
Proof.
  rewrite key_equiv_spec. intros [H1 H2].
  destruct (lt a c) eqn:E1, (lt b c) eqn:E2; try done.
  - destruct (lt c b) eqn:E3.
    + pose proof (swo_trans _ _ _ E1 E3). congruence.
    + destruct (swo_incomp_trans a b c); congruence.
  - destruct (lt c a) eqn:E3.
    + pose proof (swo_trans _ _ _ E2 E3). congruence.
    + destruct (swo_incomp_trans b a c); congruence.
Qed.

Lemma key_equiv_lt_r a b c : key_equiv lt a b = true -> lt c a = lt c b.
Proof.
  rewrite key_equiv_spec. intros [H1 H2].
  destruct (lt c a) eqn:E1, (lt c b) eqn:E2; try done.
  - destruct (lt b c) eqn:E3.
    + pose proof (swo_trans _ _ _ E3 E1). congruence.
    + destruct (swo_incomp_trans a b c); congruence.
  - destruct (lt a c) eqn:E3.
    + pose proof (swo_trans _ _ _ E3 E2). congruence.
    + destruct (swo_incomp_trans b a c); congruence.
Qed.

Lemma key_equiv_trans a b c :
  key_equiv lt a b = true -> key_equiv lt b c = key_equiv lt a c.
Proof.
  intros H. unfold key_equiv.
  by rewrite (key_equiv_lt_l _ _ c H), (key_equiv_lt_r _ _ c H).
Qed.

Lemma map_find_set_eq k v m : map_find lt k (map_set lt k v m) = Some v.
Proof.
  induction m as [|[k' v'] m IH]; cbn.
  - by rewrite key_equiv_refl.
  - destruct (lt k k') eqn:E1; cbn; [by rewrite key_equiv_refl|].
    destruct (lt k' k) eqn:E2; cbn; unfold key_equiv in *; rewrite E1, E2; cbn; done.
Qed.

Lemma map_find_set_ne k k' v m :
  key_equiv lt k' k = false -> map_find lt k' (map_set lt k v m) = map_find lt k' m.
Proof.
  intros Hne. induction m as [|[k1 v1] m IH]; cbn.
  - by rewrite Hne.
  - destruct (lt k k1) eqn:E1; cbn; [by rewrite Hne|].
    destruct (lt k1 k) eqn:E2; cbn.
    + destruct (key_equiv lt k' k1); [done|apply IH].
    + destruct (key_equiv lt k' k1) eqn:E3; [|done].
      assert (Hk : key_equiv lt k1 k = true) by by rewrite key_equiv_spec.
      rewrite key_equiv_sym in E3.
      pose proof (key_equiv_trans _ _ k' Hk) as E4.
      rewrite key_equiv_sym in E4. congruence.
Qed.

Lemma map_set_Forall (P : K -> Prop) k v m :
  P k -> Forall (fun kv => P (fst kv)) m -> Forall (fun kv => P (fst kv)) (map_set lt k v m).
Proof.
  intros Hk. induction 1 as [|[k' v'] m Hp Hm IH]; cbn; [auto|].
  destruct (lt k k'); [auto|]. destruct (lt k' k); auto.
Qed.

Lemma map_set_sorted k v m : map_sorted lt m -> map_sorted lt (map_set lt k v m).
Proof.
  induction m as [|[k' v'] m IH]; cbn; [done|]. intros [Hall Hs].
  destruct (lt k k') eqn:E1; cbn.
  - split; [|done]. constructor; [done|].
    eapply Forall_impl; [exact Hall|]. intros [k2 v2]; cbn; intros H2.
    by eapply swo_trans.
  - destruct (lt k' k) eqn:E2; cbn; [|done].
    split; [|auto]. by apply (map_set_Forall (fun x => lt k' x = true)).
Qed.

Lemma map_find_lt k m :
  Forall (fun kv => lt k (fst kv) = true) m -> map_find lt k m = None.
Proof.
  induction 1 as [|[k' v'] m Hp Hm IH]; cbn in *; [done|].
  unfold key_equiv. by rewrite Hp.
Qed.

Lemma map_set_lt k v m :
  Forall (fun kv => lt k (fst kv) = true) m -> map_set lt k v m = (k, v) :: m.
Proof. destruct 1 as [|[k' v'] m Hp Hm]; cbn in *; [done|]. by rewrite Hp. Qed.

Lemma map_find_app_gt k m m' :
  Forall (fun kv => lt (fst kv) k = true) m -> map_find lt k (m ++ m') = map_find lt k m'.
Proof.
  induction 1 as [|[k' v'] m Hp Hm IH]; cbn in *; [done|].
  unfold key_equiv. by rewrite Hp, andb_false_r.
Qed.

Lemma map_sorted_app m m' :
  map_sorted lt m -> map_sorted lt m' ->
  Forall (fun kv => Forall (fun kv' => lt (fst kv) (fst kv') = true) m') m ->
  map_sorted lt (m ++ m').
Proof.
  induction m as [|[k v] m IH]; cbn; [done|]. intros [Hall Hs] Hs' Hcross.
  inversion Hcross; subst. split; [by apply Forall_app|auto].
Qed.

Lemma map_find_erase_eq k m : map_sorted lt m -> map_find lt k (map_erase lt k m) = None.
Proof.
  induction m as [|[k' v'] m IH]; cbn; [done|]. intros [Hall Hs].
  destruct (key_equiv lt k k') eqn:E; cbn; [|rewrite E; auto].
  apply map_find_lt. eapply Forall_impl; [exact Hall|].
  intros kv H. by rewrite (key_equiv_lt_l _ _ _ E).
Qed.

Lemma map_find_erase_ne k k' m :
  key_equiv lt k' k = false -> map_find lt k' (map_erase lt k m) = map_find lt k' m.
Proof.
  intros Hne. induction m as [|[k1 v1] m IH]; cbn; [done|].
  destruct (key_equiv lt k k1) eqn:E; cbn.
  - destruct (key_equiv lt k' k1) eqn:E3; [|done].
    rewrite key_equiv_sym in E. rewrite key_equiv_sym in E3.
    pose proof (key_equiv_trans _ _ k E3). rewrite E in H. congruence.
  - destruct (key_equiv lt k' k1); auto.
Qed.

(** Writing to a new key adds one entry, to an old one adds none. *)
Lemma map_set_length k v m :
  map_sorted lt m ->
  length (map_set lt k v m) = (match map_find lt k m with None => S | Some _ => id end) (length m).
Proof.
  induction m as [|[k' v'] m IH]; cbn; [done|]. intros [Hall Hs].
  unfold key_equiv. destruct (lt k k') eqn:E1; cbn.
  - rewrite (map_find_lt k m); [done|].
    eapply Forall_impl; [exact Hall|]. intros kv H. by eapply swo_trans.
  - destruct (lt k' k) eqn:E2; cbn; [|done]. rewrite IH by done.
    by destruct (map_find lt k m).
Qed.

(** Writing to a new key: one more entry, wherever it lands. *)
Lemma map_set_fresh_perm k v m :
  Forall (fun kv => key_equiv lt k (fst kv) = false) m -> map_set lt k v m ≡ₚ (k, v) :: m.
Proof.
  induction 1 as [|[k' v'] m Hk Hm IH]; cbn in *; [done|]. unfold key_equiv in Hk.
  destruct (lt k k'); [done|]. destruct (lt k' k); [|done]. rewrite IH. apply Permutation_swap.
Qed.

(** Re-inserting the entries of a map one by one rebuilds the map. *)
Lemma map_set_snoc k v m :
  Forall (fun kv => lt (fst kv) k = true) m -> map_set lt k v m = m ++ [(k, v)].
Proof.
  induction 1 as [|[k' v'] m Hp Hm IH]; cbn in *; [done|].
  rewrite (swo_asym _ _ Hp), Hp. by rewrite IH.
Qed.

Lemma map_of_entries_sorted m : map_sorted lt m -> map_of_entries lt m = m.
Proof.
  unfold map_of_entries.
  enough (forall acc, map_sorted lt m ->
    Forall (fun kv => Forall (fun kv' => lt (fst kv') (fst kv) = true) acc) m ->
    fold_left (fun m' kv => map_set lt (fst kv) (snd kv) m') m acc = acc ++ m) as H.
  { intros Hs. rewrite H; [done|done|]. apply Forall_forall. intros; constructor. }
  induction m as [|[k v] m IH]; cbn; intros acc Hs Hacc; [by rewrite app_nil_r|].
  destruct Hs as [Hall Hs]. inversion Hacc as [|? ? Hk Hrest]; subst; cbn in *.
  rewrite map_set_snoc by done. rewrite IH; [by rewrite <- app_assoc|done|].
  clear IH Hs. induction Hrest as [|kv m Hkv Hm IHm]; [constructor|].
  inversion Hall; subst. constructor; [|auto].
  apply Forall_app; split; [done|]. by repeat constructor.
Qed.
End Laws.
#[export] Hint Resolve map_set_sorted key_equiv_refl : anslp.
