(* ===== verification/External.v ===== *)
(** * Interfaces of the libraries the daemon is linked with

    The NSIS-ka protocol library (NetMsg buffers, GIST message routing
    information), the IPAP message library and libuuid are not part of the
    repository.  What the source uses of them is stated here as type classes:
    the operations in [Libs] and [NetMsg], the documented behaviour the proofs
    rely on in [LibsLaws] and [NetMsgLaws].  The last sections instantiate
    every class with concrete functions, so that the hypotheses can be met and
    the model can be run. *)
From S2P Require Import Prelude.

(** ** Big-endian encodings, the network byte order. *)
Fixpoint be_encode (n : nat) (v : Z) : list Z :=
  match n with
  | O => []
  | S n' => Z.land (Z.shiftr v (8 * Z.of_nat n')) 255 :: be_encode n' v
  end.

Definition be_decode (l : list Z) : Z := fold_left (fun a b => (a * 256 + b)%Z) l 0%Z.

Lemma length_be_encode n v : length (be_encode n v) = n.
Proof. induction n; cbn; auto. Qed.

Lemma be_decode_acc l a :
  fold_left (fun a b => (a * 256 + b)%Z) l a = (a * 256 ^ Z.of_nat (length l) + be_decode l)%Z.
Proof.
  unfold be_decode. revert a. induction l as [|b l IH]; intros a; cbn [fold_left length].
  - cbn. lia.
  - rewrite IH. rewrite (IH (0 * 256 + b)%Z). rewrite Nat2Z.inj_succ, Z.pow_succ_r by lia. ring.
Qed.

Lemma be_decode_encode n v : be_decode (be_encode n v) = (v mod 256 ^ Z.of_nat n)%Z.
Proof.
  induction n as [|n IH].
  - cbn. by rewrite Z.mod_1_r.
  - cbn [be_encode]. unfold be_decode. cbn [fold_left]. rewrite be_decode_acc, IH, length_be_encode.
    replace 255%Z with (Z.ones 8) by done.
    rewrite Z.land_ones, Z.shiftr_div_pow2 by lia.
    replace (2 ^ (8 * Z.of_nat n))%Z with (256 ^ Z.of_nat n)%Z
      by (replace 256%Z with (2 ^ 8)%Z by done; rewrite Z.pow_mul_r; lia).
    replace (256 ^ Z.of_nat (S n))%Z with (256 ^ Z.of_nat n * 256)%Z
      by (rewrite Nat2Z.inj_succ, Z.pow_succ_r; lia).
    rewrite Z.rem_mul_r by lia. change (2 ^ 8)%Z with 256%Z. lia.
Qed.

Lemma be_decode_encode32 v : is_u32 v -> be_decode (be_encode 4 v) = v.
Proof. intros. rewrite be_decode_encode. apply Z.mod_small. unfold is_u32 in *. lia. Qed.

(** Overwrite part of a buffer. *)
Definition write_at (pos : nat) (data buf : list Z) : list Z :=
  take pos buf ++ data ++ drop (pos + length data) buf.

Lemma length_write_at pos data buf :
  pos + length data <= length buf -> length (write_at pos data buf) = length buf.
Proof. intros. unfold write_at. rewrite !length_app, length_take, length_drop. lia. Qed.

Lemma write_at_read pos data buf :
  pos + length data <= length buf -> take (length data) (drop pos (write_at pos data buf)) = data.
Proof.
  intros. unfold write_at. rewrite drop_app_ge by (rewrite length_take; lia).
  rewrite length_take, Nat.min_l by lia. rewrite Nat.sub_diag, drop_0. by rewrite take_app_length.
Qed.

Lemma take_write_at pos data buf : pos <= length buf -> take pos (write_at pos data buf) = take pos buf.
Proof.
  intros. unfold write_at. rewrite take_app_le by (rewrite length_take; lia).
  by rewrite take_take, Nat.min_id.
Qed.

Lemma drop_write_at pos data buf :
  pos + length data <= length buf ->
  drop (pos + length data) (write_at pos data buf) = drop (pos + length data) buf.
Proof.
  intros. unfold write_at. rewrite app_assoc.
  rewrite drop_app_ge by (rewrite length_app, length_take; lia).
  rewrite length_app, length_take, Nat.min_l by lia. by rewrite Nat.sub_diag, drop_0.
Qed.

(** ** protlib's NetMsg: a fixed-size buffer with a read/write position.
    [None] stands for a thrown [NetMsgError]. *)
Class NetMsg := {
  netmsg : Type;
  nm_new : nat -> netmsg;
  nm_of_bytes : list Z -> netmsg;
  nm_bytes : netmsg -> list Z;
  nm_pos : netmsg -> nat;
  nm_set_pos : nat -> netmsg -> option netmsg;
  nm_peek32 : netmsg -> option Z;
  nm_decode32 : netmsg -> option (Z * netmsg);
  nm_encode8 : Z -> netmsg -> option netmsg;
  nm_encode16 : Z -> netmsg -> option netmsg;
  nm_encode32 : Z -> netmsg -> option netmsg;
  nm_copy_to : netmsg -> nat -> nat -> option (list Z);
  nm_copy_from : list Z -> nat -> netmsg -> option netmsg }.

(** [NetMsg::get_bytes_left()]. *)
Definition nm_bytes_left `{NetMsg} (m : netmsg) : nat := length (nm_bytes m) - nm_pos m.

Section NetMsgLaws.
Context `{NetMsg}.

(** Writing [data] at the position succeeds exactly when it fits. *)
Definition writes (data : list Z) (m : netmsg) (r : option netmsg) : Prop :=
  if decide (nm_pos m + length data <= length (nm_bytes m)) then
    exists m', r = Some m' /\ nm_bytes m' = write_at (nm_pos m) data (nm_bytes m)
               /\ nm_pos m' = nm_pos m + length data
  else r = None.

Class NetMsgLaws : Prop := {
  nm_new_bytes : forall n, nm_bytes (nm_new n) = replicate n 0%Z /\ nm_pos (nm_new n) = 0;
  nm_of_bytes_bytes : forall l, nm_bytes (nm_of_bytes l) = l /\ nm_pos (nm_of_bytes l) = 0;
  nm_encode8_writes : forall v m, writes (be_encode 1 v) m (nm_encode8 v m);
  nm_encode16_writes : forall v m, writes (be_encode 2 v) m (nm_encode16 v m);
  nm_encode32_writes : forall v m, writes (be_encode 4 v) m (nm_encode32 v m);
  nm_peek32_reads : forall m, nm_peek32 m =
    if decide (nm_pos m + 4 <= length (nm_bytes m))
    then Some (be_decode (take 4 (drop (nm_pos m) (nm_bytes m)))) else None;
  nm_decode32_reads : forall m,
    match nm_peek32 m with
    | None => nm_decode32 m = None
    | Some v => exists m', nm_decode32 m = Some (v, m') /\ nm_bytes m' = nm_bytes m
                           /\ nm_pos m' = nm_pos m + 4
    end;
  nm_set_pos_moves : forall p m,
    if decide (p <= length (nm_bytes m))
    then exists m', nm_set_pos p m = Some m' /\ nm_bytes m' = nm_bytes m /\ nm_pos m' = p
    else nm_set_pos p m = None;
  nm_copy_to_reads : forall m p n, nm_copy_to m p n =
    if decide (p + n <= length (nm_bytes m)) then Some (take n (drop p (nm_bytes m))) else None;
  nm_copy_from_writes : forall data p m,
    if decide (p + length data <= length (nm_bytes m))
    then exists m', nm_copy_from data p m = Some m'
                    /\ nm_bytes m' = write_at p data (nm_bytes m) /\ nm_pos m' = nm_pos m
    else nm_copy_from data p m = None }.
End NetMsgLaws.

(** ** protlib's base classes of information elements.

    [ie_check_ser_args supports valid] is [IE::check_ser_args] on an element
    that supports the coding and passes its own [check] as told: [true] when
    it returns, [false] when it throws.  The [IEManager] is a registry of
    prototypes by category, type and subtype. *)
Class ProtlibIE (P : Type) := {
  ie_check_ser_args : bool -> bool -> bool;
  ie_check_deser_args : bool -> bool;
  iem : Type;
  iem_new : iem;
  iem_register : Z -> Z -> Z -> P -> iem -> iem;
  iem_lookup : iem -> Z -> Z -> Z -> option P;
  (* [IEManager::new_instance], which calls the virtual [lookup_ie] of the
     manager and [new_instance] of the prototype it finds *)
  iem_new_instance : (iem -> Z -> Z -> Z -> option P) -> (P -> P) -> iem -> Z -> Z -> Z -> option P }.

Class ProtlibIELaws (P : Type) `{ProtlibIE P} : Prop := {
  check_ser_args_ok : forall c v, ie_check_ser_args c v = c && v;
  check_deser_args_ok : forall c, ie_check_deser_args c = c;
  iem_lookup_new : forall c t s, iem_lookup iem_new c t s = None;
  iem_lookup_register : forall c t s c' t' s' p r,
    iem_lookup (iem_register c t s p r) c' t' s'
    = if decide ((c, t, s) = (c', t', s')) then Some p else iem_lookup r c' t' s';
  iem_new_instance_spec : forall look inst r c t s,
    iem_new_instance look inst r c t s = option_map inst (look r c t s) }.

(** ** The other libraries. *)
Class Libs := {
  (* libuuid *)
  uuid : Type;
  uuid_compare : uuid -> uuid -> Z;
  (* address.h and the GIST message routing information *)
  hostaddress : Type;
  mri : Type;
  mri_pathcoupled : Type;
  new_mri_pathcoupled : hostaddress -> Z -> Z -> hostaddress -> Z -> Z -> Z -> Z -> Z -> Z ->
                        bool -> mri_pathcoupled;
  upcast_mri : mri_pathcoupled -> mri;
  downcast_mri : mri -> option mri_pathcoupled;
  invertDirection : mri -> mri;
  pc_invertDirection : mri_pathcoupled -> mri_pathcoupled;
  get_sourceaddress : mri_pathcoupled -> hostaddress;
  get_sourceprefix : mri_pathcoupled -> Z;
  get_sourceport : mri_pathcoupled -> Z;
  get_destaddress : mri_pathcoupled -> hostaddress;
  get_destprefix : mri_pathcoupled -> Z;
  get_destport : mri_pathcoupled -> Z;
  get_protocol : mri_pathcoupled -> Z;
  get_flowlabel : mri_pathcoupled -> Z;
  get_ds_field : mri_pathcoupled -> Z;
  get_spi : mri_pathcoupled -> Z;
  get_downstream : mri_pathcoupled -> bool;
  (* IpAp_message *)
  ipap_message : Type;
  ipap_default : ipap_message;
  ipap_eqb : ipap_message -> ipap_message -> bool;
  ipap_get_offset : ipap_message -> Z;
  ipap_get_message : ipap_message -> option (list Z);
  ipap_require_output : ipap_message -> bool;
  ipap_close : ipap_message -> ipap_message;
  ipap_import : ipap_message -> list Z -> option (ipap_message * Z) }.

Section LibsLaws.
Context `{Libs}.

(** An output-complete IPAP message: its buffer holds [get_offset] bytes. *)
Definition ipap_exported (i : ipap_message) : Prop :=
  ipap_require_output i = false /\
  exists b, ipap_get_message i = Some b /\ Z.of_nat (length b) = ipap_get_offset i
            /\ Forall (fun x => 0 <= x < 256)%Z b.

Class LibsLaws : Prop := {
  uuid_compare_eq : forall a b, uuid_compare a b = 0%Z <-> a = b;
  uuid_compare_antisym : forall a b, (uuid_compare a b < 0 <-> 0 < uuid_compare b a)%Z;
  uuid_compare_trans : forall a b c,
    (uuid_compare a b < 0 -> uuid_compare b c < 0 -> uuid_compare a c < 0)%Z;
  downcast_upcast : forall p, downcast_mri (upcast_mri p) = Some p;
  invert_upcast : forall p, invertDirection (upcast_mri p) = upcast_mri (pc_invertDirection p);
  invert_downstream : forall p, get_downstream (pc_invertDirection p) = negb (get_downstream p);
  invert_involutive : forall m, invertDirection (invertDirection m) = m;
  rebuild_mri_pathcoupled : forall p,
    new_mri_pathcoupled (get_sourceaddress p) (get_sourceprefix p) (get_sourceport p)
      (get_destaddress p) (get_destprefix p) (get_destport p) (get_protocol p)
      (get_flowlabel p) (get_ds_field p) (get_spi p) (get_downstream p) = p;
  new_mri_downstream : forall sa sp so da dp dq pr fl ds sn d,
    get_downstream (new_mri_pathcoupled sa sp so da dp dq pr fl ds sn d) = d;
  (* importing an exported buffer, padded at its end, gives the message back *)
  ipap_import_exported : forall i i0 b pad,
    ipap_exported i -> ipap_get_message i = Some b -> (0 < length b) ->
    ipap_import (ipap_close i0) (b ++ pad) = Some (i, ipap_get_offset i);
  (* what was imported from bytes holds them, and can be written again *)
  ipap_import_exports : forall i i0 buf n,
    Forall (fun x => 0 <= x < 256)%Z buf -> ipap_import (ipap_close i0) buf = Some (i, n) ->
    ipap_exported i /\ (0 < ipap_get_offset i <= Z.of_nat (length buf))%Z;
  ipap_eqb_refl : forall i, ipap_eqb i i = true }.
End LibsLaws.

(** ** Concrete instances. *)
Module Concrete.
Record buffer := mk_buffer { b_bytes : list Z; b_pos : nat }.

Definition b_write (data : list Z) (m : buffer) : option buffer :=
  if decide (b_pos m + length data <= length (b_bytes m))
  then Some (mk_buffer (write_at (b_pos m) data (b_bytes m)) (b_pos m + length data)) else None.

Definition b_peek (m : buffer) : option Z :=
  if decide (b_pos m + 4 <= length (b_bytes m))
  then Some (be_decode (take 4 (drop (b_pos m) (b_bytes m)))) else None.

#[export] Instance list_netmsg : NetMsg := {|
  netmsg := buffer;
  nm_new n := mk_buffer (replicate n 0%Z) 0;
  nm_of_bytes l := mk_buffer l 0;
  nm_bytes := b_bytes;
  nm_pos := b_pos;
  nm_set_pos p m := if decide (p <= length (b_bytes m)) then Some (mk_buffer (b_bytes m) p) else None;
  nm_peek32 := b_peek;
  nm_decode32 m := match b_peek m with
                   | Some v => Some (v, mk_buffer (b_bytes m) (b_pos m + 4)) | None => None end;
  nm_encode8 v := b_write (be_encode 1 v);
  nm_encode16 v := b_write (be_encode 2 v);
  nm_encode32 v := b_write (be_encode 4 v);
  nm_copy_to m p n := if decide (p + n <= length (b_bytes m))
                      then Some (take n (drop p (b_bytes m))) else None;
  nm_copy_from data p m := if decide (p + length data <= length (b_bytes m))
                           then Some (mk_buffer (write_at p data (b_bytes m)) (b_pos m)) else None |}.

Lemma b_write_writes data m : writes data m (b_write data m).
Proof. unfold writes, b_write; cbn. case_decide; [|done]. by eexists. Qed.

#[export] Instance list_netmsg_laws : NetMsgLaws.
Proof.
  constructor; intros; try apply b_write_writes; try done; cbn.
  - destruct (b_peek m) eqn:E; [|done]. by eexists.
  - case_decide; [|done]. by eexists.
  - case_decide; [|done]. by eexists.
Qed.

(** A registry as a list of its registrations, the latest first. *)
Section Registry.
Context (P : Type).

Fixpoint reg_lookup (r : list (Z * Z * Z * P)) (k : Z * Z * Z) : option P :=
  match r with
  | [] => None
  | (k', p) :: r' => if decide (k' = k) then Some p else reg_lookup r' k
  end.

#[export] Instance list_ie : ProtlibIE P := {|
  ie_check_ser_args := andb;
  ie_check_deser_args := id;
  iem := list (Z * Z * Z * P);
  iem_new := [];
  iem_register c t s p r := (c, t, s, p) :: r;
  iem_lookup r c t s := reg_lookup r (c, t, s);
  iem_new_instance look inst r c t s := option_map inst (look r c t s) |}.

#[export] Instance list_ie_laws : ProtlibIELaws P.
Proof. constructor; done. Qed.
End Registry.

(** A path-coupled MRI is its ten fields and the direction flag; the IPAP
    message is its exported buffer. *)
Record pc_mri := mk_pc { c_src : Z; c_sprefix : Z; c_sport : Z; c_dst : Z; c_dprefix : Z;
                         c_dport : Z; c_proto : Z; c_flow : Z; c_ds : Z; c_spi : Z; c_down : bool }.
Inductive c_mri := Pathcoupled (p : pc_mri) | Other_mri (down : bool).

Definition pc_flip (p : pc_mri) : pc_mri :=
  mk_pc (c_src p) (c_sprefix p) (c_sport p) (c_dst p) (c_dprefix p) (c_dport p) (c_proto p)
    (c_flow p) (c_ds p) (c_spi p) (negb (c_down p)).

(** The import of the concrete IPAP message: the first byte is the length
    of what follows it, as a length-prefixed record. *)
Definition c_import (buf : list Z) : option (list Z * Z) :=
  match buf with
  | [] => None
  | n :: rest =>
      if decide ((0 <= n < 256)%Z /\ Z.to_nat n <= length rest)
      then Some (take (Z.to_nat n) rest, (n + 1)%Z) else None
  end.

Definition c_valid (l : list Z) : bool :=
  bool_decide (length l < 256 /\ Forall (fun x => 0 <= x < 256)%Z l).

#[export] Instance simple_libs : Libs := {|
  uuid := Z;
  uuid_compare := fun a b => (a - b)%Z;
  hostaddress := Z;
  mri := c_mri;
  mri_pathcoupled := pc_mri;
  new_mri_pathcoupled := mk_pc;
  upcast_mri := Pathcoupled;
  downcast_mri m := match m with Pathcoupled p => Some p | Other_mri _ => None end;
  invertDirection m := match m with
                       | Pathcoupled p => Pathcoupled (pc_flip p)
                       | Other_mri d => Other_mri (negb d) end;
  pc_invertDirection := pc_flip;
  get_sourceaddress := c_src; get_sourceprefix := c_sprefix; get_sourceport := c_sport;
  get_destaddress := c_dst; get_destprefix := c_dprefix; get_destport := c_dport;
  get_protocol := c_proto; get_flowlabel := c_flow; get_ds_field := c_ds; get_spi := c_spi;
  get_downstream := c_down;
  ipap_message := list Z;
  ipap_default := [];
  ipap_eqb a b := bool_decide (a = b);
  ipap_get_offset i := (Z.of_nat (length i) + 1)%Z;
  ipap_get_message i := Some (Z.of_nat (length i) :: i);
  ipap_require_output i := negb (c_valid i);
  ipap_close i := i;
  ipap_import _ buf := c_import buf |}.

#[export] Instance simple_libs_laws : LibsLaws.
Proof.
  constructor; cbn; intros; try lia; try done.
  - destruct m as [[? ? ? ? ? ? ? ? ? ? []]|[]]; done.
  - by destruct p.
  - destruct H as [Hv _]. cbn in Hv. simplify_eq. cbn.
    assert (length i < 256 /\ Forall (fun x => 0 <= x < 256)%Z i) as [Hl _].
    { unfold c_valid in Hv. case_bool_decide; done. }
    rewrite decide_True by (rewrite length_app; lia).
    rewrite Nat2Z.id, take_app_length. done.
  - destruct buf as [|k rest]; [done|]. cbn in H0. case_decide as Hk; [|done]. simplify_eq.
    assert (Hlen : length (take (Z.to_nat k) rest) = Z.to_nat k) by (rewrite length_take; lia).
    assert (Hb : Forall (fun x => 0 <= x < 256)%Z (take (Z.to_nat k) rest)) by (apply Forall_take; by inversion H).
    split; [|cbn; lia]. split.
    + cbn. unfold c_valid. rewrite bool_decide_eq_true_2; [done|]. split; [lia|done].
    + cbn. eexists. split; [done|]. cbn. split; [lia|]. constructor; [lia|done].
  - by apply bool_decide_eq_true_2.
Qed.
End Concrete.
