(* ===== verification/Objects.v ===== *)
(** * NSLP objects: include/msg/anslp_object.h and its six subclasses

    An [anslp_object] is a header (object type, treatment, and the
    [unique] flag that is not on the wire) and the value of its subclass; a
    [dynamic_cast] is a match on the body. *)
From S2P Require Import Prelude Outcome External.

(** [anslp_object::treatment_t]. *)
Inductive treatment_t := tr_mandatory | tr_optional | tr_forward | tr_reserved.

Definition treatment_to_Z (t : treatment_t) : Z :=
  match t with tr_mandatory => 0 | tr_optional => 1 | tr_forward => 2 | tr_reserved => 3 end.

(** [treatment_t(n)] for the two bits of the wire format. *)
Definition treatment_of_Z (z : Z) : treatment_t :=
  if (z =? 0)%Z then tr_mandatory else if (z =? 1)%Z then tr_optional
  else if (z =? 2)%Z then tr_forward else tr_reserved.

#[export] Instance treatment_eq_dec : EqDecision treatment_t.
Proof. solve_decision. Defined.

(** The [OBJECT_TYPE] constants of the subclasses. *)
Definition OT_information_code : Z := 0x0F4.
Definition OT_selection_auctioning_entities : Z := 0x0F5.
Definition OT_message_hop_count : Z := 0x0F6.
Definition OT_msg_sequence_number : Z := 0x0F7.
Definition OT_session_lifetime : Z := 0x0F8.
Definition OT_ipap_message : Z := 0x0F9.

(** [selection_auctioning_entities_t]. *)
Definition sme_all : Z := 1.
Definition sme_any : Z := 2.
Definition sme_first : Z := 3.
Definition sme_last : Z := 4.
Definition sme_first_last : Z := 5.
Definition sme_enterprise_specific : Z := 1024.

(** The severity classes and response codes of [information_code] in use. *)
Definition sc_informational : Z := 1.
Definition sc_success : Z := 2.
Definition sc_protocol_error : Z := 3.
Definition sc_transient_failure : Z := 4.
Definition sc_permanent_failure : Z := 5.
Definition sc_signaling_session_failures : Z := 6.
Definition suc_successfully_processed : Z := 1.
Definition fail_authentication_failed : Z := 1.
Definition fail_internal_error : Z := 4.
Definition fail_nr_not_reached : Z := 7.
Definition fail_configuration_failed : Z := 9.
Definition sigfail_lifetime_too_big : Z := 2.
Definition sigfail_auction_not_applicable : Z := 6.
Definition sigfail_wrong_conf_message : Z := 7.

Section Objects.
Context `{Libs}.

(** The subclasses with their attributes. *)
Inductive object_body :=
  | Session_lifetime (slt : Z)
  | Information_code (severity_class response_code response_object_type : Z)
  | Message_hop_count (value : Z)
  | Selection_auctioning_entities (sme : Z)
  | Msg_sequence_number (value : Z)
  | Ipap_message (ip_message : ipap_message).

Record anslp_object := mk_object {
  object_type : Z;
  treatment : treatment_t;
  unique : bool;
  body : object_body }.

(** The constructors "for manual use". *)
Definition new_session_lifetime (slt : Z) (t : treatment_t) (u : bool) : anslp_object :=
  mk_object OT_session_lifetime t u (Session_lifetime slt).
Definition new_information_code (severity code otype : Z) (t : treatment_t) (u : bool) : anslp_object :=
  mk_object OT_information_code t u (Information_code severity code otype).
Definition new_message_hop_count (mhc : Z) (t : treatment_t) (u : bool) : anslp_object :=
  mk_object OT_message_hop_count t u (Message_hop_count mhc).
Definition new_selection_auctioning_entities (sme : Z) (t : treatment_t) (u : bool) : anslp_object :=
  mk_object OT_selection_auctioning_entities t u (Selection_auctioning_entities sme).
Definition new_msg_sequence_number (msn : Z) (t : treatment_t) (u : bool) : anslp_object :=
  mk_object OT_msg_sequence_number t u (Msg_sequence_number msn).
Definition new_ipap_message (i : ipap_message) : anslp_object :=
  mk_object OT_ipap_message tr_mandatory false (Ipap_message i).

(** The default constructors, used as prototypes by the IE manager. *)
Definition default_session_lifetime := new_session_lifetime 0 tr_mandatory true.
Definition default_information_code := new_information_code 0 0 0 tr_mandatory true.
Definition default_message_hop_count := new_message_hop_count 0 tr_mandatory true.
Definition default_selection_auctioning_entities :=
  new_selection_auctioning_entities sme_all tr_mandatory true.
Definition default_msg_sequence_number := new_msg_sequence_number 0 tr_mandatory true.
Definition default_ipap_message := new_ipap_message ipap_default.

(** [copy()].  The copy constructor of [anslp_ipap_message] rebuilds the
    header, keeping the treatment; the others copy every attribute. *)
Definition object_copy (o : anslp_object) : anslp_object :=
  match body o with
  | Ipap_message i => mk_object OT_ipap_message (treatment o) false (Ipap_message i)
  | _ => o
  end.

(** [new_instance()] of each subclass: its default constructor. *)
Definition object_new_instance (o : anslp_object) : anslp_object :=
  match body o with
  | Session_lifetime _ => default_session_lifetime
  | Information_code _ _ _ => default_information_code
  | Message_hop_count _ => default_message_hop_count
  | Selection_auctioning_entities _ => default_selection_auctioning_entities
  | Msg_sequence_number _ => default_msg_sequence_number
  | Ipap_message _ => default_ipap_message
  end.

Definition set_treatment (t : treatment_t) (o : anslp_object) : anslp_object :=
  mk_object (object_type o) t (unique o) (body o).
Definition set_object_type (t : Z) (o : anslp_object) : anslp_object :=
  mk_object t (treatment o) (unique o) (body o).
Definition set_body (b : object_body) (o : anslp_object) : anslp_object :=
  mk_object (object_type o) (treatment o) (unique o) b.

(** [information_code::check_body]: the test on the object type keeps every
    one of its 16 bits. *)
Definition information_code_check_body (severity otype : Z) : bool :=
  if negb (Z.land severity 0xF0 =? 0)%Z || negb (Z.land otype 0xFFFF =? 0)%Z then false else true.

Definition ipap_check_body (i : ipap_message) : bool := (0 <? ipap_get_offset i)%Z.

Definition check_body (b : object_body) : bool :=
  match b with
  | Information_code severity _ otype => information_code_check_body severity otype
  | Ipap_message i => ipap_check_body i
  | _ => true
  end.

(** [anslp_object::check]: the type fits in 12 bits and the body is valid. *)
Definition object_check (o : anslp_object) : bool :=
  if negb (Z.land (object_type o) (Z.land (Z.lnot 0xFFF) 0xFFFF) =? 0)%Z then false
  else check_body (body o).

(** [equals_body] of each subclass. *)
Definition equals_body (a b : object_body) : bool :=
  match a, b with
  | Session_lifetime x, Session_lifetime y => (x =? y)%Z
  | Information_code s c t, Information_code s' c' t' =>
      (s =? s')%Z && (c =? c')%Z && (t =? t')%Z
  | Message_hop_count x, Message_hop_count y => (x =? y)%Z
  | Selection_auctioning_entities x, Selection_auctioning_entities y => (x =? y)%Z
  | Msg_sequence_number x, Msg_sequence_number y => (x =? y)%Z
  | Ipap_message i, Ipap_message j => ipap_eqb i j
  | _, _ => false
  end.

(** [anslp_object::operator==]. *)
Definition object_eqb (a b : anslp_object) : bool :=
  (object_type a =? object_type b)%Z && bool_decide (treatment a = treatment b)
  && equals_body (body a) (body b).

Definition information_code_is_success (severity code : Z) : bool :=
  (severity =? sc_success)%Z && (code =? suc_successfully_processed)%Z.

(** [HEADER_LENGTH]. *)
Definition OBJ_HEADER_LENGTH : Z := 4.

(** [anslp_ipap_message::get_serialized_size]: header and message padded to
    a multiple of four bytes. *)
Definition ipap_serialized_size (i : ipap_message) : Z :=
  let size := (OBJ_HEADER_LENGTH + ipap_get_offset i)%Z in
  let r := (size mod 4)%Z in
  (size + (if r =? 0 then r else 4 - r))%Z.

Definition object_serialized_size (o : anslp_object) : Z :=
  match body o with
  | Ipap_message i => ipap_serialized_size i
  | _ => OBJ_HEADER_LENGTH + 4
  end.

(** [dynamic_cast<anslp_mspec_object *>]: the only subclass of
    [anslp_mspec_object] is [anslp_ipap_message]. *)
Definition as_mspec_object (o : anslp_object) : option anslp_object :=
  match body o with Ipap_message _ => Some o | _ => None end.

(** [anslp_ipap_message::isEqual] and [notEqual]. *)
Definition mspec_isEqual (a b : anslp_object) : bool :=
  match body a, body b with
  | Ipap_message i, Ipap_message j => ipap_eqb i j
  | _, _ => false
  end.
Definition mspec_notEqual (a b : anslp_object) : bool := negb (mspec_isEqual a b).

(** *** Object headers.

    Two bits of treatment, 12 bits of type and 12 bits of length in 32-bit
    words. *)
Definition extract_object_type (header_raw : Z) : Z := Z.land (Z.shiftr header_raw 16) 0xFFF.
Definition extract_treatment (header_raw : Z) : treatment_t := treatment_of_Z (Z.shiftr header_raw 30).
Definition extract_body_length (header_raw : Z) : Z := (Z.land header_raw 0xFFF * 4)%Z.
Definition make_header (t : treatment_t) (otype body_length : Z) : Z :=
  u32 (Z.lor (Z.lor (Z.shiftl (treatment_to_Z t) 30) (Z.shiftl otype 16)) (body_length / 4)).

(** *** Well-formed objects: those the parser accepts, which are all that the
    constructors build of values in range but one kind. *)
Definition body_type (b : object_body) : Z :=
  match b with
  | Session_lifetime _ => OT_session_lifetime
  | Information_code _ _ _ => OT_information_code
  | Message_hop_count _ => OT_message_hop_count
  | Selection_auctioning_entities _ => OT_selection_auctioning_entities
  | Msg_sequence_number _ => OT_msg_sequence_number
  | Ipap_message _ => OT_ipap_message
  end.

Definition body_unique (b : object_body) : bool :=
  match b with Ipap_message _ => false | _ => true end.

Definition body_wf (b : object_body) : Prop :=
  match b with
  | Session_lifetime v | Message_hop_count v | Selection_auctioning_entities v
  | Msg_sequence_number v => is_u32 v
  | Information_code s c t => (0 <= s < 16)%Z /\ is_u8 c /\ t = 0%Z
  | Ipap_message i => ipap_exported i /\ (0 < ipap_get_offset i <= 16380)%Z
  end.

Definition object_wf (o : anslp_object) : Prop :=
  object_type o = body_type (body o) /\ unique o = body_unique (body o) /\ body_wf (body o).

(** An information code about an object type, as its constructor makes it: the
    one object of values in range that is not well-formed. *)
Definition about_object_type (o : anslp_object) : Prop :=
  object_type o = body_type (body o) /\ unique o = body_unique (body o)
  /\ exists s c t, body o = Information_code s c t /\ (0 <= s < 16)%Z /\ is_u8 c /\ (0 < t < 2 ^ 16)%Z.

(** Well-formed MSPEC objects: the only class of them is the IPAP message. *)
Definition mspec_wf (o : anslp_object) : Prop := object_wf o /\ object_type o = OT_ipap_message.

Lemma object_copy_wf o : object_wf o -> object_copy o = o.
Proof. destruct o as [t tr u []]; unfold object_wf, object_copy; cbn; intros (-> & -> & ?); done. Qed.

Lemma treatment_roundtrip t : treatment_of_Z (treatment_to_Z t) = t.
Proof. by destruct t. Qed.

Lemma equals_body_refl `{!LibsLaws} b : equals_body b b = true.
Proof. destruct b; cbn; rewrite ?Z.eqb_refl; auto using ipap_eqb_refl. Qed.

Lemma object_eqb_refl `{!LibsLaws} o : object_eqb o o = true.
Proof.
  unfold object_eqb. rewrite Z.eqb_refl, bool_decide_eq_true_2 by done.
  by rewrite equals_body_refl.
Qed.

(** The header written for an object, as a sum of its fields. *)
Lemma make_header_sum t ot len :
  (0 <= ot < 2 ^ 12)%Z -> (0 <= len < 2 ^ 12)%Z ->
  make_header t ot (len * 4) = (treatment_to_Z t * 2 ^ 30 + ot * 2 ^ 16 + len)%Z.
Proof.
  intros Hot Hlen. unfold make_header. rewrite Z.div_mul by lia.
  rewrite <- Z.lor_assoc, (lor_shiftl_add ot len), lor_shiftl_add by lia.
  rewrite u32_small; [lia|]. unfold is_u32. destruct t; cbn; lia.
Qed.

(** Its three fields are read back by the extractors. *)
Lemma header_roundtrip t ot len :
  (0 <= ot < 2 ^ 12)%Z -> (0 <= len < 2 ^ 12)%Z ->
  let h := make_header t ot (len * 4) in
  is_u32 h /\ extract_treatment h = t /\ extract_object_type h = ot
  /\ extract_body_length h = (len * 4)%Z.
Proof.
  intros Hot Hlen h. unfold h. rewrite make_header_sum by done.
  unfold extract_treatment, extract_object_type, extract_body_length, is_u32.
  rewrite !Z.shiftr_div_pow2 by lia. change 0xFFF%Z with (2 ^ 12 - 1)%Z.
  rewrite !land_mask by lia. set (tz := treatment_to_Z t).
  assert (Htz : (0 <= tz < 4)%Z) by (unfold tz; destruct t; cbn; lia).
  set (h' := (tz * 2 ^ 30 + ot * 2 ^ 16 + len)%Z).
  assert ((h' / 2 ^ 30)%Z = tz) as ->.
  { symmetry. apply Z.div_unique with (ot * 2 ^ 16 + len)%Z; unfold h'; lia. }
  assert ((h' / 2 ^ 16)%Z = (tz * 2 ^ 14 + ot)%Z) as ->.
  { symmetry. apply Z.div_unique with len; unfold h'; lia. }
  split; [unfold h'; lia|]. split; [apply treatment_roundtrip|]. split; [|f_equal]; symmetry.
  - apply Z.mod_unique with (tz * 2 ^ 2)%Z; lia.
  - apply Z.mod_unique with (tz * 2 ^ 18 + ot * 2 ^ 4)%Z; unfold h'; lia.
Qed.

Lemma mspec_wf_body o : mspec_wf o -> exists i, body o = Ipap_message i.
Proof.
  intros [(Ht & _) Ht']. rewrite Ht in Ht'. destruct (body o); cbn in Ht'; try discriminate Ht'. eauto.
Qed.

Lemma mspec_isEqual_refl `{!LibsLaws} o : mspec_wf o -> mspec_isEqual o o = true.
Proof. intros [i Hi]%mspec_wf_body. unfold mspec_isEqual. rewrite Hi. apply ipap_eqb_refl. Qed.

Lemma body_type_range b : (0 <= body_type b < 2 ^ 12)%Z.
Proof. destruct b; split; vm_compute; congruence. Qed.
End Objects.
#[export] Hint Resolve body_type_range : anslp.
#[export] Hint Rewrite @treatment_roundtrip : anslp_rw.
