(* ===== verification/Store.v ===== *)
(** * The object store of a message: include/msg/ie_object_key.h and
    src/msg/ie_store.cpp

    An [ie_store] is a [std::map] from [ie_object_key] to objects.  The key's
    [operator<] compares the 32-bit sums of its two fields, so keys that
    [operator==] tells apart can be the same entry; the first section says
    when they are, the second one is the store. *)
From S2P Require Import Prelude Outcome StdMap External Objects.

Record ie_object_key := mk_key { key_object_type : Z; seq_nbr : Z }.

#[export] Instance ie_object_key_eq_dec : EqDecision ie_object_key.
Proof. solve_decision. Defined.

(** [operator==]. *)
Definition ie_object_key_eqb (a b : ie_object_key) : bool :=
  (key_object_type a =? key_object_type b)%Z && (seq_nbr a =? seq_nbr b)%Z.

(** The sum [operator<] compares, in [uint32] arithmetic. *)
Definition key_sum (k : ie_object_key) : Z := u32 (key_object_type k + seq_nbr k).

(** [operator<]. *)
Definition ie_object_key_ltb (a b : ie_object_key) : bool := (key_sum a <? key_sum b)%Z.

#[export] Instance ie_object_key_swo : StrictWeakOrder ie_object_key_ltb := swo_by_image key_sum.

(** The keys [anslp_msg::set_object] produces: sequence number 1 for the five
    unique object types, 1, 2, 3, ... for IPAP messages. *)
Definition store_key (k : ie_object_key) : Prop :=
  (OT_information_code <= key_object_type k < OT_ipap_message /\ seq_nbr k = 1)%Z
  \/ (key_object_type k = OT_ipap_message /\ 1 <= seq_nbr k < 2 ^ 32 - OT_ipap_message)%Z.

(** On those keys the order of the map tells every two keys apart. *)
Lemma store_key_sum_inj a b : store_key a -> store_key b -> key_sum a = key_sum b -> a = b.
Proof.
  unfold store_key, key_sum, OT_information_code, OT_ipap_message.
  destruct a as [t s], b as [t' s']; cbn. intros Ha Hb.
  rewrite !u32_small by (unfold is_u32; lia). intros. f_equal; lia.
Qed.

Lemma store_key_equiv a b :
  store_key a -> store_key b -> key_equiv ie_object_key_ltb a b = ie_object_key_eqb a b.
Proof.
  intros Ha Hb. apply eq_bool_prop_intro. unfold ie_object_key_eqb.
  rewrite !Is_true_true, key_equiv_spec, andb_true_iff, !Z.eqb_eq.
  unfold ie_object_key_ltb. rewrite !Z.ltb_ge. split.
  - intros [H1 H2]. assert (a = b) as -> by (apply store_key_sum_inj; [done..|lia]). done.
  - destruct a, b; cbn. intros [-> ->]. lia.
Qed.

(** Outside of them it does not: a second information code would replace the
    selection of auctioning entities. *)
Example key_collision :
  ie_object_key_eqb (mk_key OT_information_code 2) (mk_key OT_selection_auctioning_entities 1) = false
  /\ key_equiv ie_object_key_ltb (mk_key OT_information_code 2)
       (mk_key OT_selection_auctioning_entities 1) = true.
Proof. by vm_compute. Qed.

Section Store.
Context `{Libs}.

Definition ie_store : Type := list (ie_object_key * anslp_object).

Definition store_empty : ie_store := [].

(** [ie_store::get]. *)
Definition store_get (id : ie_object_key) (s : ie_store) : option anslp_object :=
  map_find ie_object_key_ltb id s.

(** [ie_store::set]: a null object is ignored. *)
Definition store_set (id : ie_object_key) (o : option anslp_object) (s : ie_store) : ie_store :=
  match o with
  | None => s
  | Some o => map_set ie_object_key_ltb id o s
  end.

(** [ie_store::remove]: the removed object and the store without it. *)
Definition store_remove (id : ie_object_key) (s : ie_store) : option anslp_object * ie_store :=
  (store_get id s, map_erase ie_object_key_ltb id s).

(** The copy constructor: every object copied under its own key. *)
Definition store_copy (s : ie_store) : ie_store :=
  fold_left (fun t kv => store_set (fst kv) (Some (object_copy (snd kv))) t) s store_empty.

Definition store_size (s : ie_store) : nat := length s.

(** [ie_store::operator==]. *)
Definition store_eqb (a b : ie_store) : bool :=
  if negb (store_size a =? store_size b)%nat then false
  else forallb (fun kv => match store_get (fst kv) b with
                          | None => false
                          | Some o => object_eqb (snd kv) o
                          end) a.

(** [ie_store::getMaxSequence]. *)
Definition getMaxSequence (id : Z) (s : ie_store) : Z :=
  fold_left (fun result kv =>
               if (key_object_type (fst kv) =? id)%Z then
                 if (result <=? seq_nbr (fst kv))%Z then seq_nbr (fst kv) else result
               else result) s 0%Z.

(** ** Laws of the store. *)
Lemma store_get_set id o s : store_get id (store_set id (Some o) s) = Some o.
Proof. apply map_find_set_eq. Qed.

Lemma store_get_set_ne id id' o s :
  store_key id -> store_key id' -> id <> id' ->
  store_get id' (store_set id o s) = store_get id' s.
Proof.
  intros Hk Hk' Hne. destruct o; [|done]. apply map_find_set_ne.
  rewrite store_key_equiv by done. unfold ie_object_key_eqb.
  apply not_true_is_false. rewrite andb_true_iff, !Z.eqb_eq. destruct id, id'; naive_solver.
Qed.

Lemma store_copy_id s :
  map_sorted ie_object_key_ltb s -> Forall (fun kv => object_wf (snd kv)) s -> store_copy s = s.
Proof.
  intros Hs Hwf. rewrite <- (map_of_entries_sorted s Hs) at 2.
  unfold store_copy, map_of_entries, store_empty.
  generalize (@nil (ie_object_key * anslp_object)). clear Hs.
  induction Hwf as [|[k o] s Ho Hs IH]; intros acc; cbn; [done|].
  rewrite object_copy_wf by done. apply IH.
Qed.

Lemma store_eqb_refl `{!LibsLaws} s : map_sorted ie_object_key_ltb s -> store_eqb s s = true.
Proof.
  intros Hs. unfold store_eqb, store_size. rewrite Nat.eqb_refl. cbn.
  apply List.forallb_forall. intros [k o] Hin%list_elem_of_In.
  assert (store_get k s = Some o) as Hget.
  { clear -Hs Hin. induction s as [|[k' o'] s IH]; cbn in *; [by apply not_elem_of_nil in Hin|].
    destruct Hs as [Hall Hs]. apply elem_of_cons in Hin as [Heq|Hin].
    - simplify_eq. by rewrite key_equiv_refl.
    - assert (ie_object_key_ltb k' k = true) as E.
      { rewrite Forall_forall in Hall. by apply (Hall (k, o)). }
      unfold key_equiv. rewrite E, andb_false_r. auto. }
  cbn. rewrite Hget. by rewrite object_eqb_refl.
Qed.
End Store.
#[export] Hint Resolve store_get_set : anslp.
