(* ===== verification/Messages.v ===== *)
(** * The A-NSLP messages: src/msg/anslp_msg.cpp, anslp_create.cpp,
    anslp_response.cpp, anslp_refresh.cpp, anslp_notify.cpp,
    anslp_bidding.cpp

    A message is its type octet, its class (what a [dynamic_cast] finds) and
    its object store.  The first section has the operations, the second one
    the abstract message - one optional value per unique object type and the
    list of IPAP messages - that the store operations refine. *)
From S2P Require Import Prelude Outcome StdMap External Objects Store.

Inductive msg_class := C_create | C_response | C_refresh | C_notify | C_bidding.

#[export] Instance msg_class_eq_dec : EqDecision msg_class.
Proof. solve_decision. Defined.

(** [MSG_TYPE] of each subclass. *)
Definition MSG_TYPE (c : msg_class) : Z :=
  match c with C_create => 1 | C_response => 2 | C_notify => 3 | C_refresh => 5 | C_bidding => 6 end.

Section Messages.
Context `{Libs}.

Record anslp_msg := mk_msg { msg_cls : msg_class; msg_type : Z; objects : ie_store }.

(** The constructors: no objects yet. *)
Definition new_msg (c : msg_class) : anslp_msg := mk_msg c (MSG_TYPE c) store_empty.
Definition new_anslp_create : anslp_msg := new_msg C_create.
Definition new_anslp_response : anslp_msg := new_msg C_response.
Definition new_anslp_refresh : anslp_msg := new_msg C_refresh.
Definition new_anslp_notify : anslp_msg := new_msg C_notify.
Definition new_anslp_bidding : anslp_msg := new_msg C_bidding.

(** The copy constructor. *)
Definition msg_copy (m : anslp_msg) : anslp_msg :=
  mk_msg (msg_cls m) (msg_type m) (store_copy (objects m)).

Definition get_num_objects (m : anslp_msg) : nat := store_size (objects m).

Definition get_object (k : ie_object_key) (m : anslp_msg) : option anslp_object :=
  store_get k (objects m).

Definition with_objects (s : ie_store) (m : anslp_msg) : anslp_msg :=
  mk_msg (msg_cls m) (msg_type m) s.

(** [anslp_msg::set_object]: sequence number 1 for a unique object, the next
    free one of its type otherwise. *)
Definition set_object (o : anslp_object) (m : anslp_msg) : anslp_msg :=
  if unique o then with_objects (store_set (mk_key (object_type o) 1) (Some o) (objects m)) m
  else
    let sequence := u32 (getMaxSequence (object_type o) (objects m) + 1) in
    with_objects (store_set (mk_key (object_type o) sequence) (Some o) (objects m)) m.

Definition remove_object (k : ie_object_key) (m : anslp_msg) : option anslp_object * anslp_msg :=
  let '(o, s) := store_remove k (objects m) in (o, with_objects s m).

Definition msg_eqb (a b : anslp_msg) : bool :=
  if negb (msg_type a =? msg_type b)%Z then false else store_eqb (objects a) (objects b).

(** [dynamic_cast] of an object to the subclass with the wanted value. *)
Definition as_session_lifetime (o : option anslp_object) : option Z :=
  match o with Some o => match body o with Session_lifetime v => Some v | _ => None end
             | None => None end.
Definition as_msg_sequence_number (o : option anslp_object) : option Z :=
  match o with Some o => match body o with Msg_sequence_number v => Some v | _ => None end
             | None => None end.
Definition as_message_hop_count (o : option anslp_object) : option Z :=
  match o with Some o => match body o with Message_hop_count v => Some v | _ => None end
             | None => None end.
Definition as_selection_auctioning_entities (o : option anslp_object) : option Z :=
  match o with
  | Some o => match body o with Selection_auctioning_entities v => Some v | _ => None end
  | None => None end.
Definition as_information_code (o : option anslp_object) : option (Z * Z * Z) :=
  match o with Some o => match body o with Information_code s c t => Some (s, c, t) | _ => None end
             | None => None end.

Definition key_msn := mk_key OT_msg_sequence_number 1.
Definition key_slf := mk_key OT_session_lifetime 1.
Definition key_sme := mk_key OT_selection_auctioning_entities 1.
Definition key_mhc := mk_key OT_message_hop_count 1.
Definition key_inf := mk_key OT_information_code 1.

(** [anslp_msg::get_msg_sequence_number] asserts that there is one. *)
Definition has_msg_sequence_number (m : anslp_msg) : bool :=
  match as_msg_sequence_number (get_object key_msn m) with Some _ => true | None => false end.

Definition msg_get_msg_sequence_number (m : anslp_msg) : outcome Z :=
  match as_msg_sequence_number (get_object key_msn m) with
  | Some v => Normal v
  | None => Faulted Assertion_failed
  end.

(** The getters of the subclasses return 0 when the object is absent. *)
Definition value_or_zero (o : option Z) : Z := match o with Some v => v | None => 0 end.

(** *** anslp_create. *)
Definition create_set_session_lifetime (ms : Z) (m : anslp_msg) : anslp_msg :=
  set_object (new_session_lifetime ms tr_mandatory true) m.
Definition create_get_session_lifetime (m : anslp_msg) : Z :=
  value_or_zero (as_session_lifetime (get_object key_slf m)).
Definition create_set_msg_sequence_number (msn : Z) (m : anslp_msg) : anslp_msg :=
  set_object (new_msg_sequence_number msn tr_mandatory true) m.
Definition create_get_msg_sequence_number (m : anslp_msg) : Z :=
  value_or_zero (as_msg_sequence_number (get_object key_msn m)).
Definition create_set_selection_auctioning_entities (v : Z) (m : anslp_msg) : anslp_msg :=
  set_object (new_selection_auctioning_entities v tr_mandatory true) m.
Definition create_get_selection_auctioning_entities (m : anslp_msg) : Z :=
  value_or_zero (as_selection_auctioning_entities (get_object key_sme m)).
Definition create_set_message_hop_count (v : Z) (m : anslp_msg) : anslp_msg :=
  set_object (new_message_hop_count v tr_mandatory true) m.
Definition create_get_message_hop_count (m : anslp_msg) : Z :=
  value_or_zero (as_message_hop_count (get_object key_mhc m)).
Definition create_set_mspec_object (o : anslp_object) (m : anslp_msg) : anslp_msg := set_object o m.

(** [anslp_create::check]: the four header objects are there. *)
Definition has_type (t : Z) (m : anslp_msg) : bool :=
  existsb (fun kv => (key_object_type (fst kv) =? t)%Z) (objects m).

Definition create_check (m : anslp_msg) : bool :=
  has_type OT_msg_sequence_number m && has_type OT_selection_auctioning_entities m
  && has_type OT_session_lifetime m && has_type OT_message_hop_count m.

(** The loop of the [get_mspec_objects] functions: every object whose key
    type is not among [skip] is cast and copied.  A failed cast is a null
    pointer the copy dereferences. *)
Definition collect_mspec (skip : list Z) (s : ie_store) : outcome (list anslp_object) :=
  mapO (fun kv => obind (of_pointer (as_mspec_object (snd kv))) (fun o => Normal (object_copy o)))
       (List.filter (fun kv => negb (existsb (Z.eqb (key_object_type (fst kv))) skip)) s).

Definition create_get_mspec_objects (m : anslp_msg) : outcome (list anslp_object) :=
  collect_mspec [OT_message_hop_count; OT_message_hop_count; OT_selection_auctioning_entities;
                 OT_msg_sequence_number; OT_session_lifetime] (objects m).

(** *** anslp_response. *)
Definition response_set_session_lifetime (ms : Z) (m : anslp_msg) : anslp_msg :=
  set_object (new_session_lifetime ms tr_mandatory true) m.
Definition response_get_session_lifetime (m : anslp_msg) : Z :=
  value_or_zero (as_session_lifetime (get_object key_slf m)).
Definition response_set_msg_sequence_number (msn : Z) (m : anslp_msg) : anslp_msg :=
  set_object (new_msg_sequence_number msn tr_mandatory true) m.
Definition response_get_msg_sequence_number (m : anslp_msg) : Z :=
  value_or_zero (as_msg_sequence_number (get_object key_msn m)).
Definition response_set_information_code (severity code otype : Z) (m : anslp_msg) : anslp_msg :=
  set_object (new_information_code severity code otype tr_mandatory true) m.

(** [get_object_type] reads the type of the information code object itself. *)
Definition response_get_object_type (m : anslp_msg) : Z :=
  match as_information_code (get_object key_inf m), get_object key_inf m with
  | Some _, Some ic => object_type ic
  | _, _ => 0
  end.
Definition response_get_severity_class (m : anslp_msg) : Z :=
  match as_information_code (get_object key_inf m) with Some (s, _, _) => s | None => 0 end.
Definition response_get_response_code (m : anslp_msg) : Z :=
  match as_information_code (get_object key_inf m) with Some (_, c, _) => c | None => 0 end.
Definition response_get_response_object_type (m : anslp_msg) : Z :=
  match as_information_code (get_object key_inf m) with Some (_, _, t) => t | None => 0 end.

Definition response_is_success (m : anslp_msg) : bool :=
  match as_information_code (get_object key_inf m) with
  | Some (s, c, _) => information_code_is_success s c
  | None => false
  end.

Definition response_set_mspec_object (o : anslp_object) (m : anslp_msg) : anslp_msg := set_object o m.

(** [anslp_response::check]: no other objects than these. *)
Definition response_check (m : anslp_msg) : bool :=
  forallb (fun kv =>
    negb (negb (key_object_type (fst kv) =? OT_msg_sequence_number)%Z
          && negb (key_object_type (fst kv) =? OT_information_code)%Z
          && negb (key_object_type (fst kv) =? OT_session_lifetime)%Z
          && negb (key_object_type (fst kv) =? OT_ipap_message)%Z)) (objects m).

Definition response_get_mspec_objects (m : anslp_msg) : outcome (list anslp_object) :=
  collect_mspec [OT_information_code; OT_msg_sequence_number; OT_session_lifetime] (objects m).

(** *** anslp_refresh. *)
Definition refresh_set_session_lifetime (ms : Z) (m : anslp_msg) : anslp_msg :=
  set_object (new_session_lifetime ms tr_mandatory true) m.
Definition refresh_get_session_lifetime (m : anslp_msg) : Z :=
  value_or_zero (as_session_lifetime (get_object key_slf m)).
Definition refresh_set_msg_sequence_number (msn : Z) (m : anslp_msg) : anslp_msg :=
  set_object (new_msg_sequence_number msn tr_mandatory true) m.
Definition refresh_get_msg_sequence_number (m : anslp_msg) : Z :=
  value_or_zero (as_msg_sequence_number (get_object key_msn m)).

Definition is_some {A} (o : option A) : bool := match o with Some _ => true | None => false end.

Definition refresh_check (m : anslp_msg) : bool :=
  if negb (get_num_objects m =? 2)%nat then false
  else if negb (is_some (get_object key_msn m)) then false
  else if negb (is_some (get_object key_slf m)) then false
  else true.

(** *** anslp_notify. *)
Definition notify_set_information_code (severity code otype : Z) (m : anslp_msg) : anslp_msg :=
  set_object (new_information_code severity code otype tr_mandatory true) m.
Definition notify_get_object_type (m : anslp_msg) : Z :=
  match as_information_code (get_object key_inf m), get_object key_inf m with
  | Some _, Some ic => object_type ic
  | _, _ => 0
  end.
Definition notify_get_severity_class (m : anslp_msg) : Z :=
  match as_information_code (get_object key_inf m) with Some (s, _, _) => s | None => 0 end.
Definition notify_get_response_code (m : anslp_msg) : Z :=
  match as_information_code (get_object key_inf m) with Some (_, c, _) => c | None => 0 end.
Definition notify_get_response_object_type (m : anslp_msg) : Z :=
  match as_information_code (get_object key_inf m) with Some (_, _, t) => t | None => 0 end.

Definition notify_check (m : anslp_msg) : bool :=
  if negb (is_some (get_object key_inf m)) then false
  else if negb (get_num_objects m =? 1)%nat then false else true.

(** *** anslp_bidding. *)
Definition bidding_set_msg_sequence_number (msn : Z) (m : anslp_msg) : anslp_msg :=
  set_object (new_msg_sequence_number msn tr_mandatory true) m.
Definition bidding_get_msg_sequence_number (m : anslp_msg) : Z :=
  value_or_zero (as_msg_sequence_number (get_object key_msn m)).
Definition bidding_set_mspec_object (o : anslp_object) (m : anslp_msg) : anslp_msg := set_object o m.
Definition bidding_check (m : anslp_msg) : bool :=
  has_type OT_msg_sequence_number m && has_type OT_ipap_message m.
Definition bidding_get_mspec_objects (m : anslp_msg) : outcome (list anslp_object) :=
  collect_mspec [OT_message_hop_count; OT_message_hop_count; OT_selection_auctioning_entities;
                 OT_msg_sequence_number; OT_session_lifetime] (objects m).

(** The virtual [check] and [get_msg_sequence_number]. *)
Definition msg_check (m : anslp_msg) : bool :=
  match msg_cls m with
  | C_create => create_check m
  | C_response => response_check m
  | C_refresh => refresh_check m
  | C_notify => notify_check m
  | C_bidding => bidding_check m
  end.

(** [anslp_notify] inherits the asserting getter, the others override it. *)
Definition get_msg_sequence_number (m : anslp_msg) : outcome Z :=
  match msg_cls m with
  | C_notify => msg_get_msg_sequence_number m
  | C_create => Normal (create_get_msg_sequence_number m)
  | C_response => Normal (response_get_msg_sequence_number m)
  | C_refresh => Normal (refresh_get_msg_sequence_number m)
  | C_bidding => Normal (bidding_get_msg_sequence_number m)
  end.

(** [is_response_to] of a CREATE and of a REFRESH. *)
Definition is_response_to_create (r m : anslp_msg) : bool :=
  (response_get_msg_sequence_number r =? create_get_msg_sequence_number m)%Z.
Definition is_response_to_refresh (r m : anslp_msg) : bool :=
  (response_get_msg_sequence_number r =? refresh_get_msg_sequence_number m)%Z.
End Messages.

(** ** The abstract message.

    What the store of a message built by [set_object] amounts to: one optional
    object per unique type, and the sequence of IPAP messages in the order of
    their insertion. *)
Section View.
Context `{Libs}.

Record view := mk_view {
  v_inf : option anslp_object;
  v_sme : option anslp_object;
  v_mhc : option anslp_object;
  v_msn : option anslp_object;
  v_slf : option anslp_object;
  v_ipap : list anslp_object }.

Definition view_empty : view := mk_view None None None None None [].

Fixpoint ipap_entries (n : Z) (l : list anslp_object) : ie_store :=
  match l with
  | [] => []
  | o :: l' => (mk_key OT_ipap_message n, o) :: ipap_entries (n + 1) l'
  end.

Definition slot (k : ie_object_key) (o : option anslp_object) : ie_store :=
  match o with Some o => [(k, o)] | None => [] end.

Definition slots (v : view) : ie_store :=
  slot key_inf (v_inf v) ++ slot key_sme (v_sme v) ++ slot key_mhc (v_mhc v)
  ++ slot key_msn (v_msn v) ++ slot key_slf (v_slf v).

Definition store_of_view (v : view) : ie_store := slots v ++ ipap_entries 1 (v_ipap v).

Definition slot_wf (t : Z) (o : option anslp_object) : Prop :=
  match o with Some o => object_wf o /\ object_type o = t | None => True end.

Definition view_wf (v : view) : Prop :=
  slot_wf OT_information_code (v_inf v) /\ slot_wf OT_selection_auctioning_entities (v_sme v)
  /\ slot_wf OT_message_hop_count (v_mhc v) /\ slot_wf OT_msg_sequence_number (v_msn v)
  /\ slot_wf OT_session_lifetime (v_slf v)
  /\ Forall (fun o => object_wf o /\ object_type o = OT_ipap_message) (v_ipap v)
  /\ (Z.of_nat (length (v_ipap v)) < 2 ^ 32 - OT_ipap_message)%Z.

(** Adding an object to the abstract message. *)
Definition view_set (o : anslp_object) (v : view) : view :=
  match body o with
  | Information_code _ _ _ => mk_view (Some o) (v_sme v) (v_mhc v) (v_msn v) (v_slf v) (v_ipap v)
  | Selection_auctioning_entities _ =>
      mk_view (v_inf v) (Some o) (v_mhc v) (v_msn v) (v_slf v) (v_ipap v)
  | Message_hop_count _ => mk_view (v_inf v) (v_sme v) (Some o) (v_msn v) (v_slf v) (v_ipap v)
  | Msg_sequence_number _ => mk_view (v_inf v) (v_sme v) (v_mhc v) (Some o) (v_slf v) (v_ipap v)
  | Session_lifetime _ => mk_view (v_inf v) (v_sme v) (v_mhc v) (v_msn v) (Some o) (v_ipap v)
  | Ipap_message _ => mk_view (v_inf v) (v_sme v) (v_mhc v) (v_msn v) (v_slf v) (v_ipap v ++ [o])
  end.

(** A message whose store is a well-formed abstract message. *)
Definition msg_view (m : anslp_msg) (v : view) : Prop :=
  view_wf v /\ objects m = store_of_view v /\ msg_type m = MSG_TYPE (msg_cls m).

Lemma key_ltb_sum a b : ie_object_key_ltb a b = true <-> (key_sum a < key_sum b)%Z.
Proof. apply Z.ltb_lt. Qed.

Lemma ipap_entries_bound n l :
  (1 <= n)%Z -> (n + Z.of_nat (length l) <= 2 ^ 32 - OT_ipap_message)%Z ->
  Forall (fun kv => (OT_ipap_message + n <= key_sum (fst kv)
                     < OT_ipap_message + n + Z.of_nat (length l))%Z) (ipap_entries n l).
Proof.
  revert n. induction l as [|o l IH]; cbn [ipap_entries length]; intros n Hn Hl; constructor.
  - cbn. unfold key_sum; cbn. unfold OT_ipap_message in *.
    rewrite u32_small by (unfold is_u32; lia). lia.
  - eapply Forall_impl; [apply IH; lia|]. cbn. intros; lia.
Qed.

Lemma ipap_entries_sorted n l :
  (1 <= n)%Z -> (n + Z.of_nat (length l) <= 2 ^ 32 - OT_ipap_message)%Z ->
  map_sorted ie_object_key_ltb (ipap_entries n l).
Proof.
  revert n. induction l as [|o l IH]; cbn [ipap_entries length map_sorted]; intros n Hn Hl; [done|].
  split; [|apply IH; lia].
  eapply Forall_impl; [apply ipap_entries_bound; lia|]. cbn. intros kv Hkv.
  apply key_ltb_sum. unfold key_sum at 1; cbn. unfold OT_ipap_message in *.
  rewrite u32_small by (unfold is_u32; lia). lia.
Qed.

(** The keys of the slots come before every IPAP key. *)
Lemma slot_key_lt k l :
  (key_sum k <= OT_ipap_message)%Z -> (Z.of_nat (length l) < 2 ^ 32 - OT_ipap_message)%Z ->
  Forall (fun kv => ie_object_key_ltb k (fst kv) = true) (ipap_entries 1 l).
Proof.
  intros Hk Hl. eapply Forall_impl; [apply ipap_entries_bound; lia|].
  cbn. intros kv Hkv. apply key_ltb_sum. lia.
Qed.

Lemma slots_bound v : Forall (fun kv => (key_sum (fst kv) <= OT_ipap_message)%Z) (slots v).
Proof.
  unfold slots. rewrite !Forall_app.
  destruct (v_inf v), (v_sme v), (v_mhc v), (v_msn v), (v_slf v); cbn [slot];
    repeat (split || apply Forall_cons_2 || apply Forall_nil_2); vm_compute; congruence.
Qed.
End View.

(** Evaluate comparisons of constant keys. *)
Ltac eval_keys :=
  repeat match goal with
  | |- context [key_equiv ie_object_key_ltb ?a ?b] =>
      let t := constr:(key_equiv ie_object_key_ltb a b) in
      let r := eval vm_compute in t in
      lazymatch r with true => idtac | false => idtac end; change t with r; cbn iota
  | |- context [ie_object_key_ltb ?a ?b] =>
      let t := constr:(ie_object_key_ltb a b) in
      let r := eval vm_compute in t in
      lazymatch r with true => idtac | false => idtac end; change t with r; cbn iota
  end.

Section ViewLaws.
Context `{Libs}.

(** Case split on which of the five unique objects a view has. *)
Ltac split_slots v :=
  destruct v as [[?|] [?|] [?|] [?|] [?|] ?]; cbn [slots slot v_inf v_sme v_mhc v_msn v_slf v_ipap
    store_of_view app].

Lemma store_of_view_sorted v :
  (Z.of_nat (length (v_ipap v)) < 2 ^ 32 - OT_ipap_message)%Z ->
  map_sorted ie_object_key_ltb (store_of_view v).
Proof.
  intros Hl. apply map_sorted_app; [|apply ipap_entries_sorted; lia|].
  - split_slots v; unfold slots; cbn [slot v_inf v_sme v_mhc v_msn v_slf app map_sorted];
      repeat (split || apply Forall_cons_2 || apply Forall_nil_2); cbn; by vm_compute.
  - eapply Forall_impl; [apply slots_bound|]. intros kv Hkv.
    by apply slot_key_lt.
Qed.

Lemma view_wf_length v :
  view_wf v -> (Z.of_nat (length (v_ipap v)) < 2 ^ 32 - OT_ipap_message)%Z.
Proof. unfold view_wf. naive_solver. Qed.

Lemma store_of_view_objects v : view_wf v -> Forall (fun kv => object_wf (snd kv)) (store_of_view v).
Proof.
  intros (H1 & H2 & H3 & H4 & H5 & H6 & _). unfold store_of_view, slots.
  rewrite !Forall_app. repeat split;
    try match goal with |- Forall _ (slot _ ?o) => destruct o; cbn in *; constructor; naive_solver end.
  generalize 1%Z. induction H6 as [|o l Ho Hl IH]; intros n; constructor; [naive_solver|apply IH].
Qed.

(** A copied message is the message. *)
Lemma msg_copy_view m v : msg_view m v -> msg_copy m = m.
Proof.
  intros (Hv & Ho & Ht). destruct m as [c t s]; unfold msg_copy; cbn [msg_cls msg_type objects] in *. subst s.
  rewrite store_copy_id; [done| |by apply store_of_view_objects].
  apply store_of_view_sorted. by apply view_wf_length.
Qed.

(** Reading the five slots. *)
Lemma get_ipap_slot k l :
  (key_sum k <= OT_ipap_message)%Z -> (Z.of_nat (length l) < 2 ^ 32 - OT_ipap_message)%Z ->
  map_find ie_object_key_ltb k (ipap_entries 1 l) = None.
Proof. intros. apply map_find_lt. by apply slot_key_lt. Qed.

Lemma store_get_slots v :
  view_wf v ->
  store_get key_inf (store_of_view v) = v_inf v
  /\ store_get key_sme (store_of_view v) = v_sme v
  /\ store_get key_mhc (store_of_view v) = v_mhc v
  /\ store_get key_msn (store_of_view v) = v_msn v
  /\ store_get key_slf (store_of_view v) = v_slf v.
Proof.
  intros Hv%view_wf_length. unfold store_get, store_of_view.
  assert (Hk : forall k, (key_sum k <= OT_ipap_message)%Z ->
            map_find ie_object_key_ltb k (ipap_entries 1 (v_ipap v)) = None).
  { intros k Hk. by apply get_ipap_slot. }
  assert (key_sum key_inf <= OT_ipap_message /\ key_sum key_sme <= OT_ipap_message
          /\ key_sum key_mhc <= OT_ipap_message /\ key_sum key_msn <= OT_ipap_message
          /\ key_sum key_slf <= OT_ipap_message)%Z
    as (H1 & H2 & H3 & H4 & H5) by (vm_compute; repeat split; congruence).
  apply Hk in H1, H2, H3, H4, H5. clear Hk Hv.
  split_slots v; unfold slots; cbn [slot v_inf v_sme v_mhc v_msn v_slf v_ipap app map_find] in *;
    eval_keys; done.
Qed.

(** Reading the IPAP messages by their sequence number. *)
Lemma store_get_ipap v i :
  view_wf v -> (1 <= i < 2 ^ 32 - OT_ipap_message)%Z ->
  store_get (mk_key OT_ipap_message i) (store_of_view v) = v_ipap v !! Z.to_nat (i - 1).
Proof.
  intros Hv%view_wf_length Hi. unfold store_get, store_of_view.
  assert (Hs : forall j, (0 <= j < 2 ^ 32 - OT_ipap_message)%Z ->
                key_sum (mk_key OT_ipap_message j) = (OT_ipap_message + j)%Z).
  { intros j Hj. unfold key_sum; cbn. unfold OT_ipap_message in *. apply u32_small. unfold is_u32. lia. }
  rewrite map_find_app_gt.
  2: { eapply Forall_impl; [apply slots_bound|]. intros kv Hkv. apply key_ltb_sum.
       rewrite Hs by lia. cbn in *. lia. }
  revert Hv. generalize (v_ipap v). intros l.
  enough (forall n, (1 <= n <= i)%Z -> (n + Z.of_nat (length l) <= 2 ^ 32 - OT_ipap_message)%Z ->
    map_find ie_object_key_ltb (mk_key OT_ipap_message i) (ipap_entries n l) = l !! Z.to_nat (i - n)) as Hg.
  { intros. apply Hg; lia. }
  induction l as [|o l IH]; cbn [ipap_entries map_find length]; intros n Hn Hl; [done|].
  unfold key_equiv, ie_object_key_ltb. rewrite !Hs by lia.
  destruct (decide (n = i)) as [->|Hne].
  - rewrite Z.ltb_irrefl, Z.sub_diag. done.
  - replace (OT_ipap_message + n <? OT_ipap_message + i)%Z with true by (symmetry; apply Z.ltb_lt; lia).
    rewrite andb_false_r. rewrite IH by lia.
    replace (Z.to_nat (i - n)) with (S (Z.to_nat (i - (n + 1)))) by lia. done.
Qed.

(** [getMaxSequence] counts the IPAP messages. *)
Lemma getMaxSequence_view v :
  view_wf v -> getMaxSequence OT_ipap_message (store_of_view v) = Z.of_nat (length (v_ipap v)).
Proof.
  intros _. unfold getMaxSequence, store_of_view. rewrite fold_left_app.
  assert (forall l n, (0 <= n)%Z ->
    fold_left (fun result (kv : ie_object_key * anslp_object) =>
                 if (key_object_type (fst kv) =? OT_ipap_message)%Z then
                   if (result <=? seq_nbr (fst kv))%Z then seq_nbr (fst kv) else result
                 else result) (ipap_entries (n + 1) l) n = (n + Z.of_nat (length l))%Z) as Hi.
  { induction l as [|o l IH]; cbn [ipap_entries fold_left length fst key_object_type seq_nbr];
      intros n Hn; [cbn; lia|].
    rewrite Z.eqb_refl. replace (n <=? n + 1)%Z with true by (symmetry; apply Z.leb_le; lia).
    rewrite IH by lia. lia. }
  split_slots v; unfold slots; cbn [slot v_inf v_sme v_mhc v_msn v_slf v_ipap app fold_left fst
    key_object_type key_inf key_sme key_mhc key_msn key_slf Z.eqb Pos.eqb
    OT_information_code OT_selection_auctioning_entities OT_message_hop_count
    OT_msg_sequence_number OT_session_lifetime OT_ipap_message]; apply (Hi _ 0%Z); lia.
Qed.
End ViewLaws.

Section Refinement.
Context `{Libs}.

(** Writing a unique object into its slot. *)
Lemma store_set_slot v o :
  view_wf v -> object_wf o -> unique o = true ->
  store_set (mk_key (object_type o) 1) (Some o) (store_of_view v) = store_of_view (view_set o v).
Proof.
  intros Hv%view_wf_length (Ht & Hu & Hb) Hun.
  assert (Hk : forall k, (key_sum k <= OT_ipap_message)%Z ->
            map_set ie_object_key_ltb k o (ipap_entries 1 (v_ipap v)) = (k, o) :: ipap_entries 1 (v_ipap v)).
  { intros k Hk. apply map_set_lt. by apply slot_key_lt. }
  assert (key_sum key_inf <= OT_ipap_message /\ key_sum key_sme <= OT_ipap_message
          /\ key_sum key_mhc <= OT_ipap_message /\ key_sum key_msn <= OT_ipap_message
          /\ key_sum key_slf <= OT_ipap_message)%Z
    as (H1 & H2 & H3 & H4 & H5) by (vm_compute; repeat split; congruence).
  apply Hk in H1, H2, H3, H4, H5. clear Hk Hv Hb.
  rewrite Ht. unfold store_set, store_of_view, view_set.
  destruct (body o) eqn:Eb; cbn [body_type body_unique] in *; try congruence;
    fold key_inf key_sme key_mhc key_msn key_slf;
    destruct v as [[?|] [?|] [?|] [?|] [?|] ?]; unfold slots;
    cbn [slot v_inf v_sme v_mhc v_msn v_slf v_ipap app map_set] in *; eval_keys;
    rewrite ?H1, ?H2, ?H3, ?H4, ?H5; done.
Qed.

(** Appending an IPAP message. *)
Lemma store_set_ipap v o :
  view_wf v -> (Z.of_nat (length (v_ipap v)) + 1 < 2 ^ 32 - OT_ipap_message)%Z ->
  store_set (mk_key OT_ipap_message (Z.of_nat (length (v_ipap v)) + 1)) (Some o) (store_of_view v)
  = store_of_view (mk_view (v_inf v) (v_sme v) (v_mhc v) (v_msn v) (v_slf v) (v_ipap v ++ [o])).
Proof.
  intros Hv Hl. set (n := (Z.of_nat (length (v_ipap v)) + 1)%Z).
  assert (Hs : key_sum (mk_key OT_ipap_message n) = (OT_ipap_message + n)%Z).
  { unfold key_sum; cbn. unfold OT_ipap_message, n in *. apply u32_small. unfold is_u32. lia. }
  unfold store_set. rewrite map_set_snoc.
  - unfold store_of_view, slots; cbn [v_inf v_sme v_mhc v_msn v_slf v_ipap].
    rewrite <- !app_assoc. do 5 f_equal.
    unfold n. clear. replace (Z.of_nat (length (v_ipap v)) + 1)%Z
      with (1 + Z.of_nat (length (v_ipap v)))%Z by lia.
    generalize 1%Z. induction (v_ipap v) as [|x l IH]; intros z; cbn [ipap_entries app length].
    + by rewrite Z.add_0_r.
    + f_equal. rewrite <- IH. do 4 f_equal. lia.
  - apply Forall_app. split.
    + eapply Forall_impl; [apply slots_bound|]. cbn beta. intros kv Hkv.
      apply key_ltb_sum. rewrite Hs. unfold n. lia.
    + eapply Forall_impl; [apply ipap_entries_bound; lia|]. cbn beta. intros kv Hkv.
      apply key_ltb_sum. rewrite Hs. unfold n. lia.
Qed.

Definition room_for (o : anslp_object) (v : view) : Prop :=
  unique o = false -> (Z.of_nat (length (v_ipap v)) + 1 < 2 ^ 32 - OT_ipap_message)%Z.

Lemma view_set_wf o v : view_wf v -> object_wf o -> room_for o v -> view_wf (view_set o v).
Proof.
  unfold view_wf, view_set, room_for, object_wf. intros (H1 & H2 & H3 & H4 & H5 & H6 & H7) Ho Hr.
  destruct (body o) eqn:E; cbn in *; unfold object_wf; rewrite ?E; cbn; try tauto.
  rewrite Forall_app, length_app. cbn [length]. split_and!; try tauto.
  - constructor; [|done]. rewrite E. cbn. tauto.
  - destruct Ho as (_ & Hu & _). specialize (Hr Hu). lia.
Qed.

(** [set_object] refines the abstract addition. *)
Lemma set_object_view m v o :
  msg_view m v -> object_wf o -> room_for o v -> msg_view (set_object o m) (view_set o v).
Proof.
  intros (Hv & Ho & Ht) Hwf Hr. split; [by apply view_set_wf|]. unfold set_object.
  destruct (unique o) eqn:Hu; cbn [with_objects objects msg_type msg_cls]; (split; [|done]); rewrite Ho.
  - by apply store_set_slot.
  - pose proof Hwf as (Ht' & Hu' & _). rewrite Hu in Hu'. symmetry in Hu'.
    unfold view_set. destruct (body o) eqn:Eb; cbn in Hu'; try congruence.
    rewrite Ht'. cbn [body_type]. rewrite getMaxSequence_view by done.
    rewrite u32_small; [apply store_set_ipap; auto|].
    specialize (Hr Hu). unfold is_u32, OT_ipap_message in *. lia.
Qed.

Lemma new_msg_view c : msg_view (new_msg c) view_empty.
Proof. split; [|done]. unfold view_wf; cbn. by repeat constructor. Qed.

Lemma msg_view_get m v :
  msg_view m v ->
  get_object key_inf m = v_inf v /\ get_object key_sme m = v_sme v
  /\ get_object key_mhc m = v_mhc v /\ get_object key_msn m = v_msn v
  /\ get_object key_slf m = v_slf v.
Proof. intros (Hv & Ho & _). unfold get_object. rewrite Ho. by apply store_get_slots. Qed.

(** The MSPEC objects of a message, when it has no object the collecting
    loop trips over. *)
Lemma collect_mspec_ipap skip n l :
  existsb (Z.eqb OT_ipap_message) skip = false ->
  Forall (fun o => object_wf o /\ object_type o = OT_ipap_message) l ->
  collect_mspec skip (ipap_entries n l) = Normal l.
Proof.
  intros Hs Hl. revert n. unfold collect_mspec.
  induction Hl as [|o l [Hwf Ht] Hl IH]; intros n; cbn [ipap_entries List.filter]; [done|].
  cbn [fst key_object_type]. rewrite Hs. cbn [negb mapO snd].
  rewrite IH. pose proof Hwf as (Ht' & _). rewrite Ht in Ht'.
  destruct o as [t tr u b]; cbn in Ht'. destruct b; cbn in Ht'; try discriminate Ht'.
  unfold as_mspec_object; cbn [body of_pointer obind]. by rewrite object_copy_wf.
Qed.

Lemma collect_mspec_view skip v :
  view_wf v -> existsb (Z.eqb OT_ipap_message) skip = false ->
  Forall (fun kv => existsb (Z.eqb (key_object_type (fst kv))) skip = true) (slots v) ->
  collect_mspec skip (store_of_view v) = Normal (v_ipap v).
Proof.
  intros (_ & _ & _ & _ & _ & Hi & _) Hs Hk.
  rewrite <- (collect_mspec_ipap skip 1 (v_ipap v)) by done.
  unfold store_of_view, collect_mspec. f_equal.
  revert Hk. generalize (slots v). induction 1 as [|kv s Hkv Hs' IH]; [done|].
  cbn. by rewrite Hkv.
Qed.

Lemma create_get_mspec_view m v :
  msg_view m v -> v_inf v = None -> create_get_mspec_objects m = Normal (v_ipap v).
Proof.
  intros (Hv & Ho & _) Hi. unfold create_get_mspec_objects. rewrite Ho.
  apply collect_mspec_view; [done|done|]. destruct v as [? [?|] [?|] [?|] [?|] ?]; cbn in Hi; subst;
    unfold slots; cbn [slot v_inf v_sme v_mhc v_msn v_slf app]; by repeat constructor.
Qed.

Lemma response_get_mspec_view m v :
  msg_view m v -> v_sme v = None -> v_mhc v = None -> response_get_mspec_objects m = Normal (v_ipap v).
Proof.
  intros (Hv & Ho & _) Hi Hi'. unfold response_get_mspec_objects. rewrite Ho.
  apply collect_mspec_view; [done|done|]. destruct v as [[?|] ? ? [?|] [?|] ?]; cbn in Hi, Hi'; subst;
    unfold slots; cbn [slot v_inf v_sme v_mhc v_msn v_slf app]; by repeat constructor.
Qed.

(** The objects the loop of its class does not expect in a message: it passes
    over the header objects by their type, and dereferences the failed cast of
    any other. *)
Definition unexpected_objects (m : anslp_msg) : bool :=
  match msg_cls m with
  | C_create | C_bidding => is_some (get_object key_inf m)
  | C_response => is_some (get_object key_sme m) || is_some (get_object key_mhc m)
  | C_refresh | C_notify => false
  end.

Lemma collect_mspec_stray skip pre k o s :
  Forall (fun kv => existsb (Z.eqb (key_object_type (fst kv))) skip = true) pre ->
  existsb (Z.eqb (key_object_type k)) skip = false -> as_mspec_object o = None ->
  collect_mspec skip (pre ++ (k, o) :: s) = Faulted Null_dereference.
Proof.
  intros Hpre Hk Ho. unfold collect_mspec. induction Hpre as [|kv pre Hkv Hpre IH]; cbn.
  - rewrite Hk. cbn. by rewrite Ho.
  - by rewrite Hkv.
Qed.

Lemma slot_no_mspec t o : slot_wf t (Some o) -> t <> OT_ipap_message -> as_mspec_object o = None.
Proof. intros [(Ht & _) <-] Hne. unfold as_mspec_object. by destruct (body o); cbn in Ht. Qed.

Lemma create_get_mspec_unexpected m v o :
  msg_view m v -> v_inf v = Some o -> create_get_mspec_objects m = Faulted Null_dereference.
Proof.
  intros ((Hv & _) & Hs & _) Ho. unfold create_get_mspec_objects. rewrite Hs. unfold store_of_view, slots. rewrite Ho in *.
  apply (collect_mspec_stray _ [] key_inf); [constructor|done|by eapply slot_no_mspec].
Qed.

Lemma response_get_mspec_unexpected m v :
  msg_view m v -> is_some (v_sme v) || is_some (v_mhc v) = true ->
  response_get_mspec_objects m = Faulted Null_dereference.
Proof.
  intros ((_ & He & Hh & _) & Hs & _) Ho. unfold response_get_mspec_objects. rewrite Hs. unfold store_of_view, slots.
  rewrite <- !app_assoc. assert (Hpre : Forall (fun kv => existsb (Z.eqb (key_object_type (fst kv)))
    [OT_information_code; OT_msg_sequence_number; OT_session_lifetime] = true) (slot key_inf (v_inf v))).
  { destruct (v_inf v); repeat constructor. }
  destruct (v_sme v) as [o|]; [|destruct (v_mhc v) as [o|]; [|done]].
  - by apply (collect_mspec_stray _ _ key_sme); [| |eapply slot_no_mspec].
  - by apply (collect_mspec_stray _ _ key_mhc); [| |eapply slot_no_mspec].
Qed.

(** Adding a list of MSPEC objects. *)
Definition set_mspecs (l : list anslp_object) (m : anslp_msg) : anslp_msg :=
  fold_left (fun m o => set_object o m) l m.

Lemma set_mspecs_view l m v :
  msg_view m v -> Forall (fun o => object_wf o /\ object_type o = OT_ipap_message) l ->
  (Z.of_nat (length (v_ipap v) + length l) < 2 ^ 32 - OT_ipap_message)%Z ->
  msg_view (set_mspecs l m)
    (mk_view (v_inf v) (v_sme v) (v_mhc v) (v_msn v) (v_slf v) (v_ipap v ++ l)).
Proof.
  unfold set_mspecs. intros Hm Hl. revert m v Hm.
  induction Hl as [|o l [Hwf Ht] Hl IH]; intros m v Hm Hb; cbn [fold_left length] in *.
  - rewrite app_nil_r. by destruct v.
  - assert (Hbody : exists i, body o = Ipap_message i).
    { pose proof Hwf as (Ht' & _). rewrite Ht in Ht'.
      destruct (body o); cbn in Ht'; try discriminate Ht'. eauto. }
    destruct Hbody as [i Ei].
    assert (Hn : msg_view (set_object o m) (view_set o v)).
    { apply set_object_view; [done|done|]. intros _. lia. }
    apply IH in Hn.
    + unfold view_set in Hn. rewrite Ei in Hn. cbn in Hn. by rewrite <- app_assoc in Hn.
    + unfold view_set. rewrite Ei. cbn. rewrite length_app. cbn. lia.
Qed.
End Refinement.
#[export] Hint Resolve new_msg_view set_object_view view_set_wf : anslp.
