(* ===== verification/Codec.v ===== *)
(** * The wire format: serialize and deserialize of src/msg/anslp_object.cpp,
    the object classes and the message classes, and the registry of
    src/msg/anslp_ie.cpp

    Writing is a computation on a [NetMsg]; reading one on a [NetMsg] and the
    list of errors met so far.  The coding argument is whether the coding
    asked for is [protocol_v1], the only one the classes support. *)
From S2P Require Import Prelude Outcome StdMap External Objects Store Messages.

(** The errors put into an [IEErrorList]. *)
Inductive ie_error :=
  | IEMsgTooShort
  | PDUSyntaxError (object_type : Z)
  | Error_wrong_type
  | Error_wrong_subtype
  | Error_category
  | Coding_not_supported.

(** What the registry holds. *)
Inductive ie `{Libs} := IE_msg (m : anslp_msg) | IE_object (o : anslp_object).

Definition cat_anslp_msg : Z := 0.
Definition cat_anslp_object : Z := 1.
Definition cat_default_anslp_msg : Z := 2.
Definition cat_default_anslp_object : Z := 3.

(** The message header: the type octet and three reserved octets. *)
Definition HEADER_LENGTH : Z := 4.
Definition extract_msg_type (header_raw : Z) : Z := u8 (Z.shiftr header_raw 24).
Definition make_msg_header (mtype : Z) : Z := u32 (Z.shiftl mtype 24).

Section Serialize.
Context `{Libs} `{NetMsg} `{!ProtlibIE ie}.

(** A NetMsg call that may throw [NetMsgError]. *)
Definition netmsg_op (f : netmsg -> option netmsg) : M netmsg unit := fun m =>
  match f m with Some m' => (Normal tt, m') | None => (Raised Net_msg_error, m) end.

(** [catch (NetMsgError) { throw IEMsgTooShort(...); }]. *)
Definition too_short {A} (m : M netmsg A) : M netmsg A :=
  catch m (fun e => match e with
                    | Net_msg_error => raise (Ie_error "IEMsgTooShort")
                    | e => raise e
                    end).

(** [check_ser_args] throws when the element may not be written. *)
Definition check_ser_args (coding valid : bool) : M netmsg unit :=
  if ie_check_ser_args coding valid then ret tt else raise (Ie_error "check_ser_args").

Definition serialize_header (o : anslp_object) (body_length : Z) : M netmsg unit :=
  netmsg_op (nm_encode32 (make_header (treatment o) (object_type o) body_length)).

(** [anslp_ipap_message::serialize_body]: the exported buffer, then zero
    bytes up to a multiple of four.  Reading more bytes than the buffer has
    is out of bounds. *)
Definition ipap_serialize_body (i : ipap_message) : M netmsg unit :=
  m <- get ;;
  let start_pos := nm_pos m in
  let offset := Z.to_nat (ipap_get_offset i) in
  buf <- deref (ipap_get_message i) ;;
  if (length buf <? offset)%nat then trip Out_of_bounds
  else
    netmsg_op (nm_copy_from (take offset buf) start_pos) ;;;
    netmsg_op (nm_set_pos (start_pos + offset)) ;;;
    let num_padding := (offset mod 4)%nat in
    if (num_padding =? 0)%nat then ret tt
    else
      let num_padding := (4 - num_padding)%nat in
      m <- get ;;
      let start_pos2 := nm_pos m in
      netmsg_op (nm_copy_from (replicate num_padding 0%Z) start_pos2) ;;;
      netmsg_op (nm_set_pos (start_pos2 + num_padding)).

Definition information_code_serialize_body (severity code otype : Z) : M netmsg unit :=
  netmsg_op (nm_encode8 (Z.land severity 0xF)) ;;;
  netmsg_op (nm_encode8 code) ;;;
  netmsg_op (nm_encode16 (Z.land otype 0xFFFF)).

(** The virtual [serialize_body]. *)
Definition serialize_body (b : object_body) : M netmsg unit :=
  match b with
  | Session_lifetime v | Message_hop_count v | Selection_auctioning_entities v
  | Msg_sequence_number v => netmsg_op (nm_encode32 v)
  | Information_code s c t => information_code_serialize_body s c t
  | Ipap_message i => ipap_serialize_body i
  end.

(** [anslp_object::serialize], returning [bytes_written]. *)
Definition object_serialize (coding : bool) (o : anslp_object) : M netmsg Z :=
  m <- get ;;
  let start_pos := nm_pos m in
  check_ser_args coding (object_check o) ;;;
  let body_length := u16 (object_serialized_size o - OBJ_HEADER_LENGTH) in
  too_short (serialize_header o body_length) ;;;
  too_short (serialize_body (body o)) ;;;
  m <- get ;;
  ret (Z.of_nat (nm_pos m) - Z.of_nat start_pos)%Z.

(** [anslp_msg::serialize]: the header only. *)
Definition msg_serialize_header (coding : bool) (m : anslp_msg) : M netmsg Z :=
  check_ser_args coding (msg_check m) ;;;
  too_short (netmsg_op (nm_encode32 (make_msg_header (msg_type m)))) ;;;
  ret 4%Z.

(** [serialize_object] of the message classes: without the object the
    function ends without a return. *)
Definition serialize_object (coding : bool) (m : anslp_msg) (key : ie_object_key) : M netmsg Z :=
  match get_object key m with
  | Some o => object_serialize coding o
  | None => trip Missing_return
  end.

(** The keys in the order in which the class writes them. *)
Definition ipap_keys (m : anslp_msg) : list ie_object_key :=
  (fun i => mk_key OT_ipap_message i) <$> seqZ 1 (getMaxSequence OT_ipap_message (objects m)).

Fixpoint serialize_keys (coding : bool) (m : anslp_msg) (ks : list ie_object_key) (bytes_written : Z)
  : M netmsg Z :=
  match ks with
  | [] => ret bytes_written
  | k :: ks' =>
      n <- serialize_object coding m k ;;
      serialize_keys coding m ks' (u32 (bytes_written + n))
  end.

Definition create_serialize (coding : bool) (m : anslp_msg) : M netmsg Z :=
  if create_check m then
    n <- msg_serialize_header coding m ;;
    serialize_keys coding m ([key_msn; key_slf; key_sme; key_mhc] ++ ipap_keys m) n
  else raise (Ie_error "ERROR_OBJ_SET_FAILED").

Definition bidding_serialize (coding : bool) (m : anslp_msg) : M netmsg Z :=
  if bidding_check m then
    n <- msg_serialize_header coding m ;;
    serialize_keys coding m ([key_msn] ++ ipap_keys m) n
  else raise (Ie_error "ERROR_OBJ_SET_FAILED").

Definition response_serialize (coding : bool) (m : anslp_msg) : M netmsg Z :=
  n <- msg_serialize_header coding m ;;
  serialize_keys coding m ([key_msn; key_inf; key_slf] ++ ipap_keys m) n.

Definition refresh_serialize (coding : bool) (m : anslp_msg) : M netmsg Z :=
  n <- msg_serialize_header coding m ;;
  serialize_keys coding m [key_msn; key_slf] n.

Definition notify_serialize (coding : bool) (m : anslp_msg) : M netmsg Z :=
  n <- msg_serialize_header coding m ;;
  serialize_keys coding m [key_inf] n.

(** The virtual [serialize] and [get_serialized_size]. *)
Definition msg_serialize (coding : bool) (m : anslp_msg) : M netmsg Z :=
  match msg_cls m with
  | C_create => create_serialize coding m
  | C_response => response_serialize coding m
  | C_refresh => refresh_serialize coding m
  | C_notify => notify_serialize coding m
  | C_bidding => bidding_serialize coding m
  end.

Definition get_serialized_size (m : anslp_msg) : Z :=
  fold_left (fun size kv => (size + object_serialized_size (snd kv))%Z) (objects m) HEADER_LENGTH.
End Serialize.

Section Deserialize.
Context `{Libs} `{NetMsg} `{!ProtlibIE ie}.

(** Reading state: the buffer and the error list. *)
Definition RD : Type := netmsg * list ie_error.

Definition put_error (e : ie_error) : M RD unit := fun '(m, l) => (Normal tt, (m, l ++ [e])).
Definition rd_pos : M RD nat := fun '(m, l) => (Normal (nm_pos m), (m, l)).
Definition rd_left : M RD nat := fun '(m, l) => (Normal (nm_bytes_left m), (m, l)).

(** Reads that may throw [NetMsgError]. *)
Definition decode32 : M RD Z := fun '(m, l) =>
  match nm_decode32 m with
  | Some (v, m') => (Normal v, (m', l))
  | None => (Raised Net_msg_error, (m, l))
  end.
Definition peek32 : M RD Z := fun '(m, l) =>
  match nm_peek32 m with
  | Some v => (Normal v, (m, l))
  | None => (Raised Net_msg_error, (m, l))
  end.
Definition set_pos (p : nat) : M RD unit := fun '(m, l) =>
  match nm_set_pos p m with
  | Some m' => (Normal tt, (m', l))
  | None => (Raised Net_msg_error, (m, l))
  end.
Definition copy_to (p n : nat) : M RD (list Z) := fun '(m, l) =>
  match nm_copy_to m p n with
  | Some bytes => (Normal bytes, (m, l))
  | None => (Raised Net_msg_error, (m, l))
  end.

(** [try { decode32 } catch (NetMsgError) { errorlist.put(IEMsgTooShort) }]. *)
Definition try_decode (d : M RD Z) : M RD (option Z) :=
  catch (v <- d ;; ret (Some v))
    (fun e => match e with
              | Net_msg_error => put_error IEMsgTooShort ;;; ret None
              | e => raise e
              end).

(** [anslp_object::deserialize_header]: the object with its header fields
    set and the body length in bytes, or nothing. *)
Definition deserialize_header (o : anslp_object) : M RD (option (anslp_object * Z)) :=
  start_pos <- rd_pos ;;
  h <- try_decode decode32 ;;
  match h with
  | None => ret None
  | Some header_raw =>
      let o := set_object_type (extract_object_type header_raw)
                 (set_treatment (extract_treatment header_raw) o) in
      let body_length := u16 (extract_body_length header_raw) in
      left <- rd_left ;;
      if (Z.of_nat left <? body_length)%Z then
        put_error IEMsgTooShort ;;; set_pos start_pos ;;; ret None
      else ret (Some (o, body_length))
  end.

(** [information_code::deserialize_body]. *)
Definition information_code_deserialize_body (o : anslp_object) (skip : bool)
  : M RD (option anslp_object) :=
  value <- decode32 ;;
  let o := set_body (Information_code (Z.land (Z.shiftr value 24) 0xF)
                       (Z.land (Z.shiftr value 16) 0xFF) (Z.land value 0xFFFF)) o in
  if negb (object_check o) then
    put_error (PDUSyntaxError (object_type o)) ;;;
    if negb skip then ret None else ret (Some o)
  else ret (Some o).

(** [anslp_ipap_message::deserialize_body]: import the body, then the rest
    of it must be zero bytes.  The import reports how many bytes it read;
    more than the body has is a read out of bounds, fewer than none is not
    possible. *)
Definition ipap_deserialize_body (i : ipap_message) (o : anslp_object) (body_length : Z)
  : M RD (option anslp_object) :=
  start_pos <- rd_pos ;;
  messdef <- copy_to start_pos (Z.to_nat body_length) ;;
  match ipap_import (ipap_close i) messdef with
  | None => raise (Ie_error "IEMsgTooShort")
  | Some (i', num_read) =>
      if forallb (Z.eqb 0) (drop (Z.to_nat num_read) messdef) then
        set_pos (start_pos + Z.to_nat body_length) ;;;
        ret (Some (set_body (Ipap_message i') o))
      else ret None
  end.

(** The virtual [deserialize_body]: the fixed-size objects read one word,
    whatever the body length says. *)
Definition deserialize_body (o : anslp_object) (body_length : Z) (skip : bool)
  : M RD (option anslp_object) :=
  match body o with
  | Session_lifetime _ => v <- decode32 ;; ret (Some (set_body (Session_lifetime v) o))
  | Message_hop_count _ => v <- decode32 ;; ret (Some (set_body (Message_hop_count v) o))
  | Selection_auctioning_entities _ =>
      v <- decode32 ;; ret (Some (set_body (Selection_auctioning_entities v) o))
  | Msg_sequence_number _ => v <- decode32 ;; ret (Some (set_body (Msg_sequence_number v) o))
  | Information_code _ _ _ => information_code_deserialize_body o skip
  | Ipap_message i => ipap_deserialize_body i o body_length
  end.

(** [anslp_object::deserialize], returning the object and [bytes_read]. *)
Definition object_deserialize (o : anslp_object) (skip : bool) : M RD (option (anslp_object * Z)) :=
  start_pos <- rd_pos ;;
  if negb (ie_check_deser_args true) then put_error Coding_not_supported ;;; ret None
  else
    h <- deserialize_header o ;;
    match h with
    | None => ret None
    | Some (o, body_length) =>
        b <- deserialize_body o body_length skip ;;
        match b with
        | None => ret None
        | Some o =>
            pos <- rd_pos ;;
            ret (Some (o, u32 (Z.of_nat pos - Z.of_nat start_pos)))
        end
    end.

(** *** The registry. *)
Definition ie_register (p : ie) (r : iem) : iem :=
  match p with
  | IE_msg m => iem_register cat_anslp_msg (msg_type m) 0 p r
  | IE_object o => iem_register cat_anslp_object (object_type o) 0 p r
  end.

(** [ANSLP_IEManager::register_known_ies], from a cleared registry. *)
Definition register_known_ies : iem :=
  fold_left (fun r p => ie_register p r)
    [IE_msg new_anslp_create; IE_msg new_anslp_refresh; IE_msg new_anslp_response;
     IE_msg new_anslp_notify; IE_msg new_anslp_bidding;
     IE_object default_session_lifetime; IE_object default_information_code;
     IE_object default_message_hop_count; IE_object default_selection_auctioning_entities;
     IE_object default_msg_sequence_number; IE_object default_ipap_message]
    iem_new.

(** [ANSLP_IEManager::lookup_ie]: fall back on the default of the category. *)
Definition lookup_ie (r : iem) (category type subtype : Z) : option ie :=
  match iem_lookup r category type subtype with
  | Some p => Some p
  | None =>
      if (category =? cat_anslp_msg)%Z then iem_lookup r cat_default_anslp_msg 0 0
      else if (category =? cat_anslp_object)%Z then iem_lookup r cat_default_anslp_object 0 0
      else None
  end.

(** The virtual [new_instance] of a prototype. *)
Definition ie_new_instance (p : ie) : ie :=
  match p with
  | IE_msg m => IE_msg (new_msg (msg_cls m))
  | IE_object o => IE_object (object_new_instance o)
  end.

Definition new_instance (r : iem) (category type subtype : Z) : option ie :=
  iem_new_instance lookup_ie ie_new_instance r category type subtype.

(** [ANSLP_IEManager::deserialize_object].  A prototype that is no
    [anslp_object] is refused by the caller. *)
Definition deserialize_object (r : iem) (skip : bool) : M RD (option (anslp_object * Z)) :=
  h <- try_decode peek32 ;;
  match h with
  | None => ret None
  | Some header_raw =>
      match new_instance r cat_anslp_object (extract_object_type header_raw) 0 with
      | None => put_error Error_wrong_subtype ;;; ret None
      | Some (IE_msg _) => ret None
      | Some (IE_object o) => object_deserialize o skip
      end
  end.

(** The loop of [anslp_msg::deserialize]: as many objects as the buffer
    holds; [fuel] bounds the number of rounds. *)
Fixpoint deserialize_objects (fuel : nat) (r : iem) (skip : bool) (m : anslp_msg) (bytes_read : Z)
  : M RD (option (anslp_msg * Z)) :=
  left <- rd_left ;;
  if (left =? 0)%nat then ret (Some (m, bytes_read))
  else
    match fuel with
    | O => trip Loop_bound
    | S fuel =>
        ie <- deserialize_object r skip ;;
        match ie with
        | None => ret None
        | Some (obj, obj_bytes_read) =>
            if unique obj && is_some (get_object (mk_key (object_type obj) 1) m) then
              put_error (PDUSyntaxError (object_type obj)) ;;;
              if negb skip then ret None
              else deserialize_objects fuel r skip (set_object obj m) (u32 (bytes_read + obj_bytes_read))
            else deserialize_objects fuel r skip (set_object obj m) (u32 (bytes_read + obj_bytes_read))
        end
    end.

Definition set_msg_type (t : Z) (m : anslp_msg) : anslp_msg := mk_msg (msg_cls m) (u8 t) (objects m).

(** [anslp_msg::deserialize]. *)
Definition msg_deserialize (r : iem) (m : anslp_msg) (skip : bool) : M RD (option (anslp_msg * Z)) :=
  h <- try_decode decode32 ;;
  match h with
  | None => ret (if skip then Some (m, 0%Z) else None)
  | Some header_raw =>
      left <- rd_left ;;
      res <- deserialize_objects left r skip (set_msg_type (extract_msg_type header_raw) m) 4 ;;
      match res with
      | None => ret None
      | Some (m, bytes_read) =>
          if (get_num_objects m =? 0)%nat then
            put_error (PDUSyntaxError 0) ;;;
            if negb skip then ret None else ret (Some (m, bytes_read))
          else ret (Some (m, bytes_read))
      end
  end.

(** [ANSLP_IEManager::deserialize_msg]. *)
Definition deserialize_msg (r : iem) (skip : bool) : M RD (option (anslp_msg * Z)) :=
  h <- try_decode peek32 ;;
  match h with
  | None => ret None
  | Some header_raw =>
      match new_instance r cat_anslp_msg (extract_msg_type header_raw) 0 with
      | None => put_error Error_wrong_type ;;; ret None
      | Some (IE_object _) => ret None
      | Some (IE_msg m) => msg_deserialize r m skip
      end
  end.

(** [ANSLP_IEManager::deserialize], by category. *)
Definition iemanager_deserialize (r : iem) (category : Z) (skip : bool) : M RD (option (ie * Z)) :=
  if (category =? cat_anslp_msg)%Z then
    res <- deserialize_msg r skip ;;
    ret (option_map (fun '(m, n) => (IE_msg m, n)) res)
  else if (category =? cat_anslp_object)%Z then
    res <- deserialize_object r skip ;;
    ret (option_map (fun '(o, n) => (IE_object o, n)) res)
  else put_error Error_category ;;; ret None.
End Deserialize.

(** ** What the serializers write.

    [emits c bytes a]: [c] writes exactly [bytes] at the position, moves it
    behind them and returns [a], whenever they fit. *)
Section Written.
Context `{Libs} `{NetMsg} `{!NetMsgLaws}.

Definition emits {A} (c : M netmsg A) (bytes : list Z) (a : A) : Prop :=
  forall m, nm_pos m + length bytes <= length (nm_bytes m) ->
  exists m', c m = (Normal a, m') /\ nm_bytes m' = write_at (nm_pos m) bytes (nm_bytes m)
             /\ nm_pos m' = nm_pos m + length bytes.

Lemma write_at_nil p B : p <= length B -> write_at p [] B = B.
Proof. intros. unfold write_at. cbn. rewrite Nat.add_0_r. apply take_drop. Qed.

Lemma write_at_app p a b B :
  p + length a + length b <= length B ->
  write_at (p + length a) b (write_at p a B) = write_at p (a ++ b) B.
Proof.
  intros Hl. unfold write_at at 1.
  assert (take (p + length a) (write_at p a B) = take p B ++ a) as ->.
  { unfold write_at. rewrite app_assoc, take_app_le by (rewrite length_app, length_take; lia).
    apply take_ge. rewrite length_app, length_take. lia. }
  rewrite <- drop_drop, drop_write_at by lia. rewrite drop_drop.
  unfold write_at. rewrite <- !app_assoc, length_app, Nat.add_assoc. done.
Qed.

Lemma emits_ret {A} (a : A) : emits (ret a) [] a.
Proof.
  intros m Hm. exists m. cbn in *. rewrite write_at_nil by lia. split_and!; [done..|lia].
Qed.

Lemma emits_bind {A B} (c : M netmsg A) (k : A -> M netmsg B) b1 b2 a r :
  emits c b1 a -> emits (k a) b2 r -> emits (bind c k) (b1 ++ b2) r.
Proof.
  intros Hc Hk m Hm. rewrite length_app in *.
  destruct (Hc m) as (m1 & E1 & B1 & P1); [lia|].
  destruct (Hk m1) as (m2 & E2 & B2 & P2).
  { rewrite B1, P1, length_write_at by lia. lia. }
  exists m2. unfold bind. rewrite E1. split; [done|]. split; [|lia].
  rewrite B2, B1, P1. apply write_at_app. lia.
Qed.

Lemma emits_writes f data : (forall m, writes data m (f m)) -> emits (netmsg_op f) data tt.
Proof.
  intros Hf m Hm. specialize (Hf m). unfold writes in Hf. rewrite decide_True in Hf by done.
  destruct Hf as (m' & E & ? & ?). exists m'. unfold netmsg_op. by rewrite E.
Qed.

Lemma emits_encode32 v : emits (netmsg_op (nm_encode32 v)) (be_encode 4 v) tt.
Proof. apply emits_writes, nm_encode32_writes. Qed.
Lemma emits_encode16 v : emits (netmsg_op (nm_encode16 v)) (be_encode 2 v) tt.
Proof. apply emits_writes, nm_encode16_writes. Qed.
Lemma emits_encode8 v : emits (netmsg_op (nm_encode8 v)) (be_encode 1 v) tt.
Proof. apply emits_writes, nm_encode8_writes. Qed.

Lemma emits_too_short {A} (c : M netmsg A) bytes a : emits c bytes a -> emits (too_short c) bytes a.
Proof.
  intros Hc m Hm. destruct (Hc m Hm) as (m' & E & HB). exists m'. split; [|done].
  unfold too_short, catch. by rewrite E.
Qed.

(** Copying a block behind the position and moving over it. *)
Lemma emits_copy data n :
  n = length data ->
  emits (m <- get ;;
         netmsg_op (nm_copy_from data (nm_pos m)) ;;; netmsg_op (nm_set_pos (nm_pos m + n))) data tt.
Proof.
  intros -> m Hm. unfold bind, get. cbn.
  pose proof (nm_copy_from_writes data (nm_pos m) m) as Hc. rewrite decide_True in Hc by done.
  destruct Hc as (m1 & E1 & B1 & P1). unfold netmsg_op at 1. rewrite E1.
  pose proof (nm_set_pos_moves (nm_pos m + length data) m1) as Hp.
  rewrite decide_True in Hp by (rewrite B1, length_write_at; lia).
  destruct Hp as (m2 & E2 & B2 & P2). unfold netmsg_op. rewrite E2. exists m2.
  by rewrite B2, B1.
Qed.

(** The padding of a body to a multiple of four bytes. *)
Definition padding (n : nat) : nat := if (n mod 4 =? 0)%nat then 0 else 4 - n mod 4.

Definition ipap_bytes (i : ipap_message) : list Z :=
  match ipap_get_message i with Some b => b | None => [] end.

Definition body_bytes (b : object_body) : list Z :=
  match b with
  | Session_lifetime v | Message_hop_count v | Selection_auctioning_entities v
  | Msg_sequence_number v => be_encode 4 v
  | Information_code s c t =>
      be_encode 1 (Z.land s 0xF) ++ be_encode 1 c ++ be_encode 2 (Z.land t 0xFFFF)
  | Ipap_message i => ipap_bytes i ++ replicate (padding (length (ipap_bytes i))) 0%Z
  end.

Definition object_bytes (o : anslp_object) : list Z :=
  be_encode 4 (make_header (treatment o) (object_type o) (Z.of_nat (length (body_bytes (body o)))))
  ++ body_bytes (body o).

Lemma body_bytes_length b :
  body_wf b -> exists n, length (body_bytes b) = 4 * n /\ (0 < n < 4096)%nat.
Proof.
  destruct b; cbn [body_wf body_bytes]; intros Hb; rewrite ?length_app, ?length_be_encode;
    try (exists 1; split; [done|lia]).
  destruct Hb as [(_ & bs & Hm & Hl & _) Hr]. unfold ipap_bytes. rewrite Hm, length_replicate.
  unfold padding. pose proof (Nat.div_mod_eq (length bs) 4) as Hd.
  pose proof (Nat.mod_upper_bound (length bs) 4) as Hu.
  destruct (Nat.eqb_spec (length bs mod 4) 0).
  - exists (length bs / 4). lia.
  - exists (length bs / 4 + 1). lia.
Qed.

Lemma serialized_size_bytes o :
  object_wf o -> (object_serialized_size o - OBJ_HEADER_LENGTH)%Z = Z.of_nat (length (body_bytes (body o))).
Proof.
  intros (_ & _ & Hb). unfold object_serialized_size, OBJ_HEADER_LENGTH.
  destruct (body o); cbn [body_wf body_bytes] in *; rewrite ?length_app, ?length_be_encode; try done.
  destruct Hb as [(_ & bs & Hm & Hl & _) Hr]. unfold ipap_bytes. rewrite Hm, length_replicate.
  unfold ipap_serialized_size, OBJ_HEADER_LENGTH, padding. rewrite <- Hl.
  pose proof (Nat.mod_upper_bound (length bs) 4) as Hu.
  assert (((4 + Z.of_nat (length bs)) mod 4)%Z = Z.of_nat (length bs mod 4)) as E.
  { rewrite Nat2Z.inj_mod. replace (4 + Z.of_nat (length bs))%Z
      with (Z.of_nat (length bs) + 1 * 4)%Z by lia. by apply Z.mod_add. }
  rewrite E. destruct (Nat.eqb_spec (length bs mod 4) 0) as [E0|E0].
  - rewrite E0. change (Z.of_nat 0 =? 0)%Z with true. cbn iota. lia.
  - destruct (Z.eqb_spec (Z.of_nat (length bs mod 4)) 0); lia.
Qed.

Lemma object_check_wf o : object_wf o -> object_check o = true.
Proof.
  intros (Ht & _ & Hb). unfold object_check. rewrite Ht.
  destruct (body o) as [|s c t| | | |i]; cbn [body_type check_body body_wf] in *; try done.
  - destruct Hb as (Hs & _ & ->). unfold information_code_check_body. cbn [Z.land].
    replace (Z.land s 0xF0) with 0%Z; [done|].
    symmetry. apply Z.bits_inj'. intros n Hn. rewrite Z.land_spec, Z.bits_0.
    destruct (decide (n < 4)%Z).
    + assert (n = 0 \/ n = 1 \/ n = 2 \/ n = 3)%Z as [->|[->|[->| ->]]] by lia; by rewrite andb_false_r.
    + rewrite (Z.testbit_eqb s) by lia. rewrite Z.div_small; [done|].
      split; [lia|]. apply Z.lt_le_trans with (2 ^ 4)%Z; [lia|]. apply Z.pow_le_mono_r; lia.
  - cbn. unfold ipap_check_body. apply Z.ltb_lt. lia.
Qed.

Lemma emits_information_code s c t :
  emits (information_code_serialize_body s c t)
    (be_encode 1 (Z.land s 0xF) ++ be_encode 1 c ++ be_encode 2 (Z.land t 0xFFFF)) tt.
Proof.
  eapply emits_bind; [apply emits_encode8|]. eapply emits_bind; [apply emits_encode8|].
  apply emits_encode16.
Qed.

Lemma emits_ipap_body i :
  body_wf (Ipap_message i) -> emits (ipap_serialize_body i) (body_bytes (Ipap_message i)) tt.
Proof.
  intros [(_ & bs & Hm & Hl & _) Hr]. cbn [body_bytes]. unfold ipap_bytes. rewrite Hm.
  assert (Hn : Z.to_nat (ipap_get_offset i) = length bs) by lia.
  intros m Hfit. rewrite length_app, length_replicate in Hfit.
  destruct (emits_copy bs (length bs) eq_refl m) as (m1 & E1 & B1 & P1); [lia|].
  assert (E : ipap_serialize_body i m =
    (if (length bs mod 4 =? 0)%nat then ret tt
     else m <- get ;;
          netmsg_op (nm_copy_from (replicate (4 - length bs mod 4) 0%Z) (nm_pos m)) ;;;
          netmsg_op (nm_set_pos (nm_pos m + (4 - length bs mod 4)))) m1).
  { unfold ipap_serialize_body. rewrite Hn, Hm. revert E1. unfold bind, get, deref, ret. cbn beta iota zeta.
    rewrite Nat.ltb_irrefl, firstn_all.
    destruct (netmsg_op (nm_copy_from bs (nm_pos m)) m) as [[|e|f] m']; try discriminate.
    destruct (netmsg_op (nm_set_pos (nm_pos m + length bs)) m') as [[|e|f] m'']; try discriminate.
    intros; simplify_eq. by destruct (length bs mod 4 =? 0)%nat. }
  rewrite E. unfold padding. unfold padding in Hfit. destruct (length bs mod 4 =? 0)%nat.
  - exists m1. cbn [replicate]. rewrite app_nil_r. split_and!; done.
  - destruct (emits_copy (replicate (4 - length bs mod 4) 0%Z) (4 - length bs mod 4)
                ltac:(by rewrite length_replicate) m1) as (m2 & E2 & B2 & P2).
    { rewrite B1, P1, length_write_at, length_replicate by lia. lia. }
    exists m2. rewrite E2. split; [done|]. rewrite length_app, length_replicate in *.
    rewrite B2, P2, B1, P1. split; [|lia]. apply write_at_app. rewrite length_replicate. lia.
Qed.

Lemma emits_body b : body_wf b -> emits (serialize_body b) (body_bytes b) tt.
Proof.
  destruct b; intros Hb; try apply emits_encode32;
    [apply emits_information_code|by apply emits_ipap_body].
Qed.

Context `{!ProtlibIE ie} `{!ProtlibIELaws ie}.

Lemma emits_check_ser_args v : v = true -> emits (check_ser_args true v) [] tt.
Proof. intros ->. unfold check_ser_args. rewrite check_ser_args_ok. apply emits_ret. Qed.

(** An object is written as its header and its body. *)
Lemma emits_object o :
  object_wf o -> emits (object_serialize true o) (object_bytes o) (Z.of_nat (length (object_bytes o))).
Proof.
  intros Hwf m Hm. pose proof Hwf as (_ & _ & Hb).
  pose proof (body_bytes_length _ Hb) as (n & Hn & Hn0).
  assert (emits (check_ser_args true (object_check o) ;;;
                 too_short (serialize_header o (u16 (object_serialized_size o - OBJ_HEADER_LENGTH))) ;;;
                 too_short (serialize_body (body o))) (object_bytes o) tt) as He.
  { rewrite <- (app_nil_l (object_bytes o)).
    eapply emits_bind; [by apply emits_check_ser_args, object_check_wf|].
    eapply emits_bind; apply emits_too_short; [|by apply emits_body].
    unfold serialize_header. rewrite serialized_size_bytes, u16_small by (done || (unfold is_u16; lia)).
    apply emits_encode32. }
  destruct (He m Hm) as (m' & E & B & P). exists m'. split; [|done].
  unfold object_serialize. revert E. unfold bind, get, ret.
  destruct (check_ser_args true (object_check o) m) as [[|e|f] m1]; try discriminate.
  destruct (too_short (serialize_header _ _) m1) as [[|e|f] m2]; try discriminate.
  destruct (too_short (serialize_body _) m2) as [[|e|f] m3]; try discriminate.
  intros; simplify_eq. do 2 f_equal. lia.
Qed.

Fixpoint objects_bytes (l : list anslp_object) : list Z :=
  match l with [] => [] | o :: l' => object_bytes o ++ objects_bytes l' end.

(** A list of keys whose objects are there. *)
Lemma emits_keys m ks os n :
  Forall2 (fun k o => get_object k m = Some o /\ object_wf o) ks os ->
  (0 <= n)%Z -> (n + Z.of_nat (length (objects_bytes os)) < 2 ^ 32)%Z ->
  emits (serialize_keys true m ks n) (objects_bytes os) (n + Z.of_nat (length (objects_bytes os)))%Z.
Proof.
  intros Hks. revert n. induction Hks as [|k o ks os [Hg Hwf] Hks IH];
    cbn [serialize_keys objects_bytes]; intros n Hn Hb.
  - cbn [length Z.of_nat]. rewrite Z.add_0_r. apply emits_ret.
  - rewrite length_app in *. eapply emits_bind.
    + unfold serialize_object. rewrite Hg. by apply emits_object.
    + rewrite u32_small by (unfold is_u32; lia).
      rewrite Nat2Z.inj_add, Z.add_assoc. apply IH; lia.
Qed.
End Written.

(** ** What the parsers read.

    [parses c bytes a]: when [bytes] comes next in the buffer, [c] consumes
    exactly [bytes], returns [a] and adds no error. *)
Section Read.
Context `{Libs} `{!LibsLaws} `{NetMsg} `{!NetMsgLaws} `{!ProtlibIE ie} `{!ProtlibIELaws ie}.

Definition next_bytes (m : netmsg) (l : list Z) : Prop :=
  nm_pos m <= length (nm_bytes m) /\ drop (nm_pos m) (nm_bytes m) = l.

Definition parses {A} (c : M RD A) (bytes : list Z) (post : list Z) (a : A) : Prop :=
  forall m l, next_bytes m (bytes ++ post) ->
  exists m', c (m, l) = (Normal a, (m', l)) /\ nm_bytes m' = nm_bytes m
             /\ nm_pos m' = nm_pos m + length bytes /\ next_bytes m' post.

Lemma next_bytes_left m l : next_bytes m l -> nm_bytes_left m = length l.
Proof. intros [Hp Hd]. unfold nm_bytes_left. by rewrite <- Hd, length_drop. Qed.

Lemma next_bytes_advance m m' b l :
  next_bytes m (b ++ l) -> nm_bytes m' = nm_bytes m -> nm_pos m' = nm_pos m + length b ->
  next_bytes m' l.
Proof.
  intros [Hp Hd] HB HP. pose proof (f_equal length Hd) as Hl. rewrite length_drop, length_app in Hl.
  split; rewrite HB, HP; [lia|]. by rewrite <- drop_drop, Hd, drop_app_length.
Qed.

Lemma parses_ret {A} (a : A) post : parses (ret a) [] post a.
Proof. intros m l Hm. exists m. cbn in *. split_and!; [done..|lia|done]. Qed.

Lemma parses_bind {A B} (c : M RD A) (k : A -> M RD B) b1 b2 post a r :
  parses c b1 (b2 ++ post) a -> parses (k a) b2 post r -> parses (bind c k) (b1 ++ b2) post r.
Proof.
  intros Hc Hk m l Hm. rewrite <- app_assoc in Hm. destruct (Hc m l Hm) as (m1 & E1 & B1 & P1 & N1).
  destruct (Hk m1 l N1) as (m2 & E2 & B2 & P2 & N2). exists m2. unfold bind. rewrite E1, length_app.
  split_and!; [done|congruence|lia|done].
Qed.

Lemma next_word m v post :
  is_u32 v -> next_bytes m (be_encode 4 v ++ post) -> nm_peek32 m = Some v.
Proof.
  intros Hv Hn. rewrite nm_peek32_reads. pose proof (next_bytes_left _ _ Hn) as Hl.
  unfold nm_bytes_left in Hl. rewrite length_app, length_be_encode in Hl. destruct Hn as [Hp ->].
  rewrite decide_True by lia.
  rewrite take_app_le, take_ge by (rewrite length_be_encode; lia). by rewrite be_decode_encode32.
Qed.

Lemma parses_decode32 v post : is_u32 v -> parses decode32 (be_encode 4 v) post v.
Proof.
  intros Hv m l Hm. pose proof (nm_decode32_reads m) as Hd.
  rewrite (next_word m v post) in Hd by done. destruct Hd as (m' & E & HB & HP).
  exists m'. unfold decode32. rewrite E. split_and!; try done.
  by eapply next_bytes_advance.
Qed.

Lemma parses_try d bytes post v : parses d bytes post v -> parses (try_decode d) bytes post (Some v).
Proof.
  intros Hd m l Hm. destruct (Hd m l Hm) as (m' & E & H'). exists m'. split; [|done].
  unfold try_decode, catch, bind. by rewrite E.
Qed.

Lemma parses_peek32 v post : is_u32 v -> parses peek32 [] (be_encode 4 v ++ post) v.
Proof.
  intros Hv m l Hm. exists m. unfold peek32. rewrite (next_word m v post) by done.
  cbn. split_and!; [done..|lia|done].
Qed.

Lemma be_encode_app4 s c t :
  (0 <= s < 16)%Z -> is_u8 c ->
  be_encode 1 (Z.land s 0xF) ++ be_encode 1 c ++ be_encode 2 (Z.land t 0xFFFF)
  = be_encode 4 (s * 2 ^ 24 + c * 2 ^ 16 + Z.land t 0xFFFF).
Proof.
  unfold is_u8. intros Hs Hc. change 0xF%Z with (2 ^ 4 - 1)%Z. change 0xFFFF%Z with (2 ^ 16 - 1)%Z.
  rewrite !land_mask by lia. rewrite (Z.mod_small s) by lia.
  pose proof (Z.mod_pos_bound t (2 ^ 16) eq_refl) as Hz. revert Hz. generalize (t mod 2 ^ 16)%Z.
  intros z Hz. pose proof (Z.div_mod z (2 ^ 8) ltac:(lia)) as Hzd.
  pose proof (Z.mod_pos_bound z (2 ^ 8) eq_refl) as Hzr.
  set (w := (s * 2 ^ 24 + c * 2 ^ 16 + z)%Z).
  assert (w / 2 ^ 24 = s)%Z as W3 by (symmetry; apply Z.div_unique with (c * 2 ^ 16 + z)%Z; unfold w; lia).
  assert (w / 2 ^ 16 = s * 2 ^ 8 + c)%Z as W2 by (symmetry; apply Z.div_unique with z; unfold w; lia).
  assert (w / 2 ^ 8 = s * 2 ^ 16 + c * 2 ^ 8 + z / 2 ^ 8)%Z as W1
    by (symmetry; apply Z.div_unique with (z mod 2 ^ 8)%Z; unfold w; lia).
  cbn [be_encode app]. change 255%Z with (2 ^ 8 - 1)%Z. rewrite !land_mask by lia.
  rewrite !Z.shiftr_div_pow2 by lia.
  change (8 * Z.of_nat 0)%Z with 0%Z; change (8 * Z.of_nat 1)%Z with 8%Z;
    change (8 * Z.of_nat 2)%Z with 16%Z; change (8 * Z.of_nat 3)%Z with 24%Z.
  assert ((s * 2 ^ 8 + c) mod 2 ^ 8 = c mod 2 ^ 8)%Z as M2
    by (rewrite Z.add_comm; apply Z.mod_add; lia).
  assert ((s * 2 ^ 16 + c * 2 ^ 8 + z / 2 ^ 8) mod 2 ^ 8 = (z / 2 ^ 8) mod 2 ^ 8)%Z as M1.
  { replace (s * 2 ^ 16 + c * 2 ^ 8 + z / 2 ^ 8)%Z with (z / 2 ^ 8 + (s * 2 ^ 8 + c) * 2 ^ 8)%Z by lia.
    apply Z.mod_add; lia. }
  assert (w mod 2 ^ 8 = z mod 2 ^ 8)%Z as M0.
  { unfold w. replace (s * 2 ^ 24 + c * 2 ^ 16 + z)%Z with (z + (s * 2 ^ 16 + c * 2 ^ 8) * 2 ^ 8)%Z by lia.
    apply Z.mod_add; lia. }
  by rewrite W3, W2, W1, !Z.div_1_r, M2, M1, M0.
Qed.

Lemma parses_information_code o s c post :
  object_wf o -> body o = Information_code s c 0 -> forall o',
  object_type o' = object_type o -> treatment o' = treatment o -> unique o' = unique o ->
  parses (information_code_deserialize_body o' false) (body_bytes (body o)) post (Some o).
Proof.
  intros Hwf Hb o' Ht Htr Hu. pose proof Hwf as (_ & _ & Hbw). rewrite Hb in *.
  cbn [body_bytes body_wf] in *. destruct Hbw as (Hs & Hc & _). unfold is_u8 in Hc.
  rewrite be_encode_app4 by done. change (Z.land 0 0xFFFF)%Z with 0%Z. rewrite Z.add_0_r.
  rewrite <- (app_nil_r (be_encode _ _)). eapply parses_bind.
  { apply parses_decode32. unfold is_u32. lia. }
  cbv beta zeta.
  assert (set_body (Information_code
      (Z.land (Z.shiftr (s * 2 ^ 24 + c * 2 ^ 16) 24) 0xF)
      (Z.land (Z.shiftr (s * 2 ^ 24 + c * 2 ^ 16) 16) 0xFF)
      (Z.land (s * 2 ^ 24 + c * 2 ^ 16) 0xFFFF)) o' = o) as ->.
  { destruct o as [t tr u b], o' as [t' tr' u' b']; cbn in *; subst.
    unfold set_body; cbn [object_type treatment unique]. f_equal.
    change 0xF%Z with (2 ^ 4 - 1)%Z. change 0xFFFF%Z with (2 ^ 16 - 1)%Z.
    change 0xFF%Z with (2 ^ 8 - 1)%Z. rewrite !land_mask, !Z.shiftr_div_pow2 by lia.
    f_equal; Z.to_euclidean_division_equations; lia. }
  rewrite object_check_wf by done. apply parses_ret.
Qed.

Lemma parses_ipap_body o i i0 o' post :
  object_wf o -> body o = Ipap_message i ->
  object_type o' = object_type o -> treatment o' = treatment o -> unique o' = unique o ->
  parses (ipap_deserialize_body i0 o' (Z.of_nat (length (body_bytes (body o)))))
    (body_bytes (body o)) post (Some o).
Proof.
  intros (_ & _ & Hb) Eb Ht Htr Hu. rewrite Eb in *. destruct Hb as [Hex Hr].
  pose proof Hex as (_ & bs & Hm & Hl & _). cbn [body_bytes]. unfold ipap_bytes. rewrite Hm.
  set (pad := replicate (padding (length bs)) 0%Z). intros m l Hn.
  pose proof (next_bytes_left _ _ Hn) as Hleft. unfold nm_bytes_left in Hleft. rewrite length_app in Hleft.
  pose proof Hn as [Hp Hd].
  unfold ipap_deserialize_body, bind, rd_pos, copy_to. rewrite nm_copy_to_reads.
  rewrite Nat2Z.id, decide_True by lia. rewrite Hd, take_app_length.
  rewrite (ipap_import_exported i i0 bs pad) by (done || lia). rewrite <- Hl, Nat2Z.id.
  rewrite drop_app_length.
  assert (forallb (Z.eqb 0) pad = true) as -> by (unfold pad; generalize (padding (length bs)); intros k; induction k as [|k IHk]; [done|exact IHk]).
  unfold set_pos. pose proof (nm_set_pos_moves (nm_pos m + length (bs ++ pad)) m) as Hs.
  rewrite decide_True in Hs by lia. destruct Hs as (m' & E & B & P). rewrite E. exists m'.
  split_and!; [|done..|by eapply next_bytes_advance].
  unfold ret, set_body. rewrite Ht, Htr, Hu, <- Eb. by destruct o.
Qed.
End Read.

(** ** Round trip of objects and messages. *)
Section Roundtrip.
Context `{Libs} `{!LibsLaws} `{NetMsg} `{!NetMsgLaws} `{!ProtlibIE ie} `{!ProtlibIELaws ie}.

(** The registry finds the prototype of the object's own class. *)
Lemma new_instance_object o :
  object_wf o ->
  new_instance register_known_ies cat_anslp_object (object_type o) 0
  = Some (IE_object (object_new_instance o)).
Proof.
  intros (Ht & _ & _). unfold new_instance. rewrite iem_new_instance_spec, Ht.
  unfold lookup_ie, register_known_ies; cbn [fold_left ie_register]. rewrite !iem_lookup_register.
  unfold object_new_instance. destruct (body o); cbn [body_type];
    repeat (rewrite decide_False by (vm_compute; discriminate)); by rewrite decide_True by reflexivity.
Qed.

Lemma new_instance_msg c :
  new_instance register_known_ies cat_anslp_msg (MSG_TYPE c) 0 = Some (IE_msg (new_msg c)).
Proof.
  unfold new_instance. rewrite iem_new_instance_spec.
  unfold lookup_ie, register_known_ies; cbn [fold_left ie_register]. rewrite !iem_lookup_register.
  destruct c; repeat (rewrite decide_False by (vm_compute; discriminate));
    by rewrite decide_True by reflexivity.
Qed.

Lemma object_header o :
  object_wf o ->
  let h := make_header (treatment o) (object_type o) (Z.of_nat (length (body_bytes (body o)))) in
  is_u32 h /\ extract_treatment h = treatment o /\ extract_object_type h = object_type o
  /\ u16 (extract_body_length h) = Z.of_nat (length (body_bytes (body o))).
Proof.
  intros (Ht & _ & Hb) h. destruct (body_bytes_length _ Hb) as (n & Hn & Hn0).
  unfold h. rewrite Hn. replace (Z.of_nat (4 * n)) with (Z.of_nat n * 4)%Z by lia.
  destruct (header_roundtrip (treatment o) (object_type o) (Z.of_nat n)) as (Hh & Htr & Hty & Hl).
  { rewrite Ht. apply body_type_range. } { lia. }
  split_and!; try done. rewrite Hl. apply u16_small. unfold is_u16. lia.
Qed.

Lemma parses_header o o' post :
  object_wf o ->
  parses (deserialize_header o')
    (be_encode 4 (make_header (treatment o) (object_type o) (Z.of_nat (length (body_bytes (body o))))))
    (body_bytes (body o) ++ post)
    (Some (mk_object (object_type o) (treatment o) (unique o') (body o'),
           Z.of_nat (length (body_bytes (body o))))).
Proof.
  intros Hwf. destruct (object_header o Hwf) as (Hh & Htr & Hty & Hlen).
  set (h := make_header _ _ _) in *. intros m l Hm.
  destruct (parses_try _ _ _ _ (parses_decode32 h (body_bytes (body o) ++ post) Hh) m l Hm)
    as (m' & E & B & P & N). exists m'. split_and!; try done.
  unfold deserialize_header. unfold bind at 1. cbn [rd_pos]. unfold bind at 1. rewrite E.
  cbn beta iota zeta. unfold bind, rd_left. cbn beta iota zeta.
  rewrite (next_bytes_left _ _ N), length_app, Htr, Hty, Hlen.
  destruct (Z.ltb_spec (Z.of_nat (length (body_bytes (body o)) + length post))
              (Z.of_nat (length (body_bytes (body o))))); [lia|]. done.
Qed.

(** A fixed-size body: one word. *)
Lemma parses_word_body (f : Z -> object_body) v o o' post :
  is_u32 v -> body o = f v -> object_type o' = object_type o -> treatment o' = treatment o ->
  unique o' = unique o ->
  parses (v <- decode32 ;; ret (Some (set_body (f v) o'))) (be_encode 4 v) post (Some o).
Proof.
  intros Hv Hb Ht Htr Hu. rewrite <- (app_nil_r (be_encode 4 v)).
  eapply parses_bind; [by apply parses_decode32|].
  replace (set_body (f v) o') with o; [apply parses_ret|].
  unfold set_body. rewrite Ht, Htr, Hu, <- Hb. by destruct o.
Qed.

Lemma parses_body o post :
  object_wf o ->
  parses (deserialize_body
            (mk_object (object_type o) (treatment o) (unique (object_new_instance o))
               (body (object_new_instance o)))
            (Z.of_nat (length (body_bytes (body o)))) false)
    (body_bytes (body o)) post (Some o).
Proof.
  intros Hwf. pose proof Hwf as (_ & Hu & Hb). unfold object_new_instance.
  destruct (body o) as [v|s c t|v|v|v|i] eqn:E; cbn [body_bytes body_wf body_unique] in *.
  - by apply (parses_word_body Session_lifetime).
  - destruct Hb as (_ & _ & ->).
    pose proof (parses_information_code o s c post Hwf E) as Hp. rewrite E in Hp. by apply Hp.
  - by apply (parses_word_body Message_hop_count).
  - by apply (parses_word_body Selection_auctioning_entities).
  - by apply (parses_word_body Msg_sequence_number).
  - pose proof (parses_ipap_body o i ipap_default
      (mk_object (object_type o) (treatment o) false (Ipap_message ipap_default)) post Hwf E) as Hp.
    rewrite E in Hp. by apply Hp.
Qed.

Lemma parses_object o post :
  object_wf o ->
  parses (object_deserialize (object_new_instance o) false) (object_bytes o) post
    (Some (o, Z.of_nat (length (object_bytes o)))).
Proof.
  intros Hwf. unfold object_bytes. rewrite length_app, length_be_encode. intros m l Hm.
  rewrite <- app_assoc in Hm.
  destruct (parses_header o (object_new_instance o) post Hwf m l Hm) as (m1 & E1 & B1 & P1 & N1).
  destruct (parses_body o post Hwf m1 l N1) as (m2 & E2 & B2 & P2 & N2).
  exists m2. rewrite length_app. split_and!; [|congruence|lia|done].
  unfold object_deserialize, bind at 1, rd_pos at 1. rewrite check_deser_args_ok. cbn [negb].
  unfold bind at 1. rewrite E1. unfold bind at 1. rewrite E2. unfold bind, rd_pos, ret.
  rewrite P2, P1, length_be_encode. do 4 f_equal. rewrite u32_small; [lia|].
  destruct Hwf as (_ & _ & Hb). destruct (body_bytes_length _ Hb) as (n & Hn & Hn0).
  unfold is_u32. lia.
Qed.

Lemma parses_deserialize_object o post :
  object_wf o ->
  parses (deserialize_object register_known_ies false) (object_bytes o) post
    (Some (o, Z.of_nat (length (object_bytes o)))).
Proof.
  intros Hwf. destruct (object_header o Hwf) as (Hh & _ & Hty & _). intros m l Hm.
  pose proof Hm as Hm'. unfold object_bytes in Hm'. rewrite <- app_assoc in Hm'.
  unfold deserialize_object, bind at 1.
  destruct (parses_try _ _ _ _ (parses_peek32 _ (body_bytes (body o) ++ post) Hh) m l Hm')
    as (m0 & E0 & B0 & P0 & N0).
  rewrite E0. cbn beta iota zeta.
  rewrite Hty, new_instance_object by done.
  destruct (parses_object o post Hwf m0 l) as (m1 & E1 & B1 & P1 & N1).
  { unfold object_bytes. by rewrite <- app_assoc. }
  exists m1. cbn in P0. split_and!; [done|congruence|lia|done].
Qed.

(** The unique objects of a list do not repeat each other or the message. *)
Fixpoint no_duplicates (os : list anslp_object) (m : anslp_msg) : Prop :=
  match os with
  | [] => True
  | o :: os' => (unique o = true -> get_object (mk_key (object_type o) 1) m = None)
                /\ no_duplicates os' (set_object o m)
  end.

Lemma object_bytes_pos o : 0 < length (object_bytes o).
Proof. unfold object_bytes. rewrite length_app, length_be_encode. lia. Qed.

Lemma objects_bytes_length os : length os <= length (objects_bytes os).
Proof.
  induction os as [|o os IH]; cbn [objects_bytes length]; [lia|].
  rewrite length_app. pose proof (object_bytes_pos o). lia.
Qed.

(** The loop reads every object up to the end of the buffer. *)
Lemma parses_objects os fuel m n :
  Forall object_wf os -> no_duplicates os m -> length os <= fuel ->
  (0 <= n)%Z -> (n + Z.of_nat (length (objects_bytes os)) < 2 ^ 32)%Z ->
  parses (deserialize_objects fuel register_known_ies false m n) (objects_bytes os) []
    (Some (set_mspecs os m, n + Z.of_nat (length (objects_bytes os)))%Z).
Proof.
  intros Hwf. revert fuel m n. induction Hwf as [|o os Ho Hos IH]; intros fuel m n Hd Hf Hn Hb.
  - cbn [objects_bytes length Z.of_nat]. rewrite Z.add_0_r. intros b l Hm. exists b.
    cbn [app] in Hm. split_and!; [|done|cbn; lia|done].
    destruct fuel; cbn [deserialize_objects]; unfold bind, rd_left;
      by rewrite (next_bytes_left _ _ Hm).
  - cbn [objects_bytes no_duplicates length set_mspecs fold_left] in *.
    rewrite length_app in *. destruct Hd as [Hu Hd].
    destruct fuel as [|fuel]; [lia|]. intros b l Hm. pose proof (object_bytes_pos o) as Hpos.
    assert (Hstep : parses (deserialize_objects fuel register_known_ies false (set_object o m)
                 (u32 (n + Z.of_nat (length (object_bytes o))))) (objects_bytes os) []
              (Some (set_mspecs os (set_object o m),
                 n + Z.of_nat (length (object_bytes o) + length (objects_bytes os)))%Z)).
    { rewrite u32_small by (unfold is_u32; lia). rewrite Nat2Z.inj_add, Z.add_assoc.
      apply IH; [done|lia..]. }
    rewrite <- app_assoc in Hm.
    destruct (parses_deserialize_object o (objects_bytes os ++ []) Ho b l Hm) as (b1 & E1 & B1 & P1 & N1).
    destruct (Hstep b1 l N1) as (b2 & E2 & B2 & P2 & N2).
    exists b2. rewrite length_app. split_and!; [|congruence|lia|done].
    cbn [deserialize_objects]. unfold bind at 1, rd_left at 1.
    rewrite (next_bytes_left _ _ Hm), length_app.
    destruct (Nat.eqb_spec (length (object_bytes o) + length (objects_bytes os ++ [])) 0); [lia|].
    unfold bind at 1. rewrite E1. cbn beta iota.
    assert (unique o && is_some (get_object (mk_key (object_type o) 1) m) = false) as ->
      by (destruct (unique o); [by rewrite Hu|done]).
    exact E2.
Qed.
End Roundtrip.

(** ** Messages on the wire.

    The objects a class writes, in the order in which it writes them, for an
    abstract message that has exactly the objects of the class. *)
Section Wire.
Context `{Libs} `{!LibsLaws} `{NetMsg} `{!NetMsgLaws} `{!ProtlibIE ie} `{!ProtlibIELaws ie}.

Inductive wire_form : msg_class -> view -> list anslp_object -> Prop :=
  | wire_create sme mhc msn slf ipap :
      wire_form C_create (mk_view None (Some sme) (Some mhc) (Some msn) (Some slf) ipap)
        ([msn; slf; sme; mhc] ++ ipap)
  | wire_response inf msn slf ipap :
      wire_form C_response (mk_view (Some inf) None None (Some msn) (Some slf) ipap)
        ([msn; inf; slf] ++ ipap)
  | wire_refresh msn slf :
      wire_form C_refresh (mk_view None None None (Some msn) (Some slf) []) [msn; slf]
  | wire_notify inf : wire_form C_notify (mk_view (Some inf) None None None None []) [inf]
  | wire_bidding msn i ipap :
      wire_form C_bidding (mk_view None None None (Some msn) None (i :: ipap)) ([msn] ++ i :: ipap).

Definition msg_bytes (c : msg_class) (os : list anslp_object) : list Z :=
  be_encode 4 (make_msg_header (MSG_TYPE c)) ++ objects_bytes os.

(** Adding an object of a known type fills its slot. *)
Lemma view_set_slot o t v :
  object_wf o -> object_type o = t ->
  view_set o v =
    (if (t =? OT_information_code)%Z
     then mk_view (Some o) (v_sme v) (v_mhc v) (v_msn v) (v_slf v) (v_ipap v)
     else if (t =? OT_selection_auctioning_entities)%Z
     then mk_view (v_inf v) (Some o) (v_mhc v) (v_msn v) (v_slf v) (v_ipap v)
     else if (t =? OT_message_hop_count)%Z
     then mk_view (v_inf v) (v_sme v) (Some o) (v_msn v) (v_slf v) (v_ipap v)
     else if (t =? OT_msg_sequence_number)%Z
     then mk_view (v_inf v) (v_sme v) (v_mhc v) (Some o) (v_slf v) (v_ipap v)
     else if (t =? OT_session_lifetime)%Z
     then mk_view (v_inf v) (v_sme v) (v_mhc v) (v_msn v) (Some o) (v_ipap v)
     else mk_view (v_inf v) (v_sme v) (v_mhc v) (v_msn v) (v_slf v) (v_ipap v ++ [o])).
Proof. intros (Ht & _) <-. unfold view_set. rewrite Ht. by destruct (body o). Qed.

Lemma unique_not_ipap o : object_wf o -> object_type o <> OT_ipap_message -> unique o = true.
Proof. intros (Ht & Hu & _). rewrite Ht, Hu. by destruct (body o). Qed.

Lemma ipap_not_unique o : object_wf o -> object_type o = OT_ipap_message -> unique o = false.
Proof. intros (Ht & Hu & _). rewrite Ht, Hu. destruct (body o); vm_compute; congruence. Qed.

Lemma no_duplicates_ipap os m :
  Forall (fun o => object_wf o /\ object_type o = OT_ipap_message) os -> no_duplicates os m.
Proof.
  intros Hos. revert m. induction Hos as [|o os [Hwf Ht] Hos IH]; intros m; cbn; [done|].
  split; [|apply IH]. rewrite ipap_not_unique by done. discriminate.
Qed.

(** Parsing the objects [os] one by one from [m] builds the view [v]. *)
Definition builds (os : list anslp_object) (m : anslp_msg) (v : view) : Prop :=
  no_duplicates os m /\ msg_view (set_mspecs os m) v.

Lemma builds_slot o os m v0 v1 v :
  msg_view m v0 -> object_wf o -> object_type o <> OT_ipap_message ->
  get_object (mk_key (object_type o) 1) m = None -> view_set o v0 = v1 ->
  (msg_view (set_object o m) v1 -> builds os (set_object o m) v) -> builds (o :: os) m v.
Proof.
  intros Hm Hwf Ht Hg <- Hk. unfold builds. cbn [no_duplicates set_mspecs fold_left].
  destruct Hk as [Hd Hv]; [|done].
  apply set_object_view; [done..|]. intros Hu. by rewrite unique_not_ipap in Hu.
Qed.

Lemma builds_ipap os m v :
  msg_view m v -> Forall (fun o => object_wf o /\ object_type o = OT_ipap_message) os ->
  v_ipap v = [] -> (Z.of_nat (length os) < 2 ^ 32 - OT_ipap_message)%Z ->
  builds os m (mk_view (v_inf v) (v_sme v) (v_mhc v) (v_msn v) (v_slf v) os).
Proof.
  intros Hm Hos Hi Hl. split; [by apply no_duplicates_ipap|].
  pose proof (set_mspecs_view os m v Hm Hos) as Hv. rewrite Hi in Hv. by apply Hv.
Qed.

(** Discharge one unique object of [wire_form_builds]. *)
Ltac slot_step Hm Ht :=
  eapply builds_slot;
    [exact Hm|assumption|rewrite Ht; vm_compute; congruence
    |rewrite Ht; apply (msg_view_get _ _ Hm)
    |rewrite (view_set_slot _ _ _ ltac:(match type of Ht with object_type ?o = _ =>
         match goal with Hwf : object_wf o |- _ => exact Hwf end end) Ht);
     cbn [Z.eqb Pos.eqb OT_information_code OT_selection_auctioning_entities OT_message_hop_count
          OT_msg_sequence_number OT_session_lifetime v_inf v_sme v_mhc v_msn v_slf v_ipap view_empty];
     reflexivity
    |clear Hm; intros Hm].

Lemma wire_form_builds c v os :
  view_wf v -> wire_form c v os -> Forall object_wf os /\ builds os (new_msg c) v.
Proof.
  intros Hv Hw. pose proof (new_msg_view c) as Hm.
  destruct Hw as [sme mhc msn slf ipap|inf msn slf ipap|msn slf|inf|msn i ipap];
    destruct Hv as (W1 & W2 & W3 & W4 & W5 & W6 & W7); cbn in *.
  - destruct W2 as [? Ht2], W3 as [? Ht3], W4 as [? Ht4], W5 as [? Ht5]. split.
    + repeat (constructor; [done|]). eapply Forall_impl; [exact W6|]. naive_solver.
    + slot_step Hm Ht4. slot_step Hm Ht5. slot_step Hm Ht2. slot_step Hm Ht3.
      by apply (builds_ipap _ _ _ Hm).
  - destruct W1 as [? Ht1], W4 as [? Ht4], W5 as [? Ht5]. split.
    + repeat (constructor; [done|]). eapply Forall_impl; [exact W6|]. naive_solver.
    + slot_step Hm Ht4. slot_step Hm Ht1. slot_step Hm Ht5. by apply (builds_ipap _ _ _ Hm).
  - destruct W4 as [? Ht4], W5 as [? Ht5]. split; [by rewrite ?Forall_cons, Forall_nil|].
    slot_step Hm Ht4. slot_step Hm Ht5. by apply (builds_ipap _ _ _ Hm).
  - destruct W1 as [? Ht1]. split; [by rewrite ?Forall_cons, Forall_nil|].
    slot_step Hm Ht1. by apply (builds_ipap _ _ _ Hm).
  - destruct W4 as [? Ht4]. split.
    + constructor; [done|]. eapply Forall_impl; [exact W6|]. naive_solver.
    + slot_step Hm Ht4. by apply (builds_ipap _ _ _ Hm).
Qed.
End Wire.

Section Message_roundtrip.
Context `{Libs} `{!LibsLaws} `{NetMsg} `{!NetMsgLaws} `{!ProtlibIE ie} `{!ProtlibIELaws ie}.

(** The keys a class writes lead to the objects of the wire form. *)
Definition wire_keys (c : msg_class) (m : anslp_msg) : list ie_object_key :=
  match c with
  | C_create => [key_msn; key_slf; key_sme; key_mhc] ++ ipap_keys m
  | C_response => [key_msn; key_inf; key_slf] ++ ipap_keys m
  | C_refresh => [key_msn; key_slf]
  | C_notify => [key_inf]
  | C_bidding => [key_msn] ++ ipap_keys m
  end.

Lemma ipap_keys_objects m v :
  msg_view m v -> Forall2 (fun k o => get_object k m = Some o /\ object_wf o) (ipap_keys m) (v_ipap v).
Proof.
  intros (Hv & Ho & _). unfold ipap_keys, get_object. rewrite Ho, getMaxSequence_view by done.
  pose proof Hv as (_ & _ & _ & _ & _ & Hi & Hl).
  apply Forall2_fmap_l, Forall2_same_length_lookup. split.
  - rewrite length_seqZ. lia.
  - intros i z o Hz Ho'. apply lookup_seqZ in Hz as [-> Hz].
    change (store_get (mk_key OT_ipap_message (1 + Z.of_nat i)) (store_of_view v) = Some o /\ object_wf o).
    rewrite store_get_ipap by (done || lia).
    replace (Z.to_nat (1 + Z.of_nat i - 1)) with i by lia. split; [done|].
    rewrite Forall_forall in Hi. apply Hi. by eapply list_elem_of_lookup_2.
Qed.

Lemma wire_form_keys c m v os :
  msg_view m v -> wire_form c v os ->
  Forall2 (fun k o => get_object k m = Some o /\ object_wf o) (wire_keys c m) os.
Proof.
  intros Hm Hw. pose proof (ipap_keys_objects m v Hm) as Hi.
  destruct (msg_view_get m v Hm) as (G1 & G2 & G3 & G4 & G5).
  destruct Hm as ((W1 & W2 & W3 & W4 & W5 & _) & _).
  destruct Hw; cbn in *; repeat (apply Forall2_cons_2; [split; naive_solver|]);
    first [done|constructor].
Qed.

Lemma has_type_slots t m v :
  msg_view m v -> existsb (fun kv => (key_object_type (fst kv) =? t)%Z) (slots v) = true ->
  has_type t m = true.
Proof.
  intros (_ & Ho & _) Hs. unfold has_type. rewrite Ho. unfold store_of_view.
  by rewrite existsb_app, Hs.
Qed.

Lemma ipap_entries_types n l :
  Forall (fun kv => key_object_type (fst kv) = OT_ipap_message) (ipap_entries n l).
Proof. revert n. induction l as [|o l IH]; intros n; constructor; [done|apply IH]. Qed.

Lemma wire_form_check c m v os :
  msg_view m v -> msg_cls m = c -> wire_form c v os -> msg_check m = true.
Proof.
  intros Hm Hc Hw. unfold msg_check. rewrite Hc.
  pose proof (msg_view_get m v Hm) as (G1 & G2 & G3 & G4 & G5).
  destruct Hw; cbn [v_inf v_sme v_mhc v_msn v_slf] in *.
  - unfold create_check. by rewrite !(has_type_slots _ _ _ Hm).
  - unfold response_check. destruct Hm as (_ & -> & _). unfold store_of_view.
    rewrite forallb_app. apply andb_true_intro. split; [done|].
    cbn [v_ipap]. generalize 1%Z. induction ipap as [|o l IH]; intros n; [done|].
    cbn. apply IH.
  - unfold refresh_check, get_num_objects, store_size. rewrite G4, G5.
    by destruct Hm as (_ & -> & _).
  - unfold notify_check, get_num_objects, store_size. rewrite G1.
    by destruct Hm as (_ & -> & _).
  - unfold bidding_check. rewrite (has_type_slots _ _ _ Hm) by done.
    destruct Hm as (_ & Ho & _). unfold has_type. by rewrite Ho.
Qed.

Lemma msg_serialize_keys c m v os :
  msg_view m v -> msg_cls m = c -> wire_form c v os ->
  msg_serialize true m
  = (n <- msg_serialize_header true m ;; serialize_keys true m (wire_keys c m) n).
Proof.
  intros Hm Hc Hw. pose proof (wire_form_check c m v os Hm Hc Hw) as Hck.
  unfold msg_check in Hck. unfold msg_serialize. rewrite Hc in *.
  destruct c; try done; [unfold create_serialize|unfold bidding_serialize]; by rewrite Hck.
Qed.

Lemma emits_msg_header m v :
  msg_view m v -> msg_check m = true ->
  emits (msg_serialize_header true m) (be_encode 4 (make_msg_header (MSG_TYPE (msg_cls m)))) 4%Z.
Proof.
  intros (_ & _ & Ht) Hck. rewrite <- (app_nil_l (be_encode _ _)). unfold msg_serialize_header. eapply emits_bind.
  { by apply emits_check_ser_args. }
  rewrite <- (app_nil_r (be_encode _ _)). eapply emits_bind; [|apply emits_ret].
  rewrite Ht. apply emits_too_short, emits_encode32.
Qed.

Lemma emits_msg c m v os :
  msg_view m v -> msg_cls m = c -> wire_form c v os ->
  (Z.of_nat (length (msg_bytes c os)) < 2 ^ 32)%Z ->
  emits (msg_serialize true m) (msg_bytes c os) (Z.of_nat (length (msg_bytes c os))).
Proof.
  intros Hm Hc Hw Hl. rewrite (msg_serialize_keys c m v os) by done.
  unfold msg_bytes in *. rewrite length_app, length_be_encode in *.
  eapply emits_bind.
  - rewrite <- Hc. apply (emits_msg_header m v); [done|by apply (wire_form_check c m v os)].
  - rewrite Nat2Z.inj_add. apply emits_keys; [by apply (wire_form_keys c m v)|lia..].
Qed.

Lemma msg_header_roundtrip c :
  is_u32 (make_msg_header (MSG_TYPE c)) /\ extract_msg_type (make_msg_header (MSG_TYPE c)) = MSG_TYPE c.
Proof. destruct c; (split; [split; vm_compute; congruence|done]). Qed.

Lemma parses_msg c m v os :
  msg_view m v -> msg_cls m = c -> wire_form c v os ->
  (Z.of_nat (length (msg_bytes c os)) < 2 ^ 32)%Z ->
  parses (deserialize_msg register_known_ies false) (msg_bytes c os) []
    (Some (m, Z.of_nat (length (msg_bytes c os)))).
Proof.
  intros Hm Hc Hw Hl b l Hb. rewrite app_nil_r in Hb.
  destruct (msg_header_roundtrip c) as [Hh Ht]. unfold msg_bytes in Hb.
  destruct (parses_try _ _ _ _ (parses_peek32 _ (objects_bytes os) Hh) b l Hb)
    as (b0 & E0 & B0 & P0 & N0). rewrite <- (app_nil_r (objects_bytes os)) in N0.
  destruct (parses_try _ _ _ _ (parses_decode32 _ (objects_bytes os ++ []) Hh) b0 l N0)
    as (b1 & E1 & B1 & P1 & N1).
  pose proof Hm as (Hv & Ho & Hmt). destruct (wire_form_builds c v os Hv Hw) as [Hos [Hd Hms]].
  destruct Hms as (_ & Ho' & _).
  assert (set_mspecs os (new_msg c) = m) as Hres.
  { assert (forall ms x, msg_cls (set_mspecs ms x) = msg_cls x
             /\ msg_type (set_mspecs ms x) = msg_type x) as Hk.
    { induction ms as [|o ms IH]; intros x; [done|]. cbn [set_mspecs fold_left].
      destruct (IH (set_object o x)) as [I1 I2]. unfold set_mspecs in I1, I2. rewrite I1, I2.
      unfold set_object. by destruct (unique o). }
    destruct (Hk os (new_msg c)) as [K1 K2].
    revert K1 K2 Ho'. destruct (set_mspecs os (new_msg c)), m; cbn in *. intros; subst. by f_equal. }
  unfold msg_bytes in *. rewrite length_app, length_be_encode in *.
  destruct (parses_objects os (length (objects_bytes os)) (new_msg c) 4 Hos Hd
              (objects_bytes_length os) ltac:(lia) ltac:(lia) b1 l N1) as (b2 & E2 & B2 & P2 & N2).
  exists b2. cbn in P0. split_and!; [|congruence|lia|done].
  unfold deserialize_msg, bind at 1. rewrite E0. cbn beta iota. rewrite Ht, new_instance_msg.
  unfold msg_deserialize, bind at 1. rewrite E1. cbn beta iota. unfold bind at 1, rd_left at 1.
  rewrite (next_bytes_left _ _ N1), app_nil_r, Ht.
  assert (set_msg_type (MSG_TYPE c) (new_msg c) = new_msg c) as -> by by destruct c.
  unfold bind at 1. rewrite E2. cbn beta iota. rewrite Hres.
  assert ((get_num_objects m =? 0)%nat = false) as ->.
  { unfold get_num_objects, store_size. rewrite Ho. by destruct Hw. }
  unfold ret. do 4 f_equal. lia.
Qed.

Lemma serialized_size_object o :
  object_wf o -> object_serialized_size o = Z.of_nat (length (object_bytes o)).
Proof.
  intros Hwf. pose proof (serialized_size_bytes o Hwf). unfold object_bytes, OBJ_HEADER_LENGTH in *.
  rewrite length_app, length_be_encode. lia.
Qed.

Lemma serialized_size_msg c m v os :
  msg_view m v -> msg_cls m = c -> wire_form c v os ->
  get_serialized_size m = Z.of_nat (length (msg_bytes c os)).
Proof.
  intros Hm Hc Hw. destruct Hm as ((W1 & W2 & W3 & W4 & W5 & W6 & _) & Ho & _).
  unfold get_serialized_size, msg_bytes. rewrite Ho, length_app, length_be_encode.
  assert (forall l n acc, Forall (fun o => object_wf o /\ object_type o = OT_ipap_message) l ->
    fold_left (fun size (kv : ie_object_key * anslp_object) => (size + object_serialized_size (snd kv))%Z)
      (ipap_entries n l) acc = (acc + Z.of_nat (length (objects_bytes l)))%Z) as Hi.
  { induction l as [|o l IH]; intros n acc Hl; cbn [ipap_entries fold_left objects_bytes length].
    - lia.
    - inversion Hl as [|? ? [Hwf _] Hl']; subst. cbn [snd].
      rewrite IH, serialized_size_object, length_app by done. lia. }
  destruct Hw; cbn in W1, W2, W3, W4, W5, W6; unfold store_of_view, slots;
    cbn [slot v_inf v_sme v_mhc v_msn v_slf v_ipap app fold_left snd objects_bytes];
    rewrite Hi by done; rewrite ?length_app;
    repeat (rewrite serialized_size_object by naive_solver);
    cbn [objects_bytes]; rewrite ?length_app; cbn [length]; unfold HEADER_LENGTH; lia.
Qed.
End Message_roundtrip.

(** ** Progress of the parser.

    [mono c n]: a run of [c] does not fault; when it returns [a] the buffer is
    unchanged and the position has moved by at least [n a]. *)
Section Progress.
Context `{Libs} `{NetMsg} `{!NetMsgLaws} `{!ProtlibIE ie}.

Definition mono {A} (c : M RD A) (n : A -> nat) : Prop :=
  forall m l, match c (m, l) with
  | (Normal a, (m', _)) => nm_bytes m' = nm_bytes m /\ nm_pos m + n a <= nm_pos m'
  | (Raised _, (m', _)) => nm_bytes m' = nm_bytes m /\ nm_pos m <= nm_pos m'
  | (Faulted _, _) => False
  end.

Lemma mono_ret {A} (a : A) n : n a = 0 -> mono (ret a) n.
Proof. intros Hn m l. cbn. rewrite Hn. split; [done|lia]. Qed.

Lemma mono_bind {A B} (c : M RD A) (k : A -> M RD B) n n' :
  mono c n -> (forall a, mono (k a) (fun b => n' b - n a)) -> mono (bind c k) n'.
Proof.
  intros Hc Hk m l. unfold bind. specialize (Hc m l).
  destruct (c (m, l)) as [[a|e|f] [m1 l1]]; try done. destruct Hc as [B1 P1].
  specialize (Hk a m1 l1). destruct (k a (m1, l1)) as [[b|e|f] [m2 l2]]; try done;
    destruct Hk as [B2 P2]; (split; [congruence|lia]).
Qed.

Lemma mono_weaken {A} (c : M RD A) n n' : mono c n -> (forall a, n' a <= n a) -> mono c n'.
Proof.
  intros Hc Hn m l. specialize (Hc m l). destruct (c (m, l)) as [[a|e|f] [m1 l1]]; try done.
  destruct Hc as [B1 P1]. specialize (Hn a). split; [done|lia].
Qed.

Lemma mono_raise {A} e (n : A -> nat) : mono (raise e) n.
Proof. intros m l. cbn. split; [done|lia]. Qed.

Lemma mono_put_error e n : n tt = 0 -> mono (put_error e) n.
Proof. intros Hn m l. cbn. rewrite Hn. split; [done|lia]. Qed.

Lemma mono_decode32 : mono decode32 (fun _ => 4).
Proof.
  intros m l. unfold decode32. pose proof (nm_decode32_reads m) as Hd. destruct (nm_peek32 m).
  - destruct Hd as (m' & -> & HB & HP). split; [done|lia].
  - rewrite Hd. split; [done|lia].
Qed.

Lemma mono_peek32 : mono peek32 (fun _ => 0).
Proof. intros m l. unfold peek32. destruct (nm_peek32 m); (split; [done|lia]). Qed.

Lemma mono_read_pos : mono rd_pos (fun _ => 0).
Proof. intros m l. cbn. split; [done|lia]. Qed.

Lemma mono_read_left : mono rd_left (fun _ => 0).
Proof. intros m l. cbn. split; [done|lia]. Qed.

Definition on_some {A} (n : nat) (o : option A) : nat := match o with Some _ => n | None => 0 end.

Lemma mono_try d n : mono d (fun _ => n) -> mono (try_decode d) (on_some n).
Proof.
  intros Hd m l. unfold try_decode, catch, bind. specialize (Hd m l).
  destruct (d (m, l)) as [[a|e|f] [m1 l1]]; try done.
  destruct Hd as [B1 P1]. destruct e; cbn; (split; [done|lia]).
Qed.

Lemma mono_deserialize_header o : mono (deserialize_header o) (on_some 4).
Proof.
  intros m l. unfold deserialize_header. unfold bind at 1. cbn [rd_pos]. unfold bind at 1.
  pose proof (mono_try decode32 4 mono_decode32 m l) as Ht.
  destruct (try_decode decode32 (m, l)) as [[[h|]|e|f] [m1 l1]] eqn:E; cbn in Ht; try done.
  destruct Ht as [B1 P1]. unfold bind at 1, rd_left at 1.
  destruct (Z.of_nat (nm_bytes_left m1) <? _)%Z eqn:El.
  - unfold bind, put_error. cbn. unfold set_pos.
    pose proof (nm_set_pos_moves (nm_pos m) m1) as Hs. case_decide.
    + destruct Hs as (m2 & -> & B2 & P2). cbn. split; [congruence|lia].
    + rewrite Hs. split; [done|lia].
  - cbn. split; [done|lia].
Qed.

Lemma mono_ipap_body i o n :
  mono (ipap_deserialize_body i o n) (fun _ => 0).
Proof.
  intros m l. unfold ipap_deserialize_body, bind at 1, rd_pos at 1, bind at 1, copy_to at 1.
  destruct (nm_copy_to m _ _) as [b|]; [|cbn; split; [done|lia]].
  destruct (ipap_import (ipap_close i) b) as [[i' k]|]; [|cbn; split; [done|lia]].
  destruct (forallb _ _); [|cbn; split; [done|lia]].
  unfold bind, set_pos. pose proof (nm_set_pos_moves (nm_pos m + Z.to_nat n) m) as Hs. case_decide.
  - destruct Hs as (m2 & -> & B2 & P2). cbn. split; [congruence|lia].
  - rewrite Hs. split; [done|lia].
Qed.

Lemma mono_deserialize_body o n skip :
  mono (deserialize_body o n skip) (fun _ => 0).
Proof.
  unfold deserialize_body.
  destruct (body o); try (eapply mono_bind; [apply mono_decode32|intros; by apply mono_ret]);
    [|apply mono_ipap_body].
  unfold information_code_deserialize_body. eapply mono_bind; [apply mono_decode32|].
  intros v. cbv zeta. destruct (negb _); [|by apply mono_ret].
  eapply mono_bind; [by apply (mono_put_error _ (fun _ => 0))|]. intros ?.
  destruct (negb skip); by apply mono_ret.
Qed.

Lemma mono_object_deserialize o skip : mono (object_deserialize o skip) (on_some 4).
Proof.
  unfold object_deserialize. eapply mono_bind; [apply mono_read_pos|]. intros start_pos.
  destruct (negb _).
  { eapply mono_bind; [by apply (mono_put_error _ (fun _ => 0))|]. intros ?. by apply mono_ret. }
  eapply mono_bind; [apply mono_deserialize_header|]. intros [[o' n]|]; [|by apply mono_ret].
  eapply (mono_bind _ _ (fun _ => 0)).
  { apply mono_deserialize_body. }
  intros [o''|]; [|by apply mono_ret].
  eapply mono_bind; [apply mono_read_pos|]. intros pos. apply mono_ret. done.
Qed.

Lemma mono_deserialize_object r skip : mono (deserialize_object r skip) (on_some 4).
Proof.
  unfold deserialize_object. eapply mono_bind; [apply (mono_try _ 0 mono_peek32)|].
  intros [h|]; [|by apply mono_ret].
  destruct (new_instance _ _ _ _) as [[m|o]|].
  - by apply mono_ret.
  - eapply mono_weaken; [apply mono_object_deserialize|]. intros; cbn; lia.
  - eapply mono_bind; [by apply (mono_put_error _ (fun _ => 0))|]. intros ?. by apply mono_ret.
Qed.

(** Each round of the message loop consumes at least a header, so as many
    rounds as there are bytes are enough. *)
Lemma deserialize_objects_total fuel r skip m n b l :
  nm_bytes_left b <= fuel ->
  match deserialize_objects fuel r skip m n (b, l) with (Faulted _, _) => False | _ => True end.
Proof.
  revert m n b l. induction fuel as [|fuel IH]; intros m n b l Hf; cbn [deserialize_objects];
    unfold bind at 1, rd_left at 1.
  - by replace (nm_bytes_left b =? 0)%nat with true by (symmetry; apply Nat.eqb_eq; lia).
  - destruct (Nat.eqb_spec (nm_bytes_left b) 0); [done|]. unfold bind at 1.
    pose proof (mono_deserialize_object r skip b l) as Ho.
    destruct (deserialize_object r skip (b, l)) as [[[[o k]|]|e|f] [b1 l1]]; try done.
    destruct Ho as [B1 P1]. cbn in P1.
    assert (nm_bytes_left b1 <= fuel) by (unfold nm_bytes_left in *; rewrite B1; lia).
    destruct (unique o && _); [|by apply IH].
    unfold bind, put_error. destruct (negb skip); [done|by apply IH].
Qed.
End Progress.

(** ** The codec's contract. *)
Section Contract.
Context `{Libs} `{!LibsLaws} `{NetMsg} `{!NetMsgLaws} `{!ProtlibIE ie} `{!ProtlibIELaws ie}.

(** An information code about an object type is refused by [check_body]. *)
Lemma object_type_refused o s c t buf : body o = Information_code s c t -> (0 < t < 2 ^ 16)%Z ->
  object_check o = false /\ object_serialize true o buf = (Raised (Ie_error "check_ser_args"), buf).
Proof.
  intros Hb Ht. assert (object_check o = false) as E.
  { unfold object_check. rewrite Hb. cbn. unfold information_code_check_body.
    change (Z.land t 0xFFFF) with (Z.land t (2 ^ 16 - 1)). rewrite (land_mask t), Z.mod_small by lia.
    destruct (Z.eqb_spec t 0); [lia|]. cbn [negb]. rewrite orb_true_r. by destruct (negb _). }
  split; [done|]. unfold object_serialize, bind, get, check_ser_args. rewrite E. by rewrite check_ser_args_ok.
Qed.


(** A message written into a buffer of its size, and read from the bytes. *)
Lemma message_on_the_wire (m : anslp_msg) (v : view) (os : list anslp_object)
  (Hm : msg_view m v) (Hw : wire_form (msg_cls m) v os)
  (Hsize : (get_serialized_size m < 2 ^ 32)%Z) :
  let size := get_serialized_size m in
  exists buf, msg_serialize true m (nm_new (Z.to_nat size)) = (Normal size, buf)
    /\ nm_pos buf = Z.to_nat size
    /\ exists rd, iemanager_deserialize register_known_ies cat_anslp_msg false
                    (nm_of_bytes (nm_bytes buf), [])
                  = (Normal (Some (IE_msg m, size)), (rd, [])) /\ nm_bytes_left rd = 0.
Proof.
  intros size. unfold size. rewrite (serialized_size_msg _ m v os) in * by done. clear size.
  set (c := msg_cls m) in *. rewrite Nat2Z.id.
  destruct (nm_new_bytes (length (msg_bytes c os))) as [NB NP].
  destruct (emits_msg c m v os Hm eq_refl Hw Hsize (nm_new (length (msg_bytes c os)))) as (buf & E & B & P).
  { rewrite NB, NP, length_replicate. lia. }
  exists buf. split; [done|]. split; [by rewrite P, NP|].
  destruct (nm_of_bytes_bytes (nm_bytes buf)) as [RB RP].
  destruct (parses_msg c m v os Hm eq_refl Hw Hsize (nm_of_bytes (nm_bytes buf)) []) as (rd & E' & B' & P' & N').
  { split; rewrite RB, RP; [lia|]. rewrite B, NP, NB. unfold write_at.
    rewrite take_0, drop_0, (drop_ge (replicate _ _)) by (rewrite length_replicate; lia). done. }
  exists rd. split; [|by apply next_bytes_left in N'].
  unfold iemanager_deserialize, bind. rewrite Z.eqb_refl, E'. done.
Qed.

(** C14. Round trip of messages: a message with the objects its class
    requires is written to exactly [get_serialized_size] bytes, and
    [ANSLP_IEManager::deserialize] on these bytes gives the same message -
    same class, same objects under the same keys, IPAP messages in the same
    order - consuming all of them and reporting no error. *)
Theorem message_roundtrip (m : anslp_msg) (v : view) (os : list anslp_object)
  (Hm : msg_view m v) (Hw : wire_form (msg_cls m) v os)
  (Hsize : (get_serialized_size m < 2 ^ 32)%Z) :
  let size := get_serialized_size m in
  exists buf, msg_serialize true m (nm_new (Z.to_nat size)) = (Normal size, buf)
    /\ nm_pos buf = Z.to_nat size
    /\ exists rd, iemanager_deserialize register_known_ies cat_anslp_msg false
                    (nm_of_bytes (nm_bytes buf), [])
                  = (Normal (Some (IE_msg m, size)), (rd, [])) /\ nm_bytes_left rd = 0.
Proof. by apply (message_on_the_wire m v os). Qed.

Lemma deserialize_msg_no_fault (r : iem) (skip : bool) (buf : netmsg) (errs : list ie_error) f :
  fst (deserialize_msg r skip (buf, errs)) <> Faulted f.
Proof.
   unfold deserialize_msg, bind at 1.
  pose proof (mono_try peek32 0 mono_peek32 buf errs) as Hp.
  destruct (try_decode peek32 (buf, errs)) as [[[h|]|e|g] [b1 l1]]; try done.
  destruct (new_instance _ _ _ _) as [[m|o]|]; try done.
  unfold msg_deserialize, bind at 1.
  pose proof (mono_try decode32 4 mono_decode32 b1 l1) as Hd.
  destruct (try_decode decode32 (b1, l1)) as [[[h'|]|e|g] [b2 l2]]; try done.
  unfold bind at 1, rd_left at 1, bind at 1.
  pose proof (deserialize_objects_total (nm_bytes_left b2) r skip
    (set_msg_type (extract_msg_type h') m) 4 b2 l2 ltac:(lia)) as Ho.
  destruct (deserialize_objects _ _ _ _ _ _) as [[[[m' n]|]|e|g] [b3 l3]]; try done.
  destruct (get_num_objects m' =? 0)%nat; [|done]. unfold bind, put_error. by destruct skip.
Qed.

(** C16. The parser always comes to an end: on any bytes, well-formed or not,
    reading a message returns a message, returns NULL or throws; the loop
    over the objects never runs for more rounds than there are bytes, since
    every round consumes at least an object header. *)
Theorem deserialize_msg_terminates (r : iem) (skip : bool) (buf : netmsg) (errs : list ie_error) :
  ~ exists f, fst (deserialize_msg r skip (buf, errs)) = Faulted f.
Proof. intros [f Hf]. by eapply deserialize_msg_no_fault. Qed.

(** An information code about an object type cannot be sent: whatever
    16-bit object type other than 0 the code names, [check_body] refuses it
    and [serialize] throws instead of writing. *)
Theorem information_code_object_type_rejected (severity code otype : Z) (buf : netmsg)
  (Ht : (0 < otype < 2 ^ 16)%Z) :
  object_check (new_information_code severity code otype tr_mandatory true) = false
  /\ object_serialize true (new_information_code severity code otype tr_mandatory true) buf
     = (Raised (Ie_error "check_ser_args"), buf).
Proof. by eapply object_type_refused. Qed.
End Contract.

(** ** The contract on concrete messages. *)
Module Codec_examples.
Import Concrete.

Definition ex_ipap (l : list Z) : anslp_object := new_ipap_message (H := simple_libs) l.

Definition ex_create : anslp_msg :=
  set_mspecs [ex_ipap [7; 8; 9]%Z; ex_ipap [1]%Z]
    (create_set_session_lifetime 30
       (create_set_message_hop_count 20
          (create_set_selection_auctioning_entities sme_any
             (create_set_msg_sequence_number 77 new_anslp_create)))).

Definition ex_view : view :=
  mk_view None (Some (new_selection_auctioning_entities sme_any tr_mandatory true))
    (Some (new_message_hop_count 20 tr_mandatory true))
    (Some (new_msg_sequence_number 77 tr_mandatory true))
    (Some (new_session_lifetime 30 tr_mandatory true)) [ex_ipap [7; 8; 9]%Z; ex_ipap [1]%Z].

Lemma ex_ipap_wf l : c_valid l = true -> object_wf (ex_ipap l).
Proof.
  intros Hv. split; [done|]. split; [done|]. cbn.
  assert (length l < 256 /\ Forall (fun x => 0 <= x < 256)%Z l) as [Hl Hb]
    by (unfold c_valid in Hv; case_bool_decide; done).
  split; [|lia]. split; [cbn; by rewrite Hv|]. exists (Z.of_nat (length l) :: l).
  split; [done|]. split; [cbn; lia|]. constructor; [lia|done].
Qed.

Lemma ex_create_view : msg_view ex_create ex_view.
Proof.
  split; [|done]. unfold view_wf, ex_view; cbn [v_inf v_sme v_mhc v_msn v_slf v_ipap].
  split; [done|]. do 4 (split; [unfold slot_wf, object_wf; cbn; unfold is_u32; split_and!; done|]).
  split; [|done]. rewrite !Forall_cons, Forall_nil. split_and!; try done; by apply ex_ipap_wf.
Qed.


Theorem message_roundtrip_witness :
  exists buf, msg_serialize true ex_create (nm_new 52) = (Normal 52%Z, buf)
    /\ exists rd, iemanager_deserialize register_known_ies cat_anslp_msg false
                    (nm_of_bytes (nm_bytes buf), []) = (Normal (Some (IE_msg ex_create, 52%Z)), (rd, [])).
Proof.
  destruct (message_roundtrip ex_create ex_view
    [new_msg_sequence_number 77 tr_mandatory true; new_session_lifetime 30 tr_mandatory true;
     new_selection_auctioning_entities sme_any tr_mandatory true;
     new_message_hop_count 20 tr_mandatory true; ex_ipap [7; 8; 9]%Z; ex_ipap [1]%Z]
    ex_create_view (wire_create _ _ _ _ _) eq_refl) as (buf & E & _ & rd & E' & _).
  exists buf. split; [exact E|]. exists rd. exact E'.
Defined.

Theorem deserialize_msg_terminates_witness :
  ~ exists f, fst (deserialize_msg register_known_ies false (nm_of_bytes [0; 1; 0; 1; 0; 0xF8; 9; 9; 9]%Z, []))
              = Faulted f.
Proof. apply deserialize_msg_terminates. Defined.

Theorem information_code_object_type_rejected_witness :
  object_check (new_information_code sc_permanent_failure fail_internal_error 0xF8 tr_mandatory true) = false.
Proof.
  apply (information_code_object_type_rejected sc_permanent_failure fail_internal_error 0xF8 (nm_new 8)).
  lia.
Defined.
End Codec_examples.
