(* ===== verification/Parser.v ===== *)
(** * What the parser lets through

    [ANSLP_IEManager::deserialize] is the gate between the network and the
    sessions: whatever bytes arrive, a message it returns is one the classes
    could have built - every object under its own key, with the values its
    class allows, and the unique objects at most once. *)
From S2P Require Import Prelude Outcome StdMap External Objects Store Messages Codec.

Definition byte (z : Z) : Prop := (0 <= z < 256)%Z.

Lemma be_decode_range l : Forall byte l -> (0 <= be_decode l < 256 ^ Z.of_nat (length l))%Z.
Proof.
  induction l as [|x l IH]; intros Hl; [done|]. inversion Hl as [|? ? Hx Hl']; subst. specialize (IH Hl').
  unfold be_decode. cbn [fold_left length]. rewrite be_decode_acc, Nat2Z.inj_succ, Z.pow_succ_r by lia.
  unfold byte in Hx. nia.
Qed.

(** A hit in the registry: the category is right, and the type is the one of
    the prototype. *)
Ltac registry_case Ht :=
  let Hc := fresh in let E := fresh in
  assert (Hc := f_equal (fun k => fst (fst k)) Ht); assert (E := f_equal (fun k => snd (fst k)) Ht);
  first [vm_compute in Hc; discriminate Hc | cbn in E; subst; intros [= <-]; by eexists].

Section Registry_inversion.
Context `{Libs} `{!ProtlibIE ie} `{!ProtlibIELaws ie}.

(** What the registry hands out. *)
Lemma new_instance_object_inv t p :
  new_instance register_known_ies cat_anslp_object t 0 = Some p ->
  exists o, p = IE_object o /\ t = body_type (body o) /\ unique o = body_unique (body o).
Proof.
  unfold new_instance. rewrite iem_new_instance_spec.
  unfold lookup_ie, register_known_ies; cbn [fold_left ie_register]. rewrite !iem_lookup_register, !iem_lookup_new.
  repeat (case_decide as Ht; [by registry_case Ht|clear Ht]). cbn.
  repeat (case_decide as Ht; [by registry_case Ht|clear Ht]). done.
Qed.

Lemma new_instance_ipap :
  new_instance register_known_ies cat_anslp_object OT_ipap_message 0 = Some (IE_object default_ipap_message).
Proof.
  unfold new_instance. rewrite iem_new_instance_spec.
  unfold lookup_ie, register_known_ies; cbn [fold_left ie_register]. rewrite !iem_lookup_register.
  by rewrite decide_True by done.
Qed.

Lemma new_instance_msg_inv t p :
  new_instance register_known_ies cat_anslp_msg t 0 = Some p -> exists c, p = IE_msg (new_msg c) /\ t = MSG_TYPE c.
Proof.
  unfold new_instance. rewrite iem_new_instance_spec.
  unfold lookup_ie, register_known_ies; cbn [fold_left ie_register]. rewrite !iem_lookup_register, !iem_lookup_new.
  repeat (case_decide as Ht; [by registry_case Ht|clear Ht]). cbn.
  repeat (case_decide as Ht; [by registry_case Ht|clear Ht]). done.
Qed.
End Registry_inversion.

(** ** Reading bytes.

    [yields c P]: a run of [c] on a buffer of bytes leaves it one, and what it
    returns satisfies [P]. *)
Section Soundness.
Context `{Libs} `{!LibsLaws} `{NetMsg} `{!NetMsgLaws} `{!ProtlibIE ie} `{!ProtlibIELaws ie}.

Definition bytes (m : netmsg) : Prop := Forall byte (nm_bytes m).

Definition yields {A} (c : M RD A) (P : A -> Prop) : Prop :=
  forall m l, bytes m -> match c (m, l) with (Normal a, (m', _)) => bytes m' /\ P a | _ => True end.

Lemma yields_ret {A} (a : A) (P : A -> Prop) : P a -> yields (ret a) P.
Proof. by intros Ha m l Hm. Qed.

Lemma yields_bind {A B} (c : M RD A) (k : A -> M RD B) P Q :
  yields c P -> (forall a, P a -> yields (k a) Q) -> yields (bind c k) Q.
Proof.
  intros Hc Hk m l Hm. unfold bind. specialize (Hc m l Hm).
  destruct (c (m, l)) as [[a|e|f] [m1 l1]]; try done. destruct Hc as [Hm1 Ha]. exact (Hk a Ha m1 l1 Hm1).
Qed.

Lemma yields_mono {A} (c : M RD A) (n : A -> nat) : mono c n -> yields c (fun _ => True).
Proof.
  intros Hc m l Hm. specialize (Hc m l). destruct (c (m, l)) as [[a|e|f] [m1 l1]]; try done.
  destruct Hc as [B _]. unfold bytes. by rewrite B.
Qed.

Lemma peek_u32 m h : bytes m -> nm_peek32 m = Some h -> is_u32 h.
Proof.
  intros Hm. rewrite nm_peek32_reads. case_decide; [|done]. intros [= <-].
  pose proof (be_decode_range (take 4 (drop (nm_pos m) (nm_bytes m)))) as Hr.
  rewrite length_take, length_drop, Nat.min_l in Hr by lia.
  apply Hr, Forall_take, Forall_drop, Hm.
Qed.

Lemma decode_peek m v m' : nm_decode32 m = Some (v, m') -> nm_peek32 m = Some v /\ nm_bytes m' = nm_bytes m.
Proof.
  intros E. pose proof (nm_decode32_reads m) as Hd. destruct (nm_peek32 m) as [v'|]; [|congruence].
  destruct Hd as (m2 & E' & B & _). rewrite E in E'. by injection E' as -> ->.
Qed.

Lemma yields_decode32 : yields decode32 is_u32.
Proof.
  intros m l Hm. unfold decode32. destruct (nm_decode32 m) as [[v m']|] eqn:E; [|done].
  destruct (decode_peek _ _ _ E) as [Hp B]. split; [unfold bytes; by rewrite B|by apply (peek_u32 m)].
Qed.

Lemma yields_copy_to p n : yields (copy_to p n) (Forall byte).
Proof.
  intros m l Hm. unfold copy_to. rewrite nm_copy_to_reads. case_decide; [|done].
  split; [done|]. by apply Forall_take, Forall_drop.
Qed.

(** ** Bodies. *)
(** Whether a body is of the same class as the one it replaces. *)
Definition same_class (b b' : object_body) : Prop := body_type b = body_type b' /\ body_unique b = body_unique b'.

Definition body_read (o : anslp_object) (r : option anslp_object) : Prop :=
  match r with
  | Some o' => exists b, o' = set_body b o /\ same_class (body o) b /\ body_wf b
  | None => True
  end.

Lemma information_code_accepted s t : information_code_check_body s (Z.land t 0xFFFF) = true -> Z.land t 0xFFFF = 0%Z.
Proof.
  unfold information_code_check_body. rewrite <- Z.land_assoc, Z.land_diag.
  destruct (Z.land t 65535 =? 0)%Z eqn:E; [|by rewrite orb_true_r]. intros _. by apply Z.eqb_eq.
Qed.

Lemma yields_information_code o s c t :
  body o = Information_code s c t -> yields (information_code_deserialize_body o false) (body_read o).
Proof.
  intros Eb. unfold information_code_deserialize_body. eapply yields_bind; [apply yields_decode32|].
  intros v Hv. cbv zeta. destruct (object_check _) eqn:Ec; cbn [negb].
  - apply yields_ret. eexists. split; [done|]. split; [by rewrite Eb|].
    unfold object_check in Ec. destruct (negb _) in Ec; [done|]. cbn [body set_body check_body] in Ec.
    apply (information_code_accepted _) in Ec. cbn [body_wf]. rewrite Ec.
    change 15%Z with (Z.ones 4). change 255%Z with (Z.ones 8). rewrite !Z.land_ones by lia.
    split_and!; try done; apply Z.mod_pos_bound; lia.
  - eapply yields_bind; [apply (yields_mono _ _ (mono_put_error _ (fun _ => 0) eq_refl))|].
    intros ? _. by apply yields_ret.
Qed.

Lemma yields_ipap o i n : body o = Ipap_message i -> (0 <= n <= 16380)%Z -> yields (ipap_deserialize_body i o n) (body_read o).
Proof.
  intros Eb Hn. unfold ipap_deserialize_body.
  eapply yields_bind; [apply (yields_mono _ _ mono_read_pos)|]. intros p _.
  intros m l Hm. unfold bind at 1, copy_to. rewrite nm_copy_to_reads. case_decide as Hl; [|done].
  set (buf := take (Z.to_nat n) (drop p (nm_bytes m))).
  assert (Hbuf : Forall byte buf) by by apply Forall_take, Forall_drop.
  destruct (ipap_import (ipap_close i) buf) as [[i' k]|] eqn:Ei; [|done].
  destruct (ipap_import_exports _ _ _ _ Hbuf Ei) as [Hx Ho]. destruct (forallb _ _); [|done].
  unfold bind, set_pos. pose proof (nm_set_pos_moves (p + Z.to_nat n) m) as Hs. case_decide; [|by rewrite Hs].
  destruct Hs as (m2 & -> & B2 & _). split; [unfold bytes; by rewrite B2|].
  eexists. split; [done|]. split; [by rewrite Eb|]. split; [done|].
  assert (length buf = Z.to_nat n) by (unfold buf; rewrite length_take, length_drop; lia). lia.
Qed.

Lemma yields_body o n : (0 <= n <= 16380)%Z -> yields (deserialize_body o n false) (body_read o).
Proof.
  intros Hn. unfold deserialize_body. destruct (body o) eqn:Eb.
  2: by eapply yields_information_code.
  5: by apply yields_ipap.
  all: eapply yields_bind; [apply yields_decode32|]; intros v' Hv; apply yields_ret;
    eexists; rewrite Eb; by split_and!.
Qed.

(** ** Objects. *)
Lemma header_read o m l h o' n m' l' :
  bytes m -> nm_peek32 m = Some h -> deserialize_header o (m, l) = (Normal (Some (o', n)), (m', l')) ->
  object_type o' = extract_object_type h /\ unique o' = unique o /\ body o' = body o
  /\ (0 <= n <= 16380)%Z /\ nm_bytes m' = nm_bytes m.
Proof.
  intros Hm Hp. unfold deserialize_header, bind at 1, rd_pos, bind at 1, try_decode, catch, bind at 1, decode32.
  destruct (nm_decode32 m) as [[v m1]|] eqn:E; [|done]. destruct (decode_peek _ _ _ E) as [Hp' B1].
  rewrite Hp in Hp'. injection Hp' as <-. unfold ret at 1, bind at 1, rd_left. destruct (_ <? _)%Z.
  { unfold bind, put_error, set_pos. by destruct (nm_set_pos _ _). }
  intros [= <- <- <- _]. split_and!; try done; unfold extract_body_length, u16; change 4095%Z with (Z.ones 12);
    rewrite Z.land_ones by lia; pose proof (Z.mod_pos_bound h (2 ^ 12) ltac:(lia)); rewrite Z.mod_small; lia.
Qed.

Lemma object_read m l o n m' l' :
  bytes m -> deserialize_object register_known_ies false (m, l) = (Normal (Some (o, n)), (m', l')) -> object_wf o.
Proof.
  intros Hm. unfold deserialize_object, bind at 1, try_decode, catch, bind at 1, peek32.
  destruct (nm_peek32 m) as [h|] eqn:Hp; [|done]. unfold ret at 1.
  destruct (new_instance _ _ _ _) as [p|] eqn:Ei; [|done].
  destruct (new_instance_object_inv _ _ Ei) as (o0 & -> & Ht & Hu).
  unfold object_deserialize, bind at 1, rd_pos at 1. rewrite check_deser_args_ok. cbn [negb]. unfold bind at 1.
  destruct (deserialize_header o0 (m, l)) as [[[[o1 k]|]|e|f] [m1 l1]] eqn:Eh; try done.
  destruct (header_read _ _ _ _ _ _ _ _ Hm Hp Eh) as (Ht1 & Hu1 & Hb1 & Hk & B1).
  unfold bind at 1. assert (Hm1 : bytes m1) by (unfold bytes; by rewrite B1).
  pose proof (yields_body o1 k Hk m1 l1 Hm1) as Hy.
  destruct (deserialize_body o1 k false (m1, l1)) as [[[o2|]|e|f] [m2 l2]]; try done.
  destruct Hy as [_ (b & -> & [Hc1 Hc2] & Hwf)]. unfold bind, rd_pos, ret. intros [= <- _ _ _].
  split_and!; cbn; [by rewrite Ht1, Ht, <- Hb1, Hc1|by rewrite Hu1, Hu, <- Hb1, Hc2|done].
Qed.

Lemma object_room r m l o n m' l' :
  deserialize_object r false (m, l) = (Normal (Some (o, n)), (m', l')) -> nm_pos m + 4 <= length (nm_bytes m).
Proof.
  unfold deserialize_object, bind at 1, try_decode, catch, bind at 1, peek32. rewrite nm_peek32_reads.
  by case_decide.
Qed.

(** ** Messages. *)
Lemma room_for_bytes o v k m :
  (Z.of_nat (length (v_ipap v) * 4 + nm_bytes_left m) < 2 ^ 32 - OT_ipap_message)%Z ->
  4 <= nm_bytes_left m -> k <= nm_bytes_left m - 4 ->
  room_for o v /\ (Z.of_nat (length (v_ipap (view_set o v)) * 4 + k) < 2 ^ 32 - OT_ipap_message)%Z.
Proof.
  intros Hl H4 Hk. split; [intros _; lia|].
  unfold view_set. destruct (body o); cbn; rewrite ?length_app; cbn; lia.
Qed.

Lemma objects_read fuel m v n m0 l m' n' b' l' :
  bytes m0 -> msg_view m v -> (Z.of_nat (length (v_ipap v) * 4 + nm_bytes_left m0) < 2 ^ 32 - OT_ipap_message)%Z ->
  deserialize_objects fuel register_known_ies false m n (m0, l) = (Normal (Some (m', n')), (b', l')) ->
  msg_cls m' = msg_cls m /\ (exists v', msg_view m' v') /\ nm_bytes_left b' = 0.
Proof.
  revert m v n m0 l. induction fuel as [|fuel IH]; intros m v n m0 l Hm Hv Hl; cbn [deserialize_objects];
    unfold bind at 1, rd_left at 1; destruct (Nat.eqb_spec (nm_bytes_left m0) 0) as [E0|E0].
  1, 3: intros [= <- _ <- _]; by eauto.
  { done. }
  unfold bind at 1. pose proof (mono_deserialize_object register_known_ies false m0 l) as Hmono.
  destruct (deserialize_object _ _ _) as [[[[o k]|]|e|f] [m1 l1]] eqn:Eo; try done.
  destruct Hmono as [B1 P1]. cbn in P1. pose proof (object_read _ _ _ _ _ _ Hm Eo) as Hwf.
  assert (Hleft : 4 <= nm_bytes_left m0 /\ nm_bytes_left m1 <= nm_bytes_left m0 - 4).
  { pose proof (object_room _ _ _ _ _ _ _ Eo). unfold nm_bytes_left in *. rewrite B1. lia. }
  destruct (room_for_bytes o v (nm_bytes_left m1) m0 Hl) as [Hr Hl1]; [lia..|].
  assert (Hcls : msg_cls (set_object o m) = msg_cls m) by (unfold set_object; by destruct (unique o)).
  destruct (unique o && _). { unfold bind, put_error. done. }
  intros E. rewrite <- Hcls. eapply IH; [|by apply (set_object_view m v o)|exact Hl1|exact E].
  unfold bytes. by rewrite B1.
Qed.

Lemma msg_read m l r n b' l' :
  bytes m -> (Z.of_nat (nm_bytes_left m) < 2 ^ 32 - OT_ipap_message)%Z ->
  deserialize_msg register_known_ies false (m, l) = (Normal (Some (r, n)), (b', l')) ->
  (exists v, msg_view r v) /\ get_num_objects r <> 0 /\ nm_bytes_left b' = 0.
Proof.
  intros Hm Hl. unfold deserialize_msg, bind at 1, try_decode at 1, catch at 1, bind at 1, peek32.
  destruct (nm_peek32 m) as [h|] eqn:Hp; [|done]. unfold ret at 1.
  destruct (new_instance _ _ _ _) as [p|] eqn:Ei; [|done].
  destruct (new_instance_msg_inv _ _ Ei) as (c & -> & Ht).
  unfold msg_deserialize, bind at 1, try_decode, catch, bind at 1, decode32.
  pose proof (nm_decode32_reads m) as Hd. rewrite Hp in Hd. destruct Hd as (m1 & E & B1 & P1). rewrite E.
  unfold ret at 1, bind at 1, rd_left at 1. rewrite Ht.
  assert (set_msg_type (MSG_TYPE c) (new_msg c) = new_msg c) as -> by by destruct c.
  unfold bind at 1. destruct (deserialize_objects _ _ _ _ _ _) as [[[[m2 k]|]|e|f] [b2 l2]] eqn:Eo; try done.
  destruct (objects_read (nm_bytes_left m1) (new_msg c) view_empty 4 m1 l m2 k b2 l2) as (_ & Hv & Hz); [|apply new_msg_view| |exact Eo|].
  - unfold bytes. by rewrite B1.
  - cbn [v_ipap view_empty length]. unfold nm_bytes_left in *. rewrite B1. lia.
  - destruct (Nat.eqb_spec (get_num_objects m2) 0); [unfold bind, put_error; done|].
    by intros [= <- _ <- _].
Qed.

Lemma parse_ie (data : list Z) (e : ie) (n : Z) (rd : netmsg) (errs : list ie_error)
  (Hdata : Forall byte data) (Hlen : (Z.of_nat (length data) < 2 ^ 32 - OT_ipap_message)%Z)
  (Hread : iemanager_deserialize register_known_ies cat_anslp_msg false (nm_of_bytes data, [])
           = (Normal (Some (e, n)), (rd, errs))) :
  exists m v, e = IE_msg m /\ msg_view m v /\ get_num_objects m <> 0 /\ nm_bytes_left rd = 0.
Proof.
  revert Hread. unfold iemanager_deserialize, bind. rewrite Z.eqb_refl.
  destruct (nm_of_bytes_bytes data) as [HB HP].
  destruct (deserialize_msg _ _ _) as [[[[m k]|]|x|f] [b l]] eqn:E; try done. intros [= <- _ <- _].
  destruct (msg_read _ _ _ _ _ _ ltac:(unfold bytes; by rewrite HB)
              ltac:(unfold nm_bytes_left; rewrite HB; lia) E) as ([v Hv] & Hn & Hz). eauto 10.
Qed.
(** C17. Soundness of the parser: whatever bytes come in from the network, a
    message that [ANSLP_IEManager::deserialize] returns is one the classes
    could have built.  It has at least one object, every object is filed
    under its own key and carries the type, the uniqueness flag and the
    values of its class - no object of an unknown class, no information code
    about an object type, no IPAP message that could not be written again -
    and every byte of the buffer was consumed. *)
Theorem parsed_well_formed (data : list Z) (e : ie) (n : Z) (rd : netmsg) (errs : list ie_error)
  (Hdata : Forall byte data) (Hlen : (Z.of_nat (length data) < 2 ^ 32 - OT_ipap_message)%Z)
  (Hread : iemanager_deserialize register_known_ies cat_anslp_msg false (nm_of_bytes data, [])
           = (Normal (Some (e, n)), (rd, errs))) :
  exists m v, e = IE_msg m /\ msg_view m v /\ get_num_objects m <> 0 /\ nm_bytes_left rd = 0.
Proof. by apply (parse_ie data e n rd errs). Qed.
End Soundness.
