(* ===== verification/SessionId.v ===== *)
(** * Session identifiers: include/session_id.h and src/session_id.cpp

    A session ID is four 32-bit words, printed as four decimal numbers with
    dots between them and parsed back with [strtoul], base detection
    included. *)
From S2P Require Import Prelude Outcome.
From Stdlib Require Import Ascii.

Record session_id := mk_session_id { w1 : Z; w2 : Z; w3 : Z; w4 : Z }.

#[export] Instance session_id_eq_dec : EqDecision session_id.
Proof. solve_decision. Defined.

(** [operator==]. *)
Definition session_id_eqb (a b : session_id) : bool :=
  (w1 a =? w1 b)%Z && (w2 a =? w2 b)%Z && (w3 a =? w3 b)%Z && (w4 a =? w4 b)%Z.

(** The hash of the session table. *)
Definition session_id_hash (i : session_id) : Z :=
  Z.lxor (Z.lxor (Z.lxor (w1 i) (w2 i)) (w3 i)) (w4 i).

Definition session_id_wf (i : session_id) : Prop :=
  is_u32 (w1 i) /\ is_u32 (w2 i) /\ is_u32 (w3 i) /\ is_u32 (w4 i).

(** ** Printing. *)
Definition digit (d : Z) : ascii := ascii_of_nat (48 + Z.to_nat d).

Fixpoint decimal_go (fuel : nat) (n : Z) (acc : list ascii) : list ascii :=
  match fuel with
  | O => acc
  | S fuel =>
      let acc := digit (n mod 10) :: acc in
      if (n / 10 =? 0)%Z then acc else decimal_go fuel (n / 10) acc
  end.

(** [snprintf(buf, sizeof buf, "%lu", n)] into a buffer of [size] bytes: at
      most [size - 1] characters.  20 digits are enough for 64 bits. *)
(** A number as [<<] and [%d] print it. *)
Definition decimal (z : Z) : list ascii :=
  if (z <? 0)%Z then "-"%char :: decimal_go 20 (- z) [] else decimal_go 20 z [].
Definition snprintf_lu (size : nat) (n : Z) : list ascii := take (size - 1) (decimal_go 20 n []).

Definition dot : ascii := "."%char.

(** [session_id::to_string]. *)
Definition to_string (i : session_id) : list ascii :=
  snprintf_lu 11 (w1 i) ++ [dot] ++ snprintf_lu 11 (w2 i) ++ [dot]
  ++ snprintf_lu 11 (w3 i) ++ [dot] ++ snprintf_lu 11 (w4 i).

(** ** [strtoul(s, &endp, 0)]: the value and what [endp] points at. *)
Definition is_space (c : ascii) : bool :=
  let n := nat_of_ascii c in (n =? 32)%nat || ((9 <=? n)%nat && (n <=? 13)%nat).

Definition digit_value (c : ascii) : Z :=
  let n := Z.of_nat (nat_of_ascii c) in
  if (48 <=? n)%Z && (n <=? 57)%Z then n - 48
  else if (97 <=? n)%Z && (n <=? 122)%Z then n - 87
  else if (65 <=? n)%Z && (n <=? 90)%Z then n - 55
  else 99.

Definition ULONG_MAX : Z := 2 ^ 64 - 1.

Fixpoint skip_spaces (s : list ascii) : list ascii :=
  match s with c :: s' => if is_space c then skip_spaces s' else s | [] => [] end.

(** The longest run of digits of the base. *)
Fixpoint digits_go (base acc : Z) (s : list ascii) : Z * list ascii :=
  match s with
  | c :: s' => if (digit_value c <? base)%Z then digits_go base (acc * base + digit_value c) s' else (acc, s)
  | [] => (acc, [])
  end.

Definition starts_with_digit (base : Z) (s : list ascii) : bool :=
  match s with c :: _ => (digit_value c <? base)%Z | [] => false end.

Definition strtoul (s : list ascii) : Z * list ascii :=
  let t := skip_spaces s in
  let '(neg, t) := match t with
                   | c :: t' => if Ascii.eqb c "-" then (true, t')
                                else if Ascii.eqb c "+" then (false, t') else (false, t)
                   | [] => (false, t)
                   end in
  let '(base, u) := match t with
                    | c :: x :: t' =>
                        if Ascii.eqb c "0" && (Ascii.eqb x "x" || Ascii.eqb x "X") && starts_with_digit 16 t'
                        then (16%Z, t')
                        else if Ascii.eqb c "0" then (8%Z, t) else (10%Z, t)
                    | [c] => if Ascii.eqb c "0" then (8%Z, t) else (10%Z, t)
                    | [] => (10%Z, t)
                    end in
  if starts_with_digit base u then
    let '(v, rest) := digits_go base 0 u in
    if (ULONG_MAX <? v)%Z then (ULONG_MAX, rest)
    else if neg then ((- v) mod 2 ^ 64, rest)%Z else (v, rest)
  else (0%Z, s).

(** ** Parsing. *)

(** [find_first_of('.', init)] on what is left from [init] on: the characters
    before the dot, and those behind it unless there is none. *)
Fixpoint cut_dot (s : list ascii) : list ascii * option (list ascii) :=
  match s with
  | [] => ([], None)
  | c :: s' => if Ascii.eqb c dot then ([], Some s')
               else let '(p, r) := cut_dot s' in (c :: p, r)
  end.

Definition invalid {A} : outcome A := Raised (Request_error (mk_request_error "Invalid session Id" 0 0)).

(** One part: its value is stored in [parts[i]], an array of five, before the
    part is checked. *)
Definition parse_part (i : nat) (part : list ascii) : outcome Z :=
  if (5 <=? i)%nat then Faulted Out_of_bounds
  else
    let '(n, rest) := strtoul part in
    match part, rest with
    | _ :: _, [] => Normal n
    | _, _ => invalid
    end.

(** The loop of the constructor and the last part behind it.  [s] is what is
    left from [init] on; a text without any dot makes the loop set [init] to 0
    again, so its only part is read twice. *)
Fixpoint parse_loop (fuel : nat) (i : nat) (parts : list Z) (whole s : list ascii) : outcome (nat * list Z) :=
  match fuel with
  | O => Faulted Loop_bound
  | S fuel =>
      let '(part, rest) := cut_dot s in
      obind (parse_part i part) (fun n =>
        let next := match rest with Some r => r | None => whole end in
        match cut_dot next with
        | (_, Some _) =>
            match rest with
            | Some _ => parse_loop fuel (S i) (parts ++ [n]) whole next
            | None => Faulted Loop_bound
            end
        | (last, None) =>
            obind (parse_part (S i) last) (fun k => Normal (S i, parts ++ [n; k]))
        end)
  end.

Definition parse (s : list ascii) : outcome session_id :=
  obind (parse_loop (S (length s)) 0 [] s s) (fun '(i, parts) =>
    match i, parts with
    | 3, [a; b; c; d] => Normal (mk_session_id (u32 a) (u32 b) (u32 c) (u32 d))
    | _, _ => invalid
    end).

Example parse_ex1 :
  parse (String.list_ascii_of_string "1.0x10.010. 7") = Normal (mk_session_id 1 16 8 7).
Proof. reflexivity. Qed.
Example parse_ex2 : parse (String.list_ascii_of_string "1.2.3.4.5") = invalid.
Proof. reflexivity. Qed.

(** ** Printing and parsing are inverse. *)
Definition is_decimal (c : ascii) : Prop := exists d, (0 <= d < 10)%Z /\ c = digit d.

Definition decimal_value (l : list ascii) (a : Z) : Z :=
  fold_left (fun a c => a * 10 + digit_value c)%Z l a.

Lemma digit_cases (P : Z -> Prop) d :
  (0 <= d < 10)%Z -> P 0%Z -> P 1%Z -> P 2%Z -> P 3%Z -> P 4%Z -> P 5%Z -> P 6%Z -> P 7%Z -> P 8%Z ->
  P 9%Z -> P d.
Proof.
  intros Hd. assert (d = 0 \/ d = 1 \/ d = 2 \/ d = 3 \/ d = 4 \/ d = 5 \/ d = 6 \/ d = 7 \/ d = 8 \/ d = 9)%Z
    as E by lia. naive_solver.
Qed.

Lemma digit_value_digit d : (0 <= d < 10)%Z -> digit_value (digit d) = d.
Proof. intros Hd. pattern d. by apply digit_cases. Qed.

Lemma digit_plain d :
  (0 <= d < 10)%Z ->
  is_space (digit d) = false /\ Ascii.eqb (digit d) "-" = false /\ Ascii.eqb (digit d) "+" = false
  /\ Ascii.eqb (digit d) dot = false /\ Ascii.eqb (digit d) "0" = (d =? 0)%Z
  /\ Ascii.eqb (digit d) "x" = false /\ Ascii.eqb (digit d) "X" = false.
Proof.
  intros Hd. pattern d. by apply digit_cases.
Qed.

(** The digits of a number: no leading zero, and one digit per power of ten. *)
Lemma decimal_go_spec fuel k n acc :
  (0 <= n < 10 ^ Z.of_nat k)%Z -> (0 < k <= fuel)%nat ->
  exists d ds, decimal_go fuel n acc = (digit d :: ds) ++ acc /\ (0 <= d < 10)%Z /\ Forall is_decimal ds
    /\ decimal_value (digit d :: ds) 0 = n /\ (d = 0%Z -> n = 0%Z /\ ds = []) /\ length (digit d :: ds) <= k.
Proof.
  revert k n acc. induction fuel as [|fuel IH]; intros k n acc Hn Hk; [lia|].
  cbn [decimal_go]. pose proof (Z.mod_pos_bound n 10 eq_refl) as Hm.
  pose proof (Z.div_mod n 10 ltac:(lia)) as Hdm.
  destruct (Z.eqb_spec (n / 10) 0) as [E|E].
  - exists (n mod 10)%Z, []. split_and!; try done; try (cbn; lia).
    + cbn. rewrite digit_value_digit by done. lia.
    + intros. split; [lia|done].
  - destruct k as [|k]; [lia|]. assert (Hk10 : (10 ^ Z.of_nat (S k) = 10 * 10 ^ Z.of_nat k)%Z)
      by (rewrite Nat2Z.inj_succ, Z.pow_succ_r; lia).
    assert (Hn10 : (0 <= n / 10 < 10 ^ Z.of_nat k)%Z) by (split; [apply Z.div_pos|apply Z.div_lt_upper_bound]; lia).
    destruct k as [|k]; [cbn in Hn10; lia|].
    destruct (IH (S k) (n / 10)%Z (digit (n mod 10) :: acc) Hn10) as (d & ds & E' & Hd & Hds & Hv & H0 & Hl); [lia|].
    exists d, (ds ++ [digit (n mod 10)]). rewrite E'. split_and!; try done; try lia.
    + cbn. by rewrite <- app_assoc.
    + apply Forall_app. split; [done|]. constructor; [|done]. by exists (n mod 10)%Z.
    + cbn in Hv |- *. rewrite fold_left_app. cbn. unfold decimal_value in Hv. rewrite Hv.
      rewrite digit_value_digit by done. lia.
    + cbn in Hl |- *. rewrite length_app. cbn. lia.
Qed.

Lemma snprintf_lu_spec n :
  is_u32 n -> exists d ds, snprintf_lu 11 n = digit d :: ds /\ (0 <= d < 10)%Z /\ Forall is_decimal ds
    /\ decimal_value (digit d :: ds) 0 = n /\ (d = 0%Z -> n = 0%Z /\ ds = []).
Proof.
  intros Hn. destruct (decimal_go_spec 20 10 n []) as (d & ds & E & Hd & Hds & Hv & H0 & Hl).
  { unfold is_u32 in Hn. lia. } { lia. }
  exists d, ds. unfold snprintf_lu. rewrite E, app_nil_r, take_ge by (cbn in *; lia). done.
Qed.

Lemma digits_go_decimal ds a : Forall is_decimal ds -> digits_go 10 a ds = (decimal_value ds a, []).
Proof.
  intros Hds. revert a. induction Hds as [|c ds (d & Hd & ->) Hds IH]; intros a; [done|].
  cbn [digits_go]. rewrite digit_value_digit by done. replace (d <? 10)%Z with true by (symmetry; apply Z.ltb_lt; lia).
  rewrite IH. unfold decimal_value. cbn [fold_left]. by rewrite digit_value_digit.
Qed.

Lemma strtoul_snprintf n : is_u32 n -> strtoul (snprintf_lu 11 n) = (n, []).
Proof.
  intros Hn. destruct (snprintf_lu_spec n Hn) as (d & ds & -> & Hd & Hds & Hv & H0).
  destruct (digit_plain d Hd) as (P1 & P2 & P3 & _ & P5 & _ & _).
  unfold strtoul. cbn [skip_spaces]. rewrite P1. cbn iota beta. rewrite P2, P3, P5.
  destruct (Z.eqb_spec d 0) as [->|Hne].
  - destruct (H0 eq_refl) as [-> ->]. reflexivity.
  - assert (Hb : match ds with
                 | [] => (10%Z, digit d :: ds) | _ :: _ => (10%Z, digit d :: ds)
                 end = (10%Z, digit d :: ds)) by by destruct ds.
    cbn [andb]. destruct ds as [|x ds]; cbn iota beta.
    all: unfold starts_with_digit; rewrite digit_value_digit by done;
      replace (d <? 10)%Z with true by (symmetry; apply Z.ltb_lt; lia);
      rewrite digits_go_decimal by (constructor; [by exists d|done]);
      rewrite Hv; replace (ULONG_MAX <? n)%Z with false
        by (symmetry; apply Z.ltb_ge; unfold is_u32, ULONG_MAX in *; lia); done.
Qed.

Lemma cut_dot_decimal n r :
  is_u32 n -> cut_dot (snprintf_lu 11 n ++ [dot] ++ r) = (snprintf_lu 11 n, Some r)
              /\ cut_dot (snprintf_lu 11 n) = (snprintf_lu 11 n, None).
Proof.
  intros Hn. destruct (snprintf_lu_spec n Hn) as (d & ds & -> & Hd & Hds & _).
  assert (Hall : Forall is_decimal (digit d :: ds)) by (constructor; [by exists d|done]).
  clear Hd Hds. induction Hall as [|c l (x & Hx & ->) Hl [IH1 IH2]]; [done|].
  destruct (digit_plain x Hx) as (_ & _ & _ & P & _). cbn [app cut_dot]. rewrite P.
  cbn [app] in IH1. by rewrite IH1, IH2.
Qed.

Lemma parse_part_snprintf i n :
  i < 5 -> is_u32 n -> parse_part i (snprintf_lu 11 n) = Normal n.
Proof.
  intros Hi Hn. unfold parse_part. replace (5 <=? i)%nat with false by (symmetry; apply Nat.leb_gt; lia).
  rewrite strtoul_snprintf by done.
  by destruct (snprintf_lu_spec n Hn) as (d & ds & -> & _).
Qed.

Lemma parse_loop_step fuel i parts whole a r :
  i < 5 -> is_u32 a -> (exists b r', r = snprintf_lu 11 b ++ [dot] ++ r' /\ is_u32 b) ->
  parse_loop (S fuel) i parts whole (snprintf_lu 11 a ++ [dot] ++ r)
  = parse_loop fuel (S i) (parts ++ [a]) whole r.
Proof.
  intros Hi Ha (b & r' & -> & Hb). cbn [parse_loop].
  destruct (cut_dot_decimal a (snprintf_lu 11 b ++ [dot] ++ r') Ha) as [-> _].
  rewrite parse_part_snprintf by done. cbn [obind].
  by destruct (cut_dot_decimal b r' Hb) as [-> _].
Qed.

Lemma parse_loop_four f whole a b c d :
  is_u32 a -> is_u32 b -> is_u32 c -> is_u32 d ->
  parse_loop (S (S (S f))) 0 [] whole (to_string (mk_session_id a b c d)) = Normal (3, [a; b; c; d]).
Proof.
  intros Ha Hb Hc Hd. unfold to_string; cbn [w1 w2 w3 w4].
  rewrite parse_loop_step by (eauto || lia). rewrite parse_loop_step by (eauto || lia).
  cbn [app]. cbn [parse_loop].
  destruct (cut_dot_decimal c (snprintf_lu 11 d) Hc) as [E _]. cbn [app] in E. rewrite E.
  rewrite parse_part_snprintf by (done || lia). cbn [obind].
  destruct (cut_dot_decimal d [] Hd) as [_ E']. rewrite E'.
  by rewrite parse_part_snprintf by (done || lia).
Qed.

(** C31. Session IDs survive printing and parsing: the text [to_string] makes
    of the four words is parsed back to the same four words. *)
Theorem session_id_roundtrip (i : session_id) (Hi : session_id_wf i) :
  parse (to_string i) = Normal i.
Proof.
  destruct i as [a b c d], Hi as (Ha & Hb & Hc & Hd); cbn [w1 w2 w3 w4] in Ha, Hb, Hc, Hd. unfold parse.
  assert (Hf : exists f, S (length (to_string (mk_session_id a b c d))) = S (S (S f))).
  { unfold to_string. rewrite !length_app. cbn [length].
    exists (length (snprintf_lu 11 a) + (length (snprintf_lu 11 b)
              + (length (snprintf_lu 11 c) + (1 + length (snprintf_lu 11 d))))). cbn [w1 w2 w3 w4]. lia. }
  destruct Hf as [f ->]. rewrite parse_loop_four by done. cbn [obind].
  by rewrite !u32_small.
Qed.

Theorem session_id_roundtrip_witness :
  parse (to_string (mk_session_id 4294967295 0 70 1000000000)) = Normal (mk_session_id 4294967295 0 70 1000000000).
Proof. apply session_id_roundtrip. unfold session_id_wf, is_u32; cbn; lia. Defined.

(** The fuel of [parse] is enough for every text: a round leaves less of it. *)
Lemma cut_dot_shorter s p r : cut_dot s = (p, Some r) -> length r < length s.
Proof.
  revert p. induction s as [|c s IH]; intros p; cbn [cut_dot]; [done|].
  destruct (Ascii.eqb c dot); [intros [= _ <-]; cbn; lia|].
  destruct (cut_dot s) as [q t]. intros [= _ ->]. cbn. specialize (IH q eq_refl). lia.
Qed.

Lemma parse_part_ends i part : parse_part i part <> Faulted Loop_bound.
Proof. unfold parse_part. destruct (5 <=? i); [done|]. destruct (strtoul part) as [n [|]], part; done. Qed.

Lemma parse_loop_ends fuel i parts whole s :
  length s < fuel -> (snd (cut_dot s) = None -> whole = s) -> parse_loop fuel i parts whole s <> Faulted Loop_bound.
Proof.
  revert i parts s. induction fuel as [|fuel IH]; intros i parts s Hf Hs; [lia|]. cbn [parse_loop].
  destruct (cut_dot s) as [part rest] eqn:Ec. pose proof (parse_part_ends i part) as Hp.
  destruct (parse_part i part) as [n|x|f]; cbn [obind]; [|done|by intros [= ->]].
  destruct rest as [r|].
  - pose proof (cut_dot_shorter s part r Ec). destruct (cut_dot r) as [last [t|]] eqn:Er.
    + apply IH; [lia|]. by rewrite Er.
    + pose proof (parse_part_ends (S i) last) as Hl. by destruct (parse_part (S i) last) as [k|x|f]; cbn [obind]; [| |intros [= ->]].
  - rewrite (Hs eq_refl), Ec. by destruct (parse_part (S i) part) as [k|x|f] eqn:El; cbn [obind];
      [| |intros [= ->]; destruct (parse_part_ends (S i) part)].
Qed.

Lemma parse_ends s : parse s <> Faulted Loop_bound.
Proof.
  unfold parse. pose proof (parse_loop_ends (S (length s)) 0 [] s s ltac:(lia) ltac:(done)) as Hp.
  destruct (parse_loop _ _ _ _ _) as [[i parts]|x|f]; cbn [obind]; [|done|by intros [= ->]].
  destruct i as [|[|[|[|]]]]; try done. by destruct parts as [|? [|? [|? [|? [|]]]]].
Qed.

(** The parser has room for five parts and checks their number only after
    the last of them: a text of eight valid parts - two session IDs joined by
    a dot - makes it write behind the end of its array instead of throwing
    the [request_error] meant for it. *)
Theorem session_id_parse_overflow (i j : session_id) (Hi : session_id_wf i) (Hj : session_id_wf j) :
  parse (to_string i ++ [dot] ++ to_string j) = Faulted Out_of_bounds.
Proof.
  destruct i as [a b c d], j as [a' b' c' d'], Hi as (Ha & Hb & Hc & Hd), Hj as (Ha' & Hb' & Hc' & Hd').
  cbn [w1 w2 w3 w4] in *. unfold parse.
  assert (Hlen : forall n, is_u32 n -> 1 <= length (snprintf_lu 11 n)).
  { intros n Hn. destruct (snprintf_lu_spec n Hn) as (x & ds & -> & _). cbn. lia. }
  set (text := to_string _ ++ _).
  assert (H6 : 6 <= length text).
  { pose proof (Hlen a Ha). pose proof (Hlen b Hb). pose proof (Hlen c Hc).
    unfold text, to_string. rewrite !length_app. cbn [w1 w2 w3 w4 length]. lia. }
  assert (Hf : exists f, S (length text) = S (S (S (S (S (S f))))))
    by (exists (length text - 5); lia).
  destruct Hf as [f ->]. generalize text at 1. intros whole.
  unfold text, to_string; cbn [w1 w2 w3 w4]. rewrite <- !app_assoc.
  rewrite !parse_loop_step by (eauto || lia). cbn [parse_loop].
  by destruct (cut_dot _).
Qed.

Theorem session_id_parse_overflow_witness :
  parse (to_string (mk_session_id 1 2 3 4) ++ [dot] ++ to_string (mk_session_id 5 6 7 8))
  = Faulted Out_of_bounds.
Proof. apply session_id_parse_overflow; unfold session_id_wf, is_u32; cbn; lia. Defined.
