(* ===== verification/NtlpMsg.v ===== *)
(** * NTLP messages: include/msg/ntlp_msg.h and src/msg/ntlp_msg.cpp

    An A-NSLP message together with its session, its message routing
    information and its SII handle; the constructors of RESPONSE messages; and
    the comparison of message sequence numbers. *)
From S2P Require Import Prelude Outcome StdMap External Objects Store Messages Codec SessionId.

(** [is_greater_than], on [uint32] arguments. *)
Definition is_greater_than (s1 s2 : Z) : bool :=
  let LIMIT := 2147483648%Z in
  negb (s1 =? s2)%Z
  && (((s1 <? s2)%Z && (LIMIT <? u32 (s2 - s1))%Z) || ((s2 <? s1)%Z && (u32 (s1 - s2) <? LIMIT)%Z)).

(** C29. Serial number arithmetic of RFC 1982: a message sequence number is
    greater than another one exactly when it is ahead of it by at least 1 and
    by less than half of the number space, counting modulo 2^32; numbers
    exactly half the space apart compare greater in neither direction. *)
Theorem is_greater_than_rfc1982 (s1 s2 : Z) (H1 : is_u32 s1) (H2 : is_u32 s2) :
  is_greater_than s1 s2 = true <-> (0 < (s1 - s2) mod 2 ^ 32 < 2 ^ 31)%Z.
Proof.
  unfold is_u32 in *. unfold is_greater_than; cbv zeta.
  rewrite andb_true_iff, orb_true_iff, !andb_true_iff, negb_true_iff, !Z.ltb_lt, Z.eqb_neq.
  destruct (Z.lt_trichotomy s1 s2) as [Hlt|[->|Hgt]].
  - rewrite (u32_small (s2 - s1)) by (unfold is_u32; lia).
    replace ((s1 - s2) mod 2 ^ 32)%Z with (s1 - s2 + 2 ^ 32)%Z; [lia|].
    apply Z.mod_unique with (-1)%Z; lia.
  - rewrite Z.sub_diag, Z.mod_0_l by lia. split; [intros [? _]; done|lia].
  - rewrite (u32_small (s1 - s2)) by (unfold is_u32; lia). rewrite Z.mod_small by lia. lia.
Qed.

Theorem is_greater_than_rfc1982_witness :
  is_greater_than 0 4294967295 = true <-> (0 < (0 - 4294967295) mod 2 ^ 32 < 2 ^ 31)%Z.
Proof. apply (is_greater_than_rfc1982 0 4294967295); unfold is_u32; lia. Defined.

(** The next number in sequence is always greater, across the wrap-around. *)
Lemma is_greater_than_next s : is_u32 s -> is_greater_than (u32 (s + 1)) s = true.
Proof.
  intros Hs. unfold is_greater_than; cbv zeta.
  destruct (u32_succ_cases s Hs) as [[-> ->]|[Hlt ->]]; [reflexivity|].
  unfold is_u32 in Hs. rewrite (u32_small (s + 1 - s)) by (unfold is_u32; lia).
  rewrite andb_true_iff, orb_true_iff, !andb_true_iff, negb_true_iff, !Z.ltb_lt, Z.eqb_neq. lia.
Qed.

Lemma is_greater_than_irrefl s : is_greater_than s s = false.
Proof. unfold is_greater_than. by rewrite Z.eqb_refl. Qed.

Section NtlpMsg.
Context `{Libs}.

(** The routing information is never null: the constructor asserts it.  The
    message is, when it could not be parsed. *)
Record ntlp_msg := mk_ntlp_msg {
  get_session_id : session_id;
  get_anslp_msg : option anslp_msg;
  get_mri : mri;
  get_sii_handle : Z }.

(** The constructor, applied to a pointer to an MRI. *)
Definition new_ntlp_msg (id : session_id) (body : option anslp_msg) (m : option mri) (sii : Z)
  : outcome ntlp_msg :=
  match m with
  | Some m => Normal (mk_ntlp_msg id body m sii)
  | None => Faulted Assertion_failed
  end.

(** [ntlp_msg::copy]. *)
Definition ntlp_copy (n : ntlp_msg) : outcome ntlp_msg :=
  obind (of_pointer (get_anslp_msg n)) (fun b =>
    new_ntlp_msg (get_session_id n) (Some (msg_copy b)) (Some (get_mri n)) (get_sii_handle n)).

(** [ntlp_msg::copy_for_forwarding]: the SII handle is reset; a given MRI
    replaces the message's own. *)
Definition copy_for_forwarding (new_mri : option mri) (n : ntlp_msg) : outcome ntlp_msg :=
  let new_mri := match new_mri with Some m => Some m | None => Some (get_mri n) end in
  obind (of_pointer (get_anslp_msg n)) (fun b =>
    new_ntlp_msg (get_session_id n) (Some (msg_copy b)) new_mri 0).

Definition get_anslp (c : msg_class) (n : ntlp_msg) : option anslp_msg :=
  match get_anslp_msg n with
  | Some m => if decide (msg_cls m = c) then Some m else None
  | None => None
  end.

Definition get_anslp_create := get_anslp C_create.
Definition get_anslp_bidding := get_anslp C_bidding.
Definition get_anslp_refresh := get_anslp C_refresh.
Definition get_anslp_notify := get_anslp C_notify.
Definition get_anslp_response := get_anslp C_response.

(** [ntlp_msg::create_response]: a RESPONSE in the other direction with the
    information code and, if the message has one, its sequence number (the
    getter is only called behind [has_msg_sequence_number]). *)
Definition create_response (severity response_code : Z) (n : ntlp_msg) : ntlp_msg :=
  let new_mri := invertDirection (get_mri n) in
  let resp := response_set_information_code severity response_code 0 new_anslp_response in
  let resp := match get_anslp_msg n with
              | Some m =>
                  if has_msg_sequence_number m then
                    match get_msg_sequence_number m with
                    | Normal msn => response_set_msg_sequence_number msn resp
                    | _ => resp
                    end
                  else resp
              | None => resp
              end in
  mk_ntlp_msg (get_session_id n) (Some resp) new_mri 0.

Definition create_error_response (e : request_error) (n : ntlp_msg) : ntlp_msg :=
  create_response (err_severity e) (err_response_code e) n.

(** Change the message inside: what the sender does through the pointer
    [get_anslp_msg] returned. *)
Definition update_msg (f : anslp_msg -> anslp_msg) (n : ntlp_msg) : ntlp_msg :=
  mk_ntlp_msg (get_session_id n) (option_map f (get_anslp_msg n)) (get_mri n) (get_sii_handle n).

(** [ntlp_msg::create_success_response]. *)
Definition create_success_response (session_lifetime : Z) (n : ntlp_msg) : ntlp_msg :=
  let msg := create_response sc_success suc_successfully_processed n in
  update_msg (response_set_session_lifetime session_lifetime) msg.

(** ** What the responses say. *)
Lemma wf_information_code s c :
  (0 <= s < 16)%Z -> is_u8 c -> object_wf (new_information_code s c 0 tr_mandatory true).
Proof. done. Qed.

Lemma wf_msg_sequence_number v : is_u32 v -> object_wf (new_msg_sequence_number v tr_mandatory true).
Proof. done. Qed.

Lemma wf_session_lifetime v : is_u32 v -> object_wf (new_session_lifetime v tr_mandatory true).
Proof. done. Qed.

(** The sequence number a message carries. *)
Definition msn_of (m : anslp_msg) : Z := value_or_zero (as_msg_sequence_number (get_object key_msn m)).

Lemma get_msn_has m : has_msg_sequence_number m = true -> get_msg_sequence_number m = Normal (msn_of m).
Proof.
  unfold has_msg_sequence_number, get_msg_sequence_number, msg_get_msg_sequence_number, msn_of,
    create_get_msg_sequence_number, response_get_msg_sequence_number,
    refresh_get_msg_sequence_number, bidding_get_msg_sequence_number.
  destruct (as_msg_sequence_number _); [|discriminate]. by destruct (msg_cls m).
Qed.

Lemma msn_of_range m v : msg_view m v -> is_u32 (msn_of m).
Proof.
  intros Hm. unfold msn_of. destruct (msg_view_get m v Hm) as (_ & _ & _ & -> & _).
  destruct Hm as ((_ & _ & _ & W & _) & _). unfold as_msg_sequence_number.
  destruct (v_msn v) as [o|]; [|by split]. destruct W as [(_ & _ & Hb) _].
  by destruct (body o); cbn in *; try by split.
Qed.

(** The abstract form of a RESPONSE. *)
Definition response_view (severity code : Z) (msn : option Z) (lifetime : option Z) : view :=
  mk_view (Some (new_information_code severity code 0 tr_mandatory true)) None None
    (option_map (fun v => new_msg_sequence_number v tr_mandatory true) msn)
    (option_map (fun v => new_session_lifetime v tr_mandatory true) lifetime) [].

Lemma create_response_view n s c m v :
  get_anslp_msg n = Some m -> msg_view m v -> (0 <= s < 16)%Z -> is_u8 c ->
  exists r, get_anslp_msg (create_response s c n) = Some r /\ msg_cls r = C_response
    /\ msg_view r (response_view s c (if has_msg_sequence_number m then Some (msn_of m) else None) None).
Proof.
  intros Hn Hm Hs Hc. unfold create_response. cbn [get_anslp_msg]. rewrite Hn.
  pose proof (set_object_view new_anslp_response view_empty
    (new_information_code s c 0 tr_mandatory true) (new_msg_view C_response)
    (wf_information_code s c Hs Hc) ltac:(done)) as V1.
  destruct (has_msg_sequence_number m) eqn:E.
  - rewrite get_msn_has by done. eexists. split; [done|].
    split; [done|]. apply (set_object_view _ _ (new_msg_sequence_number (msn_of m) tr_mandatory true) V1);
      [|done]. apply wf_msg_sequence_number. by apply (msn_of_range m v).
  - eexists. split; [done|]. split; [done|]. exact V1.
Qed.

Lemma create_success_response_view n lt m v :
  get_anslp_msg n = Some m -> msg_view m v -> is_u32 lt ->
  exists r, get_anslp_msg (create_success_response lt n) = Some r /\ msg_cls r = C_response
    /\ msg_view r (response_view sc_success suc_successfully_processed
                     (if has_msg_sequence_number m then Some (msn_of m) else None) (Some lt)).
Proof.
  intros Hn Hm Hlt.
  destruct (create_response_view n sc_success suc_successfully_processed m v Hn Hm)
    as (r & Hr & Hc & Hv); [done..|].
  exists (response_set_session_lifetime lt r). unfold create_success_response, update_msg.
  cbn [get_anslp_msg]. rewrite Hr. split; [done|]. split.
  - unfold response_set_session_lifetime, set_object. by cbn.
  - apply (set_object_view _ _ (new_session_lifetime lt tr_mandatory true) Hv); [|done].
    by apply wf_session_lifetime.
Qed.

(** Reading the fields of a response by its view. *)
Lemma response_view_fields r s c msn lt :
  msg_view r (response_view s c msn lt) ->
  response_is_success r = information_code_is_success s c
  /\ response_get_severity_class r = s /\ response_get_response_code r = c
  /\ response_get_session_lifetime r = value_or_zero lt
  /\ response_get_msg_sequence_number r = value_or_zero msn
  /\ has_msg_sequence_number r = is_some msn /\ response_get_mspec_objects r = Normal [].
Proof.
  intros Hr. destruct (msg_view_get r _ Hr) as (E1 & _ & _ & E4 & E5).
  unfold response_is_success, response_get_severity_class, response_get_response_code,
    response_get_session_lifetime, response_get_msg_sequence_number, has_msg_sequence_number.
  rewrite E1, E4, E5. split_and!; try done; try by destruct msn; try by destruct lt.
  by rewrite (response_get_mspec_view r _ Hr).
Qed.
End NtlpMsg.

Section Responses.
Context `{Libs} `{!LibsLaws}.

(** A RESPONSE answers the request it was created from: it belongs to
    the same session, travels in the opposite direction, carries the
    request's message sequence number, so that [is_response_to] recognises
    it, reports exactly the severity class and response code it was given,
    and is a success exactly for the code "successfully processed". *)
Theorem create_response_answers (n : ntlp_msg) (m : anslp_msg) (v : view) (s c : Z)
  (Hn : get_anslp_msg n = Some m) (Hm : msg_view m v) (Hmsn : has_msg_sequence_number m = true)
  (Hs : (0 <= s < 16)%Z) (Hc : is_u8 c) :
  exists r, get_anslp_response (create_response s c n) = Some r
    /\ get_session_id (create_response s c n) = get_session_id n
    /\ invertDirection (get_mri (create_response s c n)) = get_mri n
    /\ is_response_to_create r m = true /\ is_response_to_refresh r m = true
    /\ response_get_severity_class r = s /\ response_get_response_code r = c
    /\ (response_is_success r = true <-> s = sc_success /\ c = suc_successfully_processed).
Proof.
  destruct (create_response_view n s c m v Hn Hm Hs Hc) as (r & Hr & Hcls & Hv).
  rewrite Hmsn in Hv. exists r.
  destruct (response_view_fields r s c _ _ Hv) as (F1 & F2 & F3 & _ & F5 & _).
  unfold get_anslp_response, get_anslp. rewrite Hr, decide_True by done. split; [done|].
  split; [done|]. split; [apply invert_involutive|].
  unfold is_response_to_create, is_response_to_refresh. rewrite F5. cbn [value_or_zero].
  change (create_get_msg_sequence_number m) with (msn_of m).
  change (refresh_get_msg_sequence_number m) with (msn_of m).
  rewrite Z.eqb_refl. split_and!; try done.
  rewrite F1. unfold information_code_is_success. rewrite andb_true_iff, !Z.eqb_eq. done.
Qed.

Context `{NetMsg} `{!NetMsgLaws} `{!ProtlibIE ie} `{!ProtlibIELaws ie}.

Lemma serialize_keys_app c m ks1 ks2 n b :
  serialize_keys c m (ks1 ++ ks2) n b
  = bind (serialize_keys c m ks1 n) (fun n' => serialize_keys c m ks2 n') b.
Proof.
  revert n b. induction ks1 as [|k ks1 IH]; intros n b; [done|].
  cbn [app serialize_keys]. unfold bind at 1 3. unfold bind.
  destruct (serialize_object c m k b) as [[a|e|f] b']; try done. 
Qed.

Lemma serialize_key_missing m k ks n b :
  get_object k m = None -> serialize_keys true m (k :: ks) n b = (Faulted Missing_return, b).
Proof. intros Hk. cbn [serialize_keys]. unfold bind, serialize_object. by rewrite Hk. Qed.

(** Writing a RESPONSE without a session lifetime. *)
Lemma error_response_faults (n : ntlp_msg) (m : anslp_msg) (v : view) (s c : Z) (buf : netmsg)
  (Hn : get_anslp_msg n = Some m) (Hm : msg_view m v) (Hmsn : has_msg_sequence_number m = true)
  (Hs : (0 <= s < 16)%Z) (Hc : is_u8 c) (Hroom : nm_pos buf + 20 <= length (nm_bytes buf)) :
  exists r, get_anslp_msg (create_response s c n) = Some r /\ msg_check r = true
    /\ fst (msg_serialize true r buf) = Faulted Missing_return.
Proof.
  destruct (create_response_view n s c m v Hn Hm Hs Hc) as (r & Hr & Hcls & Hv).
  rewrite Hmsn in Hv. exists r. split; [done|].
  destruct (msg_view_get r _ Hv) as (E1 & _ & _ & E4 & E5). cbn in E1, E4, E5.
  assert (Hck : msg_check r = true).
  { unfold msg_check. rewrite Hcls. unfold response_check. by destruct Hv as (_ & -> & _). }
  split; [done|].
  unfold msg_serialize. rewrite Hcls. unfold response_serialize.
  pose (os := [new_msg_sequence_number (msn_of m) tr_mandatory true;
               new_information_code s c 0 tr_mandatory true]).
  assert (Hh : emits (k <- msg_serialize_header true r ;; serialize_keys true r [key_msn; key_inf] k)
             (be_encode 4 (make_msg_header (MSG_TYPE C_response)) ++ objects_bytes os)
             (4 + Z.of_nat (length (objects_bytes os)))%Z).
  { eapply emits_bind.
    - rewrite <- Hcls. by eapply emits_msg_header.
    - apply emits_keys.
      + repeat apply Forall2_cons_2; [split; [done|]..|constructor].
        * apply wf_msg_sequence_number. by apply (msn_of_range m v).
        * by apply wf_information_code.
      + lia.
      + done. }
  destruct (Hh buf) as (b' & Eb & _ & _); [done|].
  change ([key_msn; key_inf; key_slf] ++ ipap_keys r) with ([key_msn; key_inf] ++ key_slf :: ipap_keys r).
  unfold bind in Eb |- *. destruct (msg_serialize_header true r buf) as [[k|e|f] b1]; try discriminate.
  rewrite serialize_keys_app. unfold bind. rewrite Eb. by rewrite serialize_key_missing.
Qed.

(** C39. A RESPONSE without a session lifetime cannot be written: it passes
    [check], its header, sequence number and information code are written,
    and then [serialize_object] looks for the lifetime, does not find it and
    ends without a return.  Every response [create_response] and
    [create_error_response] build is of this form. *)
Theorem error_response_not_serializable (n : ntlp_msg) (m : anslp_msg) (v : view) (s c : Z) (buf : netmsg)
  (Hn : get_anslp_msg n = Some m) (Hm : msg_view m v) (Hmsn : has_msg_sequence_number m = true)
  (Hs : (0 <= s < 16)%Z) (Hc : is_u8 c) (Hroom : nm_pos buf + 20 <= length (nm_bytes buf)) :
  exists r, get_anslp_msg (create_response s c n) = Some r /\ msg_check r = true
    /\ fst (msg_serialize true r buf) = Faulted Missing_return.
Proof. exact (error_response_faults n m v s c buf Hn Hm Hmsn Hs Hc Hroom). Qed.
End Responses.

Module Ntlp_examples.
Import Concrete Codec_examples.

Definition ex_sid : session_id := mk_session_id 1 2 3 4.
Definition ex_pc : pc_mri := mk_pc 1 32 1000 2 32 2000 6 0 0 0 true.

(** A CREATE message as the initiator sends it. *)
Definition ex_ntlp : ntlp_msg := mk_ntlp_msg ex_sid (Some ex_create) (Pathcoupled ex_pc) 0.

Theorem create_response_answers_witness :
  exists r, get_anslp_response (create_response sc_success suc_successfully_processed ex_ntlp) = Some r
    /\ is_response_to_create r ex_create = true.
Proof.
  destruct (create_response_answers ex_ntlp ex_create ex_view sc_success suc_successfully_processed)
    as (r & Hr & _ & _ & Ha & _); [done|exact ex_create_view|done|done|done|].
  exists r. by split.
Defined.

Theorem error_response_not_serializable_witness :
  exists r, get_anslp_msg (create_response sc_permanent_failure fail_internal_error ex_ntlp) = Some r
    /\ fst (msg_serialize true r (nm_new 24)) = Faulted Missing_return.
Proof.
  destruct (error_response_not_serializable ex_ntlp ex_create ex_view sc_permanent_failure
              fail_internal_error (nm_new 24)) as (r & Hr & _ & Hs);
    [done|exact ex_create_view|done|done|done|cbn; lia|].
  exists r. by split.
Defined.
End Ntlp_examples.
