(* ===== verification/AuctionRule.v ===== *)
(** * Auction rules: src/auction_rule.cpp, src/mspec_rule_key.cpp

    An auction rule maps keys - UUIDs - to the MSPEC objects requested and to
    the responses to them.  [prune] is the loop by which the responder and the
    forwarder sessions drop the requests an auctioning application did not
    confirm (src/nr_session.cpp, src/nf_session.cpp). *)
From S2P Require Import Prelude Outcome StdMap External Objects.

Section AuctionRule.
Context `{Libs}.

Definition mspec_rule_key : Type := uuid.

(** [operator==] and [operator<]. *)
Definition mspec_rule_key_eqb (a b : mspec_rule_key) : bool := (uuid_compare a b =? 0)%Z.
Definition mspec_rule_key_ltb (a b : mspec_rule_key) : bool := (uuid_compare a b <? 0)%Z.

Definition objectList_t : Type := list (mspec_rule_key * anslp_object).

Record auction_rule := mk_rule { object_requests : objectList_t; object_responses : objectList_t }.

(** The constructor. *)
Definition new_auction_rule : auction_rule := mk_rule [] [].

Definition objects_find (k : mspec_rule_key) (l : objectList_t) : option anslp_object :=
  map_find mspec_rule_key_ltb k l.

(** [set_request_object(key, obj)] and [set_response_object(key, obj)]: a
    null object is ignored. *)
Definition set_request_object_at (k : mspec_rule_key) (o : option anslp_object) (r : auction_rule) :=
  match o with
  | None => r
  | Some o => mk_rule (map_set mspec_rule_key_ltb k o (object_requests r)) (object_responses r)
  end.
Definition set_response_object_at (k : mspec_rule_key) (o : option anslp_object) (r : auction_rule) :=
  match o with
  | None => r
  | Some o => mk_rule (object_requests r) (map_set mspec_rule_key_ltb k o (object_responses r))
  end.

(** The versions that make the key themselves: [k] is the UUID the key's
    constructor generates. *)
Definition set_request_object (k : mspec_rule_key) (o : option anslp_object) (r : auction_rule)
  : outcome (mspec_rule_key * auction_rule) :=
  match o with
  | Some _ => Normal (k, set_request_object_at k o r)
  | None => Raised (Invalid_argument "received a NULL object")
  end.
Definition set_response_object (k : mspec_rule_key) (o : option anslp_object) (r : auction_rule)
  : outcome (mspec_rule_key * auction_rule) :=
  match o with
  | Some _ => Normal (k, set_response_object_at k o r)
  | None => Raised (Invalid_argument "received a NULL object")
  end.

Definition get_number_mspec_request_objects (r : auction_rule) : nat := length (object_requests r).
Definition get_number_mspec_response_objects (r : auction_rule) : nat := length (object_responses r).

(** The loops shared by the copy constructor and [operator=]: every object
    of [rhs] is copied into [r] under its key. *)
Definition copy_requests (rhs r : auction_rule) : auction_rule :=
  fold_left (fun r kv => set_request_object_at (fst kv) (Some (object_copy (snd kv))) r)
    (object_requests rhs) r.
Definition copy_responses (rhs r : auction_rule) : auction_rule :=
  fold_left (fun r kv => set_response_object_at (fst kv) (Some (object_copy (snd kv))) r)
    (object_responses rhs) r.

Definition rule_copy (rhs : auction_rule) : auction_rule :=
  copy_responses rhs (copy_requests rhs new_auction_rule).

(** [operator=] does not clear the rule it assigns to. *)
Definition rule_assign (rhs r : auction_rule) : auction_rule := copy_responses rhs (copy_requests rhs r).

(** [operator==]. *)
Definition objects_eqb (a b : objectList_t) : bool :=
  if negb (length a =? length b)%nat then false
  else forallb (fun kv => match objects_find (fst kv) b with
                          | None => false
                          | Some o => negb (mspec_notEqual (snd kv) o)
                          end) a.
Definition rule_eqb (a b : auction_rule) : bool :=
  if negb (objects_eqb (object_requests a) (object_requests b)) then false
  else objects_eqb (object_responses a) (object_responses b).

(** The pruning loop.  It runs from the greatest key down with a reverse
    iterator and erases entries the check event does not have.  After an
    erase the iterator's base has a new predecessor, which the increment
    steps over: the entry below an erased one is never looked at.  Erasing
    the lowest entry leaves the increment nothing to step over: the iterator
    leaves the map.  The argument is the map in reverse order. *)
Fixpoint prune_rev (keep : mspec_rule_key -> bool) (l : objectList_t) : outcome objectList_t :=
  match l with
  | [] => Normal []
  | (k, o) :: l' =>
      if keep k then obind (prune_rev keep l') (fun r => Normal ((k, o) :: r))
      else match l' with
           | [] => Faulted Out_of_bounds
           | ko :: l'' => obind (prune_rev keep l'') (fun r => Normal (ko :: r))
           end
  end.

Definition confirmed (e : objectList_t) (k : mspec_rule_key) : bool :=
  match objects_find k e with Some _ => true | None => false end.

Definition prune (e : objectList_t) (r : auction_rule) : outcome auction_rule :=
  obind (prune_rev (confirmed e) (rev (object_requests r))) (fun l =>
    Normal (mk_rule (rev l) (object_responses r))).

Definition rule_wf (r : auction_rule) : Prop :=
  map_sorted mspec_rule_key_ltb (object_requests r)
  /\ map_sorted mspec_rule_key_ltb (object_responses r)
  /\ Forall (fun kv => mspec_wf (snd kv)) (object_requests r)
  /\ Forall (fun kv => mspec_wf (snd kv)) (object_responses r).
End AuctionRule.

Section Laws.
Context `{Libs} `{!LibsLaws}.

#[export] Instance mspec_rule_key_swo : StrictWeakOrder mspec_rule_key_ltb.
Proof.
  unfold mspec_rule_key_ltb. constructor.
  - intros a. apply Z.ltb_ge. assert (uuid_compare a a = 0)%Z as -> by by apply uuid_compare_eq. done.
  - intros a b c. rewrite !Z.ltb_lt. apply uuid_compare_trans.
  - assert (Heq : forall a b, (uuid_compare a b <? 0)%Z = false -> (uuid_compare b a <? 0)%Z = false -> a = b).
    { intros a b. rewrite !Z.ltb_ge. intros Hab Hba. apply uuid_compare_eq.
      pose proof (uuid_compare_antisym b a). lia. }
    intros a b c Hab Hba Hbc Hcb. pose proof (Heq a b Hab Hba). pose proof (Heq b c Hbc Hcb).
    by subst.
Qed.

Lemma mspec_rule_key_equiv a b : key_equiv mspec_rule_key_ltb a b = mspec_rule_key_eqb a b.
Proof.
  unfold key_equiv, mspec_rule_key_ltb, mspec_rule_key_eqb.
  pose proof (uuid_compare_antisym a b). pose proof (uuid_compare_antisym b a).
  repeat z_cases; try done; lia.
Qed.

(** A copied rule is the rule. *)
Lemma copy_list_id (f : mspec_rule_key -> anslp_object -> auction_rule -> auction_rule)
  (get : auction_rule -> objectList_t) l r :
  (forall k o r, get (f k o r) = map_set mspec_rule_key_ltb k o (get r)) ->
  Forall (fun kv => mspec_wf (snd kv)) l ->
  get (fold_left (fun r kv => f (fst kv) (object_copy (snd kv)) r) l r)
  = fold_left (fun m kv => map_set mspec_rule_key_ltb (fst kv) (snd kv) m) l (get r).
Proof.
  intros Hf Hl. revert r. induction Hl as [|[k o] l [Ho _] Hl IH]; intros r; cbn; [done|].
  rewrite IH, Hf. by rewrite object_copy_wf.
Qed.

Lemma copy_requests_spec rhs r :
  rule_wf rhs ->
  object_requests (copy_requests rhs r)
  = fold_left (fun m kv => map_set mspec_rule_key_ltb (fst kv) (snd kv) m) (object_requests rhs)
      (object_requests r)
  /\ object_responses (copy_requests rhs r) = object_responses r.
Proof.
  intros (_ & _ & Hq & _). split.
  - apply (copy_list_id (fun k o r => set_request_object_at k (Some o) r) object_requests); done.
  - unfold copy_requests. apply (fold_left_invariant (fun x => object_responses x = object_responses r)); done.
Qed.

Lemma copy_responses_spec rhs r :
  rule_wf rhs ->
  object_responses (copy_responses rhs r)
  = fold_left (fun m kv => map_set mspec_rule_key_ltb (fst kv) (snd kv) m) (object_responses rhs)
      (object_responses r)
  /\ object_requests (copy_responses rhs r) = object_requests r.
Proof.
  intros (_ & _ & _ & Hq). split.
  - apply (copy_list_id (fun k o r => set_response_object_at k (Some o) r) object_responses); done.
  - unfold copy_responses. apply (fold_left_invariant (fun x => object_requests x = object_requests r)); done.
Qed.

Lemma rule_copy_id r : rule_wf r -> rule_copy r = r.
Proof.
  intros Hr. pose proof Hr as (Hs & Hs' & _). unfold rule_copy.
  destruct (copy_requests_spec r new_auction_rule Hr) as [Q1 Q2].
  destruct (copy_responses_spec r (copy_requests r new_auction_rule) Hr) as [P1 P2].
  rewrite Q1 in P2. rewrite Q2 in P1.
  change (fold_left _ (object_requests r) _) with (map_of_entries mspec_rule_key_ltb (object_requests r)) in P2.
  change (fold_left _ (object_responses r) _) with (map_of_entries mspec_rule_key_ltb (object_responses r)) in P1.
  rewrite map_of_entries_sorted in P1, P2 by done.
  destruct (copy_responses r _), r; cbn in *; by subst.
Qed.

(** *** The pruning loop. *)
(** The pruning loop fails only by leaving its map. *)
Lemma prune_rev_total keep l :
  (exists l', prune_rev keep l = Normal l') \/ prune_rev keep l = Faulted Out_of_bounds.
Proof.
  induction l as [l IH] using (well_founded_induction (well_founded_ltof _ length)).
  destruct l as [|[k o] l]; cbn; [eauto|]. destruct (keep k).
  - destruct (IH l) as [[l' ->]| ->]; cbn; [unfold ltof; cbn; lia|eauto|eauto].
  - destruct l as [|ko l]; [auto|].
    destruct (IH l) as [[l' ->]| ->]; cbn; [unfold ltof; cbn; lia|eauto|eauto].
Qed.

Lemma prune_total objs r :
  (exists r', prune objs r = Normal r') \/ prune objs r = Faulted Out_of_bounds.
Proof.
  unfold prune. destruct (prune_rev_total (confirmed objs) (rev (object_requests r))) as [[l ->]| ->]; cbn; eauto.
Qed.

Lemma prune_responses objs r r' : prune objs r = Normal r' -> object_responses r' = object_responses r.
Proof. unfold prune. destruct (prune_rev _ _); cbn; [by intros [= <-]|done..]. Qed.

Lemma prune_rev_keep_all keep l :
  Forall (fun kv => keep (fst kv) = true) l -> prune_rev keep l = Normal l.
Proof. induction 1 as [|[k o] l Hk Hl IH]; cbn in *; [done|]. by rewrite Hk, IH. Qed.

(** Nothing that was confirmed is lost. *)
Lemma prune_rev_sound keep l r :
  prune_rev keep l = Normal r ->
  r `sublist_of` l /\ forall kv, kv ∈ l -> keep (fst kv) = true -> kv ∈ r.
Proof.
  revert r. induction l as [l IH] using (well_founded_induction (well_founded_ltof _ length)).
  intros r. destruct l as [|[k o] l]; cbn.
  - intros [= <-]. split; [done|]. by intros kv Hin%not_elem_of_nil.
  - destruct (keep k) eqn:Hk.
    + destruct (prune_rev keep l) as [r'|e|f] eqn:E; cbn; try discriminate. intros [= <-].
      destruct (IH l) with (r := r') as [Hs Hin]; [unfold ltof; cbn; lia|done|].
      split; [by constructor|]. intros kv. rewrite !elem_of_cons. naive_solver.
    + destruct l as [|ko l]; [discriminate|].
      destruct (prune_rev keep l) as [r'|e|f] eqn:E; cbn; try discriminate. intros [= <-].
      destruct (IH l) with (r := r') as [Hs Hin]; [unfold ltof; cbn; lia|done|].
      split; [by do 2 constructor|]. intros kv. rewrite !elem_of_cons.
      intros [->|[->|Hl]] Hkv; [cbn in Hkv; congruence|by left|right; auto].
Qed.

(** When nothing is confirmed, every second entry stays, and an odd number
    of entries runs the iterator out of the map. *)
Lemma prune_rev_none keep n l :
  length l = n -> Forall (fun kv => keep (fst kv) = false) l ->
  match prune_rev keep l with
  | Normal r => n = 2 * length r
  | Raised _ => False
  | Faulted f => f = Out_of_bounds /\ Nat.odd n = true
  end.
Proof.
  revert l. induction n as [n IH] using lt_wf_ind. intros l Hn Hl.
  destruct Hl as [|[k o] l Hk Hl]; cbn in Hn |- *; [by subst|]. cbn in Hk. rewrite Hk.
  destruct Hl as [|ko l Hko Hl]; cbn in Hn |- *; [by subst|].
  specialize (IH (length l) ltac:(lia) l eq_refl Hl).
  destruct (prune_rev keep l) as [r|e|f]; cbn in *; [lia|done|].
  destruct IH as [-> Ho]. split; [done|]. subst n. by rewrite Nat.odd_succ_succ.
Qed.
End Laws.
#[export] Hint Resolve rule_copy_id : anslp.

Section Contract.
Context `{Libs} `{!LibsLaws}.

Lemma objects_find_sorted (l : objectList_t) k o :
  map_sorted mspec_rule_key_ltb l -> (k, o) ∈ l -> objects_find k l = Some o.
Proof.
  unfold objects_find. induction l as [|[k' o'] l IH]; cbn; intros Hs Hin; [by apply not_elem_of_nil in Hin|].
  destruct Hs as [Hall Hs]. apply elem_of_cons in Hin as [Heq|Hin].
  - simplify_eq. by rewrite key_equiv_refl.
  - assert (mspec_rule_key_ltb k' k = true) as E by (rewrite Forall_forall in Hall; by apply (Hall (k, o))).
    unfold key_equiv. rewrite E, andb_false_r. auto.
Qed.

Lemma objects_eqb_refl l :
  map_sorted mspec_rule_key_ltb l -> Forall (fun kv => mspec_wf (snd kv)) l -> objects_eqb l l = true.
Proof.
  intros Hs Hl. unfold objects_eqb. rewrite Nat.eqb_refl. cbn.
  apply List.forallb_forall. intros [k o] Hin%list_elem_of_In. cbn.
  rewrite (objects_find_sorted l k o) by done. unfold mspec_notEqual.
  rewrite Forall_forall in Hl. by rewrite mspec_isEqual_refl by apply (Hl _ Hin).
Qed.

(** Copying a rule: the copy constructor gives a rule with the same
    requests and responses under the same keys, and [operator==] finds the
    copy equal to the original. *)
Theorem rule_copy_faithful (r : auction_rule) (Hr : rule_wf r) :
  rule_copy r = r /\ rule_eqb (rule_copy r) r = true.
Proof.
  rewrite rule_copy_id by done. split; [done|]. destruct Hr as (Hs & Hs' & Hq & Hp).
  unfold rule_eqb. by rewrite !objects_eqb_refl.
Qed.

(** What the pruning loop guarantees: whenever it comes to an end, the
    rule keeps its responses, no confirmed request is lost and nothing is
    added; and when every request is confirmed it ends and changes nothing. *)
Theorem prune_keeps_confirmed (e : objectList_t) (r : auction_rule) :
  (forall r', prune e r = Normal r' ->
     object_responses r' = object_responses r
     /\ (object_requests r') `sublist_of` (object_requests r)
     /\ forall k o, (k, o) ∈ object_requests r -> confirmed e k = true -> (k, o) ∈ object_requests r')
  /\ (Forall (fun kv => confirmed e (fst kv) = true) (object_requests r) -> prune e r = Normal r).
Proof.
  unfold prune. split.
  - intros r'. destruct (prune_rev _ _) as [l|ex|f] eqn:E; cbn; try discriminate. intros [= <-]. cbn.
    apply prune_rev_sound in E as [Hs Hin]. split; [done|]. split.
    + apply rev_sublist in Hs. by rewrite rev_involutive in Hs.
    + intros k o Hko Hc. apply elem_of_rev, Hin; [|done]. by apply elem_of_rev.
  - intros Hall. rewrite prune_rev_keep_all by by apply Forall_rev. cbn. rewrite rev_involutive. by destruct r.
Qed.

(** What the pruning loop does not do: when the application confirms
    none of the requests, half of them stay in the rule - the entry below an
    erased one is skipped - and with an odd number of requests the loop
    erases the lowest entry and its iterator leaves the map. *)
Theorem prune_misses_unconfirmed (e : objectList_t) (r : auction_rule)
  (Hnone : Forall (fun kv => confirmed e (fst kv) = false) (object_requests r)) :
  (forall r', prune e r = Normal r' ->
     get_number_mspec_request_objects r = 2 * get_number_mspec_request_objects r')
  /\ (Nat.odd (get_number_mspec_request_objects r) = true -> prune e r = Faulted Out_of_bounds).
Proof.
  unfold prune, get_number_mspec_request_objects.
  assert (Hn : Forall (fun kv => confirmed e (fst kv) = false) (rev (object_requests r)))
    by by apply Forall_rev.
  pose proof (prune_rev_none (confirmed e) _ _ eq_refl Hn) as Hp.
  rewrite length_rev in Hp.
  destruct (prune_rev _ _) as [l|ex|f]; cbn in *; [|done|].
  - split; [intros r' [= <-]; cbn; rewrite length_rev; lia|].
    intros [k Hk]%Nat.odd_spec. lia.
  - destruct Hp as [-> Ho]. done.
Qed.
End Contract.

Module Rule_examples.
Import Concrete.

Definition ex_rule : auction_rule :=
  mk_rule [(1%Z, new_ipap_message [5]%Z); (2%Z, new_ipap_message [6]%Z)] [(7%Z, new_ipap_message [9]%Z)].

Lemma ex_rule_wf : rule_wf ex_rule.
Proof.
  unfold rule_wf, ex_rule; cbn [object_requests object_responses].
  assert (forall l, c_valid l = true -> mspec_wf (new_ipap_message (H := simple_libs) l)) as Hm.
  { intros l Hv. split; [|done]. split; [done|]. split; [done|]. cbn.
    assert (length l < 256 /\ Forall (fun x => 0 <= x < 256)%Z l) as [Hl Hb]
      by (unfold c_valid in Hv; case_bool_decide; done).
    split; [|lia]. split; [cbn; by rewrite Hv|]. exists (Z.of_nat (length l) :: l).
    split; [done|]. split; [cbn; lia|]. constructor; [lia|done]. }
  rewrite !Forall_cons, !Forall_nil.
  split; [split; [by repeat constructor|by repeat constructor]|].
  split; [by repeat constructor|]. cbn [snd].
  split; [split; [by apply Hm|split; [by apply Hm|done]]|split; [by apply Hm|done]].
Qed.

Theorem rule_copy_faithful_witness : rule_copy ex_rule = ex_rule.
Proof. apply (rule_copy_faithful ex_rule). exact ex_rule_wf. Defined.

Theorem prune_keeps_confirmed_witness :
  prune [(1%Z, new_ipap_message [0]%Z); (2%Z, new_ipap_message [0]%Z)] ex_rule = Normal ex_rule.
Proof. apply prune_keeps_confirmed. cbn. by repeat constructor. Defined.

Theorem prune_misses_unconfirmed_witness :
  (forall r', prune [] ex_rule = Normal r' -> 2 = 2 * get_number_mspec_request_objects r')
  /\ prune [] ex_rule = Normal (mk_rule [(1%Z, new_ipap_message [5]%Z)] (object_responses ex_rule)).
Proof. split; [apply (prune_misses_unconfirmed [] ex_rule); by repeat constructor|reflexivity]. Defined.
End Rule_examples.
