(* ===== verification/Aqueue.v ===== *)
(** * The queue to the auctioning application: include/aqueue.h, src/aqueue.cpp

    [AnslpEvent] and its subclasses are what the daemon and the auctioning
    application exchange; [FastQueue] wraps the queue of the C library, which
    is not in the sources: [Cqueue] has its operations, [CqueueLaws] how they
    count. *)
From S2P Require Import Prelude Outcome StdMap External Objects AuctionRule.
From Stdlib Require Import Ascii.

(** ** Events. *)
Inductive anslp_event_t :=
  | ANSLP_CREATE_SESSION
  | ANLSP_CREATE_CHECK_SESSION
  | ANLSP_RESPONSE_CREATE_SESSION
  | ANLSP_RESPONSE_CREATE_CHECK_SESSION
  | ANSLP_AUCTION_INTERACTION
  | ANSLP_REMOVE_SESSION
  | ANSLP_RESPONSE_REMOVE_SESSION
  | ANSLP_CREATE_ANSLP_SESSION.

#[export] Instance anslp_event_t_eq_dec : EqDecision anslp_event_t.
Proof. solve_decision. Defined.

(** Where the answer goes: a queue that is a local variable of the function
    that made the event, or no queue. *)
Inductive return_queue := No_queue | Local_queue.

(** The subclasses. *)
Inductive event_class :=
  | CheckEvent (ret : return_queue)
  | ResponseCheckSessionEvent
  | AddAnslpSessionEvent (sessionId anslpSession : list ascii)
  | AddSessionEvent (ret : return_queue)
  | ResponseAddSessionEvent
  | AuctionInteractionEvent
  | RemoveSessionEvent (ret : return_queue)
  | ResponseRemoveSessionEvent.

(** The type each constructor passes to the base class. *)
Definition class_type (c : event_class) : anslp_event_t :=
  match c with
  | CheckEvent _ => ANLSP_CREATE_CHECK_SESSION
  | ResponseCheckSessionEvent => ANLSP_RESPONSE_CREATE_CHECK_SESSION
  | AddAnslpSessionEvent _ _ => ANSLP_CREATE_ANSLP_SESSION
  | AddSessionEvent _ => ANSLP_CREATE_SESSION
  | ResponseAddSessionEvent => ANLSP_RESPONSE_CREATE_SESSION
  | AuctionInteractionEvent => ANSLP_AUCTION_INTERACTION
  | RemoveSessionEvent _ => ANSLP_REMOVE_SESSION
  | ResponseRemoveSessionEvent => ANSLP_RESPONSE_REMOVE_SESSION
  end.

(** [getQueue] of the classes that have one. *)
Definition class_queue (c : event_class) : option return_queue :=
  match c with CheckEvent q | AddSessionEvent q | RemoveSessionEvent q => Some q | _ => None end.

Section Events.
Context `{Libs}.

Record AnslpEvent := mk_event {
  ae_class : event_class;
  ae_objects : objectList_t;
  ae_session : list ascii }.

Definition new_AnslpEvent (c : event_class) : AnslpEvent := mk_event c [] [].

Definition getType (e : AnslpEvent) : anslp_event_t := class_type (ae_class e).
Definition isType (t : anslp_event_t) (e : AnslpEvent) : bool := bool_decide (getType e = t).

(** [setObject]: a null object is ignored. *)
Definition ae_setObject (k : mspec_rule_key) (o : option anslp_object) (e : AnslpEvent) : AnslpEvent :=
  match o with
  | None => e
  | Some o => mk_event (ae_class e) (map_set mspec_rule_key_ltb k o (ae_objects e)) (ae_session e)
  end.
Definition setSession (sid : list ascii) (e : AnslpEvent) : AnslpEvent := mk_event (ae_class e) (ae_objects e) sid.

(** [getSession]: [AddAnslpSessionEvent] has a session ID of its own. *)
Definition getSession (e : AnslpEvent) : list ascii :=
  match ae_class e with AddAnslpSessionEvent sid _ => sid | _ => ae_session e end.

(** The predicates; a null pointer has no class. *)
Definition is_response_checksession_event (e : option AnslpEvent) : bool :=
  match e with Some e => bool_decide (getType e = ANLSP_RESPONSE_CREATE_CHECK_SESSION) | None => false end.
Definition is_check_event (e : AnslpEvent) : bool := match ae_class e with CheckEvent _ => true | _ => false end.
Definition is_addsession_event (e : AnslpEvent) : bool := match ae_class e with AddSessionEvent _ => true | _ => false end.
Definition is_removesession_event (e : AnslpEvent) : bool :=
  match ae_class e with RemoveSessionEvent _ => true | _ => false end.
Definition is_auction_interaction_event (e : AnslpEvent) : bool :=
  match ae_class e with AuctionInteractionEvent => true | _ => false end.

(** The loops that copy the objects of a list into an event. *)
Definition set_objects (l : objectList_t) (e : AnslpEvent) : AnslpEvent :=
  fold_left (fun e kv => ae_setObject (fst kv) (Some (object_copy (snd kv))) e) l e.

Lemma set_objects_spec l e :
  Forall (fun kv => mspec_wf (snd kv)) l ->
  set_objects l e = mk_event (ae_class e)
    (fold_left (fun m kv => map_set mspec_rule_key_ltb (fst kv) (snd kv) m) l (ae_objects e)) (ae_session e).
Proof.
  intros Hl. revert e. induction Hl as [|[k o] l [Ho _] Hl IH]; intros e; [by destruct e|].
  unfold set_objects in *. cbn [fold_left fst snd]. rewrite IH. cbn [ae_setObject ae_class ae_objects ae_session snd] in *.
  by rewrite object_copy_wf.
Qed.

(** The objects of a rule go over unchanged. *)
Lemma set_objects_all `{!LibsLaws} l c sid :
  map_sorted mspec_rule_key_ltb l -> Forall (fun kv => mspec_wf (snd kv)) l ->
  set_objects l (setSession sid (new_AnslpEvent c)) = mk_event c l sid.
Proof.
  intros Hs Hw. rewrite set_objects_spec by done. cbn. f_equal.
  apply (map_of_entries_sorted (lt := mspec_rule_key_ltb) l Hs).
Qed.
End Events.

(** ** The queue of the C library, of elements of type [E]. *)
Class Cqueue (E : Type) := {
  queue_t : Type;
  create_queue : option queue_t;
  queue_enable_expedited : bool -> queue_t -> bool * queue_t;
  queue_is_expedited_enabled : queue_t -> bool;
  enqueue_element_expedited_signal : E -> bool -> queue_t -> option queue_t;
  dequeue_element_nonblocking : queue_t -> option E * queue_t;
  dequeue_element_timedwait : Z -> Z -> queue_t -> option E * queue_t;
  queue_elements : queue_t -> list E }.

(** [queue_nr_of_elements]. *)
Definition queue_nr_of_elements {E} `{Cqueue E} (q : queue_t) : nat := length (queue_elements q).

(** Without expedited data the queue is first in, first out; an element is
    refused only when a lock cannot be had. *)
Class CqueueLaws (E : Type) `{Cqueue E} : Prop := {
  create_queue_empty : forall q, create_queue = Some q -> queue_elements q = [];
  enqueue_adds : forall e q q', enqueue_element_expedited_signal e false q = Some q' ->
    queue_elements q' = queue_elements q ++ [e];
  dequeue_removes : forall q, match dequeue_element_nonblocking q with
    | (Some e, q') => queue_elements q = e :: queue_elements q'
    | (None, q') => queue_elements q = [] /\ queue_elements q' = [] end;
  timedwait_removes : forall s ns q, match dequeue_element_timedwait s ns q with
    | (Some e, q') => queue_elements q = e :: queue_elements q'
    | (None, q') => queue_elements q = [] /\ queue_elements q' = [] end }.

Section FastQueue.
Context {E : Type} `{Cqueue E}.

Record FastQueue := mk_fastqueue { fq_queue : queue_t; shutdownflag : bool }.

(** The constructor; a queue that cannot be created is reported by [FQError]. *)
Definition new_FastQueue (exp : bool) : option FastQueue :=
  match create_queue with
  | None => None
  | Some q => Some (mk_fastqueue (snd (queue_enable_expedited exp q)) false)
  end.

Definition fq_is_empty (f : FastQueue) : bool := (queue_nr_of_elements (fq_queue f) =? 0)%nat.
Definition fq_size (f : FastQueue) : nat := queue_nr_of_elements (fq_queue f).
Definition is_expedited_enabled (f : FastQueue) : bool := queue_is_expedited_enabled (fq_queue f).
Definition enable_expedited (exp : bool) (f : FastQueue) : bool * FastQueue :=
  let '(old, q) := queue_enable_expedited exp (fq_queue f) in (old, mk_fastqueue q (shutdownflag f)).
Definition fq_shutdown (f : FastQueue) : FastQueue := mk_fastqueue (fq_queue f) true.

Definition fq_enqueue (element : E) (exp : bool) : M FastQueue bool := fun f =>
  if shutdownflag f then (Normal false, f)
  else match enqueue_element_expedited_signal element exp (fq_queue f) with
       | None => (Normal false, f)
       | Some q => (Normal true, mk_fastqueue q (shutdownflag f))
       end.

(** [dequeue(false)]. *)
Definition fq_dequeue : M FastQueue (option E) := fun f =>
  let '(e, q) := dequeue_element_nonblocking (fq_queue f) in (Normal e, mk_fastqueue q (shutdownflag f)).

(** [dequeue_timedwait(msec)], in seconds and nanoseconds. *)
Definition dequeue_timedwait (msec : Z) : M FastQueue (option E) := fun f =>
  let '(e, q) := dequeue_element_timedwait (Z.quot msec 1000) (Z.rem msec 1000 * 1000000) (fq_queue f) in
  (Normal e, mk_fastqueue q (shutdownflag f)).

(** The loop of [cleanup]: [fuel] bounds its rounds. *)
Fixpoint cleanup_loop (fuel : nat) (count : nat) : M FastQueue nat := fun f =>
  if fq_is_empty f then (Normal count, f)
  else match fuel with
       | O => (Faulted Loop_bound, f)
       | S fuel =>
           match fq_dequeue f with
           | (Normal (Some _), f) => cleanup_loop fuel (S count) f
           | (_, f) => cleanup_loop fuel count f
           end
       end.

(** [cleanup], which the destructor calls. *)
Definition cleanup : M FastQueue nat := fun f => cleanup_loop (fq_size f) 0 (fq_shutdown f).

Context `{!CqueueLaws E}.

Lemma cleanup_loop_all f count :
  exists f', cleanup_loop (fq_size f) count f = (Normal (count + fq_size f), f') /\ fq_size f' = 0
    /\ shutdownflag f' = shutdownflag f.
Proof.
  remember (fq_size f) as n eqn:Hn. revert f count Hn. induction n as [|n IH]; intros f count Hn; cbn [cleanup_loop].
  - exists f. unfold fq_is_empty, fq_size in *. rewrite <- Hn. cbn. by rewrite Nat.add_0_r.
  - unfold fq_is_empty, fq_size in *. rewrite <- Hn. cbn [Nat.eqb]. unfold fq_dequeue, queue_nr_of_elements in *.
    pose proof (dequeue_removes (fq_queue f)) as Hd. destruct (dequeue_element_nonblocking (fq_queue f)) as [[e|] q].
    + rewrite Hd in Hn. cbn in Hn. destruct (IH (mk_fastqueue q (shutdownflag f)) (S count)) as (f' & Hf' & Hz & Hs).
      { cbn. lia. } exists f'. rewrite Hf'. split_and!; [f_equal; f_equal; lia|done|done].
    + destruct Hd as [Hd _]. by rewrite Hd in Hn.
Qed.

(** [cleanup] ends: it removes every event, reports how many there were,
    and leaves the queue empty and closed, so that no event is accepted any
    more. *)
Theorem cleanup_closes (f : FastQueue) :
  exists f', cleanup f = (Normal (fq_size f), f') /\ fq_is_empty f' = true
    /\ forall e exp, fq_enqueue e exp f' = (Normal false, f').
Proof.
  destruct (cleanup_loop_all (fq_shutdown f) 0) as (f' & Hf' & Hz & Hs). exists f'. split; [exact Hf'|].
  split; [by unfold fq_is_empty; apply Nat.eqb_eq|]. intros e exp. unfold fq_enqueue. by rewrite Hs.
Qed.
End FastQueue.

(** A concrete queue: a list. *)
Module Concrete_queue.
#[export] Instance list_queue E : Cqueue E := {|
  queue_t := list E;
  create_queue := Some [];
  queue_enable_expedited _ q := (false, q);
  queue_is_expedited_enabled _ := false;
  enqueue_element_expedited_signal e _ q := Some (q ++ [e]);
  dequeue_element_nonblocking q := match q with e :: q => (Some e, q) | [] => (None, []) end;
  dequeue_element_timedwait _ _ q := match q with e :: q => (Some e, q) | [] => (None, []) end;
  queue_elements q := q |}.

#[export] Instance list_queue_laws E : CqueueLaws E.
Proof. constructor; cbn; [by intros q [= <-]|by intros ? ? ? [= <-]|by intros [|]|by intros ? ? [|]]. Qed.

Definition ex_queue : FastQueue (E := nat) := mk_fastqueue ([1; 2; 3] : queue_t (E := nat)) false.

Theorem cleanup_closes_witness :
  exists f', cleanup ex_queue = (Normal 3, f') /\ fq_enqueue 4 false f' = (Normal false, f').
Proof. destruct (cleanup_closes ex_queue) as (f' & E & _ & Hf). exists f'. split; [exact E|apply Hf]. Defined.
End Concrete_queue.
