(* ===== verification/Events.v ===== *)
(** * Events and timers: include/events.h and src/anslp_timers.cpp

    An event is what a GIST message, a timer or a call of the API became.  The
    classes are the constructors of [event]; the predicates the state machines
    test are functions on it, and a [dynamic_cast] is a partial function. *)
From S2P Require Import Prelude Outcome StdMap External Objects Store Messages SessionId NtlpMsg AuctionRule.
From Stdlib Require Import Ascii.

(** A queue of the API, by its address. *)
Definition queue : Type := nat.

(** A timer is the ID of the timer message last started, 0 when it is not
    running. *)
Definition timer : Type := Z.

Section Events.
Context `{Libs}.

(** Addressing data shared by the API events. *)
Record addressing := mk_addressing {
  source_addr : hostaddress; dest_addr : hostaddress;
  source_port : Z; dest_port : Z; protocol : Z }.

Record api_create_data := mk_api_create {
  ac_session_id : list ascii;
  ac_addr : addressing;
  ac_lifetime : Z;
  ac_sel_auct_entities : Z;
  ac_objects : objectList_t;
  ac_return_queue : option queue }.

Inductive event :=
  | Network_notification_event
  | Route_changed_bad_event
  | No_next_node_found_event
  | Routing_state_check_event (m : mri)
  | Msg_event (msg : ntlp_msg) (for_this_node : bool)
  | Timer_event (id : Z)
  | Api_create_event (e : api_create_data)
  | Api_check_event (objs : objectList_t) (rq : option queue)
  | Api_install_event (objs : objectList_t) (rq : option queue)
  | Api_refresh_event (a : addressing) (lifetime msn : Z) (rq : option queue)
  | Api_notify_event (a : addressing) (severity code otype : Z) (rq : option queue)
  | Api_bidding_event (a : addressing) (objs : objectList_t) (rq : option queue)
  | Api_response_event (a : addressing) (lifetime msn severity code otype : Z) (rq : option queue)
  | Api_teardown_event
  | Api_remove_event (objs : objectList_t) (rq : option queue).

(** The [setObject] methods of the API events: a null object is ignored. *)
Definition setObject (k : mspec_rule_key) (o : option anslp_object) (l : objectList_t) : objectList_t :=
  match o with None => l | Some o => map_set mspec_rule_key_ltb k o l end.

(** [msg_event::get_create] and its siblings. *)
Definition ev_msg (evt : event) : option ntlp_msg :=
  match evt with Msg_event m _ => Some m | _ => None end.
Definition ev_anslp (c : msg_class) (evt : event) : option anslp_msg :=
  match ev_msg evt with Some m => get_anslp c m | None => None end.
Definition get_create := ev_anslp C_create.
Definition get_response := ev_anslp C_response.
Definition get_refresh := ev_anslp C_refresh.
Definition get_bidding := ev_anslp C_bidding.
Definition get_notify := ev_anslp C_notify.

(** The predicates. *)
Definition is_timer_of (evt : event) (t : timer) : bool :=
  match evt with Timer_event id => (id =? t)%Z | _ => false end.
Definition is_timer (evt : event) : bool := match evt with Timer_event _ => true | _ => false end.
Definition is_api_create (evt : event) : bool :=
  match evt with Api_create_event _ => true | _ => false end.
Definition is_api_install (evt : event) : bool :=
  match evt with Api_install_event _ _ => true | _ => false end.
Definition is_api_check (evt : event) : bool :=
  match evt with Api_check_event _ _ => true | _ => false end.
Definition is_api_bidding (evt : event) : bool :=
  match evt with Api_bidding_event _ _ _ => true | _ => false end.
Definition is_api_refresh (evt : event) : bool :=
  match evt with Api_refresh_event _ _ _ _ => true | _ => false end.
Definition is_api_notify (evt : event) : bool :=
  match evt with Api_notify_event _ _ _ _ _ => true | _ => false end.
Definition is_api_response (evt : event) : bool :=
  match evt with Api_response_event _ _ _ _ _ _ _ => true | _ => false end.
Definition is_api_teardown (evt : event) : bool :=
  match evt with Api_teardown_event => true | _ => false end.
Definition is_api_remove (evt : event) : bool :=
  match evt with Api_remove_event _ _ => true | _ => false end.
Definition is_routing_state_check (evt : event) : bool :=
  match evt with Routing_state_check_event _ => true | _ => false end.
Definition is_route_changed_bad_event (evt : event) : bool :=
  match evt with Route_changed_bad_event => true | _ => false end.
Definition is_no_next_node_found_event (evt : event) : bool :=
  match evt with No_next_node_found_event => true | _ => false end.
Definition is_anslp_create (evt : event) : bool := is_some (get_create evt).
Definition is_anslp_bidding (evt : event) : bool := is_some (get_bidding evt).
Definition is_anslp_refresh (evt : event) : bool := is_some (get_refresh evt).
Definition is_anslp_notify (evt : event) : bool := is_some (get_notify evt).
Definition is_anlsp_response (evt : event) : bool := is_some (get_response evt).
Definition is_invalid_anslp_msg (evt : event) : bool :=
  match ev_msg evt with Some m => negb (is_some (get_anslp_msg m)) | None => false end.

(** [is_anslp_response(evt, msn)]. *)
Definition is_anslp_response_msn (evt : event) (msn : Z) : bool :=
  match get_response evt with
  | None => false
  | Some r => has_msg_sequence_number r && (msn =? response_get_msg_sequence_number r)%Z
  end.

(** [is_anslp_response(evt, msg)]; the getter of [msg] is only reached when
    it has a sequence number. *)
Definition is_anslp_response (evt : event) (msg : option ntlp_msg) : bool :=
  match msg with
  | None => false
  | Some n =>
      match get_anslp_msg n with
      | None => false
      | Some m =>
          if negb (has_msg_sequence_number m) then false
          else match get_msg_sequence_number m with
               | Normal msn => is_anslp_response_msn evt msn
               | _ => false
               end
      end
  end.

(** Casts behind the predicates: the code dereferences the result. *)
Definition cast_create (evt : event) : option api_create_data :=
  match evt with Api_create_event e => Some e | _ => None end.
Definition cast_objects (evt : event) : option objectList_t :=
  match evt with
  | Api_check_event objs _ | Api_install_event objs _ | Api_bidding_event _ objs _
  | Api_remove_event objs _ => Some objs
  | _ => None
  end.
Definition cast_return_queue (evt : event) : option queue :=
  match evt with
  | Api_bidding_event _ _ rq | Api_check_event _ rq | Api_install_event _ rq => rq
  | _ => None
  end.
Definition is_for_this_node (evt : event) : bool :=
  match evt with Msg_event _ b => b | _ => false end.

(** A response recognised by [is_anslp_response] is a response event. *)
Lemma is_anslp_response_msg evt n :
  is_anslp_response evt n = true -> exists r, get_response evt = Some r.
Proof.
  unfold is_anslp_response, is_anslp_response_msn. destruct n as [n|]; [|discriminate].
  destruct (get_anslp_msg n) as [m|]; [|discriminate]. destruct (negb _); [discriminate|].
  destruct (get_msg_sequence_number m); try discriminate.
  destruct (get_response evt); [eauto|discriminate].
Qed.

(** What such a response answers: the sequence number of the message. *)
Lemma is_anslp_response_msn_eq evt n m r :
  is_anslp_response evt (Some n) = true -> get_anslp_msg n = Some m -> get_response evt = Some r ->
  msn_of m = response_get_msg_sequence_number r.
Proof.
  unfold is_anslp_response, is_anslp_response_msn. intros Ha Hm Hr. rewrite Hm in Ha.
  destruct (has_msg_sequence_number m) eqn:Eh; cbn [negb] in Ha; [|discriminate].
  rewrite get_msn_has in Ha by done. rewrite Hr in Ha. apply andb_true_iff in Ha as [_ Ha]. by apply Z.eqb_eq.
Qed.
End Events.
