(* ===== verification/Session.v ===== *)
(** * The base of the session classes: src/session.cpp, include/session.h, and
    the interface to the dispatcher

    The three session classes share an identity, a message sequence number and
    an auction rule.  Their handlers act on the outside only through the
    dispatcher, through libuuid and OpenSSL for keys and random numbers, and
    through the queues of the API: two type classes state these operations,
    and [Effects] what they promise - every operation appends its effect to a
    trace, and only the operations of the rule installer may throw, and then
    only [auction_rule_installer_error]. *)
From S2P Require Import Prelude Outcome StdMap External Objects Store Messages SessionId NtlpMsg AuctionRule Events.
From Stdlib Require Import Ascii.

Inductive session_type_t := st_initiator | st_forwarder | st_receiver.

#[export] Instance session_type_eq_dec : EqDecision session_type_t.
Proof. solve_decision. Defined.

(** What sessions put into queues of the API: the answer to a CREATE request
    or an event handed on. *)
Inductive queue_msg `{Libs} :=
  | AddAnslpSessionEvent (user_session own_session : list ascii)
  | Event_msg (sid : session_id) (evt : option event).

Section Interfaces.
Context `{Libs}.

(** What the dispatcher offers to sessions (include/dispatcher.h). *)
Class Dispatcher (W : Type) := {
  send_message : ntlp_msg -> M W unit;
  start_timer : session_id -> Z -> M W Z;
  report_async_event : string -> M W unit;
  d_check : list ascii -> objectList_t -> M W bool;
  install_auction_rules : list ascii -> option auction_rule -> M W unit;
  auction_interaction : bool -> list ascii -> option auction_rule -> M W (option auction_rule);
  send_response : list ascii -> option auction_rule -> M W unit;
  remove_auction_rules : list ascii -> option auction_rule -> M W unit;
  is_authorized : ntlp_msg -> M W bool }.

(** libuuid, OpenSSL, the C library and the API queues. *)
Class Platform (W : Type) := {
  uuid_generate : M W uuid;
  RAND_word : M W Z;
  rand : M W Z;
  enqueue : queue -> queue_msg -> M W unit }.

Inductive effect :=
  | Sent (n : ntlp_msg)
  | Timer_started (sid : session_id) (seconds id : Z)
  | Reported (text : string)
  | Checked (sid : list ascii) (objs : objectList_t)
  | Rules_installed (sid : list ascii) (r : auction_rule)
  | Interaction (server : bool) (sid : list ascii) (r : auction_rule)
  | Response_put (sid : list ascii) (r : auction_rule)
  | Rules_removed (sid : list ascii) (r : auction_rule)
  | Enqueued (q : queue) (m : queue_msg).

(** An operation that cannot fail and has the effects [es a]. *)
Definition does {W A} (trace : W -> list effect) (m : M W A) (es : A -> list effect) : Prop :=
  forall w, exists a, fst (m w) = Normal a /\ trace (snd (m w)) = trace w ++ es a.

(** An operation of the installer: it has the effect, or it throws. *)
Definition may_throw {W A} (trace : W -> list effect) (m : M W A) (es : list effect) : Prop :=
  forall w, (exists a, fst (m w) = Normal a /\ trace (snd (m w)) = trace w ++ es)
    \/ (exists e, fst (m w) = Raised (Installer_error e) /\ trace (snd (m w)) = trace w).

Class Effects (W : Type) `{!Dispatcher W} `{!Platform W} := {
  trace : W -> list effect;
  send_does : forall n, does trace (send_message n) (fun _ => [Sent n]);
  timer_does : forall sid t, does trace (start_timer sid t) (fun id => [Timer_started sid t id]);
  report_does : forall s, does trace (report_async_event s) (fun _ => [Reported s]);
  check_does : forall sid l, may_throw trace (d_check sid l) [Checked sid l];
  install_does : forall sid r, may_throw trace (install_auction_rules sid (Some r)) [Rules_installed sid r];
  interact_does : forall b sid r, may_throw trace (auction_interaction b sid (Some r)) [Interaction b sid r];
  respond_does : forall sid r, may_throw trace (send_response sid (Some r)) [Response_put sid r];
  remove_does : forall sid r, may_throw trace (remove_auction_rules sid (Some r)) [Rules_removed sid r];
  auth_does : forall n, does trace (is_authorized n) (fun _ => []);
  uuid_does : does trace uuid_generate (fun _ => []);
  RAND_does : does trace RAND_word (fun _ => []);
  rand_does : does trace rand (fun _ => []);
  enqueue_does : forall q m, does trace (enqueue q m) (fun _ => [Enqueued q m]) }.
End Interfaces.

(** ** Computations on a session and the world around it. *)
Section Lifting.
Context {S W : Type}.

Definition outside {A} (m : M W A) : M (S * W) A := fun '(s, w) =>
  let '(o, w') := m w in (o, (s, w')).
Definition the : M (S * W) S := fun '(s, w) => (Normal s, (s, w)).
Definition update (f : S -> S) : M (S * W) unit := fun '(s, w) => (Normal tt, (f s, w)).

Lemma wp_the Q s w : Q (Normal s) (s, w) -> wp the Q (s, w).
Proof. done. Qed.

Lemma wp_update f Q s w : Q (Normal tt) (f s, w) -> wp (update f) Q (s, w).
Proof. done. Qed.

Lemma wp_outside {A} (m : M W A) Q s w :
  wp m (fun o w' => Q o (s, w')) w -> wp (outside m) Q (s, w).
Proof. unfold wp, outside. by destruct (m w). Qed.
End Lifting.

Section Base.
Context `{Libs}.

(** The attributes of class [session]; the lock is the dispatcher's concern. *)
Record session_base := mk_session {
  sid : session_id;
  stype : session_type_t;
  msn : Z;
  msg_hop_count : Z;
  rule : option auction_rule }.

(** The constructor and [init]: an empty rule, sequence number 0. *)
Definition new_session (id : session_id) (t : session_type_t) (hops : Z) : session_base :=
  mk_session id t 0 hops (Some new_auction_rule).

Definition set_msn (n : Z) (s : session_base) : session_base :=
  mk_session (sid s) (stype s) n (msg_hop_count s) (rule s).
Definition set_hop_count (n : Z) (s : session_base) : session_base :=
  mk_session (sid s) (stype s) (msn s) n (rule s).
Definition set_rule (r : option auction_rule) (s : session_base) : session_base :=
  mk_session (sid s) (stype s) (msn s) (msg_hop_count s) r.

(** [next_msg_sequence_number]: [++msn] in [uint32]. *)
Definition next_msg_sequence_number (s : session_base) : Z * session_base :=
  let n := u32 (msn s + 1) in (n, set_msn n s).

(** [check_lifetime]. *)
Definition check_lifetime (lifetime max_lifetime : Z) : outcome unit :=
  if (max_lifetime <? lifetime)%Z then
    Raised (Override_lifetime (mk_request_error "requested session lifetime too long"
      sc_informational sigfail_lifetime_too_big))
  else Normal tt.

Definition authorization_error : request_error :=
  mk_request_error "authorization/authentication failed" sc_permanent_failure fail_authentication_failed.

(** [check_participating]. *)
Definition check_participating (t : session_type_t) (sme : Z) : bool :=
  match t with
  | st_initiator => (sme =? sme_all)%Z || (sme =? sme_any)%Z || (sme =? sme_first)%Z || (sme =? sme_first_last)%Z
  | st_forwarder => (sme =? sme_all)%Z || (sme =? sme_any)%Z
  | st_receiver => (sme =? sme_all)%Z || (sme =? sme_any)%Z || (sme =? sme_first_last)%Z || (sme =? sme_last)%Z
  end.

(** [get_number_mspec_request_objects]. *)
Definition session_number_requests (s : session_base) : nat :=
  match rule s with Some r => get_number_mspec_request_objects r | None => 0 end.

(** The number of responses of a rule the code dereferences. *)
Definition responses_of (r : option auction_rule) : outcome nat :=
  obind (of_pointer r) (fun r => Normal (get_number_mspec_response_objects r)).

Section World.
Context {W : Type} `{!Dispatcher W} `{!Platform W}.

(** [check_authorization]. *)
Definition check_authorization (n : ntlp_msg) : M W unit :=
  ok <- is_authorized n ;;
  if negb ok then raise (Request_error authorization_error) else ret tt.

(** The checks before a responder or a forwarder accepts a CREATE or a
    REFRESH ([handle_state_close], [handle_state_auctioning]): the lifetime
    the session will use.  A lifetime above the maximum is cut down, and
    the exception that says so skips the authorization. *)
Definition accepted_lifetime (max_lifetime : Z) (n : ntlp_msg) (lifetime : Z) : M W Z :=
  catch
    (lift_outcome (check_lifetime lifetime max_lifetime) ;;;
     check_authorization n ;;;
     ret lifetime)
    (fun e => match e with Override_lifetime _ => ret max_lifetime | e => raise e end).

(** The same, with the other exceptions caught: they are answered. *)
Definition checked_lifetime (max_lifetime : Z) (n : ntlp_msg) (lifetime : Z) : M W (option Z) :=
  catch
    (lifetime <- accepted_lifetime max_lifetime n lifetime ;; ret (Some lifetime))
    (fun e => match e with
              | Request_error err | Installer_error err =>
                  send_message (create_error_response err n) ;;; ret None
              | e => raise e
              end).

(** [create_random_number]: a [uint32] filled with random bytes. *)
Definition create_random_number : M W Z := random <- RAND_word ;; ret (u32 random).

(** [timer::start], [timer::restart]: the new ID. *)
Definition timer_start (id : session_id) (seconds : Z) : M W timer := start_timer id (int32 seconds).

(** [session::set_request_mspec_object]: nothing without a rule. *)
Definition set_request_mspec_object (o : option anslp_object) (r : option auction_rule)
  : M W (option auction_rule) :=
  match r with
  | None => ret None
  | Some r =>
      k <- uuid_generate ;;
      res <- lift_outcome (set_request_object k o r) ;;
      ret (Some (snd res))
  end.

(** Loops over [set_request_object] and [set_response_object], each with a
    fresh key. *)
Fixpoint add_requests (l : list anslp_object) (r : auction_rule) : M W auction_rule :=
  match l with
  | [] => ret r
  | o :: l' =>
      k <- uuid_generate ;;
      res <- lift_outcome (set_request_object k (Some o) r) ;;
      add_requests l' (snd res)
  end.
Fixpoint add_responses (l : list anslp_object) (r : auction_rule) : M W auction_rule :=
  match l with
  | [] => ret r
  | o :: l' =>
      k <- uuid_generate ;;
      res <- lift_outcome (set_response_object k (Some o) r) ;;
      add_responses l' (snd res)
  end.

(** [session::set_reponse_objects]: a copy of every object of the install
    event becomes a response of the rule. *)
Definition set_reponse_objects (objs : objectList_t) (r : option auction_rule) : M W (option auction_rule) :=
  match objs with
  | [] => ret r
  | _ => r <- deref r ;; r <- add_responses (map (fun kv => object_copy (snd kv)) objs) r ;; ret (Some r)
  end.

(** [session::get_nr_address].  [appladdress] is a class of protlib, and
    [get_mrm] a number the NTLP gives its routing methods.  The text of the
    exception adds that number to the address of the literal: [request_error]
    gets the literal without its first characters, or what is behind it. *)
Section Address.
Context {appladdress : Type} (new_appladdress : hostaddress -> Z -> Z -> appladdress) (get_mrm : mri -> Z).

Definition literal_plus (literal : string) (offset : Z) : outcome string :=
  if (0 <=? offset)%Z && (offset <=? Z.of_nat (String.length literal))%Z
  then Normal (String.substring (Z.to_nat offset) (String.length literal - Z.to_nat offset) literal)
  else Faulted Out_of_bounds.

Definition get_nr_address (m : mri) : outcome appladdress :=
  match downcast_mri m with
  | Some mri_pc => Normal (new_appladdress (get_destaddress mri_pc) (get_protocol mri_pc) (get_destport mri_pc))
  | None => obind (literal_plus "unknown MRM: " (int32 (get_mrm m))) (fun msg => Raised (Request_error (mk_request_error msg 0 0)))
  end.

(** The number is never part of the text; from 14 on the code reads behind
    the literal. *)
Lemma get_nr_address_cases m :
  match downcast_mri m with
  | Some p => get_nr_address m = Normal (new_appladdress (get_destaddress p) (get_protocol p) (get_destport p))
  | None =>
      (get_mrm m = 8%Z -> get_nr_address m = Raised (Request_error (mk_request_error "MRM: " 0 0)))
      /\ ((13 < get_mrm m < 2 ^ 31)%Z -> get_nr_address m = Faulted Out_of_bounds)
  end.
Proof.
  unfold get_nr_address. destruct (downcast_mri m) as [p|]; [done|]. split; [by intros ->|]. intros Hm.
  assert (E : int32 (get_mrm m) = get_mrm m) by (unfold int32; rewrite Z.mod_small; lia).
  rewrite E. unfold literal_plus. cbn [String.length]. rewrite (proj2 (Z.leb_gt (get_mrm m) _)) by lia. by rewrite andb_false_r.
Qed.
End Address.

(** [create_auction_rule] of the session classes: the MSPEC objects of a
    BIDDING message become the requests of a new rule. *)
Definition create_auction_rule (bidding : option anslp_msg) : M W auction_rule :=
  bidding <- asserted bidding ;;
  objects <- lift_outcome (bidding_get_mspec_objects bidding) ;;
  add_requests (map object_copy objects) new_auction_rule.
End World.
End Base.

(** ** Reasoning about handlers.

    One rule per operation, each introducing the world after it together with
    what the trace says about it. *)
Section Rules.
Context `{Libs} {W : Type} `{!Dispatcher W} `{!Platform W} `{!Effects W}.
Context {S : Type}.
Implicit Types (s : S) (w : W).

Lemma wp_does {A} (m : M W A) es Q s w :
  does trace m es ->
  (forall a w', trace w' = trace w ++ es a -> Q (Normal a) (s, w')) ->
  wp (outside m) Q (s, w).
Proof.
  intros Hm HQ. apply wp_outside. unfold wp. destruct (Hm w) as (a & E & Ht).
  destruct (m w) as [o w']. cbn in *. subst. by apply HQ.
Qed.

Lemma wp_may_throw_known {A} (m : M W A) es Q s w :
  may_throw trace m es ->
  (forall a w', trace w' = trace w ++ es -> Q (Normal a) (s, w')) ->
  (forall e w', fst (m w) = Raised (Installer_error e) -> trace w' = trace w -> Q (Raised (Installer_error e)) (s, w')) ->
  wp (outside m) Q (s, w).
Proof.
  intros Hm HQ HE. apply wp_outside. unfold wp.
  destruct (Hm w) as [(a & E & Ht)|(e & E & Ht)]; destruct (m w) as [o w']; cbn in *; subst; auto.
Qed.

Lemma wp_may_throw {A} (m : M W A) es Q s w :
  may_throw trace m es ->
  (forall a w', trace w' = trace w ++ es -> Q (Normal a) (s, w')) ->
  (forall e w', trace w' = trace w -> Q (Raised (Installer_error e)) (s, w')) ->
  wp (outside m) Q (s, w).
Proof. intros Hm HQ HE. by eapply wp_may_throw_known; [..|intros e w' _; apply HE]. Qed.

Lemma does_ret {A} (a : A) : does trace (ret a) (fun _ => []).
Proof. intros w. exists a. by rewrite app_nil_r. Qed.

Lemma does_pure {A B} (m : M W A) (k : A -> M W B) (P : B -> Prop) :
  does trace m (fun _ => []) ->
  (forall a w, exists b, fst (k a w) = Normal b /\ trace (snd (k a w)) = trace w /\ P b) ->
  forall w, exists b, fst (bind m k w) = Normal b /\ trace (snd (bind m k w)) = trace w /\ P b.
Proof.
  intros Hm Hk w. unfold bind. destruct (Hm w) as (a & E & Ht). destruct (m w) as [o w1]. cbn in *.
  subst o. rewrite app_nil_r in Ht. destruct (Hk a w1) as (b & E' & Ht' & Hb). exists b.
  split_and!; [done|congruence|done].
Qed.

Lemma map_set_length_ge {K V} (lt : K -> K -> bool) k (v : V) m :
  length m <= length (map_set lt k v m) /\ 0 < length (map_set lt k v m).
Proof.
  induction m as [|[k' v'] m IH]; cbn; [lia|]. destruct (lt k k'); cbn; [lia|].
  destruct (lt k' k); cbn; lia.
Qed.

(** Adding requests keeps the responses and never fails; and conversely. *)
Lemma add_requests_spec l r w :
  exists r', fst (add_requests l r w) = Normal r' /\ trace (snd (add_requests l r w)) = trace w
    /\ (object_responses r' = object_responses r
        /\ length (object_requests r) <= length (object_requests r')).
Proof.
  revert r w. induction l as [|o l IH]; intros r w; [by exists r|]. cbn [add_requests].
  apply does_pure; [apply uuid_does|]. clear w. intros k w. unfold bind, lift_outcome. cbn.
  destruct (IH (mk_rule (map_set mspec_rule_key_ltb k o (object_requests r)) (object_responses r)) w)
    as (r' & E & Ht & H1 & H2).
  exists r'. split_and!; try done. cbn in H2.
  pose proof (map_set_length_ge mspec_rule_key_ltb k o (object_requests r)). lia.
Qed.

Lemma add_responses_spec l r w :
  exists r', fst (add_responses l r w) = Normal r' /\ trace (snd (add_responses l r w)) = trace w
    /\ (object_requests r' = object_requests r
        /\ length (object_responses r) <= length (object_responses r')
        /\ (l <> [] -> 0 < length (object_responses r'))).
Proof.
  revert r w. induction l as [|o l IH]; intros r w; [by exists r|]. cbn [add_responses].
  apply does_pure; [apply uuid_does|]. clear w. intros k w. unfold bind, lift_outcome. cbn.
  destruct (IH (mk_rule (object_requests r) (map_set mspec_rule_key_ltb k o (object_responses r))) w)
    as (r' & E & Ht & H1 & H2 & H3).
  exists r'. cbn in H2. pose proof (map_set_length_ge mspec_rule_key_ltb k o (object_responses r)).
  split_and!; try done; try (intros; lia).
Qed.

(** The entries a loop of [set_request_object] leaves: [l] under the fresh
    keys [ks], on top of [m]. *)
Definition with_entries (ks : list mspec_rule_key) (l : list anslp_object) (m : objectList_t) : objectList_t :=
  fold_left (fun m kv => map_set mspec_rule_key_ltb (fst kv) (snd kv) m) (zip ks l) m.

Lemma add_requests_exact l r w :
  exists ks, length ks = length l /\ trace (snd (add_requests l r w)) = trace w
    /\ fst (add_requests l r w) = Normal (mk_rule (with_entries ks l (object_requests r)) (object_responses r)).
Proof.
  revert r w. induction l as [|o l IH]; intros r w; [exists []; by destruct r|].
  cbn [add_requests]. unfold bind at 1. unfold bind at 2. destruct (uuid_does w) as (k & E & Ht). destruct (uuid_generate w) as [? w1].
  cbn in E, Ht. subst. unfold bind, lift_outcome. cbn [set_request_object set_request_object_at snd].
  destruct (IH (mk_rule (map_set mspec_rule_key_ltb k o (object_requests r)) (object_responses r)) w1)
    as (ks & Hk & Ht' & E'). exists (k :: ks). split_and!; [cbn; congruence| |exact E'].
  rewrite Ht', Ht. apply app_nil_r.
Qed.

Lemma add_responses_exact l r w :
  exists ks, length ks = length l /\ trace (snd (add_responses l r w)) = trace w
    /\ fst (add_responses l r w) = Normal (mk_rule (object_requests r) (with_entries ks l (object_responses r))).
Proof.
  revert r w. induction l as [|o l IH]; intros r w; [exists []; by destruct r|].
  cbn [add_responses]. unfold bind at 1. unfold bind at 2. destruct (uuid_does w) as (k & E & Ht). destruct (uuid_generate w) as [? w1].
  cbn in E, Ht. subst. unfold bind, lift_outcome. cbn [set_response_object set_response_object_at snd].
  destruct (IH (mk_rule (object_requests r) (map_set mspec_rule_key_ltb k o (object_responses r))) w1)
    as (ks & Hk & Ht' & E'). exists (k :: ks). split_and!; [cbn; congruence| |exact E'].
  rewrite Ht', Ht. apply app_nil_r.
Qed.

Lemma with_entries_values P ks l m :
  Forall P l -> Forall (fun kv => P (snd kv)) m -> Forall (fun kv => P (snd kv)) (with_entries ks l m).
Proof.
  unfold with_entries. intros Hl. revert ks m. induction Hl as [|o l Ho Hl IH]; intros [|k ks] m Hm; cbn; try done.
  apply IH. clear IH. induction Hm as [|[k' o'] m Ho' Hm IHm]; cbn; [by repeat constructor|].
  destruct (mspec_rule_key_ltb k k'); [by repeat constructor|].
  destruct (mspec_rule_key_ltb k' k); by constructor.
Qed.

Lemma with_entries_length ks l m : length (with_entries ks l m) <= length m + length l.
Proof.
  unfold with_entries. revert ks m. induction l as [|o l IH]; intros [|k ks] m; cbn; try lia.
  etransitivity; [apply IH|]. enough (length (map_set mspec_rule_key_ltb k o m) <= 1 + length m) by lia.
  clear. induction m as [|[k' o'] m IHm]; cbn; [lia|].
  destruct (mspec_rule_key_ltb k k'); cbn; [lia|]. destruct (mspec_rule_key_ltb k' k); cbn; lia.
Qed.

(** With keys that are all different - what libuuid is for - no object is
    lost and none is invented. *)
Lemma with_entries_perm `{!LibsLaws} ks l m :
  length ks = length l -> NoDup (map fst m ++ ks) -> with_entries ks l m ≡ₚ m ++ zip ks l.
Proof.
  unfold with_entries. revert ks m. induction l as [|o l IH]; intros [|k ks] m Hlen Hnd; cbn in *; try lia.
  { by rewrite app_nil_r. }
  apply NoDup_app in Hnd as (Hm & Hdis & Hk). apply NoDup_cons in Hk as [Hkks Hks].
  assert (Hp : map_set mspec_rule_key_ltb k o m ≡ₚ (k, o) :: m).
  { apply map_set_fresh_perm, Forall_forall. intros [k' o'] Hin. rewrite mspec_rule_key_equiv.
    unfold mspec_rule_key_eqb. apply Z.eqb_neq. intros Heq. apply uuid_compare_eq in Heq. cbn in Heq. rewrite <- Heq in Hin.
    apply (Hdis k); [|left]. by apply (list_elem_of_fmap_2 fst m (k, o')). }
  rewrite (IH ks); [|lia|].
  - rewrite Hp. cbn. apply Permutation_middle.
  - rewrite Hp. cbn. constructor.
    + rewrite elem_of_app. intros [Hin|Hin]; [|done]. by apply (Hdis k); [|left].
    + apply NoDup_app. split_and!; [done| |done]. intros x Hx Hx'. apply (Hdis x Hx). by right.
Qed.

Lemma wp_pure {A} (m : M W A) (P : A -> Prop) Q s w :
  (forall w, exists a, fst (m w) = Normal a /\ trace (snd (m w)) = trace w /\ P a) ->
  (forall a w', P a -> trace w' = trace w -> Q (Normal a) (s, w')) ->
  wp (outside m) Q (s, w).
Proof.
  intros Hm HQ. apply wp_outside. unfold wp. destruct (Hm w) as (a & E & Ht & HP).
  destruct (m w) as [o w']. cbn in *. subst. by apply HQ.
Qed.

Lemma random_does w : exists n w', create_random_number w = (Normal n, w') /\ is_u32 n /\ trace w' = trace w.
Proof.
  destruct (RAND_does w) as (a & E & Ht). unfold create_random_number, bind. destruct (RAND_word w) as [o w'].
  cbn in *. subst o. exists (u32 a), w'. split_and!; [done|apply u32_range|by rewrite Ht, app_nil_r].
Qed.

Lemma wp_random Q s w :
  (forall n w', is_u32 n -> trace w' = trace w -> Q (Normal n) (s, w')) ->
  wp (outside create_random_number) Q (s, w).
Proof.
  intros HQ. apply wp_outside. destruct (random_does w) as (n & w' & E & Hn & Ht). eapply wp_eq; [exact E|auto].
Qed.

Lemma wp_timer_start sid t Q s w :
  (forall id w', trace w' = trace w ++ [Timer_started sid (int32 t) id] -> Q (Normal id) (s, w')) ->
  wp (outside (timer_start sid t)) Q (s, w).
Proof. intros HQ. unfold timer_start. by eapply wp_does; [apply timer_does|]. Qed.

Lemma wp_add_requests l r Q s w :
  (forall r' w', object_responses r' = object_responses r ->
     length (object_requests r) <= length (object_requests r') ->
     trace w' = trace w -> Q (Normal r') (s, w')) ->
  wp (outside (add_requests l r)) Q (s, w).
Proof. intros HQ. eapply wp_pure; [apply add_requests_spec|]. cbn. intros r' w' [H1 H2] Ht. auto. Qed.

Lemma wp_add_responses l r Q s w :
  (forall r' w', object_requests r' = object_requests r ->
     length (object_responses r) <= length (object_responses r') ->
     (l <> [] -> 0 < length (object_responses r')) ->
     trace w' = trace w -> Q (Normal r') (s, w')) ->
  wp (outside (add_responses l r)) Q (s, w).
Proof. intros HQ. eapply wp_pure; [apply add_responses_spec|]. cbn. intros r' w' (H1 & H2 & H3) Ht. auto. Qed.

Lemma wp_set_reponse_objects objs r Q s w :
  (forall r' w', object_requests r' = object_requests r ->
     length (object_responses r) <= length (object_responses r') ->
     (objs <> [] -> 0 < length (object_responses r')) ->
     trace w' = trace w -> Q (Normal (Some r')) (s, w')) ->
  wp (outside (set_reponse_objects objs (Some r))) Q (s, w).
Proof.
  intros HQ. unfold set_reponse_objects. destruct objs as [|kv objs].
  - apply wp_outside. apply wp_ret. by apply HQ.
  - eapply (wp_pure _ (fun r'' => exists r', r'' = Some r' /\ object_requests r' = object_requests r
      /\ length (object_responses r) <= length (object_responses r') /\ 0 < length (object_responses r'))).
    + intros w0. unfold bind, deref, ret.
      destruct (add_responses_spec (map (fun kv => object_copy (snd kv)) (kv :: objs)) r w0)
        as (r' & E & Ht & H1 & H2 & H3).
      destruct (add_responses _ r w0) as [o w1]. cbn in E, Ht. subst o.
      exists (Some r'). split; [done|]. split; [done|]. exists r'. split_and!; try done.
      apply H3. cbn. congruence.
    + intros a w' (r' & -> & H1 & H2 & H3) Ht. apply HQ; auto.
Qed.

Lemma wp_add_requests_exact l r Q s w :
  (forall ks w', length ks = length l -> trace w' = trace w ->
     Q (Normal (mk_rule (with_entries ks l (object_requests r)) (object_responses r))) (s, w')) ->
  wp (outside (add_requests l r)) Q (s, w).
Proof.
  intros HQ. eapply (wp_pure _ (fun a => exists ks, length ks = length l
    /\ a = mk_rule (with_entries ks l (object_requests r)) (object_responses r))).
  - intros w0. destruct (add_requests_exact l r w0) as (ks & Hk & Ht & E). eexists.
    split_and!; [exact E|done|]. by exists ks.
  - intros a w' (ks & Hk & ->) Ht. by apply HQ.
Qed.

Lemma wp_set_reponse_objects_exact objs r Q s w :
  (forall ks w', length ks = length objs -> trace w' = trace w ->
     Q (Normal (Some (mk_rule (object_requests r)
          (with_entries ks (map (fun kv => object_copy (snd kv)) objs) (object_responses r))))) (s, w')) ->
  wp (outside (set_reponse_objects objs (Some r))) Q (s, w).
Proof.
  intros HQ. eapply (wp_pure _ (fun a => exists ks, length ks = length objs
    /\ a = Some (mk_rule (object_requests r)
              (with_entries ks (map (fun kv => object_copy (snd kv)) objs) (object_responses r))))).
  - intros w0. unfold set_reponse_objects. destruct objs as [|kv objs].
    + eexists. split_and!; [done..|]. exists []. by destruct r.
    + destruct (add_responses_exact (map (fun kv => object_copy (snd kv)) (kv :: objs)) r w0)
        as (ks & Hk & Ht & E). unfold bind, deref, ret.
      destruct (add_responses _ r w0) as [o w1]. cbn [fst snd] in *. subst o.
      eexists. split_and!; [done|done|]. exists ks. split; [by rewrite Hk, length_map|done].
  - intros a w' (ks & Hk & ->) Ht. by apply HQ.
Qed.

Lemma wp_check_authorization n Q s w :
  (forall w', trace w' = trace w -> Q (Normal tt) (s, w')) ->
  (forall w', trace w' = trace w -> Q (Raised (Request_error authorization_error)) (s, w')) ->
  wp (outside (check_authorization n)) Q (s, w).
Proof.
  intros HN HR. apply wp_outside. unfold check_authorization, wp, bind.
  destruct (auth_does n w) as (ok & E & Ht). destruct (is_authorized n w) as [o w']. cbn in *. subst o.
  rewrite app_nil_r in Ht. destruct ok; cbn; auto.
Qed.

(** The checks let a request pass with its own lifetime or the maximum, or
    refuse it with an error response. *)
Lemma wp_checked_lifetime max n lt Q s w :
  ((max < lt)%Z -> Q (Normal (Some max)) (s, w)) ->
  ((lt <= max)%Z -> forall w', trace w' = trace w -> Q (Normal (Some lt)) (s, w')) ->
  ((lt <= max)%Z -> forall w',
     trace w' = trace w ++ [Sent (create_error_response authorization_error n)] ->
     Q (Normal None) (s, w')) ->
  wp (outside (checked_lifetime max n lt)) Q (s, w).
Proof.
  intros HO HN HE. apply wp_outside. unfold wp, checked_lifetime, accepted_lifetime, check_lifetime.
  destruct (Z.ltb_spec max lt) as [Hlt|Hle]; [by apply HO|].
  unfold catch, bind, lift_outcome, check_authorization, bind.
  destruct (auth_does n w) as (ok & E & Ht). destruct (is_authorized n w) as [o w1]. cbn in E, Ht. subst o.
  rewrite app_nil_r in Ht. destruct ok; cbn -[create_error_response authorization_error]; [by apply HN|].
  destruct (send_does (create_error_response authorization_error n) w1) as (u & E' & Ht').
  destruct (send_message _ w1) as [o w2]. cbn [fst snd] in *. subst o.
  apply HE; [lia|]. cbn [snd ret]. by rewrite Ht', Ht.
Qed.

(** When the dispatcher does not authorize the sender. *)
Lemma wp_checked_denied max n lt Q s w :
  fst (is_authorized n w) = Normal false ->
  ((max < lt)%Z -> Q (Normal (Some max)) (s, w)) ->
  ((lt <= max)%Z -> forall w',
     trace w' = trace w ++ [Sent (create_error_response authorization_error n)] ->
     Q (Normal None) (s, w')) ->
  wp (outside (checked_lifetime max n lt)) Q (s, w).
Proof.
  intros Hd HO HE. apply wp_outside. unfold wp, checked_lifetime, accepted_lifetime, check_lifetime.
  destruct (Z.ltb_spec max lt) as [Hlt|Hle]; [by apply HO|].
  unfold catch, bind, lift_outcome, check_authorization, bind.
  destruct (auth_does n w) as (ok & E & Ht). destruct (is_authorized n w) as [o w1]. cbn in E, Ht, Hd. simplify_eq.
  rewrite app_nil_r in Ht. cbn -[create_error_response authorization_error].
  destruct (send_does (create_error_response authorization_error n) w1) as (u & E' & Ht').
  destruct (send_message _ w1) as [o w2]. cbn [fst snd] in *. subst o.
  apply HE; [lia|]. cbn [snd ret]. by rewrite Ht', Ht.
Qed.

(** When it authorizes everybody. *)
Lemma wp_checked_allowed max n lt Q s w :
  (forall w, fst (is_authorized n w) = Normal true) ->
  (forall w', trace w' = trace w -> Q (Normal (Some (Z.min lt max))) (s, w')) ->
  wp (outside (checked_lifetime max n lt)) Q (s, w).
Proof.
  intros Ha HQ. apply wp_outside. unfold wp, checked_lifetime, accepted_lifetime, check_lifetime.
  destruct (Z.ltb_spec max lt) as [Hlt|Hle]; [rewrite Z.min_r in HQ by lia; by apply HQ|]. rewrite Z.min_l in HQ by lia.
  unfold catch, bind, lift_outcome, check_authorization, bind. specialize (Ha w).
  destruct (auth_does n w) as (ok & E & Ht). destruct (is_authorized n w) as [o w1]. cbn in E, Ht, Ha. simplify_eq.
  rewrite app_nil_r in Ht. by apply HQ.
Qed.

(** Whether a request is refused: its lifetime is within the maximum and the
    dispatcher does not authorize it. *)
Definition unauthorized (max : Z) (n : ntlp_msg) (lt : Z) (w : W) : bool :=
  (lt <=? max)%Z && match fst (is_authorized n w) with Normal ok => negb ok | _ => false end.

(** The lifetime a request is granted: never more than the maximum. *)
Lemma wp_granted_lifetime max n lt Q s w :
  (unauthorized max n lt w = false -> forall w', trace w' = trace w -> Q (Normal (Some (Z.min lt max))) (s, w')) ->
  (unauthorized max n lt w = true -> forall w',
     trace w' = trace w ++ [Sent (create_error_response authorization_error n)] -> Q (Normal None) (s, w')) ->
  wp (outside (checked_lifetime max n lt)) Q (s, w).
Proof.
  intros HQ HE. unfold unauthorized in *. apply wp_outside. unfold wp, checked_lifetime, accepted_lifetime, check_lifetime.
  destruct (Z.ltb_spec max lt) as [Hlt|Hle].
  { rewrite (proj2 (Z.leb_gt _ _) Hlt) in HQ. rewrite Z.min_r in HQ by lia. by apply HQ. }
  rewrite (proj2 (Z.leb_le _ _) Hle), Z.min_l in * by done. unfold catch, bind, lift_outcome, check_authorization, bind.
  destruct (auth_does n w) as (ok & E & Ht). destruct (is_authorized n w) as [o w1]. cbn [fst snd] in E, Ht, HQ, HE. subst o.
  rewrite app_nil_r in Ht. destruct ok; cbn -[create_error_response authorization_error]; [by apply HQ|].
  destruct (send_does (create_error_response authorization_error n) w1) as (u & E' & Ht').
  destruct (send_message _ w1) as [o w2]. cbn [fst snd] in *. subst o. apply HE; [done|]. cbn [snd ret]. by rewrite Ht', Ht.
Qed.

Lemma not_unauthorized max n lt w : (forall w, fst (is_authorized n w) = Normal true) -> unauthorized max n lt w = false.
Proof. intros Ha. unfold unauthorized. rewrite Ha. apply andb_false_r. Qed.

(** What a call says when it is made with this history. *)
Definition says {A} (w : W) (m : M W A) (o : outcome A) : Prop := exists w1, trace w1 = trace w /\ fst (m w1) = o.

Lemma wp_says {A} (m : M W A) es Q s w :
  may_throw trace m es ->
  (forall a w', says w m (Normal a) -> trace w' = trace w ++ es -> Q (Normal a) (s, w')) ->
  (forall e w', says w m (Raised (Installer_error e)) -> trace w' = trace w -> Q (Raised (Installer_error e)) (s, w')) ->
  wp (outside m) Q (s, w).
Proof.
  intros Hm HQ HE. apply wp_outside. unfold wp, says in *.
  destruct (Hm w) as [(a & E & Ht)|(e & E & Ht)]; destruct (m w) as [o w'] eqn:Em; cbn [fst snd] in *; subst o.
  - apply HQ; [|done]. exists w. by rewrite Em.
  - apply HE; [|done]. exists w. by rewrite Em.
Qed.

Lemma says_before {A} (w w1 : W) (m : M W A) o : says w1 m o -> trace w1 = trace w -> says w m o.
Proof. intros (w2 & Ht & Ho) E. exists w2. by rewrite Ht. Qed.

Lemma wp_lift_outcome {A} (o : outcome A) Q s w : Q o (s, w) -> wp (lift_outcome o) Q (s, w).
Proof. done. Qed.

(** A new rule from a BIDDING: only a message with an object of another
    class makes it fail, and then with a null dereference. *)
Lemma wp_create_auction_rule (b : anslp_msg) v Q s w :
  msg_view b v -> msg_cls b = C_bidding ->
  (forall r' w', object_responses r' = [] -> trace w' = trace w -> Q (Normal r') (s, w')) ->
  (unexpected_objects b = true -> Q (Faulted Null_dereference) (s, w)) ->
  wp (outside (create_auction_rule (Some b))) Q (s, w).
Proof.
  intros Hv Hc HQ HF. destruct (msg_view_get b v Hv) as (Ei & _). unfold unexpected_objects in HF. rewrite Hc, Ei in HF.
  destruct (v_inf v) as [o|] eqn:Hi.
  - unfold wp, outside, create_auction_rule, asserted, bind, ret, lift_outcome.
    change (bidding_get_mspec_objects b) with (create_get_mspec_objects b).
    rewrite (create_get_mspec_unexpected b v o) by done. by apply HF.
  - eapply (wp_pure _ (fun r' => object_responses r' = [])).
    + intros w0. unfold create_auction_rule, asserted, bind, ret, lift_outcome.
      change (bidding_get_mspec_objects b) with (create_get_mspec_objects b).
      rewrite (create_get_mspec_view b v) by done.
      destruct (add_requests_spec (map object_copy (v_ipap v)) new_auction_rule w0) as (r' & E & Ht & H1 & _).
      by exists r'.
    + cbn. intros; by apply HQ.
Qed.
End Rules.

(** Pointers and assertions. *)
Section Pointers.
Context {S A : Type}.
Lemma wp_deref (p : option A) (Q : outcome A -> S -> Prop) s :
  (forall a, p = Some a -> Q (Normal a) s) -> (p = None -> Q (Faulted Null_dereference) s) ->
  wp (deref p) Q s.
Proof. destruct p; unfold wp; cbn; auto. Qed.

Lemma wp_asserted (p : option A) (Q : outcome A -> S -> Prop) s :
  (forall a, p = Some a -> Q (Normal a) s) -> (p = None -> Q (Faulted Assertion_failed) s) ->
  wp (asserted p) Q s.
Proof. destruct p; unfold wp; cbn; auto. Qed.

Lemma wp_assert_that b (Q : outcome unit -> S -> Prop) s :
  (b = true -> Q (Normal tt) s) -> (b = false -> Q (Faulted Assertion_failed) s) ->
  wp (assert_that b) Q s.
Proof. destruct b; unfold wp; cbn; auto. Qed.
End Pointers.

(** One step of symbolic execution of a handler. *)
Ltac wp_step :=
  cbn beta iota;
  match goal with
  | |- wp (bind _ _) _ _ => apply wp_bind
  | |- wp (catch _ _) _ _ => apply wp_catch
  | |- wp (ret _) _ _ => apply wp_ret
  | |- wp (raise _) _ _ => red; cbn
  | |- wp (trip _) _ _ => red; cbn
  | |- wp the _ _ => apply wp_the
  | |- wp (update _) _ _ => apply wp_update
  | |- wp (lift_outcome _) _ _ => apply wp_lift_outcome
  | |- wp (outside (timer_start _ _)) _ _ => apply wp_timer_start; intros ? ? ?
  | |- wp (outside (send_message _)) _ _ => eapply wp_does; [apply send_does|]; intros [] ? ?
  | |- wp (outside (report_async_event _)) _ _ => eapply wp_does; [apply report_does|]; intros [] ? ?
  | |- wp (outside uuid_generate) _ _ => eapply wp_does; [apply uuid_does|]; intros ? ? ?
  | |- wp (outside create_random_number) _ _ => apply wp_random; intros ? ? ? ?
  | |- wp (outside rand) _ _ => eapply wp_does; [apply rand_does|]; intros ? ? ?
  | |- wp (outside (enqueue _ _)) _ _ => eapply wp_does; [apply enqueue_does|]; intros [] ? ?
  | |- wp (outside (d_check _ _)) _ _ => eapply wp_may_throw; [apply check_does| |]; intros ? ? ?
  | |- wp (outside (install_auction_rules _ (Some _))) _ _ =>
      eapply wp_may_throw; [apply install_does| |]; intros ? ? ?
  | |- wp (outside (auction_interaction _ _ (Some _))) _ _ =>
      eapply wp_may_throw; [apply interact_does| |]; intros ? ? ?
  | |- wp (outside (send_response _ (Some _))) _ _ =>
      eapply wp_may_throw; [apply respond_does| |]; intros ? ? ?
  | |- wp (outside (remove_auction_rules _ (Some _))) _ _ =>
      eapply wp_may_throw; [apply remove_does| |]; intros ? ? ?
  | |- wp (outside (check_authorization _)) _ _ => apply wp_check_authorization; intros ? ?
  | |- wp (outside (add_requests _ _)) _ _ => apply wp_add_requests; intros ? ? ? ? ?
  | |- wp (outside (add_responses _ _)) _ _ => apply wp_add_responses; intros ? ? ? ? ? ?
  | |- wp (outside (set_reponse_objects _ (Some _))) _ _ =>
      apply wp_set_reponse_objects; intros ? ? ? ? ? ?
  end.

(** ** Messages and events the library delivers. *)
Section Validity.
Context `{Libs}.

(** A message the session keeps for retransmission. *)
Definition holds_msg (c : msg_class) (n : ntlp_msg) : Prop :=
  exists m v, get_anslp_msg n = Some m /\ msg_cls m = c /\ msg_view m v
              /\ has_msg_sequence_number m = true.

Lemma holds_msg_copy c n : holds_msg c n -> ntlp_copy n = Normal n.
Proof.
  intros (m & v & Hn & _ & Hv & _). unfold ntlp_copy. rewrite Hn. cbn.
  rewrite (msg_copy_view m v) by done. rewrite <- Hn. by destruct n.
Qed.

Lemma holds_msg_get c n :
  holds_msg c n -> exists m v, get_anslp c n = Some m /\ msg_view m v.
Proof.
  intros (m & v & Hn & Hc & Hv & _). exists m, v. unfold get_anslp.
  by rewrite Hn, decide_True.
Qed.

(** The objects of API events. *)
Definition objs_wf (l : objectList_t) : Prop :=
  Forall (fun kv => mspec_wf (snd kv)) l /\ (Z.of_nat (length l) < 2 ^ 32 - OT_ipap_message)%Z.

(** The bodies of messages, as the parser or a [build] function makes them:
    built from objects by [set_object]. *)
Definition body_valid (m : anslp_msg) : Prop := exists v, msg_view m v.

(** An event with a message [get_mspec_objects] cannot take. *)
Definition unexpected_body (evt : event) : Prop :=
  exists n m, ev_msg evt = Some n /\ get_anslp_msg n = Some m /\ unexpected_objects m = true.

Definition event_valid (evt : event) : Prop :=
  match evt with
  | Msg_event n _ => forall m, get_anslp_msg n = Some m -> body_valid m
  | Timer_event id => id <> 0%Z
  | Api_create_event e => objs_wf (ac_objects e) /\ is_u32 (ac_lifetime e) /\ is_u32 (ac_sel_auct_entities e)
  | Api_check_event l _ | Api_install_event l _ | Api_bidding_event _ l _ | Api_remove_event l _ => objs_wf l
  | _ => True
  end.

Lemma event_valid_anslp c evt m :
  event_valid evt -> ev_anslp c evt = Some m -> msg_cls m = c /\ body_valid m.
Proof.
  unfold ev_anslp, ev_msg, get_anslp. destruct evt; try discriminate. cbn. intros Hv.
  destruct (get_anslp_msg msg) as [b|] eqn:E; [|discriminate].
  case_decide; [|discriminate]. intros [= <-]. auto.
Qed.

Lemma unexpected_body_anslp c evt m :
  ev_anslp c evt = Some m -> unexpected_objects m = true -> unexpected_body evt.
Proof.
  unfold ev_anslp, get_anslp. destruct (ev_msg evt) as [n|] eqn:En; [|discriminate].
  destruct (get_anslp_msg n) as [b|] eqn:Eb; [|discriminate]. case_decide; [|discriminate].
  intros [= <-] Hu. by exists n, b.
Qed.

(** What a response recognised by [is_anslp_response] answers. *)
Lemma is_anslp_response_to evt n m r :
  get_anslp_msg n = Some m -> has_msg_sequence_number m = true -> get_response evt = Some r ->
  is_anslp_response evt (Some n)
  = has_msg_sequence_number r && (msn_of m =? response_get_msg_sequence_number r)%Z.
Proof.
  intros Hn Hm Hr. unfold is_anslp_response, is_anslp_response_msn.
  by rewrite Hn, Hm, get_msn_has, Hr.
Qed.

(** The lifetime a message carries is a [uint32]. *)
Lemma body_valid_lifetime m : body_valid m -> is_u32 (response_get_session_lifetime m).
Proof.
  intros (v & Hv). unfold response_get_session_lifetime, as_session_lifetime, value_or_zero.
  destruct (msg_view_get m v Hv) as (_ & _ & _ & _ & ->). destruct Hv as ((_ & _ & _ & _ & Hs & _) & _).
  destruct (v_slf v) as [o|]; [|by split]. destruct Hs as [(_ & _ & Hb) _].
  destruct (body o); cbn in *; try by split. done.
Qed.

Lemma body_valid_msn m : body_valid m -> is_u32 (msn_of m).
Proof. intros (v & Hv). by eapply msn_of_range. Qed.

(** A request a session keeps. *)
Definition stored (c : msg_class) (n : ntlp_msg) : Prop :=
  exists m v, get_anslp_msg n = Some m /\ msg_cls m = c /\ msg_view m v.

(** One whose objects it has collected. *)
Definition kept (c : msg_class) (n : ntlp_msg) : Prop :=
  exists m v, get_anslp_msg n = Some m /\ msg_cls m = c /\ msg_view m v /\ v_inf v = None.

Lemma kept_stored c n : kept c n -> stored c n.
Proof. intros (m & v & Hn & Hc & Hv & _). by exists m, v. Qed.

Lemma stored_copy c n : stored c n -> ntlp_copy n = Normal n.
Proof.
  intros (m & v & Hn & _ & Hv). unfold ntlp_copy. rewrite Hn. cbn.
  rewrite (msg_copy_view m v) by done. rewrite <- Hn. by destruct n.
Qed.

Lemma kept_copy c n : kept c n -> ntlp_copy n = Normal n.
Proof. intros Hk. by eapply stored_copy, kept_stored. Qed.

Lemma stored_get c n : stored c n -> exists m v, get_anslp c n = Some m /\ msg_view m v.
Proof. intros (m & v & Hn & Hc & Hv). exists m, v. unfold get_anslp. by rewrite Hn, decide_True. Qed.

Lemma kept_get c n : kept c n -> exists m v, get_anslp c n = Some m /\ msg_view m v /\ v_inf v = None.
Proof.
  intros (m & v & Hn & Hc & Hv & Hi). exists m, v. unfold get_anslp. by rewrite Hn, decide_True.
Qed.

Lemma event_valid_stored c evt n m :
  event_valid evt -> ev_msg evt = Some n -> ev_anslp c evt = Some m -> stored c n.
Proof.
  intros Hv Hn Hm. unfold ev_anslp in Hm. rewrite Hn in Hm. destruct evt; try discriminate.
  injection Hn as ->. unfold get_anslp in Hm. destruct (get_anslp_msg n) as [b|] eqn:E; [|discriminate].
  case_decide as Hc; [|discriminate]. injection Hm as ->. destruct (Hv m E) as (v & Hvw).
  by exists m, v.
Qed.

(** The message of an event is the one its session gets from it. *)
Lemma ev_anslp_msg c evt n m :
  ev_msg evt = Some n -> ev_anslp c evt = Some m -> get_anslp_msg n = Some m /\ msg_cls m = c.
Proof.
  intros Hn. unfold ev_anslp, get_anslp. rewrite Hn. destruct (get_anslp_msg n); [|discriminate].
  case_decide; [|discriminate]. by intros [= ->].
Qed.

Lemma map_object_copy l : Forall mspec_wf l -> map object_copy l = l.
Proof. induction 1 as [|o l [Ho _] Hl IH]; cbn; [done|]. by rewrite object_copy_wf, IH. Qed.

Lemma map_copy_snd {K} (l : list (K * anslp_object)) :
  Forall (fun kv => mspec_wf (snd kv)) l -> map (fun kv => object_copy (snd kv)) l = map snd l.
Proof. induction 1 as [|[k o] l [Ho _] Hl IH]; cbn in *; [done|]. by rewrite object_copy_wf, IH. Qed.

Lemma msg_view_mspecs m v : msg_view m v -> Forall mspec_wf (v_ipap v).
Proof. intros ((_ & _ & _ & _ & _ & Hf & _) & _). exact Hf. Qed.

(** *** The CREATE messages sessions build. *)
Definition create_body (hops sme n lt : Z) (l : list anslp_object) : anslp_msg :=
  set_mspecs (map object_copy l)
    (create_set_message_hop_count hops
       (create_set_selection_auctioning_entities sme
          (create_set_msg_sequence_number n (create_set_session_lifetime lt new_anslp_create)))).

Definition create_view (hops sme n lt : Z) (l : list anslp_object) : view :=
  mk_view None (Some (new_selection_auctioning_entities sme tr_mandatory true))
    (Some (new_message_hop_count hops tr_mandatory true))
    (Some (new_msg_sequence_number n tr_mandatory true))
    (Some (new_session_lifetime lt tr_mandatory true)) l.

Lemma set_mspecs_cls ms x : msg_cls (set_mspecs ms x) = msg_cls x.
Proof.
  revert x. induction ms as [|o ms IH]; intros x; [done|]. cbn [set_mspecs fold_left].
  unfold set_mspecs in IH. rewrite IH. unfold set_object. by destruct (unique o).
Qed.

Lemma create_body_cls hops sme n lt l : msg_cls (create_body hops sme n lt l) = C_create.
Proof. unfold create_body. by rewrite set_mspecs_cls. Qed.

Lemma create_body_view hops sme n lt l :
  is_u32 hops -> is_u32 sme -> is_u32 n -> is_u32 lt -> Forall mspec_wf l ->
  (Z.of_nat (length l) < 2 ^ 32 - OT_ipap_message)%Z ->
  msg_view (create_body hops sme n lt l) (create_view hops sme n lt l).
Proof.
  intros Hh Hs Hn Hlt Hl Hlen. unfold create_body. rewrite map_object_copy by done.
  pose proof (set_object_view new_anslp_create view_empty _ (new_msg_view C_create)
                (wf_session_lifetime _ Hlt) ltac:(done)) as V1.
  pose proof (set_object_view _ _ _ V1 (wf_msg_sequence_number _ Hn) ltac:(done)) as V2.
  pose proof (set_object_view _ _ (new_selection_auctioning_entities sme tr_mandatory true)
                V2 ltac:(done) ltac:(done)) as V3.
  pose proof (set_object_view _ _ (new_message_hop_count hops tr_mandatory true) V3 ltac:(done) ltac:(done)) as V4.
  pose proof (set_mspecs_view l _ _ V4 Hl) as V5. cbn in V5. by apply V5.
Qed.

(** The numbers of a CREATE are in range. *)
Lemma body_valid_create_ranges c :
  body_valid c -> is_u32 (create_get_message_hop_count c) /\ is_u32 (create_get_selection_auctioning_entities c)
    /\ is_u32 (create_get_msg_sequence_number c) /\ is_u32 (create_get_session_lifetime c).
Proof.
  intros Hb. split_and!; [| |exact (body_valid_msn c Hb)|exact (body_valid_lifetime c Hb)].
  all: destruct Hb as (v & Hv); destruct (msg_view_get c v Hv) as (_ & E2 & E3 & _);
    destruct Hv as ((_ & W2 & W3 & _) & _);
    unfold create_get_message_hop_count, create_get_selection_auctioning_entities, as_message_hop_count,
      as_selection_auctioning_entities, value_or_zero; rewrite ?E2, ?E3.
  - destruct (v_mhc v) as [o|]; [|by split]. destruct W3 as [(_ & _ & Hbd) _].
    destruct (body o); cbn in *; try by split. done.
  - destruct (v_sme v) as [o|]; [|by split]. destruct W2 as [(_ & _ & Hbd) _].
    destruct (body o); cbn in *; try by split. done.
Qed.

(** A message with sequence number and lifetime: what REFRESH messages are. *)
Definition refresh_view (msn lt : Z) : view :=
  mk_view None None None (Some (new_msg_sequence_number msn tr_mandatory true)) (Some (new_session_lifetime lt tr_mandatory true)) [].
Definition refreshes (msn lt : Z) (b : anslp_msg) : Prop := msg_cls b = C_refresh /\ msg_view b (refresh_view msn lt).

Lemma refresh_built msn lt :
  is_u32 msn -> is_u32 lt -> refreshes msn lt (refresh_set_msg_sequence_number msn (refresh_set_session_lifetime lt new_anslp_refresh)).
Proof.
  intros Hmsn Hlt. split; [done|].
  pose proof (set_object_view new_anslp_refresh view_empty (new_session_lifetime lt tr_mandatory true)
    (new_msg_view C_refresh) (wf_session_lifetime lt Hlt) ltac:(done)) as V1.
  by apply (set_object_view _ _ (new_msg_sequence_number msn tr_mandatory true) V1 (wf_msg_sequence_number msn Hmsn)).
Qed.

Lemma refreshes_says msn lt b : refreshes msn lt b ->
  refresh_get_msg_sequence_number b = msn /\ refresh_get_session_lifetime b = lt /\ has_msg_sequence_number b = true /\ msn_of b = msn.
Proof.
  intros [_ Hv]. destruct (msg_view_get b _ Hv) as (_ & _ & _ & E4 & E5). cbn in E4, E5.
  unfold refresh_get_msg_sequence_number, refresh_get_session_lifetime, has_msg_sequence_number, msn_of. by rewrite E4, E5.
Qed.

Lemma refresh_holds id mr msn lt m :
  is_u32 msn -> is_u32 lt ->
  m = mk_ntlp_msg id (Some (refresh_set_msg_sequence_number msn
        (refresh_set_session_lifetime lt new_anslp_refresh))) mr 0 ->
  holds_msg C_refresh m /\ exists b, get_anslp_refresh m = Some b
    /\ refresh_get_msg_sequence_number b = msn /\ refresh_get_session_lifetime b = lt.
Proof.
  intros Hmsn Hlt ->. set (b := refresh_set_msg_sequence_number _ _).
  assert (Hb : refreshes msn lt b) by by apply refresh_built.
  destruct (refreshes_says msn lt b Hb) as (E1 & E2 & E3 & _). destruct Hb as [Hc Hv]. split.
  - exists b, (refresh_view msn lt). by split_and!.
  - exists b. unfold get_anslp_refresh, get_anslp. cbn [get_anslp_msg]. by rewrite decide_True.
Qed.
End Validity.

(** ** Frames: what a computation leaves as it is.

    [keeps f m] says that [m] does not change [f] of the session, whatever
    the outcome.  The proof for a handler follows its structure. *)
Section Frame.
Context {S W T : Type} (f : S -> T).

Definition keeps {A} (m : M (S * W) A) : Prop := forall s w, f (fst (snd (m (s, w)))) = f s.

Lemma keeps_ret {A} (a : A) : keeps (ret a).
Proof. done. Qed.
Lemma keeps_raise {A} e : keeps (A := A) (raise e).
Proof. done. Qed.
Lemma keeps_trip {A} e : keeps (A := A) (trip e).
Proof. done. Qed.
Lemma keeps_the : keeps the.
Proof. done. Qed.
Lemma keeps_lift {A} (o : outcome A) : keeps (lift_outcome o).
Proof. done. Qed.
Lemma keeps_deref {A} (p : option A) : keeps (deref p).
Proof. by destruct p. Qed.
Lemma keeps_asserted {A} (p : option A) : keeps (asserted p).
Proof. by destruct p. Qed.
Lemma keeps_outside {A} (m : M W A) : keeps (outside m).
Proof. intros s w. cbn. by destruct (m w). Qed.
Lemma keeps_update g : (forall s, f (g s) = f s) -> keeps (update g).
Proof. intros Hg s w. apply Hg. Qed.
Lemma keeps_bind {A B} (m : M (S * W) A) (k : A -> M (S * W) B) :
  keeps m -> (forall a, keeps (k a)) -> keeps (bind m k).
Proof.
  intros Hm Hk s w. unfold bind. specialize (Hm s w). destruct (m (s, w)) as [[a|e|g] [s' w']]; cbn in *; try done.
  by rewrite Hk.
Qed.
Lemma keeps_catch {A} (m : M (S * W) A) h : keeps m -> (forall e, keeps (h e)) -> keeps (catch m h).
Proof.
  intros Hm Hh s w. unfold catch. specialize (Hm s w). destruct (m (s, w)) as [[a|e|g] [s' w']]; cbn in *; try done.
  by rewrite Hh.
Qed.
End Frame.

Ltac head_of t := lazymatch t with ?g _ => head_of g | ?g => g end.

(** Solve [keeps f m] by the structure of [m], unfolding its definitions. *)
Ltac keeps_step :=
  cbv zeta;
  lazymatch goal with
  | |- keeps _ (bind _ _) => apply keeps_bind; [|intros ?]
  | |- keeps _ (catch _ _) => apply keeps_catch; [|intros ?]
  | |- keeps _ (ret _) => apply keeps_ret
  | |- keeps _ (raise _) => apply keeps_raise
  | |- keeps _ (trip _) => apply keeps_trip
  | |- keeps _ the => apply keeps_the
  | |- keeps _ (lift_outcome _) => apply keeps_lift
  | |- keeps _ (deref _) => apply keeps_deref
  | |- keeps _ (asserted _) => apply keeps_asserted
  | |- keeps _ (outside _) => apply keeps_outside
  | |- keeps _ (update _) => apply keeps_update; intros ?; reflexivity
  | |- keeps _ (match ?x with _ => _ end) => destruct x
  | |- keeps _ ?m => let h := head_of m in unfold h
  end.
Ltac keeps := auto with keeps; repeat (keeps_step; auto with keeps).

Create HintDb keeps.

(** ** Runs of a session: one event after the other, until one fails. *)
Section Runs.
Context {E S W St : Type}.
Variables (process : E -> M (S * W) unit) (state : S -> St).

Fixpoint run_events (evts : list E) : M (S * W) unit :=
  match evts with
  | [] => ret tt
  | evt :: evts' => process evt ;;; run_events evts'
  end.

(** Paths of an abstract transition relation. *)
Inductive path (step : St -> E -> St -> Prop) : St -> list E -> St -> Prop :=
  | path_nil st : path step st [] st
  | path_cons st st' st'' evt evts :
      step st evt st' -> path step st' evts st'' -> path step st (evt :: evts) st''.

Variables (valid : E -> Prop) (wf : S -> Prop) (step : St -> E -> St -> Prop)
  (thrown : S -> E -> exn -> Prop) (faulty : S -> E -> fault -> Prop).

(** What one event does to a session that satisfies [wf]. *)
Definition refines_step : Prop := forall s w evt, wf s -> valid evt ->
  match process evt (s, w) with
  | (Normal _, (s', _)) => wf s' /\ step (state s) evt (state s')
  | (Raised e, (s', _)) => thrown s evt e /\ state s' = state s
  | (Faulted f, _) => faulty s evt f
  end.

(** What a sequence of events does: it follows the relation, and when it is
    interrupted there is an event to blame. *)
Definition refines_run (evts : list E) (s : S) (w : W) : Prop :=
  match run_events evts (s, w) with
  | (Normal _, (s', _)) => wf s' /\ path step (state s) evts (state s')
  | (Raised e, (s', _)) =>
      exists pre evt post s1 w1, evts = pre ++ evt :: post
        /\ run_events pre (s, w) = (Normal tt, (s1, w1)) /\ wf s1 /\ thrown s1 evt e
        /\ path step (state s) pre (state s')
  | (Faulted f, _) =>
      exists pre evt post s1 w1, evts = pre ++ evt :: post
        /\ run_events pre (s, w) = (Normal tt, (s1, w1)) /\ wf s1 /\ faulty s1 evt f
  end.

Lemma run_refines (evts : list E) s w :
  refines_step -> wf s -> Forall valid evts -> refines_run evts s w.
Proof.
  intros Hstep Hwf Hv. revert s w Hwf. unfold refines_run.
  induction Hv as [|evt evts Hev Hvs IH]; intros s w Hwf; cbn [run_events].
  - split; [done|constructor].
  - unfold bind at 1. pose proof (Hstep s w evt Hwf Hev) as Hok.
    destruct (process evt (s, w)) as [[[]|e|f] [s1 w1]] eqn:Ev.
    + destruct Hok as [Hwf1 Hst]. specialize (IH s1 w1 Hwf1).
      assert (Hcons : forall pre sw, run_events pre (s1, w1) = (Normal tt, sw) ->
                run_events (evt :: pre) (s, w) = (Normal tt, sw)).
      { intros pre sw Hr. cbn [run_events]. unfold bind. by rewrite Ev. }
      destruct (run_events evts (s1, w1)) as [[u|e|f] [s2 w2]].
      * destruct IH as [? ?]. split; [done|]. by econstructor.
      * destruct IH as (pre & ev & post & s3 & w3 & -> & Hr & Hw3 & Ht & Hp).
        exists (evt :: pre), ev, post, s3, w3. split_and!; [done|by apply Hcons|done..|]. by econstructor.
      * destruct IH as (pre & ev & post & s3 & w3 & -> & Hr & Hw3 & Hf).
        exists (evt :: pre), ev, post, s3, w3. split_and!; [done|by apply Hcons|done..].
    + destruct Hok as [? Hs]. exists [], evt, evts, s, w. split_and!; [done..|]. rewrite Hs. constructor.
    + exists [], evt, evts, s, w. by split_and!.
Qed.
End Runs.

(** Compute a trace from the equations collected on the way. *)
Ltac trace_eq :=
  repeat match goal with
  | E : trace ?w = _ |- context [trace ?w] => rewrite E
  end; cbn [app]; rewrite <- ?app_assoc; reflexivity.

(** ** A concrete world: a counter for timers, keys and random numbers, a
    trace, and switches that make the rule installer throw and that deny every
    authorization. *)
Module Concrete_world.
Import Concrete.

Record world := mk_world { c_trace : list effect; c_next : Z; c_broken : bool; c_deny : bool }.

Definition c_emit (e : effect) : M world unit := fun w =>
  (Normal tt, mk_world (c_trace w ++ [e]) (c_next w) (c_broken w) (c_deny w)).
Definition c_fresh : M world Z := fun w =>
  (Normal (c_next w), mk_world (c_trace w) (c_next w + 1) (c_broken w) (c_deny w)).
Definition c_installer (e : effect) : M world unit := fun w =>
  if c_broken w then (Raised (Installer_error (mk_request_error "installer" 6 7)), w)
  else c_emit e w.
Definition c_rule (f : auction_rule -> effect) (r : option auction_rule) : M world unit :=
  match r with Some r => c_installer (f r) | None => trip Null_dereference end.

#[export] Instance list_dispatcher : Dispatcher world := {|
  send_message n := c_emit (Sent n);
  start_timer sid t := id <- c_fresh ;; c_emit (Timer_started sid t id) ;;; ret id;
  report_async_event s := c_emit (Reported s);
  d_check sid l := c_installer (Checked sid l) ;;; ret true;
  install_auction_rules sid := c_rule (Rules_installed sid);
  auction_interaction b sid r := c_rule (Interaction b sid) r ;;; ret r;
  send_response sid := c_rule (Response_put sid);
  remove_auction_rules sid := c_rule (Rules_removed sid);
  is_authorized _ := fun w => (Normal (negb (c_deny w)), w) |}.

#[export] Instance list_platform : Platform world := {|
  uuid_generate := c_fresh;
  RAND_word := c_fresh;
  rand := c_fresh;
  enqueue q m := c_emit (Enqueued q m) |}.

Lemma c_installer_throws {A} e (k : A) : may_throw c_trace (c_installer e ;;; ret k) [e].
Proof.
  intros [t n [] d]; unfold bind, c_installer, c_emit; cbn;
    first [by right; eexists|by left; eexists].
Qed.

#[export] Instance list_effects : Effects world.
Proof.
  refine {| trace := c_trace |}; intros.
  all: try (intros w; cbn; eexists; split; [done|]; cbn; rewrite ?app_nil_r; done).
  all: try apply c_installer_throws.
  all: intros [t k [] d]; cbn; first [by right; eexists|by left; eexists].
Defined.

Definition start_world : world := mk_world [] 100 false false.

(** The same with a dispatcher that authorizes nobody. *)
Definition denying_world : world := mk_world [] 100 false true.
End Concrete_world.
