(* ===== verification/NiSession.v ===== *)
(** * The initiator's session: include/ni_session.h and src/ni_session.cpp

    The state machine of the node that starts a session: CLOSE, PENDING
    (CREATE sent), PENDING_INSTALLING (the path answered, the local auctioneer
    has not), AUCTIONING, PENDING_TEARDOWN.  The handlers are the functions of
    the source, with the branches of the long ones as definitions of their
    own. *)
From S2P Require Import Prelude Outcome StdMap External Objects Store Messages SessionId NtlpMsg AuctionRule Events Session.
From Stdlib Require Import SpecFloat.

Inductive state_t :=
  | STATE_ANSLP_CLOSE
  | STATE_ANSLP_PENDING
  | STATE_ANSLP_PENDING_INSTALLING
  | STATE_ANSLP_AUCTIONING
  | STATE_ANSLP_PENDING_TEARDOWN.

#[export] Instance state_eq_dec : EqDecision state_t.
Proof. solve_decision. Defined.

(** ** The [double] arithmetic of [setup_session] (binary64). *)
Definition double_of_Z (z : Z) : spec_float := binary_normalize 53 1024 z 0 false.
Definition dadd := SFadd 53 1024.
Definition dmul := SFmul 53 1024.
Definition ddiv := SFdiv 53 1024.
Definition half : spec_float := ddiv (double_of_Z 1) (double_of_Z 2).

(** [ceil], as an integer. *)
Definition ceil (x : spec_float) : Z :=
  match x with
  | S754_finite neg m e =>
      let v := if neg then Z.neg m else Z.pos m in
      if (0 <=? e)%Z then (v * 2 ^ e)%Z else (- (- v / 2 ^ (- e)))%Z
  | _ => 0%Z
  end.

(** [(uint32) ceil(lifetime / ((max_retries+0.5) * 1.5))].  The conversion of a
    [double] that does not fit is undefined in C++; here it wraps around. *)
Definition refresh_interval_for (lifetime max_retries : Z) : Z :=
  u32 (ceil (ddiv (double_of_Z lifetime)
               (dmul (dadd (double_of_Z max_retries) half) (ddiv (double_of_Z 3) (double_of_Z 2))))).

(** [(int) ceil((((rand() % 1000) / 1000.0) + 0.5) * r)], likewise. *)
Definition response_timeout_for (random r : Z) : Z :=
  u32 (int32 (ceil (dmul (dadd (ddiv (double_of_Z (Z.rem random 1000)) (double_of_Z 1000)) half)
                         (double_of_Z r)))).

Section NiSession.
Context `{Libs}.

(** The attributes of [ni_session]; [proxy_mode] and [proxy_session] are never
    read. Setters as the class has them, one per attribute. *)
Record ni_session := mk_ni {
  base : session_base;
  state : state_t;
  routing_info : option mri;
  last_create_msg : option ntlp_msg;
  last_refresh_msg : option ntlp_msg;
  last_auction_install_rule : option auction_rule;
  lifetime : Z;
  refresh_interval : Z;
  response_timeout : Z;
  create_counter : Z;
  refresh_counter : Z;
  max_retries : Z;
  teardown_counter : Z;
  response_timer : timer;
  refresh_timer : timer }.

Definition set_base (v : session_base) (s : ni_session) : ni_session :=
  mk_ni v (state s) (routing_info s) (last_create_msg s) (last_refresh_msg s)
    (last_auction_install_rule s) (lifetime s) (refresh_interval s) (response_timeout s)
    (create_counter s) (refresh_counter s) (max_retries s) (teardown_counter s)
    (response_timer s) (refresh_timer s).
Definition set_state (v : state_t) (s : ni_session) : ni_session :=
  mk_ni (base s) v (routing_info s) (last_create_msg s) (last_refresh_msg s)
    (last_auction_install_rule s) (lifetime s) (refresh_interval s) (response_timeout s)
    (create_counter s) (refresh_counter s) (max_retries s) (teardown_counter s)
    (response_timer s) (refresh_timer s).
Definition set_routing_info (v : option mri) (s : ni_session) : ni_session :=
  mk_ni (base s) (state s) v (last_create_msg s) (last_refresh_msg s)
    (last_auction_install_rule s) (lifetime s) (refresh_interval s) (response_timeout s)
    (create_counter s) (refresh_counter s) (max_retries s) (teardown_counter s)
    (response_timer s) (refresh_timer s).
Definition set_last_create_msg (v : option ntlp_msg) (s : ni_session) : ni_session :=
  mk_ni (base s) (state s) (routing_info s) v (last_refresh_msg s)
    (last_auction_install_rule s) (lifetime s) (refresh_interval s) (response_timeout s)
    (create_counter s) (refresh_counter s) (max_retries s) (teardown_counter s)
    (response_timer s) (refresh_timer s).
Definition set_last_refresh_msg (v : option ntlp_msg) (s : ni_session) : ni_session :=
  mk_ni (base s) (state s) (routing_info s) (last_create_msg s) v
    (last_auction_install_rule s) (lifetime s) (refresh_interval s) (response_timeout s)
    (create_counter s) (refresh_counter s) (max_retries s) (teardown_counter s)
    (response_timer s) (refresh_timer s).
Definition set_last_auction_install_rule (v : option auction_rule) (s : ni_session) : ni_session :=
  mk_ni (base s) (state s) (routing_info s) (last_create_msg s) (last_refresh_msg s) v
    (lifetime s) (refresh_interval s) (response_timeout s) (create_counter s)
    (refresh_counter s) (max_retries s) (teardown_counter s) (response_timer s)
    (refresh_timer s).
Definition set_lifetime (v : Z) (s : ni_session) : ni_session :=
  mk_ni (base s) (state s) (routing_info s) (last_create_msg s) (last_refresh_msg s)
    (last_auction_install_rule s) v (refresh_interval s) (response_timeout s)
    (create_counter s) (refresh_counter s) (max_retries s) (teardown_counter s)
    (response_timer s) (refresh_timer s).
Definition set_refresh_interval (v : Z) (s : ni_session) : ni_session :=
  mk_ni (base s) (state s) (routing_info s) (last_create_msg s) (last_refresh_msg s)
    (last_auction_install_rule s) (lifetime s) v (response_timeout s) (create_counter s)
    (refresh_counter s) (max_retries s) (teardown_counter s) (response_timer s)
    (refresh_timer s).
Definition set_response_timeout (v : Z) (s : ni_session) : ni_session :=
  mk_ni (base s) (state s) (routing_info s) (last_create_msg s) (last_refresh_msg s)
    (last_auction_install_rule s) (lifetime s) (refresh_interval s) v (create_counter s)
    (refresh_counter s) (max_retries s) (teardown_counter s) (response_timer s)
    (refresh_timer s).
Definition set_create_counter (v : Z) (s : ni_session) : ni_session :=
  mk_ni (base s) (state s) (routing_info s) (last_create_msg s) (last_refresh_msg s)
    (last_auction_install_rule s) (lifetime s) (refresh_interval s) (response_timeout s) v
    (refresh_counter s) (max_retries s) (teardown_counter s) (response_timer s)
    (refresh_timer s).
Definition set_refresh_counter (v : Z) (s : ni_session) : ni_session :=
  mk_ni (base s) (state s) (routing_info s) (last_create_msg s) (last_refresh_msg s)
    (last_auction_install_rule s) (lifetime s) (refresh_interval s) (response_timeout s)
    (create_counter s) v (max_retries s) (teardown_counter s) (response_timer s)
    (refresh_timer s).
Definition set_max_retries (v : Z) (s : ni_session) : ni_session :=
  mk_ni (base s) (state s) (routing_info s) (last_create_msg s) (last_refresh_msg s)
    (last_auction_install_rule s) (lifetime s) (refresh_interval s) (response_timeout s)
    (create_counter s) (refresh_counter s) v (teardown_counter s) (response_timer s)
    (refresh_timer s).
Definition set_teardown_counter (v : Z) (s : ni_session) : ni_session :=
  mk_ni (base s) (state s) (routing_info s) (last_create_msg s) (last_refresh_msg s)
    (last_auction_install_rule s) (lifetime s) (refresh_interval s) (response_timeout s)
    (create_counter s) (refresh_counter s) (max_retries s) v (response_timer s)
    (refresh_timer s).
Definition set_response_timer (v : timer) (s : ni_session) : ni_session :=
  mk_ni (base s) (state s) (routing_info s) (last_create_msg s) (last_refresh_msg s)
    (last_auction_install_rule s) (lifetime s) (refresh_interval s) (response_timeout s)
    (create_counter s) (refresh_counter s) (max_retries s) (teardown_counter s) v
    (refresh_timer s).
Definition set_refresh_timer (v : timer) (s : ni_session) : ni_session :=
  mk_ni (base s) (state s) (routing_info s) (last_create_msg s) (last_refresh_msg s)
    (last_auction_install_rule s) (lifetime s) (refresh_interval s) (response_timeout s)
    (create_counter s) (refresh_counter s) (max_retries s) (teardown_counter s)
    (response_timer s) v.

(** What the session reads of the configuration (include/anslp_config.h). *)
Record ni_config := mk_ni_config {
  ni_response_timeout : Z; ni_max_retries : Z; ni_msg_hop_count : Z }.

(** The constructor.  [random] is the random number the sequence number
    starts at, [garbage] what the memory of [teardown_counter], which it does
    not initialise, holds. *)
Definition new_ni_session (id : session_id) (conf : ni_config) (random garbage : Z) : ni_session :=
  mk_ni (set_msn random (new_session id st_initiator (ni_msg_hop_count conf)))
    STATE_ANSLP_CLOSE None None None None 0 20 (ni_response_timeout conf) 0 0
    (ni_max_retries conf) garbage 0%Z 0%Z.

Definition is_final (s : ni_session) : bool := bool_decide (state s = STATE_ANSLP_CLOSE).

Definition cal_refresh_interval (s : ni_session) : ni_session :=
  set_refresh_interval (u32 (lifetime s * 2) / 3) s.

Definition inc_create_counter (s : ni_session) : ni_session :=
  set_create_counter (u32 (create_counter s + 1)) s.
Definition inc_refresh_counter (s : ni_session) : ni_session :=
  set_refresh_counter (u32 (refresh_counter s + 1)) s.
Definition inc_teardown_counter (s : ni_session) : ni_session :=
  set_teardown_counter (u32 (teardown_counter s + 1)) s.

Section Handlers.
Context {W : Type} `{!Dispatcher W} `{!Platform W}.

Definition NI : Type -> Type := M (ni_session * W).

Definition own_id (s : ni_session) : list Ascii.ascii := to_string (sid (base s)).

Definition next_msn : NI Z :=
  s <- the ;;
  let '(n, b) := next_msg_sequence_number (base s) in
  update (set_base b) ;;; ret n.

(** [get_last_create_message], [get_last_refresh_message]: asserted. *)
Definition get_last_create_message : NI ntlp_msg := s <- the ;; asserted (last_create_msg s).
Definition get_last_refresh_message : NI ntlp_msg := s <- the ;; asserted (last_refresh_msg s).

(** [d->send_message(get_last_create_message()->copy())] and the same for
    the REFRESH. *)
Definition send_last_create : NI unit :=
  m <- get_last_create_message ;; c <- lift_outcome (ntlp_copy m) ;; outside (send_message c).
Definition send_last_refresh : NI unit :=
  m <- get_last_refresh_message ;; c <- lift_outcome (ntlp_copy m) ;; outside (send_message c).

(** The two timers. *)
Definition start_response_timer : NI unit :=
  s <- the ;;
  id <- outside (timer_start (sid (base s)) (response_timeout s)) ;; update (set_response_timer id).
Definition start_refresh_timer : NI unit :=
  s <- the ;;
  id <- outside (timer_start (sid (base s)) (refresh_interval s)) ;; update (set_refresh_timer id).
Definition stop_response_timer : NI unit := update (set_response_timer 0%Z).

Definition build_create_message (e : api_create_data) (missing_objects : list anslp_object) : NI ntlp_msg :=
  s <- the ;;
  assert_that (is_some (routing_info s)) ;;;
  let create := new_anslp_create in
  let create :=
    if (lifetime s <=? ac_lifetime e)%Z then create_set_session_lifetime (lifetime s) create
    else create_set_session_lifetime (ac_lifetime e) create in
  n <- next_msn ;;
  let create := create_set_msg_sequence_number n create in
  let create := create_set_selection_auctioning_entities (ac_sel_auct_entities e) create in
  let create := create_set_message_hop_count (msg_hop_count (base s)) create in
  let create := set_mspecs (map object_copy missing_objects) create in
  lift_outcome (new_ntlp_msg (sid (base s)) (Some create) (routing_info s) 0).

Definition build_bidding_message (objs : objectList_t) : NI ntlp_msg :=
  s <- the ;;
  nslp_mri <- deref (routing_info s) ;;
  let bidding := new_anslp_bidding in
  n <- next_msn ;;
  let bidding := bidding_set_msg_sequence_number n bidding in
  let bidding := set_mspecs (map (fun kv => object_copy (snd kv)) objs) bidding in
  lift_outcome (new_ntlp_msg (sid (base s)) (Some bidding) (Some nslp_mri) 0).

Definition build_refresh_message : NI ntlp_msg :=
  s <- the ;;
  assert_that (is_some (routing_info s)) ;;;
  let refresh := refresh_set_session_lifetime (lifetime s) new_anslp_refresh in
  n <- next_msn ;;
  let refresh := refresh_set_msg_sequence_number n refresh in
  lift_outcome (new_ntlp_msg (sid (base s)) (Some refresh) (routing_info s) 0).

(** [build_auction_install_rule]: the MSPEC objects the path returned
    become the requests of a new rule. *)
Definition build_auction_install_rule (resp : anslp_msg) : NI auction_rule :=
  responseObjects <- lift_outcome (response_get_mspec_objects resp) ;;
  outside (add_requests responseObjects new_auction_rule).

(** [setup_session], returning the objects to install elsewhere. *)
Definition setup_session (e : api_create_data) : NI (list anslp_object) :=
  let a := ac_addr e in
  let nslp_mri := new_mri_pathcoupled (source_addr a) 32 (source_port a)
                    (dest_addr a) 32 (dest_port a) (protocol a) 0 0 0 true in
  update (set_routing_info (Some (upcast_mri nslp_mri))) ;;;
  (if negb (ac_lifetime e =? 0)%Z then update (set_lifetime (ac_lifetime e)) else ret tt) ;;;
  s <- the ;;
  let r := refresh_interval_for (lifetime s) (max_retries s) in
  assert_that (0 <? r)%Z ;;;
  update (set_refresh_interval r) ;;;
  k <- outside rand ;;
  update (set_response_timeout (response_timeout_for k r)) ;;;
  ret (map (fun kv => object_copy (snd kv)) (ac_objects e)).

(** *** State CLOSE. *)
Definition handle_state_close (evt : event) : NI state_t :=
  match cast_create evt with
  | Some e =>
      missing_objects <- setup_session e ;;
      m <- build_create_message e missing_objects ;;
      update (set_last_create_msg (Some m)) ;;;
      send_last_create ;;;
      start_response_timer ;;;
      match ac_return_queue e with
      | Some q =>
          s <- the ;;
          outside (enqueue q (AddAnslpSessionEvent (ac_session_id e) (own_id s))) ;;;
          ret STATE_ANSLP_PENDING
      | None => ret STATE_ANSLP_CLOSE
      end
  | None => ret STATE_ANSLP_CLOSE
  end.

(** *** State PENDING. *)
Definition pending_timeout : NI state_t :=
  s <- the ;;
  if (create_counter s <? max_retries s)%Z then
    update inc_create_counter ;;;
    send_last_create ;;;
    start_response_timer ;;;
    ret STATE_ANSLP_PENDING
  else
    outside (report_async_event "got no response for our Create Message") ;;;
    ret STATE_ANSLP_CLOSE.

Definition pending_response (resp : anslp_msg) : NI state_t :=
  m <- get_last_create_message ;;
  c <- deref (get_anslp_create m) ;;
  if negb (is_response_to_create resp c) then ret STATE_ANSLP_PENDING
  else if response_is_success resp then
    outside (report_async_event "CREATE session initiated") ;;;
    start_response_timer ;;;
    s <- the ;;
    (if negb (response_get_session_lifetime resp =? lifetime s)%Z then
       update (set_lifetime (response_get_session_lifetime resp)) ;;;
       update cal_refresh_interval
     else ret tt) ;;;
    update (set_create_counter 0) ;;;
    act <- build_auction_install_rule resp ;;
    update (set_last_auction_install_rule (Some act)) ;;;
    outside (send_response (own_id s) (Some (rule_copy act))) ;;;
    ret STATE_ANSLP_PENDING_INSTALLING
  else
    outside (report_async_event "cannot initiate Create session") ;;;
    ret STATE_ANSLP_CLOSE.

(** A REFRESH with a session lifetime of 0. *)
Definition send_final_refresh : NI unit := m <- build_refresh_message ;; outside (send_message m).

Definition handle_state_pending (evt : event) : NI state_t :=
  s <- the ;;
  if is_timer_of evt (response_timer s) then pending_timeout
  else if is_no_next_node_found_event evt then ret STATE_ANSLP_CLOSE
  else if is_api_teardown evt then
    update (set_lifetime 0) ;;;
    update (set_last_create_msg None) ;;;
    send_final_refresh ;;;
    ret STATE_ANSLP_CLOSE
  else if is_timer evt then ret STATE_ANSLP_PENDING
  else
    m <- get_last_create_message ;;
    if is_anslp_response evt (Some m) then
      resp <- deref (get_response evt) ;;
      pending_response resp
    else ret STATE_ANSLP_PENDING.

(** *** State PENDING_INSTALLING. *)

(** Give the session up: the rules installed so far are removed and the
    path is told with a REFRESH of lifetime 0. *)
Definition abandon_installing : NI unit :=
  update (set_lifetime 0) ;;;
  update (set_last_create_msg None) ;;;
  s <- the ;;
  act <- deref (last_auction_install_rule s) ;;
  (if (0 <? get_number_mspec_response_objects act)%nat then
     outside (remove_auction_rules (own_id s) (Some (rule_copy act)))
   else ret tt) ;;;
  send_final_refresh.

(** [saveDelete(rule)]: the rule is deleted and the pointer reset. *)
Definition delete_rule : NI unit := update (fun s => set_base (set_rule None (base s)) s).

Definition installing_timeout : NI state_t :=
  s <- the ;;
  if (create_counter s <? max_retries s)%Z then
    update inc_create_counter ;;;
    act <- deref (last_auction_install_rule s) ;;
    outside (send_response (own_id s) (Some (rule_copy act))) ;;;
    start_response_timer ;;;
    ret STATE_ANSLP_PENDING_INSTALLING
  else
    delete_rule ;;;
    abandon_installing ;;;
    outside (report_async_event "got no response for our Create Message") ;;;
    ret STATE_ANSLP_CLOSE.

Definition installing_install (objs : objectList_t) : NI state_t :=
  s <- the ;;
  act <- deref (last_auction_install_rule s) ;;
  if (get_number_mspec_request_objects act =? length objs)%nat then
    delete_rule ;;;
    r <- outside (set_reponse_objects objs (Some (rule_copy act))) ;;
    update (fun s => set_base (set_rule r (base s)) s) ;;;
    update (set_create_counter 0) ;;;
    stop_response_timer ;;;
    start_refresh_timer ;;;
    ret STATE_ANSLP_AUCTIONING
  else
    delete_rule ;;;
    abandon_installing ;;;
    ret STATE_ANSLP_CLOSE.

Definition handle_state_pending_installing (evt : event) : NI state_t :=
  s <- the ;;
  if is_timer_of evt (response_timer s) then installing_timeout
  else if is_api_teardown evt then abandon_installing ;;; ret STATE_ANSLP_CLOSE
  else if is_timer evt then ret STATE_ANSLP_PENDING_INSTALLING
  else if is_api_install evt then
    objs <- deref (cast_objects evt) ;;
    installing_install objs
  else ret STATE_ANSLP_PENDING_INSTALLING.

(** *** State AUCTIONING. *)

(** The end of a session: remove the rules and wait for the answer, or
    close at once when there are none. *)
Definition remove_or_close : NI state_t :=
  s <- the ;;
  r <- deref (rule (base s)) ;;
  if (0 <? get_number_mspec_response_objects r)%nat then
    outside (remove_auction_rules (own_id s) (Some r)) ;;;
    start_response_timer ;;;
    ret STATE_ANSLP_PENDING_TEARDOWN
  else
    stop_response_timer ;;;
    ret STATE_ANSLP_CLOSE.

Definition auctioning_refresh_timer : NI state_t :=
  m <- build_refresh_message ;;
  update (set_last_refresh_msg (Some m)) ;;;
  send_last_refresh ;;;
  update (set_refresh_counter 0) ;;;
  start_response_timer ;;;
  ret STATE_ANSLP_AUCTIONING.

Definition auctioning_timeout : NI state_t :=
  s <- the ;;
  if (refresh_counter s <? max_retries s)%Z then
    update inc_refresh_counter ;;;
    send_last_refresh ;;;
    start_response_timer ;;;
    ret STATE_ANSLP_AUCTIONING
  else
    outside (report_async_event "got no response to our REFRESH message") ;;;
    update (set_teardown_counter 0) ;;;
    remove_or_close.

Definition auctioning_teardown : NI state_t :=
  update (set_lifetime 0) ;;;
  m <- build_refresh_message ;;
  update (set_last_refresh_msg (Some m)) ;;;
  send_last_refresh ;;;
  ret STATE_ANSLP_AUCTIONING.

(** A BIDDING from the path is posted to the local auctioning module; its
    errors are logged. *)
Definition post_bidding (evt : event) : NI unit :=
  catch
    (s <- the ;;
     to_post <- outside (create_auction_rule (get_bidding evt)) ;;
     result <- outside (auction_interaction false (own_id s) (Some to_post)) ;;
     ret tt)
    (fun e => match e with Installer_error _ => ret tt | e => raise e end).

Definition auctioning_response (resp : anslp_msg) : NI state_t :=
  m <- get_last_refresh_message ;;
  c <- deref (get_anslp_refresh m) ;;
  if negb (is_response_to_refresh resp c) then ret STATE_ANSLP_AUCTIONING
  else if response_is_success resp then
    outside (report_async_event "REFRESH successful") ;;;
    s <- the ;;
    if (lifetime s =? 0)%Z then
      stop_response_timer ;;;
      update (set_teardown_counter 0) ;;;
      remove_or_close
    else
      stop_response_timer ;;;
      start_refresh_timer ;;;
      update (set_refresh_counter 0) ;;;
      ret STATE_ANSLP_AUCTIONING
  else
    outside (report_async_event "REFRESH session died") ;;;
    update (set_teardown_counter 0) ;;;
    remove_or_close.

Definition send_bidding (evt : event) : NI unit :=
  objs <- deref (cast_objects evt) ;;
  m <- build_bidding_message objs ;;
  outside (send_message m).

Definition handle_state_auctioning (evt : event) : NI state_t :=
  s <- the ;;
  if is_api_install evt then ret STATE_ANSLP_AUCTIONING
  else if is_timer_of evt (refresh_timer s) then auctioning_refresh_timer
  else if is_timer_of evt (response_timer s) then auctioning_timeout
  else if is_api_teardown evt then auctioning_teardown
  else if is_api_bidding evt then send_bidding evt ;;; ret STATE_ANSLP_AUCTIONING
  else if is_anslp_bidding evt then post_bidding evt ;;; ret STATE_ANSLP_AUCTIONING
  else if is_timer evt then ret STATE_ANSLP_AUCTIONING
  else
    m <- get_last_refresh_message ;;
    if is_anslp_response evt (Some m) then
      resp <- deref (get_response evt) ;;
      auctioning_response resp
    else ret STATE_ANSLP_AUCTIONING.

(** *** State PENDING_TEARDOWN. *)
Definition teardown_timeout : NI state_t :=
  s <- the ;;
  if (teardown_counter s <? max_retries s)%Z then
    update inc_teardown_counter ;;;
    outside (remove_auction_rules (own_id s) (rule (base s))) ;;;
    start_response_timer ;;;
    ret STATE_ANSLP_PENDING_TEARDOWN
  else ret STATE_ANSLP_CLOSE.

Definition handle_state_pending_teardown (evt : event) : NI state_t :=
  s <- the ;;
  if is_anslp_refresh evt then ret STATE_ANSLP_PENDING_TEARDOWN
  else if is_api_bidding evt then send_bidding evt ;;; ret STATE_ANSLP_PENDING_TEARDOWN
  else if is_anslp_bidding evt then post_bidding evt ;;; ret STATE_ANSLP_PENDING_TEARDOWN
  else if is_timer_of evt (response_timer s) then teardown_timeout
  else if is_route_changed_bad_event evt then ret STATE_ANSLP_PENDING_TEARDOWN
  else if is_timer evt then ret STATE_ANSLP_PENDING_TEARDOWN
  else if is_api_remove evt then stop_response_timer ;;; ret STATE_ANSLP_CLOSE
  else ret STATE_ANSLP_PENDING_TEARDOWN.

(** [process_event]. *)
Definition handle_event (evt : event) : NI state_t :=
  s <- the ;;
  match state s with
  | STATE_ANSLP_CLOSE => handle_state_close evt
  | STATE_ANSLP_PENDING => handle_state_pending evt
  | STATE_ANSLP_PENDING_INSTALLING => handle_state_pending_installing evt
  | STATE_ANSLP_AUCTIONING => handle_state_auctioning evt
  | STATE_ANSLP_PENDING_TEARDOWN => handle_state_pending_teardown evt
  end.

Definition process_event (evt : event) : NI unit :=
  st <- handle_event evt ;; update (set_state st).
End Handlers.
End NiSession.
