(* ===== verification/NiSpec.v ===== *)
(** * What the initiator's session guarantees

    The invariant of [ni_session], the protocol it refines, the faults it can
    run into, its retransmissions and what its messages contain - for every
    dispatcher that keeps the promises of [Effects]. *)
From S2P Require Import Prelude Outcome StdMap External Objects Store Messages Codec SessionId NtlpMsg AuctionRule Events Session NiSession.

Section NiSpec.
Context `{Libs} `{!LibsLaws} {W : Type} `{!Dispatcher W} `{!Platform W} `{!Effects W}.
Implicit Types (s : ni_session) (w : W).

(** ** The invariant. *)
Definition ni_wf s : Prop :=
  is_u32 (lifetime s) /\ is_u32 (msn (base s)) /\ is_u32 (msg_hop_count (base s))
  /\ (forall n, last_refresh_msg s = Some n -> holds_msg C_refresh n)
  /\ match state s with
     | STATE_ANSLP_CLOSE => True
     | STATE_ANSLP_PENDING =>
         is_Some (routing_info s) /\ exists n, last_create_msg s = Some n /\ holds_msg C_create n
     | STATE_ANSLP_PENDING_INSTALLING =>
         is_Some (routing_info s)
         /\ exists act, last_auction_install_rule s = Some act /\ object_responses act = []
     | STATE_ANSLP_AUCTIONING =>
         is_Some (routing_info s) /\ is_Some (rule (base s))
         /\ (response_timer s <> 0%Z -> is_Some (last_refresh_msg s))
     | STATE_ANSLP_PENDING_TEARDOWN => is_Some (routing_info s) /\ is_Some (rule (base s))
     end.

(** ** The protocol, over states and events only. *)
Inductive ni_step : state_t -> event -> state_t -> Prop :=
  | ni_stay st evt : ni_step st evt st
  | ni_open e : ac_return_queue e <> None ->
      ni_step STATE_ANSLP_CLOSE (Api_create_event e) STATE_ANSLP_PENDING
  | ni_answered evt r : get_response evt = Some r -> response_is_success r = true ->
      ni_step STATE_ANSLP_PENDING evt STATE_ANSLP_PENDING_INSTALLING
  | ni_refused evt r : get_response evt = Some r -> response_is_success r = false ->
      ni_step STATE_ANSLP_PENDING evt STATE_ANSLP_CLOSE
  | ni_pending_ends evt :
      is_timer evt = true \/ is_no_next_node_found_event evt = true \/ is_api_teardown evt = true ->
      ni_step STATE_ANSLP_PENDING evt STATE_ANSLP_CLOSE
  | ni_installed objs rq :
      ni_step STATE_ANSLP_PENDING_INSTALLING (Api_install_event objs rq) STATE_ANSLP_AUCTIONING
  | ni_installing_ends evt :
      is_timer evt = true \/ is_api_teardown evt = true \/ is_api_install evt = true ->
      ni_step STATE_ANSLP_PENDING_INSTALLING evt STATE_ANSLP_CLOSE
  | ni_auction_ends evt st :
      is_timer evt = true \/ (exists r, get_response evt = Some r) ->
      st = STATE_ANSLP_PENDING_TEARDOWN \/ st = STATE_ANSLP_CLOSE ->
      ni_step STATE_ANSLP_AUCTIONING evt st
  | ni_torn_down evt :
      is_timer evt = true \/ is_api_remove evt = true ->
      ni_step STATE_ANSLP_PENDING_TEARDOWN evt STATE_ANSLP_CLOSE.

(** The events AUCTIONING handles before it looks for its last REFRESH. *)
Definition expected_auctioning (evt : event) : bool :=
  is_api_install evt || is_timer evt || is_api_teardown evt || is_api_bidding evt || is_anslp_bidding evt.

(** The faults: a request without a refresh interval, an unexpected event
    before the first REFRESH, and a message with an object that is not
    expected in it. *)
Definition ni_fault s (evt : event) (f : fault) : Prop :=
  f = Assertion_failed
  /\ ((state s = STATE_ANSLP_CLOSE /\ exists e, evt = Api_create_event e
       /\ (refresh_interval_for (if ac_lifetime e =? 0 then lifetime s else ac_lifetime e) (max_retries s) <= 0)%Z)
      \/ (state s = STATE_ANSLP_AUCTIONING /\ last_refresh_msg s = None /\ expected_auctioning evt = false))
  \/ f = Null_dereference /\ unexpected_body evt
  /\ (state s = STATE_ANSLP_PENDING /\ is_some (get_response evt) = true
      \/ (state s = STATE_ANSLP_AUCTIONING \/ state s = STATE_ANSLP_PENDING_TEARDOWN) /\ is_anslp_bidding evt = true).

Lemma ni_bidding_fault s evt :
  unexpected_body evt -> is_anslp_bidding evt = true ->
  state s = STATE_ANSLP_AUCTIONING \/ state s = STATE_ANSLP_PENDING_TEARDOWN -> ni_fault s evt Null_dereference.
Proof. intros. right. auto. Qed.

(** ** The building blocks. *)
Definition bump s : ni_session := set_base (set_msn (u32 (msn (base s) + 1)) (base s)) s.

(** The REFRESH a session builds. *)
Definition refresh_of s (m : mri) : ntlp_msg :=
  mk_ntlp_msg (sid (base s))
    (Some (refresh_set_msg_sequence_number (u32 (msn (base s) + 1))
             (refresh_set_session_lifetime (lifetime s) new_anslp_refresh))) m 0.

Lemma build_refresh_eq s w m :
  routing_info s = Some m -> build_refresh_message (s, w) = (Normal (refresh_of s m), (bump s, w)).
Proof.
  intros Hm. unfold build_refresh_message, bind, the, next_msn, assert_that. rewrite Hm. done.
Qed.

Lemma refresh_of_holds s m :
  is_u32 (lifetime s) -> holds_msg C_refresh (refresh_of s m).
Proof. intros Hl. by eapply refresh_holds; [apply u32_range|exact Hl|]. Qed.

Lemma wp_build_refresh s w Q :
  is_Some (routing_info s) ->
  (forall m, routing_info s = Some m -> Q (Normal (refresh_of s m)) (bump s, w)) ->
  wp build_refresh_message Q (s, w).
Proof. intros [m Hm] HQ. eapply wp_eq; [by apply build_refresh_eq|]. by apply HQ. Qed.

Lemma wp_send_final_refresh s w Q :
  is_Some (routing_info s) ->
  (forall m w', routing_info s = Some m -> trace w' = trace w ++ [Sent (refresh_of s m)] ->
     Q (Normal tt) (bump s, w')) ->
  wp send_final_refresh Q (s, w).
Proof.
  intros Hm HQ. unfold send_final_refresh. wp_step. apply wp_build_refresh; [done|]. intros m Em.
  wp_step. eauto.
Qed.

Lemma ni_wp_start_response_timer s w Q :
  (forall id w', trace w' = trace w ++ [Timer_started (sid (base s)) (int32 (response_timeout s)) id] ->
     Q (Normal tt) (set_response_timer id s, w')) ->
  wp start_response_timer Q (s, w).
Proof. intros HQ. unfold start_response_timer. do 5 wp_step. eauto. Qed.

Lemma wp_start_refresh_timer s w Q :
  (forall id w', trace w' = trace w ++ [Timer_started (sid (base s)) (int32 (refresh_interval s)) id] ->
     Q (Normal tt) (set_refresh_timer id s, w')) ->
  wp start_refresh_timer Q (s, w).
Proof. intros HQ. unfold start_refresh_timer. do 5 wp_step. eauto. Qed.

Lemma wp_send_last_create s w Q n :
  last_create_msg s = Some n -> holds_msg C_create n ->
  (forall w', trace w' = trace w ++ [Sent n] -> Q (Normal tt) (s, w')) ->
  wp send_last_create Q (s, w).
Proof.
  intros Hn Hh HQ. unfold send_last_create, get_last_create_message. do 3 wp_step.
  rewrite Hn. apply wp_asserted; [|done]. intros a [= <-]. do 2 wp_step.
  rewrite (holds_msg_copy C_create) by done. wp_step. eauto.
Qed.

Lemma wp_send_last_refresh s w Q n :
  last_refresh_msg s = Some n -> holds_msg C_refresh n ->
  (forall w', trace w' = trace w ++ [Sent n] -> Q (Normal tt) (s, w')) ->
  wp send_last_refresh Q (s, w).
Proof.
  intros Hn Hh HQ. unfold send_last_refresh, get_last_refresh_message. do 3 wp_step.
  rewrite Hn. apply wp_asserted; [|done]. intros a [= <-]. do 2 wp_step.
  rewrite (holds_msg_copy C_refresh) by done. wp_step. eauto.
Qed.

(** Removing the rules, or closing. *)
Lemma ni_wp_remove_or_close_known s w Q r :
  rule (base s) = Some r ->
  (forall id w', 0 < length (object_responses r) ->
     trace w' = trace w ++ [Rules_removed (own_id s) r;
                            Timer_started (sid (base s)) (int32 (response_timeout s)) id] ->
     Q (Normal STATE_ANSLP_PENDING_TEARDOWN) (set_response_timer id s, w')) ->
  (forall e w1 w', 0 < length (object_responses r) ->
     fst (remove_auction_rules (own_id s) (Some r) w1) = Raised (Installer_error e) -> trace w' = trace w ->
     Q (Raised (Installer_error e)) (s, w')) ->
  (object_responses r = [] -> Q (Normal STATE_ANSLP_CLOSE) (set_response_timer 0%Z s, w)) ->
  wp remove_or_close Q (s, w).
Proof.
  intros Hr HQ HE HC. unfold remove_or_close. do 2 wp_step. rewrite Hr. wp_step.
  apply wp_deref; [|done]. intros a [= <-]. unfold get_number_mspec_response_objects.
  destruct (Nat.ltb_spec 0 (length (object_responses r))) as [Hlt|Hge].
  - wp_step. eapply wp_may_throw_known; [apply remove_does|intros [] w1 Ht1|intros e w1 He Ht1; by eapply HE].
    wp_step. apply ni_wp_start_response_timer. intros id w2 Ht.
    wp_step. apply HQ; [done|]. trace_eq.
  - wp_step. unfold stop_response_timer. wp_step. wp_step. apply HC.
    by destruct (object_responses r); [|cbn in Hge; lia].
Qed.

Lemma ni_wp_remove_or_close s w Q r :
  rule (base s) = Some r ->
  (forall id w', 0 < length (object_responses r) ->
     trace w' = trace w ++ [Rules_removed (own_id s) r;
                            Timer_started (sid (base s)) (int32 (response_timeout s)) id] ->
     Q (Normal STATE_ANSLP_PENDING_TEARDOWN) (set_response_timer id s, w')) ->
  (forall e w', 0 < length (object_responses r) -> trace w' = trace w ->
     Q (Raised (Installer_error e)) (s, w')) ->
  (object_responses r = [] -> Q (Normal STATE_ANSLP_CLOSE) (set_response_timer 0%Z s, w)) ->
  wp remove_or_close Q (s, w).
Proof. intros Hr HQ HE HC. apply (ni_wp_remove_or_close_known s w Q r); [done|done| |done]. intros e w1 w' Hl _. by apply HE. Qed.

(** Posting a BIDDING of the path: the session does not change, an error of
    the installer is swallowed. *)
Lemma wp_post_bidding s w Q evt :
  event_valid evt -> is_anslp_bidding evt = true ->
  (forall w', (trace w' = trace w \/ exists r, trace w' = trace w ++ [Interaction false (own_id s) r]) ->
     Q (Normal tt) (s, w')) ->
  (unexpected_body evt -> Q (Faulted Null_dereference) (s, w)) ->
  wp (post_bidding evt) Q (s, w).
Proof.
  intros Hv Hb HQ HF. unfold is_anslp_bidding, is_some in Hb.
  destruct (get_bidding evt) as [b|] eqn:Eb; [|discriminate].
  destruct (event_valid_anslp _ _ _ Hv Eb) as [Hc (v & Hm)].
  unfold post_bidding. wp_step. wp_step. wp_step. wp_step. rewrite Eb.
  eapply wp_create_auction_rule; [done|done| |intros Hu; by eapply HF, unexpected_body_anslp].
  intros r1 w1 _ Ht1. wp_step. wp_step.
  - wp_step. apply HQ. right. exists r1. trace_eq.
  - apply wp_ret, HQ. left. trace_eq.
Qed.

(** The BIDDING a session sends. *)
Definition bidding_of s (objs : objectList_t) (m : mri) : ntlp_msg :=
  mk_ntlp_msg (sid (base s))
    (Some (set_mspecs (map (fun kv => object_copy (snd kv)) objs)
             (bidding_set_msg_sequence_number (u32 (msn (base s) + 1)) new_anslp_bidding))) m 0.

Lemma build_bidding_eq s w objs m :
  routing_info s = Some m -> build_bidding_message objs (s, w) = (Normal (bidding_of s objs m), (bump s, w)).
Proof. intros Hm. unfold build_bidding_message, bind, the, next_msn, deref. by rewrite Hm. Qed.

Lemma ni_wp_send_bidding s w Q evt :
  is_Some (routing_info s) -> is_api_bidding evt = true ->
  (forall n w', trace w' = trace w ++ [Sent n] -> Q (Normal tt) (bump s, w')) ->
  wp (send_bidding evt) Q (s, w).
Proof.
  intros [m Hm] Hb HQ. unfold send_bidding. destruct evt; try discriminate. cbn [cast_objects].
  wp_step. apply wp_deref; [|done]. intros l [= <-]. wp_step.
  eapply wp_eq; [by apply build_bidding_eq|]. wp_step. eauto.
Qed.

(** ** The CREATE message. *)
Definition effective_lifetime s (e : api_create_data) : Z :=
  if (ac_lifetime e =? 0)%Z then lifetime s else ac_lifetime e.

Definition interval_of s (e : api_create_data) : Z :=
  refresh_interval_for (effective_lifetime s e) (max_retries s).

Definition flow_mri (a : addressing) : mri :=
  upcast_mri (new_mri_pathcoupled (source_addr a) 32 (source_port a) (dest_addr a) 32 (dest_port a)
                (protocol a) 0 0 0 true).

(** The session [setup_session] leaves, [k] being the random number. *)
Definition prepared s (e : api_create_data) (k : Z) : ni_session :=
  set_response_timeout (response_timeout_for k (interval_of s e))
    (set_refresh_interval (interval_of s e)
       (set_lifetime (effective_lifetime s e) (set_routing_info (Some (flow_mri (ac_addr e))) s))).

Lemma wp_setup_session s w e Q :
  ((interval_of s e <= 0)%Z -> forall s' w', Q (Faulted Assertion_failed) (s', w')) ->
  ((0 < interval_of s e)%Z -> forall k w', trace w' = trace w ->
     Q (Normal (map (fun kv => object_copy (snd kv)) (ac_objects e))) (prepared s e k, w')) ->
  wp (setup_session e) Q (s, w).
Proof.
  intros HF HQ. unfold setup_session. cbv zeta. wp_step. wp_step. wp_step.
  unfold interval_of, effective_lifetime in *.
  assert (Hgo : forall s1, s1 = set_lifetime (effective_lifetime s e)
                  (set_routing_info (Some (flow_mri (ac_addr e))) s) ->
    wp (s0 <- the ;;
        let r := refresh_interval_for (lifetime s0) (max_retries s0) in
        assert_that (0 <? r)%Z ;;; update (set_refresh_interval r) ;;;
        k <- outside rand ;;
        update (set_response_timeout (response_timeout_for k r)) ;;;
        ret (map (fun kv => object_copy (snd kv)) (ac_objects e))) Q (s1, w)).
  { intros s1 ->. do 2 wp_step. cbn [lifetime max_retries set_lifetime set_routing_info]. cbv zeta.
    wp_step. apply wp_assert_that; intros Hr.
    - repeat wp_step. apply HQ.
      + by apply Z.ltb_lt.
      + match goal with E : trace ?w' = _ |- trace ?w' = _ => rewrite E end. apply app_nil_r.
    - apply HF. apply Z.ltb_ge in Hr. done. }
  destruct (Z.eqb_spec (ac_lifetime e) 0) as [E0|E0]; cbn [negb].
  - wp_step. wp_step. apply Hgo. unfold effective_lifetime. rewrite E0. by destruct s.
  - wp_step. wp_step. apply Hgo. unfold effective_lifetime.
    by destruct (Z.eqb_spec (ac_lifetime e) 0).
Qed.

Definition create_of s (e : api_create_data) (l : list anslp_object) (m : mri) : ntlp_msg :=
  mk_ntlp_msg (sid (base s))
    (Some (set_mspecs (map object_copy l)
       (create_set_message_hop_count (msg_hop_count (base s))
          (create_set_selection_auctioning_entities (ac_sel_auct_entities e)
             (create_set_msg_sequence_number (u32 (msn (base s) + 1))
                (create_set_session_lifetime (Z.min (lifetime s) (ac_lifetime e)) new_anslp_create)))))) m 0.

Lemma build_create_eq s w e l m :
  routing_info s = Some m -> build_create_message e l (s, w) = (Normal (create_of s e l m), (bump s, w)).
Proof.
  intros Hm. unfold build_create_message, bind, the, next_msn, assert_that. rewrite Hm. cbn [is_some].
  unfold create_of. destruct (Z.leb_spec (lifetime s) (ac_lifetime e)).
  - by rewrite Z.min_l by lia.
  - by rewrite Z.min_r by lia.
Qed.

Lemma create_of_view s e l m :
  is_u32 (lifetime s) -> is_u32 (ac_lifetime e) -> is_u32 (ac_sel_auct_entities e) ->
  is_u32 (msg_hop_count (base s)) -> Forall mspec_wf l ->
  (Z.of_nat (length l) < 2 ^ 32 - OT_ipap_message)%Z ->
  exists b, get_anslp_msg (create_of s e l m) = Some b /\ msg_cls b = C_create
    /\ msg_view b (create_view (msg_hop_count (base s)) (ac_sel_auct_entities e) (u32 (msn (base s) + 1))
                     (Z.min (lifetime s) (ac_lifetime e)) l).
Proof.
  intros H1 H2 H3 H4 Hl Hn. eexists. split; [done|]. split; [by rewrite set_mspecs_cls|].
  apply create_body_view; try done; [apply u32_range|]. unfold is_u32 in *; lia.
Qed.

Lemma create_of_holds s e l m :
  is_u32 (lifetime s) -> is_u32 (ac_lifetime e) -> is_u32 (ac_sel_auct_entities e) ->
  is_u32 (msg_hop_count (base s)) -> Forall mspec_wf l ->
  (Z.of_nat (length l) < 2 ^ 32 - OT_ipap_message)%Z -> holds_msg C_create (create_of s e l m).
Proof.
  intros. edestruct (create_of_view s e l m) as (b & Hb & Hc & Hv); try done.
  exists b. eexists. split_and!; try done.
  destruct (msg_view_get b _ Hv) as (_ & _ & _ & E & _). unfold has_msg_sequence_number. by rewrite E.
Qed.

Lemma objs_wf_copies l :
  objs_wf l ->
  map (fun kv : mspec_rule_key * anslp_object => object_copy (snd kv)) l = map snd l
  /\ Forall mspec_wf (map snd l) /\ (Z.of_nat (length (map snd l)) < 2 ^ 32 - OT_ipap_message)%Z.
Proof.
  intros [Hl Hn]. split_and!.
  - by apply map_copy_snd.
  - apply Forall_map. eapply Forall_impl; [exact Hl|]. done.
  - by rewrite length_map.
Qed.

(** ** Every handler keeps the invariant and makes a step of the protocol. *)
Definition ni_ok s (evt : event) (o : outcome state_t) (sw : ni_session * W) : Prop :=
  match o with
  | Normal st => ni_wf (set_state st (fst sw)) /\ ni_step (state s) evt st
  | Raised e => (exists ie, e = Installer_error ie) /\ state (fst sw) = state s
  | Faulted f => ni_fault s evt f
  end.

Ltac ranges := unfold ni_wf in *; cbn; rewrite ?map_object_copy; auto using u32_range.

Lemma ni_close_ok s w evt :
  ni_wf s -> event_valid evt -> state s = STATE_ANSLP_CLOSE ->
  wp (handle_state_close evt) (ni_ok s evt) (s, w).
Proof.
  intros (Hl & Hm & Hh & Hlr & _) Hv Hst. unfold handle_state_close.
  destruct (cast_create evt) as [e|] eqn:Ec.
  2: { apply wp_ret. split; [by split_and!|]. rewrite Hst. apply ni_stay. }
  destruct evt; try discriminate. injection Ec as ->. destruct Hv as (Ho & Hel & Hse).
  destruct (objs_wf_copies _ Ho) as (Em & Hmo & Hln). wp_step. apply wp_setup_session.
  { intros Hr s' w'. left. split; [done|]. left. split; [done|]. by exists e. }
  intros Hr k w1 Ht1. wp_step. eapply wp_eq; [by apply build_create_eq|].
  set (s1 := prepared s e k). rewrite Em.
  assert (Hl1 : is_u32 (lifetime s1)) by (cbn; unfold effective_lifetime; by case_match).
  assert (Hc : holds_msg C_create (create_of s1 e (map snd (ac_objects e)) (flow_mri (ac_addr e))))
    by by apply create_of_holds.
  do 2 wp_step. wp_step. eapply wp_send_last_create; [done|exact Hc|]. intros w2 Ht2.
  wp_step. apply ni_wp_start_response_timer. intros id w3 Ht3. cbn beta iota.
  destruct (ac_return_queue e) as [q|] eqn:Eq.
  - repeat wp_step. split.
    + split_and!; [done|apply u32_range|done|done|]. cbn. split; [by eexists|]. eauto.
    + rewrite Hst. constructor. by rewrite Eq.
  - wp_step. split; [split_and!; [done|apply u32_range|done|done|done]|]. rewrite Hst. apply ni_stay.
Qed.

Lemma pending_timeout_ok s w evt :
  ni_wf s -> state s = STATE_ANSLP_PENDING -> is_timer evt = true ->
  wp pending_timeout (ni_ok s evt) (s, w).
Proof.
  intros (Hl & Hm & Hh & Hlr & Hi) Hst Ht. rewrite Hst in Hi. destruct Hi as (Hr & n & Hn & Hc).
  unfold pending_timeout. do 2 wp_step. destruct (create_counter s <? max_retries s)%Z.
  - do 2 wp_step. wp_step. eapply wp_send_last_create; [done|exact Hc|]. intros w2 Ht2.
    wp_step. apply ni_wp_start_response_timer. intros id w3 Ht3. wp_step.
    split; [split_and!; try done; cbn; eauto|]. rewrite Hst. apply ni_stay.
  - repeat wp_step. split; [by split_and!|]. rewrite Hst. apply ni_pending_ends. auto.
Qed.

Lemma u32_third z : is_u32 z -> is_u32 (z / 3).
Proof. unfold is_u32. intros Hz. split; [apply Z.div_pos; lia|]. apply Z.div_lt_upper_bound; lia. Qed.

Lemma ni_pending_response_ok s w evt r :
  ni_wf s -> state s = STATE_ANSLP_PENDING -> event_valid evt -> get_response evt = Some r ->
  wp (pending_response r) (ni_ok s evt) (s, w).
Proof.
  intros (Hl & Hm & Hh & Hlr & Hi) Hst Hv Hr. rewrite Hst in Hi. destruct Hi as (Hrt & n & Hn & Hc).
  destruct (event_valid_anslp _ _ _ Hv Hr) as [Hcls Hb]. pose proof (body_valid_lifetime r Hb) as Hlt.
  destruct Hb as (v & Hvw). destruct (msg_view_get r v Hvw) as (_ & Eg1 & Eg2 & _).
  destruct (holds_msg_get _ _ Hc) as (c & vc & Hgc & Hvc).
  unfold pending_response, get_last_create_message. do 3 wp_step. rewrite Hn.
  apply wp_asserted; [|done]. intros a [= <-]. wp_step.
  unfold get_anslp_create. rewrite Hgc. apply wp_deref; [|done]. intros ? [= <-]. cbn beta iota.
  destruct (is_response_to_create r c); cbn [negb].
  2: { wp_step. split; [split_and!; try done; cbn; eauto|]. rewrite Hst. apply ni_stay. }
  destruct (response_is_success r) eqn:Es.
  2: { repeat wp_step. split; [by split_and!|]. rewrite Hst. by eapply ni_refused. }
  do 3 wp_step. apply ni_wp_start_response_timer. intros id w2 Ht2. do 2 wp_step.
  set (s2 := set_response_timer id s).
  assert (Hgo : forall s3, is_u32 (lifetime s3) -> msn (base s3) = msn (base s) ->
            msg_hop_count (base s3) = msg_hop_count (base s) -> routing_info s3 = routing_info s ->
            last_refresh_msg s3 = last_refresh_msg s ->
            wp (update (set_create_counter 0) ;;;
                act <- build_auction_install_rule r ;;
                update (set_last_auction_install_rule (Some act)) ;;;
                outside (send_response (own_id s2) (Some (rule_copy act))) ;;;
                ret STATE_ANSLP_PENDING_INSTALLING) (ni_ok s evt) (s3, w2)
            \/ state s3 <> state s).
  { intros s3 Hl3 Hm3 Hh3 Hr3 Hlr3. destruct (decide (state s3 = state s)) as [E3|E3]; [left|by right].
    do 3 wp_step. unfold build_auction_install_rule. do 2 wp_step.
    destruct (is_some (v_sme v) || is_some (v_mhc v)) eqn:Eu.
    { rewrite (response_get_mspec_unexpected r v) by done. right. split; [done|]. split; [|left; split; [done|by rewrite Hr]].
      eapply unexpected_body_anslp; [exact Hr|]. unfold unexpected_objects. by rewrite Hcls, Eg1, Eg2. }
    apply orb_false_iff in Eu as [Eu1 Eu2].
    assert (Hv1 : v_sme v = None) by by destruct (v_sme v).
    assert (Hv2 : v_mhc v = None) by by destruct (v_mhc v).
    rewrite (response_get_mspec_view r v) by done. do 4 wp_step. wp_step.
    - wp_step. split.
      + split_and!; cbn; rewrite ?Hm3, ?Hh3, ?Hr3, ?Hlr3; try done. eauto.
      + rewrite Hst. by eapply ni_answered.
    - split; [by eexists|]. exact E3. }
  destruct (response_get_session_lifetime r =? lifetime s2)%Z; cbn [negb].
  - do 2 wp_step. cbn beta iota. destruct (Hgo s2) as [G|G]; done.
  - do 4 wp_step. cbn beta iota. destruct (Hgo (cal_refresh_interval (set_lifetime (response_get_session_lifetime r) s2)))
      as [G|G]; done.
Qed.

Lemma ni_pending_ok s w evt :
  ni_wf s -> event_valid evt -> state s = STATE_ANSLP_PENDING ->
  wp (handle_state_pending evt) (ni_ok s evt) (s, w).
Proof.
  intros Hwf Hv Hst. pose proof Hwf as (Hl & Hm & Hh & Hlr & Hi). rewrite Hst in Hi.
  destruct Hi as (Hr & n & Hn & Hc). unfold handle_state_pending. do 2 wp_step.
  destruct (is_timer_of evt (response_timer s)) eqn:E1.
  { apply pending_timeout_ok; try done. by destruct evt. }
  destruct (is_no_next_node_found_event evt) eqn:E2.
  { wp_step. split; [by split_and!|]. rewrite Hst. apply ni_pending_ends. auto. }
  destruct (is_api_teardown evt) eqn:E3.
  { do 5 wp_step. apply wp_send_final_refresh; [done|]. intros m w' _ Ht. wp_step.
    split; [split_and!; [done|apply u32_range|done|done|done]|]. rewrite Hst. apply ni_pending_ends. auto. }
  destruct (is_timer evt) eqn:E4.
  { wp_step. split; [split_and!; try done; cbn; eauto|]. rewrite Hst. apply ni_stay. }
  unfold get_last_create_message. do 3 wp_step. rewrite Hn. apply wp_asserted; [|done].
  intros a [= <-]. cbn beta iota. destruct (is_anslp_response evt (Some n)) eqn:E5.
  - destruct (is_anslp_response_msg _ _ E5) as [r Er]. rewrite Er. wp_step. apply wp_deref; [|done].
    intros r' [= <-]. by apply ni_pending_response_ok.
  - wp_step. split; [split_and!; try done; cbn; eauto|]. rewrite Hst. apply ni_stay.
Qed.

(** Giving up in PENDING_INSTALLING: as the rule kept for installation has
    no responses, no rule is removed; the path gets a REFRESH of lifetime 0. *)
Lemma wp_abandon_installing s w Q act :
  is_Some (routing_info s) -> last_auction_install_rule s = Some act -> object_responses act = [] ->
  (forall m w', routing_info s = Some m ->
     trace w' = trace w ++ [Sent (refresh_of (set_lifetime 0 s) m)] ->
     Q (Normal tt) (bump (set_last_create_msg None (set_lifetime 0 s)), w')) ->
  wp abandon_installing Q (s, w).
Proof.
  intros Hr Ha He HQ. unfold abandon_installing. do 6 wp_step. cbn [last_auction_install_rule set_last_create_msg set_lifetime].
  rewrite Ha. wp_step. apply wp_deref; [|done]. intros ? [= <-]. unfold get_number_mspec_response_objects.
  rewrite He. change (0 <? length [])%nat with false. do 2 wp_step. apply wp_send_final_refresh; [done|]. intros m w' Em Ht. by apply (HQ m).
Qed.

Lemma ni_installing_ok s w evt :
  ni_wf s -> event_valid evt -> state s = STATE_ANSLP_PENDING_INSTALLING ->
  wp (handle_state_pending_installing evt) (ni_ok s evt) (s, w).
Proof.
  intros Hwf Hv Hst. pose proof Hwf as (Hl & Hm & Hh & Hlr & Hi). rewrite Hst in Hi.
  destruct Hi as (Hr & act & Ha & He). unfold handle_state_pending_installing. do 2 wp_step.
  destruct (is_timer_of evt (response_timer s)) eqn:E1.
  { assert (Et : is_timer evt = true) by by destruct evt.
    unfold installing_timeout. do 2 wp_step. destruct (create_counter s <? max_retries s)%Z.
    - do 3 wp_step. rewrite Ha. apply wp_deref; [|done]. intros ? [= <-]. do 2 wp_step.
      + wp_step. apply ni_wp_start_response_timer. intros id w2 Ht2. wp_step.
        split; [split_and!; try done; cbn; eauto|]. rewrite Hst. apply ni_stay.
      + split; [by eexists|done].
    - unfold delete_rule. do 3 wp_step. eapply wp_abandon_installing; [done|done|done|].
      intros m w2 Em Ht2. repeat wp_step.
      split; [split_and!; [done|apply u32_range|done|done|done]|]. rewrite Hst. apply ni_installing_ends. auto. }
  destruct (is_api_teardown evt) eqn:E2.
  { wp_step. eapply wp_abandon_installing; [done|done|done|]. intros m w2 Em Ht2. wp_step.
    split; [split_and!; [done|apply u32_range|done|done|done]|]. rewrite Hst. apply ni_installing_ends. auto. }
  destruct (is_timer evt) eqn:E3.
  { wp_step. split; [split_and!; try done; cbn; eauto|]. rewrite Hst. apply ni_stay. }
  destruct (is_api_install evt) eqn:E4.
  2: { wp_step. split; [split_and!; try done; cbn; eauto|]. rewrite Hst. apply ni_stay. }
  destruct evt; try discriminate. cbn [cast_objects]. wp_step. apply wp_deref; [|done].
  intros ? [= <-]. cbn beta iota. unfold installing_install. do 3 wp_step. rewrite Ha.
  apply wp_deref; [|done]. intros ? [= <-]. cbn beta iota.
  destruct (get_number_mspec_request_objects act =? length objs)%nat.
  - unfold delete_rule, stop_response_timer. do 4 wp_step. do 6 wp_step. wp_step.
    apply wp_start_refresh_timer. intros id w2 Ht2. wp_step. split.
    + split_and!; try done; cbn; eauto.
    + rewrite Hst. apply ni_installed.
  - unfold delete_rule. do 3 wp_step. eapply wp_abandon_installing; [done|done|done|].
    intros m w2 Em Ht2. wp_step.
    split; [split_and!; [done|apply u32_range|done|done|done]|]. rewrite Hst. apply ni_installing_ends. auto.
Qed.

Lemma ni_remove_or_close_ok s s1 w evt :
  ni_wf s -> state s = STATE_ANSLP_AUCTIONING -> state s1 = STATE_ANSLP_AUCTIONING ->
  is_u32 (lifetime s1) -> base s1 = base s -> routing_info s1 = routing_info s ->
  last_refresh_msg s1 = last_refresh_msg s -> is_timer evt = true \/ (exists r, get_response evt = Some r) ->
  wp remove_or_close (ni_ok s evt) (s1, w).
Proof.
  intros (Hl & Hm & Hh & Hlr & Hi) Hst Hst1 Hl1 Hb1 Hr1 Hlr1 Hev. rewrite Hst in Hi.
  destruct Hi as (Hr & [r Er] & _). eapply (ni_wp_remove_or_close _ _ _ r); [by rewrite Hb1|..].
  - intros id w' _ _. split; [split_and!; cbn; rewrite ?Hb1, ?Hr1, ?Hlr1; eauto|]. rewrite Hst.
    apply ni_auction_ends; auto.
  - intros e w' _ _. split; [by eexists|]. cbn. congruence.
  - intros _. split; [split_and!; cbn; rewrite ?Hb1, ?Hlr1; done|]. rewrite Hst. apply ni_auction_ends; auto.
Qed.

Lemma auctioning_stays s s1 evt :
  ni_wf s -> state s = STATE_ANSLP_AUCTIONING -> is_u32 (lifetime s1) -> is_u32 (msn (base s1)) ->
  msg_hop_count (base s1) = msg_hop_count (base s) -> rule (base s1) = rule (base s) ->
  routing_info s1 = routing_info s ->
  (forall n, last_refresh_msg s1 = Some n -> holds_msg C_refresh n) ->
  (response_timer s1 <> 0%Z -> is_Some (last_refresh_msg s1)) ->
  ni_wf (set_state STATE_ANSLP_AUCTIONING s1) /\ ni_step (state s) evt STATE_ANSLP_AUCTIONING.
Proof.
  intros (_ & _ & Hh & _ & Hi) Hst Hl1 Hm1 Hh1 Hru1 Hr1 Hlr1 Ht1. rewrite Hst in Hi.
  destruct Hi as (Hr & Hru & _). split; [|rewrite Hst; apply ni_stay].
  split_and!; cbn; rewrite ?Hh1, ?Hru1, ?Hr1; try done; apply Hm1.
Qed.

Lemma auctioning_timers_ok s w evt :
  ni_wf s -> state s = STATE_ANSLP_AUCTIONING -> is_timer evt = true ->
  wp auctioning_refresh_timer (ni_ok s evt) (s, w)
  /\ (response_timer s <> 0%Z -> wp auctioning_timeout (ni_ok s evt) (s, w)).
Proof.
  intros Hwf Hst Et. pose proof Hwf as (Hl & Hm & Hh & Hlr & Hi). rewrite Hst in Hi.
  destruct Hi as (Hr & Hru & Hrt). split.
  - unfold auctioning_refresh_timer. wp_step. apply wp_build_refresh; [done|]. intros m Em. do 3 wp_step.
    eapply wp_send_last_refresh; [done|by apply refresh_of_holds|]. intros w2 Ht2. do 3 wp_step.
    apply ni_wp_start_response_timer. intros id w3 Ht3. wp_step.
    apply (auctioning_stays s); cbn; try done; try apply u32_range; try by eexists.
    all: intros n [= <-]; by apply refresh_of_holds.
  - intros Hrun. destruct (Hrt Hrun) as [n Hn]. unfold auctioning_timeout. do 2 wp_step.
    destruct (refresh_counter s <? max_retries s)%Z.
    + do 3 wp_step. eapply wp_send_last_refresh; [done|by apply Hlr|]. intros w2 Ht2. wp_step.
      apply ni_wp_start_response_timer. intros id w3 Ht3. wp_step.
      apply (auctioning_stays s); cbn; try done; try by eexists.
    + do 4 wp_step. apply ni_remove_or_close_ok; auto.
Qed.

Lemma ni_auctioning_response_ok s w evt n r :
  ni_wf s -> state s = STATE_ANSLP_AUCTIONING -> last_refresh_msg s = Some n ->
  get_response evt = Some r -> wp (auctioning_response r) (ni_ok s evt) (s, w).
Proof.
  intros Hwf Hst Hn Hr. pose proof Hwf as (Hl & Hm & Hh & Hlr & Hi). rewrite Hst in Hi.
  destruct Hi as (Hri & Hru & Hrt). pose proof (Hlr n Hn) as Hc.
  destruct (holds_msg_get _ _ Hc) as (c & vc & Hgc & Hvc).
  unfold auctioning_response, get_last_refresh_message. do 3 wp_step. rewrite Hn.
  apply wp_asserted; [|done]. intros a [= <-]. wp_step.
  unfold get_anslp_refresh. rewrite Hgc. apply wp_deref; [|done]. intros ? [= <-]. cbn beta iota.
  destruct (is_response_to_refresh r c); cbn [negb].
  2: { wp_step. by apply (auctioning_stays s). }
  destruct (response_is_success r).
  - do 4 wp_step. cbn beta iota. destruct (lifetime s =? 0)%Z; unfold stop_response_timer.
    + do 4 wp_step. apply ni_remove_or_close_ok; eauto.
    + do 3 wp_step. apply wp_start_refresh_timer. intros id w2 Ht2. repeat wp_step.
      by apply (auctioning_stays s).
  - do 4 wp_step. apply ni_remove_or_close_ok; eauto.
Qed.

Lemma ni_auctioning_ok s w evt :
  ni_wf s -> event_valid evt -> state s = STATE_ANSLP_AUCTIONING ->
  wp (handle_state_auctioning evt) (ni_ok s evt) (s, w).
Proof.
  intros Hwf Hv Hst. pose proof Hwf as (Hl & Hm & Hh & Hlr & Hi). rewrite Hst in Hi.
  destruct Hi as (Hr & Hru & Hrt). unfold handle_state_auctioning. do 2 wp_step.
  destruct (is_api_install evt) eqn:E1; [wp_step; by apply (auctioning_stays s)|].
  destruct (is_timer_of evt (refresh_timer s)) eqn:E2.
  { apply auctioning_timers_ok; try done. by destruct evt. }
  destruct (is_timer_of evt (response_timer s)) eqn:E3.
  { apply auctioning_timers_ok; try done; destruct evt; try done. cbn in Hv, E3. apply Z.eqb_eq in E3. congruence. }
  destruct (is_api_teardown evt) eqn:E4.
  { unfold auctioning_teardown. do 3 wp_step. apply wp_build_refresh; [done|]. intros m Em. do 3 wp_step.
    eapply wp_send_last_refresh; [done|by apply refresh_of_holds|]. intros w2 Ht2. wp_step.
    apply (auctioning_stays s); cbn; try done; try apply u32_range; try by eexists.
    all: intros n [= <-]; by apply refresh_of_holds. }
  destruct (is_api_bidding evt) eqn:E5.
  { wp_step. apply ni_wp_send_bidding; [done|done|]. intros n w2 Ht2. wp_step.
    apply (auctioning_stays s); cbn; try done. apply u32_range. }
  destruct (is_anslp_bidding evt) eqn:E6.
  { wp_step. apply wp_post_bidding; [done|done| |by intros Hu; apply ni_bidding_fault; auto].
    intros w2 Ht2. wp_step. by apply (auctioning_stays s). }
  destruct (is_timer evt) eqn:E7; [wp_step; by apply (auctioning_stays s)|].
  unfold get_last_refresh_message. do 3 wp_step. apply wp_asserted.
  - intros n Hn. cbn beta iota. destruct (is_anslp_response evt (Some n)) eqn:E8.
    + destruct (is_anslp_response_msg _ _ E8) as [r Er]. rewrite Er. wp_step. apply wp_deref; [|done].
      intros r' [= <-]. by eapply ni_auctioning_response_ok.
    + wp_step. by apply (auctioning_stays s).
  - intros Hn. left. split; [done|]. right. split; [done|]. split; [done|].
    unfold expected_auctioning. by rewrite E1, E7, E4, E5, E6.
Qed.

Lemma ni_teardown_ok s w evt :
  ni_wf s -> event_valid evt -> state s = STATE_ANSLP_PENDING_TEARDOWN ->
  wp (handle_state_pending_teardown evt) (ni_ok s evt) (s, w).
Proof.
  intros Hwf Hv Hst. pose proof Hwf as (Hl & Hm & Hh & Hlr & Hi). rewrite Hst in Hi.
  destruct Hi as (Hr & [ru Hru]). unfold handle_state_pending_teardown. do 2 wp_step.
  assert (Hstay : ni_wf (set_state STATE_ANSLP_PENDING_TEARDOWN s)
                  /\ ni_step (state s) evt STATE_ANSLP_PENDING_TEARDOWN).
  { split; [split_and!; cbn; eauto|rewrite Hst; apply ni_stay]. }
  destruct (is_anslp_refresh evt); [by wp_step|].
  destruct (is_api_bidding evt) eqn:E1.
  { wp_step. apply ni_wp_send_bidding; [done|done|]. intros n w2 Ht2. wp_step.
    split; [split_and!; try done; cbn; eauto; apply u32_range|apply Hstay]. }
  destruct (is_anslp_bidding evt) eqn:E2.
  { wp_step. apply wp_post_bidding; [done|done| |by intros Hu; apply ni_bidding_fault; auto]. intros w2 Ht2. by wp_step. }
  destruct (is_timer_of evt (response_timer s)) eqn:E3.
  { assert (Et : is_timer evt = true) by by destruct evt.
    unfold teardown_timeout. do 2 wp_step. destruct (teardown_counter s <? max_retries s)%Z.
    - do 3 wp_step. rewrite Hru. wp_step.
      + wp_step. apply ni_wp_start_response_timer. intros id w2 Ht2. wp_step.
        split; [split_and!; try done; cbn; eauto|apply Hstay].
      + split; [by eexists|done].
    - wp_step. split; [by split_and!|]. rewrite Hst. apply ni_torn_down. auto. }
  destruct (is_route_changed_bad_event evt); [by wp_step|].
  destruct (is_timer evt); [by wp_step|].
  destruct (is_api_remove evt) eqn:E4; [|by wp_step].
  unfold stop_response_timer. repeat wp_step. split; [by split_and!|].
  rewrite Hst. apply ni_torn_down. auto.
Qed.

Lemma handle_event_ok s w evt :
  ni_wf s -> event_valid evt -> wp (handle_event evt) (ni_ok s evt) (s, w).
Proof.
  intros Hwf Hv. unfold handle_event. do 2 wp_step. cbn beta iota.
  destruct (state s) eqn:Hst; [by apply ni_close_ok|by apply ni_pending_ok|by apply ni_installing_ok
                              |by apply ni_auctioning_ok|by apply ni_teardown_ok].
Qed.


(** Only the rule installer's exceptions leave a handler. *)
Definition ni_thrown (s : ni_session) (evt : event) (e : exn) : Prop := exists ie, e = Installer_error ie.

Lemma ni_process_event_ok : refines_step (process_event (W := W)) state event_valid ni_wf ni_step ni_thrown ni_fault.
Proof.
  intros s w evt Hwf Hv. pose proof (handle_event_ok s w evt Hwf Hv) as Hh. unfold wp in Hh.
  unfold process_event, bind. by destruct (handle_event evt (s, w)) as [[st|e|f] [s1 w1]].
Qed.

(** C11. The initiator refines its protocol.  Whatever valid events a session
    that satisfies the invariant is given, and whatever the dispatcher
    answers, the session follows the abstract transition relation [ni_step],
    keeps its invariant, and can only be interrupted by an exception of the
    rule installer or by one of the faults [ni_fault] names. *)
Theorem ni_refines_protocol (evts : list event) (s : ni_session) (w : W)
  (Hwf : ni_wf s) (Hv : Forall event_valid evts) :
  refines_run process_event state ni_wf ni_step ni_thrown ni_fault evts s w.
Proof. eapply run_refines; [exact ni_process_event_ok|done..]. Qed.

(** In AUCTIONING, before the first REFRESH was sent, any event that is
    not an installation, a timer, a teardown or a bidding - a repeated
    RESPONSE of the path to the CREATE, for example - aborts the daemon: the
    session asks for its last REFRESH message, which it asserts to exist. *)
Theorem ni_auctioning_assertion (s : ni_session) (w : W) (evt : event)
  (Hst : state s = STATE_ANSLP_AUCTIONING) (Hnone : last_refresh_msg s = None)
  (Hev : expected_auctioning evt = false) :
  process_event evt (s, w) = (Faulted Assertion_failed, (s, w)).
Proof.
  unfold expected_auctioning in Hev. rewrite !orb_false_iff in Hev. destruct Hev as ((((E1 & E2) & E3) & E4) & E5).
  assert (E6 : forall t, is_timer_of evt t = false) by by destruct evt.
  unfold process_event, handle_event, bind, the. rewrite Hst.
  unfold handle_state_auctioning, get_last_refresh_message, bind, the.
  by rewrite E1, !E6, E3, E4, E5, E2, Hnone.
Qed.

(** What a request makes a fresh session do. *)
Lemma create_request_run (s : ni_session) (w : W) (e : api_create_data) (q : queue)
  (Hwf : ni_wf s) (Hst : state s = STATE_ANSLP_CLOSE) (Hv : event_valid (Api_create_event e))
  (Hq : ac_return_queue e = Some q) (Hr : (0 < interval_of s e)%Z) :
  exists n b os s' w' id t,
    process_event (Api_create_event e) (s, w) = (Normal tt, (s', w'))
    /\ state s' = STATE_ANSLP_PENDING
    /\ trace w' = trace w ++ [Sent n; Timer_started (sid (base s)) t id;
                              Enqueued q (AddAnslpSessionEvent (ac_session_id e) (own_id s))]
    /\ get_session_id n = sid (base s) /\ get_mri n = flow_mri (ac_addr e)
    /\ get_anslp_create n = Some b
    /\ msg_view b (create_view (msg_hop_count (base s)) (ac_sel_auct_entities e) (u32 (msn (base s) + 1))
                     (Z.min (effective_lifetime s e) (ac_lifetime e)) (map snd (ac_objects e)))
    /\ wire_form C_create (create_view (msg_hop_count (base s)) (ac_sel_auct_entities e)
          (u32 (msn (base s) + 1)) (Z.min (effective_lifetime s e) (ac_lifetime e)) (map snd (ac_objects e))) os
    /\ last_create_msg s' = Some n.
Proof.
  pose proof Hwf as (Hl & Hm & Hh & _). destruct Hv as (Ho & Hel & Hse).
  destruct (objs_wf_copies _ Ho) as (Em & Hmo & Hln).
  assert (Hrun : wp (handle_event (Api_create_event e)) (fun o sw => exists k w1 w' id,
    o = Normal STATE_ANSLP_PENDING
    /\ trace w1 = trace w
    /\ sw = (set_response_timer id (set_last_create_msg (Some (create_of (prepared s e k) e
               (map snd (ac_objects e)) (flow_mri (ac_addr e)))) (bump (prepared s e k))), w')
    /\ trace w' = trace w ++ [Sent (create_of (prepared s e k) e (map snd (ac_objects e)) (flow_mri (ac_addr e)));
         Timer_started (sid (base s)) (int32 (response_timeout (prepared s e k))) id;
         Enqueued q (AddAnslpSessionEvent (ac_session_id e) (own_id s))]) (s, w)).
  { unfold handle_event. do 2 wp_step. cbn beta iota. rewrite Hst. unfold handle_state_close. cbn [cast_create].
    wp_step. apply wp_setup_session; [lia|]. intros _ k w1 Ht1. wp_step.
    eapply wp_eq; [by apply build_create_eq|]. rewrite Em. do 3 wp_step.
    eapply wp_send_last_create; [done|apply create_of_holds; try done|].
    { cbn. unfold effective_lifetime. by case_match. }
    intros w2 Ht2. wp_step. apply ni_wp_start_response_timer. intros id w3 Ht3. cbn beta iota. rewrite Hq.
    repeat wp_step. exists k, w1. eexists _, id. split_and!; [done|done|done|]. trace_eq. }
  unfold wp in Hrun. destruct (handle_event _ _) as [o sw] eqn:E.
  destruct Hrun as (k & w1 & w' & id & Ho' & Ht1 & Hsw & Ht). cbn in Ho', Hsw. subst o sw.
  set (n := create_of (prepared s e k) e (map snd (ac_objects e)) (flow_mri (ac_addr e))) in *.
  assert (Hl' : is_u32 (lifetime (prepared s e k))) by (cbn; unfold effective_lifetime; by case_match).
  destruct (create_of_view (prepared s e k) e (map snd (ac_objects e)) (flow_mri (ac_addr e)))
    as (b & Hb & Hc & Hview); try done.
  exists n, b. eexists _, _, w', id, _. split_and!;
    [by unfold process_event, bind; rewrite E|done|exact Ht|done|done| |exact Hview|constructor|done].
  unfold get_anslp_create, get_anslp. fold n in Hb. by rewrite Hb, decide_True.
Qed.

(** C23. The CREATE the initiator opens a session with.  A request with a
    positive refresh interval and a return queue makes a fresh session send
    exactly one message: a CREATE of this session, on the path of the
    requested flow, with the next sequence number, the requested lifetime
    (the session's own if none was requested, and never more than the
    requested one), the requested selection of entities, the configured hop
    count and the requested MSPEC objects in the order of their keys - a
    message [anslp_create::serialize] accepts.  The session keeps it, the
    response timer runs, the user gets the session ID, and the session is
    PENDING. *)
Theorem ni_create_request (s : ni_session) (w : W) (e : api_create_data) (q : queue)
  (Hwf : ni_wf s) (Hst : state s = STATE_ANSLP_CLOSE) (Hv : event_valid (Api_create_event e))
  (Hq : ac_return_queue e = Some q) (Hr : (0 < interval_of s e)%Z) :
  exists n b os s' w' id t,
    process_event (Api_create_event e) (s, w) = (Normal tt, (s', w'))
    /\ state s' = STATE_ANSLP_PENDING
    /\ trace w' = trace w ++ [Sent n; Timer_started (sid (base s)) t id;
                              Enqueued q (AddAnslpSessionEvent (ac_session_id e) (own_id s))]
    /\ get_session_id n = sid (base s) /\ get_mri n = flow_mri (ac_addr e)
    /\ get_anslp_create n = Some b
    /\ msg_view b (create_view (msg_hop_count (base s)) (ac_sel_auct_entities e) (u32 (msn (base s) + 1))
                     (Z.min (effective_lifetime s e) (ac_lifetime e)) (map snd (ac_objects e)))
    /\ wire_form C_create (create_view (msg_hop_count (base s)) (ac_sel_auct_entities e)
          (u32 (msn (base s) + 1)) (Z.min (effective_lifetime s e) (ac_lifetime e)) (map snd (ac_objects e))) os
    /\ last_create_msg s' = Some n.
Proof. exact (create_request_run s w e q Hwf Hst Hv Hq Hr). Qed.

(** A request for a session of lifetime 0 on a session without a
    lifetime of its own - every new session, with the default of three
    retries - makes [setup_session] compute a refresh interval of 0 and
    abort in its assertion. *)
Theorem ni_zero_lifetime_aborts (s : ni_session) (w : W) (e : api_create_data)
  (Hst : state s = STATE_ANSLP_CLOSE) (Hl : lifetime s = 0%Z) (He : ac_lifetime e = 0%Z)
  (Hm : max_retries s = 3%Z) :
  fst (process_event (Api_create_event e) (s, w)) = Faulted Assertion_failed.
Proof.
  unfold process_event, handle_event, bind, the. rewrite Hst. unfold handle_state_close. cbn [cast_create].
  unfold setup_session, bind, the, update, ret. rewrite He. cbn [Z.eqb negb].
  cbn [lifetime max_retries set_routing_info]. rewrite Hl, Hm. done.
Qed.

(** ** Timeouts. *)

(** The messages a trace sends. *)
Definition sends (tr : list effect) : list ntlp_msg :=
  omap (fun e => match e with Sent n => Some n | _ => None end) tr.

(** [n] expiries of the response timer in a row. *)
Fixpoint ni_timeouts (n : nat) s w : outcome unit * (ni_session * W) :=
  match n with
  | O => (Normal tt, (s, w))
  | S n =>
      match process_event (Timer_event (response_timer s)) (s, w) with
      | (Normal _, (s', w')) => ni_timeouts n s' w'
      | r => r
      end
  end.

Lemma pending_timeout_step s w n :
  state s = STATE_ANSLP_PENDING -> last_create_msg s = Some n -> holds_msg C_create n ->
  is_u32 (create_counter s) -> is_u32 (max_retries s) ->
  exists s' w', process_event (Timer_event (response_timer s)) (s, w) = (Normal tt, (s', w'))
    /\ last_create_msg s' = last_create_msg s /\ max_retries s' = max_retries s
    /\ (if (create_counter s <? max_retries s)%Z
       then state s' = STATE_ANSLP_PENDING /\ create_counter s' = (create_counter s + 1)%Z
            /\ sends (trace w') = sends (trace w) ++ [n]
       else state s' = STATE_ANSLP_CLOSE /\ sends (trace w') = sends (trace w)).
Proof.
  intros Hst Hn Hc Hcc Hmr.
  assert (Hrun : wp (handle_event (Timer_event (response_timer s))) (fun o sw =>
    exists st, o = Normal st /\ last_create_msg (fst sw) = last_create_msg s
      /\ max_retries (fst sw) = max_retries s
      /\ (if (create_counter s <? max_retries s)%Z
         then st = STATE_ANSLP_PENDING /\ create_counter (fst sw) = (create_counter s + 1)%Z
              /\ sends (trace (snd sw)) = sends (trace w) ++ [n]
         else st = STATE_ANSLP_CLOSE /\ sends (trace (snd sw)) = sends (trace w))) (s, w)).
  { unfold handle_event. do 2 wp_step. cbn beta iota. rewrite Hst. unfold handle_state_pending. do 2 wp_step.
    cbn [is_timer_of]. rewrite Z.eqb_refl. unfold pending_timeout. do 2 wp_step. cbn beta iota.
    destruct (Z.ltb_spec (create_counter s) (max_retries s)).
    - do 3 wp_step. eapply wp_send_last_create; [done|exact Hc|]. intros w2 Ht2. wp_step.
      apply ni_wp_start_response_timer. intros id w3 Ht3. wp_step. eexists. split_and!; [done..| |].
      + cbn. rewrite u32_small; [done|]. unfold is_u32 in *. lia.
      + cbn. unfold sends. rewrite Ht3, Ht2, !omap_app. cbn. by rewrite app_nil_r.
    - do 3 wp_step. eexists. split_and!; [done..|]. cbn. unfold sends.
      match goal with E : trace ?w' = _ |- context [trace ?w'] => rewrite E end.
      rewrite omap_app. cbn. by rewrite app_nil_r. }
  unfold wp in Hrun. unfold process_event, bind.
  destruct (handle_event _ _) as [o [s1 w1]]. destruct Hrun as (st & Ho & Hlc & Hmx & Hif).
  cbn in Ho, Hlc, Hmx, Hif. subst o. exists (set_state st s1), w1.
  split_and!; [done|done|done|]. by destruct (create_counter s <? max_retries s)%Z.
Qed.

(** C28. An unanswered CREATE is retransmitted exactly [max_retries] times
    (counting those the session already made), each time the same message;
    the next timeout ends the session, and until then it stays PENDING. *)
Theorem ni_pending_retransmission (s : ni_session) (w : W) (n : ntlp_msg) (k : nat)
  (Hwf : ni_wf s) (Hst : state s = STATE_ANSLP_PENDING) (Hn : last_create_msg s = Some n)
  (Hc : is_u32 (create_counter s)) (Hm : is_u32 (max_retries s))
  (Hk : Z.of_nat k = (max_retries s - create_counter s)%Z) :
  (exists s' w', ni_timeouts k s w = (Normal tt, (s', w')) /\ state s' = STATE_ANSLP_PENDING
     /\ sends (trace w') = sends (trace w) ++ replicate k n)
  /\ (exists s' w', ni_timeouts (S k) s w = (Normal tt, (s', w')) /\ is_final s' = true
       /\ sends (trace w') = sends (trace w) ++ replicate k n).
Proof.
  destruct Hwf as (_ & _ & _ & _ & Hi). rewrite Hst in Hi. destruct Hi as (_ & n' & Hn' & Hh).
  assert (n' = n) as -> by congruence. clear Hn'. revert s w Hst Hn Hc Hm Hk.
  induction k as [|k IH]; intros s w Hst Hn Hc Hm Hk;
    destruct (pending_timeout_step s w n Hst Hn Hh Hc Hm) as (s1 & w1 & E & Hlc & Hmx & Hif).
  - assert ((create_counter s <? max_retries s)%Z = false) as Elt by (apply Z.ltb_ge; lia).
    rewrite Elt in Hif. destruct Hif as [Hs1 Hs2]. split.
    + exists s, w. cbn. by rewrite app_nil_r.
    + exists s1, w1. cbn [ni_timeouts]. rewrite E. unfold is_final. rewrite Hs1.
      split_and!; [done|done|]. cbn. by rewrite app_nil_r.
  - assert ((create_counter s <? max_retries s)%Z = true) as Elt by (apply Z.ltb_lt; lia).
    rewrite Elt in Hif. destruct Hif as (Hs1 & Hc1 & Hs2).
    destruct (IH s1 w1) as [(s2 & w2 & R2 & P2 & T2) (s3 & w3 & R3 & P3 & T3)]; try done.
    { congruence. } { unfold is_u32 in *; lia. } { by rewrite Hmx. } { lia. }
    split.
    + exists s2, w2. cbn [ni_timeouts]. rewrite E. split_and!; [done|done|].
      rewrite T2, Hs2, <- app_assoc. done.
    + exists s3, w3. cbn [ni_timeouts]. rewrite E. split_and!; [done|done|].
      rewrite T3, Hs2, <- app_assoc. done.
Qed.

(** The RESPONSE that grants a session: a success that answers the CREATE,
    with the granted lifetime and the objects that were installed. *)
Lemma create_answered_run (s : ni_session) (w : W) (nm n : ntlp_msg) (b : bool) (r c : anslp_msg) (v : view)
  (Hst : state s = STATE_ANSLP_PENDING) (Hn : last_create_msg s = Some n) (Hc : get_anslp_create n = Some c)
  (Hmsn : has_msg_sequence_number c = true) (Hr : get_response (Msg_event nm b) = Some r) (Hv : msg_view r v)
  (Hr1 : has_msg_sequence_number r = true) (Hrc : is_response_to_create r c = true) (Hs : response_is_success r = true)
  (Hv1 : v_sme v = None) (Hv2 : v_mhc v = None) :
  wp (process_event (Msg_event nm b)) (fun o sw => exists es, trace (snd sw) = trace w ++ es
    /\ Forall (fun e => match e with Sent _ => False | _ => True end) es
    /\ ((o = Normal tt /\ state (fst sw) = STATE_ANSLP_PENDING_INSTALLING
         /\ lifetime (fst sw) = response_get_session_lifetime r
         /\ exists ks, length ks = length (v_ipap v)
              /\ last_auction_install_rule (fst sw) = Some (mk_rule (with_entries ks (v_ipap v) []) []))
        \/ exists e act w1, o = Raised (Installer_error e)
             /\ fst (send_response (own_id s) (Some act) w1) = Raised (Installer_error e))) (s, w).
Proof.
  assert (Hm : get_anslp_msg n = Some c).
  { unfold get_anslp_create, get_anslp in Hc. destruct (get_anslp_msg n) as [x|]; [|done]. case_decide; [|done]. by injection Hc as ->. }
  assert (Hsame : (msn_of c =? response_get_msg_sequence_number r)%Z = true).
  { unfold is_response_to_create in Hrc. by rewrite Z.eqb_sym. }
  unfold process_event, handle_event. do 3 wp_step. cbn beta iota. rewrite Hst. unfold handle_state_pending.
  do 2 wp_step. cbn [is_timer_of is_no_next_node_found_event is_api_teardown is_timer].
  unfold get_last_create_message. do 3 wp_step. rewrite Hn. apply wp_asserted; [|done]. intros ? [= <-]. cbn beta iota.
  rewrite (is_anslp_response_to _ n c r Hm Hmsn Hr), Hr1, Hsame. cbn [andb]. rewrite Hr. wp_step.
  apply wp_deref; [|done]. intros ? [= <-]. unfold pending_response, get_last_create_message.
  do 3 wp_step. rewrite Hn. apply wp_asserted; [|done]. intros ? [= <-]. wp_step. rewrite Hc.
  apply wp_deref; [|done]. intros ? [= <-]. cbn beta iota. rewrite Hrc, Hs. cbn [negb].
  do 3 wp_step. apply ni_wp_start_response_timer. intros id w2 Ht2. do 2 wp_step.
  set (s2 := set_response_timer id s). set (lt := response_get_session_lifetime r).
  assert (Hgo : forall s3, state s3 = STATE_ANSLP_PENDING -> lifetime s3 = lt ->
    wp (update (set_create_counter 0) ;;;
        act <- build_auction_install_rule r ;;
        update (set_last_auction_install_rule (Some act)) ;;;
        outside (send_response (own_id s2) (Some (rule_copy act))) ;;;
        ret STATE_ANSLP_PENDING_INSTALLING) (fun o sw => exists es, trace (snd sw) = trace w2 ++ es
          /\ Forall (fun e => match e with Sent _ => False | _ => True end) es
          /\ ((o = Normal STATE_ANSLP_PENDING_INSTALLING /\ lifetime (fst sw) = lt
               /\ exists ks, length ks = length (v_ipap v)
                    /\ last_auction_install_rule (fst sw) = Some (mk_rule (with_entries ks (v_ipap v) []) []))
              \/ exists e act w1, o = Raised (Installer_error e)
                   /\ fst (send_response (own_id s) (Some act) w1) = Raised (Installer_error e))) (s3, w2)).
  { intros s3 Hs3 Hl3. do 3 wp_step. unfold build_auction_install_rule. do 2 wp_step.
    rewrite (response_get_mspec_view r v) by done. apply wp_add_requests_exact. intros ks w3 Hks Ht3. do 3 wp_step.
    eapply wp_may_throw_known; [apply respond_does|intros [] w4 Ht4|intros e w4 He Ht4].
    - wp_step. exists [Response_put (own_id s2) (rule_copy (mk_rule (with_entries ks (v_ipap v) []) []))]. cbn [snd].
      rewrite Ht3 in Ht4.
      split; [exact Ht4|]. split; [by repeat constructor|]. left. split_and!; [done|done|]. by exists ks.
    - exists []. cbn [snd]. split; [rewrite app_nil_r; congruence|]. split; [constructor|]. right.
      eexists e, _, w3. split; [done|exact He]. }
  wp_step. destruct (lt =? lifetime s2)%Z eqn:El; cbn [negb]; [wp_step; apply Z.eqb_eq in El|do 3 wp_step]; cbn beta iota;
    (eapply wp_mono; [by apply Hgo|]); intros o [s4 w4] (es & Ht & Hf & [(-> & Hl & Hks)|(e & act & w5 & -> & He)]); cbn [fst snd] in *.
  all: assert (Ht4 : trace w4 = trace w ++ [Reported "CREATE session initiated"; Timer_started (sid (base s)) (int32 (response_timeout s)) id] ++ es)
    by (rewrite Ht; trace_eq).
  all: match goal with |- wp (update _) _ _ => wp_step | _ => idtac end.
  all: eexists; split; [exact Ht4|]; split; [by repeat constructor|]; first [by left|right; by exists e, act, w5].
Qed.

(** The refresh timer and the user's teardown: one REFRESH goes out, with
    the next number, and the session keeps it. *)
Lemma refresh_sent_run (s : ni_session) (w : W) (evt : event) (Q : outcome unit -> ni_session * W -> Prop)
  (Hwf : ni_wf s) (Hst : state s = STATE_ANSLP_AUCTIONING)
  (Hevt : is_timer_of evt (refresh_timer s) = true \/ evt = Api_teardown_event)
  (HQ : forall route body s' w' es, let lt := if is_api_teardown evt then 0%Z else lifetime s in
     routing_info s = Some route -> refreshes (u32 (msn (base s) + 1)) lt body ->
     state s' = STATE_ANSLP_AUCTIONING -> lifetime s' = lt -> rule (base s') = rule (base s) ->
     last_refresh_msg s' = Some (mk_ntlp_msg (sid (base s)) (Some body) route 0) ->
     trace w' = trace w ++ Sent (mk_ntlp_msg (sid (base s)) (Some body) route 0) :: es ->
     Forall (fun e => match e with Sent _ => False | _ => True end) es -> Q (Normal tt) (s', w')) :
  wp (process_event evt) Q (s, w).
Proof.
  pose proof Hwf as (Hl & Hm & _ & _ & Hi). rewrite Hst in Hi. destruct Hi as (Hr & _ & _).
  unfold process_event, handle_event. do 3 wp_step. cbn beta iota. rewrite Hst. unfold handle_state_auctioning. do 2 wp_step.
  destruct Hevt as [Ht| ->].
  - assert (En : is_api_install evt = false /\ is_api_teardown evt = false) by by destruct evt.
    destruct En as [-> Etd]. rewrite Ht. unfold auctioning_refresh_timer. rewrite Etd in HQ. cbv zeta iota in HQ.
    wp_step. apply wp_build_refresh; [done|]. intros m Em. do 3 wp_step.
    eapply wp_send_last_refresh; [done|by apply refresh_of_holds|]. intros w2 Ht2. do 3 wp_step.
    apply ni_wp_start_response_timer. intros id w3 Ht3. wp_step.
    eapply HQ with (es := [Timer_started (sid (base s)) (int32 (response_timeout s)) id]);
      [exact Em|apply refresh_built; [apply u32_range|done]|done..| |by repeat constructor].
    trace_eq.
  - cbn [is_api_install is_timer_of is_api_teardown]. unfold auctioning_teardown. cbn [is_api_teardown] in HQ. cbv zeta iota in HQ.
    do 3 wp_step. apply wp_build_refresh; [done|]. intros m Em. do 3 wp_step.
    eapply wp_send_last_refresh; [done|by apply refresh_of_holds|]. intros w2 Ht2. wp_step.
    eapply HQ; [exact Em|apply refresh_built; [apply u32_range|done]|done..|constructor].
Qed.

(** The RESPONSE that answers the last REFRESH: the session waits for the
    next refresh or, if the REFRESH was the final one, ends. *)
Lemma refresh_answered_run (s : ni_session) (w : W) (nm n : ntlp_msg) (b : bool) (r m : anslp_msg) (ru : auction_rule)
  (Q : outcome unit -> ni_session * W -> Prop)
  (Hst : state s = STATE_ANSLP_AUCTIONING) (Hn : last_refresh_msg s = Some n) (Hg : get_anslp_refresh n = Some m)
  (Hmsn : has_msg_sequence_number m = true) (Hr : get_response (Msg_event nm b) = Some r)
  (Hr1 : has_msg_sequence_number r = true) (Hrt : is_response_to_refresh r m = true)
  (Hs : response_is_success r = true) (Hru : rule (base s) = Some ru) :
  let told := Reported "REFRESH successful" in
  (lifetime s <> 0%Z -> forall id s' w', state s' = STATE_ANSLP_AUCTIONING -> refresh_timer s' = id -> response_timer s' = 0%Z ->
     lifetime s' = lifetime s ->
     trace w' = trace w ++ [told; Timer_started (sid (base s)) (int32 (refresh_interval s)) id] -> Q (Normal tt) (s', w')) ->
  (lifetime s = 0%Z -> object_responses ru <> [] -> forall id t s' w', state s' = STATE_ANSLP_PENDING_TEARDOWN -> teardown_counter s' = 0%Z ->
     trace w' = trace w ++ [told; Rules_removed (own_id s) ru; Timer_started (sid (base s)) t id] -> Q (Normal tt) (s', w')) ->
  (lifetime s = 0%Z -> object_responses ru <> [] -> forall e s' w1 w',
     fst (remove_auction_rules (own_id s) (Some ru) w1) = Raised (Installer_error e) -> state s' = STATE_ANSLP_AUCTIONING ->
     trace w' = trace w ++ [told] -> Q (Raised (Installer_error e)) (s', w')) ->
  (lifetime s = 0%Z -> object_responses ru = [] -> forall s' w', state s' = STATE_ANSLP_CLOSE ->
     trace w' = trace w ++ [told] -> Q (Normal tt) (s', w')) ->
  wp (process_event (Msg_event nm b)) Q (s, w).
Proof.
  intros told HG HT HE HC.
  assert (Hm : get_anslp_msg n = Some m).
  { unfold get_anslp_refresh, get_anslp in Hg. destruct (get_anslp_msg n) as [x|]; [|done]. case_decide; [|done]. by injection Hg as ->. }
  assert (Hnb : is_anslp_bidding (Msg_event nm b) = false).
  { unfold is_anslp_bidding, get_bidding, get_response, ev_anslp, get_anslp in *. cbn [ev_msg] in *.
    destruct (get_anslp_msg nm) as [m0|]; [|done]. case_decide as Hd; [|done]. unfold is_some. case_decide; congruence. }
  assert (Hr2 : (msn_of m =? response_get_msg_sequence_number r)%Z = true).
  { unfold is_response_to_refresh in Hrt. by rewrite Z.eqb_sym. }
  unfold process_event, handle_event. do 3 wp_step. cbn beta iota. rewrite Hst. unfold handle_state_auctioning.
  do 2 wp_step. cbn [is_api_install is_timer_of is_api_teardown is_api_bidding is_timer]. rewrite Hnb.
  unfold get_last_refresh_message. do 3 wp_step. rewrite Hn. apply wp_asserted; [|done]. intros ? [= <-].
  cbn beta iota. rewrite (is_anslp_response_to _ n m r Hm Hmsn Hr), Hr1, Hr2. cbn [andb]. rewrite Hr. wp_step.
  apply wp_deref; [|done]. intros ? [= <-]. unfold auctioning_response, get_last_refresh_message.
  do 3 wp_step. rewrite Hn. apply wp_asserted; [|done]. intros ? [= <-]. wp_step. rewrite Hg.
  apply wp_deref; [|done]. intros ? [= <-]. cbn beta iota. rewrite Hrt, Hs. cbn [negb].
  do 4 wp_step. cbn beta iota. unfold stop_response_timer. destruct (Z.eqb_spec (lifetime s) 0) as [E|E].
  - do 4 wp_step. apply (ni_wp_remove_or_close_known _ _ _ ru); [done|..].
    + intros id w3 Hlr Ht3. wp_step. eapply (HT E ltac:(intros En; rewrite En in Hlr; cbn in Hlr; lia) id); [done|done|]. cbn [snd]. trace_eq.
    + intros e w1 w3 Hlr He Ht3. eapply (HE E ltac:(intros En; rewrite En in Hlr; cbn in Hlr; lia) e); [exact He|done|]. cbn [snd]. trace_eq.
    + intros Hnil. wp_step. apply (HC E Hnil); [done|]. cbn [snd]. trace_eq.
  - do 3 wp_step. apply wp_start_refresh_timer. intros id w3 Ht3. do 4 wp_step. apply (HG E id); try done. cbn [snd]. trace_eq.
Qed.

(** Ending a session.  When the path confirms the final REFRESH - the
    one of lifetime 0 - the session removes its rules and waits for their
    removal in PENDING_TEARDOWN if the installation left any response in the
    rule, and closes at once if not; if the installer refuses the removal,
    its exception leaves the session in AUCTIONING. *)
Theorem ni_final_refresh_confirmed (s : ni_session) (w : W) (evt : event) (n : ntlp_msg) (r : anslp_msg)
  (ru : auction_rule)
  (Hwf : ni_wf s) (Hst : state s = STATE_ANSLP_AUCTIONING) (Hl : lifetime s = 0%Z)
  (Hv : event_valid evt) (Hnb : is_anslp_bidding evt = false)
  (Hn : last_refresh_msg s = Some n) (Hr : get_response evt = Some r)
  (Ha : is_anslp_response evt (Some n) = true) (Hs : response_is_success r = true)
  (Hru : rule (base s) = Some ru) :
  exists o s' w', process_event evt (s, w) = (o, (s', w')) /\
    if (0 <? length (object_responses ru))%nat then
      (o = Normal tt /\ state s' = STATE_ANSLP_PENDING_TEARDOWN /\ teardown_counter s' = 0%Z
       /\ exists id t, trace w' = trace w ++ [Reported "REFRESH successful";
            Rules_removed (own_id s) ru; Timer_started (sid (base s)) t id])
      \/ ((exists e, o = Raised (Installer_error e)) /\ state s' = STATE_ANSLP_AUCTIONING)
    else o = Normal tt /\ is_final s' = true /\ trace w' = trace w ++ [Reported "REFRESH successful"].
Proof.
  pose proof Hwf as (_ & _ & _ & Hlr & _). destruct (Hlr n Hn) as (m & v & Hm & Hcls & Hvw & Hmsn).
  rewrite (is_anslp_response_to evt n m r Hm Hmsn Hr) in Ha. apply andb_true_iff in Ha as [Hr1 Hr2].
  assert (Hg : get_anslp_refresh n = Some m) by (unfold get_anslp_refresh, get_anslp; by rewrite Hm, decide_True).
  assert (Hrt : is_response_to_refresh r m = true).
  { unfold is_response_to_refresh. change (refresh_get_msg_sequence_number m) with (msn_of m). by rewrite Z.eqb_sym. }
  assert (Hev : exists nm b, evt = Msg_event nm b).
  { unfold get_response, ev_anslp, ev_msg in Hr. destruct evt; try discriminate. eauto. }
  destruct Hev as (nm & b & ->).
  assert (Hlt : object_responses ru <> [] -> (0 <? length (object_responses ru))%nat = true).
  { intros Hne. apply Nat.ltb_lt. destruct (object_responses ru); [done|cbn; lia]. }
  enough (Hrun : wp (process_event (Msg_event nm b)) (fun o sw =>
    if (0 <? length (object_responses ru))%nat then
      (o = Normal tt /\ state (fst sw) = STATE_ANSLP_PENDING_TEARDOWN /\ teardown_counter (fst sw) = 0%Z
       /\ exists id t, trace (snd sw) = trace w ++ [Reported "REFRESH successful";
            Rules_removed (own_id s) ru; Timer_started (sid (base s)) t id])
      \/ ((exists e, o = Raised (Installer_error e)) /\ state (fst sw) = STATE_ANSLP_AUCTIONING)
    else o = Normal tt /\ is_final (fst sw) = true /\ trace (snd sw) = trace w ++ [Reported "REFRESH successful"]) (s, w)).
  { unfold wp in Hrun. destruct (process_event _ _) as [o [s' w']]. by exists o, s', w'. }
  apply (refresh_answered_run s w nm n b r m ru); try done.
  - intros _ Hne id t s' w' Hs' Ht' Htr. rewrite (Hlt Hne). left. split_and!; [done..|]. by exists id, t.
  - intros _ Hne e s' w1 w' _ Hs' Htr. rewrite (Hlt Hne). right. split; [by exists e|done].
  - intros _ Hnil s' w' Hs' Htr. rewrite Hnil. cbn. split_and!; [done|by apply bool_decide_eq_true_2|done].
Qed.

(** Giving up while the auctioneer is installing removes no rule.
    Whenever a session in PENDING_INSTALLING closes, all it does is send a
    REFRESH of lifetime 0 (and, after a timeout, report): the rule it kept
    holds the objects put to the auctioneer as requests, and its test for
    installed rules counts responses, of which there are none. *)
Theorem ni_installing_close_removes_nothing (s : ni_session) (w : W) (evt : event) s' w'
  (Hwf : ni_wf s) (Hst : state s = STATE_ANSLP_PENDING_INSTALLING) (Hv : event_valid evt)
  (Hrun : process_event evt (s, w) = (Normal tt, (s', w'))) (Hfin : is_final s' = true) :
  exists n rest, trace w' = trace w ++ Sent n :: rest /\ (rest = [] \/ exists t, rest = [Reported t])
    /\ exists b, get_anslp_refresh n = Some b /\ refresh_get_session_lifetime b = 0%Z.
Proof.
  assert (Hh : wp (handle_event evt) (fun o sw => o = Normal STATE_ANSLP_CLOSE ->
    exists n rest, trace (snd sw) = trace w ++ Sent n :: rest /\ (rest = [] \/ exists t, rest = [Reported t])
    /\ exists b, get_anslp_refresh n = Some b /\ refresh_get_session_lifetime b = 0%Z) (s, w)).
  { pose proof Hwf as (_ & _ & _ & _ & Hi). rewrite Hst in Hi. destruct Hi as (Hri & act & Ha & He).
    assert (Hrf : forall s1 m, lifetime s1 = 0%Z ->
      exists b, get_anslp_refresh (refresh_of s1 m) = Some b /\ refresh_get_session_lifetime b = 0%Z).
    { intros s1 m Hl1. destruct (refresh_holds (sid (base s1)) m (u32 (msn (base s1) + 1)) 0 (refresh_of s1 m))
        as [_ (b & Hb & _ & Hbl)]; [apply u32_range|done|unfold refresh_of; by rewrite Hl1|]. eauto. }
    unfold handle_event. do 2 wp_step. cbn beta iota. rewrite Hst.
    unfold handle_state_pending_installing. do 2 wp_step. cbn beta iota.
    destruct (is_timer_of evt (response_timer s)).
    { unfold installing_timeout. do 2 wp_step. cbn beta iota. destruct (create_counter s <? max_retries s)%Z.
      - do 3 wp_step. rewrite Ha. apply wp_deref; [|done]. intros ? [= <-]. do 2 wp_step; [|done].
        wp_step. apply ni_wp_start_response_timer. intros id w2 Ht2. by wp_step.
      - unfold delete_rule. do 3 wp_step. eapply wp_abandon_installing; [done|done|done|].
        intros m w2 Em Ht2. do 3 wp_step. intros _. eexists _, _. split; [cbn [fst snd]; trace_eq|]. eauto. }
    destruct (is_api_teardown evt).
    { wp_step. eapply wp_abandon_installing; [done|done|done|]. intros m w2 Em Ht2. wp_step. intros _.
      eexists _, _. split; [cbn [fst snd]; trace_eq|]. eauto. }
    destruct (is_timer evt); [by wp_step|]. destruct (is_api_install evt) eqn:Ei; [|by wp_step].
    destruct evt; try discriminate. cbn [cast_objects]. wp_step. apply wp_deref; [|done]. intros ? [= <-].
    unfold installing_install. do 3 wp_step. rewrite Ha. apply wp_deref; [|done]. intros ? [= <-]. cbn beta iota.
    destruct (get_number_mspec_request_objects act =? length objs)%nat.
    - unfold delete_rule, stop_response_timer. do 4 wp_step. do 6 wp_step. wp_step.
      apply wp_start_refresh_timer. intros id w2 Ht2. by wp_step.
    - unfold delete_rule. do 3 wp_step. eapply wp_abandon_installing; [done|done|done|].
      intros m w2 Em Ht2. wp_step. intros _. eexists _, _. split; [cbn [fst snd]; trace_eq|]. eauto. }
  unfold process_event, bind in Hrun. unfold wp in Hh.
  destruct (handle_event evt (s, w)) as [[st|e|f] [s1 w1]]; try discriminate Hrun.
  cbn in Hrun. injection Hrun as <- <-. apply Hh. unfold is_final in Hfin.
  cbn in Hfin. case_bool_decide; [|done]. cbn. by f_equal.
Qed.
End NiSpec.
