(* ===== verification/NrSession.v ===== *)
(** * The responder's session: include/nr_session.h and src/nr_session.cpp

    The state machine of the node at the end of the path: CLOSE, PENDING (the
    requested objects are with the auctioning application for a check),
    PENDING_INSTALLING, AUCTIONING, PENDING_TEARDOWN.  It answers CREATE and
    REFRESH messages with RESPONSE messages, and keeps its rules for as long as
    its state timer is refreshed. *)
From S2P Require Import Prelude Outcome StdMap External Objects Store Messages SessionId NtlpMsg AuctionRule Events Session.

Inductive state_t :=
  | STATE_ANSLP_CLOSE
  | STATE_ANSLP_PENDING
  | STATE_ANSLP_PENDING_INSTALLING
  | STATE_ANSLP_AUCTIONING
  | STATE_ANSLP_PENDING_TEARDOWN.

#[export] Instance state_eq_dec : EqDecision state_t.
Proof. solve_decision. Defined.

Section NrSession.
Context `{Libs}.

(** What the session reads of the configuration (include/anslp_config.h). *)
Record nr_config := mk_nr_config {
  nr_max_session_lifetime : Z; nr_max_retries : Z; nr_response_timeout : Z }.

(** The attributes of [nr_session]; [act_rule] stays null and [response_timer]
    is never started. *)
Record nr_session := mk_nr {
  base : session_base;
  state : state_t;
  routing_info : option mri;
  config : nr_config;
  msn_bidding : Z;
  lifetime : Z;
  max_lifetime : Z;
  response_timeout : Z;
  create_counter : Z;
  max_retries : Z;
  state_timer : timer;
  create_message : option ntlp_msg }.

Definition set_base (v : session_base) (s : nr_session) : nr_session :=
  mk_nr v (state s) (routing_info s) (config s) (msn_bidding s) (lifetime s) (max_lifetime
    s) (response_timeout s) (create_counter s) (max_retries s) (state_timer s)
    (create_message s).
Definition set_state (v : state_t) (s : nr_session) : nr_session :=
  mk_nr (base s) v (routing_info s) (config s) (msn_bidding s) (lifetime s) (max_lifetime
    s) (response_timeout s) (create_counter s) (max_retries s) (state_timer s)
    (create_message s).
Definition set_routing_info (v : option mri) (s : nr_session) : nr_session :=
  mk_nr (base s) (state s) v (config s) (msn_bidding s) (lifetime s) (max_lifetime s)
    (response_timeout s) (create_counter s) (max_retries s) (state_timer s)
    (create_message s).
Definition set_config (v : nr_config) (s : nr_session) : nr_session :=
  mk_nr (base s) (state s) (routing_info s) v (msn_bidding s) (lifetime s) (max_lifetime
    s) (response_timeout s) (create_counter s) (max_retries s) (state_timer s)
    (create_message s).
Definition set_msn_bidding (v : Z) (s : nr_session) : nr_session :=
  mk_nr (base s) (state s) (routing_info s) (config s) v (lifetime s) (max_lifetime s)
    (response_timeout s) (create_counter s) (max_retries s) (state_timer s)
    (create_message s).
Definition set_lifetime (v : Z) (s : nr_session) : nr_session :=
  mk_nr (base s) (state s) (routing_info s) (config s) (msn_bidding s) v (max_lifetime s)
    (response_timeout s) (create_counter s) (max_retries s) (state_timer s)
    (create_message s).
Definition set_max_lifetime (v : Z) (s : nr_session) : nr_session :=
  mk_nr (base s) (state s) (routing_info s) (config s) (msn_bidding s) (lifetime s) v
    (response_timeout s) (create_counter s) (max_retries s) (state_timer s)
    (create_message s).
Definition set_response_timeout (v : Z) (s : nr_session) : nr_session :=
  mk_nr (base s) (state s) (routing_info s) (config s) (msn_bidding s) (lifetime s)
    (max_lifetime s) v (create_counter s) (max_retries s) (state_timer s) (create_message
    s).
Definition set_create_counter (v : Z) (s : nr_session) : nr_session :=
  mk_nr (base s) (state s) (routing_info s) (config s) (msn_bidding s) (lifetime s)
    (max_lifetime s) (response_timeout s) v (max_retries s) (state_timer s)
    (create_message s).
Definition set_max_retries (v : Z) (s : nr_session) : nr_session :=
  mk_nr (base s) (state s) (routing_info s) (config s) (msn_bidding s) (lifetime s)
    (max_lifetime s) (response_timeout s) (create_counter s) v (state_timer s)
    (create_message s).
Definition set_state_timer (v : timer) (s : nr_session) : nr_session :=
  mk_nr (base s) (state s) (routing_info s) (config s) (msn_bidding s) (lifetime s)
    (max_lifetime s) (response_timeout s) (create_counter s) (max_retries s) v
    (create_message s).
Definition set_create_message (v : option ntlp_msg) (s : nr_session) : nr_session :=
  mk_nr (base s) (state s) (routing_info s) (config s) (msn_bidding s) (lifetime s)
    (max_lifetime s) (response_timeout s) (create_counter s) (max_retries s) (state_timer
    s) v.

(** The constructor.  [random] is the random number BIDDING messages are
    counted from, [garbage] what the memory of [response_timeout], which it
    does not initialise, holds. *)
Definition new_nr_session (id : session_id) (conf : nr_config) (random garbage : Z) : nr_session :=
  mk_nr (new_session id st_receiver 0) STATE_ANSLP_CLOSE None conf random 0
    (nr_max_session_lifetime conf) garbage 0 (nr_max_retries conf) 0%Z None.

Definition is_final (s : nr_session) : bool := bool_decide (state s = STATE_ANSLP_CLOSE).

(** [create_counter++]. *)
Definition inc_create_counter (s : nr_session) : nr_session :=
  set_create_counter (u32 (create_counter s + 1)) s.

Section Handlers.
Context {W : Type} `{!Dispatcher W} `{!Platform W}.

Definition NR : Type -> Type := M (nr_session * W).

Definition own_id (s : nr_session) : list Ascii.ascii := to_string (sid (base s)).

Definition set_rule_of (r : option auction_rule) (s : nr_session) : nr_session :=
  set_base (set_rule r (base s)) s.

Definition next_msg_bidding_sequence_number : NR Z :=
  s <- the ;;
  let n := u32 (msn_bidding s + 1) in
  update (set_msn_bidding n) ;;; ret n.

(** [get_last_create_message]: asserted. *)
Definition get_last_create_message : NR ntlp_msg := s <- the ;; asserted (create_message s).

(** [set_last_create_message] deletes a message it replaces twice. *)
Definition set_last_create_message (n : ntlp_msg) : NR unit :=
  s <- the ;;
  match create_message s with
  | Some _ => trip Double_delete
  | None => update (set_create_message (Some n))
  end.

Definition start_state_timer (seconds : Z) : NR unit :=
  s <- the ;;
  id <- outside (timer_start (sid (base s)) seconds) ;; update (set_state_timer id).
Definition stop_state_timer : NR unit := update (set_state_timer 0%Z).

(** [save_auction_rule]: the MSPEC objects of the CREATE replace the
    requests of the rule and, if this node participates, go to the
    auctioning application for a check. *)
Definition save_auction_rule (create : anslp_msg) : NR bool :=
  missing_objects <- lift_outcome (create_get_mspec_objects create) ;;
  s <- the ;;
  r <- deref (rule (base s)) ;;
  let r := mk_rule [] (object_responses r) in
  r <- outside (add_requests (map object_copy missing_objects) r) ;;
  update (set_rule_of (Some r)) ;;;
  if check_participating (stype (base s)) (create_get_selection_auctioning_entities create)
  then outside (d_check (own_id s) (object_requests r))
  else ret false.

Definition build_bidding_message (objs : objectList_t) : NR ntlp_msg :=
  s <- the ;;
  m <- asserted (routing_info s) ;;
  let nslp_mri := invertDirection m in
  n <- next_msg_bidding_sequence_number ;;
  let bidding := bidding_set_msg_sequence_number n new_anslp_bidding in
  let bidding := set_mspecs (map (fun kv => object_copy (snd kv)) objs) bidding in
  lift_outcome (new_ntlp_msg (sid (base s)) (Some bidding) (Some nslp_mri) 0).

(** A success response to [n] that carries the responses of the rule. *)
Definition success_with_responses (n : ntlp_msg) (lifetime : Z) (r : auction_rule) : ntlp_msg :=
  update_msg (set_mspecs (map (fun kv => object_copy (snd kv)) (object_responses r)))
    (create_success_response lifetime n).

(** *** State CLOSE. *)
Definition configuration_failed (n : ntlp_msg) : NR state_t :=
  outside (send_message (create_response sc_permanent_failure fail_configuration_failed n)) ;;;
  ret STATE_ANSLP_CLOSE.

Definition no_path_coupled_mri : request_error :=
  mk_request_error "no path-coupled MRI found" sc_permanent_failure fail_configuration_failed.

(** The [try] block that opens a session of positive lifetime. *)
Definition close_open (n : ntlp_msg) (c : anslp_msg) (lifetime : Z) : NR state_t :=
  (if is_some (downcast_mri (get_mri n)) then ret tt else raise (Request_error no_path_coupled_mri)) ;;;
  participating <- save_auction_rule c ;;
  if participating then
    update inc_create_counter ;;;
    start_state_timer lifetime ;;;
    ret STATE_ANSLP_PENDING
  else
    update (set_rule_of (Some new_auction_rule)) ;;;
    outside (send_message (success_with_responses n lifetime new_auction_rule)) ;;;
    start_state_timer lifetime ;;;
    ret STATE_ANSLP_AUCTIONING.

Definition close_create (n : ntlp_msg) (c : anslp_msg) : NR state_t :=
  s <- the ;;
  update (set_routing_info (Some (get_mri n))) ;;;
  let lifetime := create_get_session_lifetime c in
  let msn := create_get_msg_sequence_number c in
  update (set_response_timeout (nr_response_timeout (config s))) ;;;
  accepted <- outside (checked_lifetime (max_lifetime s) n lifetime) ;;
  match accepted with
  | None => ret STATE_ANSLP_CLOSE
  | Some lifetime =>
      copy <- lift_outcome (ntlp_copy n) ;;
      set_last_create_message copy ;;;
      if (0 <? lifetime)%Z then
        update (set_lifetime lifetime) ;;;
        update (fun s => set_base (set_msn msn (base s)) s) ;;;
        catch (close_open n c lifetime)
          (fun e => match e with Installer_error _ => configuration_failed n | e => raise e end)
      else configuration_failed n
  end.

Definition handle_state_close (evt : event) : NR state_t :=
  match ev_msg evt, get_create evt with
  | Some n, Some c => close_create n c
  | _, _ => ret STATE_ANSLP_CLOSE
  end.


(** *** State PENDING. *)
Definition internal_error : NR unit :=
  n <- get_last_create_message ;;
  outside (send_message (create_response sc_permanent_failure fail_internal_error n)).

Definition pending_timeout : NR state_t :=
  s <- the ;;
  if (create_counter s <? max_retries s)%Z then
    update inc_create_counter ;;;
    n <- get_last_create_message ;;
    c <- deref (get_anslp_create n) ;;
    save_auction_rule c ;;;
    start_state_timer (lifetime s) ;;;
    ret STATE_ANSLP_PENDING
  else internal_error ;;; ret STATE_ANSLP_CLOSE.

Definition pending_check (objs : objectList_t) : NR state_t :=
  s <- the ;;
  r <- deref (rule (base s)) ;;
  r <- lift_outcome (prune objs r) ;;
  update (set_rule_of (Some r)) ;;;
  update (set_create_counter 0) ;;;
  outside (install_auction_rules (own_id s) (Some r)) ;;;
  start_state_timer (lifetime s) ;;;
  ret STATE_ANSLP_PENDING_INSTALLING.

Definition handle_state_pending (evt : event) : NR state_t :=
  s <- the ;;
  if is_no_next_node_found_event evt || is_timer_of evt (state_timer s) then pending_timeout
  else if is_api_check evt then
    objs <- deref (cast_objects evt) ;;
    pending_check objs
  else ret STATE_ANSLP_PENDING.

(** *** State PENDING_INSTALLING. *)
Definition installing_timeout : NR state_t :=
  s <- the ;;
  if (create_counter s <? max_retries s)%Z then
    update inc_create_counter ;;;
    outside (install_auction_rules (own_id s) (rule (base s))) ;;;
    start_state_timer (lifetime s) ;;;
    ret STATE_ANSLP_PENDING_INSTALLING
  else internal_error ;;; ret STATE_ANSLP_CLOSE.

Definition installing_install (objs : objectList_t) : NR state_t :=
  s <- the ;;
  n <- get_last_create_message ;;
  r <- deref (rule (base s)) ;;
  if (get_number_mspec_request_objects r =? length objs)%nat then
    r <- outside (set_reponse_objects objs (Some r)) ;;
    update (set_rule_of r) ;;;
    r <- deref r ;;
    outside (send_message (success_with_responses n (lifetime s) r)) ;;;
    start_state_timer (lifetime s) ;;;
    ret STATE_ANSLP_AUCTIONING
  else
    update (set_lifetime 0) ;;;
    (if (0 <? get_number_mspec_response_objects r)%nat then
       outside (remove_auction_rules (own_id s) (Some (rule_copy r)))
     else ret tt) ;;;
    outside (send_message (create_response sc_permanent_failure fail_internal_error n)) ;;;
    start_state_timer (nr_response_timeout (config s)) ;;;
    ret STATE_ANSLP_PENDING_TEARDOWN.

Definition handle_state_pending_installing (evt : event) : NR state_t :=
  s <- the ;;
  if is_timer_of evt (state_timer s) then installing_timeout
  else if is_api_check evt then ret STATE_ANSLP_PENDING_INSTALLING
  else if is_api_install evt then
    objs <- deref (cast_objects evt) ;;
    installing_install objs
  else ret STATE_ANSLP_PENDING_INSTALLING.

(** *** State AUCTIONING. *)

(** The end of a session: remove the rules and wait for the answer, or
    close at once when none are installed. *)
Definition remove_or_close : NR state_t :=
  s <- the ;;
  r <- deref (rule (base s)) ;;
  if (0 <? get_number_mspec_response_objects r)%nat then
    outside (remove_auction_rules (own_id s) (Some r)) ;;;
    start_state_timer (nr_response_timeout (config s)) ;;;
    ret STATE_ANSLP_PENDING_TEARDOWN
  else
    stop_state_timer ;;;
    ret STATE_ANSLP_CLOSE.

Definition auctioning_refresh (n : ntlp_msg) (c : anslp_msg) : NR state_t :=
  let lifetime := refresh_get_session_lifetime c in
  let m := refresh_get_msg_sequence_number c in
  s <- the ;;
  accepted <- outside (checked_lifetime (max_lifetime s) n lifetime) ;;
  match accepted with
  | None => ret STATE_ANSLP_AUCTIONING
  | Some lifetime =>
      if negb (is_greater_than m (msn (base s))) then ret STATE_ANSLP_AUCTIONING
      else if (0 <? lifetime)%Z then
        update (set_lifetime lifetime) ;;;
        update (fun s => set_base (set_msn m (base s)) s) ;;;
        outside (send_message (create_success_response lifetime n)) ;;;
        start_state_timer lifetime ;;;
        ret STATE_ANSLP_AUCTIONING
      else if (lifetime =? 0)%Z then
        outside (send_message (create_success_response lifetime n)) ;;;
        remove_or_close
      else ret STATE_ANSLP_AUCTIONING
  end.

(** A BIDDING for this node goes to the auction server. *)
Definition auctioning_bidding (evt : event) : NR unit :=
  if is_for_this_node evt then
    s <- the ;;
    to_post <- outside (create_auction_rule (get_bidding evt)) ;;
    outside (auction_interaction true (own_id s) (Some to_post)) ;;;
    ret tt
  else ret tt.

(** A BIDDING of the server goes to the other end of the path. *)
Definition send_bidding (evt : event) : NR unit :=
  objs <- deref (cast_objects evt) ;;
  n <- build_bidding_message objs ;;
  outside (send_message n) ;;;
  match cast_return_queue evt with
  | Some q => s <- the ;; outside (enqueue q (Event_msg (sid (base s)) None))
  | None => ret tt
  end.

Definition auctioning_timeout : NR state_t :=
  outside (report_async_event "session timed out") ;;;
  remove_or_close.

Definition handle_state_auctioning (evt : event) : NR state_t :=
  s <- the ;;
  match ev_msg evt, get_refresh evt with
  | Some n, Some c => auctioning_refresh n c
  | _, _ =>
      if is_anslp_bidding evt then auctioning_bidding evt ;;; ret STATE_ANSLP_AUCTIONING
      else if is_api_bidding evt then send_bidding evt ;;; ret STATE_ANSLP_AUCTIONING
      else if is_timer_of evt (state_timer s) then auctioning_timeout
      else if is_timer evt then ret STATE_ANSLP_AUCTIONING
      else ret STATE_ANSLP_AUCTIONING
  end.

(** *** State PENDING_TEARDOWN. *)
Definition teardown_timeout : NR state_t :=
  s <- the ;;
  if (create_counter s <? max_retries s)%Z then
    update inc_create_counter ;;;
    outside (remove_auction_rules (own_id s) (rule (base s))) ;;;
    start_state_timer (nr_response_timeout (config s)) ;;;
    ret STATE_ANSLP_PENDING_TEARDOWN
  else ret STATE_ANSLP_CLOSE.

Definition handle_state_pending_teardown (evt : event) : NR state_t :=
  s <- the ;;
  if is_timer_of evt (state_timer s) then teardown_timeout
  else if is_api_check evt then ret STATE_ANSLP_PENDING_TEARDOWN
  else if is_api_install evt then ret STATE_ANSLP_PENDING_TEARDOWN
  else if is_anslp_bidding evt then ret STATE_ANSLP_PENDING_TEARDOWN
  else if is_api_bidding evt then send_bidding evt ;;; ret STATE_ANSLP_PENDING_TEARDOWN
  else if is_api_remove evt then stop_state_timer ;;; ret STATE_ANSLP_CLOSE
  else ret STATE_ANSLP_PENDING_TEARDOWN.

(** [process_event]. *)
Definition handle_event (evt : event) : NR state_t :=
  s <- the ;;
  match state s with
  | STATE_ANSLP_CLOSE => handle_state_close evt
  | STATE_ANSLP_PENDING => handle_state_pending evt
  | STATE_ANSLP_PENDING_INSTALLING => handle_state_pending_installing evt
  | STATE_ANSLP_AUCTIONING => handle_state_auctioning evt
  | STATE_ANSLP_PENDING_TEARDOWN => handle_state_pending_teardown evt
  end.

Definition process_event (evt : event) : NR unit :=
  st <- handle_event evt ;; update (set_state st).
End Handlers.
End NrSession.
