(* ===== verification/NrSpec.v ===== *)
(** * What the responder's session guarantees

    The invariant of [nr_session], the protocol it refines, what its answers
    contain, and its treatment of repeated, overlong and unauthorized REFRESH
    messages - for every dispatcher that keeps the promises of [Effects]. *)
From S2P Require Import Prelude Outcome StdMap External Objects Store Messages SessionId NtlpMsg AuctionRule Events Session NrSession.

Section NrSpec.
Context `{Libs} `{!LibsLaws} {W : Type} `{!Dispatcher W} `{!Platform W} `{!Effects W}.
Implicit Types (s : nr_session) (w : W).

(** ** The invariant: the lifetime never exceeds the configured maximum, a
    session that is under way has a rule, a way back to the initiator and
    the CREATE it will answer, and until the auctioning application reports
    an installation the rule has no responses. *)
Definition nothing_installed s : Prop := forall r, rule (base s) = Some r -> object_responses r = [].

Definition nr_wf s : Prop :=
  is_u32 (msn (base s)) /\ is_u32 (max_lifetime s) /\ (0 <= lifetime s <= max_lifetime s)%Z
  /\ stype (base s) = st_receiver /\ is_Some (rule (base s))
  /\ (state s <> STATE_ANSLP_CLOSE ->
      is_Some (routing_info s) /\ exists n, create_message s = Some n /\ kept C_create n)
  /\ (create_message s = None \/ state s = STATE_ANSLP_PENDING \/ state s = STATE_ANSLP_PENDING_INSTALLING ->
      nothing_installed s).

(** ** The protocol, over states and events only. *)
Inductive nr_step : state_t -> event -> state_t -> Prop :=
  | nr_stay st evt : nr_step st evt st
  | nr_checking evt c : get_create evt = Some c ->
      check_participating st_receiver (create_get_selection_auctioning_entities c) = true ->
      nr_step STATE_ANSLP_CLOSE evt STATE_ANSLP_PENDING
  | nr_open evt c : get_create evt = Some c -> nr_step STATE_ANSLP_CLOSE evt STATE_ANSLP_AUCTIONING
  | nr_checked objs rq : nr_step STATE_ANSLP_PENDING (Api_check_event objs rq) STATE_ANSLP_PENDING_INSTALLING
  | nr_check_ends evt : is_timer evt = true \/ is_no_next_node_found_event evt = true ->
      nr_step STATE_ANSLP_PENDING evt STATE_ANSLP_CLOSE
  | nr_installed objs rq st : st = STATE_ANSLP_AUCTIONING \/ st = STATE_ANSLP_PENDING_TEARDOWN ->
      nr_step STATE_ANSLP_PENDING_INSTALLING (Api_install_event objs rq) st
  | nr_install_ends evt : is_timer evt = true ->
      nr_step STATE_ANSLP_PENDING_INSTALLING evt STATE_ANSLP_CLOSE
  | nr_auction_ends evt st : is_timer evt = true \/ is_anslp_refresh evt = true ->
      st = STATE_ANSLP_PENDING_TEARDOWN \/ st = STATE_ANSLP_CLOSE ->
      nr_step STATE_ANSLP_AUCTIONING evt st
  | nr_torn_down evt : is_timer evt = true \/ is_api_remove evt = true ->
      nr_step STATE_ANSLP_PENDING_TEARDOWN evt STATE_ANSLP_CLOSE.

(** The exceptions that leave a handler: those of the rule installer, and the
    complaint about a CREATE without a path-coupled MRI, which the handler
    throws but does not catch. *)
Definition nr_thrown s (evt : event) (e : exn) : Prop :=
  (exists ie, e = Installer_error ie)
  \/ (e = Request_error no_path_coupled_mri /\ state s = STATE_ANSLP_CLOSE
      /\ exists n, ev_msg evt = Some n /\ is_anslp_create evt = true /\ downcast_mri (get_mri n) = None).

(** The faults: the CREATE kept by a session that is asked to open a second
    time is deleted twice, the pruning loop can leave its map, and a message
    with an object that is not expected in it makes the session dereference a
    failed cast. *)
Definition nr_fault s (evt : event) (f : fault) : Prop :=
  (f = Double_delete /\ state s = STATE_ANSLP_CLOSE /\ is_Some (create_message s) /\ is_anslp_create evt = true)
  \/ (f = Out_of_bounds /\ state s = STATE_ANSLP_PENDING
      /\ exists objs rq r, evt = Api_check_event objs rq /\ rule (base s) = Some r
           /\ prune objs r = Faulted Out_of_bounds)
  \/ (f = Null_dereference /\ unexpected_body evt
      /\ (state s = STATE_ANSLP_CLOSE /\ is_anslp_create evt = true
          \/ state s = STATE_ANSLP_AUCTIONING /\ is_anslp_bidding evt = true)).

(** ** The building blocks. *)
Lemma nr_wp_start_state_timer s w t Q :
  (forall id w', trace w' = trace w ++ [Timer_started (sid (base s)) (int32 t) id] ->
     Q (Normal tt) (set_state_timer id s, w')) ->
  wp (start_state_timer t) Q (s, w).
Proof. intros HQ. unfold start_state_timer. do 5 wp_step. eauto. Qed.

(** The requests a CREATE leaves in the rule. *)
Definition requested (ks : list mspec_rule_key) (v : view) (r : auction_rule) : auction_rule :=
  mk_rule (with_entries ks (v_ipap v) []) (object_responses r).

Lemma wp_save_auction_rule s w c v r Q :
  rule (base s) = Some r -> msg_view c v ->
  (is_some (v_inf v) = true -> Q (Faulted Null_dereference) (s, w)) ->
  (forall ks w1, v_inf v = None -> length ks = length (v_ipap v) -> trace w1 = trace w ->
     let s1 := set_rule_of (Some (requested ks v r)) s in
     if check_participating (stype (base s)) (create_get_selection_auctioning_entities c) then
       let reqs := with_entries ks (v_ipap v) [] in
       (forall b w', says w (d_check (own_id s) reqs) (Normal b) -> trace w' = trace w1 ++ [Checked (own_id s) reqs] ->
          Q (Normal b) (s1, w'))
       /\ (forall e w', says w (d_check (own_id s) reqs) (Raised (Installer_error e)) -> trace w' = trace w1 ->
             Q (Raised (Installer_error e)) (s1, w'))
     else Q (Normal false) (s1, w1)) ->
  wp (save_auction_rule c) Q (s, w).
Proof.
  intros Hr Hv HF HQ. unfold save_auction_rule. do 2 wp_step. destruct (v_inf v) as [o|] eqn:Hi.
  { rewrite (create_get_mspec_unexpected c v o) by done. by apply HF. }
  rewrite (create_get_mspec_view c v) by done. do 3 wp_step. rewrite Hr.
  apply wp_deref; [|done]. intros ? [= <-]. cbv zeta. wp_step.
  rewrite map_object_copy by by eapply msg_view_mspecs.
  apply wp_add_requests_exact. intros ks w1 Hk Ht1. do 2 wp_step. specialize (HQ ks w1 eq_refl Hk Ht1).
  cbv zeta in HQ. destruct (check_participating _ _).
  - destruct HQ as [HQ HE]. eapply wp_says; [apply check_does|intros b w' Hb|intros e w' He].
    + apply HQ. by eapply says_before.
    + apply HE. by eapply says_before.
  - by wp_step.
Qed.

Lemma nr_wp_remove_or_close_known s w Q r :
  rule (base s) = Some r ->
  (forall id w', 0 < length (object_responses r) ->
     trace w' = trace w ++ [Rules_removed (own_id s) r;
          Timer_started (sid (base s)) (int32 (nr_response_timeout (config s))) id] ->
     Q (Normal STATE_ANSLP_PENDING_TEARDOWN) (set_state_timer id s, w')) ->
  (forall e w1 w', 0 < length (object_responses r) ->
     fst (remove_auction_rules (own_id s) (Some r) w1) = Raised (Installer_error e) -> trace w' = trace w ->
     Q (Raised (Installer_error e)) (s, w')) ->
  (object_responses r = [] -> Q (Normal STATE_ANSLP_CLOSE) (set_state_timer 0%Z s, w)) ->
  wp remove_or_close Q (s, w).
Proof.
  intros Hr HQ HE HC. unfold remove_or_close. do 2 wp_step. rewrite Hr. wp_step.
  apply wp_deref; [|done]. intros a [= <-]. unfold get_number_mspec_response_objects.
  destruct (Nat.ltb_spec 0 (length (object_responses r))) as [Hlt|Hge].
  - wp_step. eapply wp_may_throw_known; [apply remove_does|intros [] w1 Ht1|intros e w1 He Ht1; by eapply HE].
    wp_step. apply nr_wp_start_state_timer. intros id w2 Ht.
    wp_step. apply HQ; [done|]. trace_eq.
  - wp_step. unfold stop_state_timer. wp_step. wp_step. apply HC.
    by destruct (object_responses r); [|cbn in Hge; lia].
Qed.

Lemma nr_wp_remove_or_close s w Q r :
  rule (base s) = Some r ->
  (forall id w', 0 < length (object_responses r) ->
     trace w' = trace w ++ [Rules_removed (own_id s) r;
          Timer_started (sid (base s)) (int32 (nr_response_timeout (config s))) id] ->
     Q (Normal STATE_ANSLP_PENDING_TEARDOWN) (set_state_timer id s, w')) ->
  (forall e w', 0 < length (object_responses r) -> trace w' = trace w ->
     Q (Raised (Installer_error e)) (s, w')) ->
  (object_responses r = [] -> Q (Normal STATE_ANSLP_CLOSE) (set_state_timer 0%Z s, w)) ->
  wp remove_or_close Q (s, w).
Proof. intros Hr HQ HE HC. apply (nr_wp_remove_or_close_known s w Q r); [done|done| |done]. intros e w1 w' Hl _. by apply HE. Qed.

Lemma nr_wp_send_bidding s w Q evt :
  is_Some (routing_info s) -> is_api_bidding evt = true ->
  (forall n es w', trace w' = trace w ++ Sent n :: es ->
     Q (Normal tt) (set_msn_bidding (u32 (msn_bidding s + 1)) s, w')) ->
  wp (send_bidding evt) Q (s, w).
Proof.
  intros [m Hm] Hb HQ. unfold send_bidding. destruct evt; try discriminate. cbn [cast_objects].
  wp_step. apply wp_deref; [|done]. intros l [= <-]. wp_step. unfold build_bidding_message. do 3 wp_step.
  rewrite Hm. apply wp_asserted; [|done]. intros ? [= <-]. cbv zeta. wp_step.
  unfold next_msg_bidding_sequence_number. do 6 wp_step. unfold new_ntlp_msg. do 2 wp_step. cbn [cast_return_queue].
  destruct rq as [q|].
  - repeat wp_step. eapply HQ. trace_eq.
  - wp_step. eapply HQ. trace_eq.
Qed.

Lemma nr_wp_auctioning_bidding s w Q evt :
  event_valid evt -> is_anslp_bidding evt = true ->
  (forall w', (trace w' = trace w \/ exists r, trace w' = trace w ++ [Interaction true (own_id s) r]) ->
     Q (Normal tt) (s, w')) ->
  (forall e w', trace w' = trace w -> Q (Raised (Installer_error e)) (s, w')) ->
  (unexpected_body evt -> Q (Faulted Null_dereference) (s, w)) ->
  wp (auctioning_bidding evt) Q (s, w).
Proof.
  intros Hv Hb HQ HE HF. unfold is_anslp_bidding, is_some in Hb.
  destruct (get_bidding evt) as [b|] eqn:Eb; [|discriminate].
  destruct (event_valid_anslp _ _ _ Hv Eb) as [Hc (v & Hm)].
  unfold auctioning_bidding. destruct (is_for_this_node evt); [|wp_step; apply HQ; auto].
  do 2 wp_step. rewrite Eb. wp_step. eapply wp_create_auction_rule; [done|done| |intros Hu; by eapply HF, unexpected_body_anslp].
  intros r1 w1 _ Ht1. wp_step. wp_step.
  - wp_step. apply HQ. right. exists r1. trace_eq.
  - apply HE. trace_eq.
Qed.

(** ** Every handler keeps the invariant and makes a step of the protocol. *)
Definition nr_ok s (evt : event) (o : outcome state_t) (sw : nr_session * W) : Prop :=
  match o with
  | Normal st => nr_wf (set_state st (fst sw)) /\ nr_step (state s) evt st
  | Raised e => nr_thrown s evt e /\ state (fst sw) = state s
  | Faulted f => nr_fault s evt f
  end.


Ltac wf_parts := split_and!; cbn; try done; try (unfold is_u32 in *; lia); try (by eexists); try (by intros []); try (intros [?|[?|?]]; congruence).

(** A handler that stays, or moves between states under way. *)
Lemma nr_wf_closed s : nr_wf s -> nr_wf (set_state STATE_ANSLP_CLOSE s).
Proof.
  intros (H1 & H2 & H3 & H4 & H5 & H6 & H7). do 5 (split; [done|]). split; [by intros []|].
  intros [Hc|[Hc|Hc]]; [|done..]. apply H7. by left.
Qed.

Lemma nr_wf_stays s evt : nr_wf s -> nr_wf (set_state (state s) s) /\ nr_step (state s) evt (state s).
Proof. intros Hwf. split; [by destruct s|constructor]. Qed.

(** What the [try] block of CLOSE leaves. *)
Definition opened (evt : event) (n : ntlp_msg) (o : outcome state_t) (sw : nr_session * W) : Prop :=
  match o with
  | Normal st => nr_wf (set_state st (fst sw)) /\ nr_step STATE_ANSLP_CLOSE evt st
  | Raised e => state (fst sw) = STATE_ANSLP_CLOSE /\
      ((exists ie, e = Installer_error ie) /\ nr_wf (fst sw)
       \/ e = Request_error no_path_coupled_mri /\ downcast_mri (get_mri n) = None)
  | Faulted f => f = Null_dereference /\ unexpected_body evt
  end.

Lemma close_open_ok s w evt n c lt :
  nr_wf s -> nothing_installed s -> event_valid evt -> state s = STATE_ANSLP_CLOSE -> ev_msg evt = Some n -> get_create evt = Some c ->
  (0 < lt <= max_lifetime s)%Z -> lifetime s = lt ->
  is_Some (routing_info s) -> create_message s = Some n ->
  wp (close_open n c lt) (opened evt n) (s, w).
Proof.
  intros (Hm & Hx & Hl & Ht & [r Hr] & _) Hni Hv Hst Hn Hc Hlt Hls Hri Hcm.
  destruct (event_valid_anslp _ _ _ Hv Hc) as [Hcls (v & Hvw)]. destruct (msg_view_get c v Hvw) as (Ei & _).
  destruct (ev_anslp_msg _ _ _ _ Hn Hc) as [Hnm _].
  unfold close_open. wp_step. destruct (downcast_mri (get_mri n)) eqn:Ed; cbn [is_some].
  2: { wp_step. split; [done|]. by right. }
  do 2 wp_step. apply (wp_save_auction_rule _ _ _ v r); [done..| |].
  { intros Hu. split; [done|]. eapply unexpected_body_anslp; [exact Hc|]. unfold unexpected_objects. by rewrite Hcls, Ei. }
  intros ks w1 Hvi Hks Ht1. cbv zeta. assert (Hk : kept C_create n) by by exists c, v.
  assert (Hopen : forall s' w', (s' = set_rule_of (Some (requested ks v r)) s) ->
    wp (update (set_rule_of (Some new_auction_rule)) ;;;
        outside (send_message (success_with_responses n lt new_auction_rule)) ;;;
        start_state_timer lt ;;; ret STATE_ANSLP_AUCTIONING)
       (opened evt n) (s', w')).
  { intros s' w' ->. do 5 wp_step. apply nr_wp_start_state_timer. intros id w3 Ht3. wp_step. split.
    - wf_parts. intros _. split; [done|]. by exists n.
    - by eapply nr_open. }
  destruct (check_participating _ _) eqn:Ep; [split|].
  - intros b w2 _ Ht2. cbn beta iota. destruct b; [|by apply Hopen]. do 3 wp_step.
    apply nr_wp_start_state_timer. intros id w3 Ht3. wp_step. split.
    + wf_parts; [intros _; split; [done|by exists n]|intros _ ? [= <-]; exact (Hni r Hr)].
    + eapply nr_checking; [done|]. by rewrite <- Ht.
  - intros e w2 _ Ht2. split; [done|]. left. split; [by eexists|].
    by wf_parts.
  - cbn beta iota. by apply Hopen.
Qed.

Lemma nr_close_ok s w evt :
  nr_wf s -> event_valid evt -> state s = STATE_ANSLP_CLOSE ->
  wp (handle_state_close evt) (nr_ok s evt) (s, w).
Proof.
  intros Hwf Hv Hst. unfold handle_state_close.
  assert (Hskip : wp (ret STATE_ANSLP_CLOSE) (nr_ok s evt) (s, w)).
  { apply wp_ret. split; [by apply nr_wf_closed|]. rewrite Hst. constructor. }
  destruct (ev_msg evt) as [n|] eqn:En; [|done]. destruct (get_create evt) as [c|] eqn:Ec; [|done].
  pose proof (event_valid_stored C_create evt n c Hv En Ec) as Hk.
  destruct (event_valid_anslp _ _ _ Hv Ec) as [_ Hb].
  pose proof (body_valid_lifetime c Hb) as Hlt. pose proof (body_valid_msn c Hb) as Hmsn.
  change (is_u32 (create_get_msg_sequence_number c)) in Hmsn.
  change (is_u32 (create_get_session_lifetime c)) in Hlt.
  pose proof Hwf as (Hm & Hx & Hl & Ht & Hr & _ & Hno).
  unfold close_create. do 6 wp_step. cbv zeta. wp_step.
  set (s1 := set_response_timeout _ _).
  assert (Hwf1 : nr_wf s1) by (wf_parts; exact Hno).
  assert (Hclosed : forall s2 w2, nr_wf s2 -> wp (ret STATE_ANSLP_CLOSE) (nr_ok s evt) (s2, w2)).
  { intros s2 w2 H2. apply wp_ret. split; [by apply nr_wf_closed|]. rewrite Hst. constructor. }
  assert (Hfail : forall s2 w2, nr_wf s2 -> wp (configuration_failed n) (nr_ok s evt) (s2, w2)).
  { intros s2 w2 H2. unfold configuration_failed. do 2 wp_step. by apply Hclosed. }
  assert (Hgo : forall lt w2, (0 <= lt <= max_lifetime s)%Z ->
    wp (copy <- lift_outcome (ntlp_copy n) ;;
        set_last_create_message copy ;;;
        if (0 <? lt)%Z then
          update (set_lifetime lt) ;;;
          update (fun s => set_base (set_msn (create_get_msg_sequence_number c) (base s)) s) ;;;
          catch (close_open n c lt)
            (fun e => match e with Installer_error _ => configuration_failed n | e => raise e end)
        else configuration_failed n) (nr_ok s evt) (s1, w2)).
  { intros lt w2 Hlt2. do 2 wp_step. rewrite (stored_copy C_create) by done.
    wp_step. unfold set_last_create_message. do 2 wp_step. cbn [create_message set_response_timeout set_routing_info].
    destruct (create_message s) as [n0|] eqn:Ecm.
    { change (create_message s1) with (create_message s). rewrite Ecm. wp_step. left.
      split_and!; [done|done|by eexists|]. unfold is_anslp_create. by rewrite Ec. }
    change (create_message s1) with (create_message s). rewrite Ecm. wp_step. cbn beta iota.
    destruct (Z.ltb_spec 0 lt).
    - do 5 wp_step. eapply wp_mono.
      { apply (close_open_ok _ _ evt); [by wf_parts|exact (Hno (or_introl eq_refl))|done..|cbn; lia|done|by eexists|done]. }
      intros o [s2 w3] Ho. destruct o as [st|e|f]; cbn in Ho; [by rewrite <- Hst in Ho| |].
      2: { destruct Ho as [-> Hu]. right. right. split; [done|]. split; [done|]. left. split; [done|].
           unfold is_anslp_create. by rewrite Ec. }
      destruct Ho as [Hs2 [[[ie ->] Hw]|[-> Hd]]]; [by apply Hfail|].
      apply wp_raise. split; [|cbn; congruence]. right. split_and!; [done|done|]. exists n.
      unfold is_anslp_create. by rewrite Ec.
    - apply Hfail. by wf_parts. }
  apply wp_checked_lifetime.
  - intros Hov. cbn beta iota. apply Hgo. change (max_lifetime s1) with (max_lifetime s) in *. unfold is_u32 in *. lia.
  - intros Hle w2 Ht2. apply Hgo. change (max_lifetime s1) with (max_lifetime s) in *. unfold is_u32 in *; lia.
  - intros Hle w2 Ht2. by apply Hclosed.
Qed.
Lemma wp_internal_error s w Q n :
  create_message s = Some n ->
  (forall w', trace w' = trace w ++ [Sent (create_response sc_permanent_failure fail_internal_error n)] ->
     Q (Normal tt) (s, w')) ->
  wp internal_error Q (s, w).
Proof.
  intros Hn HQ. unfold internal_error, get_last_create_message. do 3 wp_step. rewrite Hn.
  apply wp_asserted; [|done]. intros ? [= <-]. wp_step. by apply HQ.
Qed.

(** Leaving the session under way as it is, up to timers and counters. *)
Lemma nr_goes s s' st evt :
  nr_wf s -> state s <> STATE_ANSLP_CLOSE -> nr_step (state s) evt st ->
  msn (base s') = msn (base s) -> max_lifetime s' = max_lifetime s -> (0 <= lifetime s' <= max_lifetime s')%Z ->
  stype (base s') = stype (base s) -> is_Some (rule (base s')) ->
  routing_info s' = routing_info s -> create_message s' = create_message s ->
  (st = STATE_ANSLP_PENDING \/ st = STATE_ANSLP_PENDING_INSTALLING -> nothing_installed s') ->
  nr_wf (set_state st s') /\ nr_step (state s) evt st.
Proof.
  intros (H1 & H2 & H3 & H4 & H5 & H6 & H7) Hs Hst E1 E2 E3 E4 E5 E6 E7 E8. split; [|done].
  destruct (H6 Hs) as [Hr (n & Hn & Hk)].
  unfold nr_wf. cbn. rewrite E1, E4, E6, E7. do 5 (split; [congruence||done|]). split.
  - intros _. split; [done|]. by exists n.
  - rewrite Hn. intros [?|Hc]; [done|]. by apply E8.
Qed.

Lemma nr_stays s s' evt :
  nr_wf s -> state s <> STATE_ANSLP_CLOSE ->
  msn (base s') = msn (base s) -> max_lifetime s' = max_lifetime s -> (0 <= lifetime s' <= max_lifetime s')%Z ->
  stype (base s') = stype (base s) -> is_Some (rule (base s')) ->
  routing_info s' = routing_info s -> create_message s' = create_message s ->
  (nothing_installed s -> nothing_installed s') ->
  nr_wf (set_state (state s) s') /\ nr_step (state s) evt (state s).
Proof.
  intros Hwf **. apply nr_goes; try done; [constructor|]. intros Hc.
  pose proof Hwf as (_ & _ & _ & _ & _ & _ & Hno). auto.
Qed.

Lemma nr_pending_ok s w evt :
  nr_wf s -> event_valid evt -> state s = STATE_ANSLP_PENDING ->
  wp (handle_state_pending evt) (nr_ok s evt) (s, w).
Proof.
  intros Hwf Hv Hst. assert (Hnc : state s <> STATE_ANSLP_CLOSE) by (rewrite Hst; done).
  pose proof Hwf as (Hm & Hx & Hl & Ht & [r Hr] & Hun & Hno). destruct (Hun Hnc) as [Hri (n & Hn & Hk)].
  unfold handle_state_pending. do 2 wp_step.
  destruct (is_no_next_node_found_event evt || is_timer_of evt (state_timer s)) eqn:E1.
  { assert (Hends : is_timer evt = true \/ is_no_next_node_found_event evt = true).
    { apply orb_true_iff in E1 as [E|E]; [by right|left; by destruct evt]. }
    unfold pending_timeout. do 2 wp_step. destruct (create_counter s <? max_retries s)%Z.
    - unfold get_last_create_message. do 5 wp_step. cbn [create_message inc_create_counter set_create_counter].
      rewrite Hn. apply wp_asserted; [|done]. intros ? [= <-]. cbn beta iota. wp_step.
      destruct (kept_get _ _ Hk) as (c & v & Hc & Hvw & Hvi). unfold get_anslp_create. rewrite Hc.
      apply wp_deref; [|done]. intros ? [= <-]. wp_step.
      eapply (wp_save_auction_rule _ _ _ v r); [done|done|by rewrite Hvi|]. intros ks w1 _ Hks Ht1. cbv zeta.
      assert (Hend : forall s' w', s' = set_rule_of (Some (requested ks v r)) (inc_create_counter s) ->
        wp (start_state_timer (lifetime s) ;;; ret STATE_ANSLP_PENDING) (nr_ok s evt) (s', w')).
      { intros s' w' ->. wp_step. apply nr_wp_start_state_timer. intros id w3 Ht3. wp_step.
        rewrite <- Hst. apply (nr_stays s); try done. intros Hni ? [= <-]. exact (Hni r Hr). }
      destruct (check_participating _ _); [split|].
      + intros b w2 _ Ht2. by apply Hend.
      + intros e w2 _ Ht2. split; [left; by eexists|done].
      + by apply Hend.
    - wp_step. eapply wp_internal_error; [done|]. intros w2 Ht2. wp_step.
      split; [by apply nr_wf_closed|]. rewrite Hst. by apply nr_check_ends. }
  destruct (is_api_check evt) eqn:E2.
  2: { wp_step. rewrite <- Hst. by apply nr_wf_stays. }
  destruct evt; try discriminate. cbn [cast_objects]. wp_step. apply wp_deref; [|done]. intros ? [= <-].
  unfold pending_check. do 3 wp_step. rewrite Hr. apply wp_deref; [|done]. intros ? [= <-]. do 2 wp_step.
  destruct (prune_total objs r) as [[r' Ep]|Ep]; rewrite Ep; cbn beta iota.
  - do 5 wp_step. wp_step; [|split; [left; by eexists|done]]. wp_step. apply nr_wp_start_state_timer. intros id w2 Ht2. wp_step.
    apply (nr_goes s); try done; try (by eexists); [rewrite Hst; apply nr_checked|].
    intros _ ? [= <-]. rewrite (prune_responses _ _ _ Ep). apply (Hno (or_intror (or_introl Hst)) r Hr).
  - right. left. split_and!; [done|done|]. exists objs, rq, r. by rewrite <- Ep.
Qed.

Lemma nr_installing_ok s w evt :
  nr_wf s -> event_valid evt -> state s = STATE_ANSLP_PENDING_INSTALLING ->
  wp (handle_state_pending_installing evt) (nr_ok s evt) (s, w).
Proof.
  intros Hwf Hv Hst. assert (Hnc : state s <> STATE_ANSLP_CLOSE) by (rewrite Hst; done).
  pose proof Hwf as (Hm & Hx & Hl & Ht & [r Hr] & Hun & Hno). destruct (Hun Hnc) as [Hri (n & Hn & Hk)].
  assert (Hstay : wp (ret STATE_ANSLP_PENDING_INSTALLING) (nr_ok s evt) (s, w)).
  { apply wp_ret. rewrite <- Hst. by apply nr_wf_stays. }
  unfold handle_state_pending_installing. do 2 wp_step.
  destruct (is_timer_of evt (state_timer s)) eqn:E1.
  { unfold installing_timeout. do 2 wp_step. destruct (create_counter s <? max_retries s)%Z.
    - do 3 wp_step. rewrite Hr. wp_step; [|split; [left; by eexists|done]]. wp_step.
      apply nr_wp_start_state_timer. intros id w2 Ht2. wp_step. rewrite <- Hst. by apply (nr_stays s).
    - wp_step. eapply wp_internal_error; [done|]. intros w2 Ht2. wp_step.
      split; [by apply nr_wf_closed|]. rewrite Hst. apply nr_install_ends. by destruct evt. }
  destruct (is_api_check evt) eqn:E2; [done|]. destruct (is_api_install evt) eqn:E3; [|done].
  destruct evt; try discriminate. cbn [cast_objects]. wp_step. apply wp_deref; [|done]. intros ? [= <-].
  unfold installing_install, get_last_create_message. do 5 wp_step. rewrite Hn. apply wp_asserted; [|done].
  intros ? [= <-]. cbn beta iota. wp_step. rewrite Hr. apply wp_deref; [|done]. intros ? [= <-]. cbn beta iota.
  destruct (get_number_mspec_request_objects r =? length objs)%nat.
  - do 5 wp_step. apply wp_deref; [|done]. intros ? [= <-]. do 3 wp_step.
    apply nr_wp_start_state_timer. intros id w2 Ht2. wp_step. apply (nr_goes s); try done; try (by eexists); [|by intros []].
    rewrite Hst. apply nr_installed. auto.
  - do 3 wp_step.
    assert (Hend : forall w', wp (outside (send_message (create_response sc_permanent_failure fail_internal_error n)) ;;;
      start_state_timer (nr_response_timeout (config s)) ;;; ret STATE_ANSLP_PENDING_TEARDOWN)
      (nr_ok s (Api_install_event objs rq)) (set_lifetime 0 s, w')).
    { intros w'. do 3 wp_step. apply nr_wp_start_state_timer. intros id w2 Ht2. wp_step.
      apply (nr_goes s); try done; try (cbn; lia); [|by intros []]. rewrite Hst. apply nr_installed. auto. }
    destruct (0 <? get_number_mspec_response_objects r)%nat.
    + wp_step; [|split; [left; by eexists|done]]. apply Hend.
    + wp_step. apply Hend.
Qed.
(** The end of a session under way, from [s1] that differs from [s] only in
    its lifetime, sequence number and timer. *)
Lemma nr_remove_or_close_ok s s1 w evt :
  nr_wf s -> state s = STATE_ANSLP_AUCTIONING -> state s1 = STATE_ANSLP_AUCTIONING ->
  is_timer evt = true \/ is_anslp_refresh evt = true ->
  msn (base s1) = msn (base s) -> max_lifetime s1 = max_lifetime s -> (0 <= lifetime s1 <= max_lifetime s1)%Z ->
  stype (base s1) = stype (base s) -> rule (base s1) = rule (base s) ->
  routing_info s1 = routing_info s -> create_message s1 = create_message s ->
  wp remove_or_close (nr_ok s evt) (s1, w).
Proof.
  intros Hwf Hst Hst1 Hev E1 E2 E3 E4 E5 E6 E7.
  assert (Hnc : state s <> STATE_ANSLP_CLOSE) by (rewrite Hst; done).
  pose proof Hwf as (_ & _ & _ & _ & [r Hr] & _). rewrite Hr in E5.
  apply (nr_wp_remove_or_close _ _ _ r); [done|..].
  - intros id w2 Hlt Ht. apply (nr_goes s); try done; try (by eexists); try (by intros []); rewrite Hst; apply nr_auction_ends; auto.
  - intros e w2 Hlt Ht. split; [left; by eexists|cbn; congruence].
  - intros Hnil. apply (nr_goes s); try done; try (by eexists); try (by intros []); rewrite Hst; apply nr_auction_ends; auto.
Qed.

Lemma nr_auctioning_refresh_ok s w evt n c :
  nr_wf s -> event_valid evt -> state s = STATE_ANSLP_AUCTIONING -> ev_msg evt = Some n ->
  get_refresh evt = Some c -> wp (auctioning_refresh n c) (nr_ok s evt) (s, w).
Proof.
  intros Hwf Hv Hst Hn Hc. assert (Hnc : state s <> STATE_ANSLP_CLOSE) by (rewrite Hst; done).
  destruct (event_valid_anslp _ _ _ Hv Hc) as [_ Hb]. pose proof (body_valid_lifetime c Hb) as Hlt.
  pose proof (body_valid_msn c Hb) as Hmsn. change (is_u32 (refresh_get_msg_sequence_number c)) in Hmsn.
  change (is_u32 (refresh_get_session_lifetime c)) in Hlt.
  pose proof Hwf as (Hm & Hx & Hl & Ht & Hr & Hun & Hno). destruct (Hun Hnc) as [Hri (n0 & Hn0 & Hk)].
  assert (Hstay : forall w', wp (ret STATE_ANSLP_AUCTIONING) (nr_ok s evt) (s, w')).
  { intros w'. apply wp_ret. rewrite <- Hst. by apply nr_wf_stays. }
  unfold auctioning_refresh. cbv zeta. do 3 wp_step.
  assert (Hgo : forall lt w', (0 <= lt <= max_lifetime s)%Z ->
    wp (if negb (is_greater_than (refresh_get_msg_sequence_number c) (msn (base s))) then ret STATE_ANSLP_AUCTIONING
        else if (0 <? lt)%Z then
          update (set_lifetime lt) ;;;
          update (fun s => set_base (set_msn (refresh_get_msg_sequence_number c) (base s)) s) ;;;
          outside (send_message (create_success_response lt n)) ;;;
          start_state_timer lt ;;;
          ret STATE_ANSLP_AUCTIONING
        else if (lt =? 0)%Z then
          outside (send_message (create_success_response lt n)) ;;;
          remove_or_close
        else ret STATE_ANSLP_AUCTIONING) (nr_ok s evt) (s, w')).
  { intros lt w' Hlt'. destruct (negb _); [by apply Hstay|].
    destruct (Z.ltb_spec 0 lt); [|destruct (lt =? 0)%Z].
    - do 7 wp_step. apply nr_wp_start_state_timer. intros id w2 Ht2. wp_step. split.
      + unfold nr_wf; cbn. do 5 (split; [done||lia|]). split; [intros _; split; [done|by exists n0]|].
        rewrite Hn0. by intros [|[]].
      + rewrite Hst. constructor.
    - do 2 wp_step. apply nr_remove_or_close_ok; try done. right. unfold is_anslp_refresh. by rewrite Hc.
    - by apply Hstay. }
  apply wp_checked_lifetime.
  - intros Hov. cbn beta iota. apply Hgo. unfold is_u32 in *; lia.
  - intros Hle w2 Ht2. apply Hgo. unfold is_u32 in *; lia.
  - intros Hle w2 Ht2. apply Hstay.
Qed.

Lemma nr_auctioning_ok s w evt :
  nr_wf s -> event_valid evt -> state s = STATE_ANSLP_AUCTIONING ->
  wp (handle_state_auctioning evt) (nr_ok s evt) (s, w).
Proof.
  intros Hwf Hv Hst. assert (Hnc : state s <> STATE_ANSLP_CLOSE) by (rewrite Hst; done).
  pose proof Hwf as (Hm & Hx & Hl & Ht & Hr & Hun & Hno). destruct (Hun Hnc) as [Hri _].
  unfold handle_state_auctioning. do 2 wp_step.
  assert (Hrest : wp (if is_anslp_bidding evt then auctioning_bidding evt ;;; ret STATE_ANSLP_AUCTIONING
        else if is_api_bidding evt then send_bidding evt ;;; ret STATE_ANSLP_AUCTIONING
        else if is_timer_of evt (state_timer s) then auctioning_timeout
        else if is_timer evt then ret STATE_ANSLP_AUCTIONING
        else ret STATE_ANSLP_AUCTIONING) (nr_ok s evt) (s, w)).
  { assert (Hstay : forall w', wp (ret STATE_ANSLP_AUCTIONING) (nr_ok s evt) (s, w')).
    { intros w'. apply wp_ret. rewrite <- Hst. by apply nr_wf_stays. }
    destruct (is_anslp_bidding evt) eqn:E1.
    { wp_step. apply nr_wp_auctioning_bidding; [done|done|..].
      - intros w' _. apply Hstay.
      - intros e w' Ht'. split; [left; by eexists|done].
      - intros Hu. right. right. split; [done|]. split; [done|]. by right. }
    destruct (is_api_bidding evt) eqn:E2.
    { wp_step. apply nr_wp_send_bidding; [done|done|]. intros n es w' Ht'. wp_step.
      rewrite <- Hst. by apply (nr_stays s). }
    destruct (is_timer_of evt (state_timer s)) eqn:E3.
    { unfold auctioning_timeout. do 2 wp_step. apply nr_remove_or_close_ok; try done. left. by destruct evt. }
    destruct (is_timer evt); apply Hstay. }
  destruct (ev_msg evt) as [n|] eqn:En; [|done]. destruct (get_refresh evt) as [c|] eqn:Ec; [|done].
  by apply nr_auctioning_refresh_ok.
Qed.

Lemma nr_teardown_ok s w evt :
  nr_wf s -> event_valid evt -> state s = STATE_ANSLP_PENDING_TEARDOWN ->
  wp (handle_state_pending_teardown evt) (nr_ok s evt) (s, w).
Proof.
  intros Hwf Hv Hst. assert (Hnc : state s <> STATE_ANSLP_CLOSE) by (rewrite Hst; done).
  pose proof Hwf as (Hm & Hx & Hl & Ht & [r Hr] & Hun & Hno). destruct (Hun Hnc) as [Hri _].
  assert (Hstay : forall w', wp (ret STATE_ANSLP_PENDING_TEARDOWN) (nr_ok s evt) (s, w')).
  { intros w'. apply wp_ret. rewrite <- Hst. by apply nr_wf_stays. }
  unfold handle_state_pending_teardown. do 2 wp_step.
  destruct (is_timer_of evt (state_timer s)) eqn:E1.
  { unfold teardown_timeout. do 2 wp_step. destruct (create_counter s <? max_retries s)%Z.
    - do 3 wp_step. rewrite Hr. wp_step; [|split; [left; by eexists|done]]. wp_step.
      apply nr_wp_start_state_timer. intros id w2 Ht2. wp_step. rewrite <- Hst. by apply (nr_stays s).
    - wp_step. split; [by apply nr_wf_closed|]. rewrite Hst. apply nr_torn_down. left. by destruct evt. }
  destruct (is_api_check evt); [apply Hstay|]. destruct (is_api_install evt); [apply Hstay|].
  destruct (is_anslp_bidding evt); [apply Hstay|]. destruct (is_api_bidding evt) eqn:E2.
  { wp_step. apply nr_wp_send_bidding; [done|done|]. intros n es w' Ht'. wp_step.
    rewrite <- Hst. by apply (nr_stays s). }
  destruct (is_api_remove evt) eqn:E3; [|apply Hstay].
  unfold stop_state_timer. do 3 wp_step. split; [by apply nr_wf_closed|]. rewrite Hst. apply nr_torn_down. auto.
Qed.

Lemma nr_process_event_ok : refines_step (process_event (W := W)) state event_valid nr_wf nr_step nr_thrown nr_fault.
Proof.
  intros s w evt Hwf Hv.
  assert (Hh : wp (handle_event evt) (nr_ok s evt) (s, w)).
  { unfold handle_event. do 2 wp_step. cbn beta iota.
    destruct (state s) eqn:Hst; [by apply nr_close_ok|by apply nr_pending_ok|by apply nr_installing_ok
                                |by apply nr_auctioning_ok|by apply nr_teardown_ok]. }
  unfold wp in Hh. unfold process_event, bind. by destruct (handle_event evt (s, w)) as [[st|e|f] [s1 w1]].
Qed.

(** C12. The responder refines its protocol.  Whatever valid events a session
    that satisfies the invariant is given, and whatever the dispatcher
    answers, it follows the abstract transition relation [nr_step], never
    holds a lifetime above the configured maximum, keeps the CREATE it must
    answer and the way back to the initiator while it is under way, and is
    interrupted only by the exceptions [nr_thrown] and the faults
    [nr_fault] name. *)
Theorem nr_refines_protocol (evts : list event) (s : nr_session) (w : W)
  (Hwf : nr_wf s) (Hv : Forall event_valid evts) :
  refines_run process_event state nr_wf nr_step nr_thrown nr_fault evts s w.
Proof. eapply run_refines; [exact nr_process_event_ok|done..]. Qed.
(** ** What the session does, event by event. *)

(** From the handler of the state to [process_event]. *)
Lemma nr_wp_process_event evt s w Q :
  wp (match state s with
      | STATE_ANSLP_CLOSE => handle_state_close evt
      | STATE_ANSLP_PENDING => handle_state_pending evt
      | STATE_ANSLP_PENDING_INSTALLING => handle_state_pending_installing evt
      | STATE_ANSLP_AUCTIONING => handle_state_auctioning evt
      | STATE_ANSLP_PENDING_TEARDOWN => handle_state_pending_teardown evt
      end) (fun o sw => match o with
      | Normal st => Q (Normal tt) (set_state st (fst sw), snd sw)
      | Raised e => Q (Raised e) sw
      | Faulted f => Q (Faulted f) sw
      end) (s, w) ->
  wp (process_event evt) Q (s, w).
Proof.
  intros Hh. unfold process_event, handle_event. do 3 wp_step. eapply wp_mono; [exact Hh|].
  intros [st|e|f] [s' w']; cbn; auto.
Qed.

(** The lifetime granted to a request. *)
Definition granted s (lifetime : Z) : Z := Z.min lifetime (max_lifetime s).

(** A new REFRESH that is not refused: it is answered, and the
    session goes on or ends. *)
Lemma refresh_taken_run (s : nr_session) (w : W) (n : ntlp_msg) (b : bool) (c : anslp_msg) (r : auction_rule)
  (Q : outcome unit -> nr_session * W -> Prop)
  (Hst : state s = STATE_ANSLP_AUCTIONING) (Hc : get_refresh (Msg_event n b) = Some c) (Hr : rule (base s) = Some r)
  (Hlt : (0 <= Z.min (refresh_get_session_lifetime c) (max_lifetime s))%Z)
  (Hauth : unauthorized (max_lifetime s) n (refresh_get_session_lifetime c) w = false)
  (Hnew : is_greater_than (refresh_get_msg_sequence_number c) (msn (base s)) = true) :
  let L := granted s (refresh_get_session_lifetime c) in
  let answer := Sent (create_success_response L n) in
  ((0 < L)%Z -> forall id s' w', state s' = STATE_ANSLP_AUCTIONING -> lifetime s' = L ->
     msn (base s') = refresh_get_msg_sequence_number c -> rule (base s') = Some r ->
     trace w' = trace w ++ [answer; Timer_started (sid (base s)) (int32 L) id] -> Q (Normal tt) (s', w')) ->
  (L = 0%Z -> object_responses r <> [] -> forall id t s' w', state s' = STATE_ANSLP_PENDING_TEARDOWN ->
     trace w' = trace w ++ [answer; Rules_removed (own_id s) r; Timer_started (sid (base s)) t id] -> Q (Normal tt) (s', w')) ->
  (L = 0%Z -> object_responses r <> [] -> forall e s' w1 w',
     fst (remove_auction_rules (own_id s) (Some r) w1) = Raised (Installer_error e) ->
     trace w' = trace w ++ [answer] -> Q (Raised (Installer_error e)) (s', w')) ->
  (L = 0%Z -> object_responses r = [] -> forall s' w', state s' = STATE_ANSLP_CLOSE -> trace w' = trace w ++ [answer] ->
     Q (Normal tt) (s', w')) ->
  wp (process_event (Msg_event n b)) Q (s, w).
Proof.
  intros L answer HG HT HE HC. apply nr_wp_process_event. rewrite Hst. unfold handle_state_auctioning. do 2 wp_step.
  cbn [ev_msg]. rewrite Hc. unfold auctioning_refresh. cbv zeta. do 3 wp_step.
  apply wp_granted_lifetime; [|by rewrite Hauth]. change (Z.min (refresh_get_session_lifetime c) (max_lifetime s)) with L in *.
  intros _ w1 Ht1. cbn beta iota. rewrite Hnew. cbn [negb]. destruct (Z.ltb_spec 0 L).
  - do 7 wp_step. apply nr_wp_start_state_timer. intros id w3 Ht3. wp_step. apply (HG ltac:(done) id); try done.
    cbn [snd]. cbn in Ht3. unfold answer. trace_eq.
  - assert (EL : L = 0%Z) by lia. rewrite EL. cbn [Z.eqb]. rewrite <- EL. do 2 wp_step.
    apply (nr_wp_remove_or_close_known _ _ _ r); [done|..].
    + intros id w3 Hlr Ht3. apply (HT EL ltac:(intros E; by rewrite E in Hlr; cbn in Hlr; lia) id (int32 (nr_response_timeout (config s)))); [done|].
      cbn [snd]. unfold answer. trace_eq.
    + intros e w1' w3 Hlr He Ht3. apply (HE EL ltac:(intros E; by rewrite E in Hlr; cbn in Hlr; lia) e _ w1'); [exact He|].
      cbn [snd]. unfold answer. trace_eq.
    + intros Hnil. apply (HC EL Hnil); [done|]. cbn [snd]. unfold answer. trace_eq.
Qed.

(** One that is refused, or not new: the session stays as it is. *)
Lemma refresh_ignored_run (s : nr_session) (w : W) (n : ntlp_msg) (b : bool) (c : anslp_msg) (Q : outcome unit -> nr_session * W -> Prop)
  (no := unauthorized (max_lifetime s) n (refresh_get_session_lifetime c) w)
  (Hst : state s = STATE_ANSLP_AUCTIONING) (Hc : get_refresh (Msg_event n b) = Some c)
  (Hno : no = true \/ is_greater_than (refresh_get_msg_sequence_number c) (msn (base s)) = false)
  (HQ : forall w', trace w' = trace w ++ (if no then [Sent (create_error_response authorization_error n)] else []) -> Q (Normal tt) (s, w')) :
  wp (process_event (Msg_event n b)) Q (s, w).
Proof.
  assert (Hs : set_state STATE_ANSLP_AUCTIONING s = s) by (rewrite <- Hst; by destruct s).
  apply nr_wp_process_event. rewrite Hst. unfold handle_state_auctioning. do 2 wp_step. cbn [ev_msg]. rewrite Hc.
  unfold auctioning_refresh. cbv zeta. do 3 wp_step. apply wp_granted_lifetime; fold no; intros E w1 Ht1; rewrite E in *; cbn beta iota.
  - destruct Hno as [?| ->]; [done|]. cbn [negb]. wp_step. cbn [fst snd]. rewrite Hs. apply HQ. by rewrite app_nil_r.
  - wp_step. cbn [fst snd]. rewrite Hs. by apply HQ.
Qed.

(** C26. Every REFRESH in AUCTIONING.  One that is refused - the dispatcher
    does not authorize it, and its lifetime is within the maximum - is
    answered with an error, and one whose sequence number is not ahead of the
    last one is ignored: neither changes the session.  One that asks for a
    positive lifetime is granted that lifetime, up to the maximum: the session
    takes it over with the sequence number, answers success with the granted
    lifetime and restarts its timer.  One that asks for lifetime 0 is answered
    and ends the session: if any rules are installed their removal is asked
    for and awaited, unless the installer throws, and if none are the session
    is closed. *)
Theorem nr_refresh_cases (s : nr_session) (w : W) (n : ntlp_msg) (b : bool) (c : anslp_msg) (r : auction_rule)
  (Hwf : nr_wf s) (Hst : state s = STATE_ANSLP_AUCTIONING) (Hv : event_valid (Msg_event n b))
  (Hc : get_refresh (Msg_event n b) = Some c) (Hr : rule (base s) = Some r) :
  let lt := refresh_get_session_lifetime c in
  let L := granted s lt in
  let m := refresh_get_msg_sequence_number c in
  let answer := Sent (create_success_response L n) in
  wp (process_event (Msg_event n b)) (fun o sw => let s' := fst sw in let t := trace (snd sw) in
    if unauthorized (max_lifetime s) n lt w then
      o = Normal tt /\ s' = s /\ t = trace w ++ [Sent (create_error_response authorization_error n)]
    else if negb (is_greater_than m (msn (base s))) then o = Normal tt /\ s' = s /\ t = trace w
    else if (0 <? L)%Z then
      o = Normal tt /\ state s' = STATE_ANSLP_AUCTIONING /\ lifetime s' = L /\ msn (base s') = m /\ rule (base s') = Some r
      /\ exists id, t = trace w ++ [answer; Timer_started (sid (base s)) (int32 L) id]
    else if (length (object_responses r) =? 0)%nat then o = Normal tt /\ is_final s' = true /\ t = trace w ++ [answer]
    else
      (o = Normal tt /\ state s' = STATE_ANSLP_PENDING_TEARDOWN
       /\ exists id k, t = trace w ++ [answer; Rules_removed (own_id s) r; Timer_started (sid (base s)) k id])
      \/ (exists e w1, o = Raised (Installer_error e)
           /\ fst (remove_auction_rules (own_id s) (Some r) w1) = Raised (Installer_error e) /\ t = trace w ++ [answer])) (s, w).
Proof.
  intros lt L m answer. pose proof Hwf as (_ & Hx & _).
  destruct (event_valid_anslp _ _ _ Hv Hc) as [_ Hb]. pose proof (body_valid_lifetime c Hb) as Hlt.
  change (is_u32 lt) in Hlt. assert (HL : (0 <= L)%Z) by (unfold L, granted, is_u32 in *; lia).
  destruct (unauthorized (max_lifetime s) n lt w) eqn:Ea; [|destruct (is_greater_than m (msn (base s))) eqn:Eg; cbn [negb]].
  - apply (refresh_ignored_run s w n b c); [done..|by left|]. change (refresh_get_session_lifetime c) with lt. rewrite Ea. intros w' Ht. by split_and!.
  - apply (refresh_taken_run s w n b c r _ Hst Hc Hr HL Ea Eg); fold lt L answer.
    + intros HLp id s' w' H1' H2' H3' H4' Ht. cbn [fst snd]. rewrite (proj2 (Z.ltb_lt _ _) HLp). split_and!; [done..|]. by exists id.
    + intros EL Hresp id k s' w' H1' Ht. cbn [fst snd]. rewrite EL. cbn [Z.ltb Z.compare].
      destruct (object_responses r) eqn:Er; [done|]. cbn [length Nat.eqb]. left. split_and!; [done|done|]. by exists id, k.
    + intros EL Hresp e s' w1 w' He Ht. cbn [fst snd]. rewrite EL. cbn [Z.ltb Z.compare].
      destruct (object_responses r) eqn:Er; [done|]. cbn [length Nat.eqb]. right. exists e, w1. by split_and!.
    + intros EL Hresp s' w' Hs' Ht. cbn [fst snd]. rewrite EL, Hresp. cbn [Z.ltb Z.compare length Nat.eqb].
      split_and!; [done| |done]. unfold is_final. by apply bool_decide_eq_true_2.
  - apply (refresh_ignored_run s w n b c); [done..|by right|]. change (refresh_get_session_lifetime c) with lt. rewrite Ea, app_nil_r. intros w' Ht. by split_and!.
Qed.
(** Authorization can be bypassed.  With a dispatcher that authorizes
    nobody, a REFRESH within the maximum lifetime is refused, as it should
    be; one that asks for more than the maximum is accepted and extends the
    session by the maximum: the exception that cuts the lifetime down leaves
    the block before the authorization is checked. *)
Theorem nr_overlong_refresh_unauthorized (s : nr_session) (w : W) (n : ntlp_msg) (b : bool) (c : anslp_msg)
  (Hst : state s = STATE_ANSLP_AUCTIONING) (Hmax : (0 < max_lifetime s)%Z)
  (Hc : get_refresh (Msg_event n b) = Some c)
  (Hnew : is_greater_than (refresh_get_msg_sequence_number c) (msn (base s)) = true)
  (Hdeny : fst (is_authorized n w) = Normal false) :
  wp (process_event (Msg_event n b)) (fun o sw => o = Normal tt /\
    if (refresh_get_session_lifetime c <=? max_lifetime s)%Z then
      fst sw = s /\ trace (snd sw) = trace w ++ [Sent (create_error_response authorization_error n)]
    else
      state (fst sw) = STATE_ANSLP_AUCTIONING /\ lifetime (fst sw) = max_lifetime s
      /\ exists id, trace (snd sw) = trace w ++ [Sent (create_success_response (max_lifetime s) n);
           Timer_started (sid (base s)) (int32 (max_lifetime s)) id]) (s, w).
Proof.
  apply nr_wp_process_event. rewrite Hst. unfold handle_state_auctioning. do 2 wp_step.
  cbn [ev_msg]. rewrite Hc. unfold auctioning_refresh. cbv zeta. do 3 wp_step. rewrite Z.leb_antisym.
  apply wp_checked_denied; [done|..].
  - intros Hov. rewrite (proj2 (Z.ltb_lt _ _) Hov). cbn [negb]. rewrite Hnew. cbn [negb].
    rewrite (proj2 (Z.ltb_lt _ _) Hmax).
    do 7 wp_step. apply nr_wp_start_state_timer. intros id w3 Ht3. wp_step. split_and!; [done..|].
    exists id. cbn [snd]. cbn in Ht3. trace_eq.
  - intros Hle w1 Ht1. rewrite (proj2 (Z.ltb_ge _ _) Hle). wp_step. cbn [fst snd negb].
    split_and!; [done|rewrite <- Hst; by destruct s|trace_eq].
Qed.

(** The MSPEC objects of an event that become responses. *)
Lemma mspecs_of_responses r :
  Forall (fun kv => mspec_wf (snd kv)) (object_responses r) ->
  map (fun kv : mspec_rule_key * anslp_object => object_copy (snd kv)) (object_responses r)
  = map snd (object_responses r).
Proof. apply map_copy_snd. Qed.

(** A success response that carries the rule's responses. *)
Lemma success_with_responses_view n c lt r :
  kept C_create n -> get_anslp_create n = Some c -> is_u32 lt -> objs_wf (object_responses r) ->
  exists b v, get_anslp_msg (success_with_responses n lt r) = Some b /\ msg_cls b = C_response /\ msg_view b v
    /\ v = mk_view (Some (new_information_code sc_success suc_successfully_processed 0 tr_mandatory true)) None None
             (option_map (fun v => new_msg_sequence_number v tr_mandatory true) (if has_msg_sequence_number c then Some (msn_of c) else None))
             (Some (new_session_lifetime lt tr_mandatory true)) (map snd (object_responses r)).
Proof.
  intros (c' & v & Hn & Hcls & Hv & _) Hc Hlt [Hwf Hlen]. unfold get_anslp_create, get_anslp in Hc.
  rewrite Hn, decide_True in Hc by done. injection Hc as ->.
  destruct (create_success_response_view n lt c v Hn Hv Hlt) as (b & Hb & Hbc & Hbv).
  unfold success_with_responses, update_msg. rewrite Hb. rewrite map_copy_snd by done.
  assert (Hm : Forall mspec_wf (map snd (object_responses r))).
  { apply Forall_map. eapply Forall_impl; [exact Hwf|]. done. }
  pose proof (set_mspecs_view _ b _ Hbv Hm ltac:(cbn; rewrite length_map; lia)) as Hv2.
  eexists _, _. split; [done|]. split; [by rewrite set_mspecs_cls|]. split; [exact Hv2|done].
Qed.

(** What it says. *)
Lemma success_with_responses_says n c lt r :
  kept C_create n -> get_anslp_create n = Some c -> is_u32 lt -> objs_wf (object_responses r) ->
  exists b, get_anslp_response (success_with_responses n lt r) = Some b
    /\ response_is_success b = true /\ response_get_session_lifetime b = lt
    /\ (has_msg_sequence_number c = true -> is_response_to_create b c = true)
    /\ response_get_mspec_objects b = Normal (map snd (object_responses r)).
Proof.
  intros Hk Hc Hlt Ho. destruct (success_with_responses_view n c lt r Hk Hc Hlt Ho) as (b & v & Hb & Hcls & Hv2 & ->).
  exists b. unfold get_anslp_response, get_anslp. rewrite Hb, decide_True by done. split; [done|].
  destruct (msg_view_get _ _ Hv2) as (E1 & _ & _ & E4 & E5). cbn in E1, E4, E5.
  unfold response_is_success, response_get_session_lifetime, is_response_to_create, response_get_msg_sequence_number.
  rewrite E1, E4, E5. split_and!; [done|done| |].
  - intros ->. cbn. change (create_get_msg_sequence_number c) with (msn_of c). apply Z.eqb_refl.
  - by rewrite (response_get_mspec_view _ _ Hv2).
Qed.

(** The application confirms every request: the rule stays as it is and is
    handed over for installation. *)
Lemma check_reported_run (s : nr_session) (w : W) (objs : objectList_t) (rq : option queue) (r : auction_rule)
  (Q : outcome unit -> nr_session * W -> Prop)
  (Hst : state s = STATE_ANSLP_PENDING) (Hr : rule (base s) = Some r)
  (Hall : Forall (fun kv => confirmed objs (fst kv) = true) (object_requests r))
  (HQ : forall id s' w', state s' = STATE_ANSLP_PENDING_INSTALLING -> lifetime s' = lifetime s ->
     create_message s' = create_message s -> rule (base s') = Some r ->
     trace w' = trace w ++ [Rules_installed (own_id s) r; Timer_started (sid (base s)) (int32 (lifetime s)) id] ->
     Q (Normal tt) (s', w'))
  (HE : forall e s' w1 w', fst (install_auction_rules (own_id s) (Some r) w1) = Raised (Installer_error e) ->
     trace w' = trace w -> Q (Raised (Installer_error e)) (s', w')) :
  wp (process_event (Api_check_event objs rq)) Q (s, w).
Proof.
  apply nr_wp_process_event. rewrite Hst. unfold handle_state_pending. do 2 wp_step.
  cbn [is_no_next_node_found_event is_timer_of is_api_check cast_objects orb]. wp_step. apply wp_deref; [|done].
  intros ? [= <-]. unfold pending_check. do 3 wp_step. rewrite Hr. apply wp_deref; [|done]. intros ? [= <-]. do 2 wp_step.
  rewrite (proj2 (prune_keeps_confirmed objs r) Hall). cbn beta iota. do 5 wp_step.
  eapply wp_may_throw_known; [apply install_does| |intros e w1 He Ht1; by apply (HE e _ w)].
  intros [] w1 Ht1. wp_step. apply nr_wp_start_state_timer. intros id w2 Ht2. wp_step. apply (HQ id _ w2); try done. cbn in Ht2. trace_eq.
Qed.

(** The application reports as many objects as were requested. *)
Lemma install_reported_run (s : nr_session) (w : W) (objs : objectList_t) (rq : option queue)
  (n : ntlp_msg) (c : anslp_msg) (r : auction_rule) (Q : outcome unit -> nr_session * W -> Prop)
  (Hwf : nr_wf s) (Hst : state s = STATE_ANSLP_PENDING_INSTALLING) (Ho : objs_wf objs)
  (Hn : create_message s = Some n) (Hc : get_anslp_create n = Some c) (Hr : rule (base s) = Some r)
  (Hlen : (length (object_requests r) =? length objs)%nat = true)
  (HQ : forall ks id s' w', let r2 := mk_rule (object_requests r) (with_entries ks (map snd objs) []) in
     length ks = length objs -> objs_wf (object_responses r2) ->
     state s' = STATE_ANSLP_AUCTIONING -> lifetime s' = lifetime s -> rule (base s') = Some r2 ->
     trace w' = trace w ++ [Sent (success_with_responses n (lifetime s) r2); Timer_started (sid (base s)) (int32 (lifetime s)) id] ->
     Q (Normal tt) (s', w')) :
  wp (process_event (Api_install_event objs rq)) Q (s, w).
Proof.
  pose proof Hwf as (_ & Hx & Hl & _ & _ & Hun & Hno). specialize (Hno ltac:(auto) r Hr).
  apply nr_wp_process_event. rewrite Hst. unfold handle_state_pending_installing.
  do 2 wp_step. cbn [is_timer_of is_api_check is_api_install cast_objects]. wp_step. apply wp_deref; [|done].
  intros ? [= <-]. unfold installing_install, get_last_create_message. do 5 wp_step. rewrite Hn.
  apply wp_asserted; [|done]. intros ? [= <-]. cbn beta iota. wp_step. rewrite Hr. apply wp_deref; [|done].
  intros ? [= <-]. cbn beta iota. unfold get_number_mspec_request_objects, get_number_mspec_response_objects. rewrite Hlen.
  wp_step. apply wp_set_reponse_objects_exact. intros ks w1 Hks Ht1. rewrite Hno.
  destruct Ho as [Hof Hol]. rewrite map_copy_snd by done. do 3 wp_step. apply wp_deref; [|done]. intros ? [= <-].
  do 3 wp_step. apply nr_wp_start_state_timer. intros id w3 Ht3. wp_step.
  set (r2 := mk_rule (object_requests r) (with_entries ks (map snd objs) [])).
  assert (Hr2 : objs_wf (object_responses r2)).
  { split.
    - apply with_entries_values; [|constructor]. apply Forall_map. eapply Forall_impl; [exact Hof|]. done.
    - pose proof (with_entries_length ks (map snd objs) []). cbn in *. rewrite length_map in *. lia. }
  apply (HQ ks id _ w3); try done. cbn in Ht3. trace_eq.
Qed.

(** The auctioning application reports what it installed.  If it
    installed as many objects as were requested, the objects become the
    responses of the rule, the initiator is sent one RESPONSE - a success
    that answers its CREATE, grants the lifetime of the session and carries
    exactly the installed objects - and the session is AUCTIONING.  If not,
    the initiator is told of an internal error and the session goes to
    PENDING_TEARDOWN with lifetime 0; no rule is removed at this point, since
    the rule has no responses yet. *)
Theorem nr_install_reported (s : nr_session) (w : W) (objs : objectList_t) (rq : option queue)
  (n : ntlp_msg) (c : anslp_msg) (r : auction_rule)
  (Hwf : nr_wf s) (Hst : state s = STATE_ANSLP_PENDING_INSTALLING) (Ho : objs_wf objs)
  (Hn : create_message s = Some n) (Hc : get_anslp_create n = Some c) (Hr : rule (base s) = Some r) :
  wp (process_event (Api_install_event objs rq)) (fun o sw => o = Normal tt /\
    if (length (object_requests r) =? length objs)%nat then
      state (fst sw) = STATE_ANSLP_AUCTIONING
      /\ exists ks answer b id, length ks = length objs
        /\ rule (base (fst sw)) = Some (mk_rule (object_requests r) (with_entries ks (map snd objs) []))
        /\ trace (snd sw) = trace w ++ [Sent answer; Timer_started (sid (base s)) (int32 (lifetime s)) id]
        /\ get_anslp_response answer = Some b /\ response_is_success b = true
        /\ response_get_session_lifetime b = lifetime s
        /\ (has_msg_sequence_number c = true -> is_response_to_create b c = true)
        /\ response_get_mspec_objects b = Normal (map snd (with_entries ks (map snd objs) []))
    else
      state (fst sw) = STATE_ANSLP_PENDING_TEARDOWN /\ lifetime (fst sw) = 0%Z
      /\ exists t id, trace (snd sw)
           = trace w ++ [Sent (create_response sc_permanent_failure fail_internal_error n);
                         Timer_started (sid (base s)) t id]) (s, w).
Proof.
  pose proof Hwf as (_ & Hx & Hl & _ & _ & Hun & Hno). specialize (Hno ltac:(auto) r Hr).
  destruct Hun as [_ (n' & Hn' & Hk)]; [by rewrite Hst|]. rewrite Hn in Hn'. injection Hn' as <-.
  destruct (length (object_requests r) =? length objs)%nat eqn:Hlen.
  - eapply (install_reported_run s w objs rq n c r); [done..|]. intros ks id s' w' r2 Hks Hr2 Hs' Hl' Hru Ht. cbn [fst snd].
    split; [done|]. split; [done|].
    destruct (success_with_responses_says n c (lifetime s) r2) as (b & B1 & B2 & B3 & B4 & B5);
      [done|done|unfold is_u32 in *; lia|done|].
    by exists ks, (success_with_responses n (lifetime s) r2), b, id.
  - apply nr_wp_process_event. rewrite Hst. unfold handle_state_pending_installing.
    do 2 wp_step. cbn [is_timer_of is_api_check is_api_install cast_objects]. wp_step. apply wp_deref; [|done].
    intros ? [= <-]. unfold installing_install, get_last_create_message. do 5 wp_step. rewrite Hn.
    apply wp_asserted; [|done]. intros ? [= <-]. cbn beta iota. wp_step. rewrite Hr. apply wp_deref; [|done].
    intros ? [= <-]. cbn beta iota. unfold get_number_mspec_request_objects, get_number_mspec_response_objects. rewrite Hlen.
    do 3 wp_step. rewrite Hno. cbn [length]. change (0 <? 0)%nat with false. do 4 wp_step.
    apply nr_wp_start_state_timer. intros id w2 Ht2. wp_step. split_and!; try done. cbn [snd]. cbn in Ht2.
    do 2 eexists. trace_eq.
Qed.
(** What a CREATE makes a fresh session do, in every case. *)
Definition created (s : nr_session) (w : W) (n : ntlp_msg) (c : anslp_msg) (v : view) (o : outcome unit) (sw : nr_session * W) : Prop :=
  let s' := fst sw in let t := trace (snd sw) in
  let lt := create_get_session_lifetime c in let L := granted s lt in
  let opened := lifetime s' = L /\ msn (base s') = create_get_msg_sequence_number c /\ create_message s' = Some n in
  let answered := opened /\ state s' = STATE_ANSLP_AUCTIONING /\ rule (base s') = Some new_auction_rule in
  let answer := Sent (success_with_responses n L new_auction_rule) in
  let started id := Timer_started (sid (base s)) (int32 L) id in
  let failed := is_final s' = true /\ t = trace w ++ [Sent (create_response sc_permanent_failure fail_configuration_failed n)] in
  if unauthorized (max_lifetime s) n lt w then
    o = Normal tt /\ is_final s' = true /\ t = trace w ++ [Sent (create_error_response authorization_error n)]
  else if (L <=? 0)%Z then o = Normal tt /\ failed
  else match downcast_mri (get_mri n), v_inf v with
  | None, _ => o = Raised (Request_error no_path_coupled_mri) /\ t = trace w
  | Some _, Some _ => o = Faulted Null_dereference /\ t = trace w
  | Some _, None => o = Normal tt /\ exists ks, length ks = length (v_ipap v) /\
      let reqs := with_entries ks (v_ipap v) [] in let check := d_check (own_id s) reqs in
      if check_participating st_receiver (create_get_selection_auctioning_entities c) then
        (says w check (Normal true) /\ opened /\ state s' = STATE_ANSLP_PENDING /\ rule (base s') = Some (mk_rule reqs [])
         /\ exists id, t = trace w ++ [Checked (own_id s) reqs; started id])
        \/ (says w check (Normal false) /\ answered /\ exists id, t = trace w ++ [Checked (own_id s) reqs; answer; started id])
        \/ ((exists e, says w check (Raised (Installer_error e))) /\ failed)
      else answered /\ exists id, t = trace w ++ [answer; started id]
  end.

Lemma create_cases_run (s : nr_session) (w : W) (n : ntlp_msg) (b : bool) (c : anslp_msg) (v : view)
  (Hwf : nr_wf s) (Hst : state s = STATE_ANSLP_CLOSE) (Hnew : create_message s = None)
  (Hv : event_valid (Msg_event n b)) (Hc : get_create (Msg_event n b) = Some c) (Hcv : msg_view c v) :
  wp (process_event (Msg_event n b)) (created s w n c v) (s, w).
Proof.
  unfold created. cbv zeta. set (lt := create_get_session_lifetime c). set (L := granted s lt). pose proof Hwf as (_ & Hx & _ & Ht & [r Hr] & _ & Hno).
  specialize (Hno ltac:(auto) r Hr).
  pose proof (event_valid_stored C_create _ n c Hv eq_refl Hc) as Hk.
  apply nr_wp_process_event. rewrite Hst. unfold handle_state_close. cbn [ev_msg]. rewrite Hc.
  unfold close_create. do 6 wp_step. cbv zeta. wp_step. set (s1 := set_response_timeout _ _). fold lt.
  apply wp_granted_lifetime; intros Ea w1 Ht1; rewrite Ea; cbn beta iota.
  2: { wp_step. by split_and!. }
  change (Z.min lt (max_lifetime s)) with L. wp_step. rewrite (stored_copy C_create) by done. wp_step.
  unfold set_last_create_message. do 3 wp_step. change (create_message s1) with (create_message s). rewrite Hnew.
  wp_step. cbn beta iota. rewrite Z.ltb_antisym. destruct (L <=? 0)%Z eqn:EL; cbn [negb].
  { unfold configuration_failed. do 3 wp_step. cbn [fst snd]. split_and!; [done|done|]. trace_eq. }
  do 5 wp_step. unfold close_open. wp_step. destruct (downcast_mri (get_mri n)) as [p|] eqn:Hp; cbn [is_some].
  2: { wp_step. by split. }
  do 2 wp_step. apply (wp_save_auction_rule _ _ _ v r); [done..| |].
  { intros Hi. destruct (v_inf v); [|done]. by split. }
  unfold requested. rewrite Hno.
  intros ks w2 Hvi Hks Ht2. cbv zeta. rewrite Hvi. match goal with |- context [check_participating ?t _] =>
    change t with (stype (base s)) end. rewrite Ht. destruct (check_participating _ _) eqn:Ep; [split|].
  - intros [] w3 Hsays Ht3; cbn beta iota; apply says_before with (w := w) in Hsays; try done.
    + do 3 wp_step. apply nr_wp_start_state_timer. intros id w4 Ht4. wp_step. cbn [fst snd]. split; [done|].
      exists ks. split; [done|]. left. split_and!; try done. exists id. cbn in Ht4, Ht3. trace_eq.
    + do 5 wp_step. apply nr_wp_start_state_timer. intros id w4 Ht4. wp_step. cbn [fst snd]. split; [done|].
      exists ks. split; [done|]. right. left. split_and!; try done. exists id. cbn in Ht4, Ht3. trace_eq.
  - intros e w3 Hsays Ht3. unfold configuration_failed. do 3 wp_step. cbn [fst snd]. split; [done|].
    exists ks. split; [done|]. right. right. split; [exists e; by eapply says_before|]. split; [done|]. trace_eq.
  - cbn beta iota. do 5 wp_step. apply nr_wp_start_state_timer. intros id w4 Ht4. wp_step. cbn [fst snd].
    split; [done|]. exists ks. split; [done|]. split_and!; try done. exists id. cbn in Ht4. trace_eq.
Qed.

(** C24. A CREATE arrives at a fresh session.  If it is refused - the
    dispatcher does not authorize it, and its lifetime is within the maximum -
    or if the lifetime it is granted, its own up to the maximum, is 0, it is
    answered with an error and the session stays closed.  Otherwise, on a
    flow that is not path-coupled the exception leaves the session, unanswered,
    and a message that carries an information code ends the program, by a
    failed cast.  In every other case the session takes over the lifetime and
    the sequence number, and its rule gets the MSPEC objects of the message as
    requests, each under a fresh key.  If the message selects this node, the
    requests go to the auctioning application for a check, which decides: the
    session waits in PENDING, or, when the application does not check, is
    AUCTIONING at once with an empty rule, or, when it throws, answers with an
    error and stays closed.  If the message does not select this node, nobody
    is asked and the session is AUCTIONING at once. *)
Theorem nr_create_cases (s : nr_session) (w : W) (n : ntlp_msg) (b : bool) (c : anslp_msg) (v : view)
  (Hwf : nr_wf s) (Hst : state s = STATE_ANSLP_CLOSE) (Hnew : create_message s = None)
  (Hv : event_valid (Msg_event n b)) (Hc : get_create (Msg_event n b) = Some c) (Hcv : msg_view c v) :
  wp (process_event (Msg_event n b)) (created s w n c v) (s, w).
Proof. exact (create_cases_run s w n b c v Hwf Hst Hnew Hv Hc Hcv). Qed.
End NrSpec.
