(* ===== verification/NfSession.v ===== *)
(** * The forwarder's session: include/nf_session.h and src/nf_session.cpp

    The state machine of a node in the middle of the path: CLOSE,
    PENDING_CHECK (its own auctioning application checks the objects), PENDING
    (the CREATE went on to the responder), PENDING_INSTALLING (the path has
    answered, the local application installs), AUCTIONING, PENDING_TEARDOWN.
    It sends requests on with the MRI towards the responder and RESPONSE
    messages on as they come. *)
From S2P Require Import Prelude Outcome StdMap External Objects Store Messages SessionId NtlpMsg AuctionRule Events Session.

Inductive state_t :=
  | STATE_ANSLP_CLOSE
  | STATE_ANSLP_PENDING_CHECK
  | STATE_ANSLP_PENDING
  | STATE_ANSLP_PENDING_INSTALLING
  | STATE_ANSLP_AUCTIONING
  | STATE_ANSLP_PENDING_TEARDOWN.

#[export] Instance state_eq_dec : EqDecision state_t.
Proof. solve_decision. Defined.

Section NfSession.
Context `{Libs}.

(** What the session reads of the configuration (include/anslp_config.h). *)
Record nf_config := mk_nf_config { nf_max_session_lifetime : Z }.

(** The attributes of [nf_session]; [proxy_mode] and [create_counter] are
    never read. *)
Record nf_session := mk_nf {
  base : session_base;
  state : state_t;
  config : nf_config;
  msn_bidding : Z;
  lifetime : Z;
  max_lifetime : Z;
  response_timeout : Z;
  state_timer : timer;
  response_timer : timer;
  ni_mri : option mri_pathcoupled;
  nr_mri : option mri_pathcoupled;
  create_message : option ntlp_msg;
  refresh_message : option ntlp_msg;
  response_message : option event }.

Definition set_base (v : session_base) (s : nf_session) : nf_session :=
  mk_nf v (state s) (config s) (msn_bidding s) (lifetime s) (max_lifetime s)
    (response_timeout s) (state_timer s) (response_timer s) (ni_mri s) (nr_mri s)
    (create_message s) (refresh_message s) (response_message s).
Definition set_state (v : state_t) (s : nf_session) : nf_session :=
  mk_nf (base s) v (config s) (msn_bidding s) (lifetime s) (max_lifetime s)
    (response_timeout s) (state_timer s) (response_timer s) (ni_mri s) (nr_mri s)
    (create_message s) (refresh_message s) (response_message s).
Definition set_config (v : nf_config) (s : nf_session) : nf_session :=
  mk_nf (base s) (state s) v (msn_bidding s) (lifetime s) (max_lifetime s)
    (response_timeout s) (state_timer s) (response_timer s) (ni_mri s) (nr_mri s)
    (create_message s) (refresh_message s) (response_message s).
Definition set_msn_bidding (v : Z) (s : nf_session) : nf_session :=
  mk_nf (base s) (state s) (config s) v (lifetime s) (max_lifetime s) (response_timeout s)
    (state_timer s) (response_timer s) (ni_mri s) (nr_mri s) (create_message s)
    (refresh_message s) (response_message s).
Definition set_lifetime (v : Z) (s : nf_session) : nf_session :=
  mk_nf (base s) (state s) (config s) (msn_bidding s) v (max_lifetime s) (response_timeout
    s) (state_timer s) (response_timer s) (ni_mri s) (nr_mri s) (create_message s)
    (refresh_message s) (response_message s).
Definition set_max_lifetime (v : Z) (s : nf_session) : nf_session :=
  mk_nf (base s) (state s) (config s) (msn_bidding s) (lifetime s) v (response_timeout s)
    (state_timer s) (response_timer s) (ni_mri s) (nr_mri s) (create_message s)
    (refresh_message s) (response_message s).
Definition set_response_timeout (v : Z) (s : nf_session) : nf_session :=
  mk_nf (base s) (state s) (config s) (msn_bidding s) (lifetime s) (max_lifetime s) v
    (state_timer s) (response_timer s) (ni_mri s) (nr_mri s) (create_message s)
    (refresh_message s) (response_message s).
Definition set_state_timer (v : timer) (s : nf_session) : nf_session :=
  mk_nf (base s) (state s) (config s) (msn_bidding s) (lifetime s) (max_lifetime s)
    (response_timeout s) v (response_timer s) (ni_mri s) (nr_mri s) (create_message s)
    (refresh_message s) (response_message s).
Definition set_response_timer (v : timer) (s : nf_session) : nf_session :=
  mk_nf (base s) (state s) (config s) (msn_bidding s) (lifetime s) (max_lifetime s)
    (response_timeout s) (state_timer s) v (ni_mri s) (nr_mri s) (create_message s)
    (refresh_message s) (response_message s).
Definition set_ni_mri (v : option mri_pathcoupled) (s : nf_session) : nf_session :=
  mk_nf (base s) (state s) (config s) (msn_bidding s) (lifetime s) (max_lifetime s)
    (response_timeout s) (state_timer s) (response_timer s) v (nr_mri s) (create_message
    s) (refresh_message s) (response_message s).
Definition set_nr_mri (v : option mri_pathcoupled) (s : nf_session) : nf_session :=
  mk_nf (base s) (state s) (config s) (msn_bidding s) (lifetime s) (max_lifetime s)
    (response_timeout s) (state_timer s) (response_timer s) (ni_mri s) v (create_message
    s) (refresh_message s) (response_message s).
Definition set_create_message (v : option ntlp_msg) (s : nf_session) : nf_session :=
  mk_nf (base s) (state s) (config s) (msn_bidding s) (lifetime s) (max_lifetime s)
    (response_timeout s) (state_timer s) (response_timer s) (ni_mri s) (nr_mri s) v
    (refresh_message s) (response_message s).
Definition set_refresh_message (v : option ntlp_msg) (s : nf_session) : nf_session :=
  mk_nf (base s) (state s) (config s) (msn_bidding s) (lifetime s) (max_lifetime s)
    (response_timeout s) (state_timer s) (response_timer s) (ni_mri s) (nr_mri s)
    (create_message s) v (response_message s).
Definition set_response_message (v : option event) (s : nf_session) : nf_session :=
  mk_nf (base s) (state s) (config s) (msn_bidding s) (lifetime s) (max_lifetime s)
    (response_timeout s) (state_timer s) (response_timer s) (ni_mri s) (nr_mri s)
    (create_message s) (refresh_message s) v.

(** The constructor; [random] is the random number BIDDING messages are
    counted from. *)
Definition new_nf_session (id : session_id) (conf : nf_config) (random : Z) : nf_session :=
  mk_nf (new_session id st_forwarder 0) STATE_ANSLP_CLOSE conf random 0 0 0 0%Z 0%Z None None None None None.

Definition is_final (s : nf_session) : bool := bool_decide (state s = STATE_ANSLP_CLOSE).

(** [create_mri_with_dest] and [create_mri_inverted]. *)
Definition create_mri_with_dest (m : mri_pathcoupled) : outcome mri_pathcoupled :=
  if get_downstream m then
    Normal (new_mri_pathcoupled (get_sourceaddress m) (get_sourceprefix m) (get_sourceport m)
              (get_destaddress m) (get_destprefix m) (get_destport m) (get_protocol m)
              (get_flowlabel m) (get_ds_field m) (get_spi m) (get_downstream m))
  else Faulted Assertion_failed.
Definition create_mri_inverted (m : mri_pathcoupled) : outcome mri_pathcoupled :=
  if get_downstream m then Normal (pc_invertDirection m) else Faulted Assertion_failed.

(** [create_msg_for_nr], [create_msg_for_ni]. *)
Definition create_msg_for_nr (n : ntlp_msg) : outcome ntlp_msg := copy_for_forwarding None n.
Definition create_msg_for_ni (n : ntlp_msg) : outcome ntlp_msg := copy_for_forwarding None n.

Section Handlers.
Context {W : Type} `{!Dispatcher W} `{!Platform W}.

Definition NF : Type -> Type := M (nf_session * W).

Definition own_id (s : nf_session) : list Ascii.ascii := to_string (sid (base s)).

Definition set_rule_of (r : option auction_rule) (s : nf_session) : nf_session :=
  set_base (set_rule r (base s)) s.

Definition next_msn : NF Z :=
  s <- the ;;
  let '(n, b) := next_msg_sequence_number (base s) in
  update (set_base b) ;;; ret n.
Definition next_msg_bidding_sequence_number : NF Z :=
  s <- the ;;
  let n := u32 (msn_bidding s + 1) in
  update (set_msn_bidding n) ;;; ret n.

(** The asserted getters. *)
Definition get_last_create_message : NF ntlp_msg := s <- the ;; asserted (create_message s).
Definition get_last_refresh_message : NF ntlp_msg := s <- the ;; asserted (refresh_message s).
Definition get_last_response_message : NF event := s <- the ;; asserted (response_message s).
Definition get_ni_mri : NF mri_pathcoupled := s <- the ;; asserted (ni_mri s).
Definition get_nr_mri : NF mri_pathcoupled := s <- the ;; asserted (nr_mri s).

(** [set_last_response_message] copies the event. *)
Definition set_last_response_message (n : ntlp_msg) (for_this_node : bool) : NF unit :=
  copy <- lift_outcome (ntlp_copy n) ;;
  update (set_response_message (Some (Msg_event copy for_this_node))).

Definition start_state_timer (seconds : Z) : NF unit :=
  s <- the ;;
  id <- outside (timer_start (sid (base s)) seconds) ;; update (set_state_timer id).
Definition start_response_timer : NF unit :=
  s <- the ;;
  id <- outside (timer_start (sid (base s)) (response_timeout s)) ;; update (set_response_timer id).
Definition stop_state_timer : NF unit := update (set_state_timer 0%Z).
Definition stop_response_timer : NF unit := update (set_response_timer 0%Z).

(** [d->send_message(msg->copy_for_forwarding())]. *)
Definition forward (n : ntlp_msg) : NF unit :=
  copy <- lift_outcome (copy_for_forwarding None n) ;; outside (send_message copy).

Definition no_path_coupled_mri : request_error :=
  mk_request_error "no path-coupled MRI found" sc_permanent_failure fail_configuration_failed.

(** [set_pc_mri]: the MRIs towards the responder and the initiator. *)
Definition set_pc_mri (n : ntlp_msg) : NF unit :=
  match downcast_mri (get_mri n) with
  | None => raise (Request_error no_path_coupled_mri)
  | Some pc =>
      assert_that (get_downstream pc) ;;;
      nr <- lift_outcome (create_mri_with_dest pc) ;;
      update (set_nr_mri (Some nr)) ;;;
      ni <- lift_outcome (create_mri_inverted pc) ;;
      update (set_ni_mri (Some ni))
  end.

(** [set_auction_rule]: the MSPEC objects of the CREATE replace the
    requests of the rule and, if this node participates, go to the
    auctioning application for a check.  The objects are returned, too. *)
Definition set_auction_rule (create : anslp_msg) : NF (bool * list anslp_object) :=
  missing_objects <- lift_outcome (create_get_mspec_objects create) ;;
  s <- the ;;
  r <- deref (rule (base s)) ;;
  r <- outside (add_requests (map object_copy missing_objects) (mk_rule [] (object_responses r))) ;;
  update (set_rule_of (Some r)) ;;;
  if check_participating (stype (base s)) (create_get_selection_auctioning_entities create)
  then
    checked <- outside (d_check (own_id s) (object_requests r)) ;;
    ret (checked, missing_objects)
  else ret (false, missing_objects).

Definition build_bidding_message (objs : objectList_t) : NF ntlp_msg :=
  s <- the ;;
  m <- get_ni_mri ;;
  let nslp_mri := pc_invertDirection m in
  n <- next_msg_bidding_sequence_number ;;
  let bidding := bidding_set_msg_sequence_number n new_anslp_bidding in
  let bidding := set_mspecs (map (fun kv => object_copy (snd kv)) objs) bidding in
  lift_outcome (new_ntlp_msg (sid (base s)) (Some bidding) (Some (upcast_mri nslp_mri)) 0).

Definition build_create_message (c : anslp_msg) (missing_objects : list anslp_object) : NF ntlp_msg :=
  s <- the ;;
  m <- get_nr_mri ;;
  let create := new_anslp_create in
  let create :=
    if (lifetime s <=? create_get_session_lifetime c)%Z then create_set_session_lifetime (lifetime s) create
    else create_set_session_lifetime (create_get_session_lifetime c) create in
  let create := create_set_msg_sequence_number (create_get_msg_sequence_number c) create in
  let create := create_set_selection_auctioning_entities (create_get_selection_auctioning_entities c) create in
  let create := create_set_message_hop_count (create_get_message_hop_count c) create in
  let create := set_mspecs (map object_copy missing_objects) create in
  lift_outcome (new_ntlp_msg (sid (base s)) (Some create) (Some (upcast_mri m)) 0).

(** A REFRESH of lifetime 0 for the responder. *)
Definition build_teardown_message : NF ntlp_msg :=
  s <- the ;;
  m <- get_nr_mri ;;
  let refresh := refresh_set_session_lifetime 0 new_anslp_refresh in
  n <- next_msn ;;
  let refresh := refresh_set_msg_sequence_number n refresh in
  lift_outcome (new_ntlp_msg (sid (base s)) (Some refresh) (Some (upcast_mri m)) 0).

(** *** State CLOSE. *)

(** The [try] block of [process_state_close]. *)
Definition close_open (n : ntlp_msg) (c : anslp_msg) : NF state_t :=
  set_pc_mri n ;;;
  res <- set_auction_rule c ;;
  let '(participating, missing_objects) := res in
  assert_that (is_some (downcast_mri (get_mri n))) ;;;
  if participating then
    s <- the ;;
    start_state_timer (lifetime s) ;;;
    ret STATE_ANSLP_PENDING_CHECK
  else
    m <- build_create_message c missing_objects ;;
    outside (send_message m) ;;;
    s <- the ;;
    start_state_timer (lifetime s) ;;;
    ret STATE_ANSLP_PENDING.

Definition process_state_close (n : ntlp_msg) (c : anslp_msg) : NF state_t :=
  copy <- lift_outcome (ntlp_copy n) ;;
  update (set_create_message (Some copy)) ;;;
  catch (close_open n c)
    (fun e => match e with
              | Installer_error err | Request_error err =>
                  outside (send_message (create_error_response err n)) ;;;
                  ret STATE_ANSLP_CLOSE
              | e => raise e
              end).

Definition handle_state_close (evt : event) : NF state_t :=
  match ev_msg evt, get_create evt with
  | Some n, Some c =>
      s <- the ;;
      let lifetime := create_get_session_lifetime c in
      let msn := create_get_msg_sequence_number c in
      update (set_max_lifetime (nf_max_session_lifetime (config s))) ;;;
      update (set_response_timeout (nf_max_session_lifetime (config s))) ;;;
      accepted <- outside (checked_lifetime (nf_max_session_lifetime (config s)) n lifetime) ;;
      match accepted with
      | None => ret STATE_ANSLP_CLOSE
      | Some lifetime =>
          if (lifetime =? 0)%Z then ret STATE_ANSLP_CLOSE
          else
            update (set_lifetime lifetime) ;;;
            update (fun s => set_base (set_msn msn (base s)) s) ;;;
            process_state_close n c
      end
  (* any other event: the function ends without a return *)
  | _, _ => trip Missing_return
  end.


(** *** States PENDING_CHECK, PENDING and PENDING_INSTALLING. *)

(** [check_authorization] in a [try] block that answers its error. *)
Definition authorized (n : ntlp_msg) : NF bool :=
  catch
    (outside (check_authorization n) ;;; ret true)
    (fun e => match e with
              | Request_error err | Installer_error err =>
                  outside (send_message (create_error_response err n)) ;;; ret false
              | e => raise e
              end).

(** Another CREATE while one is pending: the initiator gives up, repeats
    itself, or asks for something else.  [pass_on] says whether a repeated
    message is sent on. *)
Definition another_create (stay : state_t) (pass_on : bool) (n : ntlp_msg) (create : anslp_msg) : NF state_t :=
  last <- get_last_create_message ;;
  previous <- asserted (get_anslp_create last) ;;
  ok <- authorized n ;;
  if negb ok then ret stay
  else if (create_get_msg_sequence_number previous <? create_get_msg_sequence_number create)%Z
          && (create_get_session_lifetime create =? 0)%Z then
    stop_state_timer ;;;
    forward n ;;;
    ret STATE_ANSLP_CLOSE
  else if (create_get_msg_sequence_number create =? create_get_msg_sequence_number previous)%Z then
    (if pass_on then forward n else ret tt) ;;;
    s <- the ;;
    start_state_timer (response_timeout s) ;;;
    ret stay
  else
    update (set_lifetime (create_get_session_lifetime create)) ;;;
    update (fun s => set_base (set_msn (create_get_msg_sequence_number create) (base s)) s) ;;;
    process_state_close n create.

Definition pending_check_create := another_create STATE_ANSLP_PENDING_CHECK false.
Definition pending_create := another_create STATE_ANSLP_PENDING true.
Definition installing_create := another_create STATE_ANSLP_PENDING_INSTALLING true.

(** The destination cannot be reached, or did not answer in time. *)
Definition nr_not_reached : NF state_t :=
  latest <- get_last_create_message ;;
  outside (send_message (create_response sc_permanent_failure fail_nr_not_reached latest)) ;;;
  ret STATE_ANSLP_CLOSE.

Definition pending_check_check (objs : objectList_t) : NF state_t :=
  last <- get_last_create_message ;;
  previous <- asserted (get_anslp_create last) ;;
  missing_objects <- lift_outcome (create_get_mspec_objects previous) ;;
  s <- the ;;
  r <- deref (rule (base s)) ;;
  r <- lift_outcome (prune objs r) ;;
  update (set_rule_of (Some r)) ;;;
  m <- build_create_message previous missing_objects ;;
  outside (send_message m) ;;;
  start_state_timer (lifetime s) ;;;
  ret STATE_ANSLP_PENDING.

Definition handle_state_pending_check (evt : event) : NF state_t :=
  s <- the ;;
  match ev_msg evt, get_create evt with
  | Some n, Some c => pending_check_create n c
  | _, _ =>
      if is_no_next_node_found_event evt || is_timer_of evt (state_timer s) then nr_not_reached
      else if is_timer evt then ret STATE_ANSLP_PENDING_CHECK
      else if is_api_check evt then
        objs <- deref (cast_objects evt) ;;
        pending_check_check objs
      else ret STATE_ANSLP_PENDING_CHECK
  end.

(** The RESPONSE of the path to the CREATE. *)
Definition pending_response (evt : event) (n : ntlp_msg) (resp : anslp_msg) : NF state_t :=
  last <- get_last_create_message ;;
  c <- deref (get_anslp_create last) ;;
  if negb (is_response_to_create resp c) then ret STATE_ANSLP_PENDING
  else if response_is_success resp then
    start_response_timer ;;;
    set_last_response_message n (is_for_this_node evt) ;;;
    s <- the ;;
    outside (install_auction_rules (own_id s) (rule (base s))) ;;;
    start_state_timer (response_timeout s) ;;;
    ret STATE_ANSLP_PENDING_INSTALLING
  else
    stop_state_timer ;;;
    copy <- lift_outcome (create_msg_for_ni n) ;;
    outside (send_message copy) ;;;
    ret STATE_ANSLP_CLOSE.

Definition handle_state_pending (evt : event) : NF state_t :=
  s <- the ;;
  match ev_msg evt, get_create evt with
  | Some n, Some c => pending_create n c
  | _, _ =>
      if is_no_next_node_found_event evt || is_timer_of evt (state_timer s) then nr_not_reached
      else if is_timer evt then ret STATE_ANSLP_PENDING
      else
        last <- get_last_create_message ;;
        if is_anslp_response evt (Some last) then
          n <- deref (ev_msg evt) ;;
          resp <- deref (get_response evt) ;;
          pending_response evt n resp
        else ret STATE_ANSLP_PENDING
  end.

(** The local application reports what it installed. *)
Definition installing_install (objs : objectList_t) : NF state_t :=
  s <- the ;;
  last <- get_last_response_message ;;
  n <- deref (ev_msg last) ;;
  r <- deref (rule (base s)) ;;
  if (get_number_mspec_request_objects r =? length objs)%nat then
    stop_state_timer ;;;
    r <- outside (set_reponse_objects objs (Some r)) ;;
    update (set_rule_of r) ;;;
    r <- deref r ;;
    resp <- deref (get_response last) ;;
    let response := set_mspecs (map (fun kv => object_copy (snd kv)) (object_responses r)) (msg_copy resp) in
    msgRsp <- lift_outcome (new_ntlp_msg (sid (base s)) (Some response) (Some (get_mri n)) 0) ;;
    outside (send_message msgRsp) ;;;
    start_state_timer (lifetime s) ;;;
    ret STATE_ANSLP_AUCTIONING
  else
    stop_state_timer ;;;
    update (set_lifetime 0) ;;;
    (if (0 <? get_number_mspec_response_objects r)%nat then
       outside (remove_auction_rules (own_id s) (Some (rule_copy r)))
     else ret tt) ;;;
    tear_down <- build_teardown_message ;;
    outside (send_message tear_down) ;;;
    outside (send_message (create_response sc_permanent_failure fail_internal_error n)) ;;;
    ret STATE_ANSLP_CLOSE.

Definition handle_state_pending_installing (evt : event) : NF state_t :=
  s <- the ;;
  match ev_msg evt, get_create evt with
  | Some n, Some c => installing_create n c
  | _, _ =>
      if is_no_next_node_found_event evt || is_timer_of evt (state_timer s) then nr_not_reached
      else if is_timer evt then ret STATE_ANSLP_PENDING_INSTALLING
      else if is_api_install evt then
        objs <- deref (cast_objects evt) ;;
        installing_install objs
      else ret STATE_ANSLP_PENDING_INSTALLING
  end.

(** *** State AUCTIONING. *)

(** The end of a session: remove the rules and wait [seconds] for the
    answer, or close at once when none are installed. *)
Definition remove_or_close (seconds : Z) : NF state_t :=
  s <- the ;;
  r <- deref (rule (base s)) ;;
  if (0 <? get_number_mspec_response_objects r)%nat then
    outside (remove_auction_rules (own_id s) (Some r)) ;;;
    start_state_timer seconds ;;;
    ret STATE_ANSLP_PENDING_TEARDOWN
  else
    stop_state_timer ;;;
    ret STATE_ANSLP_CLOSE.

Definition set_last_refresh_message (n : ntlp_msg) : NF unit :=
  copy <- lift_outcome (ntlp_copy n) ;; update (set_refresh_message (Some copy)).

Definition send_to_nr (n : ntlp_msg) : NF unit :=
  copy <- lift_outcome (create_msg_for_nr n) ;; outside (send_message copy).
Definition send_to_ni (n : ntlp_msg) : NF unit :=
  copy <- lift_outcome (create_msg_for_ni n) ;; outside (send_message copy).

Definition auctioning_refresh (n : ntlp_msg) (refresh : anslp_msg) : NF state_t :=
  let lifetime := refresh_get_session_lifetime refresh in
  let m := refresh_get_msg_sequence_number refresh in
  s <- the ;;
  accepted <- outside (checked_lifetime (max_lifetime s) n lifetime) ;;
  match accepted with
  | None => ret STATE_ANSLP_AUCTIONING
  | Some lifetime =>
      if negb (is_greater_than m (msn (base s))) then ret STATE_ANSLP_AUCTIONING
      else
        update (set_lifetime lifetime) ;;;
        if (0 <? lifetime)%Z then
          stop_response_timer ;;;
          update (fun s => set_base (set_msn m (base s)) s) ;;;
          set_last_refresh_message n ;;;
          send_to_nr n ;;;
          start_response_timer ;;;
          ret STATE_ANSLP_AUCTIONING
        else
          stop_response_timer ;;;
          send_to_nr n ;;;
          set_last_refresh_message n ;;;
          start_response_timer ;;;
          ret STATE_ANSLP_AUCTIONING
  end.

(** A BIDDING goes to the auction server, or on along the path. *)
Definition auctioning_bidding (evt : event) : NF unit :=
  n <- deref (ev_msg evt) ;;
  if is_for_this_node evt then
    s <- the ;;
    to_post <- outside (create_auction_rule (get_bidding evt)) ;;
    outside (auction_interaction true (own_id s) (Some to_post)) ;;;
    ret tt
  else send_to_nr n.

(** The responder did not answer the REFRESH. *)
Definition auctioning_no_response : NF state_t :=
  stop_state_timer ;;;
  s <- the ;;
  remove_or_close (lifetime s).

Definition auctioning_timeout : NF state_t :=
  stop_response_timer ;;;
  s <- the ;;
  remove_or_close (lifetime s).

Definition auctioning_route_changed : NF state_t := s <- the ;; remove_or_close (response_timeout s).

Definition auctioning_response (n : ntlp_msg) (response : anslp_msg) : NF state_t :=
  last <- get_last_refresh_message ;;
  c <- deref (get_anslp_refresh last) ;;
  if negb (is_response_to_refresh response c) then ret STATE_ANSLP_AUCTIONING
  else if response_is_success response then
    send_to_ni n ;;;
    s <- the ;;
    if (lifetime s =? 0)%Z then
      stop_state_timer ;;;
      remove_or_close (response_timeout s)
    else
      start_state_timer (lifetime s) ;;;
      ret STATE_ANSLP_AUCTIONING
  else
    stop_state_timer ;;;
    send_to_ni n ;;;
    s <- the ;;
    remove_or_close (response_timeout s).

Definition handle_state_auctioning (evt : event) : NF state_t :=
  s <- the ;;
  match ev_msg evt, get_refresh evt with
  | Some n, Some c => auctioning_refresh n c
  | _, _ =>
      if is_anslp_bidding evt then auctioning_bidding evt ;;; ret STATE_ANSLP_AUCTIONING
      else if is_no_next_node_found_event evt || is_timer_of evt (response_timer s) then auctioning_no_response
      else if is_timer_of evt (state_timer s) then auctioning_timeout
      else if is_route_changed_bad_event evt then auctioning_route_changed
      else if is_timer evt then ret STATE_ANSLP_AUCTIONING
      else
        last <- get_last_refresh_message ;;
        if is_anslp_response evt (Some last) then
          n <- deref (ev_msg evt) ;;
          response <- deref (get_response evt) ;;
          auctioning_response n response
        else ret STATE_ANSLP_AUCTIONING
  end.

(** *** State PENDING_TEARDOWN. *)
Definition handle_state_pending_teardown (evt : event) : NF state_t :=
  s <- the ;;
  if is_anslp_refresh evt then ret STATE_ANSLP_PENDING_TEARDOWN
  else if is_anslp_bidding evt then auctioning_bidding evt ;;; ret STATE_ANSLP_PENDING_TEARDOWN
  else if is_timer_of evt (state_timer s) then ret STATE_ANSLP_CLOSE
  else if is_route_changed_bad_event evt then ret STATE_ANSLP_PENDING_TEARDOWN
  else if is_timer evt then ret STATE_ANSLP_PENDING_TEARDOWN
  else if is_api_remove evt then stop_state_timer ;;; ret STATE_ANSLP_CLOSE
  else ret STATE_ANSLP_PENDING_TEARDOWN.

(** [process_event]. *)
Definition handle_event (evt : event) : NF state_t :=
  s <- the ;;
  match state s with
  | STATE_ANSLP_CLOSE => handle_state_close evt
  | STATE_ANSLP_PENDING_CHECK => handle_state_pending_check evt
  | STATE_ANSLP_PENDING => handle_state_pending evt
  | STATE_ANSLP_PENDING_INSTALLING => handle_state_pending_installing evt
  | STATE_ANSLP_AUCTIONING => handle_state_auctioning evt
  | STATE_ANSLP_PENDING_TEARDOWN => handle_state_pending_teardown evt
  end.

Definition process_event (evt : event) : NF unit :=
  st <- handle_event evt ;; update (set_state st).
End Handlers.
End NfSession.
