(* ===== verification/NfSpec.v ===== *)
(** * What the forwarder's session guarantees

    The invariant of [nf_session], the protocol it refines, what it forwards
    and when it tears the session down - for every dispatcher that keeps the
    promises of [Effects]. *)
From S2P Require Import Prelude Outcome StdMap External Objects Store Messages SessionId NtlpMsg AuctionRule Events Session NfSession.

Section NfSpec.
Context `{Libs} `{!LibsLaws} {W : Type} `{!Dispatcher W} `{!Platform W} `{!Effects W}.
Implicit Types (s : nf_session) (w : W).

(** ** The invariant. *)
Definition lifetimes_ok s : Prop :=
  is_u32 (lifetime s) /\ is_u32 (max_lifetime s) /\ is_u32 (nf_max_session_lifetime (config s)).

Definition nf_wf s : Prop :=
  is_u32 (msn (base s)) /\ lifetimes_ok s
  /\ stype (base s) = st_forwarder /\ is_Some (rule (base s))
  /\ (forall n, refresh_message s = Some n -> stored C_refresh n)
  /\ (state s <> STATE_ANSLP_CLOSE ->
      is_Some (nr_mri s) /\ is_Some (ni_mri s) /\ exists n, create_message s = Some n /\ kept C_create n)
  /\ (state s = STATE_ANSLP_PENDING_INSTALLING ->
      exists n b, response_message s = Some (Msg_event n b) /\ stored C_response n).

(** ** The protocol, over states and events only. *)
Definition pending (st : state_t) : Prop :=
  st = STATE_ANSLP_PENDING_CHECK \/ st = STATE_ANSLP_PENDING \/ st = STATE_ANSLP_PENDING_INSTALLING.

Inductive nf_step : state_t -> event -> state_t -> Prop :=
  | nf_stay st evt : nf_step st evt st
  | nf_checking st evt c : st = STATE_ANSLP_CLOSE \/ pending st -> get_create evt = Some c ->
      check_participating st_forwarder (create_get_selection_auctioning_entities c) = true ->
      nf_step st evt STATE_ANSLP_PENDING_CHECK
  | nf_passed_on st evt c : st = STATE_ANSLP_CLOSE \/ pending st -> get_create evt = Some c ->
      nf_step st evt STATE_ANSLP_PENDING
  | nf_pending_ends st evt : pending st ->
      is_anslp_create evt = true \/ is_timer evt = true \/ is_no_next_node_found_event evt = true ->
      nf_step st evt STATE_ANSLP_CLOSE
  | nf_checked objs rq : nf_step STATE_ANSLP_PENDING_CHECK (Api_check_event objs rq) STATE_ANSLP_PENDING
  | nf_answered evt r : get_response evt = Some r -> response_is_success r = true ->
      nf_step STATE_ANSLP_PENDING evt STATE_ANSLP_PENDING_INSTALLING
  | nf_refused evt r : get_response evt = Some r -> response_is_success r = false ->
      nf_step STATE_ANSLP_PENDING evt STATE_ANSLP_CLOSE
  | nf_installed objs rq st : st = STATE_ANSLP_AUCTIONING \/ st = STATE_ANSLP_CLOSE ->
      nf_step STATE_ANSLP_PENDING_INSTALLING (Api_install_event objs rq) st
  | nf_auction_ends evt st :
      is_timer evt = true \/ is_no_next_node_found_event evt = true \/ is_route_changed_bad_event evt = true
      \/ is_Some (get_response evt) ->
      st = STATE_ANSLP_PENDING_TEARDOWN \/ st = STATE_ANSLP_CLOSE ->
      nf_step STATE_ANSLP_AUCTIONING evt st
  | nf_torn_down evt : is_timer evt = true \/ is_api_remove evt = true ->
      nf_step STATE_ANSLP_PENDING_TEARDOWN evt STATE_ANSLP_CLOSE.

(** Only the rule installer's exceptions leave a handler. *)
Definition nf_thrown s (evt : event) (e : exn) : Prop := exists ie, e = Installer_error ie.

(** The events AUCTIONING handles before it looks for its last REFRESH. *)
Definition expected_auctioning (evt : event) : bool :=
  is_anslp_refresh evt || is_anslp_bidding evt || is_no_next_node_found_event evt || is_timer evt
  || is_route_changed_bad_event evt.

(** The faults: an event other than a CREATE in CLOSE, a CREATE that travels
    upstream, an unexpected event before the first REFRESH, the pruning loop
    that leaves its map, and a message with an object that is not expected in
    it. *)
Definition nf_fault s (evt : event) (f : fault) : Prop :=
  (f = Missing_return /\ state s = STATE_ANSLP_CLOSE /\ is_anslp_create evt = false)
  \/ (f = Assertion_failed /\ is_anslp_create evt = true
      /\ exists n pc, ev_msg evt = Some n /\ downcast_mri (get_mri n) = Some pc /\ get_downstream pc = false)
  \/ (f = Assertion_failed /\ state s = STATE_ANSLP_AUCTIONING /\ refresh_message s = None
      /\ expected_auctioning evt = false)
  \/ (f = Out_of_bounds /\ state s = STATE_ANSLP_PENDING_CHECK
      /\ exists objs rq r, evt = Api_check_event objs rq /\ rule (base s) = Some r
           /\ prune objs r = Faulted Out_of_bounds)
  \/ (f = Null_dereference /\ unexpected_body evt
      /\ ((state s = STATE_ANSLP_CLOSE \/ pending (state s)) /\ is_anslp_create evt = true
          \/ (state s = STATE_ANSLP_AUCTIONING \/ state s = STATE_ANSLP_PENDING_TEARDOWN)
             /\ is_anslp_bidding evt = true)).

(** ** Copies and forwarding. *)

(** What goes on along the path: the message, with its SII handle reset. *)
Definition forwarded (n : ntlp_msg) : ntlp_msg :=
  mk_ntlp_msg (get_session_id n) (get_anslp_msg n) (get_mri n) 0.

Lemma stored_forward c n : stored c n -> copy_for_forwarding None n = Normal (forwarded n).
Proof.
  intros (m & v & Hn & _ & Hv). unfold copy_for_forwarding, forwarded. rewrite Hn. cbn.
  by rewrite (msg_copy_view m v).
Qed.

Lemma wp_forward s w Q c n :
  stored c n ->
  (forall w', trace w' = trace w ++ [Sent (forwarded n)] -> Q (Normal tt) (s, w')) ->
  wp (forward n) Q (s, w).
Proof.
  intros Hn HQ. unfold forward. do 2 wp_step. rewrite (stored_forward c) by done. wp_step. auto.
Qed.

Lemma wp_send_to_nr s w Q c n :
  stored c n ->
  (forall w', trace w' = trace w ++ [Sent (forwarded n)] -> Q (Normal tt) (s, w')) ->
  wp (send_to_nr n) Q (s, w).
Proof. exact (wp_forward s w Q c n). Qed.

Lemma wp_send_to_ni s w Q c n :
  stored c n ->
  (forall w', trace w' = trace w ++ [Sent (forwarded n)] -> Q (Normal tt) (s, w')) ->
  wp (send_to_ni n) Q (s, w).
Proof. exact (wp_forward s w Q c n). Qed.

Lemma nf_wp_start_state_timer s w t Q :
  (forall id w', trace w' = trace w ++ [Timer_started (sid (base s)) (int32 t) id] ->
     Q (Normal tt) (set_state_timer id s, w')) ->
  wp (start_state_timer t) Q (s, w).
Proof. intros HQ. unfold start_state_timer. do 5 wp_step. eauto. Qed.

Lemma nf_wp_start_response_timer s w Q :
  (forall id w', trace w' = trace w ++ [Timer_started (sid (base s)) (int32 (response_timeout s)) id] ->
     Q (Normal tt) (set_response_timer id s, w')) ->
  wp start_response_timer Q (s, w).
Proof. intros HQ. unfold start_response_timer. do 5 wp_step. eauto. Qed.

Lemma wp_set_pc_mri s w n Q :
  (downcast_mri (get_mri n) = None -> Q (Raised (Request_error no_path_coupled_mri)) (s, w)) ->
  (forall pc, downcast_mri (get_mri n) = Some pc -> get_downstream pc = false -> Q (Faulted Assertion_failed) (s, w)) ->
  (forall pc, downcast_mri (get_mri n) = Some pc -> get_downstream pc = true ->
     Q (Normal tt) (set_ni_mri (Some (pc_invertDirection pc)) (set_nr_mri (Some pc) s), w)) ->
  wp (set_pc_mri n) Q (s, w).
Proof.
  intros HN HF HQ. unfold set_pc_mri. destruct (downcast_mri (get_mri n)) as [pc|]; [|wp_step; by apply HN].
  wp_step. apply wp_assert_that; intros Hd; [|by apply (HF pc)]. unfold create_mri_with_dest, create_mri_inverted.
  rewrite Hd. do 6 wp_step. specialize (HQ pc eq_refl Hd). pose proof (rebuild_mri_pathcoupled pc) as Hrb.
  rewrite Hd in Hrb. rewrite Hrb. by wp_step.
Qed.
(** ** Opening and replacing. *)

(** The requests a CREATE leaves in the rule. *)
Definition requested (ks : list mspec_rule_key) (v : view) (r : auction_rule) : auction_rule :=
  mk_rule (with_entries ks (v_ipap v) []) (object_responses r).

Lemma wp_set_auction_rule s w c v r Q :
  rule (base s) = Some r -> msg_view c v ->
  (is_some (v_inf v) = true -> Q (Faulted Null_dereference) (s, w)) ->
  (forall ks w1, v_inf v = None -> length ks = length (v_ipap v) -> trace w1 = trace w ->
     let s1 := set_rule_of (Some (requested ks v r)) s in
     if check_participating (stype (base s)) (create_get_selection_auctioning_entities c) then
       let reqs := with_entries ks (v_ipap v) [] in
       (forall b w', says w (d_check (own_id s) reqs) (Normal b) -> trace w' = trace w1 ++ [Checked (own_id s) reqs] ->
          Q (Normal (b, v_ipap v)) (s1, w'))
       /\ (forall e w', says w (d_check (own_id s) reqs) (Raised (Installer_error e)) -> trace w' = trace w1 ->
             Q (Raised (Installer_error e)) (s1, w'))
     else Q (Normal (false, v_ipap v)) (s1, w1)) ->
  wp (set_auction_rule c) Q (s, w).
Proof.
  intros Hr Hv HF HQ. unfold set_auction_rule. do 2 wp_step. destruct (v_inf v) as [o|] eqn:Hi.
  { rewrite (create_get_mspec_unexpected c v o) by done. by apply HF. }
  rewrite (create_get_mspec_view c v) by done. do 3 wp_step. rewrite Hr.
  apply wp_deref; [|done]. intros ? [= <-]. cbn [object_responses]. wp_step.
  rewrite (map_object_copy (v_ipap v)) by by eapply msg_view_mspecs.
  apply wp_add_requests_exact. intros ks w1 Hk Ht1. do 2 wp_step. specialize (HQ ks w1 eq_refl Hk Ht1).
  cbv zeta in HQ. destruct (check_participating _ _).
  - destruct HQ as [HQ HE]. wp_step. eapply wp_says; [apply check_does|intros b w' Hb Ht'; wp_step|intros e w' He].
    + apply HQ; [by eapply says_before|done].
    + apply HE. by eapply says_before.
  - by wp_step.
Qed.

(** The CREATE that goes on to the responder. *)
Definition create_on s (c : anslp_msg) (l : list anslp_object) (m : mri_pathcoupled) : ntlp_msg :=
  mk_ntlp_msg (sid (base s))
    (Some (create_body (create_get_message_hop_count c) (create_get_selection_auctioning_entities c)
             (create_get_msg_sequence_number c) (Z.min (lifetime s) (create_get_session_lifetime c)) l))
    (upcast_mri m) 0.

Lemma wp_build_create_message s w Q c l m :
  nr_mri s = Some m -> Q (Normal (create_on s c l m)) (s, w) -> wp (build_create_message c l) Q (s, w).
Proof.
  intros Hm HQ. unfold build_create_message, get_nr_mri. do 5 wp_step. rewrite Hm. apply wp_asserted; [|done].
  intros ? [= <-]. cbv zeta. wp_step. unfold new_ntlp_msg. unfold create_on, create_body in HQ.
  destruct (Z.leb_spec (lifetime s) (create_get_session_lifetime c)).
  - by rewrite Z.min_l in HQ by lia.
  - by rewrite Z.min_r in HQ by lia.
Qed.

(** What [process_state_close] does with a CREATE, branch by branch; [s0] is
    the session with the message stored. *)
Lemma wp_process_state_close s w n c v r Q :
  let s0 := set_create_message (Some n) s in
  let located pc := set_ni_mri (Some (pc_invertDirection pc)) (set_nr_mri (Some pc) s0) in
  stored C_create n -> msg_view c v -> rule (base s) = Some r ->
  (* no path-coupled MRI *)
  (downcast_mri (get_mri n) = None -> forall w',
     trace w' = trace w ++ [Sent (create_error_response no_path_coupled_mri n)] ->
     Q (Normal STATE_ANSLP_CLOSE) (s0, w')) ->
  (forall pc, downcast_mri (get_mri n) = Some pc -> get_downstream pc = false -> Q (Faulted Assertion_failed) (s0, w)) ->
  (forall pc, downcast_mri (get_mri n) = Some pc -> get_downstream pc = true -> is_some (v_inf v) = true ->
     Q (Faulted Null_dereference) (located pc, w)) ->
  (forall pc ks, downcast_mri (get_mri n) = Some pc -> get_downstream pc = true ->
     v_inf v = None -> length ks = length (v_ipap v) ->
     let s1 := set_rule_of (Some (requested ks v r)) (located pc) in
     let reqs := with_entries ks (v_ipap v) [] in
     let passed_on := Sent (create_on s1 c (v_ipap v) pc) in
     let started id := Timer_started (sid (base s)) (int32 (lifetime s)) id in
     if check_participating (stype (base s)) (create_get_selection_auctioning_entities c) then
       (says w (d_check (own_id s) reqs) (Normal true) -> forall id w',
          trace w' = trace w ++ [Checked (own_id s) reqs; started id] ->
          Q (Normal STATE_ANSLP_PENDING_CHECK) (set_state_timer id s1, w'))
       /\ (says w (d_check (own_id s) reqs) (Normal false) -> forall id w',
          trace w' = trace w ++ [Checked (own_id s) reqs; passed_on; started id] ->
          Q (Normal STATE_ANSLP_PENDING) (set_state_timer id s1, w'))
       /\ (forall e, says w (d_check (own_id s) reqs) (Raised (Installer_error e)) -> forall w',
          trace w' = trace w ++ [Sent (create_error_response e n)] ->
          Q (Normal STATE_ANSLP_CLOSE) (s1, w'))
     else
       forall id w', trace w' = trace w ++ [passed_on; started id] ->
          Q (Normal STATE_ANSLP_PENDING) (set_state_timer id s1, w')) ->
  wp (process_state_close n c) Q (s, w).
Proof.
  intros s0 located Hk Hv Hr HN HF HU HQ. unfold process_state_close. do 2 wp_step.
  rewrite (stored_copy C_create) by done. do 3 wp_step. unfold close_open. wp_step. fold s0. apply wp_set_pc_mri.
  { intros Hd. do 2 wp_step. wp_step. by apply HN. }
  { intros pc Hd Hdn. by apply (HF pc). }
  intros pc Hd Hdn. wp_step. fold (located pc).
  assert (Hpass : forall ks w1 pre, trace w1 = trace w ++ pre ->
    (forall id w', trace w' = trace w ++ pre ++
         [Sent (create_on (set_rule_of (Some (requested ks v r)) (located pc)) c (v_ipap v) pc);
          Timer_started (sid (base s)) (int32 (lifetime s)) id] ->
       Q (Normal STATE_ANSLP_PENDING) (set_state_timer id (set_rule_of (Some (requested ks v r)) (located pc)), w')) ->
    wp (assert_that (is_some (downcast_mri (get_mri n))) ;;;
        m <- build_create_message c (v_ipap v) ;;
        outside (send_message m) ;;; s <- the ;; start_state_timer (lifetime s) ;;; ret STATE_ANSLP_PENDING)
      (fun o sw => match o with Raised e => wp (match e with
         | Request_error err | Installer_error err =>
             outside (send_message (create_error_response err n)) ;;; ret STATE_ANSLP_CLOSE
         | e => raise e end) Q sw | _ => Q o sw end)
      (set_rule_of (Some (requested ks v r)) (located pc), w1)).
  { intros ks w1 pre Ht1 HP. wp_step. rewrite Hd. apply wp_assert_that; [|done]. intros _. wp_step.
    eapply wp_build_create_message; [done|]. do 5 wp_step. apply nf_wp_start_state_timer. intros id w3 Ht3. wp_step.
    apply HP. cbn in Ht3. rewrite Ht3. trace_eq. }
  eapply (wp_set_auction_rule _ _ _ v r); [done..|by apply HU|]. intros ks w1 Hi Hks Ht1. cbv zeta. specialize (HQ pc ks Hd Hdn Hi Hks).
  cbv zeta in HQ. change (stype (base (located pc))) with (stype (base s)).
  destruct (check_participating _ _); [split|].
  - destruct HQ as (HC & HP & HE). intros [] w2 Hsays Ht2; cbn beta iota.
    + wp_step. rewrite Hd. apply wp_assert_that; [|done]. intros _. do 3 wp_step. apply nf_wp_start_state_timer.
      intros id w3 Ht3. wp_step. apply (HC Hsays). cbn in Ht3. trace_eq.
    + apply (Hpass ks w2 [Checked (own_id s) (with_entries ks (v_ipap v) [])]); [trace_eq|].
      intros id w' Ht'. by apply (HP Hsays).
  - destruct HQ as (HC & HP & HE). intros e w2 Hsays Ht2. do 2 wp_step. wp_step. apply (HE e); [done|]. trace_eq.
  - cbn beta iota. apply (Hpass ks w1 []); [by rewrite app_nil_r|]. intros id w' Ht'. by apply HQ.
Qed.
(** ** Every handler keeps the invariant and makes a step of the protocol. *)
Definition nf_ok s (evt : event) (o : outcome state_t) (sw : nf_session * W) : Prop :=
  match o with
  | Normal st => nf_wf (set_state st (fst sw)) /\ nf_step (state s) evt st
  | Raised e => nf_thrown s evt e /\ state (fst sw) = state s
  | Faulted f => nf_fault s evt f
  end.

Lemma nf_bidding_fault s evt :
  unexpected_body evt -> is_anslp_bidding evt = true ->
  state s = STATE_ANSLP_AUCTIONING \/ state s = STATE_ANSLP_PENDING_TEARDOWN -> nf_fault s evt Null_dereference.
Proof. intros. right. right. right. right. auto. Qed.

(** The invariant of what a handler leaves, from the pieces it changed. *)
Lemma nf_wf_intro s st :
  is_u32 (msn (base s)) -> lifetimes_ok s -> stype (base s) = st_forwarder -> is_Some (rule (base s)) ->
  (forall n, refresh_message s = Some n -> stored C_refresh n) ->
  (st <> STATE_ANSLP_CLOSE ->
      is_Some (nr_mri s) /\ is_Some (ni_mri s) /\ exists n, create_message s = Some n /\ kept C_create n) ->
  (st = STATE_ANSLP_PENDING_INSTALLING ->
      exists n b, response_message s = Some (Msg_event n b) /\ stored C_response n) ->
  nf_wf (set_state st s).
Proof. by intros. Qed.

Lemma nf_wf_closed s : nf_wf s -> nf_wf (set_state STATE_ANSLP_CLOSE s).
Proof. intros (H1 & H2 & H3 & H4 & H5 & H6 & H7). by apply nf_wf_intro. Qed.

Lemma nf_wf_same s st : nf_wf s -> st = state s -> nf_wf (set_state st s).
Proof. intros Hwf ->. by destruct s. Qed.

(** [s'] differs from [s] only in what no state of the session depends on. *)
Lemma nf_goes s s' st evt :
  nf_wf s -> state s <> STATE_ANSLP_CLOSE -> nf_step (state s) evt st ->
  is_u32 (msn (base s')) -> lifetimes_ok s' -> stype (base s') = stype (base s) -> is_Some (rule (base s')) ->
  (forall n, refresh_message s' = Some n -> stored C_refresh n) ->
  nr_mri s' = nr_mri s -> ni_mri s' = ni_mri s -> create_message s' = create_message s ->
  (st = STATE_ANSLP_PENDING_INSTALLING ->
      exists n b, response_message s' = Some (Msg_event n b) /\ stored C_response n) ->
  nf_wf (set_state st s') /\ nf_step (state s) evt st.
Proof.
  intros (H1 & H2 & H3 & H4 & H5 & H6 & H7) Hs Hst V1 V2 V3 V4 V5 V6 V7 V8 V9. split; [|done].
  apply nf_wf_intro; try done; [congruence|]. intros _. rewrite V6, V7, V8. by apply H6.
Qed.

(** A CREATE, first or replacing. *)
Lemma process_state_close_ok s s1 w evt n c :
  nf_wf s -> event_valid evt -> state s = STATE_ANSLP_CLOSE \/ pending (state s) ->
  ev_msg evt = Some n -> get_create evt = Some c ->
  is_u32 (msn (base s1)) -> lifetimes_ok s1 -> stype (base s1) = stype (base s) ->
  rule (base s1) = rule (base s) -> refresh_message s1 = refresh_message s ->
  response_message s1 = response_message s ->
  wp (process_state_close n c) (nf_ok s evt) (s1, w).
Proof.
  intros (H1 & H2 & H3 & [r H4] & H5 & _) Hv Hst Hn Hc V1 V2 V3 V4 V5 V6.
  destruct (event_valid_anslp _ _ _ Hv Hc) as [Hcls (v & Hvw)]. destruct (msg_view_get c v Hvw) as (Ei & _).
  destruct (ev_anslp_msg _ _ _ _ Hn Hc) as [Hnm _]. assert (Hk : stored C_create n) by by exists c, v.
  assert (Hclose : nf_step (state s) evt STATE_ANSLP_CLOSE).
  { destruct Hst as [->|Hp]; [constructor|]. apply nf_pending_ends; [done|]. left. unfold is_anslp_create. by rewrite Hc. }
  assert (Hrm : forall m, refresh_message s1 = Some m -> stored C_refresh m) by (rewrite V5; auto).
  eapply (wp_process_state_close _ _ _ _ v r); [done..|congruence| | | |].
  - intros Hd w' Ht'. split; [|done]. apply nf_wf_intro; try done; cbn; [congruence|by rewrite V4].
  - intros pc Hd Hdn. right. left. split; [done|]. split; [unfold is_anslp_create; by rewrite Hc|]. by exists n, pc.
  - intros pc Hd Hdn Hu. right. right. right. right. split; [done|].
    split; [eapply unexpected_body_anslp; [exact Hc|]; unfold unexpected_objects; by rewrite Hcls, Ei|].
    left. split; [done|]. unfold is_anslp_create. by rewrite Hc.
  - intros pc ks Hd Hdn Hvi Hks. cbv zeta. assert (Hkn : kept C_create n) by by exists c, v.
    assert (Hwf' : forall st id, st = STATE_ANSLP_PENDING_CHECK \/ st = STATE_ANSLP_PENDING ->
      nf_wf (set_state st (set_state_timer id (set_rule_of (Some (requested ks v r))
        (set_ni_mri (Some (pc_invertDirection pc)) (set_nr_mri (Some pc) (set_create_message (Some n) s1))))))).
    { intros st id Hst'. apply nf_wf_intro; cbn; try done; try congruence; try (by eexists); [|by destruct Hst'; subst].
      intros _. split_and!; [by eexists..|]. by exists n. }
    destruct (check_participating _ _) eqn:Ep; [split_and!|].
    + intros _ id w' Ht'. split; [by apply Hwf'; left|]. eapply nf_checking; [done|done|]. by rewrite <- H3, <- V3.
    + intros _ id w' Ht'. split; [by apply Hwf'; right|]. by eapply nf_passed_on.
    + intros e _ w' Ht'. split; [|done]. by apply nf_wf_intro; cbn; try done; try congruence; try (by eexists).
    + intros id w' Ht'. split; [by apply Hwf'; right|]. by eapply nf_passed_on.
Qed.

Lemma nf_close_ok s w evt :
  nf_wf s -> event_valid evt -> state s = STATE_ANSLP_CLOSE ->
  wp (handle_state_close evt) (nf_ok s evt) (s, w).
Proof.
  intros Hwf Hv Hst. pose proof Hwf as (H1 & H2 & H3 & H4 & H5 & _).
  unfold handle_state_close.
  destruct (get_create evt) as [c|] eqn:Ec.
  2: { assert (Hf : nf_fault s evt Missing_return).
       { left. split_and!; [done|done|]. unfold is_anslp_create. by rewrite Ec. }
       by destruct (ev_msg evt). }
  destruct (ev_msg evt) as [n|] eqn:En; [|unfold get_create, ev_anslp in Ec; by rewrite En in Ec].
  destruct (event_valid_anslp _ _ _ Hv Ec) as [_ Hb].
  destruct (body_valid_create_ranges c Hb) as (_ & _ & Hmsn & Hlt).
  do 2 wp_step. cbv zeta. do 5 wp_step.
  destruct H2 as (H2 & Hx & Hcf).
  assert (Hgo : forall lt w', is_u32 lt ->
    wp (if (lt =? 0)%Z then ret STATE_ANSLP_CLOSE
        else update (set_lifetime lt) ;;;
             update (fun s => set_base (set_msn (create_get_msg_sequence_number c) (base s)) s) ;;;
             process_state_close n c) (nf_ok s evt)
       (set_response_timeout (nf_max_session_lifetime (config s))
          (set_max_lifetime (nf_max_session_lifetime (config s)) s), w')).
  { intros lt w' Hlt'. destruct (lt =? 0)%Z.
    - wp_step. split; [by apply nf_wf_intro|]. rewrite Hst. constructor.
    - do 4 wp_step. apply process_state_close_ok; try done. by left. }
  apply wp_checked_lifetime.
  - intros Hov. by apply Hgo.
  - intros Hle w' Ht'. by apply Hgo.
  - intros Hle w' Ht'. wp_step. split; [by apply nf_wf_intro|]. rewrite Hst. constructor.
Qed.
Lemma wp_authorized s w n Q :
  (forall w', trace w' = trace w -> Q (Normal true) (s, w')) ->
  (forall w', trace w' = trace w ++ [Sent (create_error_response authorization_error n)] ->
     Q (Normal false) (s, w')) ->
  wp (authorized n) Q (s, w).
Proof.
  intros HT HF. unfold authorized. do 2 wp_step. wp_step; [wp_step; by apply HT|].
  do 2 wp_step. wp_step. apply HF. trace_eq.
Qed.

Lemma another_create_ok s w evt n c b :
  nf_wf s -> event_valid evt -> pending (state s) -> ev_msg evt = Some n -> get_create evt = Some c ->
  wp (another_create (state s) b n c) (nf_ok s evt) (s, w).
Proof.
  intros Hwf Hv Hp Hn Hc. pose proof Hwf as (H1 & (H2 & Hx & Hcf) & H3 & H4 & H5 & H6 & H7).
  assert (Hnc : state s <> STATE_ANSLP_CLOSE) by by destruct Hp as [->|[->| ->]].
  destruct (H6 Hnc) as (Hnr & Hni & last & Hl & Hk).
  pose proof (event_valid_stored C_create evt n c Hv Hn Hc) as Hkn.
  destruct (event_valid_anslp _ _ _ Hv Hc) as [_ Hb].
  destruct (body_valid_create_ranges c Hb) as (_ & _ & Hmsn & Hlt).
  unfold another_create, get_last_create_message. do 3 wp_step. rewrite Hl. apply wp_asserted; [|done].
  intros ? [= <-]. wp_step. destruct (kept_get _ _ Hk) as (previous & v & Hpr & _). unfold get_anslp_create.
  rewrite Hpr. apply wp_asserted; [|done]. intros ? [= <-]. wp_step. apply wp_authorized; intros w1 Ht1; cbn [negb].
  2: { wp_step. split; [by apply nf_wf_same|constructor]. }
  destruct (_ && _).
  { unfold stop_state_timer. do 3 wp_step. eapply wp_forward; [done|]. intros w2 Ht2. wp_step.
    split; [by apply nf_wf_intro|]. apply nf_pending_ends; [done|]. left. unfold is_anslp_create. by rewrite Hc. }
  destruct (create_get_msg_sequence_number c =? _)%Z.
  { assert (Hrest : forall w', wp (s <- the ;; start_state_timer (response_timeout s) ;;; ret (state s))
      (nf_ok s evt) (s, w')).
    { intros w'. do 3 wp_step. apply nf_wp_start_state_timer. intros id w2 Ht2. wp_step.
      apply (nf_goes s); try done; constructor. }
    wp_step. destruct b.
    - eapply wp_forward; [done|]. intros w2 Ht2. cbn beta iota. apply Hrest.
    - wp_step. apply Hrest. }
  do 4 wp_step. apply process_state_close_ok; try done. by right.
Qed.

Lemma nr_not_reached_ok s w evt :
  nf_wf s -> pending (state s) -> is_no_next_node_found_event evt || is_timer_of evt (state_timer s) = true ->
  wp nr_not_reached (nf_ok s evt) (s, w).
Proof.
  intros Hwf Hp Hev. pose proof Hwf as (H1 & H2 & H3 & H4 & H5 & H6 & H7).
  assert (Hnc : state s <> STATE_ANSLP_CLOSE) by by destruct Hp as [->|[->| ->]].
  destruct (H6 Hnc) as (Hnr & Hni & last & Hl & Hk).
  unfold nr_not_reached, get_last_create_message. do 3 wp_step. rewrite Hl. apply wp_asserted; [|done].
  intros ? [= <-]. do 3 wp_step. split; [by apply nf_wf_closed|]. apply nf_pending_ends; [done|].
  apply orb_true_iff in Hev as [E|E]; [by right; right|right; left; by destruct evt].
Qed.

Lemma pending_check_ok s w evt :
  nf_wf s -> event_valid evt -> state s = STATE_ANSLP_PENDING_CHECK ->
  wp (handle_state_pending_check evt) (nf_ok s evt) (s, w).
Proof.
  intros Hwf Hv Hst. pose proof Hwf as (H1 & H2 & H3 & [r H4] & H5 & H6 & H7).
  assert (Hp : pending (state s)) by (rewrite Hst; by left).
  assert (Hnc : state s <> STATE_ANSLP_CLOSE) by (rewrite Hst; done).
  destruct (H6 Hnc) as ([m Hnr] & Hni & last & Hl & Hk).
  unfold handle_state_pending_check. do 2 wp_step.
  assert (Hstay : forall w', wp (ret STATE_ANSLP_PENDING_CHECK) (nf_ok s evt) (s, w')).
  { intros w'. wp_step. rewrite <- Hst. split; [by apply nf_wf_same|constructor]. }
  assert (Hrest : wp (if is_no_next_node_found_event evt || is_timer_of evt (state_timer s) then nr_not_reached
        else if is_timer evt then ret STATE_ANSLP_PENDING_CHECK
        else if is_api_check evt then objs <- deref (cast_objects evt) ;; pending_check_check objs
        else ret STATE_ANSLP_PENDING_CHECK) (nf_ok s evt) (s, w)).
  { destruct (is_no_next_node_found_event evt || _) eqn:E1; [by apply nr_not_reached_ok|].
    destruct (is_timer evt); [apply Hstay|]. destruct (is_api_check evt) eqn:E2; [|apply Hstay].
    destruct evt; try discriminate. cbn [cast_objects]. wp_step. apply wp_deref; [|done]. intros ? [= <-].
    unfold pending_check_check, get_last_create_message. do 3 wp_step. rewrite Hl. apply wp_asserted; [|done].
    intros ? [= <-]. wp_step. destruct (kept_get _ _ Hk) as (previous & v & Hpr & Hvw & Hvi).
    unfold get_anslp_create. rewrite Hpr. apply wp_asserted; [|done]. intros ? [= <-]. do 2 wp_step.
    rewrite (create_get_mspec_view previous v) by done. do 3 wp_step. rewrite H4. apply wp_deref; [|done].
    intros ? [= <-]. do 2 wp_step. destruct (prune_total objs r) as [[r' Ep]|Ep]; rewrite Ep; cbn beta iota.
    - do 3 wp_step. eapply wp_build_create_message; [done|]. do 3 wp_step. apply nf_wp_start_state_timer.
      intros id w2 Ht2. wp_step. apply (nf_goes s); try done; try (by eexists). rewrite Hst. apply nf_checked.
    - right. right. right. left. split_and!; [done|done|]. by exists objs, rq, r. }
  destruct (ev_msg evt) as [n|] eqn:En; [|done]. destruct (get_create evt) as [c|] eqn:Ec; [|done].
  unfold pending_check_create. rewrite <- Hst. by apply another_create_ok.
Qed.

Lemma nf_pending_response_ok s w evt n r :
  nf_wf s -> event_valid evt -> state s = STATE_ANSLP_PENDING -> ev_msg evt = Some n -> get_response evt = Some r ->
  wp (pending_response evt n r) (nf_ok s evt) (s, w).
Proof.
  intros Hwf Hv Hst Hn Hr. pose proof Hwf as (H1 & H2 & H3 & [ru H4] & H5 & H6 & H7).
  assert (Hnc : state s <> STATE_ANSLP_CLOSE) by (rewrite Hst; done).
  destruct (H6 Hnc) as ([m Hnr] & Hni & last & Hl & Hk).
  pose proof (event_valid_stored C_response evt n r Hv Hn Hr) as Hs.
  unfold pending_response, get_last_create_message. do 3 wp_step. rewrite Hl. apply wp_asserted; [|done].
  intros ? [= <-]. wp_step. destruct (kept_get _ _ Hk) as (c & v & Hpr & Hvw & Hvi). unfold get_anslp_create.
  rewrite Hpr. apply wp_deref; [|done]. intros ? [= <-]. cbn beta iota. destruct (is_response_to_create r c); cbn [negb].
  2: { wp_step. rewrite <- Hst. split; [by apply nf_wf_same|constructor]. }
  destruct (response_is_success r) eqn:Es.
  - wp_step. apply nf_wp_start_response_timer. intros id w1 Ht1. wp_step. unfold set_last_response_message.
    do 2 wp_step. rewrite (stored_copy C_response) by done. do 4 wp_step. cbn [rule base set_response_message set_response_timer].
    rewrite H4. wp_step; [|split; [by eexists|done]]. wp_step. apply nf_wp_start_state_timer. intros id2 w3 Ht3. wp_step.
    apply (nf_goes s); try done; try (by eexists).
    + rewrite Hst. by eapply nf_answered.
    + intros _. exists n, (is_for_this_node evt). done.
  - unfold stop_state_timer. do 4 wp_step. unfold create_msg_for_ni. rewrite (stored_forward C_response) by done.
    do 3 wp_step. split; [by apply nf_wf_intro|]. rewrite Hst. by eapply nf_refused.
Qed.

Lemma nf_pending_ok s w evt :
  nf_wf s -> event_valid evt -> state s = STATE_ANSLP_PENDING ->
  wp (handle_state_pending evt) (nf_ok s evt) (s, w).
Proof.
  intros Hwf Hv Hst. pose proof Hwf as (H1 & H2 & H3 & [r H4] & H5 & H6 & H7).
  assert (Hp : pending (state s)) by (rewrite Hst; right; by left).
  assert (Hnc : state s <> STATE_ANSLP_CLOSE) by (rewrite Hst; done).
  destruct (H6 Hnc) as (Hnr & Hni & last & Hl & Hk).
  unfold handle_state_pending. do 2 wp_step.
  assert (Hstay : forall w', wp (ret STATE_ANSLP_PENDING) (nf_ok s evt) (s, w')).
  { intros w'. wp_step. rewrite <- Hst. split; [by apply nf_wf_same|constructor]. }
  assert (Hrest : wp (if is_no_next_node_found_event evt || is_timer_of evt (state_timer s) then nr_not_reached
        else if is_timer evt then ret STATE_ANSLP_PENDING
        else
          last <- get_last_create_message ;;
          if is_anslp_response evt (Some last) then
            n <- deref (ev_msg evt) ;; resp <- deref (get_response evt) ;; pending_response evt n resp
          else ret STATE_ANSLP_PENDING) (nf_ok s evt) (s, w)).
  { destruct (is_no_next_node_found_event evt || _) eqn:E1; [by apply nr_not_reached_ok|].
    destruct (is_timer evt); [apply Hstay|]. unfold get_last_create_message. do 3 wp_step. rewrite Hl.
    apply wp_asserted; [|done]. intros ? [= <-]. cbn beta iota.
    destruct (is_anslp_response evt (Some last)) eqn:E2; [|apply Hstay].
    destruct (is_anslp_response_msg _ _ E2) as [resp Er]. rewrite Er. wp_step.
    destruct (ev_msg evt) as [n|] eqn:En; [|unfold get_response, ev_anslp in Er; by rewrite En in Er].
    apply wp_deref; [|done]. intros ? [= <-]. wp_step. apply wp_deref; [|done]. intros ? [= <-].
    by apply nf_pending_response_ok. }
  destruct (ev_msg evt) as [n|] eqn:En; [|done]. destruct (get_create evt) as [c|] eqn:Ec; [|done].
  unfold pending_create. rewrite <- Hst. by apply another_create_ok.
Qed.
(** The REFRESH of lifetime 0 for the responder. *)
Definition teardown_of s (m : mri_pathcoupled) : ntlp_msg :=
  mk_ntlp_msg (sid (base s))
    (Some (refresh_set_msg_sequence_number (u32 (msn (base s) + 1))
             (refresh_set_session_lifetime 0 new_anslp_refresh))) (upcast_mri m) 0.

Lemma wp_build_teardown s w Q m :
  nr_mri s = Some m ->
  Q (Normal (teardown_of s m)) (set_base (set_msn (u32 (msn (base s) + 1)) (base s)) s, w) ->
  wp build_teardown_message Q (s, w).
Proof.
  intros Hm HQ. unfold build_teardown_message, get_nr_mri. do 5 wp_step. rewrite Hm. apply wp_asserted; [|done].
  intros ? [= <-]. cbv zeta. wp_step. unfold next_msn, next_msg_sequence_number. do 2 wp_step. cbv zeta. by repeat wp_step.
Qed.

Lemma nf_installing_ok s w evt :
  nf_wf s -> event_valid evt -> state s = STATE_ANSLP_PENDING_INSTALLING ->
  wp (handle_state_pending_installing evt) (nf_ok s evt) (s, w).
Proof.
  intros Hwf Hv Hst. pose proof Hwf as (H1 & H2 & H3 & [r H4] & H5 & H6 & H7).
  assert (Hp : pending (state s)) by (rewrite Hst; right; by right).
  assert (Hnc : state s <> STATE_ANSLP_CLOSE) by (rewrite Hst; done).
  destruct (H6 Hnc) as ([m Hnr] & Hni & _). destruct (H7 Hst) as (rn & b & Hrm & Hrs).
  unfold handle_state_pending_installing. do 2 wp_step.
  assert (Hstay : forall w', wp (ret STATE_ANSLP_PENDING_INSTALLING) (nf_ok s evt) (s, w')).
  { intros w'. wp_step. rewrite <- Hst. split; [by apply nf_wf_same|constructor]. }
  assert (Hrest : wp (if is_no_next_node_found_event evt || is_timer_of evt (state_timer s) then nr_not_reached
        else if is_timer evt then ret STATE_ANSLP_PENDING_INSTALLING
        else if is_api_install evt then objs <- deref (cast_objects evt) ;; installing_install objs
        else ret STATE_ANSLP_PENDING_INSTALLING) (nf_ok s evt) (s, w)).
  { destruct (is_no_next_node_found_event evt || _) eqn:E1; [by apply nr_not_reached_ok|].
    destruct (is_timer evt); [apply Hstay|]. destruct (is_api_install evt) eqn:E2; [|apply Hstay].
    destruct evt; try discriminate. cbn [cast_objects]. wp_step. apply wp_deref; [|done]. intros ? [= <-].
    unfold installing_install, get_last_response_message. do 5 wp_step. rewrite Hrm. apply wp_asserted; [|done].
    intros ? [= <-]. cbn [ev_msg]. wp_step. apply wp_deref; [|done]. intros ? [= <-]. wp_step. rewrite H4.
    apply wp_deref; [|done]. intros ? [= <-]. cbn beta iota. unfold stop_state_timer.
    destruct (get_number_mspec_request_objects r =? length objs)%nat.
    - do 6 wp_step. wp_step. apply wp_deref; [|done]. intros ? [= <-]. wp_step.
      destruct (stored_get _ _ Hrs) as (resp & v & Hgr & _). unfold get_response, ev_anslp. cbn [ev_msg]. rewrite Hgr.
      apply wp_deref; [|done]. intros ? [= <-]. cbv zeta. do 2 wp_step. unfold new_ntlp_msg. do 3 wp_step.
      apply nf_wp_start_state_timer. intros id w2 Ht2. wp_step. apply (nf_goes s); try done; try (by eexists).
      rewrite Hst. apply nf_installed. auto.
    - assert (Hend : forall w', wp (tear_down <- build_teardown_message ;; outside (send_message tear_down) ;;;
          outside (send_message (create_response sc_permanent_failure fail_internal_error rn)) ;;;
          ret STATE_ANSLP_CLOSE) (nf_ok s (Api_install_event objs rq)) (set_lifetime 0 (set_state_timer 0%Z s), w')).
      { intros w'. wp_step. eapply wp_build_teardown; [done|]. do 5 wp_step. split.
        - apply nf_wf_intro; cbn; try done; try apply u32_range; try (by eexists). split; [done|apply H2].
        - rewrite Hst. apply nf_installed. auto. }
      do 5 wp_step. destruct (0 <? get_number_mspec_response_objects r)%nat.
      + wp_step; [|split; [by eexists|done]]. apply Hend.
      + wp_step. apply Hend. }
  destruct (ev_msg evt) as [n|] eqn:En; [|done]. destruct (get_create evt) as [c|] eqn:Ec; [|done].
  unfold installing_create. rewrite <- Hst. by apply another_create_ok.
Qed.

Lemma nf_wp_remove_or_close_known s w t Q r :
  rule (base s) = Some r ->
  (forall id w', 0 < length (object_responses r) ->
     trace w' = trace w ++ [Rules_removed (own_id s) r; Timer_started (sid (base s)) (int32 t) id] ->
     Q (Normal STATE_ANSLP_PENDING_TEARDOWN) (set_state_timer id s, w')) ->
  (forall e w1 w', 0 < length (object_responses r) ->
     fst (remove_auction_rules (own_id s) (Some r) w1) = Raised (Installer_error e) -> trace w' = trace w ->
     Q (Raised (Installer_error e)) (s, w')) ->
  (object_responses r = [] -> Q (Normal STATE_ANSLP_CLOSE) (set_state_timer 0%Z s, w)) ->
  wp (remove_or_close t) Q (s, w).
Proof.
  intros Hr HQ HE HC. unfold remove_or_close. do 2 wp_step. rewrite Hr. wp_step.
  apply wp_deref; [|done]. intros a [= <-]. unfold get_number_mspec_response_objects.
  destruct (Nat.ltb_spec 0 (length (object_responses r))) as [Hlt|Hge].
  - wp_step. eapply wp_may_throw_known; [apply remove_does|intros [] w1 Ht1|intros e w1 He Ht1; by eapply HE].
    wp_step. apply nf_wp_start_state_timer. intros id w2 Ht.
    wp_step. apply HQ; [done|]. trace_eq.
  - wp_step. unfold stop_state_timer. wp_step. wp_step. apply HC.
    by destruct (object_responses r); [|cbn in Hge; lia].
Qed.

Lemma nf_wp_remove_or_close s w t Q r :
  rule (base s) = Some r ->
  (forall id w', 0 < length (object_responses r) ->
     trace w' = trace w ++ [Rules_removed (own_id s) r; Timer_started (sid (base s)) (int32 t) id] ->
     Q (Normal STATE_ANSLP_PENDING_TEARDOWN) (set_state_timer id s, w')) ->
  (forall e w', 0 < length (object_responses r) -> trace w' = trace w ->
     Q (Raised (Installer_error e)) (s, w')) ->
  (object_responses r = [] -> Q (Normal STATE_ANSLP_CLOSE) (set_state_timer 0%Z s, w)) ->
  wp (remove_or_close t) Q (s, w).
Proof. intros Hr HQ HE HC. apply (nf_wp_remove_or_close_known s w t Q r); [done|done| |done]. intros e w1 w' Hl _. by apply HE. Qed.

Lemma nf_remove_or_close_ok s s1 w t evt :
  nf_wf s -> state s = STATE_ANSLP_AUCTIONING -> state s1 = STATE_ANSLP_AUCTIONING ->
  is_timer evt = true \/ is_no_next_node_found_event evt = true \/ is_route_changed_bad_event evt = true
    \/ is_Some (get_response evt) ->
  base s1 = base s -> lifetime s1 = lifetime s -> max_lifetime s1 = max_lifetime s -> config s1 = config s ->
  refresh_message s1 = refresh_message s -> nr_mri s1 = nr_mri s -> ni_mri s1 = ni_mri s ->
  create_message s1 = create_message s ->
  wp (remove_or_close t) (nf_ok s evt) (s1, w).
Proof.
  intros Hwf Hst Hst1 Hev V1 V2 V3 V4 V5 V6 V7 V8. pose proof Hwf as (H1 & H2 & H3 & [r H4] & H5 & _).
  assert (Hnc : state s <> STATE_ANSLP_CLOSE) by (rewrite Hst; done).
  assert (Hend : forall id st, st = STATE_ANSLP_PENDING_TEARDOWN \/ st = STATE_ANSLP_CLOSE ->
    nf_wf (set_state st (set_state_timer id s1)) /\ nf_step (state s) evt st).
  { intros id st Hs. apply (nf_goes s); try done; cbn; rewrite ?V1, ?V5; try done.
    - rewrite Hst. by apply nf_auction_ends.
    - unfold lifetimes_ok. cbn. by rewrite V2, V3, V4.
    - by destruct Hs; subst. }
  apply (nf_wp_remove_or_close _ _ _ _ r); [congruence|..].
  - intros id w2 _ _. apply Hend. auto.
  - intros e w2 _ _. split; [by eexists|cbn; congruence].
  - intros _. apply Hend. auto.
Qed.

Lemma nf_wp_auctioning_bidding s w Q evt :
  event_valid evt -> is_anslp_bidding evt = true ->
  (forall w', Q (Normal tt) (s, w')) -> (forall e w', Q (Raised (Installer_error e)) (s, w')) ->
  (unexpected_body evt -> Q (Faulted Null_dereference) (s, w)) ->
  wp (auctioning_bidding evt) Q (s, w).
Proof.
  intros Hv Hb HQ HE HF. unfold is_anslp_bidding, is_some in Hb.
  destruct (get_bidding evt) as [b|] eqn:Eb; [|discriminate].
  destruct (event_valid_anslp _ _ _ Hv Eb) as [Hc (v & Hm)].
  destruct (ev_msg evt) as [n|] eqn:En; [|unfold get_bidding, ev_anslp in Eb; by rewrite En in Eb].
  unfold auctioning_bidding. rewrite En. wp_step. apply wp_deref; [|done]. intros ? [= <-]. cbn beta iota.
  destruct (is_for_this_node evt).
  - do 2 wp_step. rewrite Eb. wp_step. eapply wp_create_auction_rule; [done|done| |intros Hu; by eapply HF, unexpected_body_anslp].
    intros r1 w1 _ Ht1. wp_step. wp_step; [wp_step; apply HQ|apply HE].
  - eapply wp_send_to_nr; [by eapply event_valid_stored|]. intros w1 _. apply HQ.
Qed.

Lemma nf_auctioning_refresh_ok s w evt n c :
  nf_wf s -> event_valid evt -> state s = STATE_ANSLP_AUCTIONING -> ev_msg evt = Some n ->
  get_refresh evt = Some c -> wp (auctioning_refresh n c) (nf_ok s evt) (s, w).
Proof.
  intros Hwf Hv Hst Hn Hc. pose proof Hwf as (H1 & (H2 & Hx & Hcf) & H3 & H4 & H5 & H6 & _).
  assert (Hnc : state s <> STATE_ANSLP_CLOSE) by (rewrite Hst; done).
  destruct (event_valid_anslp _ _ _ Hv Hc) as [_ Hb]. pose proof (body_valid_lifetime c Hb) as Hlt.
  pose proof (body_valid_msn c Hb) as Hmsn. change (is_u32 (refresh_get_msg_sequence_number c)) in Hmsn.
  change (is_u32 (refresh_get_session_lifetime c)) in Hlt.
  pose proof (event_valid_stored C_refresh evt n c Hv Hn Hc) as Hs.
  assert (Hstay : forall w', wp (ret STATE_ANSLP_AUCTIONING) (nf_ok s evt) (s, w')).
  { intros w'. wp_step. rewrite <- Hst. split; [by apply nf_wf_same|constructor]. }
  assert (Hend : forall s', is_u32 (msn (base s')) -> lifetimes_ok s' -> stype (base s') = stype (base s) ->
    is_Some (rule (base s')) -> refresh_message s' = Some n -> nr_mri s' = nr_mri s -> ni_mri s' = ni_mri s ->
    create_message s' = create_message s ->
    nf_wf (set_state STATE_ANSLP_AUCTIONING s') /\ nf_step (state s) evt STATE_ANSLP_AUCTIONING).
  { intros s' V1 V2 V3 V4 V5 V6 V7 V8. apply (nf_goes s); try done.
    - rewrite Hst. constructor.
    - rewrite V5. by intros ? [= <-]. }
  unfold auctioning_refresh. cbv zeta. do 3 wp_step.
  assert (Hgo : forall lt w', is_u32 lt ->
    wp (if negb (is_greater_than (refresh_get_msg_sequence_number c) (msn (base s))) then ret STATE_ANSLP_AUCTIONING
        else
          update (set_lifetime lt) ;;;
          if (0 <? lt)%Z then
            stop_response_timer ;;;
            update (fun s => set_base (set_msn (refresh_get_msg_sequence_number c) (base s)) s) ;;;
            set_last_refresh_message n ;;; send_to_nr n ;;; start_response_timer ;;; ret STATE_ANSLP_AUCTIONING
          else
            stop_response_timer ;;;
            send_to_nr n ;;; set_last_refresh_message n ;;; start_response_timer ;;; ret STATE_ANSLP_AUCTIONING)
      (nf_ok s evt) (s, w')).
  { intros lt w' Hlt'. destruct (negb _); [by apply Hstay|]. do 2 wp_step.
    unfold stop_response_timer, set_last_refresh_message. destruct (0 <? lt)%Z.
    - do 7 wp_step. rewrite (stored_copy C_refresh) by done. do 2 wp_step.
      eapply wp_send_to_nr; [done|]. intros w2 Ht2. wp_step. apply nf_wp_start_response_timer. intros id w3 Ht3. wp_step.
      by apply Hend.
    - do 3 wp_step. eapply wp_send_to_nr; [done|]. intros w2 Ht2. do 3 wp_step.
      rewrite (stored_copy C_refresh) by done. do 2 wp_step. apply nf_wp_start_response_timer. intros id w3 Ht3. wp_step.
      by apply Hend. }
  apply wp_checked_lifetime.
  - intros Hov. by apply Hgo.
  - intros Hle w2 Ht2. by apply Hgo.
  - intros Hle w2 Ht2. apply Hstay.
Qed.
Lemma nf_auctioning_response_ok s w evt n r last :
  nf_wf s -> event_valid evt -> state s = STATE_ANSLP_AUCTIONING -> ev_msg evt = Some n ->
  get_response evt = Some r -> refresh_message s = Some last ->
  wp (auctioning_response n r) (nf_ok s evt) (s, w).
Proof.
  intros Hwf Hv Hst Hn Hr Hl. pose proof Hwf as (H1 & H2 & H3 & H4 & H5 & H6 & _).
  assert (Hnc : state s <> STATE_ANSLP_CLOSE) by (rewrite Hst; done).
  pose proof (event_valid_stored C_response evt n r Hv Hn Hr) as Hs.
  destruct (stored_get _ _ (H5 last Hl)) as (c & vc & Hgc & _).
  assert (Hrr : is_Some (get_response evt)) by (rewrite Hr; by eexists).
  unfold auctioning_response, get_last_refresh_message. do 3 wp_step. rewrite Hl. apply wp_asserted; [|done].
  intros ? [= <-]. wp_step. unfold get_anslp_refresh. rewrite Hgc. apply wp_deref; [|done]. intros ? [= <-].
  cbn beta iota. destruct (is_response_to_refresh r c); cbn [negb].
  2: { wp_step. rewrite <- Hst. split; [by apply nf_wf_same|constructor]. }
  unfold stop_state_timer. destruct (response_is_success r).
  - wp_step. eapply wp_send_to_ni; [done|]. intros w2 Ht2. do 2 wp_step. cbn beta iota.
    destruct (lifetime s =? 0)%Z.
    + do 2 wp_step. apply nf_remove_or_close_ok; auto.
    + wp_step. apply nf_wp_start_state_timer. intros id w3 Ht3. wp_step. apply (nf_goes s); try done.
      rewrite Hst. constructor.
  - do 3 wp_step. eapply wp_send_to_ni; [done|]. intros w2 Ht2. do 2 wp_step. apply nf_remove_or_close_ok; auto.
Qed.

Lemma nf_auctioning_ok s w evt :
  nf_wf s -> event_valid evt -> state s = STATE_ANSLP_AUCTIONING ->
  wp (handle_state_auctioning evt) (nf_ok s evt) (s, w).
Proof.
  intros Hwf Hv Hst. unfold handle_state_auctioning. do 2 wp_step.
  assert (Hstay : forall w', wp (ret STATE_ANSLP_AUCTIONING) (nf_ok s evt) (s, w')).
  { intros w'. wp_step. rewrite <- Hst. split; [by apply nf_wf_same|constructor]. }
  destruct (get_refresh evt) as [c|] eqn:Ec.
  { destruct (ev_msg evt) as [n|] eqn:En; [by apply nf_auctioning_refresh_ok|].
    unfold get_refresh, ev_anslp in Ec. by rewrite En in Ec. }
  set (rest := (if is_anslp_bidding evt then _ else _)).
  enough (Hrest : wp rest (nf_ok s evt) (s, w)) by by destruct (ev_msg evt). subst rest.
  destruct (is_anslp_bidding evt) eqn:E1.
  { wp_step. apply nf_wp_auctioning_bidding; [done|done|..]; intros; [apply Hstay|split; [by eexists|done]|].
    by apply nf_bidding_fault; auto. }
  destruct (is_no_next_node_found_event evt || is_timer_of evt (response_timer s)) eqn:E2.
  { unfold auctioning_no_response, stop_state_timer. do 4 wp_step. apply nf_remove_or_close_ok; try done.
    apply orb_true_iff in E2 as [E|E]; [by right; left|left; by destruct evt]. }
  apply orb_false_iff in E2 as [E2 E2'].
  destruct (is_timer_of evt (state_timer s)) eqn:E3.
  { unfold auctioning_timeout, stop_response_timer. do 4 wp_step. apply nf_remove_or_close_ok; try done.
    left. by destruct evt. }
  destruct (is_route_changed_bad_event evt) eqn:E4.
  { unfold auctioning_route_changed. do 2 wp_step. apply nf_remove_or_close_ok; auto. }
  destruct (is_timer evt) eqn:E5; [apply Hstay|].
  unfold get_last_refresh_message. do 3 wp_step. apply wp_asserted.
  - intros last Hl. cbn beta iota. destruct (is_anslp_response evt (Some last)) eqn:E6; [|apply Hstay].
    destruct (is_anslp_response_msg _ _ E6) as [r Er]. rewrite Er. wp_step.
    destruct (ev_msg evt) as [n|] eqn:En; [|unfold get_response, ev_anslp in Er; by rewrite En in Er].
    apply wp_deref; [|done]. intros ? [= <-]. wp_step. apply wp_deref; [|done]. intros ? [= <-].
    by eapply nf_auctioning_response_ok.
  - intros Hl. right. right. left. split_and!; [done..|]. unfold expected_auctioning, is_anslp_refresh.
    by rewrite Ec, E1, E2, E4, E5.
Qed.

Lemma nf_teardown_ok s w evt :
  nf_wf s -> event_valid evt -> state s = STATE_ANSLP_PENDING_TEARDOWN ->
  wp (handle_state_pending_teardown evt) (nf_ok s evt) (s, w).
Proof.
  intros Hwf Hv Hst. unfold handle_state_pending_teardown. do 2 wp_step.
  assert (Hstay : forall w', wp (ret STATE_ANSLP_PENDING_TEARDOWN) (nf_ok s evt) (s, w')).
  { intros w'. wp_step. rewrite <- Hst. split; [by apply nf_wf_same|constructor]. }
  destruct (is_anslp_refresh evt); [apply Hstay|]. destruct (is_anslp_bidding evt) eqn:E1.
  { wp_step. apply nf_wp_auctioning_bidding; [done|done|..]; intros; [apply Hstay|split; [by eexists|done]|].
    by apply nf_bidding_fault; auto. }
  destruct (is_timer_of evt (state_timer s)) eqn:E2.
  { wp_step. split; [by apply nf_wf_closed|]. rewrite Hst. apply nf_torn_down. left. by destruct evt. }
  destruct (is_route_changed_bad_event evt); [apply Hstay|]. destruct (is_timer evt); [apply Hstay|].
  destruct (is_api_remove evt) eqn:E3; [|apply Hstay]. unfold stop_state_timer. do 3 wp_step.
  split; [by apply nf_wf_closed|]. rewrite Hst. apply nf_torn_down. auto.
Qed.

Lemma nf_process_event_ok : refines_step (process_event (W := W)) state event_valid nf_wf nf_step nf_thrown nf_fault.
Proof.
  intros s w evt Hwf Hv.
  assert (Hh : wp (handle_event evt) (nf_ok s evt) (s, w)).
  { unfold handle_event. do 2 wp_step. cbn beta iota.
    destruct (state s) eqn:Hst; [by apply nf_close_ok|by apply pending_check_ok|by apply nf_pending_ok|by apply nf_installing_ok
                                |by apply nf_auctioning_ok|by apply nf_teardown_ok]. }
  unfold wp in Hh. unfold process_event, bind. by destruct (handle_event evt (s, w)) as [[st|e|f] [s1 w1]].
Qed.

(** C13. The forwarder refines its protocol.  Whatever valid events a session
    that satisfies the invariant is given, and whatever the dispatcher
    answers, it follows the abstract transition relation [nf_step], knows
    both directions of the path and the CREATE it must answer for as long as
    it is under way, and is interrupted only by exceptions of the rule
    installer and by the faults [nf_fault] names. *)
Theorem nf_refines_protocol (evts : list event) (s : nf_session) (w : W)
  (Hwf : nf_wf s) (Hv : Forall event_valid evts) :
  refines_run process_event state nf_wf nf_step nf_thrown nf_fault evts s w.
Proof. eapply run_refines; [exact nf_process_event_ok|done..]. Qed.
(** ** What the session does, event by event. *)

(** From the handler of the state to [process_event]. *)
Lemma nf_wp_process_event evt s w Q :
  wp (match state s with
      | STATE_ANSLP_CLOSE => handle_state_close evt
      | STATE_ANSLP_PENDING_CHECK => handle_state_pending_check evt
      | STATE_ANSLP_PENDING => handle_state_pending evt
      | STATE_ANSLP_PENDING_INSTALLING => handle_state_pending_installing evt
      | STATE_ANSLP_AUCTIONING => handle_state_auctioning evt
      | STATE_ANSLP_PENDING_TEARDOWN => handle_state_pending_teardown evt
      end) (fun o sw => match o with
      | Normal st => Q (Normal tt) (set_state st (fst sw), snd sw)
      | Raised e => Q (Raised e) sw
      | Faulted f => Q (Faulted f) sw
      end) (s, w) ->
  wp (process_event evt) Q (s, w).
Proof.
  intros Hh. unfold process_event, handle_event. do 3 wp_step. eapply wp_mono; [exact Hh|].
  intros [st|e|f] [s' w']; cbn; auto.
Qed.

(** A CREATE that does not select the forwarder, when everybody is
    authorized: it goes on, with the lifetime that is granted. *)
Lemma create_relayed_run (s : nf_session) (w : W) (n : ntlp_msg) (b : bool) (c : anslp_msg) (hops sme k lt : Z) (l : list anslp_object)
  (pc : mri_pathcoupled) (Q : outcome unit -> nf_session * W -> Prop)
  (Hwf : nf_wf s) (Hst : state s = STATE_ANSLP_CLOSE)
  (Hv : event_valid (Msg_event n b)) (Hc : get_create (Msg_event n b) = Some c) (Hcv : msg_view c (create_view hops sme k lt l))
  (Hp : downcast_mri (get_mri n) = Some pc) (Hd : get_downstream pc = true)
  (Hlt : (0 < lt)%Z) (Hmax : (0 < nf_max_session_lifetime (config s))%Z)
  (Hsel : check_participating st_forwarder sme = false) (Hauth : forall w, fst (is_authorized n w) = Normal true)
  (HQ : forall ks body id s' w', let L := Z.min lt (nf_max_session_lifetime (config s)) in
     msg_cls body = C_create -> msg_view body (create_view hops sme k L l) ->
     state s' = STATE_ANSLP_PENDING -> lifetime s' = L -> create_message s' = Some n ->
     nr_mri s' = Some pc -> ni_mri s' = Some (pc_invertDirection pc) ->
     length ks = length l ->
     (forall r0, rule (base s) = Some r0 -> rule (base s') = Some (mk_rule (with_entries ks l []) (object_responses r0))) ->
     trace w' = trace w ++ [Sent (mk_ntlp_msg (sid (base s)) (Some body) (upcast_mri pc) 0);
                            Timer_started (sid (base s)) (int32 L) id] ->
     Q (Normal tt) (s', w')) :
  wp (process_event (Msg_event n b)) Q (s, w).
Proof.
  pose proof Hwf as (_ & (_ & _ & Hcf) & Ht & [r Hr] & _).
  pose proof (event_valid_stored C_create _ n c Hv eq_refl Hc) as Hk.
  destruct (event_valid_anslp _ _ _ Hv Hc) as [Hcls Hb].
  destruct (body_valid_create_ranges c Hb) as (R1 & R2 & R3 & R4).
  destruct (msg_view_get c _ Hcv) as (E1 & E2 & E3 & E4 & E5). cbn in E2, E3, E4, E5.
  assert (create_get_session_lifetime c = lt) as El by (unfold create_get_session_lifetime; by rewrite E5).
  assert (create_get_msg_sequence_number c = k) as Ek by (unfold create_get_msg_sequence_number; by rewrite E4).
  assert (create_get_selection_auctioning_entities c = sme) as Es by (unfold create_get_selection_auctioning_entities; by rewrite E2).
  assert (create_get_message_hop_count c = hops) as Eh by (unfold create_get_message_hop_count; by rewrite E3).
  apply nf_wp_process_event. rewrite Hst. unfold handle_state_close. cbn [ev_msg]. rewrite Hc.
  do 2 wp_step. cbv zeta. do 5 wp_step. apply wp_checked_allowed; [done|]. rewrite El.
  set (L := Z.min lt (nf_max_session_lifetime (config s))). assert (HL : L <> 0%Z) by lia.
  intros w1 Ht1. cbn beta iota. rewrite (proj2 (Z.eqb_neq _ _) HL). do 4 wp_step.
  eapply (wp_process_state_close _ _ _ _ (create_view hops sme k lt l) r); [done..|congruence|congruence|intros pc' _ _ Hi; discriminate Hi|].
  intros pc' ks Hp' Hd' Hvi Hks. cbv zeta. assert (pc' = pc) as -> by congruence.
  match goal with |- context [check_participating ?t _] => change t with (stype (base s)) end. rewrite Ht, Es, Hsel.
  intros id w2 Ht2. cbn [fst snd]. apply (HQ ks (create_body hops sme k L l) id _ w2); try done; [apply create_body_cls| |by rewrite Hr; intros ? [= <-]|].
  - pose proof Hcv as ((_ & _ & _ & _ & _ & _ & Hlen) & _). rewrite El, Es, Ek, Eh in *.
    apply create_body_view; try done; [unfold L, is_u32 in *; lia|exact (msg_view_mspecs _ _ Hcv)].
  - rewrite Ht2, Ht1. unfold create_on. rewrite El, Es, Ek, Eh. cbn [lifetime set_lifetime].
    match goal with |- context [create_body _ _ _ (Z.min ?x lt) _] => change x with L; rewrite (Z.min_l L lt) by (unfold L; lia) end. done.
Qed.

(** C25. A CREATE on its way to the responder, at a forwarder that sees it for
    the first time.  If it is refused - the dispatcher does not authorize it,
    and its lifetime is within the maximum - it is answered with an error; if
    the lifetime it is granted, its own up to the maximum, is 0, nothing is
    answered; on a flow that is not path-coupled it is answered with an
    error, and the session stays closed in all three cases.  On the way back
    from the responder it fails an assertion, and a message that carries an
    information code ends the program, by a failed cast.  Otherwise, if the
    message selects this node, its auctioning application is asked to check
    the objects and decides: the session waits for the result of the check,
    or, when the application does not check, for the responder, or, when it
    throws, answers with its error and is closed.  If the message does not
    select this node, the session waits for the responder at once.  What goes
    on to the responder is a CREATE of this session on the same path, with the
    sequence number, the selection and the objects of the one that came, the
    smaller of the two lifetimes - and its hop count, which no forwarder
    counts. *)
Theorem nf_create_cases (s : nf_session) (w : W) (n : ntlp_msg) (b : bool) (c : anslp_msg) (v : view)
  (Hwf : nf_wf s) (Hst : state s = STATE_ANSLP_CLOSE)
  (Hv : event_valid (Msg_event n b)) (Hc : get_create (Msg_event n b) = Some c) (Hcv : msg_view c v) :
  let lt := create_get_session_lifetime c in let max := nf_max_session_lifetime (config s) in let L := Z.min lt max in
  let opened pc s' := lifetime s' = L /\ msn (base s') = create_get_msg_sequence_number c
    /\ create_message s' = Some n /\ nr_mri s' = Some pc /\ ni_mri s' = Some (pc_invertDirection pc) in
  let passed_on pc m := get_session_id m = sid (base s) /\ get_mri m = upcast_mri pc
    /\ exists body, get_anslp_create m = Some body
      /\ msg_view body (create_view (create_get_message_hop_count c) (create_get_selection_auctioning_entities c)
           (create_get_msg_sequence_number c) L (v_ipap v)) in
  let started id := Timer_started (sid (base s)) (int32 L) id in
  wp (process_event (Msg_event n b)) (fun o sw => let s' := fst sw in let t := trace (snd sw) in
    let answered err := o = Normal tt /\ is_final s' = true /\ t = trace w ++ [Sent (create_error_response err n)] in
    if unauthorized max n lt w then answered authorization_error
    else if (L =? 0)%Z then o = Normal tt /\ is_final s' = true /\ t = trace w
    else match downcast_mri (get_mri n) with
    | None => answered no_path_coupled_mri
    | Some pc =>
        if negb (get_downstream pc) then o = Faulted Assertion_failed
        else if is_some (v_inf v) then o = Faulted Null_dereference
        else exists ks, length ks = length (v_ipap v) /\
          let reqs := with_entries ks (v_ipap v) [] in let check := d_check (own_id s) reqs in
          if check_participating st_forwarder (create_get_selection_auctioning_entities c) then
            (says w check (Normal true) /\ o = Normal tt /\ opened pc s' /\ state s' = STATE_ANSLP_PENDING_CHECK
             /\ exists id, t = trace w ++ [Checked (own_id s) reqs; started id])
            \/ (says w check (Normal false) /\ o = Normal tt /\ opened pc s' /\ state s' = STATE_ANSLP_PENDING
                /\ exists m id, t = trace w ++ [Checked (own_id s) reqs; Sent m; started id] /\ passed_on pc m)
            \/ (exists err, says w check (Raised (Installer_error err)) /\ answered err)
          else o = Normal tt /\ opened pc s' /\ state s' = STATE_ANSLP_PENDING
               /\ exists m id, t = trace w ++ [Sent m; started id] /\ passed_on pc m
    end) (s, w).
Proof.
  intros lt max L opened passed_on started. pose proof Hwf as (_ & (_ & _ & Hcf) & Ht & [r Hr] & _).
  pose proof (event_valid_stored C_create _ n c Hv eq_refl Hc) as Hk.
  destruct (event_valid_anslp _ _ _ Hv Hc) as [Hcls Hb].
  destruct (body_valid_create_ranges c Hb) as (R1 & R2 & R3 & R4).
  apply nf_wp_process_event. rewrite Hst. unfold handle_state_close. cbn [ev_msg]. rewrite Hc.
  do 2 wp_step. cbv zeta. do 5 wp_step. fold lt max. apply wp_granted_lifetime; fold L; intros Ea w1 Ht1; rewrite Ea; cbn beta iota.
  2: { wp_step. by split_and!. }
  destruct (Z.eqb_spec L 0) as [EL|EL].
  { wp_step. by split_and!. }
  do 4 wp_step. eapply (wp_process_state_close _ _ _ _ v r); [done..| | | |]; cbn [snd fst].
  - intros Hd w2 Ht2. rewrite Hd. split_and!; [done|done|]. by rewrite Ht2, Ht1.
  - intros pc Hd Hdn. by rewrite Hd, Hdn.
  - intros pc Hd Hdn Hi. by rewrite Hd, Hdn, Hi.
  - intros pc ks Hd Hdn Hvi Hks. cbv zeta. rewrite Hd, Hdn, Hvi. cbn [negb is_some].
    match goal with |- context [check_participating ?t _] => change t with (stype (base s)) end. rewrite Ht.
    assert (Hon : forall s1, sid (base s1) = sid (base s) -> lifetime s1 = L -> passed_on pc (create_on s1 c (v_ipap v) pc)).
    { intros s1 E1 E2. split_and!; [done|done|]. unfold create_on, get_anslp_create, get_anslp.
      cbn [get_anslp_msg]. rewrite decide_True by apply create_body_cls. eexists. split; [done|].
      rewrite E2, Z.min_l by (unfold L; lia).
      apply create_body_view; try done; [unfold L, is_u32 in *; lia|by eapply msg_view_mspecs|].
      destruct Hcv as ((_ & _ & _ & _ & _ & _ & Hn) & _). done. }
    destruct (check_participating _ _) eqn:Ep; [split_and!|].
    + intros Hsays id w2 Ht2. exists ks. split; [done|]. left. apply says_before with (w := w) in Hsays; [|done].
      split_and!; try done. exists id. by rewrite Ht2, Ht1.
    + intros Hsays id w2 Ht2. exists ks. split; [done|]. right. left. apply says_before with (w := w) in Hsays; [|done].
      split_and!; try done. eexists _, id. split; [by rewrite Ht2, Ht1|]. by apply Hon.
    + intros e Hsays w2 Ht2. exists ks. split; [done|]. right. right. exists e. apply says_before with (w := w) in Hsays; [|done].
      split_and!; try done. by rewrite Ht2, Ht1.
    + intros id w2 Ht2. exists ks. split; [done|]. split_and!; try done. eexists _, id. split; [by rewrite Ht2, Ht1|]. by apply Hon.
Qed.

(** A new REFRESH, when everybody is authorized: it goes on as it came, and
    the session takes over its lifetime, up to its maximum. *)
Lemma refresh_relayed_run (s : nf_session) (w : W) (n : ntlp_msg) (b : bool) (c : anslp_msg) (Q : outcome unit -> nf_session * W -> Prop)
  (Hst : state s = STATE_ANSLP_AUCTIONING) (Hv : event_valid (Msg_event n b)) (Hc : get_refresh (Msg_event n b) = Some c)
  (Hauth : forall w, fst (is_authorized n w) = Normal true)
  (Hnew : is_greater_than (refresh_get_msg_sequence_number c) (msn (base s)) = true)
  (HQ : forall id s' w', let L := Z.min (refresh_get_session_lifetime c) (max_lifetime s) in
     state s' = STATE_ANSLP_AUCTIONING -> lifetime s' = L -> refresh_message s' = Some n ->
     ((0 < L)%Z -> msn (base s') = refresh_get_msg_sequence_number c) -> rule (base s') = rule (base s) ->
     response_timer s' = id -> response_timeout s' = response_timeout s ->
     trace w' = trace w ++ [Sent (forwarded n); Timer_started (sid (base s)) (int32 (response_timeout s)) id] ->
     Q (Normal tt) (s', w')) :
  wp (process_event (Msg_event n b)) Q (s, w).
Proof.
  pose proof (event_valid_stored C_refresh _ n c Hv eq_refl Hc) as Hs.
  apply nf_wp_process_event. rewrite Hst. unfold handle_state_auctioning. do 2 wp_step. cbn [ev_msg]. rewrite Hc.
  unfold auctioning_refresh. cbv zeta. do 3 wp_step. apply wp_checked_allowed; [done|]. intros w1 Ht1. cbn beta iota.
  set (L := Z.min (refresh_get_session_lifetime c) (max_lifetime s)) in *. rewrite Hnew. cbn [negb]. do 2 wp_step.
  unfold stop_response_timer, set_last_refresh_message. destruct (Z.ltb_spec 0 L).
  - do 7 wp_step. rewrite (stored_copy C_refresh) by done. do 2 wp_step.
    eapply wp_send_to_nr; [done|]. intros w2 Ht2. wp_step. apply nf_wp_start_response_timer. intros id w3 Ht3. wp_step.
    apply (HQ id); try done. cbn in Ht3. cbn [snd]. trace_eq.
  - do 3 wp_step. eapply wp_send_to_nr; [done|]. intros w2 Ht2. do 3 wp_step.
    rewrite (stored_copy C_refresh) by done. do 2 wp_step. apply nf_wp_start_response_timer. intros id w3 Ht3. wp_step.
    apply (HQ id); try done; [intros; lia|]. cbn in Ht3. cbn [snd]. trace_eq.
Qed.

(** The RESPONSE that grants the session: it is kept, and the installation of
    the requests is on its way. *)
Lemma response_taken_run (s : nf_session) (w : W) (nm last : ntlp_msg) (b : bool) (r c : anslp_msg) (ru : auction_rule)
  (Q : outcome unit -> nf_session * W -> Prop)
  (Hst : state s = STATE_ANSLP_PENDING) (Hl : create_message s = Some last) (Hc : get_anslp_create last = Some c)
  (Hmsn : has_msg_sequence_number c = true) (Hr : get_response (Msg_event nm b) = Some r) (Hk : stored C_response nm)
  (Hr1 : has_msg_sequence_number r = true) (Hrc : is_response_to_create r c = true) (Hs : response_is_success r = true)
  (Hru : rule (base s) = Some ru)
  (HQ : forall id1 id2 s' w', state s' = STATE_ANSLP_PENDING_INSTALLING -> response_message s' = Some (Msg_event nm b) ->
     lifetime s' = lifetime s -> rule (base s') = Some ru -> sid (base s') = sid (base s) ->
     trace w' = trace w ++ [Timer_started (sid (base s)) (int32 (response_timeout s)) id1; Rules_installed (own_id s) ru;
                            Timer_started (sid (base s)) (int32 (response_timeout s)) id2] ->
     Q (Normal tt) (s', w'))
  (HE : forall e id1 s' w1 w', fst (install_auction_rules (own_id s) (Some ru) w1) = Raised (Installer_error e) ->
     trace w' = trace w ++ [Timer_started (sid (base s)) (int32 (response_timeout s)) id1] ->
     Q (Raised (Installer_error e)) (s', w')) :
  wp (process_event (Msg_event nm b)) Q (s, w).
Proof.
  assert (Hm : get_anslp_msg last = Some c).
  { unfold get_anslp_create, get_anslp in Hc. destruct (get_anslp_msg last) as [x|]; [|done]. case_decide; [|done]. by injection Hc as ->. }
  assert (Hsame : (msn_of c =? response_get_msg_sequence_number r)%Z = true).
  { unfold is_response_to_create in Hrc. by rewrite Z.eqb_sym. }
  assert (Hnc : get_create (Msg_event nm b) = None).
  { unfold get_create, get_response, ev_anslp, get_anslp in *. cbn [ev_msg] in *. destruct (get_anslp_msg nm) as [x|]; [|done].
    case_decide as Hx; [|done]. by rewrite decide_False by congruence. }
  apply nf_wp_process_event. rewrite Hst. unfold handle_state_pending. do 2 wp_step. cbn [ev_msg]. rewrite Hnc.
  cbn [is_no_next_node_found_event is_timer_of is_timer orb]. unfold get_last_create_message. do 3 wp_step. rewrite Hl.
  apply wp_asserted; [|done]. intros ? [= <-]. cbn beta iota.
  rewrite (is_anslp_response_to _ last c r Hm Hmsn Hr), Hr1, Hsame. cbn [andb]. wp_step. apply wp_deref; [|done].
  intros ? [= <-]. rewrite Hr. wp_step. apply wp_deref; [|done]. intros ? [= <-].
  unfold pending_response, get_last_create_message. do 3 wp_step. rewrite Hl. apply wp_asserted; [|done].
  intros ? [= <-]. wp_step. rewrite Hc. apply wp_deref; [|done]. intros ? [= <-]. cbn beta iota. rewrite Hrc, Hs. cbn [negb].
  wp_step. apply nf_wp_start_response_timer. intros id1 w1 Ht1. wp_step. unfold set_last_response_message.
  do 2 wp_step. rewrite (stored_copy C_response) by done. do 4 wp_step.
  cbn [rule base set_response_message set_response_timer]. rewrite Hru.
  eapply wp_may_throw_known; [apply install_does|intros [] w2 Ht2|intros e w2 He Ht2; by apply (HE e id1 _ w1); [exact He|trace_eq]].
  wp_step. apply nf_wp_start_state_timer. intros id2 w3 Ht3. wp_step. apply (HQ id1 id2 _ w3); try done. cbn in Ht3. trace_eq.
Qed.

(** The application installed as much as was requested: the RESPONSE goes on,
    with the local objects behind those it came with. *)
Lemma install_passed_on_run (s : nf_session) (w : W) (objs : objectList_t) (rq : option queue)
  (n : ntlp_msg) (b : bool) (resp : anslp_msg) (v : view) (r : auction_rule) (Q : outcome unit -> nf_session * W -> Prop)
  (Hst : state s = STATE_ANSLP_PENDING_INSTALLING) (Ho : objs_wf objs)
  (Hn : response_message s = Some (Msg_event n b)) (Hc : get_anslp_response n = Some resp) (Hrv : msg_view resp v)
  (Hroom : (Z.of_nat (length (v_ipap v) + length objs) < 2 ^ 32 - OT_ipap_message)%Z)
  (Hr : rule (base s) = Some r) (Hnone : object_responses r = [])
  (Hlen : (length (object_requests r) =? length objs)%nat = true)
  (HQ : forall ks id s' w', let mine := with_entries ks (map snd objs) [] in
     let body := set_mspecs (map snd mine) resp in
     length ks = length objs -> msg_cls body = C_response ->
     msg_view body (mk_view (v_inf v) (v_sme v) (v_mhc v) (v_msn v) (v_slf v) (v_ipap v ++ map snd mine)) ->
     state s' = STATE_ANSLP_AUCTIONING -> lifetime s' = lifetime s -> rule (base s') = Some (mk_rule (object_requests r) mine) ->
     trace w' = trace w ++ [Sent (mk_ntlp_msg (sid (base s)) (Some body) (get_mri n) 0);
                            Timer_started (sid (base s)) (int32 (lifetime s)) id] ->
     Q (Normal tt) (s', w')) :
  wp (process_event (Api_install_event objs rq)) Q (s, w).
Proof.
  assert (Hcls : msg_cls resp = C_response).
  { unfold get_anslp_response, get_anslp in Hc. destruct (get_anslp_msg n) as [m0|]; [|done]. case_decide as Hcl; [|done].
    by injection Hc as ->. }
  apply nf_wp_process_event. rewrite Hst. unfold handle_state_pending_installing. do 2 wp_step.
  cbn [ev_msg get_create ev_anslp is_no_next_node_found_event is_timer_of is_timer orb is_api_install cast_objects].
  wp_step. apply wp_deref; [|done]. intros ? [= <-].
  unfold installing_install, get_last_response_message. do 5 wp_step. rewrite Hn. apply wp_asserted; [|done].
  intros ? [= <-]. cbn [ev_msg]. wp_step. apply wp_deref; [|done]. intros ? [= <-]. wp_step. rewrite Hr.
  apply wp_deref; [|done]. intros ? [= <-]. cbn beta iota. unfold stop_state_timer, get_number_mspec_request_objects.
  rewrite Hlen.
  do 3 wp_step. destruct Ho as [Hof Hol]. apply wp_set_reponse_objects_exact. intros ks w1 Hks Ht1.
  rewrite Hnone, (map_copy_snd objs) by done. do 3 wp_step. apply wp_deref; [|done]. intros ? [= <-]. wp_step.
  unfold get_response, ev_anslp. cbn [ev_msg]. unfold get_anslp_response in Hc. rewrite Hc.
  apply wp_deref; [|done]. intros ? [= <-]. cbv zeta. do 2 wp_step. unfold new_ntlp_msg. do 3 wp_step.
  apply nf_wp_start_state_timer. intros id w2 Ht2. wp_step. cbn [fst snd].
  set (mine := with_entries ks (map snd objs) []) in *.
  assert (Hmo : Forall (fun kv => mspec_wf (snd kv)) mine).
  { apply with_entries_values; [|constructor]. apply Forall_map. eapply Forall_impl; [exact Hof|]. done. }
  assert (Hml : length mine <= length objs).
  { pose proof (with_entries_length ks (map snd objs) []) as Hle. cbn in Hle. by rewrite length_map in Hle. }
  assert (Hsame : set_mspecs (map (fun kv => object_copy (snd kv)) mine) (msg_copy resp)
            = set_mspecs (map snd mine) resp) by by rewrite map_copy_snd, (msg_copy_view resp v).
  apply (HQ ks id _ w2); try done.
  - by rewrite set_mspecs_cls.
  - apply set_mspecs_view; [done|by apply Forall_map|]. rewrite length_map. change (with_entries ks (map snd objs) []) with mine. lia.
  - match goal with Hw : trace _ = trace w1 ++ [Sent _] |- _ =>
      cbn [object_responses] in Hw; fold mine in Hw; rewrite Hsame in Hw end. cbn in Ht2. trace_eq.
Qed.

(** C27. The local application reports what it installed.  If it installed as
    many objects as were requested, they become the responses of the rule,
    and the RESPONSE the path gave is passed on towards the initiator with
    the local objects added behind those of the other nodes; the session is
    AUCTIONING.  If not, the session gives up: the responder is sent a REFRESH
    of lifetime 0, and an error RESPONSE is made from the RESPONSE the path
    gave - not from the CREATE - so that it travels back towards the responder
    and not, as the comment says, to the initiator. *)
Theorem nf_install_reported (s : nf_session) (w : W) (objs : objectList_t) (rq : option queue)
  (n : ntlp_msg) (b : bool) (resp : anslp_msg) (v : view) (m : mri_pathcoupled) (r : auction_rule)
  (Hwf : nf_wf s) (Hst : state s = STATE_ANSLP_PENDING_INSTALLING) (Ho : objs_wf objs)
  (Hn : response_message s = Some (Msg_event n b)) (Hc : get_anslp_response n = Some resp)
  (Hrv : msg_view resp v) (Hi : v_sme v = None /\ v_mhc v = None) (Hm : nr_mri s = Some m)
  (Hroom : (Z.of_nat (length (v_ipap v) + length objs) < 2 ^ 32 - OT_ipap_message)%Z)
  (Hr : rule (base s) = Some r) (Hnone : object_responses r = []) :
  wp (process_event (Api_install_event objs rq)) (fun o sw => o = Normal tt /\
    if (length (object_requests r) =? length objs)%nat then
      state (fst sw) = STATE_ANSLP_AUCTIONING
      /\ exists ks answer body id, length ks = length objs
        /\ rule (base (fst sw)) = Some (mk_rule (object_requests r) (with_entries ks (map snd objs) []))
        /\ trace (snd sw) = trace w ++ [Sent answer; Timer_started (sid (base s)) (int32 (lifetime s)) id]
        /\ get_mri answer = get_mri n /\ get_anslp_response answer = Some body
        /\ response_is_success body = response_is_success resp
        /\ response_get_msg_sequence_number body = response_get_msg_sequence_number resp
        /\ response_get_mspec_objects body
           = Normal (v_ipap v ++ map snd (with_entries ks (map snd objs) []))
    else
      is_final (fst sw) = true
      /\ trace (snd sw) = trace w ++ [Sent (teardown_of s m);
           Sent (create_response sc_permanent_failure fail_internal_error n)]
      /\ get_mri (create_response sc_permanent_failure fail_internal_error n) = invertDirection (get_mri n)) (s, w).
Proof.
  destruct (length (object_requests r) =? length objs)%nat eqn:Hlen.
  - eapply (install_passed_on_run s w objs rq n b resp v r); [done..|]. intros ks id s' w' mine body Hks Hcls Hbv Hs' Hl' Hru Ht.
    cbn [fst snd]. split; [done|]. split; [done|]. exists ks. eexists. exists body, id. split_and!; [done|done|exact Ht|done|..].
    + unfold get_anslp_response, get_anslp. cbn [get_anslp_msg]. by rewrite decide_True.
    + unfold response_is_success. destruct (msg_view_get _ _ Hbv) as (-> & _). by destruct (msg_view_get _ _ Hrv) as (-> & _).
    + unfold response_get_msg_sequence_number. destruct (msg_view_get _ _ Hbv) as (_ & _ & _ & -> & _).
      by destruct (msg_view_get _ _ Hrv) as (_ & _ & _ & -> & _).
    + by rewrite (response_get_mspec_view _ _ Hbv) by apply Hi.
  - apply nf_wp_process_event. rewrite Hst. unfold handle_state_pending_installing. do 2 wp_step.
    cbn [ev_msg get_create ev_anslp is_no_next_node_found_event is_timer_of is_timer orb is_api_install cast_objects].
    wp_step. apply wp_deref; [|done]. intros ? [= <-].
    unfold installing_install, get_last_response_message. do 5 wp_step. rewrite Hn. apply wp_asserted; [|done].
    intros ? [= <-]. cbn [ev_msg]. wp_step. apply wp_deref; [|done]. intros ? [= <-]. wp_step. rewrite Hr.
    apply wp_deref; [|done]. intros ? [= <-]. cbn beta iota. unfold stop_state_timer, get_number_mspec_request_objects.
    rewrite Hlen. do 5 wp_step. unfold get_number_mspec_response_objects. rewrite Hnone. cbn [length].
    change (0 <? 0)%nat with false. do 2 wp_step. eapply wp_build_teardown; [done|]. do 5 wp_step.
    cbn [fst snd]. split_and!; [done|done|trace_eq|done].
Qed.

(** A CREATE that replaces a pending one is not held to the maximum
    lifetime.  A first CREATE never gets more than the configured maximum;
    one that arrives while another is pending, with another sequence number,
    is checked for authorization only, and a session that goes on with it
    has whatever lifetime it asked for. *)
Theorem nf_replacement_unchecked (s : nf_session) (w : W) (n : ntlp_msg) (b : bool) (c last : anslp_msg)
  (ln : ntlp_msg) (pc : mri_pathcoupled)
  (Hwf : nf_wf s) (Hst : pending (state s)) (Hv : event_valid (Msg_event n b))
  (Hc : get_create (Msg_event n b) = Some c) (Hln : create_message s = Some ln)
  (Hlast : get_anslp_create ln = Some last)
  (Hmsn : create_get_msg_sequence_number c <> create_get_msg_sequence_number last)
  (Hov : (max_lifetime s < create_get_session_lifetime c)%Z) (Hexp : unexpected_objects c = false)
  (Hp : downcast_mri (get_mri n) = Some pc) (Hd : get_downstream pc = true) :
  wp (process_event (Msg_event n b)) (fun o sw => o = Normal tt /\ let s' := fst sw in
    (* unauthorized: nothing happens but an error response *)
    (s' = s /\ exists e, trace (snd sw) = trace w ++ [Sent (create_error_response e n)])
    (* the check of its objects failed *)
    \/ (is_final s' = true /\ exists e, trace (snd sw) = trace w ++ [Sent (create_error_response e n)])
    \/ (pending (state s') /\ (max_lifetime s' < lifetime s')%Z
        /\ lifetime s' = create_get_session_lifetime c)) (s, w).
Proof.
  pose proof Hwf as (H1 & (H2 & Hx & Hcf) & H3 & [r H4] & _).
  pose proof (event_valid_stored C_create _ n c Hv eq_refl Hc) as Hk.
  destruct (event_valid_anslp _ _ _ Hv Hc) as [Hcls (v & Hvw)]. destruct (msg_view_get c v Hvw) as (Ei & _).
  unfold unexpected_objects in Hexp. rewrite Hcls, Ei in Hexp.
  assert (Hrun : forall pass_on, wp (another_create (state s) pass_on n c)
    (fun o sw => exists st, o = Normal st /\
      ((fst sw = s /\ st = state s /\ exists e, trace (snd sw) = trace w ++ [Sent (create_error_response e n)])
       \/ (st = STATE_ANSLP_CLOSE /\ exists e, trace (snd sw) = trace w ++ [Sent (create_error_response e n)])
       \/ (pending st /\ (max_lifetime (fst sw) < lifetime (fst sw))%Z
           /\ lifetime (fst sw) = create_get_session_lifetime c))) (s, w)).
  { intros pass_on. unfold another_create, get_last_create_message. do 3 wp_step. rewrite Hln. apply wp_asserted; [|done].
    intros ? [= <-]. wp_step. rewrite Hlast. apply wp_asserted; [|done]. intros ? [= <-]. wp_step.
    apply wp_authorized; intros w1 Ht1; cbn [negb].
    2: { wp_step. exists (state s). split; [done|]. left. split_and!; [done|done|]. by eexists. }
    assert (Hpos : (create_get_session_lifetime c =? 0)%Z = false) by (apply Z.eqb_neq; unfold is_u32 in *; lia).
    rewrite Hpos, andb_false_r, (proj2 (Z.eqb_neq _ _) Hmsn). do 4 wp_step.
    eapply (wp_process_state_close _ _ _ _ v r); [done..|congruence|congruence|intros; congruence|].
    intros pc' ks Hp' Hd' Hvi Hks. cbv zeta. destruct (check_participating _ _); [split_and!|].
    - intros _ id w2 Ht2. eexists. split; [done|]. right. right. split; [by left|by split].
    - intros _ id w2 Ht2. eexists. split; [done|]. right. right. split; [right; by left|by split].
    - intros e _ w2 Ht2. eexists. split; [done|]. right. left. split; [done|]. exists e. cbn [snd]. by rewrite Ht2, Ht1.
    - intros id w2 Ht2. eexists. split; [done|]. right. right. split; [right; by left|by split]. }
  apply nf_wp_process_event. match type of Hrun with forall p, wp _ ?R _ => eapply (wp_mono _ R) end.
  - destruct Hst as [E|[E|E]]; rewrite E in Hrun |- *.
    + unfold handle_state_pending_check. do 2 wp_step. cbn [ev_msg]. rewrite Hc. apply Hrun.
    + unfold handle_state_pending. do 2 wp_step. cbn [ev_msg]. rewrite Hc. apply Hrun.
    + unfold handle_state_pending_installing. do 2 wp_step. cbn [ev_msg]. rewrite Hc. apply Hrun.
  - intros o [s' w'] (st & -> & Hcase). split; [done|]. cbn [fst snd] in *.
    destruct Hcase as [(-> & -> & He)|[(-> & He)|(Hp' & Hl & Hl')]]; [left|right; left|right; right].
    + split; [by destruct s|done].
    + done.
    + by split_and!.
Qed.

(** The RESPONSE that answers the last REFRESH: it goes on to the initiator,
    and the session goes on or, if the REFRESH was the final one, ends. *)
Lemma refresh_confirmed_run (s : nf_session) (w : W) (n last : ntlp_msg) (b : bool) (r : anslp_msg) (ru : auction_rule)
  (Q : outcome unit -> nf_session * W -> Prop)
  (Hwf : nf_wf s) (Hst : state s = STATE_ANSLP_AUCTIONING) (Hv : event_valid (Msg_event n b))
  (Hl : refresh_message s = Some last) (Hr : get_response (Msg_event n b) = Some r)
  (Ha : is_anslp_response (Msg_event n b) (Some last) = true) (Hs : response_is_success r = true) (Hru : rule (base s) = Some ru) :
  (lifetime s <> 0%Z -> forall id w',
     trace w' = trace w ++ [Sent (forwarded n); Timer_started (sid (base s)) (int32 (lifetime s)) id] ->
     Q (Normal tt) (set_state STATE_ANSLP_AUCTIONING (set_state_timer id s), w')) ->
  (lifetime s = 0%Z -> object_responses ru <> [] -> forall id t s' w', state s' = STATE_ANSLP_PENDING_TEARDOWN ->
     trace w' = trace w ++ [Sent (forwarded n); Rules_removed (own_id s) ru; Timer_started (sid (base s)) t id] -> Q (Normal tt) (s', w')) ->
  (lifetime s = 0%Z -> object_responses ru <> [] -> forall e s' w1 w',
     fst (remove_auction_rules (own_id s) (Some ru) w1) = Raised (Installer_error e) ->
     trace w' = trace w ++ [Sent (forwarded n)] -> Q (Raised (Installer_error e)) (s', w')) ->
  (lifetime s = 0%Z -> object_responses ru = [] -> forall s' w', state s' = STATE_ANSLP_CLOSE ->
     trace w' = trace w ++ [Sent (forwarded n)] -> Q (Normal tt) (s', w')) ->
  wp (process_event (Msg_event n b)) Q (s, w).
Proof.
  intros HG HT HE HC. pose proof Hwf as (_ & _ & _ & _ & H5 & _).
  pose proof (event_valid_stored C_response _ n r Hv eq_refl Hr) as Hsn.
  destruct (H5 last Hl) as (m & vm & Hlm & Hcls & Hvm).
  assert (Hgr : get_anslp_refresh last = Some m) by (unfold get_anslp_refresh, get_anslp; by rewrite Hlm, decide_True).
  assert (Hrt : is_response_to_refresh r m = true).
  { unfold is_response_to_refresh. rewrite <- (is_anslp_response_msn_eq _ _ _ _ Ha Hlm Hr). apply Z.eqb_refl. }
  assert (Hcm : get_refresh (Msg_event n b) = None /\ is_anslp_bidding (Msg_event n b) = false).
  { unfold is_anslp_bidding, get_bidding, get_refresh, get_response, ev_anslp, get_anslp in *. cbn [ev_msg] in *.
    destruct (get_anslp_msg n) as [m0|]; [|done]. case_decide as Hd; [|done].
    split; [|unfold is_some]; case_decide; congruence. }
  destruct Hcm as [Hnr Hnb]. apply nf_wp_process_event. rewrite Hst. unfold handle_state_auctioning. do 2 wp_step.
  rewrite Hnr, Hnb. cbn [ev_msg is_no_next_node_found_event is_timer_of orb is_route_changed_bad_event is_timer].
  unfold get_last_refresh_message. do 3 wp_step. rewrite Hl. apply wp_asserted; [|done]. intros ? [= <-].
  cbn beta iota. rewrite Ha, Hr. wp_step. apply wp_deref; [|done]. intros ? [= <-]. wp_step. apply wp_deref; [|done].
  intros ? [= <-]. unfold auctioning_response, get_last_refresh_message. do 3 wp_step. rewrite Hl.
  apply wp_asserted; [|done]. intros ? [= <-]. wp_step. rewrite Hgr. apply wp_deref; [|done]. intros ? [= <-].
  cbn beta iota. rewrite Hrt, Hs. cbn [negb]. wp_step. eapply wp_send_to_ni; [done|]. intros w2 Ht2. do 2 wp_step.
  cbn beta iota. destruct (Z.eqb_spec (lifetime s) 0) as [E|E].
  - unfold stop_state_timer. do 2 wp_step. apply (nf_wp_remove_or_close_known _ _ _ _ ru); [done|..].
    + intros id w3 Hlr Ht3. eapply (HT E ltac:(intros En; rewrite En in Hlr; cbn in Hlr; lia) id); [done|]. cbn [snd]. trace_eq.
    + intros e w1 w3 Hlr He Ht3. eapply (HE E ltac:(intros En; rewrite En in Hlr; cbn in Hlr; lia) e); [exact He|]. cbn [snd]. trace_eq.
    + intros Hnil. apply (HC E Hnil); [done|]. cbn [snd]. trace_eq.
  - wp_step. apply nf_wp_start_state_timer. intros id w3 Ht3. wp_step. apply (HG E id). cbn [snd]. trace_eq.
Qed.

(** C40. A refreshed session still times out.  The response timer that is
    started when a REFRESH goes on to the responder is not stopped by the
    RESPONSE that confirms it: the RESPONSE is passed on and the session
    stays AUCTIONING with its state timer restarted, but when the response
    timer expires later, the session is torn down as if the responder had
    never answered. *)
Theorem nf_confirmed_refresh_times_out (s : nf_session) (w : W) (n last : ntlp_msg) (b : bool) (r : anslp_msg)
  (Hwf : nf_wf s) (Hst : state s = STATE_ANSLP_AUCTIONING) (Hv : event_valid (Msg_event n b))
  (Hl : refresh_message s = Some last) (Hr : get_response (Msg_event n b) = Some r)
  (Ha : is_anslp_response (Msg_event n b) (Some last) = true) (Hs : response_is_success r = true)
  (Hlife : lifetime s <> 0%Z) :
  wp (process_event (Msg_event n b)) (fun o sw => o = Normal tt /\ state (fst sw) = STATE_ANSLP_AUCTIONING
    /\ (exists id, trace (snd sw)
         = trace w ++ [Sent (forwarded n); Timer_started (sid (base s)) (int32 (lifetime s)) id])
    /\ response_timer (fst sw) = response_timer s
    /\ wp (process_event (Timer_event (response_timer s))) (fun o' sw' =>
         (o' = Normal tt /\ (state (fst sw') = STATE_ANSLP_PENDING_TEARDOWN \/ is_final (fst sw') = true))
         \/ exists e, o' = Raised (Installer_error e)) sw) (s, w).
Proof.
  pose proof Hwf as (_ & _ & _ & [ru H4] & _).
  apply (refresh_confirmed_run s w n last b r ru); [done..| |by intros E|by intros E|by intros E]. intros _ id w3 Ht3.
  split_and!; [done|done|by exists id|done|].
  apply nf_wp_process_event. cbn [fst snd state set_state]. unfold handle_state_auctioning. do 2 wp_step.
  cbn [ev_msg is_anslp_bidding is_no_next_node_found_event is_timer_of orb].
  change (is_anslp_bidding (Timer_event _)) with false. cbn [response_timer set_state set_state_timer].
  rewrite Z.eqb_refl. unfold auctioning_no_response, stop_state_timer. do 4 wp_step.
  apply (nf_wp_remove_or_close _ _ _ _ ru); [done|..].
  - intros id4 w4 _ _. left. split; [done|by left].
  - intros e w4 _ _. right. by exists e.
  - intros _. left. split; [done|by right].
Qed.
End NfSpec.
