(* ===== verification/SessionExamples.v ===== *)
(** * Sessions at work

    Concrete sessions in the concrete world of [Session.Concrete_world]: every
    theorem about sessions that has hypotheses is applied to one of them. *)
From S2P Require Import NiSession NiSpec NrSession NrSpec NfSession NfSpec.
From S2P Require Import Prelude Outcome StdMap External Objects Store Messages Codec SessionId NtlpMsg AuctionRule Events Session.

Module Session_examples.
Import Concrete Codec_examples Ntlp_examples Concrete_world.

(** ** Messages and events. *)
Lemma ex_create_valid b : event_valid (Msg_event ex_ntlp b).
Proof. intros m [= <-]. exists ex_view. exact ex_create_view. Qed.

Lemma ex_create_kept : kept C_create ex_ntlp.
Proof. exists ex_create, ex_view. split_and!; [done|done|exact ex_create_view|done]. Qed.

Lemma ex_create_holds : holds_msg C_create ex_ntlp.
Proof. exists ex_create, ex_view. split_and!; [done|done|exact ex_create_view|done]. Qed.

Definition ex_refresh (msn lifetime : Z) : ntlp_msg :=
  mk_ntlp_msg ex_sid (Some (refresh_set_msg_sequence_number msn
    (refresh_set_session_lifetime lifetime new_anslp_refresh))) (Pathcoupled ex_pc) 0.

Lemma ex_refresh_holds msn lt : is_u32 msn -> is_u32 lt -> holds_msg C_refresh (ex_refresh msn lt).
Proof. intros Hm Hl. by destruct (@refresh_holds simple_libs ex_sid (Pathcoupled ex_pc) msn lt (ex_refresh msn lt)). Qed.

Lemma ex_refresh_valid msn lt b : is_u32 msn -> is_u32 lt -> event_valid (Msg_event (ex_refresh msn lt) b).
Proof.
  intros Hm Hl m Hn. destruct (ex_refresh_holds msn lt Hm Hl) as (m' & v & Hn' & Hc & Hv & _).
  assert (m' = m) as -> by congruence. by exists v.
Qed.

(** The success RESPONSE to a message. *)
Definition ex_answer (n : ntlp_msg) (lifetime : Z) : ntlp_msg := create_success_response lifetime n.

Lemma ex_answer_view c n lt :
  holds_msg c n -> is_u32 lt ->
  exists m msn, get_anslp_msg (ex_answer n lt) = Some m /\ msg_cls m = C_response
    /\ msg_view m (response_view sc_success suc_successfully_processed msn (Some lt)).
Proof.
  intros (m & v & Hn & _ & Hv & _) Hl.
  destruct (create_success_response_view n lt m v Hn Hv Hl) as (r & Hr & Hcl & Hrv). eauto.
Qed.

Lemma ex_answer_valid c n lt b : holds_msg c n -> is_u32 lt -> event_valid (Msg_event (ex_answer n lt) b).
Proof.
  intros Hn Hl m Hm. destruct (ex_answer_view c n lt Hn Hl) as (m' & msn & Hm' & Hc & Hv).
  assert (m' = m) as -> by congruence. exists (response_view sc_success suc_successfully_processed msn (Some lt)).
  exact Hv.
Qed.

Lemma ex_ipap_mspec l : c_valid l = true -> mspec_wf (ex_ipap l).
Proof. intros Hv. split; [by apply ex_ipap_wf|done]. Qed.

Definition ex_objs : objectList_t := [(1%Z, ex_ipap [5]%Z); (2%Z, ex_ipap [6]%Z)].

Lemma ex_objs_wf : objs_wf ex_objs.
Proof. split; [|done]. repeat constructor; by apply ex_ipap_mspec. Qed.

Definition ex_rule : auction_rule := mk_rule ex_objs [].
Definition ex_installed_rule : auction_rule := mk_rule ex_objs [(7%Z, ex_ipap [9]%Z)].

Ltac u32 := unfold is_u32; split; first [lia | vm_compute; discriminate | vm_compute; reflexivity].

(** ** The initiator. *)
Module Ni.
Import NiSession NiSpec.

Definition conf : ni_config := mk_ni_config 2 3 20.
Definition fresh : ni_session := new_ni_session ex_sid conf 7 0.

Definition request (lifetime : Z) : api_create_data :=
  mk_api_create [] (mk_addressing 1 2 1000 2000 6)%Z lifetime sme_any ex_objs (Some 0).

Lemma request_valid lt : is_u32 lt -> event_valid (Api_create_event (request lt)).
Proof. intros Hl. split_and!; [exact ex_objs_wf|done|u32]. Qed.

Lemma ni_fresh_wf : ni_wf fresh.
Proof. split_and!; try u32; done. Qed.

(** Waiting for the answer to its CREATE. *)
Definition waiting : ni_session :=
  set_state STATE_ANSLP_PENDING (set_routing_info (Some (Pathcoupled ex_pc))
    (set_last_create_msg (Some ex_ntlp) fresh)).

Lemma waiting_wf : ni_wf waiting.
Proof. unfold ni_wf; cbn; split_and!; try u32; try done; try (by eexists). exists ex_ntlp. split; [done|exact ex_create_holds]. Qed.

Definition installing : ni_session :=
  set_state STATE_ANSLP_PENDING_INSTALLING (set_last_auction_install_rule (Some ex_rule) waiting).

Lemma installing_wf : ni_wf installing.
Proof. unfold ni_wf; cbn; split_and!; try u32; try done; try (by eexists). Qed.

Definition auctioning : ni_session := set_state STATE_ANSLP_AUCTIONING waiting.

(** It has sent its final REFRESH. *)
Definition ending : ni_session :=
  set_last_refresh_msg (Some (ex_refresh 78 0)) (set_base (set_rule (Some ex_installed_rule) (base auctioning)) auctioning).

Lemma ending_wf : ni_wf ending.
Proof.
  unfold ni_wf; cbn; split_and!; try u32; try done; try (by eexists). intros n [= <-]. apply ex_refresh_holds; u32.
Qed.

Theorem ni_refines_protocol_witness :
  refines_run process_event state ni_wf ni_step ni_thrown ni_fault
    [Api_create_event (request 30); Timer_event 101] fresh start_world
  /\ state (fst (snd (run_events process_event [Api_create_event (request 30); Timer_event 101]
                        (fresh, start_world)))) = STATE_ANSLP_PENDING.
Proof.
  split; [|vm_compute; reflexivity]. apply ni_refines_protocol; [exact ni_fresh_wf|].
  apply Forall_cons_2; [apply request_valid; u32|]. by apply Forall_cons_2; [|apply Forall_nil].
Defined.

Theorem ni_auctioning_assertion_witness :
  process_event (Msg_event (ex_answer ex_ntlp 30) true) (auctioning, start_world)
  = (Faulted Assertion_failed, (auctioning, start_world)).
Proof. apply ni_auctioning_assertion; reflexivity. Defined.

Theorem ni_create_request_witness :
  exists s' w', process_event (Api_create_event (request 30)) (fresh, start_world) = (Normal tt, (s', w'))
    /\ state s' = STATE_ANSLP_PENDING /\ length (c_trace w') = 3.
Proof.
  destruct (ni_create_request fresh start_world (request 30) 0 ni_fresh_wf eq_refl ltac:(apply request_valid; u32)
              eq_refl ltac:(vm_compute; reflexivity)) as (n & b & os & s' & w' & id & t & E & Hs & Ht & _).
  exists s', w'. split; [exact E|]. split; [exact Hs|]. change (c_trace w') with (trace w'). rewrite Ht. reflexivity.
Defined.

Theorem ni_zero_lifetime_aborts_witness :
  fst (process_event (Api_create_event (request 0)) (fresh, start_world)) = Faulted Assertion_failed.
Proof. apply ni_zero_lifetime_aborts; reflexivity. Defined.

Theorem ni_pending_retransmission_witness :
  exists s' w', ni_timeouts 4 waiting start_world = (Normal tt, (s', w')) /\ is_final s' = true
    /\ sends (trace w') = [ex_ntlp; ex_ntlp; ex_ntlp].
Proof.
  destruct (ni_pending_retransmission waiting start_world ex_ntlp 3 waiting_wf eq_refl eq_refl
              ltac:(u32) ltac:(u32) eq_refl) as [_ H]. exact H.
Defined.

Theorem ni_final_refresh_confirmed_witness :
  exists s' w', process_event (Msg_event (ex_answer (ex_refresh 78 0) 0) true) (ending, start_world)
    = (Normal tt, (s', w')) /\ state s' = STATE_ANSLP_PENDING_TEARDOWN.
Proof.
  destruct (ex_answer_view C_refresh (ex_refresh 78 0) 0) as (r & msn & Hr & Hc & Hv);
    [apply ex_refresh_holds; u32|u32|].
  destruct (ni_final_refresh_confirmed ending start_world (Msg_event (ex_answer (ex_refresh 78 0) 0) true)
    (ex_refresh 78 0) r ex_installed_rule ending_wf eq_refl eq_refl) as (o & s' & w' & E & H).
  - eapply ex_answer_valid; [apply ex_refresh_holds; u32|u32].
  - reflexivity.
  - reflexivity.
  - unfold get_response, ev_anslp, get_anslp. cbn [ev_msg]. rewrite Hr. by rewrite decide_True.
  - vm_compute. reflexivity.
  - by destruct (response_view_fields _ _ _ _ _ Hv) as [-> _].
  - reflexivity.
  - cbn in H. destruct H as [(-> & Hs & _)|[[e ->] _]]; [by exists s', w'|].
    exfalso. apply (f_equal fst) in E. cbn [fst] in E.
    assert (Hok : fst (process_event (Msg_event (ex_answer (ex_refresh 78 0) 0) true) (ending, start_world))
                  = Normal tt) by (vm_compute; reflexivity).
    rewrite Hok in E. discriminate E.
Defined.

Theorem ni_installing_close_removes_nothing_witness :
  exists n, c_trace (snd (snd (process_event Api_teardown_event (installing, start_world)))) = [Sent n].
Proof.
  destruct (process_event Api_teardown_event (installing, start_world)) as [o [s' w']] eqn:E.
  assert (Ho : fst (process_event Api_teardown_event (installing, start_world)) = Normal tt)
    by (vm_compute; reflexivity).
  assert (Hf : is_final (fst (snd (process_event Api_teardown_event (installing, start_world)))) = true)
    by (vm_compute; reflexivity).
  assert (Hl : length (c_trace (snd (snd (process_event Api_teardown_event (installing, start_world))))) = 1)
    by (vm_compute; reflexivity).
  rewrite E in Ho, Hf, Hl. cbn [fst snd] in Ho, Hf, Hl. subst o.
  destruct (ni_installing_close_removes_nothing installing start_world Api_teardown_event s' w' installing_wf
              eq_refl I E Hf) as (n & rest & Ht & Hr & _).
  exists n. cbn [snd]. change (c_trace w') with (trace w'). rewrite Ht.
  destruct Hr as [->|[t ->]]; [reflexivity|]. change (c_trace w') with (trace w') in Hl. rewrite Ht in Hl.
  discriminate Hl.
Defined.
End Ni.

(** ** The responder. *)
Module Nr.
Import NrSession NrSpec.

Definition conf : nr_config := mk_nr_config 60 3 2.
Definition fresh : nr_session := new_nr_session ex_sid conf 500 9.

Lemma nr_fresh_wf : nr_wf fresh.
Proof.
  unfold nr_wf; cbn. split_and!; try u32; try done; try lia; try (by eexists); try (by intros []).
  by intros _ r [= <-].
Qed.

(** A session that holds the CREATE and the installed rule. *)
Definition under_way (st : state_t) (r : auction_rule) : nr_session :=
  set_state st (set_lifetime 30 (set_routing_info (Some (Pathcoupled ex_pc))
    (set_create_message (Some ex_ntlp) (set_base (set_msn 77 (set_rule (Some r) (base fresh))) fresh)))).

Lemma nr_under_way_wf st r :
  st = STATE_ANSLP_AUCTIONING \/ object_responses r = [] -> st <> STATE_ANSLP_CLOSE -> nr_wf (under_way st r).
Proof.
  intros Hr Hst. unfold nr_wf; cbn. split_and!; try u32; try done; try lia; try (by eexists).
  - intros _. split; [by eexists|]. exists ex_ntlp. split; [done|exact ex_create_kept].
  - intros Hc r' [= <-]. destruct Hr as [->|Hr]; [|done]. by destruct Hc as [|[|]].
Qed.

Definition auctioning : nr_session := under_way STATE_ANSLP_AUCTIONING ex_installed_rule.

Lemma auctioning_wf : nr_wf auctioning.
Proof. apply nr_under_way_wf; [by left|done]. Qed.

Definition refresh (lifetime : Z) : event := Msg_event (ex_refresh 78 lifetime) true.

Theorem nr_refines_protocol_witness :
  refines_run process_event state nr_wf nr_step nr_thrown nr_fault
    [Msg_event ex_ntlp true; Timer_event 102] fresh start_world
  /\ state (fst (snd (run_events process_event [Msg_event ex_ntlp true; Timer_event 102]
                        (fresh, start_world)))) = STATE_ANSLP_PENDING.
Proof.
  split; [|vm_compute; reflexivity]. apply nr_refines_protocol; [exact nr_fresh_wf|].
  apply Forall_cons_2; [apply ex_create_valid|]. by apply Forall_cons_2; [|apply Forall_nil].
Defined.

(** A REFRESH that asks for more than the maximum gets the maximum; one that
    asks for less, of a dispatcher that denies everything, is refused. *)
Theorem nr_refresh_cases_witness :
  lifetime (fst (snd (process_event (refresh 90) (auctioning, start_world)))) = 60%Z
  /\ fst (snd (process_event (refresh 50) (auctioning, denying_world))) = auctioning.
Proof.
  pose proof (nr_refresh_cases auctioning start_world (ex_refresh 78 90) true _ ex_installed_rule auctioning_wf
    eq_refl ltac:(apply ex_refresh_valid; u32) eq_refl eq_refl) as H.
  pose proof (nr_refresh_cases auctioning denying_world (ex_refresh 78 50) true _ ex_installed_rule auctioning_wf
    eq_refl ltac:(apply ex_refresh_valid; u32) eq_refl eq_refl) as H'.
  unfold refresh, wp in *. cbv zeta in H, H'. split.
  - replace (unauthorized _ _ _ _) with false in H by (vm_compute; reflexivity).
    replace (negb (is_greater_than _ _)) with false in H by (vm_compute; reflexivity).
    replace (0 <? granted _ _)%Z with true in H by (vm_compute; reflexivity).
    destruct H as (_ & _ & E & _). rewrite E. vm_compute. reflexivity.
  - replace (unauthorized _ _ _ _) with true in H' by (vm_compute; reflexivity). by destruct H' as (_ & E & _).
Defined.

Theorem nr_overlong_refresh_unauthorized_witness :
  lifetime (fst (snd (process_event (refresh 90) (auctioning, denying_world)))) = 60%Z
  /\ fst (snd (process_event (refresh 50) (auctioning, denying_world))) = auctioning.
Proof.
  pose proof (nr_overlong_refresh_unauthorized auctioning denying_world (ex_refresh 78 90) true _ eq_refl
    ltac:(reflexivity) eq_refl ltac:(vm_compute; reflexivity) eq_refl) as [_ H].
  pose proof (nr_overlong_refresh_unauthorized auctioning denying_world (ex_refresh 78 50) true _ eq_refl
    ltac:(reflexivity) eq_refl ltac:(vm_compute; reflexivity) eq_refl) as [_ H'].
  split; [exact (proj1 (proj2 H))|exact (proj1 H')].
Defined.

Theorem nr_install_reported_witness :
  state (fst (snd (process_event (Api_install_event ex_objs None)
           (under_way STATE_ANSLP_PENDING_INSTALLING ex_rule, start_world)))) = STATE_ANSLP_AUCTIONING.
Proof.
  pose proof (nr_install_reported (under_way STATE_ANSLP_PENDING_INSTALLING ex_rule) start_world ex_objs None
    ex_ntlp ex_create ex_rule ltac:(apply nr_under_way_wf; [by right|done]) eq_refl ex_objs_wf eq_refl eq_refl eq_refl)
    as [_ H]. exact (proj1 H).
Defined.

Theorem nr_create_cases_witness :
  (let s' := fst (snd (process_event (Msg_event ex_ntlp true) (fresh, start_world))) in
   state s' = STATE_ANSLP_PENDING /\ lifetime s' = 30%Z /\ create_message s' = Some ex_ntlp)
  /\ is_final (fst (snd (process_event (Msg_event ex_ntlp true) (fresh, denying_world)))) = true.
Proof.
  pose proof (nr_create_cases fresh start_world ex_ntlp true ex_create ex_view nr_fresh_wf eq_refl eq_refl
    (ex_create_valid true) eq_refl ex_create_view) as H.
  pose proof (nr_create_cases fresh denying_world ex_ntlp true ex_create ex_view nr_fresh_wf eq_refl eq_refl
    (ex_create_valid true) eq_refl ex_create_view) as H'.
  assert (Hs : state (fst (snd (process_event (Msg_event ex_ntlp true) (fresh, start_world))))
               = STATE_ANSLP_PENDING) by (vm_compute; reflexivity).
  unfold wp, created in H, H'. cbv zeta in *. split.
  - replace (unauthorized _ _ _ _) with false in H by (vm_compute; reflexivity).
    replace (granted _ _ <=? 0)%Z with false in H by (vm_compute; reflexivity).
    change (downcast_mri (get_mri ex_ntlp)) with (Some ex_pc) in H. change (v_inf ex_view) with (@None anslp_object) in H.
    cbv beta iota in H. revert H Hs.
    generalize (process_event (Msg_event ex_ntlp true) (fresh, start_world)). intros [o [s' w']] H Hs.
    cbn [fst snd] in *. split; [exact Hs|]. unfold is_final in H. rewrite Hs in H. destruct H as (_ & ks & _ & H).
    destruct (check_participating _ _); [destruct H as [(_ & Ho & _)|[(_ & (_ & Ha & _) & _)|(_ & Hf & _)]]|destruct H as ((_ & Ha & _) & _)].
    + destruct Ho as (-> & _ & ->). split; reflexivity.
    + discriminate Ha.
    + discriminate Hf.
    + discriminate Ha.
  - replace (unauthorized _ _ _ _) with true in H' by (vm_compute; reflexivity). exact (proj1 (proj2 H')).
Defined.
End Nr.

(** ** The forwarder. *)
Module Nf.
Import NfSession NfSpec.

Definition conf : nf_config := mk_nf_config 60.
Definition fresh : nf_session := new_nf_session ex_sid conf 500.

Lemma nf_fresh_wf : nf_wf fresh.
Proof. unfold nf_wf, lifetimes_ok; cbn. split_and!; try u32; try done; try (by eexists); by intros []. Qed.

Definition under_way (st : state_t) (r : auction_rule) : nf_session :=
  set_state st (set_lifetime 30 (set_max_lifetime 60 (set_response_timeout 60 (set_nr_mri (Some ex_pc)
    (set_ni_mri (Some (pc_flip ex_pc)) (set_create_message (Some ex_ntlp)
      (set_response_message (Some (Msg_event (ex_answer ex_ntlp 30) true))
        (set_refresh_message (Some (ex_refresh 78 30)) (set_response_timer 55%Z
        (set_base (set_msn 77 (set_rule (Some r) (base fresh))) fresh)))))))))).

Lemma nf_under_way_wf st r : nf_wf (under_way st r).
Proof.
  unfold nf_wf, lifetimes_ok; cbn. split_and!; try u32; try done; try (by eexists).
  - intros n [= <-]. destruct (ex_refresh_holds 78 30) as (m & v & Hm & Hc & Hv & _); [u32|u32|]. by exists m, v.
  - intros _. split_and!; [by eexists..|]. exists ex_ntlp. split; [done|exact ex_create_kept].
  - intros _. do 2 eexists. split; [done|].
    destruct (ex_answer_view C_create ex_ntlp 30 ex_create_holds ltac:(u32)) as (m & msn & Hm & Hc & Hv).
    by eexists _, _.
Qed.

Theorem nf_refines_protocol_witness :
  refines_run process_event state nf_wf nf_step nf_thrown nf_fault
    [Msg_event ex_ntlp false; Api_teardown_event] fresh start_world
  /\ state (fst (snd (run_events process_event [Msg_event ex_ntlp false; Api_teardown_event]
                        (fresh, start_world)))) = STATE_ANSLP_PENDING_CHECK.
Proof.
  split; [|vm_compute; reflexivity]. apply nf_refines_protocol; [exact nf_fresh_wf|].
  apply Forall_cons_2; [apply ex_create_valid|]. by apply Forall_cons_2; [|apply Forall_nil].
Defined.

Theorem nf_create_cases_witness :
  lifetime (fst (snd (process_event (Msg_event ex_ntlp false) (fresh, start_world)))) = 30%Z
  /\ is_final (fst (snd (process_event (Msg_event ex_ntlp false) (fresh, denying_world)))) = true.
Proof.
  pose proof (nf_create_cases fresh start_world ex_ntlp false ex_create ex_view nf_fresh_wf eq_refl
    (ex_create_valid false) eq_refl ex_create_view) as H.
  pose proof (nf_create_cases fresh denying_world ex_ntlp false ex_create ex_view nf_fresh_wf eq_refl
    (ex_create_valid false) eq_refl ex_create_view) as H'.
  assert (Hf : is_final (fst (snd (process_event (Msg_event ex_ntlp false) (fresh, start_world)))) = false) by (vm_compute; reflexivity).
  unfold wp in *. cbv zeta in *. split.
  - replace (unauthorized _ _ _ _) with false in H by (vm_compute; reflexivity).
    replace (Z.min _ _ =? 0)%Z with false in H by (vm_compute; reflexivity).
    change (downcast_mri (get_mri ex_ntlp)) with (Some ex_pc) in H. cbv beta iota in H.
    replace (negb (get_downstream _)) with false in H by (vm_compute; reflexivity).
    change (is_some (v_inf ex_view)) with false in H. cbv beta iota in H. destruct H as (ks & _ & H).
    destruct (check_participating _ _);
      [destruct H as [(_ & _ & (E & _) & _)|[(_ & _ & (E & _) & _)|(err & _ & _ & Hx & _)]]|destruct H as (_ & (E & _) & _)].
    + rewrite E. vm_compute. reflexivity.
    + rewrite E. vm_compute. reflexivity.
    + rewrite Hf in Hx. discriminate Hx.
    + rewrite E. vm_compute. reflexivity.
  - replace (unauthorized _ _ _ _) with true in H' by (vm_compute; reflexivity). exact (proj1 (proj2 H')).
Defined.

Theorem nf_install_reported_witness :
  state (fst (snd (process_event (Api_install_event ex_objs None)
           (under_way STATE_ANSLP_PENDING_INSTALLING ex_rule, start_world)))) = STATE_ANSLP_AUCTIONING
  /\ is_final (fst (snd (process_event (Api_install_event [] None)
           (under_way STATE_ANSLP_PENDING_INSTALLING ex_rule, start_world)))) = true.
Proof.
  destruct (ex_answer_view C_create ex_ntlp 30 ex_create_holds ltac:(u32)) as (m & msn & Hm & Hc & Hv).
  assert (Hr : get_anslp_response (ex_answer ex_ntlp 30) = Some m)
    by (unfold get_anslp_response, get_anslp; by rewrite Hm, decide_True).
  split.
  - pose proof (nf_install_reported (under_way STATE_ANSLP_PENDING_INSTALLING ex_rule) start_world ex_objs None
      (ex_answer ex_ntlp 30) true m _ ex_pc ex_rule (nf_under_way_wf _ _) eq_refl ex_objs_wf eq_refl Hr Hv
      (conj eq_refl eq_refl) eq_refl ltac:(vm_compute; reflexivity) eq_refl eq_refl) as [_ H]. exact (proj1 H).
  - pose proof (nf_install_reported (under_way STATE_ANSLP_PENDING_INSTALLING ex_rule) start_world [] None
      (ex_answer ex_ntlp 30) true m _ ex_pc ex_rule (nf_under_way_wf _ _) eq_refl ltac:(split; [constructor|reflexivity])
      eq_refl Hr Hv (conj eq_refl eq_refl) eq_refl ltac:(vm_compute; reflexivity) eq_refl eq_refl) as [_ H].
    exact (proj1 H).
Defined.

(** A second CREATE, with another number and a long lifetime. *)
Definition greedy_create : anslp_msg := create_body 20 sme_any 80 4000 [ex_ipap [3]%Z].
Definition greedy : ntlp_msg := mk_ntlp_msg ex_sid (Some greedy_create) (Pathcoupled ex_pc) 0.

Lemma greedy_valid b : event_valid (Msg_event greedy b).
Proof.
  intros m [= <-]. exists (create_view 20 sme_any 80 4000 [ex_ipap [3]%Z]).
  apply create_body_view; try u32; try done. repeat constructor; by apply ex_ipap_mspec.
Qed.

Theorem nf_replacement_unchecked_witness :
  lifetime (fst (snd (process_event (Msg_event greedy false)
             (under_way STATE_ANSLP_PENDING ex_rule, start_world)))) = 4000%Z.
Proof.
  pose proof (nf_replacement_unchecked (under_way STATE_ANSLP_PENDING ex_rule) start_world greedy false greedy_create
    ex_create ex_ntlp ex_pc (nf_under_way_wf _ _) (or_intror (or_introl eq_refl)) (greedy_valid false) eq_refl eq_refl
    eq_refl ltac:(vm_compute; discriminate) ltac:(vm_compute; reflexivity) eq_refl eq_refl eq_refl) as H.
  unfold wp in H. destruct H as [_ [(E & _)|[(Hf & _)|(_ & _ & E)]]].
  - exfalso. apply (f_equal (fun s => lifetime s)) in E. vm_compute in E. discriminate E.
  - exfalso. vm_compute in Hf. discriminate Hf.
  - rewrite E. vm_compute. reflexivity.
Defined.

Theorem nf_confirmed_refresh_times_out_witness :
  response_timer (fst (snd (process_event (Msg_event (ex_answer (ex_refresh 78 30) 30) true)
    (under_way STATE_ANSLP_AUCTIONING ex_installed_rule, start_world)))) = 55%Z.
Proof.
  destruct (ex_answer_view C_refresh (ex_refresh 78 30) 30) as (r & msn & Hr & Hc & Hv);
    [apply ex_refresh_holds; u32|u32|].
  pose proof (nf_confirmed_refresh_times_out (under_way STATE_ANSLP_AUCTIONING ex_installed_rule) start_world
    (ex_answer (ex_refresh 78 30) 30) (ex_refresh 78 30) true r (nf_under_way_wf _ _) eq_refl
    ltac:(eapply ex_answer_valid; [apply ex_refresh_holds; u32|u32]) eq_refl
    ltac:(unfold get_response, ev_anslp, get_anslp; cbn [ev_msg]; rewrite Hr; by rewrite decide_True)
    ltac:(vm_compute; reflexivity) ltac:(by destruct (response_view_fields _ _ _ _ _ Hv) as [-> _])
    ltac:(discriminate)) as H.
  unfold wp in H. destruct H as (_ & _ & _ & E & _). rewrite E. reflexivity.
Defined.
End Nf.
End Session_examples.
