(* ===== verification/SessionManager.v ===== *)
(** * The session table: src/session_manager.cpp, include/session_manager.h

    The table of running sessions, the factory of session IDs and sessions,
    and the list of the last sessions that are done.  The mutex around each
    operation makes it one step; Threads has the pointers and interleavings. *)
From S2P Require Import NiSession NrSession NfSession.
From S2P Require Import Prelude Outcome StdMap External Objects Store Messages SessionId NtlpMsg AuctionRule Events Session.
From stdpp Require Import gmap.

#[export] Instance session_id_countable : Countable session_id.
Proof.
  refine (inj_countable' (fun i => (w1 i, w2 i, w3 i, w4 i))
            (fun '(a, b, c, d) => mk_session_id a b c d) _). by intros [].
Defined.

Section SessionManager.
Context `{Libs}.

(** A pointer to a session: one of the three classes. *)
Inductive session :=
  | Ni_session (s : NiSession.ni_session)
  | Nf_session (s : NfSession.nf_session)
  | Nr_session (s : NrSession.nr_session).

Definition base_of (s : session) : session_base :=
  match s with
  | Ni_session s => NiSession.base s
  | Nf_session s => NfSession.base s
  | Nr_session s => NrSession.base s
  end.
Definition get_id (s : session) : session_id := sid (base_of s).
Definition is_final (s : session) : bool :=
  match s with
  | Ni_session s => NiSession.is_final s
  | Nf_session s => NfSession.is_final s
  | Nr_session s => NrSession.is_final s
  end.

(** The configuration the sessions and the dispatcher read. *)
Record anslp_config := mk_config {
  ni_conf : NiSession.ni_config;
  nf_conf : NfSession.nf_config;
  nr_conf : NrSession.nr_config;
  nf_is_edge : bool }.

Definition DONE_SESSION_LIST_SIZE : nat := 300.

Record session_manager := mk_manager {
  session_table : gmap session_id session;
  sessionDone : list session }.

Definition new_session_manager : session_manager := mk_manager ∅ [].

(** [store_session_asdone]: the oldest session goes when there are too many. *)
Definition store_session_asdone (s : session) (m : session_manager) : session_manager :=
  let done := sessionDone m ++ [s] in
  mk_manager (session_table m) (if (DONE_SESSION_LIST_SIZE <? length done)%nat then tail done else done).

Definition add_session (s : session) (m : session_manager) : session_manager :=
  mk_manager (<[get_id s := s]> (session_table m)) (sessionDone m).

Definition get_session (id : session_id) (m : session_manager) : option session := session_table m !! id.

Section World.
Context {W : Type} `{!Dispatcher W} `{!Platform W}.

Definition SM : Type -> Type := M (session_manager * W).

(** The default constructor of [session_id]: 16 random bytes. *)
Definition random_session_id : M W session_id :=
  a <- create_random_number ;; b <- create_random_number ;;
  c <- create_random_number ;; d <- create_random_number ;;
  ret (mk_session_id a b c d).

(** The loop of [create_unique_id]; [fuel] bounds the number of IDs drawn. *)
Fixpoint unique_id_loop (fuel : nat) (table : gmap session_id session) (id : session_id) : M W session_id :=
  match table !! id with
  | None => ret id
  | Some _ =>
      match fuel with
      | O => trip Loop_bound
      | S fuel => id <- random_session_id ;; unique_id_loop fuel table id
      end
  end.
Definition create_unique_id (fuel : nat) (table : gmap session_id session) : M W session_id :=
  id <- random_session_id ;; unique_id_loop fuel table id.

Definition create_ni_session (fuel : nat) (conf : anslp_config) (garbage : Z) : SM session :=
  m <- the ;;
  id <- outside (create_unique_id fuel (session_table m)) ;;
  random <- outside create_random_number ;;
  let s := Ni_session (NiSession.new_ni_session id (ni_conf conf) random garbage) in
  update (add_session s) ;;; ret s.

Definition create_nf_session (id : session_id) (conf : anslp_config) : SM session :=
  random <- outside create_random_number ;;
  let s := Nf_session (NfSession.new_nf_session id (nf_conf conf) random) in
  update (add_session s) ;;; ret s.

Definition create_nr_session (id : session_id) (conf : anslp_config) (garbage : Z) : SM session :=
  random <- outside create_random_number ;;
  let s := Nr_session (NrSession.new_nr_session id (nr_conf conf) random garbage) in
  update (add_session s) ;;; ret s.

(** [remove_session]: [session_table[sid]] makes an entry with a null
    pointer for an unknown ID, and the log line dereferences it. *)
Definition remove_session (id : session_id) : SM session :=
  m <- the ;;
  match session_table m !! id with
  | None =>
      update (fun m => mk_manager (delete id (session_table m)) (sessionDone m)) ;;;
      trip Null_dereference
  | Some s =>
      update (fun m => mk_manager (delete id (session_table m)) (sessionDone m)) ;;;
      update (store_session_asdone s) ;;;
      ret s
  end.
End World.
End SessionManager.

(** ** Session IDs never change. *)
Section Identity.
Context `{Libs} {W : Type} `{!Dispatcher W} `{!Platform W}.

Lemma ni_next_msn_keeps : keeps (fun s => sid (NiSession.base s)) (NiSession.next_msn (W := W)).
Proof. done. Qed.
Lemma nf_next_msn_keeps : keeps (fun s => sid (NfSession.base s)) (NfSession.next_msn (W := W)).
Proof. done. Qed.
#[local] Hint Resolve ni_next_msn_keeps nf_next_msn_keeps : keeps.

Lemma ni_keeps_sid evt : keeps (fun s => sid (NiSession.base s)) (NiSession.process_event (W := W) evt).
Proof. keeps. Qed.
Lemma nf_keeps_sid evt : keeps (fun s => sid (NfSession.base s)) (NfSession.process_event (W := W) evt).
Proof. keeps. Qed.
Lemma nr_keeps_sid evt : keeps (fun s => sid (NrSession.base s)) (NrSession.process_event (W := W) evt).
Proof. keeps. Qed.
End Identity.
