(* ===== verification/Dispatcher.v ===== *)
(** * The dispatcher: src/dispatcher.cpp, include/dispatcher.h

    [dispatcher::process] answers what needs no session, finds or creates the
    session of an event, lets it process the event, and removes it when it is
    final or has thrown.  Its other methods, the services sessions use, are the
    operations of the class [Dispatcher]. *)
From S2P Require Import NiSession NrSession NfSession.
From S2P Require Import Prelude Outcome StdMap External Objects Store Messages SessionId NtlpMsg AuctionRule Events Session SessionManager.
From stdpp Require Import gmap.

Section Dispatcher.
Context `{Libs} {W : Type} `{!Dispatcher W} `{!Platform W}.

(** [send_receive_answer] hands GIST a MESSAGE answer for a routing state
    check: the message queue of GIST is not in the sources. *)
Variable send_receive_answer : session_id -> mri -> M W unit.

(** The configuration, the number of IDs [create_unique_id] may draw, and
    what uninitialised memory holds. *)
Variables (config : anslp_config) (fuel : nat) (garbage : Z).

(** [create_session]. *)
Definition create_session (id : option session_id) (evt : event) : SM (W := W) (option session) :=
  if is_api_create evt then s <- create_ni_session fuel config garbage ;; ret (Some s)
  else if is_anslp_create evt then
    sid <- deref id ;;
    if is_for_this_node evt then s <- create_nr_session sid config garbage ;; ret (Some s)
    else if nf_is_edge config then s <- create_nr_session sid config garbage ;; ret (Some s)
    else s <- create_nf_session sid config ;; ret (Some s)
  else ret None.

(** A session processes an event. *)
Definition session_process (s : session) (evt : event) (w : W) : outcome unit * (session * W) :=
  match s with
  | Ni_session s => let '(o, (s', w')) := NiSession.process_event evt (s, w) in (o, (Ni_session s', w'))
  | Nf_session s => let '(o, (s', w')) := NfSession.process_event evt (s, w) in (o, (Nf_session s', w'))
  | Nr_session s => let '(o, (s', w')) := NrSession.process_event evt (s, w) in (o, (Nr_session s', w'))
  end.

(** [s->process(this, evt)] for the session the table points to. *)
Definition process_in_table (s : session) (evt : event) : SM (W := W) session := fun '(m, w) =>
  let '(o, (s', w')) := session_process s evt w in
  (obind o (fun _ => Normal s'), (add_session s' m, w')).

(** The event in the hands of its session. *)
Definition process_session (s : session) (evt : event) : SM (W := W) unit :=
  done <- catch
    (s' <- process_in_table s evt ;; ret (Some s'))
    (fun _ => remove_session (get_id s) ;;; ret None) ;;
  match done with
  | None => ret tt
  | Some s' => if is_final s' then remove_session (get_id s') ;;; ret tt else ret tt
  end.

(** [process]; [id] is the session ID of the event. *)
Definition process (id : option session_id) (evt : event) : SM (W := W) unit :=
  (match evt with Msg_event _ _ => assert_that (is_some id) | _ => ret tt end) ;;;
  match evt with
  | Routing_state_check_event route =>
      sid <- deref id ;; outside (send_receive_answer sid route)
  | _ =>
      if is_invalid_anslp_msg evt then
        n <- deref (ev_msg evt) ;;
        outside (send_message (create_response sc_protocol_error 0 n))
      else
        m <- the ;;
        s <- (match (match id with Some i => get_session i m | None => None end) with
              | Some s => ret (Some s)
              | None => create_session id evt
              end) ;;
        match s with
        | Some s => process_session s evt
        | None => ret tt
        end
  end.
End Dispatcher.

(** ** What the dispatcher guarantees. *)
Section Laws.
Context `{Libs} `{!LibsLaws} {W : Type} `{!Dispatcher W} `{!Platform W} `{!Effects W}.
Implicit Types (m : session_manager) (w : W) (s : session).

(** The table: sessions are filed under their own ID, and none is final; no
    more than 300 sessions that are done are kept. *)
Definition table_ok m : Prop :=
  (forall i s, session_table m !! i = Some s -> get_id s = i /\ is_final s = false)
  /\ length (sessionDone m) <= DONE_SESSION_LIST_SIZE.

Lemma session_process_id s evt w : get_id (fst (snd (session_process s evt w))) = get_id s.
Proof.
  destruct s as [s|s|s]; cbn.
  - pose proof (ni_keeps_sid evt s w) as E. by destruct (NiSession.process_event evt (s, w)) as [o [s' w']].
  - pose proof (nf_keeps_sid evt s w) as E. by destruct (NfSession.process_event evt (s, w)) as [o [s' w']].
  - pose proof (nr_keeps_sid evt s w) as E. by destruct (NrSession.process_event evt (s, w)) as [o [s' w']].
Qed.

Lemma store_done_length s m :
  length (sessionDone m) <= DONE_SESSION_LIST_SIZE ->
  length (sessionDone (store_session_asdone s m)) <= DONE_SESSION_LIST_SIZE.
Proof.
  intros Hl. unfold store_session_asdone. cbn [sessionDone].
  destruct (Nat.ltb_spec DONE_SESSION_LIST_SIZE (length (sessionDone m ++ [s]))) as [Hlt|Hge]; [|done].
  rewrite length_app in Hlt. destruct (sessionDone m) as [|x l]; cbn [app tail length] in *; [lia|].
  rewrite length_app. cbn [length]. lia.
Qed.

Lemma wp_remove_session m w i s Q :
  session_table m !! i = Some s ->
  Q (Normal s) (store_session_asdone s (mk_manager (delete i (session_table m)) (sessionDone m)), w) ->
  wp (remove_session i) Q (m, w).
Proof. intros Hs HQ. unfold remove_session. do 2 wp_step. rewrite Hs. by repeat wp_step. Qed.

(** [process_session], by what the session does with the event. *)
Lemma wp_process_session m w s evt Q :
  session_table m !! get_id s = Some s ->
  (forall o s' w', session_process s evt w = (o, (s', w')) ->
    let m' := add_session s' m in
    let removed := store_session_asdone s' (mk_manager (delete (get_id s) (session_table m')) (sessionDone m')) in
    match o with
    | Normal _ => Q (Normal tt) (if is_final s' then removed else m', w')
    | Raised _ => Q (Normal tt) (removed, w')
    | Faulted f => Q (Faulted f) (m', w')
    end) ->
  wp (process_session s evt) Q (m, w).
Proof.
  intros Hs HQ. pose proof (session_process_id s evt w) as Hid.
  destruct (session_process s evt w) as [o [s' w']] eqn:E. cbn [fst snd] in Hid. specialize (HQ _ _ _ eq_refl).
  assert (Hs' : session_table (add_session s' m) !! get_id s = Some s').
  { cbn. rewrite Hid. apply lookup_insert_eq. }
  unfold process_session. do 3 wp_step.
  assert (Hrun : process_in_table s evt (m, w) = (obind o (fun _ => Normal s'), (add_session s' m, w'))).
  { unfold process_in_table. by rewrite E. }
  eapply wp_eq; [exact Hrun|]. destruct o as [[]|e|f]; cbn [obind]; [|wp_step|done].
  - wp_step. cbn beta iota. destruct (is_final s'); [|by wp_step]. wp_step. rewrite Hid.
    eapply wp_remove_session; [done|]. by wp_step.
  - eapply wp_remove_session; [done|]. by repeat wp_step.
Qed.

(** ** Unique session IDs. *)
Lemma random_session_id_does w :
  exists i w', random_session_id w = (Normal i, w') /\ session_id_wf i /\ trace w' = trace w.
Proof.
  unfold random_session_id, bind.
  destruct (random_does w) as (a & w1 & E1 & U1 & T1). rewrite E1.
  destruct (random_does w1) as (b & w2 & E2 & U2 & T2). rewrite E2.
  destruct (random_does w2) as (c & w3 & E3 & U3 & T3). rewrite E3.
  destruct (random_does w3) as (d & w4 & E4 & U4 & T4). rewrite E4.
  eexists _, w4. split; [done|]. split; [by split_and!|congruence].
Qed.

(** The first [n] IDs the generator delivers. *)
Fixpoint draws (n : nat) w : list session_id :=
  match n with
  | O => []
  | S n =>
      match random_session_id w with
      | (Normal id, w') => id :: draws n w'
      | _ => []
      end
  end.

Lemma unique_id_loop_cases fuel table id w :
  session_id_wf id ->
  (exists id' w', unique_id_loop fuel table id w = (Normal id', w') /\ session_id_wf id' /\ table !! id' = None
     /\ trace w' = trace w)
  \/ (fst (unique_id_loop fuel table id w) = Faulted Loop_bound
      /\ Forall (fun i => is_Some (table !! i)) (id :: draws fuel w) /\ length (draws fuel w) = fuel).
Proof.
  revert id w. induction fuel as [|fuel IH]; intros id w Hid; cbn [unique_id_loop draws].
  - destruct (table !! id) eqn:E; [|left; by eexists _, _]. right. split_and!; [done| |done]. by repeat constructor; rewrite E.
  - destruct (table !! id) eqn:E; [|left; by eexists _, _]. unfold bind.
    destruct (random_session_id_does w) as (i & w1 & Ei & Hi & Ht). rewrite Ei. destruct (IH i w1 Hi) as [(id' & w' & E' & Hwf & Hf & Ht')|(Hb & Hall & Hl)].
    + left. exists id', w'. split_and!; [done|done|done|congruence].
    + right. split_and!; [done|constructor; [by rewrite E|done]|]. cbn. by rewrite Hl.
Qed.

Lemma create_unique_id_cases fuel table w :
  (exists id' w', create_unique_id fuel table w = (Normal id', w') /\ session_id_wf id' /\ table !! id' = None
     /\ trace w' = trace w)
  \/ (fst (create_unique_id fuel table w) = Faulted Loop_bound
      /\ Forall (fun i => is_Some (table !! i)) (draws (S fuel) w) /\ length (draws (S fuel) w) = S fuel).
Proof.
  unfold create_unique_id, bind. cbn [draws].
  destruct (random_session_id_does w) as (i & w1 & Ei & Hi & Ht). rewrite Ei.
  destruct (unique_id_loop_cases fuel table i w1 Hi) as [(id' & w' & E' & Hwf & Hf & Ht')|(Hb & Hall & Hl)].
  - left. exists id', w'. split_and!; [done|done|done|congruence].
  - right. split_and!; [done|done|]. cbn. by rewrite Hl.
Qed.

(** More distinct IDs than sessions: one of them is new. *)
Lemma draws_distinct n (table : gmap session_id session) w :
  size table < n -> NoDup (draws n w) -> length (draws n w) = n ->
  ~ Forall (fun i => is_Some (table !! i)) (draws n w).
Proof.
  intros Hn Hd Hl Hall.
  assert (Hsub : list_to_set (C := gset session_id) (draws n w) ⊆ dom table).
  { intros j Hj. rewrite elem_of_list_to_set in Hj. apply elem_of_dom. by eapply Forall_forall in Hall. }
  apply subseteq_size in Hsub. rewrite size_list_to_set, size_dom in Hsub by done. lia.
Qed.

(** C30. [create_unique_id] ends, with an ID no running session has: if the
    generator does not repeat itself, it needs at most one ID more than there
    are sessions in the table. *)
Theorem create_unique_id_fresh (fuel : nat) (table : gmap session_id session) (w : W)
  (Hfuel : size table <= fuel) (Hdist : NoDup (draws (S fuel) w)) :
  exists id w', create_unique_id fuel table w = (Normal id, w')
    /\ table !! id = None /\ trace w' = trace w.
Proof.
  destruct (create_unique_id_cases fuel table w) as [(id & w' & E & _ & Hok)|(_ & Hall & Hl)]; [by exists id, w'|].
  exfalso. eapply draws_distinct; [|exact Hdist|done|exact Hall]. lia.
Qed.

Context (send_receive_answer : session_id -> mri -> M W unit).
Context (Hanswer : forall sid route, does trace (send_receive_answer sid route) (fun _ => [])).
Variables (config : anslp_config) (fuel : nat) (garbage : Z).

(** The session an event opens: the initiator's under an ID of its own, the
    receiver's or a forwarder's under the ID of the CREATE. *)
Definition opened (id : option session_id) (evt : event) s : Prop :=
  exists i n, is_u32 n /\
    if is_api_create evt then session_id_wf i /\ s = Ni_session (NiSession.new_ni_session i (ni_conf config) n garbage)
    else is_anslp_create evt = true /\ id = Some i
      /\ s = if is_for_this_node evt || nf_is_edge config
             then Nr_session (NrSession.new_nr_session i (nr_conf config) n garbage)
             else Nf_session (NfSession.new_nf_session i (nf_conf config) n).

(** The generator has repeated itself. *)
Definition exhausted m w : Prop := size (session_table m) <= fuel -> ~ NoDup (draws (S fuel) w).

Lemma wp_create_session m w (id : option session_id) evt (Q : outcome (option session) -> session_manager * W -> Prop) :
  (forall i, id = Some i -> session_table m !! i = None) ->
  (is_api_create evt = false -> is_anslp_create evt = false -> Q (Normal None) (m, w)) ->
  (is_anslp_create evt = true -> id = None -> Q (Faulted Null_dereference) (m, w)) ->
  (forall w', is_api_create evt = true -> exhausted m w -> Q (Faulted Loop_bound) (m, w')) ->
  (forall s w', trace w' = trace w -> opened id evt s -> session_table m !! get_id s = None ->
     Q (Normal (Some s)) (add_session s m, w')) ->
  wp (create_session config fuel garbage id evt) Q (m, w).
Proof.
  intros Hid HN HD HF HS. unfold create_session, opened in *. destruct (is_api_create evt) eqn:Ea.
  { wp_step. unfold create_ni_session. wp_step. wp_step. wp_step. cbn beta iota zeta. apply wp_outside.
    destruct (create_unique_id_cases fuel (session_table m) w) as [(id' & w1 & E & Hid' & Hf & Ht)|(Hb & Hall & Hl)].
    - eapply wp_eq; [exact E|]. cbn beta iota. do 5 wp_step. apply HS; [congruence|by eauto|done].
    - unfold wp. destruct (create_unique_id fuel (session_table m) w) as [o w']. cbn in Hb. subst o. cbn. apply HF; [done|].
      intros Hn Hd. eapply draws_distinct; [|exact Hd|exact Hl|exact Hall]. lia. }
  destruct (is_anslp_create evt) eqn:Ec; [|wp_step; auto]. wp_step.
  apply wp_deref; [|auto]. intros sid ->. cbn beta iota.
  destruct (is_for_this_node evt) eqn:Ef; [|destruct (nf_is_edge config) eqn:Ee].
  all: unfold create_nr_session, create_nf_session; do 6 wp_step; apply HS; [done| |by apply Hid].
  all: by eexists _, _.
Qed.

(** ** What an event is to the dispatcher. *)
Definition needs_session (evt : event) : bool := negb (is_routing_state_check evt) && negb (is_invalid_anslp_msg evt).

Definition found (id : option session_id) m : option session := id ≫= fun i => get_session i m.

(** An event without a session ID where one is needed. *)
Definition anonymous_fault (id : option session_id) (evt : event) (f : fault) : Prop :=
  id = None /\ ((f = Assertion_failed /\ is_some (ev_msg evt) = true)
                \/ (f = Null_dereference /\ is_routing_state_check evt = true)).

(** [process], by what the event is: without a session, or in the hands of
    the session found or opened for it. *)
Lemma wp_process m w id evt (Q : outcome unit -> session_manager * W -> Prop) :
  table_ok m ->
  (forall f, anonymous_fault id evt f -> Q (Faulted f) (m, w)) ->
  (forall w', is_routing_state_check evt = true -> trace w' = trace w -> Q (Normal tt) (m, w')) ->
  (forall n w', ev_msg evt = Some n -> get_anslp_msg n = None ->
     trace w' = trace w ++ [Sent (create_response sc_protocol_error 0 n)] -> Q (Normal tt) (m, w')) ->
  (needs_session evt = true -> found id m = None -> is_api_create evt = false -> is_anslp_create evt = false ->
     Q (Normal tt) (m, w)) ->
  (forall w', is_api_create evt = true -> exhausted m w -> Q (Faulted Loop_bound) (m, w')) ->
  (forall s m1 w1, needs_session evt = true -> trace w1 = trace w -> session_table m1 !! get_id s = Some s ->
     (found id m = Some s /\ id = Some (get_id s) /\ m1 = m)
     \/ (found id m = None /\ opened id evt s /\ session_table m !! get_id s = None /\ m1 = add_session s m) ->
     wp (process_session s evt) Q (m1, w1)) ->
  wp (process send_receive_answer config fuel garbage id evt) Q (m, w).
Proof.
  intros [Htab Hlen] Hnone Hroute Hbad Hdrop Hloop Hsess. unfold process. wp_step.
  assert (Hgo : needs_session evt = true -> (is_anslp_create evt = true -> id <> None) ->
    wp (m <- the ;;
        s <- (match (match id with Some i => get_session i m | None => None end) with
              | Some s => ret (Some s) | None => create_session config fuel garbage id evt end) ;;
        match s with Some s => process_session s evt | None => ret tt end) Q (m, w)).
  { intros Hneeds Hid. do 3 wp_step. change (match id with Some i => get_session i m | None => None end) with (found id m).
    destruct (found id m) as [s|] eqn:Ef.
    - wp_step. destruct id as [i|]; [|done]. cbn in Ef. destruct (Htab _ _ Ef) as [Hi _]. subst i.
      by apply Hsess; [..|left].
    - apply wp_create_session; [by intros i ->|..].
      + intros E1 E2. wp_step. by apply Hdrop.
      + intros Hc ->. by destruct (Hid Hc).
      + intros w' E ?. by apply Hloop.
      + intros s w' Ht Hop Hfr. apply Hsess; [done..| |].
        * apply lookup_insert_eq.
        * by right. }
  destruct evt as [| | |route|n b|t|e|o q|o q|a l ms q|a sv c ot q|a o q|a l ms sv c ot q| |o q];
    try (wp_step; by apply Hgo).
  - do 2 wp_step. apply wp_deref; [intros i _|intros ->; apply Hnone; split; [done|by right]]. cbn beta iota.
    eapply wp_does; [apply Hanswer|]. intros [] w' Ht. apply Hroute; [done|by rewrite Ht, app_nil_r].
  - destruct id as [i|]; cbn [is_some assert_that]; [|unfold assert_that; wp_step; apply Hnone; split; [done|by left]].
    unfold assert_that. wp_step.
    cbn [is_invalid_anslp_msg ev_msg]. destruct (get_anslp_msg n) as [x|] eqn:En; cbn [is_some negb].
    + apply Hgo; [unfold needs_session; cbn; by rewrite En|done].
    + wp_step. apply wp_deref; [|done]. intros k [= <-]. wp_step. by eapply Hbad.
Qed.
End Laws.
