(* ===== verification/DispatcherSpec.v ===== *)
(** * What a node guarantees

    The dispatcher and its sessions together: the table of a node is a map of
    independent protocol automata, one per session ID; an event moves the
    automaton it is addressed to, may open one, and touches no other.  The
    exceptions of a session end in the dispatcher. *)
From S2P Require Import NiSession NrSession NfSession NiSpec NrSpec NfSpec.
From S2P Require Import Prelude Outcome StdMap External Objects Store Messages Codec SessionId NtlpMsg AuctionRule Events Session SessionManager Dispatcher.
From stdpp Require Import gmap.

Section DispatcherSpec.
Context `{Libs} `{!LibsLaws} {W : Type} `{!Dispatcher W} `{!Platform W} `{!Effects W}.
Implicit Types (m : session_manager) (w : W) (s : session) (ev : option session_id * event).

Context (send_receive_answer : session_id -> mri -> M W unit).
Context (Hanswer : forall sid route, does trace (send_receive_answer sid route) (fun _ => [])).
Variables (config : anslp_config) (fuel : nat) (garbage : Z).

(** [process] with the event's session ID beside the event. *)
Definition dispatch (ev : option session_id * event) : SM (W := W) unit := process send_receive_answer config fuel garbage (fst ev) (snd ev).

(** ** The abstract node: a protocol automaton per session. *)
Inductive automaton :=
  | Ni_automaton (st : NiSession.state_t)
  | Nf_automaton (st : NfSession.state_t)
  | Nr_automaton (st : NrSession.state_t).

Definition automaton_of s : automaton :=
  match s with
  | Ni_session s => Ni_automaton (NiSession.state s)
  | Nf_session s => Nf_automaton (NfSession.state s)
  | Nr_session s => Nr_automaton (NrSession.state s)
  end.

Definition closed (a : automaton) : Prop :=
  match a with
  | Ni_automaton st => st = NiSession.STATE_ANSLP_CLOSE
  | Nf_automaton st => st = NfSession.STATE_ANSLP_CLOSE
  | Nr_automaton st => st = NrSession.STATE_ANSLP_CLOSE
  end.

Inductive automaton_step : automaton -> event -> automaton -> Prop :=
  | ni_automaton_step st evt st' :
      NiSpec.ni_step st evt st' -> automaton_step (Ni_automaton st) evt (Ni_automaton st')
  | nf_automaton_step st evt st' :
      NfSpec.nf_step st evt st' -> automaton_step (Nf_automaton st) evt (Nf_automaton st')
  | nr_automaton_step st evt st' :
      NrSpec.nr_step st evt st' -> automaton_step (Nr_automaton st) evt (Nr_automaton st').

(** The automaton an event opens, and its ID. *)
Definition opens ev (i : session_id) (a : automaton) : Prop :=
  if is_api_create (snd ev) then a = Ni_automaton NiSession.STATE_ANSLP_CLOSE
  else is_anslp_create (snd ev) = true /\ fst ev = Some i
    /\ a = if is_for_this_node (snd ev) || nf_is_edge config then Nr_automaton NrSession.STATE_ANSLP_CLOSE
           else Nf_automaton NfSession.STATE_ANSLP_CLOSE.

Abbreviation node := (gmap session_id automaton).

(** No automaton takes the event. *)
Definition unclaimed (T : node) ev : Prop := forall i, fst ev = Some i -> T !! i = None.

Inductive node_step : node -> option session_id * event -> node -> Prop :=
  | node_answers T ev : needs_session (snd ev) = false -> node_step T ev T
  | node_discards T ev : unclaimed T ev -> is_api_create (snd ev) = false -> is_anslp_create (snd ev) = false ->
      node_step T ev T
  | node_moves T i evt a a' : T !! i = Some a -> automaton_step a evt a' -> ~ closed a' ->
      node_step T (Some i, evt) (<[i := a']> T)
  | node_ends T i evt a a' : T !! i = Some a -> automaton_step a evt a' -> closed a' ->
      node_step T (Some i, evt) (delete i T)
  | node_throws T i evt a : T !! i = Some a -> node_step T (Some i, evt) (delete i T)
  | node_opens T ev i a a' : unclaimed T ev -> T !! i = None -> opens ev i a ->
      automaton_step a (snd ev) a' -> ~ closed a' -> node_step T ev (<[i := a']> T)
  | node_opens_in_vain T ev i a : unclaimed T ev -> T !! i = None -> opens ev i a -> node_step T ev T.

(** ** The invariant. *)
Definition session_wf s : Prop :=
  match s with
  | Ni_session s => NiSpec.ni_wf s
  | Nf_session s => NfSpec.nf_wf s
  | Nr_session s => NrSpec.nr_wf s
  end.

Definition node_wf m : Prop := table_ok m /\ map_Forall (fun _ : session_id => session_wf) (session_table m).

Definition node_of m : node := automaton_of <$> session_table m.

(** The faults of a node: those of the session in charge, an event without a
    session ID where one is needed, a generator that repeats itself. *)
Definition session_fault s (evt : event) (f : fault) : Prop :=
  match s with
  | Ni_session s => NiSpec.ni_fault s evt f
  | Nf_session s => NfSpec.nf_fault s evt f
  | Nr_session s => NrSpec.nr_fault s evt f
  end.

Definition node_fault m ev (f : fault) : Prop :=
  anonymous_fault (fst ev) (snd ev) f
  \/ (f = Loop_bound /\ is_api_create (snd ev) = true)
  \/ exists s, (found (fst ev) m = Some s \/ found (fst ev) m = None /\ opened config garbage (fst ev) (snd ev) s)
       /\ session_fault s (snd ev) f.

Definition config_ok : Prop :=
  is_u32 (NiSession.ni_msg_hop_count (ni_conf config)) /\ is_u32 (NrSession.nr_max_session_lifetime (nr_conf config))
  /\ is_u32 (NfSession.nf_max_session_lifetime (nf_conf config)).

(** ** One session in the hands of the dispatcher. *)
Lemma final_closed s : is_final s = true <-> closed (automaton_of s).
Proof. destruct s; cbn; apply bool_decide_eq_true. Qed.

Lemma session_process_ok s w evt :
  session_wf s -> event_valid evt ->
  match session_process s evt w with
  | (Normal _, (s', _)) => session_wf s' /\ automaton_step (automaton_of s) evt (automaton_of s')
  | (Raised _, _) => True
  | (Faulted f, _) => session_fault s evt f
  end.
Proof.
  intros Hwf Hv. destruct s as [s|s|s]; cbn in *.
  - pose proof (NiSpec.ni_process_event_ok s w evt Hwf Hv) as Hok.
    destruct (NiSession.process_event evt (s, w)) as [[]  [s' w']]; [destruct Hok; split; [done|by constructor]|done..].
  - pose proof (NfSpec.nf_process_event_ok s w evt Hwf Hv) as Hok.
    destruct (NfSession.process_event evt (s, w)) as [[]  [s' w']]; [destruct Hok; split; [done|by constructor]|done..].
  - pose proof (NrSpec.nr_process_event_ok s w evt Hwf Hv) as Hok.
    destruct (NrSession.process_event evt (s, w)) as [[]  [s' w']]; [destruct Hok; split; [done|by constructor]|done..].
Qed.

Lemma opened_wf id evt s :
  config_ok -> opened config garbage id evt s -> session_wf s /\ opens (id, evt) (get_id s) (automaton_of s).
Proof.
  intros (Hni & Hnr & Hnf) (i & n & Hn & Hs). unfold opens. cbn [fst snd].
  destruct (is_api_create evt).
  - destruct Hs as [_ ->]. split; [|done]. split_and!; cbn; try done; try (by apply Hn); by apply Hni.
  - destruct Hs as (Hc & -> & Hs). destruct (is_for_this_node evt || nf_is_edge config); subst s.
    all: split; [|done].
    + split_and!; cbn; try done; try apply Hnr. by intros _ r [= <-].
    + by split_and!; cbn; try apply Hnf.
Qed.

(** ** What the table shows of it. *)
Lemma node_of_lookup m i : node_of m !! i = automaton_of <$> session_table m !! i.
Proof. apply lookup_fmap. Qed.

Lemma unclaimed_found m ev : found (fst ev) m = None -> unclaimed (node_of m) ev.
Proof. intros Hf i Hi. rewrite Hi in Hf. rewrite node_of_lookup. unfold found, get_session in Hf. cbn in Hf. by rewrite Hf. Qed.

Lemma node_of_add s m : node_of (add_session s m) = <[get_id s := automaton_of s]> (node_of m).
Proof. apply fmap_insert. Qed.

(** The entries beside a session's own are well-formed: a session that was
    just opened is still final. *)
Definition others_wf m (i : session_id) : Prop :=
  (forall j s, j <> i -> session_table m !! j = Some s -> get_id s = j /\ is_final s = false /\ session_wf s)
  /\ length (sessionDone m) <= DONE_SESSION_LIST_SIZE.

Lemma node_wf_others m i : node_wf m -> others_wf m i.
Proof.
  intros [[Ht Hl] Hw]. split; [|done]. intros j s _ Hs. destruct (Ht _ _ Hs).
  by specialize (map_Forall_lookup_1 _ _ _ _ Hw Hs).
Qed.

Lemma others_wf_add m s s' : others_wf m (get_id s) -> get_id s' = get_id s -> others_wf (add_session s' m) (get_id s).
Proof.
  intros [Ht Hl] Hid. split; [|done]. intros j s1 Hne. cbn -[get_id].
  rewrite lookup_insert_Some. intros [[<- _]|[_ Hs]]; [congruence|by apply Ht].
Qed.

Definition without (i : session_id) m : session_manager := mk_manager (delete i (session_table m)) (sessionDone m).

Lemma node_wf_kept m s s' :
  others_wf m (get_id s) -> get_id s' = get_id s -> session_wf s' -> is_final s' = false -> node_wf (add_session s' m).
Proof.
  intros [Ht Hl] Hid Hw Hf. split; [split; [|done]|].
  - intros j s1. cbn -[get_id]. rewrite Hid, lookup_insert_Some. intros [[<- <-]|[Hne Hs]]; [done|].
    destruct (Ht j s1) as (? & ? & ?); auto.
  - intros j s1. cbn -[get_id]. rewrite Hid, lookup_insert_Some. intros [[<- <-]|[Hne Hs]]; [done|].
    destruct (Ht j s1) as (? & ? & ?); auto.
Qed.

Lemma node_wf_retired m s i : others_wf m i -> node_wf (store_session_asdone s (without i m)).
Proof.
  intros [Ht Hl]. split; [split; [|by apply store_done_length]|].
  - intros j s1. cbn -[get_id]. rewrite lookup_delete_Some. intros [Hne Hs].
    destruct (Ht j s1) as (? & ? & ?); auto.
  - intros j s1. cbn -[get_id]. rewrite lookup_delete_Some. intros [Hne Hs].
    destruct (Ht j s1) as (? & ? & ?); auto.
Qed.

(** What a node shows of a session that has handled an event. *)
Definition handled (T : node) (i : session_id) (a : automaton) (evt : event) (T' : node) : Prop :=
  (exists a', automaton_step a evt a' /\ ~ closed a' /\ T' = <[i := a']> T)
  \/ (exists a', automaton_step a evt a' /\ closed a' /\ T' = delete i T)
  \/ T' = delete i T.

Lemma wp_process_session_node m w s evt :
  others_wf m (get_id s) -> session_table m !! get_id s = Some s -> session_wf s -> event_valid evt ->
  wp (process_session s evt) (fun o '(m', w') =>
    match o with
    | Normal _ => node_wf m' /\ handled (node_of m) (get_id s) (automaton_of s) evt (node_of m')
    | Raised _ => False
    | Faulted f => session_fault s evt f
    end) (m, w).
Proof.
  intros Ho Hs Hw Hv. apply wp_process_session; [done|]. intros o s' w' E m' removed.
  pose proof (session_process_ok s w evt Hw Hv) as Hok. pose proof (session_process_id s evt w) as Hid.
  rewrite E in Hok, Hid. cbn [fst snd] in Hid.
  assert (Hr : node_wf removed) by (apply node_wf_retired; by apply others_wf_add).
  assert (Hnr : node_of removed = delete (get_id s) (node_of m)).
  { unfold removed, m', node_of. cbn -[get_id]. by rewrite Hid, delete_insert_eq, fmap_delete. }
  destruct o as [[]|e|f]; [|by split; [|right; right]|done]. destruct Hok as [Hw' Hst].
  destruct (is_final s') eqn:Ef.
  - split; [done|]. right; left. exists (automaton_of s'). by rewrite <- final_closed.
  - split; [by apply (node_wf_kept m s)|]. left. exists (automaton_of s'). unfold m'.
    rewrite node_of_add, Hid, <- final_closed, Ef. done.
Qed.

(** ** One event. *)
Lemma dispatch_ok :
  config_ok -> refines_step dispatch node_of (fun ev => event_valid (snd ev)) node_wf node_step (fun _ _ _ => False) node_fault.
Proof.
  intros Hc m w [id evt] Hwf Hv. cbn [snd] in Hv.
  enough (Hgo : wp (dispatch (id, evt)) (fun o '(m', w') =>
    match o with
    | Normal _ => node_wf m' /\ node_step (node_of m) (id, evt) (node_of m')
    | Raised _ => False
    | Faulted f => node_fault m (id, evt) f
    end) (m, w)).
  { unfold wp in Hgo. destruct (dispatch (id, evt) (m, w)) as [[[]|e|f] [m' w']]; cbn in Hgo; [done|done|done]. }
  unfold dispatch. cbn [fst snd]. apply wp_process; [exact Hanswer|apply Hwf|..].
  - intros f Hf. by left.
  - intros w' Hr _. split; [done|]. apply node_answers. cbn. unfold needs_session. by rewrite Hr.
  - intros n w' Hn Hb _. split; [done|]. apply node_answers. cbn. unfold needs_session, is_invalid_anslp_msg.
    rewrite Hn, Hb. apply andb_false_r.
  - intros Hneeds Hf Ha Hcr. split; [done|]. by apply node_discards; [apply unclaimed_found|..].
  - intros w' Ha _. right; left. by split.
  - intros s m1 w1 Hneeds _ Hs [(Hf & -> & ->)|(Hf & Hop & Hfr & ->)].
    + assert (Hw : session_wf s) by (destruct Hwf as [_ Hall]; exact (map_Forall_lookup_1 _ _ _ _ Hall Hs)).
      eapply wp_mono; [apply wp_process_session_node; [by apply node_wf_others|done..]|].
      intros [[]|e|f] [m' w'] Hq; [|done|right; right; exists s; auto].
      destruct Hq as [Hwf' Hh]. split; [done|].
      assert (Ha : node_of m !! get_id s = Some (automaton_of s)) by (by rewrite node_of_lookup, Hs).
      destruct Hh as [(a' & Hst & Hcl & ->)|[(a' & Hst & Hcl & ->)| ->]];
        [by eapply node_moves|by eapply node_ends|by eapply node_throws].
    + destruct (opened_wf id evt s Hc Hop) as [Hw Hopens].
      eapply wp_mono; [apply wp_process_session_node; [|done..]|].
      { apply others_wf_add; [by apply node_wf_others|done]. }
      intros [[]|e|f] [m' w'] Hq; [|done|right; right; exists s; auto].
      destruct Hq as [Hwf' Hh]. split; [done|].
      assert (Hu : unclaimed (node_of m) (id, evt)) by by apply unclaimed_found.
      assert (Ha : node_of m !! get_id s = None) by (by rewrite node_of_lookup, Hfr).
      rewrite node_of_add in Hh.
      destruct Hh as [(a' & Hst & Hcl & ->)|[(a' & Hst & Hcl & ->)| ->]].
      * rewrite insert_insert_eq. by eapply node_opens.
      * rewrite delete_insert_id by done. by eapply node_opens_in_vain.
      * rewrite delete_insert_id by done. by eapply node_opens_in_vain.
Qed.

(** C2. A node refines its table of protocol automata.  Whatever valid events
    arrive in whatever order, starting from any well-formed table: the table
    stays well-formed - every session is filed under its own ID, none is
    final, each satisfies the invariant of its class, at most 300 sessions
    that are done are kept -; every event moves at most the automaton of the
    session it is addressed to, along the protocol of its class, or opens
    one; no exception leaves the dispatcher; and when the daemon stops, it
    is for a fault of the session in charge, of an event without a session
    ID, or of the generator of IDs. *)
Theorem node_refines_protocol (evs : list (option session_id * event)) m w
  (Hc : config_ok) (Hwf : node_wf m) (Hv : Forall (fun ev => event_valid (snd ev)) evs) :
  refines_run dispatch node_of node_wf node_step (fun _ _ _ => False) node_fault evs m w.
Proof. eapply run_refines; [by apply dispatch_ok|done..]. Qed.

(** ** What one event does, exactly. *)

(** The table and the world after the session of ID [i] was given an event. *)
Definition served m (i : session_id) (r : outcome unit * (session * W)) : outcome unit * (session_manager * W) :=
  let '(o, (s', w')) := r in
  match o with
  | Normal _ => (Normal tt, (if is_final s' then store_session_asdone s' (without i m) else add_session s' m, w'))
  | Raised _ => (Normal tt, (store_session_asdone s' (without i m), w'))
  | Faulted f => (Faulted f, (add_session s' m, w'))
  end.

Lemma process_session_served m w s evt :
  session_table m !! get_id s = Some s ->
  process_session s evt (m, w) = served m (get_id s) (session_process s evt w).
Proof.
  intros Hs. pose proof (session_process_id s evt w) as Hid.
  enough (Hwp : wp (process_session s evt) (fun o mw => (o, mw) = served m (get_id s) (session_process s evt w)) (m, w)).
  { unfold wp in Hwp. by destruct (process_session s evt (m, w)). }
  apply wp_process_session; [done|]. intros o s' w' E. rewrite E in Hid |- *. cbn -[get_id] in *.
  unfold without. rewrite Hid, delete_insert_eq. by destruct o as [[]|e|f].
Qed.

Lemma served_other m i r j :
  get_id (fst (snd r)) = i -> j <> i -> session_table (fst (snd (served m i r))) !! j = session_table m !! j.
Proof.
  destruct r as [o [s' w']]. cbn -[get_id]. intros <- Hne.
  destruct o as [[]|e|f]; [destruct (is_final s')|..]; cbn -[get_id].
  1, 3: by apply lookup_delete_ne.
  all: by apply lookup_insert_ne.
Qed.

(** C21. Isolation: an event changes no entry of the table but the one of its
    own session ID - whatever the session does, and also when the daemon
    stops.  Opening a session adds an entry, and overwrites none. *)
Theorem dispatcher_isolation m w ev (j : session_id)
  (Hok : table_ok m) (Hj : fst ev <> Some j) (Hr : is_Some (session_table m !! j)) :
  session_table (fst (snd (dispatch ev (m, w)))) !! j = session_table m !! j.
Proof.
  change (wp (dispatch ev) (fun _ mw => session_table (fst mw) !! j = session_table m !! j) (m, w)).
  unfold dispatch. destruct ev as [id evt]. cbn [fst snd] in *.
  apply wp_process; [exact Hanswer|done..|]. intros s m1 w1 _ _ Hs Hcase. unfold wp.
  rewrite process_session_served by done. rewrite served_other.
  - destruct Hcase as [(_ & _ & ->)|(_ & _ & Hfr & ->)]; [done|]. apply lookup_insert_ne. intros <-.
    rewrite Hfr in Hr. by destruct Hr.
  - apply session_process_id.
  - intros ->. destruct Hcase as [(_ & -> & _)|(_ & _ & Hfr & ->)]; [done|]. rewrite Hfr in Hr. by destruct Hr.
Qed.

(** An event for a running session is processed by it.  Afterwards the table
    holds the session's new state; or, when the session is final or has
    thrown, no session under that ID, and the session is the last of those
    that are done. *)
Lemma dispatch_serves m w (i : session_id) (evt : event) s :
  table_ok m -> session_table m !! i = Some s -> needs_session evt = true ->
  dispatch (Some i, evt) (m, w) = served m i (session_process s evt w).
Proof.
  intros Hok Hs Hneeds. destruct (proj1 Hok _ _ Hs) as [<- _]. rewrite <- process_session_served by done.
  unfold dispatch, process, needs_session in *. cbn [fst snd]. apply andb_true_iff in Hneeds as [Hn1 Hn2].
  apply negb_true_iff in Hn1, Hn2. rewrite Hn2.
  unfold bind, the, get_session, ret.
  destruct evt; try discriminate; cbn [is_some assert_that]; unfold ret; cbn beta iota; by rewrite Hs.
Qed.

(** An event that neither belongs to a running session nor opens one is
    discarded: nothing changes and nothing is sent.  Obsolete timers end
    here. *)
Theorem dispatcher_discards m w ev
  (Hf : found (fst ev) m = None) (Hn : needs_session (snd ev) = true)
  (Ha : is_api_create (snd ev) = false) (Hc : is_anslp_create (snd ev) = false)
  (Hid : is_some (ev_msg (snd ev)) = true -> is_Some (fst ev)) :
  dispatch ev (m, w) = (Normal tt, (m, w)).
Proof.
  destruct ev as [id evt]. cbn [fst snd] in *. unfold dispatch, process, needs_session in *. cbn [fst snd].
  apply andb_true_iff in Hn as [Hn1 Hn2]. apply negb_true_iff in Hn1, Hn2. rewrite Hn2.
  unfold bind, the, create_session, ret. unfold found in Hf.
  assert (Hg : match id with Some i => get_session i m | None => None end = None) by by destruct id.
  destruct evt; try discriminate; try (cbn beta iota; rewrite Hg, Hc; done).
  destruct (Hid eq_refl) as [i' Hi]. cbn in Hi. subst id. cbn [is_some assert_that]. unfold ret. cbn beta iota.
  by rewrite Hg, Ha, Hc.
Qed.

Lemma served_add m s r :
  session_table m !! get_id s = None -> get_id (fst (snd r)) = get_id s ->
  served (add_session s m) (get_id s) r = served m (get_id s) r.
Proof.
  destruct r as [o [s' w']]. intros Hs Hid. cbn -[get_id] in Hid. unfold served.
  assert (E1 : without (get_id s) (add_session s m) = without (get_id s) m).
  { unfold without. cbn -[get_id]. by rewrite delete_insert_eq. }
  assert (E2 : add_session s' (add_session s m) = add_session s' m).
  { unfold add_session. cbn -[get_id]. by rewrite Hid, insert_insert_eq. }
  by rewrite E1, E2.
Qed.

(** An event that opens a session, and what the session does with it. *)
Lemma dispatch_opens m w ev
  (Hok : table_ok m) (Hf : found (fst ev) m = None) (Hn : needs_session (snd ev) = true)
  (Ho : is_api_create (snd ev) = true \/ is_anslp_create (snd ev) = true /\ is_Some (fst ev))
  (Hfuel : is_api_create (snd ev) = true -> size (session_table m) <= fuel)
  (Hdist : is_api_create (snd ev) = true -> NoDup (draws (S fuel) w)) :
  exists s w1, opened config garbage (fst ev) (snd ev) s /\ session_table m !! get_id s = None
    /\ trace w1 = trace w
    /\ dispatch ev (m, w) = served m (get_id s) (session_process s (snd ev) w1).
Proof.
  destruct ev as [id evt]. cbn [fst snd] in *.
  enough (Hwp : wp (dispatch (id, evt)) (fun o mw => exists s w1, opened config garbage id evt s
    /\ session_table m !! get_id s = None /\ trace w1 = trace w
    /\ (o, mw) = served m (get_id s) (session_process s evt w1)) (m, w)).
  { unfold wp in Hwp. by destruct (dispatch (id, evt) (m, w)). }
  unfold dispatch. cbn [fst snd]. unfold needs_session in Hn. apply andb_true_iff in Hn as [Hn1 Hn2].
  apply wp_process; [exact Hanswer|done|..].
  - intros f [-> [[_ Hm]|[_ Hm]]]; [|by rewrite Hm in Hn1].
    destruct Ho as [Ha|[_ [? ?]]]; [by destruct evt|done].
  - intros w' Hr. by rewrite Hr in Hn1.
  - intros n w' Hm Hb. unfold is_invalid_anslp_msg in Hn2. by rewrite Hm, Hb in Hn2.
  - intros _ _ Ha Hc. destruct Ho as [?|[? _]]; congruence.
  - intros w' Ha Hex. by destruct (Hex (Hfuel Ha) (Hdist Ha)).
  - intros s m1 w1 _ Ht Hs1 [(Hf1 & _)|(_ & Hop & Hfr & ->)]; [congruence|].
    exists s, w1. split_and!; [done..|].
    rewrite <- served_add by (done || apply session_process_id). rewrite <- process_session_served by done.
    by destruct (process_session s evt (add_session s m, w1)).
Qed.

(** C22. An event that opens a session: a request of the API opens an
    initiator's session under an ID no running session has; a CREATE of an
    unknown session opens a receiver's session if it is addressed to this
    node or the node is the last of its domain, and a forwarder's otherwise,
    under the ID of the CREATE.  The new session processes the event, and
    stays in the table under the same conditions as any other. *)
Theorem dispatcher_opens m w ev
  (Hok : table_ok m) (Hf : found (fst ev) m = None) (Hn : needs_session (snd ev) = true)
  (Ho : is_api_create (snd ev) = true \/ is_anslp_create (snd ev) = true /\ is_Some (fst ev))
  (Hfuel : size (session_table m) <= fuel) (Hdist : NoDup (draws (S fuel) w)) :
  exists s w1, opened config garbage (fst ev) (snd ev) s /\ session_table m !! get_id s = None
    /\ trace w1 = trace w
    /\ dispatch ev (m, w) = served m (get_id s) (session_process s (snd ev) w1).
Proof. exact (dispatch_opens m w ev Hok Hf Hn Ho (fun _ => Hfuel) (fun _ => Hdist)). Qed.

Context `{NetMsg} `{!NetMsgLaws} `{!ProtlibIE ie} `{!ProtlibIELaws ie}.

(** A message that could not be parsed never reaches a session: it is
    answered with one RESPONSE that reports a protocol error, on the path in
    the other direction, and no session is looked for.  The RESPONSE has no
    session lifetime and no sequence number, so that it cannot be written. *)
Theorem dispatcher_answers_invalid m w (i : session_id) (n : ntlp_msg) (b : bool) (buf : netmsg)
  (Hb : get_anslp_msg n = None) (Hroom : nm_pos buf + 12 <= length (nm_bytes buf)) :
  exists w' r, dispatch (Some i, Msg_event n b) (m, w) = (Normal tt, (m, w'))
    /\ trace w' = trace w ++ [Sent (mk_ntlp_msg (get_session_id n) (Some r) (invertDirection (get_mri n)) 0)]
    /\ msg_view r (response_view sc_protocol_error 0 None None)
    /\ fst (msg_serialize true r buf) = Faulted Missing_return.
Proof.
  destruct (send_does (create_response sc_protocol_error 0 n) w) as ([] & E & Ht).
  unfold dispatch, process. cbn [fst snd is_some is_invalid_anslp_msg ev_msg]. rewrite Hb.
  unfold bind, ret, assert_that, deref, outside. cbn [is_some negb ev_msg]. unfold ret. cbn beta iota.
  destruct (send_message _ w) as [o w']. cbn in E, Ht. subst o.
  unfold create_response in Ht. rewrite Hb in Ht. eexists w', _. split; [done|]. split; [exact Ht|].
  match goal with |- msg_view ?r _ /\ _ => set (resp := r) end.
  assert (Hv : msg_view resp (response_view sc_protocol_error 0 None None)).
  { apply (set_object_view new_anslp_response view_empty (new_information_code sc_protocol_error 0 0 tr_mandatory true)
      (new_msg_view C_response)); [|done]. apply wf_information_code; split; vm_compute; congruence. }
  split; [done|]. unfold msg_serialize, response_serialize, bind. cbn [msg_cls resp].
  destruct (emits_msg_header resp _ Hv eq_refl buf) as (b' & E & _); [rewrite length_be_encode; lia|].
  change (msg_cls resp) with C_response. cbn beta iota. rewrite E. cbn [app]. by rewrite serialize_key_missing.
Qed.
End DispatcherSpec.
