(* ===== verification/DispatcherExamples.v ===== *)
(** * A node at work

    A node in the concrete world of [Session.Concrete_world], from an empty
    table: the theorems about the dispatcher that have hypotheses are applied
    to it. *)
From S2P Require Import NiSession NrSession NfSession NiSpec NrSpec NfSpec.
From S2P Require Import Prelude Outcome StdMap External Objects Store Messages Codec SessionId NtlpMsg AuctionRule Events Session SessionManager Dispatcher DispatcherSpec SessionExamples.
From stdpp Require Import gmap.

Module Dispatcher_examples.
Import Concrete Codec_examples Ntlp_examples Concrete_world Session_examples.

Definition answer (_ : session_id) (_ : mri) : M world unit := ret tt.
Definition conf : anslp_config := mk_config Ni.conf (NfSession.mk_nf_config 60) Nr.conf false.
Definition ex_dispatch := dispatch (W := world) answer conf 10 0.

Lemma answer_does sid route : does trace (answer sid route) (fun _ => []).
Proof. intros w. exists tt. by rewrite app_nil_r. Qed.

Lemma conf_ok : config_ok conf.
Proof. split_and!; vm_compute; by split. Qed.

Lemma empty_ok : table_ok new_session_manager.
Proof. split; [done|cbn; lia]. Qed.

Lemma empty_wf : node_wf new_session_manager.
Proof. split; [exact empty_ok|]. by intros i s. Qed.

(** A node that forwards for the session of the CREATE. *)
Definition opening : option session_id * event := (Some ex_sid, Msg_event ex_ntlp false).
Definition request : option session_id * event := (None, Api_create_event (Ni.request 30)).
Definition forwarding : session_manager * world := snd (ex_dispatch opening (new_session_manager, start_world)).

Theorem create_unique_id_fresh_witness :
  exists id w', create_unique_id 0 ∅ start_world = (Normal id, w') /\ w1 id = 100%Z.
Proof.
  destruct (create_unique_id_fresh 0 ∅ start_world) as (id & w' & E & _); [done| |].
  - vm_compute. repeat constructor. by intros ?%elem_of_nil.
  - exists id, w'. split; [exact E|]. vm_compute in E. by injection E as <- _.
Defined.

Lemma events_valid : Forall (fun ev : option session_id * event => event_valid (snd ev)) [opening; request].
Proof.
  apply Forall_cons_2; [exact (ex_create_valid false)|].
  apply Forall_cons_2; [|apply Forall_nil_2]. apply (Ni.request_valid 30). u32.
Qed.

Theorem node_refines_protocol_witness :
  refines_run ex_dispatch node_of node_wf (node_step conf) (fun _ _ _ => False) (node_fault conf 0)
    [opening; request] new_session_manager start_world
  /\ size (session_table (fst (snd (run_events ex_dispatch [opening; request] (new_session_manager, start_world))))) = 2.
Proof.
  split; [|vm_compute; reflexivity].
  apply node_refines_protocol; [exact answer_does|exact conf_ok|exact empty_wf|exact events_valid].
Defined.

(** The table after the CREATE: one forwarder's session. *)
Lemma forwarding_ok : table_ok (fst forwarding) /\ is_Some (session_table (fst forwarding) !! ex_sid).
Proof.
  split.
  - pose proof (dispatch_ok answer answer_does conf 10 0 conf_ok new_session_manager start_world opening empty_wf
                  (ex_create_valid false)) as Hok.
    assert (E : fst (ex_dispatch opening (new_session_manager, start_world)) = Normal tt) by (vm_compute; reflexivity).
    unfold forwarding. unfold ex_dispatch in *. destruct (dispatch answer conf 10 0 opening _) as [o [m w]].
    cbn [fst snd] in *. subst o. by destruct Hok as [[Hok _] _].
  - assert (E : is_some (session_table (fst forwarding) !! ex_sid) = true) by (vm_compute; reflexivity).
    destruct (session_table (fst forwarding) !! ex_sid); [by eexists|discriminate].
Qed.

Theorem dispatcher_isolation_witness :
  session_table (fst (snd (ex_dispatch request forwarding))) !! ex_sid = session_table (fst forwarding) !! ex_sid
  /\ size (session_table (fst (snd (ex_dispatch request forwarding)))) = 2.
Proof.
  split; [|vm_compute; reflexivity]. destruct forwarding_ok as [Hok Hs].
  destruct forwarding as [m w]. by apply dispatcher_isolation; [exact answer_does|..].
Defined.

Theorem dispatch_serves_witness :
  exists s, session_table (fst forwarding) !! ex_sid = Some s
    /\ ex_dispatch (Some ex_sid, Timer_event 5) forwarding
       = served (fst forwarding) ex_sid (session_process s (Timer_event 5) (snd forwarding)).
Proof.
  destruct forwarding_ok as [Hok [s Hs]]. exists s. split; [exact Hs|]. destruct forwarding as [m w].
  by apply dispatch_serves.
Defined.

Theorem dispatcher_discards_witness :
  ex_dispatch (Some ex_sid, Timer_event 5) (new_session_manager, start_world)
  = (Normal tt, (new_session_manager, start_world)).
Proof. by apply dispatcher_discards. Defined.

Theorem dispatcher_opens_witness :
  exists s w1, ex_dispatch opening (new_session_manager, start_world)
      = served new_session_manager (get_id s) (session_process s (snd opening) w1)
    /\ size (session_table (fst forwarding)) = 1.
Proof.
  destruct (dispatcher_opens answer answer_does conf 10 0 new_session_manager start_world opening)
    as (s & w1 & _ & _ & _ & E).
  - exact empty_ok.
  - reflexivity.
  - reflexivity.
  - right. split; [reflexivity|by eexists].
  - apply Nat.leb_le. vm_compute. reflexivity.
  - vm_compute. repeat (constructor; [by set_solver|]). constructor.
  - exists s, w1. split; [exact E|vm_compute; reflexivity].
Defined.

(** A message whose A-NSLP part could not be parsed. *)
Definition ex_invalid : ntlp_msg := mk_ntlp_msg ex_sid None (Pathcoupled ex_pc) 0.

Theorem dispatcher_answers_invalid_witness :
  exists w' r, ex_dispatch (Some ex_sid, Msg_event ex_invalid true) (new_session_manager, start_world)
    = (Normal tt, (new_session_manager, w'))
    /\ length (c_trace w') = 1 /\ fst (msg_serialize true r (nm_new 24)) = Faulted Missing_return.
Proof.
  destruct (dispatcher_answers_invalid answer conf 10 0 new_session_manager start_world ex_sid ex_invalid true (nm_new 24))
    as (w' & r & E & Ht & _ & Hr); [reflexivity|cbn; lia|].
  exists w', r. split; [exact E|]. change (c_trace w') with (trace w'). by rewrite Ht.
Defined.
End Dispatcher_examples.
