(* ===== verification/Threads.v ===== *)
(** * Worker threads: include/lock.h, include/lockable.h,
    src/thread_mutex_lockable.cpp, src/session.cpp, src/dispatcher.cpp,
    src/session_manager.cpp, src/anslp_daemon.cpp

    The daemon runs several threads in [main_loop].  Each has a dispatcher of
    its own; the session manager, the sessions and the services are shared.
    [Dispatcher.process] is the whole of [dispatcher::process]; here it is cut
    where threads can interleave: the operations of the session manager, each
    inside its mutex, the lock of the session, the handler of the session
    inside that lock, and what is read of a session outside of it. *)
From S2P Require Import Prelude Outcome StdMap External Objects Store Messages SessionId NtlpMsg AuctionRule Events Session SessionManager Dispatcher.
From stdpp Require Import gmap.

Abbreviation pointer := nat.
Abbreviation thread := nat.

(** ** [thread_mutex_lockable], by its owner. *)
Definition mutex := option thread.

(** [None]: the caller waits. *)
Definition acquire (t : thread) (m : mutex) : option mutex :=
  match m with None => Some (Some t) | Some _ => None end.
Definition release (m : mutex) : mutex := None.

Section Threads.
Context `{Libs} {W : Type} `{!Dispatcher W} `{!Platform W}.
Context (send_receive_answer : session_id -> mri -> M W unit).
Variables (config : anslp_config) (fuel : nat) (garbage : Z).

(** A session object and its lock. *)
Record shared_session := mk_shared { object : session; lock_ : mutex }.

Abbreviation incoming := (option session_id * event)%type.

(** Where a worker is in [main_loop] and [dispatcher::process]. *)
Inductive position :=
  | Waiting                                 (* dequeue_timedwait *)
  | Looking (ev : incoming)                 (* get_session *)
  | Creating (ev : incoming)                (* create_session *)
  | Acquiring (p : pointer) (ev : incoming) (* s->acquire() *)
  | Processing (p : pointer) (ev : incoming) (* s->process(), inside the lock *)
  | Releasing (p : pointer)                 (* s->release() *)
  | Checking (p : pointer)                  (* s->is_final() *)
  | Removing (p : pointer).                 (* remove_session(s->get_id()) *)

(** What the workers share: the objects, the session table and the list of
    done sessions by their pointers, the world. *)
Record pool := mk_pool {
  heap : gmap pointer shared_session;
  next : pointer;
  table : gmap session_id pointer;
  finished : list pointer;
  workers : list position;
  surroundings : W }.

Definition goto (t : thread) (c : position) (P : pool) : pool :=
  mk_pool (heap P) (next P) (table P) (finished P) (<[t := c]> (workers P)) (surroundings P).
Definition set_surroundings (w : W) (P : pool) : pool :=
  mk_pool (heap P) (next P) (table P) (finished P) (workers P) w.
Definition set_shared (p : pointer) (x : shared_session) (P : pool) : pool :=
  mk_pool (<[p := x]> (heap P)) (next P) (table P) (finished P) (workers P) (surroundings P).

(** The session manager, as [create_session] sees it. *)
Definition manager (P : pool) : session_manager :=
  mk_manager (omap (fun p => object <$> heap P !! p) (table P)) [].

(** [new ...] and [session_table[s->get_id()] = s]. *)
Definition file_new (s : session) (P : pool) : pool :=
  mk_pool (<[next P := mk_shared s None]> (heap P)) (S (next P)) (<[get_id s := next P]> (table P)) (finished P) (workers P) (surroundings P).

(** A call that uses the world only.  No exception leaves [process]. *)
Definition in_world {A} (m : M W A) (P : pool) : outcome pool :=
  match m (surroundings P) with
  | (Normal _, w) => Normal (set_surroundings w P)
  | (Raised _, _) => Faulted Terminated
  | (Faulted f, _) => Faulted f
  end.

(** [process] down to [get_session]. *)
Definition look (t : thread) (ev : incoming) (P : pool) : outcome pool :=
  let '(id, evt) := ev in
  match evt, id with
  | Msg_event _ _, None => Faulted Assertion_failed
  | Routing_state_check_event _, None => Faulted Null_dereference
  | Routing_state_check_event route, Some sid => obind (in_world (send_receive_answer sid route) P) (fun P => Normal (goto t Waiting P))
  | _, _ =>
      if is_invalid_anslp_msg evt then
        obind (of_pointer (ev_msg evt)) (fun n =>
        obind (in_world (send_message (create_response sc_protocol_error 0 n)) P) (fun P => Normal (goto t Waiting P)))
      else
        match (match id with Some i => table P !! i | None => None end) with
        | Some p => Normal (goto t (Acquiring p ev) P)
        | None => Normal (goto t (Creating ev) P)
        end
  end.

Definition create (t : thread) (ev : incoming) (P : pool) : outcome pool :=
  match create_session config fuel garbage (fst ev) (snd ev) (manager P, surroundings P) with
  | (Normal (Some s), (_, w)) => Normal (goto t (Acquiring (next P) ev) (file_new s (set_surroundings w P)))
  | (Normal None, (_, w)) => Normal (goto t Waiting (set_surroundings w P))
  | (Raised _, _) => Faulted Terminated
  | (Faulted f, _) => Faulted f
  end.

(** Use of a pointer to a session. *)
Definition use {A} (p : pointer) (P : pool) (k : shared_session -> outcome A) : outcome A :=
  match heap P !! p with Some x => k x | None => Faulted Use_after_free end.

(** The handler; an exception skips the release. *)
Definition handle (t : thread) (p : pointer) (ev : incoming) (P : pool) : outcome pool :=
  use p P (fun x =>
    let '(o, (s, w)) := session_process (object x) (snd ev) (surroundings P) in
    let P := set_surroundings w (set_shared p (mk_shared s (lock_ x)) P) in
    match o with
    | Normal _ => Normal (goto t (Releasing p) P)
    | Raised _ => Normal (goto t (Removing p) P)
    | Faulted f => Faulted f
    end).

(** [store_session_asdone], which deletes the oldest session. *)
Definition store_done (q : pointer) (P : pool) : pool :=
  let done := finished P ++ [q] in
  if (DONE_SESSION_LIST_SIZE <? length done)%nat then
    mk_pool (match done with p :: _ => delete p (heap P) | [] => heap P end) (next P) (table P) (tail done) (workers P) (surroundings P)
  else mk_pool (heap P) (next P) (table P) done (workers P) (surroundings P).

Definition erase (i : session_id) (P : pool) : pool :=
  mk_pool (heap P) (next P) (delete i (table P)) (finished P) (workers P) (surroundings P).

(** [remove_session(s->get_id())]: whatever session has the ID now. *)
Definition remove (t : thread) (p : pointer) (P : pool) : outcome pool :=
  use p P (fun x =>
    let i := get_id (object x) in
    match table P !! i with
    | None => Faulted Null_dereference
    | Some q => use q P (fun _ => Normal (goto t Waiting (store_done q (erase i P))))
    end).

(** One step of a worker; [None] when it waits, for a message or a lock. *)
Definition step (t : thread) (P : pool) : option (outcome pool) :=
  match workers P !! t with
  | None | Some Waiting => None
  | Some (Looking ev) => Some (look t ev P)
  | Some (Creating ev) => Some (create t ev P)
  | Some (Acquiring p ev) =>
      match heap P !! p with
      | None => Some (Faulted Use_after_free)
      | Some x => match acquire t (lock_ x) with
                  | Some m => Some (Normal (goto t (Processing p ev) (set_shared p (mk_shared (object x) m) P)))
                  | None => None
                  end
      end
  | Some (Processing p ev) => Some (handle t p ev P)
  | Some (Releasing p) => Some (use p P (fun x => Normal (goto t (Checking p) (set_shared p (mk_shared (object x) (release (lock_ x))) P))))
  | Some (Checking p) => Some (use p P (fun x => Normal (goto t (if is_final (object x) then Removing p else Waiting) P)))
  | Some (Removing p) => Some (remove t p P)
  end.

(** A schedule: which worker takes an event or makes a step.  A worker that
    cannot, stays where it is. *)
Inductive move := Take (t : thread) (ev : incoming) | Step (t : thread).

Definition execute (a : move) (P : pool) : outcome pool :=
  match a with
  | Take t ev => match workers P !! t with Some Waiting => Normal (goto t (Looking ev) P) | _ => Normal P end
  | Step t => default (Normal P) (step t P)
  end.

Fixpoint run (l : list move) (P : pool) : outcome pool :=
  match l with [] => Normal P | a :: l => obind (execute a P) (run l) end.

(** The daemon as it starts: [n] workers over an empty table. *)
Definition start (n : nat) (w : W) : pool := mk_pool ∅ 0 ∅ [] (replicate n Waiting) w.

(** ** Steps, by what they leave. *)
Lemma run_app l l' P : run (l ++ l') P = obind (run l P) (run l').
Proof. revert P. induction l as [|a l IH]; intros P; [done|]. cbn. destruct (execute a P) as [P'|e|f]; cbn; auto. Qed.

(** A step of a worker changes no other worker's position. *)
Lemma in_world_workers {A} (m : M W A) P P' : in_world m P = Normal P' -> exists w, P' = set_surroundings w P.
Proof. unfold in_world. destruct (m _) as [[a|e|f] w]; intros [= <-]. by exists w. Qed.

Lemma use_normal {A} p P (k : shared_session -> outcome A) a :
  use p P k = Normal a -> exists x, heap P !! p = Some x /\ k x = Normal a.
Proof. unfold use. destruct (heap P !! p) as [x|]; [|done]. by exists x. Qed.
End Threads.
