(* ===== verification/Locks.v ===== *)
(** * What the lock of a session gives, and what it does not

    At any time at most one worker is inside the handler of a session, and
    every event is finished, but behind the lock of a session whose handler has
    thrown: that lock is kept for ever.  And two workers that find the same
    session done both remove it. *)
From S2P Require Import Prelude Outcome StdMap External Objects Store Messages SessionId NtlpMsg AuctionRule Events Session SessionManager Dispatcher Threads.
From stdpp Require Import gmap.

Section Locks.
Context `{Libs} {W : Type} `{!Dispatcher W} `{!Platform W}.
Context (send_receive_answer : session_id -> mri -> M W unit).
Variables (config : anslp_config) (fuel : nat) (garbage : Z).

Abbreviation incoming := (option session_id * event)%type.
Abbreviation step := (step send_receive_answer config fuel garbage).
Abbreviation execute := (execute send_receive_answer config fuel garbage).
Abbreviation run := (run send_receive_answer config fuel garbage).
Implicit Types (P : pool (W := W)) (t : thread) (p : pointer) (ev : incoming).

(** ** The steps, one rule each. *)
Inductive worker_step t P : pool -> Prop :=
  | ws_answer ev w : workers P !! t = Some (Looking ev) -> needs_session (snd ev) = false ->
      worker_step t P (goto t Waiting (set_surroundings w P))
  | ws_found ev i p : workers P !! t = Some (Looking ev) -> needs_session (snd ev) = true ->
      fst ev = Some i -> table P !! i = Some p -> worker_step t P (goto t (Acquiring p ev) P)
  | ws_unknown ev : workers P !! t = Some (Looking ev) -> needs_session (snd ev) = true ->
      (forall i, fst ev = Some i -> table P !! i = None) -> (is_anslp_create (snd ev) = true -> fst ev <> None) ->
      worker_step t P (goto t (Creating ev) P)
  | ws_discard ev m w : workers P !! t = Some (Creating ev) ->
      create_session config fuel garbage (fst ev) (snd ev) (manager P, surroundings P) = (Normal None, (m, w)) ->
      worker_step t P (goto t Waiting (set_surroundings w P))
  | ws_open ev s m w : workers P !! t = Some (Creating ev) ->
      create_session config fuel garbage (fst ev) (snd ev) (manager P, surroundings P) = (Normal (Some s), (m, w)) ->
      worker_step t P (goto t (Acquiring (next P) ev) (file_new s (set_surroundings w P)))
  | ws_acquire p ev x : workers P !! t = Some (Acquiring p ev) -> heap P !! p = Some x -> lock_ x = None ->
      worker_step t P (goto t (Processing p ev) (set_shared p (mk_shared (object x) (Some t)) P))
  | ws_handle p ev x s w : workers P !! t = Some (Processing p ev) -> heap P !! p = Some x ->
      session_process (object x) (snd ev) (surroundings P) = (Normal tt, (s, w)) ->
      worker_step t P (goto t (Releasing p) (set_surroundings w (set_shared p (mk_shared s (lock_ x)) P)))
  | ws_throw p ev x s w e : workers P !! t = Some (Processing p ev) -> heap P !! p = Some x ->
      session_process (object x) (snd ev) (surroundings P) = (Raised e, (s, w)) ->
      worker_step t P (goto t (Removing p) (set_surroundings w (set_shared p (mk_shared s (lock_ x)) P)))
  | ws_release p x : workers P !! t = Some (Releasing p) -> heap P !! p = Some x ->
      worker_step t P (goto t (Checking p) (set_shared p (mk_shared (object x) None) P))
  | ws_check p x : workers P !! t = Some (Checking p) -> heap P !! p = Some x ->
      worker_step t P (goto t (if is_final (object x) then Removing p else Waiting) P)
  | ws_remove p x q y : workers P !! t = Some (Removing p) -> heap P !! p = Some x ->
      table P !! get_id (object x) = Some q -> heap P !! q = Some y ->
      worker_step t P (goto t Waiting (store_done q (erase (get_id (object x)) P))).

Lemma look_step t ev P P' :
  workers P !! t = Some (Looking ev) -> look send_receive_answer t ev P = Normal P' -> worker_step t P P'.
Proof.
  intros Ht. destruct ev as [id evt].
  assert (Hgo : is_routing_state_check evt = false -> (is_some (ev_msg evt) = true -> id <> None) ->
    (if is_invalid_anslp_msg evt then
        obind (of_pointer (ev_msg evt)) (fun n =>
        obind (in_world (send_message (create_response sc_protocol_error 0 n)) P) (fun P => Normal (goto t Waiting P)))
      else
        match (match id with Some i => table P !! i | None => None end) with
        | Some p => Normal (goto t (Acquiring p (id, evt)) P)
        | None => Normal (goto t (Creating (id, evt)) P)
        end) = Normal P' -> worker_step t P P').
  { intros Hr Hid. assert (Hn : needs_session evt = negb (is_invalid_anslp_msg evt)) by (unfold needs_session; by rewrite Hr).
    destruct (is_invalid_anslp_msg evt) eqn:Ei.
    - destruct (ev_msg evt) as [n|]; [|done]. cbn [of_pointer obind].
      destruct (in_world _ P) as [P1|e|f] eqn:Ew; [|done..]. apply in_world_workers in Ew as [w ->]. cbn [obind]. intros [= <-].
      by eapply ws_answer.
    - destruct id as [i|].
      + destruct (table P !! i) as [p|] eqn:Et; intros [= <-]; [by eapply ws_found|]. eapply ws_unknown; [done|done| |done].
        by intros j [= <-].
      + intros [= <-]. eapply ws_unknown; [done|done|by intros ? [=]|]. intros Hc. apply Hid. by destruct evt. }
  unfold look. destruct evt; try (apply Hgo; [done|by intros ?]).
  - destruct id as [i|]; [|done]. destruct (in_world _ P) as [P1|e|f] eqn:Ew; [|done..]. apply in_world_workers in Ew as [w ->].
    cbn [obind]. intros [= <-]. by eapply ws_answer.
  - destruct id as [i|]; [|done]. by apply Hgo.
Qed.

Lemma step_worker t P P' : step t P = Some (Normal P') -> worker_step t P P'.
Proof.
  unfold Threads.step. destruct (workers P !! t) as [[|ev|ev|p ev|p ev|p|p|p]|] eqn:Ht; [done|..|done].
  - intros [= E]. by eapply look_step.
  - unfold create. destruct (create_session _ _ _ _ _ _) as [[[s|]|e|f] [m w]] eqn:Ec; intros [= <-].
    + by eapply ws_open.
    + by eapply ws_discard.
  - destruct (heap P !! p) as [x|] eqn:Ep; [|done]. unfold acquire. destruct (lock_ x) eqn:El; [done|]. intros [= <-].
    by eapply ws_acquire.
  - intros [= E]. unfold handle in E. apply use_normal in E as (x & Ep & E).
    destruct (session_process _ _ _) as [[[]|e|f] [s w]] eqn:Es; [| |done]; injection E as <-; [by eapply ws_handle|by eapply ws_throw].
  - intros [= E]. apply use_normal in E as (x & Ep & E). injection E as <-. by eapply ws_release.
  - intros [= E]. apply use_normal in E as (x & Ep & E). injection E as <-. by eapply ws_check.
  - intros [= E]. unfold remove in E. apply use_normal in E as (x & Ep & E). cbv zeta in E.
    destruct (table P !! get_id (object x)) as [q|] eqn:Eq; [|done]. apply use_normal in E as (y & Ey & E). injection E as <-.
    exact (ws_remove t P p x q y Ht Ep Eq Ey).
Qed.

(** ** Who holds a lock. *)
Definition inside (c : position) p : Prop :=
  match c with Processing q _ | Releasing q => q = p | _ => False end.
Definition holds P t p : Prop := exists c, workers P !! t = Some c /\ inside c p.

(** New objects have new addresses, and a worker inside a handler owns the
    lock of its session. *)
Record locks_ok P : Prop := {
  lo_next : forall p x, heap P !! p = Some x -> p < next P;
  lo_pointers : forall t c p, workers P !! t = Some c -> inside c p -> p < next P;
  lo_table : forall i p, table P !! i = Some p -> p < next P;
  lo_aims : forall t p ev, workers P !! t = Some (Acquiring p ev) -> p < next P;
  lo_holds : forall t p x, holds P t p -> heap P !! p = Some x -> lock_ x = Some t }.

Lemma goto_workers t c P t' : t < length (workers P) ->
  workers (goto t c P) !! t' = if decide (t' = t) then Some c else workers P !! t'.
Proof.
  intros Ht. cbn. case_decide as E; [subst; by rewrite list_lookup_insert_eq|by rewrite list_lookup_insert_ne].
Qed.

(** The effect of a step on what the invariant speaks of. *)
Lemma holds_goto t c P t' p :
  holds (goto t c P) t' p -> (t' = t /\ inside c p /\ t < length (workers P)) \/ (t' <> t /\ holds P t' p).
Proof.
  intros (c' & Hc & Hi). cbn in Hc. apply list_lookup_insert_Some in Hc as [(<- & <- & ?)|[Hne Hc]]; [by left|].
  right. split; [congruence|]. by exists c'.
Qed.

Lemma locks_ok_goto t c P : locks_ok P ->
  (forall p, inside c p -> p < next P /\ forall x, heap P !! p = Some x -> lock_ x = Some t) ->
  (forall p ev, c = Acquiring p ev -> p < next P) -> locks_ok (goto t c P).
Proof.
  intros [N1 N2 N3 N4 N5] Hin Haim. split; cbn; [done| |done|..].
  - intros t' c' p Hc Hi. apply list_lookup_insert_Some in Hc as [(_ & <- & _)|[_ Hc]]; [by apply Hin|by eapply N2].
  - intros t' p ev Hc. apply list_lookup_insert_Some in Hc as [(_ & -> & _)|[_ Hc]]; [by eapply Haim|by eapply N4].
  - intros t' p x Hh Hx. apply holds_goto in Hh as [(-> & Hi & _)|[_ Hh]]; [by apply (proj2 (Hin _ Hi))|by eapply N5].
Qed.

Lemma locks_ok_world w P : locks_ok P -> locks_ok (set_surroundings w P).
Proof. intros [N1 N2 N3 N4 N5]. split; [exact N1|exact N2|exact N3|exact N4|exact N5]. Qed.

(** An object is stored again; another worker that is inside still owns the
    lock. *)
Lemma locks_ok_set p x y P : locks_ok P -> heap P !! p = Some x ->
  (forall t, holds P t p -> lock_ y = Some t) -> locks_ok (set_shared p y P).
Proof.
  intros [N1 N2 N3 N4 N5] Hp Hy. split; cbn; [|done|done|done|].
  - intros q z Hz. apply lookup_insert_Some in Hz as [[<- _]|[_ Hz]]; by eapply N1.
  - intros t q z Hh Hz. apply lookup_insert_Some in Hz as [[<- <-]|[_ Hz]]; [by apply Hy|by eapply N5].
Qed.

Lemma locks_ok_filed s P : locks_ok P -> locks_ok (file_new s P).
Proof.
  intros [N1 N2 N3 N4 N5]. split; cbn -[get_id].
  - intros p x Hx. apply lookup_insert_Some in Hx as [[<- _]|[_ Hx]]; [lia|]. apply N1 in Hx. lia.
  - intros t c p Hc Hi. specialize (N2 t c p Hc Hi). lia.
  - intros i p Hi. apply lookup_insert_Some in Hi as [[_ <-]|[_ Hi]]; [lia|]. apply N3 in Hi. lia.
  - intros t p ev Hc. apply N4 in Hc. lia.
  - intros t p x (c & Hc & Hi) Hx. specialize (N2 t c p Hc Hi). apply lookup_insert_Some in Hx as [[<- _]|[_ Hx]]; [lia|].
    eapply N5; [by exists c|done].
Qed.

Lemma store_done_heap q P p x : heap (store_done q P) !! p = Some x -> heap P !! p = Some x.
Proof.
  unfold store_done. destruct (_ <? _)%nat; [|done]. cbn. destruct (finished P ++ [q]); [done|].
  by intros [_ ?]%lookup_delete_Some.
Qed.

Lemma store_done_same q P : next (store_done q P) = next P /\ table (store_done q P) = table P /\ workers (store_done q P) = workers P.
Proof. unfold store_done. by destruct (_ <? _)%nat. Qed.

Lemma locks_ok_removed q i P : locks_ok P -> locks_ok (store_done q (erase i P)).
Proof.
  intros [N1 N2 N3 N4 N5]. destruct (store_done_same q (erase i P)) as (E1 & E2 & E3).
  split; rewrite ?E1, ?E2, ?E3; unfold holds; rewrite ?E3; cbn.
  - intros p x Hx. apply store_done_heap in Hx. by eapply N1.
  - exact N2.
  - intros j p Hj. apply lookup_delete_Some in Hj as [_ Hj]. by eapply N3.
  - exact N4.
  - intros t p x Hh Hx. apply store_done_heap in Hx. by eapply N5.
Qed.

Lemma locks_ok_step t P P' : locks_ok P -> worker_step t P P' -> locks_ok P'.
Proof.
  intros Hok Hs. destruct Hs as [ev w Ht Hn|ev i p Ht Hn Hi Hp|ev Ht Hn Hi Hc|ev m w Ht Hc|ev s m w Ht Hc|p ev x Ht Hx Hl
    |p ev x s w Ht Hx Hs|p ev x s w e Ht Hx Hs|p x Ht Hx|p x Ht Hx|p x q y Ht Hx Hq Hy].
  - apply locks_ok_goto; [by apply locks_ok_world|done|done].
  - apply locks_ok_goto; [done|done|]. intros ? ? [= <- _]. by eapply lo_table.
  - by apply locks_ok_goto.
  - apply locks_ok_goto; [by apply locks_ok_world|done|done].
  - apply locks_ok_goto; [by apply locks_ok_filed, locks_ok_world|done|]. intros ? ? [= <- _]. cbn. lia.
  - assert (Hno : forall t', ~ holds P t' p) by (intros t' Hh; by rewrite (lo_holds _ Hok t' p x Hh Hx) in Hl).
    apply locks_ok_goto; [|intros q Hq; cbn in Hq; subst q|done].
    + eapply locks_ok_set; [done..|]. intros t' Hh. by apply Hno in Hh.
    + split; [exact (lo_next _ Hok _ _ Hx)|]. cbn. intros y Hy. rewrite lookup_insert_eq in Hy. by injection Hy as <-.
  - apply locks_ok_goto; [apply locks_ok_world|intros q Hq; cbn in Hq; subst q|done].
    + eapply locks_ok_set; [done..|]. intros t' Hh. exact (lo_holds _ Hok t' p x Hh Hx).
    + split; [exact (lo_next _ Hok _ _ Hx)|]. cbn. intros y Hy. rewrite lookup_insert_eq in Hy. injection Hy as <-. cbn.
      refine (lo_holds _ Hok t p x _ Hx). by exists (Processing p ev).
  - apply locks_ok_goto; [apply locks_ok_world|done|done].
    eapply locks_ok_set; [done..|]. intros t' Hh. exact (lo_holds _ Hok t' p x Hh Hx).
  - (* the owner leaves: seen from where it is then *)
    assert (Hg : locks_ok (goto t (Checking p) P)) by by apply locks_ok_goto.
    change (goto t (Checking p) (set_shared p (mk_shared (object x) None) P)) with (set_shared p (mk_shared (object x) None) (goto t (Checking p) P)).
    eapply locks_ok_set; [done|exact Hx|]. intros t' Hh. apply holds_goto in Hh as [(_ & [] & _)|[Hne Hh]].
    assert (E : lock_ x = Some t) by (refine (lo_holds _ Hok t p x _ Hx); by exists (Releasing p)).
    rewrite (lo_holds _ Hok t' p x Hh Hx) in E. congruence.
  - apply locks_ok_goto; [done|by destruct (is_final _)|]. by destruct (is_final _).
  - apply locks_ok_goto; [by apply locks_ok_removed|done|done].
Qed.

Lemma execute_cases a P P' : execute a P = Normal P' ->
  P' = P \/ (exists t ev, workers P !! t = Some Waiting /\ P' = goto t (Looking ev) P)
  \/ (exists t, a = Step t /\ worker_step t P P').
Proof.
  destruct a as [t ev|t]; cbn.
  - destruct (workers P !! t) as [[]|] eqn:Et; intros [= <-]; auto. right. left. by exists t, ev.
  - destruct (step t P) as [o|] eqn:Es; cbn; intros E; [|injection E as <-; auto]. subst o.
    right. right. exists t. split; [done|by apply step_worker].
Qed.

Lemma locks_ok_run l P P' : locks_ok P -> run l P = Normal P' -> locks_ok P'.
Proof.
  revert P. induction l as [|a l IH]; intros P Hok; cbn; [by intros [= <-]|].
  destruct (execute a P) as [P1|e|f] eqn:Ea; [|done..]. apply IH.
  apply execute_cases in Ea as [->|[(t & ev & _ & ->)|(t & _ & Hs)]]; [done|by apply locks_ok_goto|by eapply locks_ok_step].
Qed.

Lemma start_locks n w : locks_ok (start n w).
Proof.
  assert (Hw : forall t c, workers (start n w) !! t = Some c -> c = Waiting) by (intros t c Hc; by apply lookup_replicate in Hc as [-> _]).
  split; [done| |done|..].
  - intros t c p Hc. by rewrite (Hw t c Hc).
  - intros t p ev Hc. by apply Hw in Hc.
  - intros t p x (c & Hc & Hi). by rewrite (Hw t c Hc) in Hi.
Qed.

(** ** Mutual exclusion. *)

(** C5. At most one worker is inside the handler of a session: whatever events
    come in and however the workers interleave, two workers between
    [acquire] and [release] of one live session are the same worker - the one
    its lock belongs to. *)
Theorem session_mutual_exclusion (n : nat) (w : W) (l : list move) (P : pool) (t t' : thread) (p : pointer) (x : shared_session)
  (Hr : run l (start n w) = Normal P) (Hx : heap P !! p = Some x) (Ht : holds P t p) (Ht' : holds P t' p) :
  t = t' /\ lock_ x = Some t.
Proof.
  pose proof (locks_ok_run l _ _ (start_locks n w) Hr) as Hok.
  pose proof (lo_holds _ Hok t p x Ht Hx) as E. pose proof (lo_holds _ Hok t' p x Ht' Hx). split; congruence.
Qed.

(** ** A handler that throws keeps the lock. *)

(** [t] is about to leave the handler of [p] by an exception. *)
Definition throws_at P t p : Prop :=
  exists ev x e s w, workers P !! t = Some (Processing p ev) /\ heap P !! p = Some x
    /\ session_process (object x) (snd ev) (surroundings P) = (Raised e, (s, w)).

(** It has left: the lock of [p] is still its own, and nobody is inside. *)
Definition abandoned t' p P : Prop :=
  locks_ok P /\ p < next P /\ (forall x, heap P !! p = Some x -> lock_ x = Some t') /\ forall t, ~ holds P t p.

Lemma abandoned_move t' p t c P P1 : abandoned t' p P -> workers P1 = workers P -> locks_ok (goto t c P1) -> next P <= next P1 ->
  (forall x, heap P1 !! p = Some x -> exists y, heap P !! p = Some y /\ lock_ y = lock_ x) -> ~ inside c p -> abandoned t' p (goto t c P1).
Proof.
  intros (_ & Hp & Hx & Hn) Hw Hok Hle Hsub Hc. split_and!; [done|cbn; lia| |].
  - intros x Hx'. destruct (Hsub x Hx') as (y & Hy & <-). by apply Hx.
  - intros u Hh. apply holds_goto in Hh as [(_ & Hi & _)|[_ Hh]]; [done|]. apply (Hn u). unfold holds in *. by rewrite <- Hw.
Qed.

Lemma abandoned_step t' p t P P' : abandoned t' p P -> worker_step t P P' -> abandoned t' p P'.
Proof.
  intros Ha Hs. pose proof (locks_ok_step _ _ _ (proj1 Ha) Hs) as Hok'. pose proof Ha as (_ & Hp & Hlock & Hn).
  assert (Hin : forall q c, workers P !! t = Some c -> inside c q -> q <> p) by (intros q c Hc Hi ->; apply (Hn t); by exists c).
  assert (Hset : forall q y, q <> p -> forall x, heap (set_shared q y P) !! p = Some x -> exists z, heap P !! p = Some z /\ lock_ z = lock_ x).
  { intros q y Hne x Hx. cbn in Hx. rewrite lookup_insert_ne in Hx by done. by exists x. }
  destruct Hs as [ev w Hc Hne|ev i q Hc Hne Hi Hq|ev Hc Hne Hi Hcr|ev m w Hc Hcr|ev s m w Hc Hcr|q ev x Hc Hx Hl
    |q ev x s w Hc Hx Hs|q ev x s w e Hc Hx Hs|q x Hc Hx|q x Hc Hx|q x r y Hc Hx Hq Hy].
  all: try (apply (abandoned_move t' p _ _ P _ Ha); [done|done|done|solve [cbn; eauto]|solve [cbn; tauto]]).
  - apply (abandoned_move t' p _ _ P _ Ha); [done|done|cbn; lia| |cbn; tauto]. cbn. intros z Hz.
    rewrite lookup_insert_ne in Hz by lia. eauto.
  - assert (Hqp : q <> p) by (intros ->; by rewrite (Hlock x Hx) in Hl).
    apply (abandoned_move t' p _ _ P _ Ha); [done|done|done|exact (Hset q _ Hqp)|exact Hqp].
  - assert (Hqp : q <> p) by by eapply Hin. apply (abandoned_move t' p _ _ P _ Ha); [done|done|done|exact (Hset q _ Hqp)|exact Hqp].
  - assert (Hqp : q <> p) by by eapply Hin. apply (abandoned_move t' p _ _ P _ Ha); [done|done|done|exact (Hset q _ Hqp)|cbn; tauto].
  - assert (Hqp : q <> p) by by eapply Hin. apply (abandoned_move t' p _ _ P _ Ha); [done|done|done|exact (Hset q _ Hqp)|cbn; tauto].
  - apply (abandoned_move t' p _ _ P _ Ha); [done|done|done|cbn; eauto|]. destruct (is_final _); cbn; tauto.
  - destruct (store_done_same r (erase (get_id (object x)) P)) as (E1 & _ & E3).
    apply (abandoned_move t' p _ _ P _ Ha); [by rewrite E3|done|by rewrite E1| |cbn; tauto].
    intros z Hz. apply store_done_heap in Hz. by exists z.
Qed.

Lemma execute_abandoned t' p a P P' : abandoned t' p P -> execute a P = Normal P' -> abandoned t' p P'.
Proof.
  intros Ha E. apply execute_cases in E as [->|[(t & ev & Hw & ->)|(t & _ & Hs)]]; [done| |by eapply abandoned_step].
  apply (abandoned_move t' p _ _ P _ Ha); [done| |done|eauto|cbn; tauto]. apply locks_ok_goto; [apply Ha|done|done].
Qed.

Lemma step_others t u P P' : worker_step t P P' -> u <> t -> workers P' !! u = workers P !! u.
Proof.
  intros Hs Hne. destruct Hs; cbn; try by rewrite list_lookup_insert_ne.
  destruct (store_done_same q (erase (get_id (object x)) P)) as (_ & _ & ->). cbn. by rewrite list_lookup_insert_ne.
Qed.

(** A worker that waits for such a lock goes on waiting. *)
Lemma execute_waits t' p t ev a P P' : abandoned t' p P -> workers P !! t = Some (Acquiring p ev) -> execute a P = Normal P' ->
  workers P' !! t = Some (Acquiring p ev).
Proof.
  intros (_ & _ & Hlock & _) Ht E. apply execute_cases in E as [->|[(u & ev' & Hw & ->)|(u & _ & Hs)]]; [done| |].
  - cbn. rewrite list_lookup_insert_ne; [done|]. intros ->. congruence.
  - destruct (decide (t = u)) as [<-|Hne]; [|by rewrite (step_others u t P P' Hs Hne)]. exfalso.
    destruct Hs as [| | | | |q ev' x Hc Hx Hl| | | | |]; try congruence. rewrite Ht in *. simplify_eq. by rewrite (Hlock x Hx) in Hl.
Qed.

(** C37. An exception leaks the lock: [dispatcher::process] releases a session
    only when its handler returns.  From the step on in which a handler
    throws, whatever comes in and whatever the workers do, the lock of the
    session remains that of the worker that threw, nobody gets inside its
    handler again, and a worker that waits for the lock goes on waiting. *)
Theorem abandoned_lock_blocks (n : nat) (w w1 : W) (l l' : list move) (P P' : pool) (t' : thread) (p : pointer)
  (ev : option session_id * event) (x : shared_session) (e : exn) (s : session)
  (Hr : run l (start n w) = Normal P) (Ht : workers P !! t' = Some (Processing p ev)) (Hx : heap P !! p = Some x)
  (Hthrow : session_process (object x) (snd ev) (surroundings P) = (Raised e, (s, w1)))
  (Hr' : run (Step t' :: l') P = Normal P') :
  (forall y, heap P' !! p = Some y -> lock_ y = Some t')
  /\ (forall t, ~ holds P' t p)
  /\ forall t ev', workers P !! t = Some (Acquiring p ev') -> workers P' !! t = Some (Acquiring p ev').
Proof.
  pose proof (locks_ok_run l _ _ (start_locks n w) Hr) as Hok.
  assert (Hl : lock_ x = Some t') by (refine (lo_holds _ Hok t' p x _ Hx); by exists (Processing p ev)).
  set (P1 := goto t' (Removing p) (set_surroundings w1 (set_shared p (mk_shared s (lock_ x)) P))).
  assert (E1 : execute (Step t') P = Normal P1).
  { unfold Threads.execute, Threads.step. rewrite Ht. cbn [default]. unfold handle, use. by rewrite Hx, Hthrow. }
  assert (Hs1 : worker_step t' P P1) by by eapply ws_throw.
  assert (Ha : abandoned t' p P1).
  { split_and!; [by eapply locks_ok_step|exact (lo_next _ Hok _ _ Hx)| |].
    - intros y Hy. cbn in Hy. rewrite lookup_insert_eq in Hy. by injection Hy as <-.
    - intros t Hh. apply holds_goto in Hh as [(_ & [] & _)|[Hne Hh]]. pose proof (lo_holds _ Hok t p x Hh Hx). congruence. }
  assert (Hwait : forall t ev', workers P !! t = Some (Acquiring p ev') -> workers P1 !! t = Some (Acquiring p ev')).
  { intros t ev' Hw. rewrite (step_others t' t P P1 Hs1); [done|]. intros ->. congruence. }
  cbn [Threads.run] in Hr'. rewrite E1 in Hr'. cbn [obind] in Hr'.
  assert (Hgo : forall l' P1, abandoned t' p P1 -> run l' P1 = Normal P' -> abandoned t' p P'
    /\ forall t ev', workers P1 !! t = Some (Acquiring p ev') -> workers P' !! t = Some (Acquiring p ev')).
  { clear. induction l' as [|a l' IH]; intros P1 Ha; cbn; [by intros [= <-]|].
    destruct (execute a P1) as [P2|e|f] eqn:Ea; [|done..]. intros Hr'.
    destruct (IH P2 (execute_abandoned _ _ _ _ _ Ha Ea) Hr') as [Ha' Hw]. split; [done|]. intros t ev' Ht.
    apply Hw. exact (execute_waits _ _ _ _ _ _ _ Ha Ht Ea). }
  destruct (Hgo l' P1 Ha Hr') as [(_ & _ & Hlock & Hno) Hw]. split_and!; [done..|]. intros t ev' Ht'. by apply Hw, Hwait.
Qed.

(** ** Two workers remove a session. *)

(** C38. A session that two workers have found final - both events were looked
    up before the first of them removed it - is removed twice: the second
    removal finds no entry, and dereferences the null pointer
    [session_table[sid]] has put there. *)
Theorem double_removal_crashes (P : pool) (t t' : thread) (p : pointer) (x : shared_session)
  (Hne : t <> t') (Ht : workers P !! t = Some (Removing p)) (Ht' : workers P !! t' = Some (Removing p))
  (Hx : heap P !! p = Some x) (Htab : table P !! get_id (object x) = Some p) (Hdone : length (finished P) < DONE_SESSION_LIST_SIZE) :
  run [Step t; Step t'] P = Faulted Null_dereference.
Proof.
  set (P1 := goto t Waiting (store_done p (erase (get_id (object x)) P))).
  assert (E1 : execute (Step t) P = Normal P1).
  { unfold Threads.execute, Threads.step. rewrite Ht. change (Threads.remove t p P = Normal P1). unfold Threads.remove, use. rewrite Hx. cbv zeta. by rewrite Htab, Hx. }
  cbn [Threads.run]. rewrite E1. cbn [obind].
  assert (Ed : store_done p (erase (get_id (object x)) P)
    = mk_pool (heap P) (next P) (delete (get_id (object x)) (table P)) (finished P ++ [p]) (workers P) (surroundings P)).
  { unfold store_done. cbn [finished erase]. rewrite length_app. cbn [length].
    destruct (Nat.ltb_spec DONE_SESSION_LIST_SIZE (length (finished P) + 1)); [lia|done]. }
  assert (E2 : execute (Step t') P1 = Threads.remove t' p P1).
  { assert (Hw : workers P1 !! t' = Some (Removing p)).
    { unfold P1. rewrite Ed. cbn [workers goto]. by rewrite list_lookup_insert_ne. }
    unfold Threads.execute, Threads.step. by rewrite Hw. }
  rewrite E2. unfold Threads.remove, use, P1. rewrite Ed. cbn [heap table goto]. rewrite Hx. cbv zeta. by rewrite lookup_delete_eq.
Qed.

(** ** Events are finished. *)

(** The steps a worker has left. *)
Definition rank (c : position) : nat :=
  match c with
  | Waiting => 0 | Removing _ => 1 | Checking _ => 2 | Releasing _ => 3 | Processing _ _ => 4
  | Acquiring _ _ => 5 | Creating _ => 6 | Looking _ => 7
  end.
Definition total P : nat := sum_list_with rank (workers P).

Lemma sum_insert {A} (f : A -> nat) (l : list A) i x y : l !! i = Some x ->
  sum_list_with f (<[i:=y]> l) + f x = sum_list_with f l + f y.
Proof.
  revert i. induction l as [|z l IH]; intros [|i]; [done|done|intros [= ->]; cbn; lia|]. intros Hi. specialize (IH i Hi).
  change (sum_list_with f (z :: <[i:=y]> l) + f x = sum_list_with f (z :: l) + f y). cbn [sum_list_with]. lia.
Qed.

Lemma step_rank t P P' : worker_step t P P' -> total P' < total P.
Proof.
  assert (Hgo : forall c c' P1, workers P !! t = Some c -> workers P1 = workers P -> rank c' < rank c -> total (goto t c' P1) < total P).
  { intros c c' P1 Hc Hw Hr. unfold total. cbn [workers goto]. rewrite Hw. pose proof (sum_insert rank (workers P) t c c' Hc). lia. }
  intros Hs. destruct Hs as [ev w Ht Hn|ev i p Ht Hn Hi Hp|ev Ht Hn Hi Hc|ev m w Ht Hc|ev s m w Ht Hc|p ev x Ht Hx Hl
    |p ev x s w Ht Hx Hs|p ev x s w e Ht Hx Hs|p x Ht Hx|p x Ht Hx|p x q y Ht Hx Hq Hy].
  all: eapply Hgo; [exact Ht|try done|cbn; try lia].
  - destruct (is_final _); cbn; lia.
  - by destruct (store_done_same q (erase (get_id (object x)) P)) as (_ & _ & ->).
Qed.

(** In the run [l] from [P0], [t] has left the handler of [p] by an exception. *)
Definition threw P0 (l : list move) t p : Prop :=
  exists l1 l2 P1, l = l1 ++ Step t :: l2 /\ run l1 P0 = Normal P1 /\ throws_at P1 t p.

Lemma threw_app P0 l l' t p : threw P0 l t p -> threw P0 (l ++ l') t p.
Proof. intros (l1 & l2 & P1 & -> & H1' & H2'). exists l1, (l2 ++ l'), P1. split_and!; [by rewrite <- app_assoc|done|done]. Qed.

(** A lock that is held belongs to a worker inside the handler, or to one that
    threw. *)
Definition owned P0 l P : Prop := forall p x t, heap P !! p = Some x -> lock_ x = Some t -> holds P t p \/ threw P0 l t p.

Lemma owned_goto P0 l a P t c0 c P1 : workers P !! t = Some c0 -> workers P1 = workers P -> owned P0 l P ->
  (forall p x u, heap P1 !! p = Some x -> lock_ x = Some u ->
     (u = t /\ inside c p) \/ (exists y, heap P !! p = Some y /\ lock_ y = Some u /\ (inside c0 p -> inside c p \/ threw P0 (l ++ [a]) t p))) ->
  owned P0 (l ++ [a]) (goto t c P1).
Proof.
  intros Ht Hw Ho Hheap p x u Hx Hl. assert (Hlt : t < length (workers P)) by by eapply lookup_lt_Some.
  assert (Hat : workers (goto t c P1) !! t = Some c) by (cbn; rewrite Hw; by apply list_lookup_insert_eq).
  destruct (Hheap p x u Hx Hl) as [[-> Hi]|(y & Hy & Hly & Hin)]; [left; by exists c|].
  destruct (Ho p y u Hy Hly) as [(c1 & Hc & Hi)|Hth]; [|right; by apply threw_app].
  destruct (decide (u = t)) as [->|Hne].
  - rewrite Ht in Hc. injection Hc as <-. destruct (Hin Hi); [left; by exists c|by right].
  - left. exists c1. split; [|done]. cbn. rewrite Hw. by rewrite list_lookup_insert_ne.
Qed.

Lemma owned_step P0 l P t P' : run l P0 = Normal P -> owned P0 l P -> worker_step t P P' -> owned P0 (l ++ [Step t]) P'.
Proof.
  intros Hr Ho Hs. destruct Hs as [ev w Hc Hne|ev i q Hc Hne Hi Hq|ev Hc Hne Hi Hcr|ev m w Hc Hcr|ev s m w Hc Hcr|q ev x Hc Hx Hl
    |q ev x s w Hc Hx Hs|q ev x s w e Hc Hx Hs|q x Hc Hx|q x Hc Hx|q x r y Hc Hx Hq Hy].
  all: eapply owned_goto; [exact Hc|try done|exact Ho|]; cbn [heap set_surroundings set_shared file_new].
  all: try (intros p z u Hz Hu; right; exists z; split_and!; [done|done|by intros []]).
  - intros p z u Hz Hu. apply lookup_insert_Some in Hz as [[_ <-]|[_ Hz]]; [done|]. right. exists z. split_and!; [done|done|by intros []].
  - intros p z u Hz Hu. apply lookup_insert_Some in Hz as [[<- <-]|[_ Hz]]; [left; cbn in Hu; by injection Hu as <-|].
    right. exists z. split_and!; [done|done|by intros []].
  - intros p z u Hz Hu. apply lookup_insert_Some in Hz as [[<- <-]|[_ Hz]]; right; [exists x|exists z]; split_and!; try done; by left.
  - intros p z u Hz Hu. assert (Hth : inside (Processing q ev) p -> threw P0 (l ++ [Step t]) t p).
    { cbn. intros <-. exists l, [], P. split_and!; [done|done|]. by exists ev, x, e, s, w. }
    apply lookup_insert_Some in Hz as [[<- <-]|[_ Hz]]; right; [exists x|exists z]; split_and!; try done; intros Hi; right; by apply Hth.
  - intros p z u Hz Hu. apply lookup_insert_Some in Hz as [[<- <-]|[Hpq Hz]]; [done|]. right. exists z. split_and!; [done|done|by intros ?].
  - by destruct (store_done_same r (erase (get_id (object x)) P)) as (_ & _ & ->).
  - intros p z u Hz Hu. apply store_done_heap in Hz. right. exists z. split_and!; [done|done|by intros []].
Qed.

Lemma execute_owned P0 l P a P' : run l P0 = Normal P -> owned P0 l P -> execute a P = Normal P' -> owned P0 (l ++ [a]) P'.
Proof.
  intros Hr Ho E. apply execute_cases in E as [->|[(t & ev & Hw & ->)|(t & -> & Hs)]]; [| |by eapply owned_step].
  - intros p x t Hx Hl. destruct (Ho p x t Hx Hl); [by left|right; by apply threw_app].
  - eapply owned_goto; [exact Hw|done|exact Ho|]. intros p z u Hz Hu. right. exists z. split_and!; [done|done|by intros []].
Qed.

Lemma run_snoc l a P0 P P' : run l P0 = Normal P -> execute a P = Normal P' -> run (l ++ [a]) P0 = Normal P'.
Proof. intros Hr E. rewrite run_app, Hr. cbn. by rewrite E. Qed.

Lemma run_owned P0 l l' P P' : run l P0 = Normal P -> owned P0 l P -> run l' P = Normal P' -> owned P0 (l ++ l') P'.
Proof.
  revert l P. induction l' as [|a l' IH]; intros l P Hr Ho; cbn; [intros [= <-]; by rewrite app_nil_r|].
  destruct (execute a P) as [P1|e|f] eqn:Ea; [|done..]. intros Hr'. rewrite cons_middle, app_assoc.
  apply (IH (l ++ [a]) P1); [by eapply run_snoc|by eapply execute_owned|done].
Qed.

Lemma step_moves t P c : workers P !! t = Some c -> c <> Waiting -> (forall p ev, c <> Acquiring p ev) -> is_Some (step t P).
Proof. intros Ht Hw Ha. unfold Threads.step. rewrite Ht. destruct c as [| | |p ev| | | |]; [done| | |by destruct (Ha p ev eq_refl)|..]; by eexists. Qed.

(** Nobody can go on: every worker waits for a message, or for a lock a
    handler that threw has kept. *)
Definition at_rest P0 l P : Prop := forall t c, workers P !! t = Some c ->
  c = Waiting \/ exists p ev x u, c = Acquiring p ev /\ heap P !! p = Some x /\ lock_ x = Some u /\ threw P0 l u p.

Lemma progress P0 l P : owned P0 l P -> (exists t, is_Some (step t P)) \/ at_rest P0 l P.
Proof.
  intros Ho. destruct (decide (Exists (fun t => is_Some (step t P)) (seq 0 (length (workers P))))) as [Hex|Hno].
  { left. apply Exists_exists in Hex as (t & _ & Ht). by exists t. }
  right. apply not_Exists_Forall in Hno; [|apply _]. rewrite Forall_forall in Hno. intros t c Ht.
  assert (Hn : forall u c, workers P !! u = Some c -> ~ is_Some (step u P)).
  { intros u c' Hu. apply Hno, elem_of_seq. apply lookup_lt_Some in Hu. lia. }
  destruct c as [| | |p ev| | | |]; [by left| | | | | | |].
  all: try (destruct (Hn t _ Ht); by eapply step_moves).
  right. destruct (heap P !! p) as [x|] eqn:Ex; [|destruct (Hn t _ Ht); unfold Threads.step; rewrite Ht, Ex; by eexists].
  destruct (lock_ x) as [u|] eqn:El; [|destruct (Hn t _ Ht); unfold Threads.step; rewrite Ht, Ex; unfold acquire; rewrite El; by eexists].
  destruct (Ho p x u Ex El) as [(c & Hc & Hi)|Hth]; [|by exists p, ev, x, u].
  destruct (Hn u _ Hc). eapply step_moves; [done|by destruct c|]. intros q ev' ->. done.
Qed.

(** What stops the daemon in a step. *)
Definition aims (c : position) p : Prop :=
  match c with Acquiring q _ | Processing q _ | Releasing q | Checking q | Removing q => q = p | _ => False end.

Inductive worker_stops t P : fault -> Prop :=
  | wx_look ev f : workers P !! t = Some (Looking ev) -> look send_receive_answer t ev P = Faulted f -> worker_stops t P f
  | wx_create ev f : workers P !! t = Some (Creating ev) -> create config fuel garbage t ev P = Faulted f -> worker_stops t P f
  | wx_handle p ev x f s w : workers P !! t = Some (Processing p ev) -> heap P !! p = Some x ->
      session_process (object x) (snd ev) (surroundings P) = (Faulted f, (s, w)) -> worker_stops t P f
  | wx_freed c p : workers P !! t = Some c -> aims c p -> heap P !! p = None -> worker_stops t P Use_after_free
  | wx_removed p x : workers P !! t = Some (Removing p) -> heap P !! p = Some x -> table P !! get_id (object x) = None ->
      worker_stops t P Null_dereference
  | wx_replaced p x q : workers P !! t = Some (Removing p) -> heap P !! p = Some x -> table P !! get_id (object x) = Some q ->
      heap P !! q = None -> worker_stops t P Use_after_free.

Lemma use_faulted {A} p P (k : shared_session -> outcome A) f :
  use p P k = Faulted f -> (heap P !! p = None /\ f = Use_after_free) \/ exists x, heap P !! p = Some x /\ k x = Faulted f.
Proof. unfold use. destruct (heap P !! p) as [x|]; [right; by exists x|]. intros [= <-]. by left. Qed.

Lemma step_stops t P f : step t P = Some (Faulted f) -> worker_stops t P f.
Proof.
  unfold Threads.step. destruct (workers P !! t) as [[|ev|ev|p ev|p ev|p|p|p]|] eqn:Ht; [done|..|done].
  - intros [= E]. by eapply wx_look.
  - intros [= E]. by eapply wx_create.
  - destruct (heap P !! p) as [x|] eqn:Ep; [by destruct (acquire t (lock_ x))|]. intros [= <-]. by eapply (wx_freed t P _ p).
  - intros [= E]. unfold handle in E. apply use_faulted in E as [[Ep ->]|(x & Ep & E)]; [by eapply (wx_freed t P _ p)|].
    destruct (session_process _ _ _) as [[[]|e|f'] [s w]] eqn:Es; [done|done|]. injection E as ->. by eapply wx_handle.
  - intros [= E]. apply use_faulted in E as [[Ep ->]|(x & Ep & E)]; [by eapply (wx_freed t P _ p)|done].
  - intros [= E]. apply use_faulted in E as [[Ep ->]|(x & Ep & E)]; [by eapply (wx_freed t P _ p)|done].
  - intros [= E]. unfold remove in E. apply use_faulted in E as [[Ep ->]|(x & Ep & E)]; [by eapply (wx_freed t P _ p)|].
    cbv zeta in E. destruct (table P !! get_id (object x)) as [q|] eqn:Eq; [|injection E as <-; by eapply wx_removed].
    apply use_faulted in E as [[Ey ->]|(y & _ & E)]; [by eapply wx_replaced|done].
Qed.

Lemma step_not_raised t P e : step t P <> Some (Raised e).
Proof.
  assert (Hu : forall p (k : shared_session -> outcome (pool (W := W))), (forall x, k x <> Raised e) -> use p P k <> Raised e).
  { intros p k Hk. unfold use. by destruct (heap P !! p). }
  assert (Hi : forall A (m : M W A), in_world m P <> Raised e) by (intros A m; unfold in_world; by destruct (m _) as [[]]).
  unfold Threads.step. destruct (workers P !! t) as [[|[id evt]|ev|p ev|p ev|p|p|p]|]; try done; intros [= E]; revert E.
  - assert (Hgo : (if is_invalid_anslp_msg evt then
        obind (of_pointer (ev_msg evt)) (fun n =>
        obind (in_world (send_message (create_response sc_protocol_error 0 n)) P) (fun P => Normal (goto t Waiting P)))
      else
        match (match id with Some i => table P !! i | None => None end) with
        | Some p => Normal (goto t (Acquiring p (id, evt)) P)
        | None => Normal (goto t (Creating (id, evt)) P)
        end) <> Raised e).
    { destruct (is_invalid_anslp_msg evt); [|by destruct (match id with Some i => table P !! i | None => None end)].
      destruct (ev_msg evt) as [n|]; [|done]. cbn [of_pointer obind]. pose proof (Hi _ (send_message (create_response sc_protocol_error 0 n))).
      destruct (in_world _ P); cbn [obind]; [done|congruence|done]. }
    unfold look. destruct evt; try exact Hgo; [|by destruct id].
    destruct id as [i|]; [|done]. match goal with |- obind (in_world ?m P) _ = _ -> _ => pose proof (Hi _ m); destruct (in_world m P) end; cbn [obind]; [done|congruence|done].
  - unfold create. by destruct (create_session _ _ _ _ _ _) as [[[s|]|e'|f] [m w]].
  - destruct (heap P !! p); [|done]. by destruct (acquire _ _).
  - apply Hu. intros x. by destruct (session_process _ _ _) as [[[]|e'|f] [s w]].
  - by apply Hu.
  - by apply Hu.
  - apply Hu. intros x. cbv zeta. destruct (table P !! _); [|done]. by apply Hu.
Qed.

Definition is_step (a : move) : Prop := match a with Step _ => True | Take _ _ => False end.

(** Where the steps [l'] lead after the run [l]. *)
Definition comes_to_rest P0 l P l' : Prop :=
  match run l' P with
  | Normal P' => at_rest P0 (l ++ l') P'
  | Raised _ => False
  | Faulted f => exists l1 l2 t P1, l' = l1 ++ Step t :: l2 /\ run l1 P = Normal P1 /\ worker_stops t P1 f
  end.

Lemma finishes P0 k l P : run l P0 = Normal P -> owned P0 l P -> total P <= k ->
  exists l', length l' <= total P /\ Forall is_step l' /\ comes_to_rest P0 l P l'.
Proof.
  revert l P. induction k as [|k IH]; intros l P Hr Ho Hk.
  all: destruct (progress P0 l P Ho) as [(t & o & Hs)|Hrest];
    [|exists []; split_and!; [cbn; lia|constructor|unfold comes_to_rest; cbn; by rewrite app_nil_r]].
  all: assert (Hex : execute (Step t) P = o) by (cbn; by rewrite Hs).
  all: destruct o as [P1|e|f]; [pose proof (step_rank _ _ _ (step_worker _ _ _ Hs)) as Hd; try lia|by apply step_not_raised in Hs|].
  1,3: assert (0 < total P); [|exists [Step t]; split_and!; [cbn; lia|repeat constructor|unfold comes_to_rest; cbn [Threads.run]; rewrite Hex; cbn;
    exists [], [], t, P; split_and!; [done|done|by apply step_stops]]].
  1,2: unfold Threads.step in Hs; destruct (workers P !! t) as [c|] eqn:Hc; [|done];
    unfold total; pose proof (sum_insert rank _ t c Waiting Hc) as Hi; cbn in Hi; destruct c; cbn in *; lia || done.
  destruct (IH (l ++ [Step t]) P1) as (l' & Hl & Hall & Hrun); [by eapply run_snoc|by eapply execute_owned|lia|].
  exists (Step t :: l'). split_and!; [cbn; lia|by constructor|]. unfold comes_to_rest in *. cbn [Threads.run]. rewrite Hex. cbn [obind].
  destruct (run l' P1) as [P2|e|f]; [|done|].
  - by rewrite cons_middle, app_assoc.
  - destruct Hrun as (l1 & l2 & u & P2 & -> & Hr' & Hst). exists (Step t :: l1), l2, u, P2. split_and!; [done| |done].
    cbn [Threads.run]. by rewrite Hex.
Qed.

Lemma start_owned n w : owned (start n w) [] (start n w).
Proof. intros p x t Hx. done. Qed.

(** C36. No deadlock but by an exception.  From wherever the workers are, the
    steps they have left - at most seven for each - can be made until none of
    them can go on, and then each of them waits for a message again, or for
    the lock of a session whose handler has thrown in some step before; so
    that without exceptions all of them wait for messages.  If the daemon
    stops on the way, it is because the dispatching of a message or a handler
    has a fault, or because a session is used that another worker has freed
    or removed. *)
Theorem workers_finish (n : nat) (w : W) (l : list move) (P : pool) (Hr : run l (start n w) = Normal P) :
  exists l', length l' <= 7 * length (workers P) /\ Forall is_step l' /\ comes_to_rest (start n w) l P l'.
Proof.
  pose proof (run_owned _ [] l _ P eq_refl (start_owned n w) Hr) as Ho.
  destruct (finishes (start n w) (total P) l P Hr Ho) as (l' & Hl & Hs & Hrest); [done|]. exists l'. split_and!; [|done|done].
  etransitivity; [exact Hl|]. unfold total. induction (workers P) as [|c cs IH]; cbn; [lia|]. destruct c; cbn; lia.
Qed.
End Locks.
