(* ===== verification/WorkersSpec.v ===== *)
(** * Workers on different sessions refine the node

    [DispatcherSpec] shows what a node guarantees when one event is processed
    after the other.  Here any number of workers process events at the same
    time: as long as no two of them are concerned with one session ID, what
    they do together is a path of the same abstract node, one step for each
    event, in the order in which the handlers ran. *)
From S2P Require Import NiSession NrSession NfSession NiSpec NrSpec NfSpec.
From S2P Require Import Prelude Outcome StdMap External Objects Store Messages SessionId NtlpMsg AuctionRule Events Session SessionManager Dispatcher DispatcherSpec Threads Locks.
From stdpp Require Import gmap.

Section WorkersSpec.
Context `{Libs} `{!LibsLaws} {W : Type} `{!Dispatcher W} `{!Platform W} `{!Effects W}.
Context (send_receive_answer : session_id -> mri -> M W unit).
Context (Hanswer : forall sid route, does trace (send_receive_answer sid route) (fun _ => [])).
Variables (config : anslp_config) (fuel : nat) (garbage : Z).
Context (Hc : config_ok config).

Abbreviation incoming := (option session_id * event)%type.
Abbreviation step := (Threads.step send_receive_answer config fuel garbage).
Abbreviation execute := (Threads.execute send_receive_answer config fuel garbage).
Abbreviation run := (Threads.run send_receive_answer config fuel garbage).
Abbreviation worker_step := (Locks.worker_step config fuel garbage).
Implicit Types (P : pool (W := W)) (t : thread) (p q : pointer) (ev : incoming) (c : position) (x : shared_session).

(** ** Which session a worker is concerned with. *)
Definition at_session c p : Prop :=
  match c with
  | Acquiring q _ | Processing q _ | Releasing q | Checking q | Removing q => q = p
  | _ => False
  end.
Definition event_of c : option incoming :=
  match c with Looking ev | Creating ev | Acquiring _ ev | Processing _ ev => Some ev | _ => None end.

Definition concerned P c (i : session_id) : Prop :=
  (exists ev, event_of c = Some ev /\ fst ev = Some i)
  \/ (exists p x, at_session c p /\ heap P !! p = Some x /\ get_id (object x) = i).

Definition disjoint P : Prop := forall t t' c c' i,
  workers P !! t = Some c -> workers P !! t' = Some c' -> concerned P c i -> concerned P c' i -> t = t'.

(** ** The invariant. *)
Definition serves P ev x : Prop :=
  event_valid (snd ev) /\ session_wf (object x)
  /\ ((is_final (object x) = false /\ fst ev = Some (get_id (object x)))
      \/ (opened config garbage (fst ev) (snd ev) (object x) /\ is_final (object x) = true
          /\ forall j, fst ev = Some j -> j = get_id (object x) \/ table P !! j = None)).

(** What holds of a worker, by its position. *)
Definition position_ok P t c p x : Prop :=
  match c with
  | Acquiring _ ev => lock_ x = None /\ serves P ev x
  | Processing _ ev => lock_ x = Some t /\ serves P ev x
  | Releasing _ => lock_ x = Some t /\ session_wf (object x)
  | Checking _ => lock_ x = None /\ session_wf (object x)
  | _ => True
  end.

Definition own P t c : Prop :=
  (forall p, at_session c p -> exists x, heap P !! p = Some x /\ table P !! get_id (object x) = Some p /\ position_ok P t c p x)
  /\ match c with
     | Looking ev => event_valid (snd ev)
     | Creating ev => event_valid (snd ev) /\ (forall i, fst ev = Some i -> table P !! i = None)
         /\ (is_anslp_create (snd ev) = true -> fst ev <> None)
     | _ => True
     end.

Record pool_wf P : Prop := {
  pw_locks : locks_ok P;
  pw_finished : Forall (fun q => q < next P) (finished P);
  pw_table : forall i p, table P !! i = Some p ->
    exists x, heap P !! p = Some x /\ get_id (object x) = i /\ ~ (p ∈ finished P)
      /\ ((session_wf (object x) /\ is_final (object x) = false /\ lock_ x = None)
          \/ exists t c, workers P !! t = Some c /\ at_session c p);
  pw_own : forall t c, workers P !! t = Some c -> own P t c }.

(** ** What a pool shows: the sessions that are neither final - just opened,
    or done - nor about to be removed. *)
Definition removing P p : bool :=
  existsb (fun c => match c with Removing q => (q =? p)%nat | _ => false end) (workers P).
Definition shown P p : option automaton :=
  x ← heap P !! p; if is_final (object x) || removing P p then None else Some (automaton_of (object x)).
Definition view P : gmap session_id automaton := omap (shown P) (table P).

Lemma removing_iff P p : removing P p = true <-> exists t, workers P !! t = Some (Removing p).
Proof.
  unfold removing. rewrite existsb_exists. split.
  - intros (c & Hin & Hq). apply list_elem_of_In, list_elem_of_lookup in Hin as [t Ht].
    destruct c; try done. apply Nat.eqb_eq in Hq as ->. by exists t.
  - intros [t Ht]. exists (Removing p). split; [|apply Nat.eqb_refl]. apply list_elem_of_In. by apply list_elem_of_lookup_2 in Ht.
Qed.

Lemma lookup_view P i : view P !! i = table P !! i ≫= shown P.
Proof. apply lookup_omap. Qed.

Lemma view_same P P' : table P' = table P -> (forall i p, table P !! i = Some p -> shown P' p = shown P p) -> view P' = view P.
Proof.
  intros Ht Hs. apply map_eq. intros i. rewrite !lookup_view, Ht. destruct (table P !! i) as [p|] eqn:E; [|done]. by apply (Hs i).
Qed.

Lemma at_concerned P t c p : own P t c -> at_session c p ->
  exists x, heap P !! p = Some x /\ table P !! get_id (object x) = Some p /\ concerned P c (get_id (object x)).
Proof. intros [Ho _] Ha. destruct (Ho p Ha) as (x & Hx & Ht & _). exists x. split_and!; [done..|]. right. by exists p, x. Qed.

(** Two workers at one session are one. *)
Lemma at_unique P t t' c c' p : pool_wf P -> disjoint P ->
  workers P !! t = Some c -> workers P !! t' = Some c' -> at_session c p -> at_session c' p -> t = t'.
Proof.
  intros Hwf Hd Ht Ht' Ha Ha'. destruct (at_concerned P t c p) as (x & Hx & _ & Hcn); [by apply (pw_own _ Hwf)|done|].
  eapply (Hd t t' c c'); [done..|]. right. by exists p, x.
Qed.

(** ** Steps that leave the table. *)
Lemma pool_wf_keep t c0 c' P P' :
  pool_wf P -> disjoint P -> workers P !! t = Some c0 -> locks_ok P' ->
  workers P' = <[t := c']> (workers P) -> table P' = table P -> finished P' = finished P -> next P' = next P ->
  (forall q, ~ at_session c0 q -> heap P' !! q = heap P !! q) ->
  (forall q x, at_session c0 q -> heap P !! q = Some x -> exists x', heap P' !! q = Some x' /\ get_id (object x') = get_id (object x)) ->
  (forall q x', at_session c0 q -> ~ at_session c' q -> heap P' !! q = Some x' ->
     session_wf (object x') /\ is_final (object x') = false /\ lock_ x' = None) ->
  own P' t c' -> pool_wf P'.
Proof.
  intros Hwf Hd Ht Hl Hw Htab Hfin Hnext Hother Hmine Hleft Hown.
  assert (Hlt : t < length (workers P)) by by eapply lookup_lt_Some.
  assert (Hin : forall q, Decision (at_session c0 q)) by (intros q; destruct c0; cbn; apply _).
  split; [done|rewrite Hfin, Hnext; apply Hwf| |].
  - intros i p Hi. rewrite Htab in Hi. destruct (pw_table _ Hwf i p Hi) as (x & Hx & Hid & Hnf & Hs). rewrite Hfin.
    destruct (Hin p) as [Ha|Ha].
    + destruct (Hmine p x Ha Hx) as (x' & Hx' & Hid'). exists x'. split_and!; [done|congruence|done|].
      assert (Hdec : Decision (at_session c' p)) by (destruct c'; cbn; apply _). destruct Hdec as [Ha'|Ha'].
      * right. exists t, c'. split; [|done]. rewrite Hw. by apply list_lookup_insert_eq.
      * left. by eapply Hleft.
    + exists x. rewrite Hother by done. split_and!; [done|done|done|]. destruct Hs as [Hs|(t1 & c1 & Ht1 & Ha1)]; [by left|].
      right. exists t1, c1. split; [|done]. rewrite Hw, list_lookup_insert_ne; [done|]. intros <-. congruence.
  - intros t1 c1 Ht1. rewrite Hw in Ht1. apply list_lookup_insert_Some in Ht1 as [(<- & <- & _)|[Hne Ht1]]; [done|].
    destruct (pw_own _ Hwf t1 c1 Ht1) as [Ho1 Ho2]. unfold own. rewrite Htab. split; [|done].
    intros p Ha. destruct (Ho1 p Ha) as (x & Hx & Hi & Hpos). exists x. rewrite Hother.
    + split_and!; [done|done|]. unfold position_ok, serves in *. by rewrite Htab.
    + intros Ha0. apply Hne. by eapply (at_unique P t t1 c0 c1 p).
Qed.

(** ** What a step shows. *)
Lemma removing_other t c0 c' P P' p : workers P !! t = Some c0 -> workers P' = <[t := c']> (workers P) ->
  c0 <> Removing p -> c' <> Removing p -> removing P' p = removing P p.
Proof.
  intros Ht Hw Hr0 Hr1. apply eq_true_iff_eq. rewrite !removing_iff, Hw. split; intros [t1 Ht1].
  - apply list_lookup_insert_Some in Ht1 as [(_ & -> & _)|[_ Ht1]]; [done|by exists t1].
  - exists t1. rewrite list_lookup_insert_ne; [done|]. intros ->. congruence.
Qed.

Lemma shown_same P P' p : removing P' p = removing P p -> object <$> heap P' !! p = object <$> heap P !! p -> shown P' p = shown P p.
Proof.
  intros Hr Hh. unfold shown. rewrite Hr. destruct (heap P !! p) as [x|], (heap P' !! p) as [x'|]; cbn in *; try done.
  by injection Hh as ->.
Qed.

(** A worker that is at a session and not removing it: nobody is. *)
Lemma not_removing P t c p : pool_wf P -> disjoint P -> workers P !! t = Some c -> at_session c p -> (forall q, c <> Removing q) ->
  removing P p = false.
Proof.
  intros Hwf Hd Ht Ha Hn. destruct (removing P p) eqn:E; [|done]. apply removing_iff in E as [t' Ht'].
  assert (t = t') as <- by by eapply (at_unique P t t' c (Removing p) p). rewrite Ht in Ht'. injection Ht' as ->. by destruct (Hn p).
Qed.

(** The view after the object at [p] changed, and perhaps who removes it. *)
Lemma view_update P P' i p : pool_wf P -> table P' = table P -> table P !! i = Some p ->
  (forall q, q <> p -> heap P' !! q = heap P !! q) -> (forall q, q <> p -> removing P' q = removing P q) ->
  view P' = match shown P' p with Some a => <[i := a]> (view P) | None => delete i (view P) end.
Proof.
  intros Hwf Ht Hi Hh Hr. apply map_eq. intros j. rewrite lookup_view, Ht. destruct (decide (j = i)) as [->|Hne].
  - rewrite Hi. cbn. destruct (shown P' p); [by rewrite lookup_insert_eq|by rewrite lookup_delete_eq].
  - assert (E : table P !! j ≫= shown P' = view P !! j).
    { rewrite lookup_view. destruct (table P !! j) as [q|] eqn:Ej; [|done]. cbn.
      destruct (pw_table _ Hwf _ _ Hi) as (x & Hx & Hid & _). destruct (pw_table _ Hwf _ _ Ej) as (y & Hy & Hid' & _).
      assert (q <> p) by (intros ->; congruence). apply shown_same; [by apply Hr|by rewrite Hh]. }
    rewrite E. destruct (shown P' p); [by rewrite lookup_insert_ne|by rewrite lookup_delete_ne].
Qed.

(** The event a step deals with: the one the handler was given, or one that
    needs no session or belongs to none. *)
Definition handled t P : option incoming :=
  match workers P !! t with
  | Some (Looking ev) => if needs_session (snd ev) then None else Some ev
  | Some (Creating ev) => if is_api_create (snd ev) || is_anslp_create (snd ev) then None else Some ev
  | Some (Processing _ ev) => Some ev
  | _ => None
  end.

Ltac keep t c0 := eapply (pool_wf_keep t c0); [done|done|eassumption|done|done|done|done|done|done|intros ? ? [] ?|intros ? ? []|].

Definition advance t P P' : Prop :=
  match handled t P with
  | Some ev => node_step config (view P) ev (view P')
  | None => view P' = view P
  end.

(** Positions without a session before and after: nothing is shown. *)
Lemma idle_view t c0 c' P P' : workers P !! t = Some c0 -> workers P' = <[t := c']> (workers P) -> table P' = table P -> heap P' = heap P ->
  (forall q, c0 <> Removing q) -> (forall q, c' <> Removing q) -> view P' = view P.
Proof.
  intros Ht Hw Htab Hh Hr0 Hr1. apply view_same; [done|]. intros i p _. apply shown_same; [|by rewrite Hh]. by eapply removing_other.
Qed.

Lemma look_ok t P P' ev : pool_wf P -> disjoint P -> workers P !! t = Some (Looking ev) -> worker_step t P P' ->
  pool_wf P' /\ advance t P P'.
Proof.
  intros Hwf Hd Ht Hs. pose proof (locks_ok_step config fuel garbage t P P' (pw_locks _ Hwf) Hs) as Hl. unfold advance, handled. rewrite Ht.
  destruct (pw_own _ Hwf t _ Ht) as [_ Hv]. cbn in Hv.
  inversion Hs as [ev' w Hc1 Hn|ev' i p Hc1 Hn Hi Hp|ev' Hc1 Hn Hi Hcr|? ? ? Hc1|? ? ? ? Hc1|? ? ? Hc1|? ? ? ? ? Hc1|? ? ? ? ? ? Hc1|? ? Hc1
    |? ? Hc1|? ? ? ? Hc1]; subst; rewrite Ht in Hc1; try discriminate; injection Hc1 as <-; rewrite Hn.
  - split; [|assert (E : view (goto t Waiting (set_surroundings w P)) = view P) by (by eapply idle_view); rewrite E; by apply node_answers].
    keep t (Looking ev). by split.
  - split; [|by eapply idle_view]. keep t (Looking ev). split; [|done]. intros q Hq. cbn in Hq. subst q.
    destruct (pw_table _ Hwf i p Hp) as (x & Hx & Hid & _ & [(Hw & Hf & Hlk)|(t1 & c1 & Ht1 & Ha1)]).
    + exists x. rewrite Hid. split_and!; [done|done|]. split; [done|]. split_and!; [done|done|]. left. by rewrite Hid.
    + assert (t = t1) as <-; [|rewrite Ht in Ht1; by injection Ht1 as <-]. eapply (Hd t t1 _ c1 i); [done|done| |].
      * left. by exists ev.
      * right. by exists p, x.
  - split; [|by eapply idle_view]. keep t (Looking ev). by split.
Qed.

(** *** Sessions are opened. *)
Lemma manager_lookup P i p : pool_wf P -> table P !! i = Some p -> is_Some (session_table (manager P) !! i).
Proof.
  intros Hwf Hi. destruct (pw_table _ Hwf i p Hi) as (x & Hx & _). exists (object x). cbn. rewrite lookup_omap, Hi. cbn. by rewrite Hx.
Qed.

Lemma create_session_returns P ev o m w : (forall i, fst ev = Some i -> table P !! i = None) ->
  create_session config fuel garbage (fst ev) (snd ev) (manager P, surroundings P) = (o, (m, w)) ->
  match o with
  | Normal None => is_api_create (snd ev) = false /\ is_anslp_create (snd ev) = false
  | Normal (Some s) => opened config garbage (fst ev) (snd ev) s /\ session_table (manager P) !! get_id s = None
  | Raised _ => False
  | Faulted f => (f = Loop_bound /\ is_api_create (snd ev) = true) \/ (f = Null_dereference /\ is_anslp_create (snd ev) = true /\ fst ev = None)
  end.
Proof.
  intros Hn E. enough (Hwp : wp (create_session config fuel garbage (fst ev) (snd ev)) (fun o _ => match o with
    | Normal None => is_api_create (snd ev) = false /\ is_anslp_create (snd ev) = false
    | Normal (Some s) => opened config garbage (fst ev) (snd ev) s /\ session_table (manager P) !! get_id s = None
    | Raised _ => False
    | Faulted f => (f = Loop_bound /\ is_api_create (snd ev) = true) \/ (f = Null_dereference /\ is_anslp_create (snd ev) = true /\ fst ev = None)
    end) (manager P, surroundings P)) by (unfold wp in Hwp; by rewrite E in Hwp).
  apply wp_create_session; auto. intros i Hi. cbn. by rewrite lookup_omap, (Hn i Hi).
Qed.

Lemma opened_final id evt s : opened config garbage id evt s -> session_wf s /\ is_final s = true /\ opens config (id, evt) (get_id s) (automaton_of s).
Proof.
  intros Hop. destruct (opened_wf config garbage id evt s Hc Hop) as [Hw Ho]. split_and!; [done| |done]. apply final_closed.
  unfold opens in Ho. destruct (is_api_create (snd (id, evt))); [by rewrite Ho|]. destruct Ho as (_ & _ & ->).
  by destruct (is_for_this_node _ || nf_is_edge config).
Qed.

Lemma create_ok t P P' ev : pool_wf P -> disjoint P -> disjoint P' -> workers P !! t = Some (Creating ev) -> worker_step t P P' ->
  pool_wf P' /\ advance t P P'.
Proof.
  intros Hwf Hd Hd' Ht Hs. pose proof (locks_ok_step config fuel garbage t P P' (pw_locks _ Hwf) Hs) as Hl.
  unfold advance, handled. rewrite Ht. destruct (pw_own _ Hwf t _ Ht) as [_ (Hv & Hn & Hid)].
  inversion Hs as [? ? Hc1|? ? ? Hc1|? Hc1|ev' m w Hc1 Hcr|ev' s m w Hc1 Hcr|? ? ? Hc1|? ? ? ? ? Hc1|? ? ? ? ? ? Hc1|? ? Hc1
    |? ? Hc1|? ? ? ? Hc1]; subst; rewrite Ht in Hc1; try discriminate; injection Hc1 as <-.
  - destruct (create_session_returns P ev _ _ _ Hn Hcr) as [Ha Hb]. rewrite Ha, Hb. cbn [orb]. split; [keep t (Creating ev); by split|].
    assert (E : view (goto t Waiting (set_surroundings w P)) = view P) by (by eapply idle_view). rewrite E.
    apply node_discards; [|done|done]. intros i Hi. rewrite lookup_view. by rewrite (Hn i Hi).
  - destruct (create_session_returns P ev _ _ _ Hn Hcr) as [Hop Hfr]. destruct (opened_final _ _ _ Hop) as (Hsw & Hfin & _).
    assert (Hab : is_api_create (snd ev) || is_anslp_create (snd ev) = true).
    { destruct Hop as (i & k & _ & Hop). destruct (is_api_create (snd ev)); [done|]. by destruct Hop as [-> _]. }
    rewrite Hab. set (P' := goto t _ _) in *.
    assert (Hfree : table P !! get_id s = None).
    { destruct (table P !! get_id s) as [p|] eqn:E; [|done]. destruct (manager_lookup P _ p Hwf E) as [y Hy]. congruence. }
    assert (Hother : forall p x, heap P !! p = Some x -> heap P' !! p = Some x).
    { intros p x Hx. cbn. rewrite lookup_insert_ne; [done|]. apply (lo_next _ (pw_locks _ Hwf)) in Hx. lia. }
    assert (Hlt : t < length (workers P)) by by eapply lookup_lt_Some.
    assert (Hnew : workers P' !! t = Some (Acquiring (next P) ev)) by (cbn; by apply list_lookup_insert_eq).
    assert (Hmine : concerned P' (Acquiring (next P) ev) (get_id s)).
    { right. exists (next P), (mk_shared s None). split_and!; [done|cbn; apply lookup_insert_eq|done]. }
    assert (Helse : forall t1 c1 ev1, t <> t1 -> workers P !! t1 = Some c1 -> event_of c1 = Some ev1 -> fst ev1 <> Some (get_id s)).
    { intros t1 c1 ev1 Hne Ht1 He Hf. apply Hne. eapply (Hd' t t1 _ c1); [exact Hnew|cbn; by rewrite list_lookup_insert_ne|exact Hmine|].
      left. by exists ev1. }
    split.
    + split; [done|..].
      * eapply Forall_impl; [apply (pw_finished _ Hwf)|]. cbn. lia.
      * intros j q Hj. cbn -[get_id] in Hj. apply lookup_insert_Some in Hj as [[<- <-]|[Hne Hj]].
        { exists (mk_shared s None). split_and!; [cbn; apply lookup_insert_eq|done| |right; by exists t, (Acquiring (next P) ev)].
          intros Hin. pose proof (pw_finished _ Hwf) as Hfi. rewrite Forall_forall in Hfi. apply Hfi in Hin. lia. }
        destruct (pw_table _ Hwf j q Hj) as (x & Hx & Hidx & Hnf & Hset). exists x. split_and!; [by apply Hother|done|done|].
        destruct Hset as [?|(t1 & c1 & Ht1 & Ha1)]; [by left|]. right. exists t1, c1. split; [|done]. cbn.
        rewrite list_lookup_insert_ne; [done|]. intros <-. rewrite Ht in Ht1. by injection Ht1 as <-.
      * intros t1 c1 Ht1. cbn -[get_id] in Ht1. apply list_lookup_insert_Some in Ht1 as [(<- & <- & _)|[Hne Ht1]].
        { split; [|done]. intros p Hp. cbn in Hp. subst p. exists (mk_shared s None). cbn -[get_id].
          split_and!; [apply lookup_insert_eq|apply lookup_insert_eq|done|]. split_and!; [done|done|]. right. split_and!; [done|done|].
          intros j Hj. destruct (decide (j = get_id s)) as [->|Hnj]; [by left|right].
          change (<[get_id s:=next P]> (table P) !! j = None). rewrite lookup_insert_ne by done. by apply Hn. }
        destruct (pw_own _ Hwf t1 c1 Ht1) as [Ho1 Ho2].
        assert (Hnone : forall ev1 j, event_of c1 = Some ev1 -> fst ev1 = Some j -> table P !! j = None -> table P' !! j = None).
        { intros ev1 j He Hf Hj. cbn -[get_id]. rewrite lookup_insert_ne; [done|]. intros <-. by eapply Helse. }
        split.
        { intros p Ha. destruct (Ho1 p Ha) as (x & Hx & Hi & Hpos). exists x. split_and!; [by apply Hother| |].
          - cbn -[get_id]. rewrite lookup_insert_ne; [done|]. intros E. rewrite <- E in Hi. congruence.
          - destruct c1; cbn in Hpos |- *; try done.
            all: destruct Hpos as (Hlk & Hve & Hsw1 & Hcase); split; [done|split; [done|split; [done|]]].
            all: destruct Hcase as [?|(Ho & Hfi & Hj)]; [by left|right]; split_and!; [done|done|].
            all: intros j Hfj; destruct (Hj j Hfj); [by left|right; by eapply Hnone]. }
        { destruct c1; try done. destruct Ho2 as (? & Hno & ?). split_and!; [done| |done]. intros j Hj. by eapply Hnone; [|done|apply Hno]. }
    + apply map_eq. intros j. rewrite !lookup_view. cbn -[get_id]. destruct (decide (j = get_id s)) as [->|Hne].
      * rewrite lookup_insert_eq, Hfree. cbn -[get_id]. unfold shown. cbn -[get_id]. rewrite lookup_insert_eq. cbn -[get_id]. by rewrite Hfin.
      * rewrite lookup_insert_ne by done. destruct (table P !! j) as [q|] eqn:Ej; [|done]. cbn.
        destruct (pw_table _ Hwf j q Ej) as (x & Hx & _). apply shown_same; [by eapply removing_other|]. by rewrite Hx, (Hother q x Hx).
Qed.

(** *** A session is acquired, released, looked at. *)
Ltac keep_at t c0 x := eapply (pool_wf_keep t c0); [done|done|eassumption|done|done|done|done|done| | | |].

Lemma set_shared_other p x P q : q <> p -> heap (set_shared p x P) !! q = heap P !! q.
Proof. intros Hq. cbn. by rewrite lookup_insert_ne. Qed.

(** The worker's own object, with a lock or a state of its own. *)
Lemma set_shared_mine c0 p x y P : (forall q, at_session c0 q -> q = p) -> get_id (object y) = get_id (object x) -> heap P !! p = Some x ->
  (forall q, ~ at_session c0 q -> at_session c0 p -> heap (set_shared p y P) !! q = heap P !! q)
  /\ (forall q z, at_session c0 q -> heap P !! q = Some z ->
       exists z', heap (set_shared p y P) !! q = Some z' /\ get_id (object z') = get_id (object z)).
Proof.
  intros Hat Hid Hx. split.
  - intros q Hq Hp. apply set_shared_other. by intros ->.
  - intros q z Hq Hz. apply Hat in Hq as ->. exists y. split; [cbn; by rewrite lookup_insert_eq|]. congruence.
Qed.

Lemma removing_same P P' t c0 c' : workers P !! t = Some c0 -> workers P' = <[t := c']> (workers P) ->
  (forall q, c0 <> Removing q) -> (forall q, c' <> Removing q) -> forall q, removing P' q = removing P q.
Proof. intros Ht Hw Hr0 Hr1 q. by eapply removing_other. Qed.

Lemma session_step_ok t P P' c : pool_wf P -> disjoint P -> workers P !! t = Some c ->
  match c with Acquiring _ _ | Releasing _ | Checking _ => True | _ => False end -> worker_step t P P' ->
  pool_wf P' /\ advance t P P'.
Proof.
  intros Hwf Hd Ht Hcase Hs. pose proof (locks_ok_step config fuel garbage t P P' (pw_locks _ Hwf) Hs) as Hl.
  destruct (pw_own _ Hwf t _ Ht) as [Hown _].
  inversion Hs as [? ? Hc1|? ? ? Hc1|? Hc1|? ? ? Hc1|? ? ? ? Hc1|p ev x Hc1 Hx Hlk|? ? ? ? ? Hc1|? ? ? ? ? ? Hc1|p x Hc1 Hx
    |p x Hc1 Hx|? ? ? ? Hc1]; subst; rewrite Ht in Hc1; injection Hc1 as ->; try done.
  all: destruct (Hown p eq_refl) as (x' & Hx' & Hi & Hpos); rewrite Hx in Hx'; injection Hx' as <-; cbn in Hpos.
  all: unfold advance, handled; rewrite Ht.
  - destruct (set_shared_mine (Acquiring p ev) p x (mk_shared (object x) (Some t)) P) as [M1 M2]; [by intros q <-|done|done|].
    split.
    + keep_at t (Acquiring p ev) x; [by intros q Hq; apply M1|by intros q z; apply M2| |].
      * intros q x' Hq Hnq. by destruct Hnq.
      * split; [|done]. intros q <-. eexists. split; [cbn; apply lookup_insert_eq|]. split; [done|]. split; [done|].
        unfold serves in *. apply Hpos.
    + apply view_same; [done|]. intros i q Hq. apply shown_same; [by eapply removing_other|]. cbn.
      destruct (decide (q = p)) as [->|Hne]; [by rewrite lookup_insert_eq, Hx|by rewrite lookup_insert_ne].
  - destruct (set_shared_mine (Releasing p) p x (mk_shared (object x) None) P) as [M1 M2]; [by intros q <-|done|done|].
    split.
    + keep_at t (Releasing p) x; [by intros q Hq; apply M1|by intros q z; apply M2| |].
      * intros q x' Hq Hnq. by destruct Hnq.
      * split; [|done]. intros q <-. eexists. split; [cbn; apply lookup_insert_eq|]. split; [done|]. split; [done|]. apply Hpos.
    + apply view_same; [done|]. intros i q Hq. apply shown_same; [by eapply removing_other|]. cbn.
      destruct (decide (q = p)) as [->|Hne]; [by rewrite lookup_insert_eq, Hx|by rewrite lookup_insert_ne].
  - destruct (is_final (object x)) eqn:Ef.
    + split.
      * keep_at t (Checking p) x; [done|by intros q z _ Hz; exists z| |].
        { intros q x' Hq Hnq. by destruct Hnq. }
        split; [|done]. intros q <-. by exists x.
      * apply view_same; [done|]. intros i q Hq. destruct (decide (q = p)) as [->|Hne].
        { unfold shown. cbn. rewrite Hx. cbn. by rewrite Ef. }
        apply shown_same; [|done]. eapply removing_other; [exact Ht|done|done|]. intros [= E]. by apply Hne.
    + split.
      * keep_at t (Checking p) x; [done|by intros q z _ Hz; exists z| |by split].
        intros q x' <- _ Hx'. cbn in Hx'. rewrite Hx in Hx'. injection Hx' as <-. split_and!; [apply Hpos|done|apply Hpos].
      * apply view_same; [done|]. intros i q Hq. apply shown_same; [by eapply removing_other|done].
Qed.

(** *** A handler runs. *)
Lemma serving_view P t p ev x : pool_wf P -> disjoint P -> workers P !! t = Some (Processing p ev) -> heap P !! p = Some x ->
  table P !! get_id (object x) = Some p -> serves P ev x ->
  (view P !! get_id (object x) = Some (automaton_of (object x)) /\ fst ev = Some (get_id (object x)))
  \/ (view P !! get_id (object x) = None /\ unclaimed (view P) ev /\ opens config ev (get_id (object x)) (automaton_of (object x))).
Proof.
  intros Hwf Hd Ht Hx Hi (_ & _ & Hcase).
  assert (E : view P !! get_id (object x) = if is_final (object x) then None else Some (automaton_of (object x))).
  { rewrite lookup_view, Hi. cbn. unfold shown. rewrite Hx.
    rewrite (not_removing P t (Processing p ev) p) by done. cbn. by rewrite orb_false_r. }
  destruct Hcase as [[Hf Hid]|(Ho & Hf & Hj)]; rewrite E, Hf; [by left|right]. split_and!; [done| |].
  - intros j Hfj. destruct (Hj j Hfj) as [->|Hn]; [by rewrite E, Hf|]. by rewrite lookup_view, Hn.
  - apply opened_final in Ho as (_ & _ & Ho). by destruct ev.
Qed.

Lemma handle_ok t P P' p ev : pool_wf P -> disjoint P -> workers P !! t = Some (Processing p ev) -> worker_step t P P' ->
  pool_wf P' /\ advance t P P'.
Proof.
  intros Hwf Hd Ht Hs. pose proof (locks_ok_step config fuel garbage t P P' (pw_locks _ Hwf) Hs) as Hl.
  destruct (pw_own _ Hwf t _ Ht) as [Hown _]. destruct (Hown p eq_refl) as (x & Hx & Hi & Hlk & Hsv). pose proof Hsv as (Hv & Hsw & _).
  pose proof (serving_view P t p ev x Hwf Hd Ht Hx Hi Hsv) as Hview. unfold advance, handled. rewrite Ht.
  pose proof (session_process_ok (object x) (surroundings P) (snd ev) Hsw Hv) as Hok.
  pose proof (session_process_id (object x) (snd ev) (surroundings P)) as Hid.
  inversion Hs as [? ? Hc1|? ? ? Hc1|? Hc1|? ? ? Hc1|? ? ? ? Hc1|? ? ? Hc1|p' ev' x' s w Hc1 Hx' Hpr|p' ev' x' s w e Hc1 Hx' Hpr|? ? Hc1
    |? ? Hc1|? ? ? ? Hc1]; subst; rewrite Ht in Hc1; try discriminate; injection Hc1 as <- <-;
    rewrite Hx in Hx'; injection Hx' as <-; rewrite Hpr in Hok, Hid; cbn [fst snd] in Hid.
  all: destruct (set_shared_mine (Processing p ev) p x (mk_shared s (lock_ x)) P) as [M1 M2]; [by intros q <-|done|done|].
  all: set (P' := goto t _ _) in *.
  all: assert (Hp' : heap P' !! p = Some (mk_shared s (lock_ x))) by (cbn; apply lookup_insert_eq).
  all: assert (Hq' : forall q, q <> p -> heap P' !! q = heap P !! q) by (intros q Hq; by apply set_shared_other).
  - destruct Hok as [Hsw' Hst].
    assert (Hwf' : pool_wf P').
    { keep_at t (Processing p ev) x; [by intros q Hq; apply M1|by intros q z; apply M2| |].
      - intros q x' Hq Hnq. by destruct Hnq.
      - split; [|done]. intros q <-. eexists. split; [exact Hp'|]. cbn -[get_id]. rewrite Hid. by split_and!. }
    assert (Hrem : forall q, removing P' q = removing P q) by (by eapply (removing_same P P' t (Processing p ev) (Releasing p))).
    split; [done|]. rewrite (view_update P P' (get_id (object x)) p) by done.
    assert (Hsh : shown P' p = if is_final s then None else Some (automaton_of s)).
    { unfold shown. rewrite Hp', Hrem, (not_removing P t (Processing p ev) p) by done. cbn. by rewrite orb_false_r. }
    rewrite Hsh. destruct ev as [id evt]. cbn [fst snd] in *. destruct Hview as [[Hvw ->]|(Hvw & Hun & Hop)]; destruct (is_final s) eqn:Ef.
    + eapply node_ends; [done|done|by apply final_closed].
    + eapply node_moves; [done|done|]. rewrite <- final_closed, Ef. done.
    + rewrite delete_id by done. by eapply node_opens_in_vain.
    + eapply node_opens; [done|done|done|done|]. rewrite <- final_closed, Ef. done.
  - assert (Hwf' : pool_wf P').
    { keep_at t (Processing p ev) x; [by intros q Hq; apply M1|by intros q z; apply M2| |].
      - intros q x' Hq Hnq. by destruct Hnq.
      - split; [|done]. intros q <-. eexists. split; [exact Hp'|]. cbn -[get_id]. by rewrite Hid. }
    split; [done|]. rewrite (view_update P P' (get_id (object x)) p); [|done|done|done|done|].
    2: { intros q Hq. eapply removing_other; [exact Ht|done|done|]. intros [= E]. by apply Hq. }
    assert (Hsh : shown P' p = None).
    { unfold shown. rewrite Hp', (proj2 (removing_iff P' p)); [cbn; by rewrite orb_true_r|]. exists t. cbn.
      apply list_lookup_insert_eq. by eapply lookup_lt_Some. }
    rewrite Hsh. destruct ev as [id evt]. cbn [fst snd] in *. destruct Hview as [[Hvw ->]|(Hvw & Hun & Hop)].
    + by eapply node_throws.
    + rewrite delete_id by done. by eapply node_opens_in_vain.
Qed.

(** *** A session is removed. *)
Lemma remove_ok t P P' p : pool_wf P -> disjoint P -> workers P !! t = Some (Removing p) -> worker_step t P P' ->
  pool_wf P' /\ advance t P P'.
Proof.
  intros Hwf Hd Ht Hs. pose proof (locks_ok_step config fuel garbage t P P' (pw_locks _ Hwf) Hs) as Hl.
  destruct (pw_own _ Hwf t _ Ht) as [Hown _]. destruct (Hown p eq_refl) as (x & Hx & Hi & _). unfold advance, handled. rewrite Ht.
  inversion Hs as [? ? Hc1|? ? ? Hc1|? Hc1|? ? ? Hc1|? ? ? ? Hc1|? ? ? Hc1|? ? ? ? ? Hc1|? ? ? ? ? ? Hc1|? ? Hc1
    |? ? Hc1|p' x' q y Hc1 Hx' Hq Hy]; subst; rewrite Ht in Hc1; try discriminate; injection Hc1 as <-;
    rewrite Hx in Hx'; injection Hx' as <-. rewrite Hi in Hq. injection Hq as <-. clear y Hy.
  set (i := get_id (object x)) in *. set (P' := goto t _ _) in *.
  assert (Htab : table P' = delete i (table P)) by (unfold P'; cbn; by destruct (store_done_same p (erase i P)) as (_ & -> & _)).
  assert (Hwk : workers P' = <[t := Waiting]> (workers P)) by (unfold P'; cbn; by destruct (store_done_same p (erase i P)) as (_ & _ & ->)).
  assert (Hnx : next P' = next P) by (unfold P'; cbn; by destruct (store_done_same p (erase i P)) as (-> & _ & _)).
  assert (Hfin : forall q, q ∈ finished P' -> q ∈ finished P ++ [p]).
  { intros q. unfold P', store_done. destruct (_ <? _)%nat; cbn; [|done]. destruct (finished P ++ [p]); [done|]. by right. }
  assert (Hheap : forall q z, heap P !! q = Some z -> ~ (q ∈ finished P) -> q <> p -> heap P' !! q = Some z).
  { intros q z Hz Hn Hne. unfold P', store_done. destruct (_ <? _)%nat; cbn; [|done].
    assert (Hn' : ~ (q ∈ finished P ++ [p])) by (rewrite elem_of_app, list_elem_of_singleton; tauto).
    destruct (finished P ++ [p]) as [|h l]; [done|]. rewrite lookup_delete_ne; [done|]. intros <-. apply Hn'. by left. }
  assert (Halone : forall t1 c1, t <> t1 -> workers P !! t1 = Some c1 -> ~ at_session c1 p).
  { intros t1 c1 Hne Ht1 Ha. apply Hne. by eapply (at_unique P t t1 (Removing p) c1 p). }
  assert (Hsame : forall j q, table P' !! j = Some q -> table P !! j = Some q /\ q <> p /\ j <> i).
  { intros j q Hj. rewrite Htab in Hj. apply lookup_delete_Some in Hj as [Hne Hj]. split_and!; [done| |done]. intros ->.
    destruct (pw_table _ Hwf j p Hj) as (z & Hz & Hzi & _). rewrite Hx in Hz. injection Hz as <-. done. }
  assert (Hnone : forall j, table P !! j = None -> table P' !! j = None).
  { intros j Hj. rewrite Htab. apply lookup_delete_None. by right. }
  split.
  - split; [done| | |].
    + apply Forall_forall. intros q Hq. apply Hfin in Hq. rewrite Hnx. apply elem_of_app in Hq as [Hq|Hq].
      * pose proof (pw_finished _ Hwf) as Hf. rewrite Forall_forall in Hf. by apply Hf.
      * apply list_elem_of_singleton in Hq as ->. exact (lo_next _ (pw_locks _ Hwf) _ _ Hx).
    + intros j q Hj. destruct (Hsame j q Hj) as (Hj' & Hne & _). destruct (pw_table _ Hwf j q Hj') as (z & Hz & Hzi & Hnf & Hset).
      exists z. split_and!; [by apply Hheap|done| |].
      * intros Hin. apply Hfin, elem_of_app in Hin as [?|Hin]; [done|]. by apply list_elem_of_singleton in Hin.
      * destruct Hset as [?|(t1 & c1 & Ht1 & Ha1)]; [by left|]. right. exists t1, c1. split; [|done]. rewrite Hwk.
        rewrite list_lookup_insert_ne; [done|]. intros <-. rewrite Ht in Ht1. injection Ht1 as <-. cbn in Ha1. congruence.
    + intros t1 c1 Ht1. rewrite Hwk in Ht1. apply list_lookup_insert_Some in Ht1 as [(_ & <- & _)|[Hne Ht1]]; [by split|].
      destruct (pw_own _ Hwf t1 c1 Ht1) as [Ho1 Ho2]. split.
      * intros q Ha. destruct (Ho1 q Ha) as (z & Hz & Hzi & Hpos).
        assert (Hqp : q <> p) by (intros ->; by eapply Halone).
        destruct (pw_table _ Hwf _ q Hzi) as (z' & Hz' & _ & Hnf & _). exists z. split_and!; [by apply Hheap| |].
        { rewrite Htab, lookup_delete_ne; [done|]. intros E. apply Hqp. rewrite <- E, Hi in Hzi. by injection Hzi. }
        destruct c1; cbn in Hpos |- *; try done.
        all: destruct Hpos as (Hlk & Hve & Hsw1 & Hcase); split; [done|split; [done|split; [done|]]].
        all: destruct Hcase as [?|(Ho & Hfi & Hj)]; [by left|right]; split_and!; [done|done|].
        all: intros j Hfj; destruct (Hj j Hfj); [by left|right; by apply Hnone].
      * destruct c1; try done. destruct Ho2 as (? & Hno & ?). split_and!; [done| |done]. intros j Hj. by apply Hnone, Hno.
  - apply map_eq. intros j. rewrite !lookup_view. destruct (table P' !! j) as [q|] eqn:Ej.
    + destruct (Hsame j q Ej) as (Hj & Hne & _). rewrite Hj. cbn. destruct (pw_table _ Hwf j q Hj) as (z & Hz & _ & Hnf & _).
      apply shown_same; [|by rewrite Hz, (Hheap q z)]. eapply removing_other; [exact Ht|exact Hwk| |done]. intros [= E]. by apply Hne.
    + rewrite Htab in Ej. apply lookup_delete_None in Ej as [<-|Ej]; [|by rewrite Ej]. rewrite Hi. cbn. unfold shown.
      rewrite Hx, (proj2 (removing_iff P p)); [cbn; by rewrite orb_true_r|]. by exists t.
Qed.

Lemma step_ok t P P' : pool_wf P -> disjoint P -> disjoint P' -> worker_step t P P' -> pool_wf P' /\ advance t P P'.
Proof.
  intros Hwf Hd Hd' Hs. destruct (workers P !! t) as [c|] eqn:Ht; [|by destruct Hs; congruence].
  destruct c as [|ev|ev|p ev|p ev|p|p|p].
  - destruct Hs; congruence.
  - by eapply look_ok.
  - by eapply create_ok.
  - by eapply session_step_ok.
  - by eapply handle_ok.
  - by eapply session_step_ok.
  - by eapply session_step_ok.
  - by eapply remove_ok.
Qed.

(** ** Faults: those of the node. *)
Definition pool_fault t P (f : fault) : Prop :=
  match workers P !! t with
  | Some (Looking ev) => anonymous_fault (fst ev) (snd ev) f
  | Some (Creating ev) => f = Loop_bound /\ is_api_create (snd ev) = true
  | Some (Processing p ev) => exists x, heap P !! p = Some x /\ session_fault (object x) (snd ev) f
  | _ => False
  end.

Lemma in_world_does {A} (m : M W A) es P : does trace m es -> exists w, in_world m P = Normal (set_surroundings w P).
Proof.
  intros Hm. destruct (Hm (surroundings P)) as (a & E & _). unfold in_world. destruct (m (surroundings P)) as [o w]. cbn in E. subst o.
  by exists w.
Qed.

Lemma look_fault t ev P f : look send_receive_answer t ev P = Faulted f -> anonymous_fault (fst ev) (snd ev) f.
Proof.
  destruct ev as [id evt].
  assert (Hgo : (if is_invalid_anslp_msg evt then
        obind (of_pointer (ev_msg evt)) (fun n =>
        obind (in_world (send_message (create_response sc_protocol_error 0 n)) P) (fun P => Normal (goto t Waiting P)))
      else
        match (match id with Some i => table P !! i | None => None end) with
        | Some p => Normal (goto t (Acquiring p (id, evt)) P)
        | None => Normal (goto t (Creating (id, evt)) P)
        end) <> Faulted f).
  { destruct (is_invalid_anslp_msg evt) eqn:Ei; [|by destruct (match id with Some i => table P !! i | None => None end)].
    unfold is_invalid_anslp_msg in Ei. destruct evt as [| | | |n b|?|?|? ?|? ?|? ? ? ?|? ? ? ? ?|? ? ?|? ? ? ? ? ? ?| |? ?]; try done. cbn [ev_msg of_pointer obind].
    by destruct (in_world_does _ _ P (send_does (create_response sc_protocol_error 0 n))) as [w ->]. }
  unfold look, anonymous_fault. cbn [fst snd].
  destruct evt as [| | |route|n b|tid|e|o q|o q|a l ms q|a sv c ot q|a o q|a l ms sv c ot q| |o q]; try (intros E; by destruct (Hgo E)).
  - destruct id as [i|]; [|intros [= <-]; split; [done|by right]].
    by destruct (in_world_does _ _ P (Hanswer i route)) as [w ->].
  - destruct id as [i|]; [intros E; by destruct (Hgo E)|intros [= <-]; split; [done|by left]].
Qed.

Lemma step_fault t P f : pool_wf P -> step t P = Some (Faulted f) -> pool_fault t P f.
Proof.
  intros Hwf. unfold Threads.step, pool_fault. destruct (workers P !! t) as [c|] eqn:Ht; [|done].
  pose proof (pw_own _ Hwf t c Ht) as [Hown Hmore]. destruct c as [|ev|ev|p ev|p ev|p|p|p]; [done|..].
  - intros [= E]. by eapply look_fault.
  - unfold create. destruct Hmore as (_ & Hn & Hid). destruct (create_session _ _ _ _ _ _) as [o [m w]] eqn:Ec.
    pose proof (create_session_returns P ev o m w Hn Ec) as Hr. destruct o as [[s|]|e|g]; intros [= <-]; [done|].
    destruct Hr as [?|(-> & Ha & He)]; [done|]. by destruct (Hid Ha).
  - destruct (Hown p eq_refl) as (x & Hx & _). rewrite Hx. by destruct (acquire _ _).
  - destruct (Hown p eq_refl) as (x & Hx & _ & _ & Hv & Hsw & _). intros [= E]. unfold handle, use in E. rewrite Hx in E.
    pose proof (session_process_ok (object x) (surroundings P) (snd ev) Hsw Hv) as Hok.
    destruct (session_process _ _ _) as [[[]|e|g] [s w]]; [done|done|]. injection E as <-. by exists x.
  - destruct (Hown p eq_refl) as (x & Hx & _). unfold use. by rewrite Hx.
  - destruct (Hown p eq_refl) as (x & Hx & _). unfold use. by rewrite Hx.
  - destruct (Hown p eq_refl) as (x & Hx & Hi & _). unfold Threads.remove, use. rewrite Hx. cbv zeta. by rewrite Hi, Hx.
Qed.

(** ** Schedules. *)
Fixpoint disjoint_run (l : list move) P : Prop :=
  disjoint P /\ match l with
                | [] => True
                | a :: l => match execute a P with Normal P' => disjoint_run l P' | _ => True end
                end.

(** The events that workers take, and those that are dealt with. *)
Definition taken_by (a : move) P : list incoming :=
  match a with Take t ev => match workers P !! t with Some Waiting => [ev] | _ => [] end | Step _ => [] end.
Definition handled_by (a : move) P : list incoming :=
  match a with Take _ _ => [] | Step t => option_list (handled t P) end.
Fixpoint along (f : move -> pool (W := W) -> list incoming) (l : list move) P : list incoming :=
  match l with
  | [] => []
  | a :: l => f a P ++ match execute a P with Normal P' => along f l P' | _ => [] end
  end.
Definition in_flight P : list incoming := omap event_of (workers P).

Lemma omap_insert (l : list position) i c c' : l !! i = Some c ->
  option_list (event_of c') ++ omap event_of l ≡ₚ option_list (event_of c) ++ omap event_of (<[i:=c']> l).
Proof.
  revert i. induction l as [|d l IH]; intros [|i]; [done|done|intros [= ->]; cbn|intros Hi; specialize (IH i Hi); cbn].
  - destruct (event_of c), (event_of c'); cbn; done || by rewrite Permutation_swap.
  - destruct (event_of d) as [ev|]; [|done]. rewrite <- !Permutation_middle. by rewrite IH.
Qed.

(** A step moves its worker; the event it leaves behind is dealt with. *)
Lemma step_position t P P' : pool_wf P -> worker_step t P P' -> exists c c', workers P !! t = Some c /\ workers P' = <[t := c']> (workers P)
  /\ option_list (event_of c) = option_list (handled t P) ++ option_list (event_of c').
Proof.
  intros Hwf Hs. unfold handled. destruct Hs as [ev w Ht Hn|ev i p Ht Hn Hi Hp|ev Ht Hn Hi Hcr|ev m w Ht Hcr|ev s m w Ht Hcr|p ev x Ht Hx Hlk
    |p ev x s w Ht Hx Hpr|p ev x s w e Ht Hx Hpr|p x Ht Hx|p x Ht Hx|p x q y Ht Hx Hq Hy]; rewrite Ht; try rewrite Hn.
  all: try (destruct (pw_own _ Hwf t _ Ht) as [_ (_ & Hnone & _)];
    pose proof (create_session_returns P ev _ _ _ Hnone Hcr) as Hret; cbn beta iota in Hret).
  all: eexists _, _; split; [reflexivity|split; [reflexivity || (cbn; by destruct (store_done_same q (erase (get_id (object x)) P)) as (_ & _ & ->))|]]; try done.
  - by destruct Hret as [-> ->].
  - destruct Hret as [(i & k & _ & Hop) _]. destruct (is_api_create (snd ev)); [done|]. by destruct Hop as [-> _].
  - by destruct (is_final (object x)).
Qed.

Lemma step_flight t P P' : pool_wf P -> worker_step t P P' -> in_flight P ≡ₚ option_list (handled t P) ++ in_flight P'.
Proof.
  intros Hwf Hs. destruct (step_position t P P' Hwf Hs) as (c & c' & Ht & Hw & He).
  pose proof (omap_insert (workers P) t c c' Ht) as Hp. rewrite <- Hw, He in Hp.
  apply (Permutation_app_inv_l (option_list (event_of c'))). unfold in_flight. rewrite Hp.
  rewrite !app_assoc. apply Permutation_app_tail, Permutation_app_comm.
Qed.

(** ** A schedule. *)
Definition valid_move (a : move) : Prop := match a with Take _ ev => event_valid (snd ev) | Step _ => True end.

Lemma take_ok t ev P : pool_wf P -> disjoint P -> event_valid (snd ev) -> workers P !! t = Some Waiting ->
  pool_wf (goto t (Looking ev) P) /\ view (goto t (Looking ev) P) = view P.
Proof.
  intros Hwf Hd Hv Ht. split; [|by eapply idle_view].
  eapply (pool_wf_keep t Waiting); [done..| |done|done|done|done|done|intros ? ? [] ?|intros ? ? []|by split].
  apply locks_ok_goto; [apply Hwf|done|done].
Qed.

Definition runs_as_node l P : Prop :=
  match run l P with
  | Normal P' => pool_wf P' /\ path (node_step config) (view P) (along handled_by l P) (view P')
      /\ in_flight P ++ along taken_by l P ≡ₚ along handled_by l P ++ in_flight P'
  | Raised _ => False
  | Faulted f => exists pre t post P1, l = pre ++ Step t :: post /\ run pre P = Normal P1 /\ pool_fault t P1 f
  end.

(** One more move before a run. *)
Lemma runs_cons a l P P1 : execute a P = Normal P1 ->
  (forall evs T', path (node_step config) (view P1) evs T' -> path (node_step config) (view P) (handled_by a P ++ evs) T') ->
  in_flight P ++ taken_by a P ≡ₚ handled_by a P ++ in_flight P1 ->
  runs_as_node l P1 -> runs_as_node (a :: l) P.
Proof.
  intros Ha Hp Hf. unfold runs_as_node. cbn [Threads.run along]. rewrite !Ha. cbn [obind].
  destruct (run l P1) as [P'|e|f]; [|done|].
  - intros (Hwf & Hpath & Hperm). split_and!; [done|by apply Hp|]. rewrite (app_assoc (in_flight P)), Hf, <- !app_assoc. by rewrite Hperm.
  - intros (pre & t & post & P2 & -> & Hr & Hpf). exists (a :: pre), t, post, P2. split_and!; [done| |done].
    cbn [Threads.run]. by rewrite Ha.
Qed.

Lemma run_ok l P : pool_wf P -> Forall valid_move l -> disjoint_run l P -> runs_as_node l P.
Proof.
  revert P. induction l as [|a l IH]; intros P Hwf Hv Hd.
  - unfold runs_as_node. cbn. split_and!; [done|constructor|by rewrite app_nil_r].
  - apply Forall_cons in Hv as [Hva Hv]. destruct Hd as [Hd Hdr].
    destruct (execute a P) as [P1|e|f] eqn:Ea.
    + assert (Hd1 : disjoint P1) by (destruct l; apply Hdr).
      assert (Hstay : P1 = P -> taken_by a P = handled_by a P -> handled_by a P = [] -> runs_as_node (a :: l) P).
      { intros -> Et Eh. apply (runs_cons a l P P Ea); [by rewrite Eh|rewrite Et, Eh; by rewrite app_nil_r|by apply IH]. }
      destruct a as [t ev|t]; cbn in Ea.
      * destruct (workers P !! t) as [[]|] eqn:Ht; injection Ea as <-; try (apply Hstay; cbn; by rewrite ?Ht).
        destruct (take_ok t ev P Hwf Hd Hva Ht) as [Hwf1 Hvw]. eapply runs_cons; [cbn; by rewrite Ht|cbn [handled_by]..|by apply IH].
        { by rewrite Hvw. }
        pose proof (omap_insert (workers P) t Waiting (Looking ev) Ht) as Hp. cbn in Hp. cbn. rewrite Ht.
        rewrite Permutation_app_comm. exact Hp.
      * destruct (step t P) as [o|] eqn:Es; cbn in Ea; [|injection Ea as <-].
        { subst o. apply step_worker in Es as Hs. destruct (step_ok t P P1 Hwf Hd Hd1 Hs) as [Hwf1 Hadv].
          eapply runs_cons; [cbn; by rewrite Es| |cbn [taken_by handled_by]; rewrite app_nil_r; by apply step_flight|by apply IH].
          intros evs T'. unfold advance in Hadv. cbn [handled_by]. destruct (handled t P) as [ev|]; [|by rewrite Hadv].
          cbn. intros Hp. by econstructor. }
        assert (E : handled t P = None).
        { unfold handled, Threads.step in *. by destruct (workers P !! t) as [[]|]. }
        apply Hstay; cbn; by rewrite ?E.
    + destruct a as [t ev|t]; cbn in Ea; [by destruct (workers P !! t) as [[]|]|].
      destruct (step t P) as [o|] eqn:Es; cbn in Ea; [|done]. subst o. by apply step_not_raised in Es.
    + destruct a as [t ev|t]; cbn in Ea; [by destruct (workers P !! t) as [[]|]|].
      destruct (step t P) as [o|] eqn:Es; cbn in Ea; [|done]. subst o. unfold runs_as_node. cbn. rewrite Es. cbn.
      exists [], t, l, P. split_and!; [done|done|by eapply step_fault].
Qed.

Lemma start_wf n w : pool_wf (start n w).
Proof.
  split; [apply start_locks|constructor|done|]. intros t c Ht. apply lookup_replicate in Ht as [-> _]. by split.
Qed.

(** C3. Any number of workers process events at the same time, and what they do
    together is what the abstract node does with one event after the other:
    for every schedule in which no two workers are concerned with one session
    ID at a time, the sessions shown go along a path of the node's steps, one
    for each event, in the order in which the handlers ran, and every event
    taken is either dealt with, once, or still with its worker.  The daemon
    stops only where the node does: in a handler's fault, without a free
    session ID, or for a message without a session ID. *)
Theorem workers_refine_node (n : nat) (w : W) (l : list move)
  (Hv : Forall valid_move l) (Hd : disjoint_run l (start n w)) :
  match run l (start n w) with
  | Normal P => pool_wf P /\ path (node_step config) ∅ (along handled_by l (start n w)) (view P)
      /\ along taken_by l (start n w) ≡ₚ along handled_by l (start n w) ++ in_flight P
  | Raised _ => False
  | Faulted f => exists pre t post P, l = pre ++ Step t :: post /\ run pre (start n w) = Normal P /\ pool_fault t P f
  end.
Proof.
  pose proof (run_ok l (start n w) (start_wf n w) Hv Hd) as Hr. unfold runs_as_node in Hr. destruct (run l (start n w)); [|done..].
  destruct Hr as (Hwf & Hp & Hf). split_and!; [done| |].
  - replace ∅ with (view (start n w)); [done|]. apply map_eq. intros i. by rewrite lookup_view.
  - assert (E : in_flight (start n w) = []) by (unfold in_flight; cbn; clear; by induction n). by rewrite E in Hf.
Qed.
End WorkersSpec.
