(* ===== verification/GistMapper.v ===== *)
(** * The mapper: src/gistka_mapper.cpp, include/gistka_mapper.h

    GIST speaks [ntlp::APIMsg], the daemon speaks events.  The mapper makes an
    event of every message that arrives in the daemon's input queue - from
    GIST, from the timer module, from the API -, and an APIMsg of every
    A-NSLP message a session sends.  [ntlp::APIMsg] and [ntlp::sessionid] are
    not in the sources: [Gist] has the operations the mapper calls. *)
From S2P Require Import Prelude Outcome StdMap External Objects Store Messages Codec Parser SessionId NtlpMsg AuctionRule Events.

(** ** What the mapper uses of GIST. *)
Inductive api_subtype := RecvMessage | NetworkNotification | MessageStatus | Other_subtype (n : Z).
Inductive api_error := Route_changed_status_bad | Error_msg_node_not_found | Other_error (n : Z).

(** [ntlp::tx_attr_t], the two attributes a sender sets. *)
Record tx_attr := mk_tx_attr { reliable : bool; secure : bool }.

(** Addresses of queues, constants of protlib. *)
Inductive qaddr := INPUT_QUEUE_ADDRESS | OUTPUT_QUEUE_ADDRESS | TIMER_MODULE_QUEUE_ADDRESS.

Class Gist `{Libs} := {
  sessionid : Type;
  new_sessionid : Z -> Z -> Z -> Z -> sessionid;
  get_sessionid : sessionid -> Z * Z * Z * Z;
  APIMsg : Type;
  new_APIMsg : APIMsg;
  set_source : qaddr -> APIMsg -> APIMsg;
  set_sendmessage : list Z -> Z -> Z -> sessionid -> mri -> Z -> tx_attr -> Z -> Z -> Z -> APIMsg -> APIMsg;
  set_recvmessageanswer : Z -> sessionid -> mri -> APIMsg -> APIMsg;
  api_subtype_of : APIMsg -> api_subtype;
  api_sessionid : APIMsg -> option sessionid;
  api_data : APIMsg -> option (list Z);
  api_adjacency_check : APIMsg -> bool;
  api_mri : APIMsg -> option mri;
  api_sii_handle : APIMsg -> Z;
  api_final_hop : APIMsg -> bool;
  api_msgstatus : APIMsg -> api_error }.

Class GistLaws `{Gist} : Prop := {
  sessionid_words : forall a b c d, is_u32 a -> is_u32 b -> is_u32 c -> is_u32 d ->
    get_sessionid (new_sessionid a b c d) = (a, b, c, d) }.

(** Constants of include/anslp_config.h. *)
Definition NSLP_ID : Z := 34.
Definition SEND_MSG_TIMEOUT : Z := 5.
Definition SEND_MSG_IP_TTL : Z := 100.
Definition SEND_MSG_GIST_HOP_COUNT : Z := 10.

Section GistMapper.
Context `{Libs} `{NetMsg} `{!ProtlibIE ie} `{!Gist}.

(** What arrives in the input queue: [APIMsg], [anslp_timer_msg] with its
    session ID and the ID of the message, [anslp_event_msg] with its session
    ID and the event it carries. *)
Inductive message :=
  | Api_msg (m : APIMsg)
  | Anslp_timer_msg (sid : session_id) (id : Z)
  | Anslp_event_msg (sid : session_id) (evt : option (option session_id * event))
  | Other_message.

(** [create_ntlp_session_id], [create_anslp_session_id]. *)
Definition create_ntlp_session_id (s : session_id) : sessionid := new_sessionid (w1 s) (w2 s) (w3 s) (w4 s).

Definition create_anslp_session_id (sid : option sessionid) : outcome session_id :=
  match sid with
  | None => Faulted Assertion_failed
  | Some sid => let '(a, b, c, d) := get_sessionid sid in Normal (mk_session_id a b c d)
  end.

(** [create_api_msg] is declared [throw ()]: an [IEError] is caught and runs
    into [assert(false)], any other exception ends the program. *)
Definition create_api_msg (msg : ntlp_msg) : outcome APIMsg :=
  obind (of_pointer (get_anslp_msg msg)) (fun m =>
  let payload := nm_new (Z.to_nat (get_serialized_size m)) in
  match msg_serialize true m payload with
  | (Raised (Ie_error _), _) => Faulted Assertion_failed
  | (Raised _, _) => Faulted Terminated
  | (Faulted f, _) => Faulted f
  | (Normal _, payload) =>
      Normal (set_sendmessage (nm_bytes payload) 0 NSLP_ID (create_ntlp_session_id (get_session_id msg))
                (get_mri msg) (get_sii_handle msg) (mk_tx_attr true false)
                SEND_MSG_TIMEOUT SEND_MSG_IP_TTL SEND_MSG_GIST_HOP_COUNT
                (set_source INPUT_QUEUE_ADDRESS new_APIMsg))
  end).

(** An event with the session ID it was created with; [None] for NULL. *)
Definition mapped : Type := option (option session_id * event).

(** [map_api_receive_message], behind the assertion on the subtype.  The
    error list is empty before the call of [deserialize]. *)
Definition map_api_receive_message (apimsg : APIMsg) : outcome mapped :=
  obind (create_anslp_session_id (api_sessionid apimsg)) (fun sid =>
  match api_data apimsg with
  | None =>
      if api_adjacency_check apimsg then
        obind (of_pointer (api_mri apimsg)) (fun route => Normal (Some (Some sid, Routing_state_check_event route)))
      else Normal None
  | Some data =>
      match iemanager_deserialize register_known_ies cat_anslp_msg false (nm_of_bytes data, []) with
      | (Raised e, _) => Raised e
      | (Faulted f, _) => Faulted f
      | (Normal res, (_, errlist)) =>
          obind (match res with
                 | None => match errlist with [] => Faulted Assertion_failed | _ => Normal None end
                 | Some (IE_msg m, _) => Normal (Some m)
                 | Some (IE_object _, _) => Faulted Assertion_failed
                 end) (fun m =>
          obind (of_pointer (api_mri apimsg)) (fun route =>
          obind (new_ntlp_msg sid m (Some route) (api_sii_handle apimsg)) (fun n =>
          Normal (Some (Some sid, Msg_event n (api_final_hop apimsg))))))
      end
  end).

Definition map_api_network_notification (msg : APIMsg) : outcome mapped :=
  match api_msgstatus msg with
  | Route_changed_status_bad =>
      obind (create_anslp_session_id (api_sessionid msg)) (fun sid => Normal (Some (Some sid, Route_changed_bad_event)))
  | _ => Normal None
  end.

Definition map_api_message_status (msg : APIMsg) : outcome mapped :=
  match api_sessionid msg with
  | None => Normal None
  | Some sid =>
      match api_msgstatus msg with
      | Error_msg_node_not_found =>
          obind (create_anslp_session_id (Some sid)) (fun sid => Normal (Some (Some sid, No_next_node_found_event)))
      | _ => Normal None
      end
  end.

Definition map_api_message (msg : APIMsg) : outcome mapped :=
  match api_subtype_of msg with
  | RecvMessage => map_api_receive_message msg
  | NetworkNotification => map_api_network_notification msg
  | MessageStatus => map_api_message_status msg
  | Other_subtype _ => Normal None
  end.

Definition map_timer_message (sid : session_id) (id : Z) : mapped := Some (Some sid, Timer_event id).

(** [map_to_event], on a pointer that the daemon has checked. *)
Definition map_to_event (msg : message) : outcome mapped :=
  match msg with
  | Api_msg m => map_api_message m
  | Anslp_timer_msg sid id => Normal (map_timer_message sid id)
  | Anslp_event_msg _ evt => Normal evt
  | Other_message => Normal None
  end.
End GistMapper.

(** ** What the mapper guarantees. *)
Section Laws.
Context `{Libs} `{!LibsLaws} `{NetMsg} `{!NetMsgLaws} `{!ProtlibIE ie} `{!ProtlibIELaws ie} `{!Gist} `{!GistLaws}.

(** The session ID of an APIMsg. *)
Definition local_id (sid : sessionid) : session_id := let '(a, b, c, d) := get_sessionid sid in mk_session_id a b c d.

Lemma create_anslp_session_id_some sid : create_anslp_session_id (Some sid) = Normal (local_id sid).
Proof. unfold create_anslp_session_id, local_id. by destruct (get_sessionid sid) as [[[? ?] ?] ?]. Qed.

Lemma local_id_ntlp i : session_id_wf i -> local_id (create_ntlp_session_id i) = i.
Proof.
  intros (Hw1 & Hw2 & Hw3 & Hw4). unfold local_id, create_ntlp_session_id. rewrite sessionid_words by done. by destruct i.
Qed.

(** The message part of an event: a well-formed message that is not empty,
    or none. *)
Definition received (b : option anslp_msg) : Prop :=
  match b with Some m => exists v, msg_view m v /\ get_num_objects m <> 0 | None => True end.

Lemma iemanager_no_fault data f :
  fst (iemanager_deserialize register_known_ies cat_anslp_msg false (nm_of_bytes data, [])) <> Faulted f.
Proof.
  unfold iemanager_deserialize, bind. rewrite Z.eqb_refl.
  pose proof (deserialize_msg_no_fault register_known_ies false (nm_of_bytes data) []) as Hf.
  destruct (deserialize_msg _ _ _) as [[[[m k]|]|x|f'] [b l]]; try done. intros [= ->]. by destruct (Hf f).
Qed.

(** C19. What a message of GIST becomes, on any bytes: without a payload, a
    routing state check if GIST asks for one and nothing otherwise; with a
    payload, an event for the session of the message with the message parsed
    - well-formed, if there is one -, the route and the SII handle as GIST
    gave them.  Otherwise the parser has thrown, or the assertion that a
    failed parse reports an error has failed. *)
Theorem map_receive_cases (a : APIMsg) (sid : sessionid) (route : mri)
  (Hsub : api_subtype_of a = RecvMessage) (Hsid : api_sessionid a = Some sid) (Hmri : api_mri a = Some route)
  (Hdata : forall data, api_data a = Some data ->
     Forall byte data /\ (Z.of_nat (length data) < 2 ^ 32 - OT_ipap_message)%Z) :
  match map_to_event (Api_msg a) with
  | Normal None => api_data a = None /\ api_adjacency_check a = false
  | Normal (Some (id, evt)) =>
      id = Some (local_id sid) /\
      ((api_data a = None /\ api_adjacency_check a = true /\ evt = Routing_state_check_event route)
       \/ exists data b, api_data a = Some data /\ received b
            /\ evt = Msg_event (mk_ntlp_msg (local_id sid) b route (api_sii_handle a)) (api_final_hop a))
  | Raised _ => is_some (api_data a) = true
  | Faulted f => f = Assertion_failed /\ is_some (api_data a) = true
  end.
Proof.
  cbn [map_to_event]. unfold map_api_message, map_api_receive_message.
  rewrite Hsub, Hsid, create_anslp_session_id_some. cbn [obind].
  destruct (api_data a) as [data|]; [|rewrite Hmri; cbn; destruct (api_adjacency_check a); auto].
  destruct (Hdata data eq_refl) as [Hb Hl].
  pose proof (iemanager_no_fault data) as Hf.
  destruct (iemanager_deserialize _ _ _ _) as [[[[e n]|]|x|f] [rd errs]] eqn:E; [| |done|by destruct (Hf f)].
  - destruct (parse_ie data e n rd errs Hb Hl E) as (m & v & -> & Hv & Hn & _). rewrite Hmri. cbn. split; [done|]. right.
    exists data, (Some m). split_and!; [done| |done]. cbn. eauto.
  - destruct errs; rewrite Hmri; cbn; [done|]. split; [done|]. right. by exists data, None.
Qed.

(** A message mapped to an APIMsg, and back by its receiver. *)
Lemma map_and_back (n : ntlp_msg) (m : anslp_msg) (v : view) (os : list anslp_object)
  (Hn : get_anslp_msg n = Some m) (Hid : session_id_wf (get_session_id n))
  (Hm : msg_view m v) (Hw : wire_form (msg_cls m) v os) (Hsize : (get_serialized_size m < 2 ^ 32)%Z) :
  exists data sid,
    create_api_msg n = Normal (set_sendmessage data 0 34 sid (get_mri n) (get_sii_handle n) (mk_tx_attr true false)
                                 5 100 10 (set_source INPUT_QUEUE_ADDRESS new_APIMsg))
    /\ forall a route, api_subtype_of a = RecvMessage -> api_data a = Some data -> api_sessionid a = Some sid ->
         api_mri a = Some route ->
         map_to_event (Api_msg a)
         = Normal (Some (Some (get_session_id n),
                         Msg_event (mk_ntlp_msg (get_session_id n) (Some m) route (api_sii_handle a)) (api_final_hop a))).
Proof.
  destruct (message_on_the_wire m v os Hm Hw Hsize) as (buf & E & _ & rd & Er & _).
  exists (nm_bytes buf), (create_ntlp_session_id (get_session_id n)). split.
  - unfold create_api_msg. rewrite Hn. cbn [of_pointer obind]. by rewrite E.
  - intros a route Hs Hd Hi Hr. cbn [map_to_event]. unfold map_api_message, map_api_receive_message.
    rewrite Hs, Hi, create_anslp_session_id_some, Hd, Er, local_id_ntlp, Hr by done. done.
Qed.

(** C18. From the sender's session to the receiver's: a well-formed message
    that a session sends becomes one APIMsg - reliable, not secure, addressed
    to the A-NSLP, with the session ID and the route of the message -, and
    whoever receives its payload under its session ID gets an event for that
    session with the same message.  The route and the SII handle are those
    GIST gives the receiver. *)
Theorem mapper_roundtrip (n : ntlp_msg) (m : anslp_msg) (v : view) (os : list anslp_object)
  (Hn : get_anslp_msg n = Some m) (Hid : session_id_wf (get_session_id n))
  (Hm : msg_view m v) (Hw : wire_form (msg_cls m) v os) (Hsize : (get_serialized_size m < 2 ^ 32)%Z) :
  exists data sid,
    create_api_msg n = Normal (set_sendmessage data 0 34 sid (get_mri n) (get_sii_handle n) (mk_tx_attr true false)
                                 5 100 10 (set_source INPUT_QUEUE_ADDRESS new_APIMsg))
    /\ forall a route, api_subtype_of a = RecvMessage -> api_data a = Some data -> api_sessionid a = Some sid ->
         api_mri a = Some route ->
         map_to_event (Api_msg a)
         = Normal (Some (Some (get_session_id n),
                         Msg_event (mk_ntlp_msg (get_session_id n) (Some m) route (api_sii_handle a)) (api_final_hop a))).
Proof. exact (map_and_back n m v os Hn Hid Hm Hw Hsize). Qed.

(** An error response cannot be sent: the daemon runs into the missing
    return of [serialize_object]. *)
Lemma error_response_unwritable n m v s c :
  get_anslp_msg n = Some m -> msg_view m v -> has_msg_sequence_number m = true -> (0 <= s < 16)%Z -> is_u8 c ->
  create_api_msg (create_response s c n) = Faulted Missing_return.
Proof.
  intros Hn Hm Hmsn Hs Hc. destruct (create_response_view n s c m v Hn Hm Hs Hc) as (r & Hr & Hcls & Hv).
  assert (Hsize : get_serialized_size r = 20%Z).
  { unfold get_serialized_size. destruct Hv as (_ & -> & _). rewrite Hmsn. reflexivity. }
  unfold create_api_msg. rewrite Hr. cbn [of_pointer obind]. rewrite Hsize.
  destruct (nm_new_bytes (Z.to_nat 20)) as [NB NP].
  destruct (error_response_faults n m v s c (nm_new (Z.to_nat 20)) Hn Hm Hmsn Hs Hc) as (r' & Hr' & _ & Hf).
  { rewrite NB, NP, length_replicate. lia. }
  rewrite Hr in Hr'. injection Hr' as <-. destruct (msg_serialize true r _) as [o b]. cbn in Hf. by subst o.
Qed.

(** The message of a CREATE whose only object is an IPAP message followed by
    [pad]. *)
Definition padded_message (c : msg_class) (tr : treatment_t) (b pad : list Z) : list Z :=
  be_encode 4 (make_msg_header (MSG_TYPE c))
  ++ be_encode 4 (make_header tr OT_ipap_message (Z.of_nat (length (b ++ pad)))) ++ b ++ pad.

Lemma ipap_padding_refused i b pad o k buf errs :
  ipap_exported i -> ipap_get_message i = Some b -> 0 < length b -> forallb (Z.eqb 0) pad = false ->
  k = Z.of_nat (length (b ++ pad)) -> next_bytes buf (b ++ pad) ->
  forall i0, fst (ipap_deserialize_body i0 o k (buf, errs)) = Normal None
    /\ snd (snd (ipap_deserialize_body i0 o k (buf, errs))) = errs.
Proof.
  intros Hx Hb Hl Hp -> [Hpos Hd] i0. unfold ipap_deserialize_body, bind at 1, bind at 2, rd_pos, bind, copy_to.
  rewrite nm_copy_to_reads, Nat2Z.id, Hd, take_ge by done.
  assert (E : nm_pos buf + length (b ++ pad) <= length (nm_bytes buf)).
  { rewrite <- Hd, length_drop. lia. }
  rewrite decide_True by done. rewrite (ipap_import_exported i i0 b pad Hx Hb Hl).
  destruct Hx as (_ & b' & Hb' & Hlen & _). rewrite Hb in Hb'. injection Hb' as <-.
  rewrite <- Hlen, Nat2Z.id, drop_app_length, Hp. done.
Qed.

(** The object whose padding is refused. *)
Lemma ipap_object_refused i b pad tr k buf errs :
  ipap_exported i -> ipap_get_message i = Some b -> 0 < length b -> forallb (Z.eqb 0) pad = false ->
  length (b ++ pad) = 4 * k -> k < 4096 ->
  next_bytes buf (be_encode 4 (make_header tr OT_ipap_message (Z.of_nat (length (b ++ pad)))) ++ b ++ pad) ->
  exists buf', deserialize_object register_known_ies false (buf, errs) = (Normal None, (buf', errs)).
Proof.
  intros Hx Hb Hl Hp Hk Hk4 Hn. rewrite Hk in Hn. replace (Z.of_nat (4 * k)) with (Z.of_nat k * 4)%Z in Hn by lia.
  destruct (header_roundtrip tr OT_ipap_message (Z.of_nat k)) as (Hh & _ & Hty & Hlen); [done|lia|].
  set (h := make_header _ _ _) in *. unfold deserialize_object, bind at 1.
  destruct (parses_try _ _ _ _ (parses_peek32 h (b ++ pad) Hh) buf errs Hn) as (m0 & E0 & _ & _ & N0). rewrite E0.
  rewrite Hty.
  rewrite new_instance_ipap. unfold object_deserialize, bind at 1, rd_pos. rewrite check_deser_args_ok. cbn [negb].
  unfold bind at 1, deserialize_header, bind at 1, rd_pos at 1, bind at 1.
  destruct (parses_try _ _ _ _ (parses_decode32 h (b ++ pad) Hh) m0 errs N0) as (m1 & E1 & _ & _ & N1). rewrite E1.
  unfold bind at 1, rd_left. rewrite (next_bytes_left _ _ N1), Hlen, Hk, u16_small by (unfold is_u16; lia).
  destruct (Z.ltb_spec (Z.of_nat (4 * k)) (Z.of_nat k * 4)) as [|_]; [lia|]. unfold ret at 1, bind at 1, deserialize_body.
  cbn [body set_object_type set_treatment object_new_instance default_ipap_message new_ipap_message].
  match goal with |- context [ipap_deserialize_body ipap_default ?o ?k] =>
    destruct (ipap_padding_refused i b pad o k m1 errs Hx Hb Hl Hp ltac:(lia) N1 ipap_default) as [E2 E3];
    destruct (ipap_deserialize_body ipap_default o k (m1, errs)) as [x [m2 l2]] end.
  cbn in E2, E3. subst x l2. by eexists.
Qed.

(** A payload from the network can stop the daemon: an IPAP object whose
    padding is not zero makes the parser return NULL without an error, and
    [map_api_receive_message] asserts that there is one. *)
Theorem nonzero_padding_aborts (a : APIMsg) (sid : sessionid) (c : msg_class) (tr : treatment_t)
  (i : ipap_message) (b pad : list Z)
  (Hsub : api_subtype_of a = RecvMessage) (Hsid : api_sessionid a = Some sid)
  (Hdata : api_data a = Some (padded_message c tr b pad))
  (Hx : ipap_exported i) (Hb : ipap_get_message i = Some b) (Hl : 0 < length b)
  (Hpad : forallb (Z.eqb 0) pad = false)
  (Hwords : exists k, length (b ++ pad) = 4 * k /\ k < 4096) :
  map_to_event (Api_msg a) = Faulted Assertion_failed.
Proof.
  enough (E : exists rd, iemanager_deserialize register_known_ies cat_anslp_msg false
                (nm_of_bytes (padded_message c tr b pad), []) = (Normal None, (rd, []))).
  { destruct E as [rd E]. cbn [map_to_event]. unfold map_api_message, map_api_receive_message.
    by rewrite Hsub, Hsid, create_anslp_session_id_some, Hdata, E. }
  destruct (msg_header_roundtrip c) as [Hh Ht]. unfold padded_message. set (h := make_msg_header _) in *.
  set (rest := be_encode 4 (make_header _ _ _) ++ b ++ pad).
  destruct (nm_of_bytes_bytes (be_encode 4 h ++ rest)) as [HB HP].
  assert (Hn : next_bytes (nm_of_bytes (be_encode 4 h ++ rest)) (be_encode 4 h ++ rest)).
  { split; rewrite HB, HP; [lia|done]. }
  unfold iemanager_deserialize, bind at 1. rewrite Z.eqb_refl. unfold deserialize_msg, bind at 1.
  destruct (parses_try _ _ _ _ (parses_peek32 h rest Hh) _ [] Hn) as (m0 & E0 & _ & _ & N0). rewrite E0, Ht, new_instance_msg.
  unfold msg_deserialize, bind at 1.
  destruct (parses_try _ _ _ _ (parses_decode32 h rest Hh) m0 [] N0) as (m1 & E1 & _ & _ & N1). rewrite E1.
  unfold bind at 1, rd_left. rewrite (next_bytes_left _ _ N1).
  assert (Hrest : exists f, length rest = S f).
  { unfold rest. rewrite length_app, length_be_encode. by eexists. }
  destruct Hrest as [f Hf]. rewrite Hf. unfold bind at 1. cbn [deserialize_objects]. unfold bind at 1, rd_left at 1.
  rewrite (next_bytes_left _ _ N1), Hf. cbn [Nat.eqb]. unfold bind at 1. destruct Hwords as (k & Hk & Hk4).
  destruct (ipap_object_refused i b pad tr k m1 [] Hx Hb Hl Hpad Hk Hk4 N1) as (m2 & E2). rewrite E2. by eexists.
Qed.
End Laws.

(** ** A concrete GIST: messages are records. *)
Module Mapper_examples.
Import Concrete Codec_examples Ntlp_examples.

Record c_api := mk_api {
  c_source : option qaddr;
  c_subtype : api_subtype;
  c_sid : option (Z * Z * Z * Z);
  c_data : option (list Z);
  c_check : bool;
  c_mri_of : option c_mri;
  c_sii : Z;
  c_final : bool;
  c_status : api_error;
  c_attr : option tx_attr }.

Definition c_empty : c_api :=
  mk_api None (Other_subtype 0) None None false None 0 false (Other_error 0) None.

#[export] Instance c_gist : Gist := {|
  sessionid := Z * Z * Z * Z;
  new_sessionid a b c d := (a, b, c, d);
  get_sessionid s := s;
  APIMsg := c_api;
  new_APIMsg := c_empty;
  set_source q a := mk_api (Some q) (c_subtype a) (c_sid a) (c_data a) (c_check a) (c_mri_of a) (c_sii a)
                      (c_final a) (c_status a) (c_attr a);
  set_sendmessage data _ _ sid route sii attr _ _ _ a :=
    mk_api (c_source a) (Other_subtype 1) (Some sid) (Some data) false (Some route) sii false (Other_error 0) (Some attr);
  set_recvmessageanswer _ sid route a :=
    mk_api (c_source a) (Other_subtype 2) (Some sid) None false (Some route) 0 false (Other_error 0) None;
  api_subtype_of := c_subtype;
  api_sessionid := c_sid;
  api_data := c_data;
  api_adjacency_check := c_check;
  api_mri := c_mri_of;
  api_sii_handle := c_sii;
  api_final_hop := c_final;
  api_msgstatus := c_status |}.

#[export] Instance c_gist_laws : GistLaws.
Proof. by constructor. Qed.

(** What GIST delivers: a payload for a session. *)
Definition recv (sid : Z * Z * Z * Z) (data : option (list Z)) (check : bool) : c_api :=
  mk_api None RecvMessage (Some sid) data check (Some (Pathcoupled ex_pc)) 5 true (Other_error 0) None.

Definition ex_garbage : list Z := [2; 0; 0; 0; 0; 0xF4; 0; 1; 9; 9; 9; 9]%Z.

(** A CREATE with a session lifetime only, as it arrives. *)
Definition ex_bytes : list Z := [1; 0; 0; 0; 0; 0xF8; 0; 1; 0; 0; 0; 30]%Z.
Definition ex_parsed : outcome (option (ie * Z)) * (netmsg * list ie_error) :=
  iemanager_deserialize register_known_ies cat_anslp_msg false (nm_of_bytes ex_bytes, []).
Definition ex_received : anslp_msg := create_set_session_lifetime 30 new_anslp_create.

Lemma ex_parsed_eq : fst ex_parsed = Normal (Some (IE_msg ex_received, 12%Z)).
Proof. vm_compute. reflexivity. Qed.

Theorem parsed_well_formed_witness : exists v, msg_view ex_received v.
Proof.
  pose proof ex_parsed_eq as Ho. destruct ex_parsed as [o [rd errs]] eqn:E. cbn [fst] in Ho. subst o.
  destruct (parsed_well_formed ex_bytes (IE_msg ex_received) 12 rd errs) as (m & v & Hm & Hv & _); [| |exact E|].
  - repeat constructor; done.
  - cbn. unfold OT_ipap_message. lia.
  - exists v. by injection Hm as <-.
Defined.

Theorem map_receive_cases_witness :
  exists b, map_to_event (Api_msg (recv (1, 2, 3, 4)%Z (Some ex_garbage) false))
    = Normal (Some (Some ex_sid, Msg_event (mk_ntlp_msg ex_sid b (Pathcoupled ex_pc) 5) true)) /\ received b.
Proof.
  pose proof (map_receive_cases (recv (1, 2, 3, 4)%Z (Some ex_garbage) false) (1, 2, 3, 4)%Z (Pathcoupled ex_pc)
    eq_refl eq_refl eq_refl) as Hc.
  assert (E : match map_to_event (Api_msg (recv (1, 2, 3, 4)%Z (Some ex_garbage) false)) with
              | Normal (Some _) => true | _ => false end = true) by (vm_compute; reflexivity).
  destruct (map_to_event _) as [[[id evt]|]|e|f]; try discriminate E.
  destruct Hc as [-> [(Hd & _)|(data & b & _ & Hr & ->)]].
  - intros data [= <-]. split; [repeat constructor; done|cbn; unfold OT_ipap_message; lia].
  - discriminate Hd.
  - by exists b.
Defined.

(** The payload of the CREATE, delivered. *)
Theorem mapper_roundtrip_witness :
  exists a, create_api_msg ex_ntlp = Normal a /\ c_source a = Some INPUT_QUEUE_ADDRESS
    /\ map_to_event (Api_msg (recv (1, 2, 3, 4)%Z (c_data a) false))
       = Normal (Some (Some ex_sid, Msg_event (mk_ntlp_msg ex_sid (Some ex_create) (Pathcoupled ex_pc) 5) true)).
Proof.
  destruct (mapper_roundtrip ex_ntlp ex_create ex_view
    [new_msg_sequence_number 77 tr_mandatory true; new_session_lifetime 30 tr_mandatory true;
     new_selection_auctioning_entities sme_any tr_mandatory true;
     new_message_hop_count 20 tr_mandatory true; ex_ipap [7; 8; 9]%Z; ex_ipap [1]%Z]) as (data & sid & E & Hr).
  - reflexivity.
  - split_and!; by vm_compute.
  - exact ex_create_view.
  - exact (wire_create _ _ _ _ _).
  - reflexivity.
  - eexists. split; [exact E|]. split; [reflexivity|].
    assert (Es : sid = (1, 2, 3, 4)%Z).
    { apply (f_equal (fun o => match o with Normal a => c_sid a | _ => None end)) in E.
      cbn [c_sid set_sendmessage c_gist] in E. vm_compute in E. by injection E as <-. }
    subst sid. exact (Hr (recv (1, 2, 3, 4)%Z (Some data) false) (Pathcoupled ex_pc) eq_refl eq_refl eq_refl eq_refl).
Defined.

Definition ex_padded : c_api :=
  recv (1, 2, 3, 4)%Z (Some [1; 0; 0; 0; 0; 0xF9; 0; 2; 3; 7; 8; 9; 0; 0; 0; 1]%Z) false.

Theorem nonzero_padding_aborts_witness : map_to_event (Api_msg ex_padded) = Faulted Assertion_failed.
Proof.
  apply (nonzero_padding_aborts (H3 := c_gist) ex_padded (1, 2, 3, 4)%Z C_create tr_mandatory [7; 8; 9]%Z [3; 7; 8; 9]%Z [0; 0; 0; 1]%Z).
  - reflexivity.
  - reflexivity.
  - vm_compute. reflexivity.
  - apply (ex_ipap_wf [7; 8; 9]%Z). reflexivity.
  - reflexivity.
  - cbn. lia.
  - reflexivity.
  - exists 2. split; [reflexivity|lia].
Defined.
End Mapper_examples.
