(* ===== verification/Installer.v ===== *)
(** * The auction rule installers: include/auction_rule_installer.h,
    src/nop_auction_rule_installer.cpp, src/netauct_rule_installer.cpp

    An installer hands auction rules to the auctioning application of the
    node.  [netauct_rule_installer] does so by events in the application's
    queue; [nop_auction_rule_installer] only logs.  Both are values of the
    record of virtual methods [auction_rule_installer], and both keep the
    contract [installer_ok] the dispatcher relies on. *)
From S2P Require Import Prelude Outcome StdMap External Objects Store Messages SessionId NtlpMsg AuctionRule Aqueue Events Session.
From Stdlib Require Import Ascii.

(** ** The platform below the daemon: libuuid, OpenSSL, the C library, the
    queues of the API. *)
Class Env `{Libs} (E : Type) := {
  env_uuid : E -> uuid * E;
  env_RAND : E -> Z * E;
  env_rand : E -> Z * E;
  env_enqueue : queue -> queue_msg -> E -> E }.

#[export] Instance env_platform `{Libs} {E : Type} `{!Env E} : Platform E := {|
  uuid_generate e := let '(u, e') := env_uuid e in (Normal u, e');
  RAND_word e := let '(n, e') := env_RAND e in (Normal n, e');
  rand e := let '(n, e') := env_rand e in (Normal n, e');
  enqueue q m e := (Normal tt, env_enqueue q m e) |}.

Definition installer_error (text : string) (code : Z) : exn :=
  Installer_error (mk_request_error text sc_signaling_session_failures code).

(** ** The replies of the auction manager's web interface: [responseOk],
    [getNumberAuctions] and [getMessage] of the netauct installer. *)
Section Replies.
Fixpoint starts_with (pat s : list ascii) : bool :=
  match pat, s with
  | [], _ => true
  | c :: pat, d :: s => Ascii.eqb c d && starts_with pat s
  | _ :: _, [] => false
  end.

(** [s.find(pat)]; [None] for [npos]. *)
Fixpoint string_find (pat s : list ascii) : option nat :=
  if starts_with pat s then Some 0
  else match s with [] => None | _ :: s => option_map S (string_find pat s) end.

(** [s.substr(pos, n)], for a position in the string. *)
Definition substr (pos n : nat) (s : list ascii) : list ascii := take n (drop pos s).

Definition text (s : string) : list ascii := String.list_ascii_of_string s.

(** [atoi]: white space, a sign, and the digits up to the first other
    character. *)
Definition atoi (s : list ascii) : Z :=
  match skip_spaces s with
  | c :: t => if Ascii.eqb c "-" then - fst (digits_go 10 0 t)
              else if Ascii.eqb c "+" then fst (digits_go 10 0 t) else fst (digits_go 10 0 (c :: t))
  | [] => 0
  end%Z.

Definition responseOk (response : list ascii) : bool := is_some (string_find (text "OK") response).

Definition getNumberAuctions (response : list ascii) : Z :=
  let tofind := text "<NbrAuctions>" in
  let tofind2 := text "</NbrAuctions>" in
  match string_find tofind response with
  | None => 0
  | Some found =>
      let pos := found + length tofind in
      match string_find tofind2 response with
      | None => 0
      (* pos2 - pos wraps around to a length past the end when the end tag comes first *)
      | Some pos2 => atoi (if (pos2 <? pos)%nat then drop pos response else substr pos (pos2 - pos) response)
      end
  end.

Definition getMessage (response : list ascii) : list ascii :=
  let tofind := text "<?xml version=" in
  let tofind2 := text "</IPAP_MESSAGE>" in
  match string_find tofind response with
  | None => []
  | Some pos =>
      match string_find tofind2 response with
      | Some pos2 => substr pos (pos2 + length tofind2) response
      | None => substr pos (length response) response
      end
  end.

(** What [getMessage] cuts out of a reply: the IPAP message and, behind
    its end tag, as many more characters as came before its start - the end
    of the cut is a position in the reply, used as a length.  The message
    alone is returned only if nothing precedes or nothing follows it. *)
Theorem getMessage_cut (pre message post : list ascii)
  (Hstart : string_find (text "<?xml version=") (pre ++ message ++ post) = Some (length pre))
  (Hend : string_find (text "</IPAP_MESSAGE>") (pre ++ message ++ post) = Some (length pre + length message - 15))
  (Hlen : 15 <= length message) :
  getMessage (pre ++ message ++ post) = message ++ take (length pre) post.
Proof.
  unfold getMessage. rewrite Hstart, Hend. change (length (text "</IPAP_MESSAGE>")) with 15.
  unfold substr. rewrite drop_app_length.
  replace (length pre + length message - 15 + 15) with (length message + length pre) by lia.
  by rewrite take_app_add.
Qed.
End Replies.

Section Installers.
Context `{Libs} {E : Type} `{!Env E} `{!Cqueue AnslpEvent}.

(** The state of an installer: the application's queue and the platform. *)
Abbreviation IM := (M (FastQueue (E := AnslpEvent) * E)).

(** The pure virtual methods. *)
Record auction_rule_installer := mk_installer {
  i_check : list ascii -> objectList_t -> IM unit;
  i_create : list ascii -> option auction_rule -> IM unit;
  i_remove : list ascii -> option auction_rule -> IM unit;
  i_put_response : list ascii -> option auction_rule -> IM unit;
  i_auction_interaction : bool -> list ascii -> option auction_rule -> IM (option auction_rule);
  i_remove_all : IM bool }.

(** A call on the queue. *)
Definition on_queue {A} (m : M (FastQueue (E := AnslpEvent)) A) : IM A := fun '(q, e) =>
  let '(o, q') := m q in (o, (q', e)).

(** ** [nop_auction_rule_installer]. *)
Definition nop_auction_interaction (server : bool) (sid : list ascii) (rule : option auction_rule)
  : IM (option auction_rule) :=
  match rule with
  | None => ret None
  | Some rule =>
      let rule_return := rule_copy rule in
      r <- outside (add_responses (map (fun kv => object_copy (snd kv)) (object_requests rule_return)) rule_return) ;;
      ret (Some r)
  end.

Definition nop_auction_rule_installer : auction_rule_installer := {|
  i_check _ _ := ret tt;
  i_create _ _ := ret tt;
  i_remove _ _ := ret tt;
  i_put_response _ _ := ret tt;
  i_auction_interaction := nop_auction_interaction;
  i_remove_all := ret true |}.

(** ** [netauct_rule_installer]: the two flags of the configuration. *)
Section Netauct.
Variables (get_install_auction_rules is_auctioneer : bool).

(** [if (!getQueue()->enqueue(evt)) throw ...]. *)
Definition queue_event (evt : AnslpEvent) : IM unit :=
  queued <- on_queue (fq_enqueue evt false) ;;
  if negb queued then raise (installer_error "Process could not enqueue the anslp event" sigfail_wrong_conf_message)
  else ret tt.

(** [handle_response_check]: nothing calls it.  The event has no objects
    when no auction satisfies the request. *)
Definition handle_response_check : M (FastQueue (E := AnslpEvent)) unit :=
  ret_evt <- dequeue_timedwait 10000 ;;
  if negb (is_response_checksession_event ret_evt) then
    raise (installer_error "Unexpected anslp event returned, expecting response_checksession" sigfail_wrong_conf_message)
  else
    e <- deref ret_evt ;;
    if (length (ae_objects e) =? 0)%nat then
      raise (installer_error "No auction satisfying filter criteria" sigfail_auction_not_applicable)
    else ret tt.

Definition netauct_check (sid : list ascii) (missing_objects : objectList_t) : IM unit :=
  if get_install_auction_rules then
    queue_event (set_objects missing_objects (setSession sid (new_AnslpEvent (CheckEvent Local_queue))))
  else ret tt.

Definition handle_create_session (sid : list ascii) (rule : option auction_rule) : IM unit :=
  rule <- deref rule ;;
  let auc_return := rule_copy rule in
  queue_event (set_objects (object_requests auc_return) (setSession sid (new_AnslpEvent (AddSessionEvent No_queue)))).

Definition netauct_create (sid : list ascii) (rule : option auction_rule) : IM unit :=
  assert_that (is_some rule) ;;;
  if get_install_auction_rules then handle_create_session sid rule else ret tt.

Definition netauct_put_response (sid : list ascii) (rule : option auction_rule) : IM unit :=
  if is_auctioneer then handle_create_session sid rule
  else raise (installer_error "The Ni-Session agent is not configured as auctioneer" sigfail_wrong_conf_message).

Definition handle_remove_session (sid : list ascii) (rule : option auction_rule) : IM unit :=
  rule <- deref rule ;;
  queue_event (set_objects (object_requests rule) (setSession sid (new_AnslpEvent (RemoveSessionEvent Local_queue)))).

Definition netauct_remove (sid : list ascii) (rule : option auction_rule) : IM unit :=
  assert_that (is_some rule) ;;;
  if get_install_auction_rules || is_auctioneer then handle_remove_session sid rule else ret tt.

(** [remove_all] has no return statement in its [else] branch. *)
Definition netauct_remove_all : IM bool := if get_install_auction_rules then ret true else trip Missing_return.

Definition netauct_auction_interaction (server : bool) (sid : list ascii) (rule : option auction_rule)
  : IM (option auction_rule) :=
  rule <- deref rule ;;
  let auc_return := rule_copy rule in
  queue_event (set_objects (object_requests auc_return) (setSession sid (new_AnslpEvent AuctionInteractionEvent))) ;;;
  r <- outside (add_responses (map (fun kv => object_copy (snd kv)) (object_requests auc_return)) auc_return) ;;
  ret (Some r).

Definition netauct_rule_installer : auction_rule_installer := {|
  i_check := netauct_check;
  i_create := netauct_create;
  i_remove := netauct_remove;
  i_put_response := netauct_put_response;
  i_auction_interaction := netauct_auction_interaction;
  i_remove_all := netauct_remove_all |}.
End Netauct.

(** ** What the dispatcher relies on: for a rule, an operation returns or
    throws an installer error; it never faults. *)
Definition returns_or_throws {A} (m : IM A) : Prop :=
  forall s, match fst (m s) with Normal _ => True | Raised e => exists r, e = Installer_error r | Faulted _ => False end.

Record installer_ok (I : auction_rule_installer) : Prop := {
  check_ok : forall sid l, returns_or_throws (i_check I sid l);
  create_ok : forall sid r, returns_or_throws (i_create I sid (Some r));
  remove_ok : forall sid r, returns_or_throws (i_remove I sid (Some r));
  put_ok : forall sid r, returns_or_throws (i_put_response I sid (Some r));
  interaction_ok : forall b sid r, returns_or_throws (i_auction_interaction I b sid (Some r)) }.

Lemma rot_ret {A} (a : A) : returns_or_throws (ret a).
Proof. done. Qed.

Lemma rot_bind {A B} (m : IM A) (k : A -> IM B) :
  returns_or_throws m -> (forall a, returns_or_throws (k a)) -> returns_or_throws (bind m k).
Proof.
  intros Hm Hk s. unfold bind. specialize (Hm s). destruct (m s) as [[a|e|f] s']; cbn in *; [apply Hk|done|done].
Qed.

Lemma rot_throw {A} text code : returns_or_throws (A := A) (raise (installer_error text code)).
Proof. intros s. by eexists. Qed.

Lemma rot_queue_event evt : returns_or_throws (queue_event evt).
Proof.
  intros [q e]. unfold queue_event, bind, on_queue, fq_enqueue. destruct (shutdownflag q); [by eexists|].
  destruct (enqueue_element_expedited_signal _ _ _); [done|by eexists].
Qed.

(** The responses get keys of their own. *)
Lemma add_responses_env l r (e : E) :
  exists ks e', length ks = length l
    /\ add_responses l r e = (Normal (mk_rule (object_requests r) (with_entries ks l (object_responses r))), e').
Proof.
  revert r e. induction l as [|o l IH]; intros r e; [exists [], e; by destruct r|].
  cbn [add_responses]. unfold bind at 1. cbn [uuid_generate env_platform]. destruct (env_uuid e) as [k e1].
  unfold bind, lift_outcome. cbn [set_response_object set_response_object_at snd].
  destruct (IH (mk_rule (object_requests r) (map_set mspec_rule_key_ltb k o (object_responses r))) e1)
    as (ks & e' & Hk & E1). exists (k :: ks), e'. split; [cbn; congruence|exact E1].
Qed.

Lemma rot_add_responses l r : returns_or_throws (outside (add_responses l r)).
Proof. intros [q e]. unfold outside. by destruct (add_responses_env l r e) as (ks & e' & _ & ->). Qed.
End Installers.
#[export] Hint Resolve rot_ret rot_bind rot_throw rot_queue_event rot_add_responses : anslp.

Section Contract.
Context `{Libs} {E : Type} `{!Env E} `{!Cqueue AnslpEvent}.

(** Both installers keep the contract of the base class: whatever the
    configuration, the queue and the rule, an operation on a rule returns or
    throws an [auction_rule_installer_error]. *)
Theorem installers_keep_contract (get_install_auction_rules is_auctioneer : bool) :
  installer_ok (E := E) nop_auction_rule_installer
  /\ installer_ok (E := E) (netauct_rule_installer get_install_auction_rules is_auctioneer).
Proof.
  split; constructor; cbn [nop_auction_rule_installer netauct_rule_installer i_check i_create i_remove i_put_response
    i_auction_interaction]; intros; auto with anslp.
  - unfold nop_auction_interaction. auto with anslp.
  - unfold netauct_check. destruct get_install_auction_rules; auto with anslp.
  - unfold netauct_create, handle_create_session. cbn [is_some assert_that deref]. destruct get_install_auction_rules; eauto with anslp.
  - unfold netauct_remove, handle_remove_session. cbn [is_some assert_that deref].
    destruct (get_install_auction_rules || is_auctioneer); eauto with anslp.
  - unfold netauct_put_response, handle_create_session. cbn [deref]. destruct is_auctioneer; eauto with anslp.
  - unfold netauct_auction_interaction. cbn [deref]. eauto 7 with anslp.
Qed.

Context `{!LibsLaws} `{!CqueueLaws AnslpEvent}.

(** [m] hands [evt] over: it is put behind the events of the queue, or an
    installer error is thrown and nothing has changed. *)
Definition hands_over {A} (evt : AnslpEvent) (m : M (FastQueue (E := AnslpEvent) * E) A) (P : A -> Prop) : Prop :=
  forall q e,
  match fq_enqueue evt false q with
  | (Normal true, q') => queue_elements (fq_queue q') = queue_elements (fq_queue q) ++ [evt]
      /\ exists a e', m (q, e) = (Normal a, (q', e')) /\ P a
  | _ => fst (m (q, e)) = Raised (installer_error "Process could not enqueue the anslp event" sigfail_wrong_conf_message)
      /\ fst (snd (m (q, e))) = q
  end.

Lemma queue_event_run evt q e :
  queue_event (E := E) evt (q, e)
  = if shutdownflag q then (Raised (installer_error "Process could not enqueue the anslp event" sigfail_wrong_conf_message), (q, e))
    else match enqueue_element_expedited_signal evt false (fq_queue q) with
         | None => (Raised (installer_error "Process could not enqueue the anslp event" sigfail_wrong_conf_message), (q, e))
         | Some q' => (Normal tt, (mk_fastqueue q' (shutdownflag q), e))
         end.
Proof.
  unfold queue_event, bind, on_queue, fq_enqueue. cbn beta iota. destruct (shutdownflag q); [done|].
  by destruct (enqueue_element_expedited_signal _ _ _).
Qed.

Lemma queue_event_hands_over {A} evt (m k : M (FastQueue (E := AnslpEvent) * E) A) (P : A -> Prop) :
  (forall s, m s = bind (queue_event evt) (fun _ => k) s) ->
  (forall q e, exists a e', k (q, e) = (Normal a, (q, e')) /\ P a) ->
  hands_over evt m P.
Proof.
  intros Hm Hk q e. rewrite Hm. unfold bind. rewrite queue_event_run. unfold fq_enqueue. destruct (shutdownflag q) eqn:Es; [done|].
  destruct (enqueue_element_expedited_signal _ _ _) as [q'|] eqn:Eq; [|done].
  split; [by apply enqueue_adds in Eq|]. apply Hk.
Qed.

Lemma queue_event_only evt (m : M (FastQueue (E := AnslpEvent) * E) unit) :
  (forall s, m s = queue_event evt s) -> hands_over evt m (fun _ => True).
Proof.
  intros Hm. apply (queue_event_hands_over evt m (ret tt)); [|by eauto].
  intros s. rewrite Hm. unfold bind. by destruct (queue_event evt s) as [[[]|x|f] s'].
Qed.

Lemma wf_requests_copied (l : objectList_t) :
  Forall (fun kv => mspec_wf (snd kv)) l -> map (fun kv => object_copy (snd kv)) l = map snd l.
Proof. induction 1 as [|kv l [Ho _] Hl IH]; [done|]. cbn. by rewrite IH, object_copy_wf. Qed.

Lemma handle_create_session_wf sid r s :
  rule_wf r ->
  handle_create_session (E := E) sid (Some r) s
  = queue_event (mk_event (AddSessionEvent No_queue) (object_requests r) sid) s.
Proof.
  intros Hr. pose proof Hr as (Hs & _ & Hq & _). unfold handle_create_session, deref. rewrite bind_ret_l. cbv zeta.
  by rewrite (rule_copy_id r Hr), set_objects_all.
Qed.

(** C33. What the application gets, whatever the flags of the configuration.
    An operation that is switched on - [check] and [create] by the
    installation of rules, [put_response] by being an auctioneer, [remove] by
    either, the interaction always - puts exactly one event into the
    application's queue, behind those that wait there, with the session and
    all the requested objects; an interaction moreover returns the rule with
    every requested object as a response under a key of its own.  When the
    queue refuses the event, the operation throws and the queue is as before.
    The events of [check] and [remove] name a return queue that is gone when
    the operation returns.  Switched off, [check], [create] and [remove] do
    nothing and [put_response] throws; [remove_all] puts no event, and without
    the installation of rules it has no value to return. *)
Theorem netauct_hands_over (sid : list ascii) (r : auction_rule) (l : objectList_t) (install auctioneer server : bool)
  (Hr : rule_wf r) (Hl : map_sorted mspec_rule_key_ltb l) (Hlo : Forall (fun kv => mspec_wf (snd kv)) l) :
  let nothing (m : M (FastQueue (E := AnslpEvent) * E) unit) := forall s, m s = (Normal tt, s) in
  (if install then hands_over (mk_event (CheckEvent Local_queue) l sid) (netauct_check install sid l) (fun _ => True)
   else nothing (netauct_check install sid l))
  /\ (if install then hands_over (mk_event (AddSessionEvent No_queue) (object_requests r) sid) (netauct_create install sid (Some r)) (fun _ => True)
      else nothing (netauct_create install sid (Some r)))
  /\ (if auctioneer then
        hands_over (mk_event (AddSessionEvent No_queue) (object_requests r) sid) (netauct_put_response auctioneer sid (Some r)) (fun _ => True)
      else forall s, exists e, netauct_put_response (E := E) auctioneer sid (Some r) s = (Raised (Installer_error e), s))
  /\ (if install || auctioneer then
        hands_over (mk_event (RemoveSessionEvent Local_queue) (object_requests r) sid) (netauct_remove install auctioneer sid (Some r)) (fun _ => True)
      else nothing (netauct_remove install auctioneer sid (Some r)))
  /\ hands_over (mk_event AuctionInteractionEvent (object_requests r) sid) (netauct_auction_interaction server sid (Some r))
       (fun a => exists ks, length ks = length (object_requests r)
          /\ a = Some (mk_rule (object_requests r) (with_entries ks (map snd (object_requests r)) (object_responses r))))
  /\ forall s, netauct_remove_all (E := E) install s = (if install then Normal true else Faulted Missing_return, s).
Proof.
  pose proof Hr as (Hs & _ & Hq & _).
  split_and!.
  - destruct install; [|done]. apply queue_event_only. intros s. unfold netauct_check. by rewrite set_objects_all.
  - destruct install; [|done]. apply queue_event_only. intros s. change (handle_create_session sid (Some r) s = queue_event (mk_event (AddSessionEvent No_queue) (object_requests r) sid) s).
    by rewrite handle_create_session_wf.
  - destruct auctioneer; [|intros s; by eexists]. apply queue_event_only. intros s. by apply handle_create_session_wf.
  - destruct (install || auctioneer) eqn:Hon; [|intros s; unfold netauct_remove; by rewrite Hon]. apply queue_event_only. intros s. unfold netauct_remove. rewrite Hon.
    change (handle_remove_session sid (Some r) s = queue_event (mk_event (RemoveSessionEvent Local_queue) (object_requests r) sid) s).
    unfold handle_remove_session, deref. rewrite bind_ret_l. by rewrite set_objects_all.
  - eapply queue_event_hands_over; [intros s|intros q e].
    + unfold netauct_auction_interaction, deref. rewrite bind_ret_l. cbv zeta. by rewrite (rule_copy_id r Hr), set_objects_all.
    + unfold bind, outside. rewrite wf_requests_copied by done.
      destruct (add_responses_env (map snd (object_requests r)) r e) as (ks & e' & Hk & ->).
      rewrite length_map in Hk. eexists _, e'. split; [done|]. by exists ks.
  - by destruct install.
Qed.
End Contract.

(** ** A platform that counts. *)
Module Installer_examples.
Import Concrete Concrete_queue Rule_examples.

#[export] Instance counting_env : Env Z := {|
  env_uuid n := (n, (n + 1)%Z);
  env_RAND n := (n, (n + 1)%Z);
  env_rand n := (n, (n + 1)%Z);
  env_enqueue _ _ n := n |}.

Definition open_queue : FastQueue (E := AnslpEvent) := mk_fastqueue ([] : queue_t (E := AnslpEvent)) false.

Theorem netauct_hands_over_witness :
  netauct_create (E := Z) true (text "1.2.3.4") (Some ex_rule) (open_queue, 100%Z)
  = (Normal tt, (mk_fastqueue ([mk_event (AddSessionEvent No_queue) (object_requests ex_rule) (text "1.2.3.4")]
                               : queue_t (E := AnslpEvent)) false, 100%Z)).
Proof.
  pose proof ex_rule_wf as Hr. pose proof Hr as (Hs & _ & Hq & _).
  destruct (netauct_hands_over (E := Z) (text "1.2.3.4") ex_rule (object_requests ex_rule) true true true Hr Hs Hq)
    as (_ & Hc & _). destruct (Hc open_queue 100%Z) as (_ & [] & e' & E & _). rewrite E.
  apply (f_equal (fun r => snd (snd r))) in E. vm_compute in E. by rewrite <- E.
Defined.

Theorem getMessage_cut_witness :
  getMessage (text "ok <?xml version=1?></IPAP_MESSAGE>tail") = text "<?xml version=1?></IPAP_MESSAGE>tai".
Proof.
  change (text "ok <?xml version=1?></IPAP_MESSAGE>tail")
    with (text "ok " ++ text "<?xml version=1?></IPAP_MESSAGE>" ++ text "tail").
  rewrite (getMessage_cut (text "ok ") (text "<?xml version=1?></IPAP_MESSAGE>") (text "tail")); [reflexivity..|cbn; lia].
Defined.
End Installer_examples.
