(* ===== verification/Daemon.v ===== *)
(** * The daemon: src/anslp_daemon.cpp and the services of src/dispatcher.cpp

    What the dispatcher offers to sessions, implemented: messages are mapped
    to APIMsgs and sent to GIST, timers are timer messages, auction rules go
    to the rule installer.  And [anslp_daemon::main_loop]: a message of the
    input queue is mapped to an event, the dispatcher processes the event.

    The interface [Session.Dispatcher] has no way to report a message that
    cannot be written: [send_message] is declared [throw ()] and ends the
    program.  A [world] therefore carries the first such fault, [w_stopped],
    beside what was sent; what a session does after it is not observable, and
    the main loop ends with that fault when the event has been processed. *)
From S2P Require Import NiSession NrSession NfSession.
From S2P Require Import Prelude Outcome StdMap External Objects Store Messages Codec Parser SessionId NtlpMsg AuctionRule Aqueue Events GistMapper Session Installer SessionManager Dispatcher DispatcherSpec.
From stdpp Require Import gmap.
From Stdlib Require Import Ascii.

(** What the daemon uses of protlib: queues by address, IDs of messages, the
    timer module. *)
Class Protlib `{Gist} (E : Type) := {
  send_to : qaddr -> APIMsg -> E -> bool * E;
  new_message_id : E -> Z * E;
  start_relative : session_id -> Z -> Z -> E -> E }.

Section Services.
Context `{Libs} `{NetMsg} `{!ProtlibIE ie} `{!Gist} {E : Type} `{!Env E} `{!Protlib E} `{!Cqueue AnslpEvent}.

(** The messages among the effects of sessions. *)
Definition messages_of (l : list effect) : list ntlp_msg := omap (fun e => match e with Sent n => Some n | _ => None end) l.

(** GIST's queue may refuse a message. *)
Definition refused : Prop := exists a (e : E), fst (send_to OUTPUT_QUEUE_ADDRESS a e) = false.

(** What the daemon has done: every message a session sent was handed to
    GIST in its order; or the first that could not be is known. *)
Definition accounted (history : list effect) (sent : list APIMsg) (stopped : option fault) : Prop :=
  match stopped with
  | None => mapO create_api_msg (messages_of history) = Normal sent
  | Some f => (f = Assertion_failed /\ refused) \/ exists n, n ∈ messages_of history /\ create_api_msg n = Faulted f
  end.

Record world := mk_world {
  w_history : list effect;
  w_sent : list APIMsg;
  w_stopped : option fault;
  w_queue : FastQueue (E := AnslpEvent);
  w_env : E;
  w_accounted : accounted w_history w_sent w_stopped }.

Lemma messages_of_app a b : messages_of (a ++ b) = messages_of a ++ messages_of b.
Proof. apply omap_app. Qed.

Lemma mapO_snoc {A B} (f : A -> outcome B) l a bs b :
  mapO f l = Normal bs -> f a = Normal b -> mapO f (l ++ [a]) = Normal (bs ++ [b]).
Proof.
  revert bs. induction l as [|x l IH]; intros bs; cbn.
  - intros [= <-] ->. done.
  - destruct (f x); try done. cbn. destruct (mapO f l); try done. cbn. intros [= <-] E1. by rewrite (IH _ eq_refl E1).
Qed.

Lemma accounted_quiet es h s f : messages_of es = [] -> accounted h s f -> accounted (h ++ es) s f.
Proof. intros Hq. unfold accounted. by rewrite messages_of_app, Hq, app_nil_r. Qed.

Lemma accounted_stopped n h s f : accounted h s (Some f) -> accounted (h ++ [Sent n]) s (Some f).
Proof.
  intros [Hr|(x & Hx & Hf)]; [by left|]. right. exists x. split; [|done]. rewrite messages_of_app. by apply elem_of_app; left.
Qed.

Lemma accounted_unwritable n h s f : create_api_msg n = Faulted f -> accounted (h ++ [Sent n]) s (Some f).
Proof. intros Hf. right. exists n. split; [|done]. rewrite messages_of_app. apply elem_of_app. right. by apply list_elem_of_here. Qed.

Lemma accounted_sent n a h s : create_api_msg n = Normal a -> accounted h s None -> accounted (h ++ [Sent n]) (s ++ [a]) None.
Proof. intros Ha Hs. unfold accounted. rewrite messages_of_app. by apply mapO_snoc. Qed.

(** ** The operations of a world. *)

(** An effect that sends nothing to GIST. *)
Definition record_effect (e : effect) (q : FastQueue (E := AnslpEvent)) (env : E) (Hq : messages_of [e] = []) (w : world) : world :=
  mk_world (w_history w ++ [e]) (w_sent w) (w_stopped w) q env (accounted_quiet _ _ _ _ Hq (w_accounted w)).

Definition with_env (env : E) (w : world) : world :=
  mk_world (w_history w) (w_sent w) (w_stopped w) (w_queue w) env (w_accounted w).

Definition with_queue (q : FastQueue (E := AnslpEvent)) (env : E) (w : world) : world :=
  mk_world (w_history w) (w_sent w) (w_stopped w) q env (w_accounted w).

(** A call of the platform. *)
Definition platform {A} (m : M E A) : M world A := fun w =>
  let '(o, env) := m (w_env w) in (o, with_env env w).

(** A call of the installer: the effect counts when it returns. *)
Definition installing {A} (e : effect) (Hq : messages_of [e] = []) (m : M (FastQueue (E := AnslpEvent) * E) A) : M world A := fun w =>
  match m (w_queue w, w_env w) with
  | (Normal a, (q, env)) => (Normal a, record_effect e q env Hq w)
  | (Raised x, (q, env)) => (Raised x, with_queue q env w)
  | (Faulted f, (q, env)) => (Faulted f, with_queue q env w)
  end.

Lemma create_api_msg_throws_nothing n x : create_api_msg n <> Raised x.
Proof.
  unfold create_api_msg. destruct (get_anslp_msg n) as [m|]; cbn; [|done].
  by destruct (msg_serialize _ _ _) as [[|[]|] ?].
Qed.

(** [dispatcher::send_message]: the message is mapped and put into GIST's
    queue, with an assertion on the success.  Nothing is sent once the daemon
    has stopped. *)
Definition hand_over (n : ntlp_msg) (w : world) : list APIMsg * option fault * E :=
  match w_stopped w with
  | Some f => (w_sent w, Some f, w_env w)
  | None =>
      match create_api_msg n with
      | Normal apimsg =>
          let '(success, env) := send_to OUTPUT_QUEUE_ADDRESS apimsg (w_env w) in
          if (success : bool) then (w_sent w ++ [apimsg], None, env) else (w_sent w, Some Assertion_failed, env)
      | Raised _ => (w_sent w, Some Terminated, w_env w)
      | Faulted f => (w_sent w, Some f, w_env w)
      end
  end.

Lemma hand_over_accounted n w :
  accounted (w_history w ++ [Sent n]) (fst (fst (hand_over n w))) (snd (fst (hand_over n w))).
Proof.
  unfold hand_over. destruct w as [h s [f|] q e Ha]; cbn [w_stopped w_history w_sent w_env]; [by apply accounted_stopped|].
  destruct (create_api_msg n) as [a|x|f] eqn:Ec; [|by destruct (create_api_msg_throws_nothing n x)|by apply accounted_unwritable].
  destruct (send_to OUTPUT_QUEUE_ADDRESS a e) as [[] e'] eqn:Es; [by apply accounted_sent|].
  left. split; [done|]. exists a, e. by rewrite Es.
Qed.

Definition d_send_message (n : ntlp_msg) : M world unit := fun w =>
  (Normal tt, mk_world (w_history w ++ [Sent n]) (fst (fst (hand_over n w))) (snd (fst (hand_over n w)))
                (w_queue w) (snd (hand_over n w)) (hand_over_accounted n w)).

(** [send_receive_answer]: the answer to a routing state check. *)
Definition answer_over (sid : session_id) (route : mri) (w : world) : option fault * E :=
  let reply := set_recvmessageanswer NSLP_ID (create_ntlp_session_id sid) route (set_source INPUT_QUEUE_ADDRESS new_APIMsg) in
  let '(success, env) := send_to OUTPUT_QUEUE_ADDRESS reply (w_env w) in
  (match w_stopped w with
   | Some f => Some f
   | None => if (success : bool) then None else Some Assertion_failed
   end, env).

Lemma answer_over_accounted sid route w : accounted (w_history w) (w_sent w) (fst (answer_over sid route w)).
Proof.
  unfold answer_over. destruct (send_to _ _ _) as [[] e'] eqn:Es; destruct w as [h s [f|] q e Ha]; cbn in *; try done.
  left. split; [done|]. eexists _, _. by rewrite Es.
Qed.

Definition d_send_receive_answer (sid : session_id) (route : mri) : M world unit := fun w =>
  (Normal tt, mk_world (w_history w) (w_sent w) (fst (answer_over sid route w)) (w_queue w)
                (snd (answer_over sid route w)) (answer_over_accounted sid route w)).

Definition d_start_timer (sid : session_id) (seconds : Z) : M world Z := fun w =>
  let '(id, env) := new_message_id (w_env w) in
  (Normal id, record_effect (Timer_started sid seconds id) (w_queue w) (start_relative sid id seconds env) eq_refl w).

(** Only logged. *)
Definition d_report_async_event (msg : string) : M world unit := fun w =>
  (Normal tt, record_effect (Reported msg) (w_queue w) (w_env w) eq_refl w).

Definition d_enqueue (q : queue) (m : queue_msg) : M world unit := fun w =>
  (Normal tt, record_effect (Enqueued q m) (w_queue w) (env_enqueue q m (w_env w)) eq_refl w).

(** The services for rules; [rule_installer] is never null. *)
Section Rules.
Variables (rule_installer : auction_rule_installer (E := E)) (get_install_auction_rules : bool).

(** An operation on a pointer to a rule. *)
Definition on_rule {A} (e : auction_rule -> effect) (Hq : forall r, messages_of [e r] = [])
  (m : option auction_rule -> M (FastQueue (E := AnslpEvent) * E) A) (r : option auction_rule) : M world A :=
  match r with
  | Some r => installing (e r) (Hq r) (m (Some r))
  | None => fun w => let '(o, (q, env)) := m None (w_queue w, w_env w) in (o, with_queue q env w)
  end.

Definition d_install_auction_rules (sid : list ascii) (act_rule : option auction_rule) : M world unit :=
  on_rule (Rules_installed sid) (fun _ => eq_refl) (i_create rule_installer sid) act_rule.

Definition d_auction_interaction (server : bool) (sid : list ascii) (act_rule : option auction_rule)
  : M world (option auction_rule) :=
  on_rule (Interaction server sid) (fun _ => eq_refl) (i_auction_interaction rule_installer server sid) act_rule.

Definition d_send_response (sid : list ascii) (act_rule : option auction_rule) : M world unit :=
  on_rule (Response_put sid) (fun _ => eq_refl) (i_put_response rule_installer sid) act_rule.

Definition d_remove_auction_rules (sid : list ascii) (act_rule : option auction_rule) : M world unit :=
  on_rule (Rules_removed sid) (fun _ => eq_refl)
    (fun r => match r with Some _ => i_remove rule_installer sid r | None => ret tt end) act_rule.

Definition d_check (sid : list ascii) (missing_objects : objectList_t) : M world bool :=
  installing (Checked sid missing_objects) eq_refl
    (if get_install_auction_rules then i_check rule_installer sid missing_objects ;;; ret true else ret false).

(** Everybody is authorized: the method is not implemented. *)
Definition d_is_authorized (n : ntlp_msg) : M world bool := ret true.

Definition node_dispatcher : Session.Dispatcher world := {|
  send_message := d_send_message;
  start_timer := d_start_timer;
  report_async_event := d_report_async_event;
  Session.d_check := d_check;
  install_auction_rules := d_install_auction_rules;
  auction_interaction := d_auction_interaction;
  send_response := d_send_response;
  remove_auction_rules := d_remove_auction_rules;
  is_authorized := d_is_authorized |}.
End Rules.

Definition node_platform : Platform world := {|
  uuid_generate := platform uuid_generate;
  RAND_word := platform RAND_word;
  rand := platform rand;
  enqueue := d_enqueue |}.
End Services.

(** ** The services keep the interface. *)
Section Keeps.
Context `{Libs} `{NetMsg} `{!ProtlibIE ie} `{!Gist} {E : Type} `{!Env E} `{!Protlib E} `{!Cqueue AnslpEvent}.

Lemma send_message_does n : does w_history (d_send_message (E := E) n) (fun _ => [Sent n]).
Proof.
  intros w. by exists tt.
Qed.

Lemma receive_answer_does sid route : does w_history (d_send_receive_answer (E := E) sid route) (fun _ => []).
Proof.
  intros w. exists tt. cbn. by rewrite app_nil_r.
Qed.

Lemma installing_may_throw {A} x Hq (m : M (FastQueue (E := AnslpEvent) * E) A) :
  returns_or_throws m -> may_throw w_history (installing x Hq m) [x].
Proof.
  intros Hm [h s st q e Ha]. unfold installing. cbn [w_queue w_env]. specialize (Hm (q, e)).
  destruct (m (q, e)) as [[a|y|f] [q' e']]; cbn in Hm; [left; by eexists| |done].
  right. destruct Hm as [r ->]. by exists r.
Qed.

Lemma platform_does {A} (m : M E A) : (forall e, exists a, fst (m e) = Normal a) -> does w_history (platform m) (fun _ => []).
Proof.
  intros Hm [h s st q e Ha]. unfold platform. cbn [w_env]. destruct (Hm e) as [a Ea].
  destruct (m e) as [o e']. cbn in Ea. subst o. exists a. split; [done|]. cbn. by rewrite app_nil_r.
Qed.

Variables (rule_installer : auction_rule_installer (E := E)) (get_install_auction_rules : bool).
Context (Hok : installer_ok rule_installer).

(** The dispatcher's services are what the sessions' theorems assume of
    them, for every installer that keeps its contract. *)
Definition node_effects :
  @Effects _ world (node_dispatcher rule_installer get_install_auction_rules) node_platform.
Proof.
  refine {| trace := w_history |}; cbn [send_message start_timer report_async_event Session.d_check install_auction_rules
    auction_interaction send_response remove_auction_rules is_authorized uuid_generate RAND_word rand enqueue
    node_dispatcher node_platform]; intros.
  - apply send_message_does.
  - intros w. unfold d_start_timer. destruct (new_message_id (w_env w)) as [id e]. by eexists.
  - intros w. by eexists.
  - apply installing_may_throw. destruct get_install_auction_rules; [|done].
    apply rot_bind; [by apply check_ok|done].
  - apply installing_may_throw. by apply create_ok.
  - apply installing_may_throw. by apply interaction_ok.
  - apply installing_may_throw. by apply put_ok.
  - apply installing_may_throw. by apply remove_ok.
  - intros w. exists true. split; [done|]. cbn. by rewrite app_nil_r.
  - apply platform_does. intros e. cbn. destruct (env_uuid e). by eexists.
  - apply platform_does. intros e. cbn. destruct (env_RAND e). by eexists.
  - apply platform_does. intros e. cbn. destruct (env_rand e). by eexists.
  - intros w. by eexists.
Defined.
End Keeps.

(** ** The main loop. *)
Section Main_loop.
Context `{Libs} `{NetMsg} `{!ProtlibIE ie} `{!Gist} {E : Type} `{!Env E} `{!Protlib E} `{!Cqueue AnslpEvent}.
Variables (config : anslp_config) (fuel : nat) (garbage : Z).
Variables (rule_installer : auction_rule_installer (E := E)) (get_install_auction_rules : bool).

#[local] Instance services : Session.Dispatcher world := node_dispatcher rule_installer get_install_auction_rules.
#[local] Instance below : Platform (world (E := E)) := node_platform.

(** The daemon: the session manager all dispatchers share, and the world. *)
Record daemon := mk_daemon { session_mgr : session_manager; outside_world : world (E := E) }.

(** [disp.process(evt)] *)
Definition dispatch_event (ev : option session_id * event) : M (session_manager * world) unit :=
  dispatch d_send_receive_answer config fuel garbage ev.

(** How an event ends: the first fault counts, and an exception that leaves
    the thread ends the program. *)
Definition settle (o : outcome unit) (w : world (E := E)) : outcome unit :=
  match w_stopped w, o with
  | Some f, _ => Faulted f
  | None, Raised _ => Faulted Terminated
  | None, o => o
  end.

(** One round of [main_loop]; [None] when no message came in time. *)
Definition main_loop_step (msg : option message) : M (daemon * unit) unit := fun '(d, u) =>
  match msg with
  | None => (Normal tt, (d, u))
  | Some msg =>
      match map_to_event msg with
      | Raised _ => (Faulted Terminated, (d, u))
      | Faulted f => (Faulted f, (d, u))
      | Normal None => (Normal tt, (d, u))
      | Normal (Some evt) =>
          let '(o, (m, w)) := dispatch_event evt (session_mgr d, outside_world d) in
          (settle o w, (mk_daemon m w, u))
      end
  end.

(** [main_loop], for the messages that come in while the thread runs. *)
Definition main_loop (msgs : list (option message)) : M (daemon * unit) unit := run_events main_loop_step msgs.
End Main_loop.
