(* ===== verification/DaemonSpec.v ===== *)
(** * What the daemon guarantees

    The main loop on messages of the input queue, from the bytes GIST delivers
    to the payloads GIST is given: the mapper, the parser, the dispatcher, the
    sessions, the serializers and the rule installer together. *)
From S2P Require Import NiSession NrSession NfSession.
From S2P Require Import Prelude Outcome StdMap External Objects Store Messages Codec Parser SessionId NtlpMsg AuctionRule Aqueue Events GistMapper Session Installer SessionManager Dispatcher DispatcherSpec Daemon.
From stdpp Require Import gmap.

Section DaemonSpec.
Context `{Libs} `{!LibsLaws} `{NetMsg} `{!NetMsgLaws} `{!ProtlibIE ie} `{!ProtlibIELaws ie} `{!Gist} `{!GistLaws}.
Context {E : Type} `{!Env E} `{!Protlib E} `{!Cqueue AnslpEvent}.
Variables (config : anslp_config) (fuel : nat) (garbage : Z).
Variables (rule_installer : auction_rule_installer (E := E)) (get_install_auction_rules : bool).

Implicit Types (d : daemon (E := E)) (msg : option message).

Abbreviation step := (main_loop_step config fuel garbage rule_installer get_install_auction_rules).

(** ** Messages the theorems are about. *)

(** Payloads are bytes; timers have the ID of a message; the API gives valid
    events. *)
Definition message_ok (m : message) : Prop :=
  match m with
  | Api_msg a => forall data, api_data a = Some data ->
      Forall byte data /\ (Z.of_nat (length data) < 2 ^ 32 - OT_ipap_message)%Z
  | Anslp_timer_msg _ id => id <> 0%Z
  | Anslp_event_msg _ evt => forall ev, evt = Some ev -> event_valid (snd ev)
  | Other_message => True
  end.

Definition msg_ok msg : Prop := forall m, msg = Some m -> message_ok m.

(** The event of a message for which GIST gave bytes. *)
Lemma receive_inv a id evt :
  (forall data, api_data a = Some data -> Forall byte data /\ (Z.of_nat (length data) < 2 ^ 32 - OT_ipap_message)%Z) ->
  map_api_receive_message a = Normal (Some (id, evt)) ->
  (exists route, evt = Routing_state_check_event route)
  \/ exists n b, evt = Msg_event n b /\ forall x, get_anslp_msg n = Some x -> exists v, msg_view x v.
Proof.
  intros Hd. unfold map_api_receive_message. destruct (create_anslp_session_id _) as [sid|x|f]; try done. cbn [obind].
  destruct (api_data a) as [data|]; [|destruct (api_adjacency_check a); [|done]; destruct (api_mri a); [|done]].
  2: { cbn. intros [= _ <-]. left. by eexists. }
  destruct (Hd data eq_refl) as [Hb Hl].
  destruct (iemanager_deserialize _ _ _ _) as [[[[e k]|]|y|g] [rd errs]] eqn:Er; try done.
  - destruct (parse_ie data e k rd errs Hb Hl Er) as (m & v & -> & Hv & _). cbn [obind].
    destruct (api_mri a); [|done]. cbn. intros [= _ <-]. right. eexists _, _. split; [done|]. intros x [= <-]. by exists v.
  - destruct errs; [done|]. cbn [obind]. destruct (api_mri a); [|done]. cbn. intros [= _ <-].
    right. eexists _, _. by split.
Qed.

Lemma message_ok_valid m id evt : message_ok m -> map_to_event m = Normal (Some (id, evt)) -> event_valid evt.
Proof.
  destruct m as [a|sid t|sid ev|]; cbn [message_ok map_to_event].
  - intros Hd Hm. unfold map_api_message in Hm.
    destruct (api_subtype_of a); [| | |done].
    + destruct (receive_inv a id evt Hd Hm) as [[route ->]|(n & b & -> & Hv)]; [done|].
      exact Hv.
    + unfold map_api_network_notification in Hm. destruct (api_msgstatus a); try done.
      destruct (create_anslp_session_id _); try done. by injection Hm as _ <-.
    + unfold map_api_message_status in Hm. destruct (api_sessionid a); [|done]. destruct (api_msgstatus a); try done.
      destruct (create_anslp_session_id _); try done. by injection Hm as _ <-.
  - intros Ht [= _ <-]. exact Ht.
  - intros Hv Hev. injection Hev as ->. by apply (Hv (id, evt)).
  - done.
Qed.

(** ** The abstract daemon: the node's table of protocol automata. *)
Inductive msg_step : gmap session_id automaton -> option message -> gmap session_id automaton -> Prop :=
  | step_no_message T : msg_step T None T
  | step_no_event T m : map_to_event m = Normal None -> msg_step T (Some m) T
  | step_event T m ev T' : map_to_event m = Normal (Some ev) -> node_step config T ev T' -> msg_step T (Some m) T'.

(** The invariant: the node's, nothing has gone wrong, and GIST was given
    every message the sessions sent, serialized, in their order. *)
Definition daemon_wf d : Prop :=
  node_wf (session_mgr d) /\ w_stopped (outside_world d) = None
  /\ mapO create_api_msg (messages_of (w_history (outside_world d))) = Normal (w_sent (outside_world d)).

(** What ends the program: a payload the mapper or the parser trips over; a
    fault of the node; a message that was sent but cannot be written; a queue
    that refuses a message. *)
Definition msg_fault d msg (f : fault) : Prop :=
  exists m, msg = Some m /\
    (map_to_event m = Faulted f
     \/ (exists x, map_to_event m = Raised x) /\ f = Terminated
     \/ exists ev, map_to_event m = Normal (Some ev) /\
          (node_fault config garbage (session_mgr d) ev f
           \/ (f = Assertion_failed /\ refused (E := E))
           \/ exists n, create_api_msg n = Faulted f
                /\ n ∈ messages_of (w_history (snd (snd (dispatch_event config fuel garbage rule_installer
                      get_install_auction_rules ev (session_mgr d, outside_world d))))))).

Context (Hok : installer_ok rule_installer).

#[local] Existing Instance below.
#[local] Instance node_services : Session.Dispatcher (world (E := E)) := services rule_installer get_install_auction_rules.
#[local] Instance effects : Effects (world (E := E)) := node_effects rule_installer get_install_auction_rules Hok.

Lemma gist_answer_does sid route : does (trace (Effects := effects)) (d_send_receive_answer (E := E) sid route) (fun _ => []).
Proof. exact (receive_answer_does sid route). Qed.

(** A round that ends well leaves the daemon as it should be. *)
Lemma round_wf d d' u (m : message) id evt :
  config_ok config -> daemon_wf d -> map_to_event m = Normal (Some (id, evt)) -> event_valid evt ->
  step (Some m) (d, u) = (Normal tt, (d', u)) -> daemon_wf d'.
Proof.
  intros Hc (Hn & _ & _) Em Hv. unfold step, main_loop_step. rewrite Em.
  pose proof (dispatch_ok (W := world) d_send_receive_answer gist_answer_does config fuel garbage Hc (session_mgr d) (outside_world d)
    (id, evt) Hn Hv) as Hd.
  unfold dispatch_event. change (services rule_installer get_install_auction_rules) with node_services.
  destruct (dispatch _ _ _ _ _ _) as [o [m' w']]. unfold settle. pose proof (w_accounted w') as Ha. unfold accounted in Ha.
  destruct (w_stopped w') eqn:Es; [done|]. destruct o as [[]|x|f]; [|done|done]. intros [= <-]. by destruct Hd.
Qed.

Lemma main_loop_step_ok :
  config_ok config -> refines_step step (fun d => node_of (session_mgr d)) msg_ok daemon_wf msg_step (fun _ _ _ => False) msg_fault.
Proof.
  intros Hc [m w] u [msg|] Hwf Hv; [|by split; [|constructor]].
  destruct Hwf as (Hn & Hs & Hacc). cbn [session_mgr outside_world] in *. unfold step, main_loop_step.
  destruct (map_to_event msg) as [[[id evt]|]|x|f] eqn:Em.
  - set (run := dispatch_event config fuel garbage rule_installer get_install_auction_rules (id, evt) (m, w)).
    assert (Hd : match run with
      | (Normal _, (m', _)) => node_wf m' /\ node_step config (node_of m) (id, evt) (node_of m')
      | (Raised _, _) => False
      | (Faulted f, _) => node_fault config garbage m (id, evt) f
      end).
    { pose proof (dispatch_ok (W := world) d_send_receive_answer gist_answer_does config fuel garbage Hc m w (id, evt) Hn
      (message_ok_valid msg id evt (Hv _ eq_refl) Em)) as Hd.
      unfold run, dispatch_event. change (services rule_installer get_install_auction_rules) with node_services.
      destruct (dispatch _ _ _ _ _ _) as [[[]|x|f] [m' w']]; [done|by destruct Hd|done]. }
    cbn [session_mgr outside_world]. fold run. destruct run as [o [m' w']] eqn:Ed.
    unfold settle. pose proof (w_accounted w') as Ha. unfold accounted in Ha.
    destruct (w_stopped w') as [f|] eqn:Es.
    + exists msg. split; [done|]. right; right. exists (id, evt). split; [done|]. right.
      destruct Ha as [[-> Hr]|(n & Hin & Hf)]; [by left|]. right. exists n. split; [done|].
      cbn [session_mgr outside_world]. fold run. by rewrite Ed.
    + destruct o as [[]|x|f]; [|done|].
      * destruct Hd as [Hwf' Hst]. split; [by split_and!|]. by eapply step_event.
      * exists msg. split; [done|]. right; right. exists (id, evt). split; [done|]. by left.
  - split; [by split_and!|by constructor].
  - exists msg. split; [done|]. right; left. split; [by exists x|done].
  - exists msg. split; [done|]. by left.
Qed.

(** C1. The daemon refines its table of protocol automata, from bytes to
    bytes.  Whatever messages come in - payloads of any bytes, well-formed
    or malformed, timers, calls of the API - the main loop keeps the node
    well-formed, every message moves at most the automaton of its session
    along its protocol, and GIST has been given exactly the messages the
    sessions sent, serialized, in the order they were sent.  No exception
    leaves the loop, and when the program ends it is for a listed reason. *)
Theorem daemon_refines_protocol (msgs : list (option message)) d u
  (Hc : config_ok config) (Hwf : daemon_wf d) (Hv : Forall msg_ok msgs) :
  refines_run step (fun d => node_of (session_mgr d)) daemon_wf msg_step (fun _ _ _ => False) msg_fault msgs d u.
Proof. eapply run_refines; [by apply main_loop_step_ok|done..]. Qed.
End DaemonSpec.
