(* ===== verification/Handshake.v ===== *)
(** * Two nodes

    An initiator and a responder, each a daemon of [Daemon.v], and GIST between
    them: the request of a user at the one becomes a session at the other.
    Everything in between is the code's - the request's event, the
    initiator's session, its CREATE, the bytes of the payload, the parser, the
    dispatcher and the responder's session; GIST is assumed to deliver the
    payload under the session ID it was given. *)
From S2P Require Import NiSession NrSession NfSession NiSpec NrSpec NfSpec.
From S2P Require Import Prelude Outcome StdMap External Objects Store Messages Codec Parser SessionId NtlpMsg AuctionRule Aqueue Events GistMapper Session Installer SessionManager Dispatcher DispatcherSpec Daemon DaemonSpec.
From stdpp Require Import gmap.

(** The size of what is written. *)
Section Sizes.
Context `{Libs} `{!LibsLaws}.

Lemma objects_bytes_bound os : Forall object_wf os -> (Z.of_nat (length (objects_bytes os)) <= 16384 * Z.of_nat (length os))%Z.
Proof.
  induction 1 as [|o os (_ & _ & Hb) Hos IH]; [done|]. cbn [objects_bytes length]. rewrite length_app.
  unfold object_bytes. rewrite length_app, length_be_encode. destruct (body_bytes_length _ Hb) as (n & -> & Hn). lia.
Qed.

Lemma create_size c hops sme n lt l os :
  msg_view c (create_view hops sme n lt l) -> wire_form C_create (create_view hops sme n lt l) os -> msg_cls c = C_create ->
  (Z.of_nat (length l) < 2 ^ 17)%Z -> (get_serialized_size c < 2 ^ 32)%Z.
Proof.
  intros Hv Hw Hc Hl. rewrite (serialized_size_msg C_create c _ os) by done.
  unfold msg_bytes. rewrite length_app, length_be_encode.
  assert (Hos : length os = 4 + length l) by (inversion Hw; subst; cbn; lia).
  destruct (wire_form_builds C_create _ os (proj1 Hv) Hw) as [Hwf _].
  pose proof (objects_bytes_bound os Hwf). lia.
Qed.
End Sizes.

Section Handshake.
Context `{Libs} `{!LibsLaws} `{NetMsg} `{!NetMsgLaws} `{!ProtlibIE ie} `{!ProtlibIELaws ie} `{!Gist} `{!GistLaws}.
Context {E : Type} `{!Env E} `{!Protlib E} `{!Cqueue AnslpEvent}.

(** GIST takes every message. *)
Context (Hgist : forall a (e : E), fst (send_to OUTPUT_QUEUE_ADDRESS a e) = true).

Lemma mapO_elem {A B} (f : A -> outcome B) l bs x : mapO f l = Normal bs -> x ∈ l -> exists b, f x = Normal b.
Proof.
  revert bs. induction l as [|y l IH]; intros bs; cbn; [by intros _ ?%elem_of_nil|].
  destruct (f y) as [b| |] eqn:Ef; try done. cbn. destruct (mapO f l) as [bs'| |]; try done. intros _ Hx.
  apply elem_of_cons in Hx as [->|Hx]; [by exists b|by eapply IH].
Qed.

Lemma all_sent (w : world (E := E)) l :
  mapO create_api_msg (messages_of (w_history w)) = Normal l -> w_stopped w = None /\ w_sent w = l.
Proof.
  intros Hm. pose proof (w_accounted w) as Ha. unfold accounted in Ha. destruct (w_stopped w) as [f|].
  - destruct Ha as [[_ (a & e & Hr)]|(n & Hn & Hf)]; [by rewrite Hgist in Hr|].
    destruct (mapO_elem _ _ _ _ Hm Hn) as [b Hb]. congruence.
  - split; [done|]. congruence.
Qed.

Lemma stopped_for_message (w : world (E := E)) f :
  w_stopped w = Some f -> exists n, n ∈ messages_of (w_history w) /\ create_api_msg n = Faulted f.
Proof.
  intros Hs. pose proof (w_accounted w) as Ha. unfold accounted in Ha. rewrite Hs in Ha.
  destruct Ha as [[_ (a & e & Hr)]|Hn]; [by rewrite Hgist in Hr|done].
Qed.

(** ** The initiator. *)
Section Initiator.
Variables (config : anslp_config) (fuel : nat) (garbage : Z) (installer : auction_rule_installer (E := E)) (install : bool).
Context (Hok : installer_ok installer).

#[local] Existing Instance below.
#[local] Instance initiator_services : Session.Dispatcher (world (E := E)) := services installer install.
#[local] Instance initiator_effects : Effects (world (E := E)) := node_effects installer install Hok.

Lemma initiator_answer sid route : does (trace (Effects := initiator_effects)) (d_send_receive_answer (E := E) sid route) (fun _ => []).
Proof. exact (receive_answer_does sid route). Qed.

(** The CREATE a request asks for. *)
Definition requested_create (e : api_create_data) (c : anslp_msg) : Prop :=
  exists k, msg_cls c = C_create
    /\ msg_view c (create_view (NiSession.ni_msg_hop_count (ni_conf config)) (ac_sel_auct_entities e) k (ac_lifetime e) (map snd (ac_objects e))).

Lemma initiator_sends (d : daemon) (u : unit) (sid : session_id) (e : api_create_data) (q : queue) :
  config_ok config -> daemon_wf d -> event_valid (Api_create_event e) -> (0 < ac_lifetime e)%Z ->
  ac_return_queue e = Some q -> (Z.of_nat (length (ac_objects e)) < 2 ^ 17)%Z ->
  (forall i n, (0 < interval_of (NiSession.new_ni_session i (ni_conf config) n garbage) e)%Z) ->
  size (session_table (session_mgr d)) <= fuel -> NoDup (draws (S fuel) (outside_world d)) ->
  exists id s c os v n d',
    main_loop_step config fuel garbage installer install (Some (Anslp_event_msg sid (Some (None, Api_create_event e)))) (d, u)
      = (Normal tt, (d', u))
    /\ session_id_wf id /\ session_table (session_mgr d) !! id = None
    /\ session_table (session_mgr d') !! id = Some (Ni_session s) /\ NiSession.state s = NiSession.STATE_ANSLP_PENDING
    /\ requested_create e c /\ msg_view c v /\ wire_form (msg_cls c) v os /\ (get_serialized_size c < 2 ^ 32)%Z
    /\ n = mk_ntlp_msg id (Some c) (flow_mri (ac_addr e)) (get_sii_handle n) /\ NiSession.last_create_msg s = Some n
    /\ exists a, create_api_msg n = Normal a /\ w_sent (outside_world d') = w_sent (outside_world d) ++ [a].
Proof.
  intros Hc (Hn & Hst & Hacc) Hv Hlt Hq Hlen Hint Hfuel Hdist.
  destruct (dispatch_opens (W := world) d_send_receive_answer initiator_answer config fuel garbage
    (session_mgr d) (outside_world d) (None, Api_create_event e)) as (s0 & w1 & Hop & Hfr & Ht & Erun); try done.
  { apply Hn. } { by left. }
  cbn [fst snd] in Hop, Erun. destruct Hop as (i & k & Hk & Hi & ->).
  set (s1 := NiSession.new_ni_session i (ni_conf config) k garbage) in *.
  assert (Hwf : NiSpec.ni_wf s1) by (split_and!; try done; apply Hc).
  destruct (create_request_run s1 w1 e q Hwf eq_refl Hv Hq (Hint i k))
    as (n & c & os & s' & w' & tid & t & Eproc & Hs' & Htr & Hnid & Hnm & Hnc & Hvw & Hwire & Hlast).
  assert (Hcls : get_anslp_msg n = Some c /\ msg_cls c = C_create).
  { unfold get_anslp_create, get_anslp in Hnc. destruct (get_anslp_msg n) as [x|]; [|done].
    case_decide as Hx; [|done]. by injection Hnc as ->. }
  destruct Hcls as [Hnc' Hcls].
  assert (Hlife : Z.min (effective_lifetime s1 e) (ac_lifetime e) = ac_lifetime e).
  { unfold effective_lifetime. destruct (Z.eqb_spec (ac_lifetime e) 0); lia. }
  rewrite Hlife in Hvw, Hwire. set (v := create_view _ _ _ _ _) in *.
  assert (Hsize : (get_serialized_size c < 2 ^ 32)%Z).
  { eapply create_size; [exact Hvw|exact Hwire|done|by rewrite length_map]. }
  assert (Hidn : get_session_id n = i) by exact Hnid.
  destruct (map_and_back n c v os Hnc' ltac:(by rewrite Hidn) Hvw ltac:(by rewrite Hcls) Hsize) as (data & ns & Ea & _).
  match type of Ea with _ = Normal ?a => set (apimsg := a) in * end.
  assert (Hd' : w_stopped w' = None /\ w_sent w' = w_sent (outside_world d) ++ [apimsg]).
  { apply all_sent. change (w_history w1 = w_history (outside_world d)) in Ht.
    match type of Htr with _ = _ ++ ?es => change (w_history w' = w_history w1 ++ es) in Htr end.
    rewrite Htr, Ht, messages_of_app. cbn. by apply mapO_snoc. }
  destruct Hd' as [Hst' Hsent].
  assert (Hrun : session_process (Ni_session s1) (Api_create_event e) w1 = (Normal tt, (Ni_session s', w'))).
  { cbn. by rewrite Eproc. }
  pose proof (session_process_id (Ni_session s1) (Api_create_event e) w1) as Hid'. rewrite Hrun in Hid', Erun. cbn [fst snd] in Hid'.
  assert (Hfin : is_final (Ni_session s') = false).
  { cbn. unfold NiSession.is_final. rewrite Hs'. by apply bool_decide_eq_false_2. }
  unfold served in Erun. rewrite Hfin in Erun.
  exists i, s', c, os, v, n, (mk_daemon (add_session (Ni_session s') (session_mgr d)) w'). split_and!; try done.
  - unfold main_loop_step. cbn [map_to_event]. unfold dispatch_event.
    change (services installer install) with initiator_services. rewrite Erun. unfold settle. by rewrite Hst'.
  - cbn [session_mgr add_session session_table]. rewrite Hid'. apply lookup_insert_eq.
  - eexists. split; [done|]. exact Hvw.
  - by rewrite Hcls.
  - destruct n as [nid nb nm ns']. cbn in *. by subst.
  - exists apimsg. by split.
Qed.
End Initiator.

(** ** The responder. *)
Section Responder.
Variables (config : anslp_config) (fuel : nat) (garbage : Z) (installer : auction_rule_installer (E := E)) (install : bool).
Context (Hok : installer_ok installer).

#[local] Existing Instance below.
#[local] Instance responder_services : Session.Dispatcher (world (E := E)) := services installer install.
#[local] Instance responder_effects : Effects (world (E := E)) := node_effects installer install Hok.

Lemma responder_answer sid route : does (trace (Effects := responder_effects)) (d_send_receive_answer (E := E) sid route) (fun _ => []).
Proof. exact (receive_answer_does sid route). Qed.

(** The session a CREATE opens: with the granted lifetime, and either the
    requested objects under keys of their own and a check on its way, or
    auctioning with nothing to check. *)
Definition responds (n : ntlp_msg) (lt : Z) (l : list anslp_object) (s : NrSession.nr_session) : Prop :=
  NrSession.lifetime s = Z.min lt (NrSession.nr_max_session_lifetime (nr_conf config))
  /\ NrSession.create_message s = Some n
  /\ ((exists ks, length ks = length l /\ NrSession.state s = NrSession.STATE_ANSLP_PENDING
         /\ rule (NrSession.base s) = Some (mk_rule (with_entries ks l []) []))
      \/ (NrSession.state s = NrSession.STATE_ANSLP_AUCTIONING /\ rule (NrSession.base s) = Some new_auction_rule)).

(** A daemon that runs on has not sent an error response. *)
Lemma running_sent_no_error (w : world (E := E)) h n m v s c :
  w_stopped w = None -> w_history w = h ++ [Sent (create_response s c n)] ->
  get_anslp_msg n = Some m -> msg_view m v -> has_msg_sequence_number m = true -> (0 <= s < 16)%Z -> is_u8 c -> False.
Proof.
  intros Hs Hh Hn Hm Hmsn Hsv Hc. pose proof (w_accounted w) as Ha. unfold accounted in Ha. rewrite Hs, Hh, messages_of_app in Ha.
  destruct (mapO_elem _ _ _ (create_response s c n) Ha) as [b Hb].
  { apply elem_of_app. right. by apply list_elem_of_here. }
  by rewrite (error_response_unwritable n m v s c) in Hb.
Qed.

Lemma responder_opens (d : daemon) (u : unit) (m : message) (n : ntlp_msg) (c : anslp_msg) hops sme k lt l p :
  config_ok config -> daemon_wf d -> (0 < lt)%Z -> (0 < NrSession.nr_max_session_lifetime (nr_conf config))%Z ->
  map_to_event m = Normal (Some (Some (get_session_id n), Msg_event n true)) ->
  get_anslp_msg n = Some c -> msg_cls c = C_create -> msg_view c (create_view hops sme k lt l) ->
  downcast_mri (get_mri n) = Some p -> session_table (session_mgr d) !! get_session_id n = None ->
  match main_loop_step config fuel garbage installer install (Some m) (d, u) with
  | (Normal _, (d', _)) => exists s, session_table (session_mgr d') !! get_session_id n = Some (Nr_session s) /\ responds n lt l s
  | (Raised _, _) => False
  | (Faulted f, (d', _)) => exists x, x ∈ messages_of (w_history (outside_world d')) /\ create_api_msg x = Faulted f
  end.
Proof.
  intros Hc (Hn & Hst & Hacc) Hlt Hmax Hmap Hnc Hcls Hvw Hp Hfree.
  set (evt := Msg_event n true) in *. set (id := get_session_id n) in *.
  assert (Hcr : get_create evt = Some c).
  { unfold get_create, ev_anslp, get_anslp. cbn. rewrite Hnc. by rewrite decide_True. }
  assert (Hv : event_valid evt).
  { intros x Hx. rewrite Hnc in Hx. injection Hx as <-. by exists (create_view hops sme k lt l). }
  assert (Hneeds : needs_session evt = true).
  { unfold needs_session, is_invalid_anslp_msg. cbn. by rewrite Hnc. }
  destruct (dispatch_opens (W := world) d_send_receive_answer responder_answer config fuel garbage
    (session_mgr d) (outside_world d) (Some id, evt)) as (s0 & w1 & Hop & Hfr & Ht & Erun); try done.
  { apply Hn. } { right. cbn [snd fst]. split; [unfold is_anslp_create; by rewrite Hcr|by eexists]. }
  cbn [fst snd] in Hop, Erun. destruct Hop as (i & r & Hr & _ & Hi & ->). injection Hi as <-. 
  change (is_for_this_node evt || nf_is_edge config) with true in *. cbn iota in *.
  set (s1 := NrSession.new_nr_session id (nr_conf config) r garbage) in *.
  assert (Hwf : NrSpec.nr_wf s1).
  { destruct Hc as (_ & Hc & _). unfold NrSpec.nr_wf. cbn. split_and!; try done; try apply Hc; try lia; try (by eexists).
    by intros _ x [= <-]. }
  assert (Hlife : create_get_session_lifetime c = lt).
  { unfold create_get_session_lifetime. destruct (msg_view_get c _ Hvw) as (_ & _ & _ & _ & ->). done. }
  assert (Hmsn : has_msg_sequence_number c = true).
  { unfold has_msg_sequence_number. destruct (msg_view_get c _ Hvw) as (_ & _ & _ & E4 & _). by rewrite E4. }
  pose proof (create_cases_run s1 w1 n true c (create_view hops sme k lt l) Hwf eq_refl eq_refl Hv Hcr Hvw) as Hwp.
  unfold wp, created in Hwp. cbv zeta in Hwp. rewrite Hlife, Hp in Hwp.
  assert (HL : (granted s1 lt <=? 0)%Z = false) by (apply Z.leb_gt; unfold granted; cbn; lia). rewrite HL in Hwp.
  unfold main_loop_step. rewrite Hmap. unfold dispatch_event. change (services installer install) with responder_services.
  rewrite Erun. cbn [session_process]. fold evt in Hwp. destruct (NrSession.process_event evt (s1, w1)) as [o [s' w']] eqn:Eproc.
  cbn [fst snd create_view v_inf is_some] in Hwp.
  assert (Ho : o = Normal tt) by by destruct (unauthorized _ _ _ _); destruct Hwp as [Ho _].
  subst o. cbn [served get_id base_of s1 NrSession.base] in *.
  pose proof (session_process_id (Nr_session s1) evt w1) as Hid'. cbn [session_process] in Hid'. rewrite Eproc in Hid'. cbn [fst snd] in Hid'.
  unfold settle. destruct (w_stopped w') as [f|] eqn:Es; [by apply stopped_for_message|].
  assert (Hopen : NrSession.state s' <> NrSession.STATE_ANSLP_CLOSE /\ responds n lt l s').
  { assert (Hno : forall sv cd, w_history w' = w_history w1 ++ [Sent (create_response sv cd n)] -> (0 <= sv < 16)%Z -> is_u8 cd -> False).
    { intros sv cd Htr Hsv Hcd. by eapply (running_sent_no_error w' (w_history w1) n c _ _ _ Es Htr Hnc Hvw Hmsn). }
    destruct (unauthorized _ _ _ _); destruct Hwp as (_ & Hwp).
    - exfalso. destruct Hwp as [_ Htr]. by eapply Hno.
    - destruct Hwp as (ks & Hks & Hcases).
      assert (Hdone : forall st, NrSession.state s' = st -> st <> NrSession.STATE_ANSLP_CLOSE -> NrSession.state s' <> NrSession.STATE_ANSLP_CLOSE)
        by (intros st -> ?; done).
      destruct (check_participating _ _).
      + destruct Hcases as [(_ & (Hl & _ & Hm) & Hpend & Hrule & _)|[(_ & ((Hl & _ & Hm) & Ha & Hrule) & _)|(_ & _ & Htr)]].
        * split; [by eapply Hdone|]. split_and!; [done|done|]. left. by exists ks.
        * split; [by eapply Hdone|]. split_and!; [done|done|]. by right.
        * exfalso. by eapply Hno.
      + destruct Hcases as (((Hl & _ & Hm) & Ha & Hrule) & _). split; [by eapply Hdone|]. split_and!; [done|done|]. by right. }
  destruct Hopen as (Hs & Hresp). exists s'. split; [|done].
  assert (Hfin : is_final (Nr_session s') = false) by by apply bool_decide_eq_false_2.
  rewrite Hfin. cbn [session_mgr add_session session_table].
  assert (Hi : get_id (Nr_session s') = id) by exact Hid'. rewrite Hi. apply lookup_insert_eq.
Qed.
End Responder.

(** ** The session of a request. *)
Variables (confA confB : anslp_config) (fuelA fuelB : nat) (garbageA garbageB : Z).
Variables (installerA installerB : auction_rule_installer (E := E)) (installA installB : bool).
Context (HokA : installer_ok installerA) (HokB : installer_ok installerB).

Abbreviation stepA := (main_loop_step confA fuelA garbageA installerA installA).
Abbreviation stepB := (main_loop_step confB fuelB garbageB installerB installB).

(** GIST delivers a payload for a session to the last node of a path. *)
Definition delivers (data : list Z) (sid : sessionid) (route : mri) (a : APIMsg) : Prop :=
  api_subtype_of a = RecvMessage /\ api_data a = Some data /\ api_sessionid a = Some sid
  /\ api_mri a = Some route /\ api_final_hop a = true.

(** A session is set up, end to end.  A user's request at a node opens an
    initiator's session under a new ID, waiting for an answer, and makes the
    daemon give GIST one message.  Whenever GIST delivers this payload to the
    last node of the path, that node opens a responder's session under the
    same ID, for the same CREATE: with the requested lifetime up to its
    maximum, and with the requested MSPEC objects, in the order of their
    keys, as the requests it has checked - or auctioning at once.  Otherwise
    the responder's daemon ends, and it does so because it sent a message
    that cannot be written: this is what happens to every refusal. *)
Theorem session_setup (dA : daemon) (u : unit) (sid : session_id) (e : api_create_data) (q : queue)
  (HcA : config_ok confA) (HcB : config_ok confB) (HdA : daemon_wf dA)
  (He : event_valid (Api_create_event e)) (Hlife : (0 < ac_lifetime e)%Z) (Hq : ac_return_queue e = Some q)
  (Hobjs : (Z.of_nat (length (ac_objects e)) < 2 ^ 17)%Z)
  (Hint : forall i n, (0 < interval_of (NiSession.new_ni_session i (ni_conf confA) n garbageA) e)%Z)
  (Hfuel : size (session_table (session_mgr dA)) <= fuelA)
  (Hdist : NoDup (draws (H := H) (Platform0 := below) (S fuelA) (outside_world dA)))
  (Hmax : (0 < NrSession.nr_max_session_lifetime (nr_conf confB))%Z) :
  exists id s c data ns sii dA',
    stepA (Some (Anslp_event_msg sid (Some (None, Api_create_event e)))) (dA, u) = (Normal tt, (dA', u))
    /\ session_table (session_mgr dA) !! id = None
    /\ session_table (session_mgr dA') !! id = Some (Ni_session s) /\ NiSession.state s = NiSession.STATE_ANSLP_PENDING
    /\ requested_create confA e c
    /\ w_sent (outside_world dA') = w_sent (outside_world dA)
         ++ [set_sendmessage data 0 34 ns (flow_mri (ac_addr e)) sii (mk_tx_attr true false) 5 100 10
               (set_source INPUT_QUEUE_ADDRESS new_APIMsg)]
    /\ forall a route p dB u', delivers data ns route a -> downcast_mri route = Some p -> daemon_wf dB ->
         session_table (session_mgr dB) !! id = None ->
         match stepB (Some (Api_msg a)) (dB, u') with
         | (Normal _, (dB', _)) => exists s', session_table (session_mgr dB') !! id = Some (Nr_session s')
             /\ responds confB (mk_ntlp_msg id (Some c) route (api_sii_handle a)) (ac_lifetime e) (map snd (ac_objects e)) s'
         | (Raised _, _) => False
         | (Faulted f, (dB', _)) => exists x, x ∈ messages_of (w_history (outside_world dB')) /\ create_api_msg x = Faulted f
         end.
Proof.
  destruct (initiator_sends confA fuelA garbageA installerA installA HokA dA u sid e q HcA HdA He Hlife Hq Hobjs Hint Hfuel Hdist)
    as (id & s & c & os & v & n & dA' & Erun & Hid & Hfree & Hs & Hst & Hreq & Hv & Hw & Hsize & Hn & Hlast & a0 & Ea & Hsent).
  assert (Hnc : get_anslp_msg n = Some c) by by rewrite Hn.
  assert (Hnid : get_session_id n = id) by by rewrite Hn.
  destruct (map_and_back n c v os Hnc ltac:(by rewrite Hnid) Hv Hw Hsize) as (data & ns & Ea' & Hback).
  rewrite Ea in Ea'. injection Ea' as ->. rewrite Hnid in Hback.
  exists id, s, c, data, ns, (get_sii_handle n), dA'. split_and!; try done.
  { rewrite Hsent. by rewrite Hn at 1. }
  intros a route p dB u' (Hsub & Hdata & Hsid & Hroute & Hfin) Hp HdB HfreeB.
  pose proof (Hback a route Hsub Hdata Hsid Hroute) as Hmap. rewrite Hfin in Hmap.
  destruct Hreq as (k & Hcls & Hview).
  by eapply (responder_opens confB fuelB garbageB installerB installB HokB dB u' (Api_msg a)
    (mk_ntlp_msg id (Some c) route (api_sii_handle a)) c).
Qed.
End Handshake.
