(* ===== verification/Answer.v ===== *)
(** * Two nodes: the answer

    [Handshake] follows a request from the initiator's daemon to the
    responder's.  Here are the two ends of the way back: the auctioning
    application reports what it installed and the responder's session sends
    its RESPONSE; the initiator's session takes the objects it carries.
    [PathBack] puts them together. *)
From S2P Require Import NiSession NrSession NfSession NiSpec NrSpec NfSpec.
From S2P Require Import Prelude Outcome StdMap External Objects Store Messages Codec Parser SessionId NtlpMsg AuctionRule Aqueue Events GistMapper Session Installer SessionManager Dispatcher DispatcherSpec Daemon DaemonSpec Handshake.
From stdpp Require Import gmap.

Section Answer.
Context `{Libs} `{!LibsLaws} `{NetMsg} `{!NetMsgLaws} `{!ProtlibIE ie} `{!ProtlibIELaws ie} `{!Gist} `{!GistLaws}.
Context {E : Type} `{!Env E} `{!Protlib E} `{!Cqueue AnslpEvent}.
Context (Hgist : forall a (e : E), fst (send_to OUTPUT_QUEUE_ADDRESS a e) = true).

(** What the RESPONSE says: success, for the CREATE with this number, a
    lifetime and the installed objects. *)
Definition grant_view (k lt : Z) (l : list anslp_object) : view :=
  mk_view (Some (new_information_code sc_success suc_successfully_processed 0 tr_mandatory true)) None None
    (Some (new_msg_sequence_number k tr_mandatory true)) (Some (new_session_lifetime lt tr_mandatory true)) l.

Definition grants (k lt : Z) (l : list anslp_object) (b : anslp_msg) : Prop := msg_cls b = C_response /\ msg_view b (grant_view k lt l).

Lemma grant_size k lt l b : grants k lt l b -> (Z.of_nat (length l) < 2 ^ 17)%Z -> (get_serialized_size b < 2 ^ 32)%Z.
Proof.
  intros [Hc Hv] Hl.
  pose proof (wire_response (new_information_code sc_success suc_successfully_processed 0 tr_mandatory true)
    (new_msg_sequence_number k tr_mandatory true) (new_session_lifetime lt tr_mandatory true) l) as Hw.
  rewrite (serialized_size_msg C_response b _ _ Hv Hc Hw). unfold msg_bytes. rewrite length_app, length_be_encode.
  destruct (wire_form_builds C_response _ _ (proj1 Hv) Hw) as [Hwf _]. pose proof (objects_bytes_bound _ Hwf) as Hb.
  rewrite length_app in Hb. cbn [length] in Hb. lia.
Qed.

(** A daemon of which one session has processed an event without sending
    anything, or one message that can be written. *)
Lemma nothing_sent (w w' : world (E := E)) es : w_history w' = w_history w ++ es -> messages_of es = [] ->
  w_stopped w = None -> mapO create_api_msg (messages_of (w_history w)) = Normal (w_sent w) ->
  w_stopped w' = None /\ w_sent w' = w_sent w.
Proof.
  intros Hh He Hs Hacc. apply all_sent; [done|]. by rewrite Hh, messages_of_app, He, app_nil_r.
Qed.

Lemma first_sent (w w' : world (E := E)) n a es : w_history w' = w_history w ++ Sent n :: es -> messages_of es = [] -> create_api_msg n = Normal a ->
  mapO create_api_msg (messages_of (w_history w)) = Normal (w_sent w) -> w_stopped w' = None /\ w_sent w' = w_sent w ++ [a].
Proof.
  intros Hh Ht Ha Hacc. apply all_sent; [done|]. rewrite Hh, messages_of_app.
  change (Sent n :: es) with ([Sent n] ++ es). rewrite messages_of_app, Ht, app_nil_r. cbn. by apply mapO_snoc.
Qed.

Lemma one_sent (w w' : world (E := E)) n a t : w_history w' = w_history w ++ [Sent n; t] -> messages_of [t] = [] -> create_api_msg n = Normal a ->
  mapO create_api_msg (messages_of (w_history w)) = Normal (w_sent w) -> w_stopped w' = None /\ w_sent w' = w_sent w ++ [a].
Proof. apply first_sent. Qed.

Lemma unsent es : Forall (fun e => match e with Sent _ => False | _ => True end) es -> messages_of es = [].
Proof. induction 1 as [|[] es He _ IH]; done. Qed.

Lemma grants_number k lt l b : grants k lt l b ->
  has_msg_sequence_number b = true /\ response_get_msg_sequence_number b = k /\ response_is_success b = true
  /\ response_get_session_lifetime b = lt.
Proof.
  intros [Hcls Hv]. destruct (msg_view_get _ _ Hv) as (E1 & _ & _ & E4 & E5). cbn in E1, E4, E5.
  unfold has_msg_sequence_number, response_is_success, response_get_session_lifetime, response_get_msg_sequence_number.
  by rewrite E1, E4, E5.
Qed.

Lemma grants_says k lt l b c :
  grants k lt l b -> has_msg_sequence_number c = true -> msn_of c = k ->
  has_msg_sequence_number b = true /\ is_response_to_create b c = true /\ response_is_success b = true
  /\ response_get_session_lifetime b = lt.
Proof.
  intros Hg _ Hk. destruct (grants_number k lt l b Hg) as (E1 & E2 & E3 & E4). split_and!; try done.
  unfold is_response_to_create. change (create_get_msg_sequence_number c) with (msn_of c). rewrite E2, Hk. apply Z.eqb_refl.
Qed.

(** An operation that throws an [auction_rule_installer_error]. *)
Definition throws {W A} (m : M W A) : Prop := exists w e, fst (m w) = Raised (Installer_error e).

(** ** One round of a daemon, for a running session. *)
Section Node.
Variables (config : anslp_config) (fuel : nat) (garbage : Z) (installer : auction_rule_installer (E := E)) (install : bool).
Context (Hok : installer_ok installer).

#[local] Existing Instance below.
#[local] Instance answer_services : Session.Dispatcher (world (E := E)) := services installer install.
#[local] Instance answer_effects : Effects (world (E := E)) := node_effects installer install Hok.

Abbreviation round m du := (main_loop_step config fuel garbage installer install (Some m) du).

(** The session is served: its new state is in the table, or it is done. *)
Lemma round_ends (d : daemon) (u : unit) (m : message) (i : session_id) (evt : event) (s s' : session) o w' :
  daemon_wf d -> session_table (session_mgr d) !! i = Some s -> map_to_event m = Normal (Some (Some i, evt)) ->
  needs_session evt = true -> session_process s evt (outside_world d) = (o, (s', w')) -> w_stopped w' = None ->
  o = Normal tt \/ (exists e, o = Raised e) ->
  exists d' : daemon, round m (d, u) = (Normal tt, (d', u)) /\ outside_world d' = w'
    /\ session_table (session_mgr d') !! i = match o with Normal _ => if is_final s' then None else Some s' | _ => None end.
Proof.
  intros (Hn & _) Hs Hmap Hneeds Hrun Hst Ho.
  pose proof (session_process_id s evt (outside_world d)) as Hid. rewrite Hrun in Hid. cbn [fst snd] in Hid.
  destruct (proj1 (proj1 Hn) _ _ Hs) as [Hi _]. unfold main_loop_step. rewrite Hmap. unfold dispatch_event.
  change (services installer install) with answer_services.
  rewrite (dispatch_serves d_send_receive_answer config fuel garbage (session_mgr d) (outside_world d) i _ s)
    by first [done|apply Hn].
  rewrite Hrun. unfold served. destruct Ho as [-> |[e ->]]; unfold settle; rewrite Hst; [destruct (is_final s')|];
    (eexists; split; [done|]; split; [done|]).
  - cbn [session_mgr store_session_asdone without session_table]. by rewrite lookup_delete_eq.
  - cbn [session_mgr add_session session_table]. rewrite Hid, Hi. apply lookup_insert_eq.
  - cbn [session_mgr store_session_asdone without session_table]. by rewrite lookup_delete_eq.
Qed.

Lemma round_serves (d : daemon) (u : unit) (m : message) (i : session_id) (evt : event) (s s' : session) o w' :
  daemon_wf d -> session_table (session_mgr d) !! i = Some s -> map_to_event m = Normal (Some (Some i, evt)) ->
  needs_session evt = true -> session_process s evt (outside_world d) = (o, (s', w')) -> w_stopped w' = None ->
  (o = Normal tt /\ is_final s' = false) \/ (exists e, o = Raised e) ->
  exists d' : daemon, round m (d, u) = (Normal tt, (d', u)) /\ outside_world d' = w'
    /\ session_table (session_mgr d') !! i = match o with Normal _ => Some s' | _ => None end.
Proof.
  intros Hd Hs Hmap Hneeds Hrun Hst Ho. destruct (round_ends d u m i evt s s' o w') as (d' & E1 & E2 & E3); try done.
  { destruct Ho as [[-> _]|?]; [by left|by right]. }
  exists d'. split_and!; [done..|]. rewrite E3. by destruct Ho as [[-> ->]|[e ->]].
Qed.

(** ** The responder. *)

(** A session in the state [st] with the CREATE [n], of number [k], it was
    opened for and the rule [r]. *)
Definition asked_session (st : NrSession.state_t) (i : session_id) (k : Z) (n : ntlp_msg) (r : auction_rule)
  (s : NrSession.nr_session) : Prop :=
  NrSession.state s = st /\ NrSession.create_message s = Some n /\ get_session_id n = i /\ rule (NrSession.base s) = Some r
  /\ exists c, get_anslp_create n = Some c /\ has_msg_sequence_number c = true /\ msn_of c = k.

(** The application confirms the requests: their installation is on its way,
    or the installer threw and the session is gone. *)
Lemma responder_checks (d : daemon) (u : unit) (sid i : session_id) (s : NrSession.nr_session) (n : ntlp_msg) k
  (objs : objectList_t) (rq : option queue) (r : auction_rule) :
  daemon_wf d -> session_table (session_mgr d) !! i = Some (Nr_session s) ->
  asked_session NrSession.STATE_ANSLP_PENDING i k n r s ->
  Forall (fun kv => confirmed objs (fst kv) = true) (object_requests r) ->
  exists d' : daemon, round (Anslp_event_msg sid (Some (Some i, Api_check_event objs rq))) (d, u) = (Normal tt, (d', u))
    /\ w_sent (outside_world d') = w_sent (outside_world d)
    /\ ((exists s', session_table (session_mgr d') !! i = Some (Nr_session s') /\ NrSession.lifetime s' = NrSession.lifetime s
          /\ asked_session NrSession.STATE_ANSLP_PENDING_INSTALLING i k n r s')
        \/ (session_table (session_mgr d') !! i = None
            /\ throws (install_auction_rules (Dispatcher := answer_services) (NrSession.own_id s) (Some r)))).
Proof.
  intros Hd Hs (Hps & Hcm & Hni & Hr & Hc) Hall. pose proof Hd as (Hn & Hst & Hacc). set (evt := Api_check_event objs rq).
  assert (Hwp : wp (NrSession.process_event evt) (fun o sw => exists es,
    w_history (snd sw) = w_history (outside_world d) ++ es /\ messages_of es = []
    /\ ((o = Normal tt /\ NrSession.state (fst sw) = NrSession.STATE_ANSLP_PENDING_INSTALLING
          /\ NrSession.lifetime (fst sw) = NrSession.lifetime s
          /\ asked_session NrSession.STATE_ANSLP_PENDING_INSTALLING i k n r (fst sw))
        \/ ((exists e, o = Raised e) /\ throws (install_auction_rules (NrSession.own_id s) (Some r))))) (s, outside_world d)).
  { apply (check_reported_run s (outside_world d) objs rq r); [done..| |].
    - intros id s' w' Hs' Hl' Hcm' Hr' Ht. cbn [fst snd]. eexists. split; [exact Ht|]. split; [done|]. left.
      split_and!; try done. unfold asked_session. by rewrite Hcm'.
    - intros e s' w1 w' He Ht. exists []. cbn [snd]. rewrite app_nil_r. split_and!; try done. right. split; by eexists _, _ || eexists. }
  unfold wp in Hwp. destruct (NrSession.process_event evt (s, outside_world d)) as [o [s' w']] eqn:Eproc.
  cbn [fst snd] in Hwp. destruct Hwp as (es & Ht & Hes & Hcases).
  destruct (nothing_sent (outside_world d) w' es Ht Hes Hst Hacc) as [Hst' Hsent].
  destruct (round_serves d u (Anslp_event_msg sid (Some (Some i, evt))) i evt (Nr_session s) (Nr_session s') o w')
    as (d' & Erun & Hw & Htab); try done.
  { cbn. by rewrite Eproc. }
  { destruct Hcases as [(-> & Hs' & _)|[[e ->] _]]; [left; split; [done|]|right; by eexists].
    cbn. unfold NrSession.is_final. rewrite Hs'. by apply bool_decide_eq_false_2. }
  exists d'. split; [done|]. split; [by rewrite Hw|]. destruct Hcases as [(-> & Hs' & Hl & Ha)|[[e ->] Hthrow]].
  - left. by exists s'.
  - by right.
Qed.

(** It reports what it installed: the initiator is sent the answer. *)
Lemma responder_answers (d : daemon) (u : unit) (sid i : session_id) (s : NrSession.nr_session) (n : ntlp_msg) k
  (objs : objectList_t) (rq : option queue) (r : auction_rule) :
  daemon_wf d -> session_id_wf i -> session_table (session_mgr d) !! i = Some (Nr_session s) -> asked_session NrSession.STATE_ANSLP_PENDING_INSTALLING i k n r s ->
  objs_wf objs -> (Z.of_nat (length objs) < 2 ^ 17)%Z -> length (object_requests r) = length objs ->
  exists ks s' b d', let installed := with_entries ks (map snd objs) [] in
    main_loop_step config fuel garbage installer install (Some (Anslp_event_msg sid (Some (Some i, Api_install_event objs rq)))) (d, u)
      = (Normal tt, (d', u))
    /\ length ks = length objs /\ session_table (session_mgr d') !! i = Some (Nr_session s')
    /\ NrSession.state s' = NrSession.STATE_ANSLP_AUCTIONING /\ rule (NrSession.base s') = Some (mk_rule (object_requests r) installed)
    /\ grants k (NrSession.lifetime s) (map snd installed) b
    /\ exists a, create_api_msg (mk_ntlp_msg i (Some b) (invertDirection (get_mri n)) 0) = Normal a
         /\ w_sent (outside_world d') = w_sent (outside_world d) ++ [a].
Proof.
  intros (Hn & Hst & Hacc) Hi Hs (Hps & Hcm & Hni & Hr & c & Hc & Hcm1 & Hk) Ho Hlen Hreq.
  assert (Hwf : NrSpec.nr_wf s) by exact (map_Forall_lookup_1 _ _ _ _ (proj2 Hn) Hs).
  pose proof Hwf as (_ & Hx & Hl & _ & _ & Hun & _). destruct Hun as [_ (n' & Hn' & Hkept)]; [by rewrite Hps|].
  rewrite Hcm in Hn'. injection Hn' as <-.
  pose proof (install_reported_run s (outside_world d) objs rq n c r
    (fun o sw => exists ks id, let r2 := mk_rule (object_requests r) (with_entries ks (map snd objs) []) in
       o = Normal tt /\ length ks = length objs /\ objs_wf (object_responses r2)
       /\ NrSession.state (fst sw) = NrSession.STATE_ANSLP_AUCTIONING /\ NrSession.lifetime (fst sw) = NrSession.lifetime s
       /\ rule (NrSession.base (fst sw)) = Some r2
       /\ w_history (snd sw) = w_history (outside_world d)
            ++ [Sent (NrSession.success_with_responses n (NrSession.lifetime s) r2);
                Timer_started (Session.sid (NrSession.base s)) (int32 (NrSession.lifetime s)) id])
    Hwf Hps Ho Hcm Hc Hr ltac:(by apply Nat.eqb_eq) ltac:(intros ks tid s' w' r2; intros; by exists ks, tid)) as Hwp.
  unfold wp in Hwp. destruct (NrSession.process_event (Api_install_event objs rq) (s, outside_world d)) as [o [s' w']] eqn:Eproc.
  cbn [fst snd] in Hwp. destruct Hwp as (ks & tid & -> & Hks & Hr2 & Hs' & Hl' & Hru & Ht). cbn [fst snd] in *.
  set (installed := with_entries ks (map snd objs) []) in *.
  destruct (success_with_responses_view n c (NrSession.lifetime s) (mk_rule (object_requests r) installed))
    as (b & v & Hb & Hcls & Hv & ->); [done|done| |done|].
  { unfold is_u32 in *. lia. }
  rewrite Hcm1, Hk in Hv.
  assert (Hg : grants k (NrSession.lifetime s) (map snd installed) b) by by split.
  assert (Hsize : (get_serialized_size b < 2 ^ 32)%Z).
  { eapply grant_size; [exact Hg|]. unfold installed. rewrite length_map.
    pose proof (with_entries_length ks (map snd objs) []). cbn in *. rewrite length_map in *. lia. }
  destruct (map_and_back (NrSession.success_with_responses n (NrSession.lifetime s) (mk_rule (object_requests r) installed))
    b _ _ Hb ltac:(by rewrite <- Hni in Hi) Hv ltac:(rewrite Hcls; constructor) Hsize) as (data & ns & Ea & _).
  match type of Ea with _ = Normal ?a => set (apimsg := a) in * end.
  destruct (one_sent (outside_world d) w' _ apimsg _ Ht eq_refl Ea Hacc) as [Hst' Hsent].
  assert (Hrun : session_process (Nr_session s) (Api_install_event objs rq) (outside_world d) = (Normal tt, (Nr_session s', w'))).
  { cbn. by rewrite Eproc. }
  assert (Hfin : is_final (Nr_session s') = false).
  { cbn. unfold NrSession.is_final. rewrite Hs'. by apply bool_decide_eq_false_2. }
  destruct (round_serves d u (Anslp_event_msg sid (Some (Some i, Api_install_event objs rq))) i (Api_install_event objs rq)
    (Nr_session s) (Nr_session s') (Normal tt) w') as (d' & Erun & Hw & Htab); try done; [by left|].
  exists ks, s', b, d'. cbv zeta. split_and!; try done.
  - exists apimsg. split; [|by rewrite Hw]. rewrite <- Ea, <- Hni. f_equal. unfold NrSession.success_with_responses, update_msg in *.
    cbn in Hb |- *. by rewrite Hb.
Qed.
(** ** The initiator. *)

(** A session that waits for the answer to its CREATE. *)
Definition waiting_session (k : Z) (s : NiSession.ni_session) : Prop :=
  NiSession.state s = NiSession.STATE_ANSLP_PENDING
  /\ exists n c, NiSession.last_create_msg s = Some n /\ get_anslp_create n = Some c
       /\ has_msg_sequence_number c = true /\ msn_of c = k.

(** What the answer makes of it: the lifetime is the granted one, the objects
    are on their way to the application; or the installer threw, and the
    session is gone. *)
Definition answered (i : session_id) (lt : Z) (l : list anslp_object) (m : session_manager) : Prop :=
  (exists s' ks, session_table m !! i = Some (Ni_session s') /\ NiSession.state s' = NiSession.STATE_ANSLP_PENDING_INSTALLING
     /\ NiSession.lifetime s' = lt /\ length ks = length l
     /\ NiSession.last_auction_install_rule s' = Some (mk_rule (with_entries ks l []) []))
  \/ (session_table m !! i = None
      /\ exists id act, throws (send_response (Dispatcher := answer_services) id (Some act))).

Lemma initiator_answered (d : daemon) (u : unit) (m : message) (i : session_id) (s : NiSession.ni_session) (nm : ntlp_msg)
  (f : bool) k lt l (b : anslp_msg) :
  daemon_wf d -> session_table (session_mgr d) !! i = Some (Ni_session s) -> waiting_session k s ->
  map_to_event m = Normal (Some (Some i, Msg_event nm f)) -> get_anslp_msg nm = Some b -> grants k lt l b ->
  exists d', main_loop_step config fuel garbage installer install (Some m) (d, u) = (Normal tt, (d', u))
    /\ w_sent (outside_world d') = w_sent (outside_world d) /\ answered i lt l (session_mgr d').
Proof.
  intros (Hn & Hst & Hacc) Hs (Hps & n & c & Hln & Hc & Hmsn & Hk) Hmap Hb Hg.
  destruct (grants_says k lt l b c Hg Hmsn Hk) as (Hb1 & Hb2 & Hb3 & Hb4). destruct Hg as [Hcls Hv].
  assert (Hr : get_response (Msg_event nm f) = Some b).
  { unfold get_response, ev_anslp, get_anslp. cbn. by rewrite Hb, decide_True. }
  pose proof (create_answered_run s (outside_world d) nm n f b c _ Hps Hln Hc Hmsn Hr Hv Hb1 Hb2 Hb3 eq_refl eq_refl) as Hwp.
  unfold wp in Hwp. destruct (NiSession.process_event (Msg_event nm f) (s, outside_world d)) as [o [s' w']] eqn:Eproc.
  cbn [fst snd] in Hwp. destruct Hwp as (es & Ht & Hes & Hcases).
  destruct (nothing_sent (outside_world d) w' es Ht (unsent es Hes) Hst Hacc) as [Hst' Hsent].
  assert (Hrun : session_process (Ni_session s) (Msg_event nm f) (outside_world d) = (o, (Ni_session s', w'))).
  { cbn. by rewrite Eproc. }
  assert (Hneeds : needs_session (Msg_event nm f) = true).
  { unfold needs_session, is_invalid_anslp_msg. cbn. by rewrite Hb. }
  destruct (round_serves d u m i (Msg_event nm f) (Ni_session s) (Ni_session s') o w') as (d' & Erun & Hw & Htab); try done.
  { destruct Hcases as [(-> & Hs' & _)|(e & act & w1 & -> & _)]; [left; split; [done|]|right; by eexists].
    cbn. unfold NiSession.is_final. rewrite Hs'. by apply bool_decide_eq_false_2. }
  exists d'. split; [done|]. split; [by rewrite Hw|]. destruct Hcases as [(-> & Hs' & Hl & ks & Hks & Hru)|(e & act & w1 & -> & He)].
  - left. exists s', ks. split_and!; try done. by rewrite Hl.
  - right. split; [done|]. exists (NiSession.own_id s), act, w1, e. exact He.
Qed.
End Node.

(** GIST hands over a payload for a session. *)
Definition hands_over (data : list Z) (sid : sessionid) (route : mri) (a : APIMsg) : Prop :=
  api_subtype_of a = RecvMessage /\ api_data a = Some data /\ api_sessionid a = Some sid /\ api_mri a = Some route.
End Answer.
