(* ===== verification/Path.v ===== *)
(** * A path of nodes

    [Handshake] delivers a request straight to the responder.  Here the path
    has any number of forwarders in between: each daemon opens a session of
    its own for the CREATE and passes it on. *)
From S2P Require Import NiSession NrSession NfSession NiSpec NrSpec NfSpec.
From S2P Require Import Prelude Outcome StdMap External Objects Store Messages Codec Parser SessionId NtlpMsg AuctionRule Aqueue Events GistMapper Session Installer SessionManager Dispatcher DispatcherSpec Daemon DaemonSpec Handshake Answer.
From stdpp Require Import gmap.

Section Path.
Context `{Libs} `{!LibsLaws} `{NetMsg} `{!NetMsgLaws} `{!ProtlibIE ie} `{!ProtlibIELaws ie} `{!Gist} `{!GistLaws}.
Context {E : Type} `{!Env E} `{!Protlib E} `{!Cqueue AnslpEvent}.
Context (Hgist : forall a (e : E), fst (send_to OUTPUT_QUEUE_ADDRESS a e) = true).

(** ** A forwarder. *)
Section Forwarder.
Variables (config : anslp_config) (fuel : nat) (garbage : Z) (installer : auction_rule_installer (E := E)) (install : bool).
Context (Hok : installer_ok installer).

#[local] Existing Instance below.
#[local] Instance forwarder_services : Session.Dispatcher (world (E := E)) := services installer install.
#[local] Instance forwarder_effects : Effects (world (E := E)) := node_effects installer install Hok.

Lemma forwarder_answer sid route : does (trace (Effects := forwarder_effects)) (d_send_receive_answer (E := E) sid route) (fun _ => []).
Proof. exact (receive_answer_does sid route). Qed.

(** The session a forwarder has for the CREATE [n]. *)
Definition forwards (n : ntlp_msg) (lt : Z) (l : list anslp_object) (pc : mri_pathcoupled) (s : NfSession.nf_session) : Prop :=
  NfSession.state s = NfSession.STATE_ANSLP_PENDING /\ NfSession.lifetime s = lt /\ NfSession.create_message s = Some n
  /\ NfSession.nr_mri s = Some pc /\ NfSession.ni_mri s = Some (pc_invertDirection pc)
  /\ exists ks, length ks = length l /\ rule (NfSession.base s) = Some (mk_rule (with_entries ks l []) []).

Lemma forwarder_relays (d : daemon) (u : unit) (m : message) (n : ntlp_msg) (c : anslp_msg) hops sme k lt l pc :
  config_ok config -> daemon_wf d -> (0 < lt)%Z -> (0 < NfSession.nf_max_session_lifetime (nf_conf config))%Z ->
  nf_is_edge config = false -> check_participating st_forwarder sme = false ->
  session_id_wf (get_session_id n) -> (Z.of_nat (length l) < 2 ^ 17)%Z ->
  map_to_event m = Normal (Some (Some (get_session_id n), Msg_event n false)) ->
  get_anslp_msg n = Some c -> msg_cls c = C_create -> msg_view c (create_view hops sme k lt l) ->
  downcast_mri (get_mri n) = Some pc -> get_downstream pc = true -> session_table (session_mgr d) !! get_session_id n = None ->
  let L := Z.min lt (NfSession.nf_max_session_lifetime (nf_conf config)) in
  exists d' s body data ns,
    main_loop_step config fuel garbage installer install (Some m) (d, u) = (Normal tt, (d', u))
    /\ session_table (session_mgr d') !! get_session_id n = Some (Nf_session s) /\ forwards n L l pc s
    /\ msg_cls body = C_create /\ msg_view body (create_view hops sme k L l)
    /\ w_sent (outside_world d') = w_sent (outside_world d)
         ++ [set_sendmessage data 0 34 ns (upcast_mri pc) 0 (mk_tx_attr true false) 5 100 10
               (set_source INPUT_QUEUE_ADDRESS new_APIMsg)]
    /\ forall a route, hands_over data ns route a ->
         map_to_event (Api_msg a) = Normal (Some (Some (get_session_id n),
           Msg_event (mk_ntlp_msg (get_session_id n) (Some body) route (api_sii_handle a)) (api_final_hop a))).
Proof.
  intros Hc (Hn & Hst & Hacc) Hlt Hmax Hedge Hsel Hid Hlen Hmap Hnc Hcls Hvw Hp Hd Hfree L.
  set (evt := Msg_event n false) in *. set (id := get_session_id n) in *.
  assert (Hcr : get_create evt = Some c).
  { unfold get_create, ev_anslp, get_anslp. cbn. rewrite Hnc. by rewrite decide_True. }
  assert (Hv : event_valid evt).
  { intros x Hx. rewrite Hnc in Hx. injection Hx as <-. by exists (create_view hops sme k lt l). }
  assert (Hneeds : needs_session evt = true).
  { unfold needs_session, is_invalid_anslp_msg. cbn. by rewrite Hnc. }
  destruct (dispatch_opens (W := world) d_send_receive_answer forwarder_answer config fuel garbage
    (session_mgr d) (outside_world d) (Some id, evt)) as (s0 & w1 & Hop & Hfr & Ht & Erun); try done.
  { apply Hn. } { right. cbn [snd fst]. split; [unfold is_anslp_create; by rewrite Hcr|by eexists]. }
  cbn [fst snd] in Hop, Erun. destruct (opened_wf config garbage (Some id) evt s0 Hc Hop) as [Hwf _].
  destruct Hop as (i & r & Hr & _ & Hi & ->). injection Hi as <-.
  rewrite Hedge in *. change (is_for_this_node evt || false) with false in *. cbn iota in *.
  set (s1 := NfSession.new_nf_session id (nf_conf config) r) in *.
  assert (Hwp : wp (NfSession.process_event evt) (fun o sw => exists (body : anslp_msg) (tid : Z),
    o = Normal tt /\ msg_cls body = C_create /\ msg_view body (create_view hops sme k L l) /\ forwards n L l pc (fst sw)
    /\ w_history (snd sw) = w_history (outside_world d)
         ++ [Sent (mk_ntlp_msg id (Some body) (upcast_mri pc) 0); Timer_started id (int32 L) tid]) (s1, w1)).
  { apply (create_relayed_run s1 w1 n false c hops sme k lt l pc); try done.
    intros ks body tid s2 w2 L' Hbc Hbv H1' H2' H3' H4' H5' Hks Hr0 Ht2. exists body, tid. split_and!; try done.
    - split_and!; try done. exists ks. split; [done|]. by apply (Hr0 new_auction_rule).
    - cbn [snd]. etransitivity; [exact Ht2|]. f_equal. exact Ht. }
  unfold wp in Hwp. destruct (NfSession.process_event evt (s1, w1)) as [o [s' w']] eqn:Eproc. cbn [fst snd] in Hwp.
  destruct Hwp as (body & tid & -> & Hbc & Hbv & Hfw & Htr).
  assert (Hw : wire_form (msg_cls body) (create_view hops sme k L l)
    ([new_msg_sequence_number k tr_mandatory true; new_session_lifetime L tr_mandatory true;
      new_selection_auctioning_entities sme tr_mandatory true; new_message_hop_count hops tr_mandatory true] ++ l)).
  { rewrite Hbc. constructor. }
  assert (Hsize : (get_serialized_size body < 2 ^ 32)%Z).
  { eapply create_size; [exact Hbv|by rewrite <- Hbc|done|done]. }
  destruct (map_and_back (mk_ntlp_msg id (Some body) (upcast_mri pc) 0) body _ _ eq_refl Hid Hbv Hw Hsize)
    as (data & ns & Ea & Hback).
  destruct (one_sent Hgist (outside_world d) w' _ _ _ Htr eq_refl Ea Hacc) as [Hst' Hsent].
  assert (Hrun : session_process (Nf_session s1) evt w1 = (Normal tt, (Nf_session s', w'))).
  { cbn. by rewrite Eproc. }
  pose proof (session_process_id (Nf_session s1) evt w1) as Hid'. rewrite Hrun in Hid', Erun. cbn [fst snd] in Hid'.
  assert (Hfin : is_final (Nf_session s') = false).
  { cbn. unfold NfSession.is_final. destruct Hfw as (-> & _). by apply bool_decide_eq_false_2. }
  unfold served in Erun. rewrite Hfin in Erun.
  exists (mk_daemon (add_session (Nf_session s') (session_mgr d)) w'), s', body, data, ns. split_and!; try done.
  - unfold main_loop_step. rewrite Hmap. unfold dispatch_event. change (services installer install) with forwarder_services.
    rewrite Erun. unfold settle. by rewrite Hst'.
  - cbn [session_mgr add_session session_table]. rewrite Hid'. apply lookup_insert_eq.
  - intros a route (Hsub & Hdata & Hsid & Hroute). by apply Hback.
Qed.
End Forwarder.

(** ** A path. *)

(** A forwarder on the path, what GIST says of the route there, and how it
    hands a payload over. *)
Record hop := mk_hop {
  hop_config : anslp_config;
  hop_fuel : nat;
  hop_garbage : Z;
  hop_installer : auction_rule_installer (E := E);
  hop_install : bool;
  hop_daemon : daemon (E := E);
  hop_route : mri;
  hop_deliver : list Z -> sessionid -> APIMsg }.

Definition hop_max (h : hop) : Z := NfSession.nf_max_session_lifetime (nf_conf (hop_config h)).

Definition hop_ok (id : session_id) (h : hop) : Prop :=
  installer_ok (hop_installer h) /\ config_ok (hop_config h) /\ daemon_wf (hop_daemon h)
  /\ nf_is_edge (hop_config h) = false /\ (0 < hop_max h)%Z /\ session_table (session_mgr (hop_daemon h)) !! id = None
  /\ (exists pc, downcast_mri (hop_route h) = Some pc /\ get_downstream pc = true)
  /\ forall data ns, hands_over data ns (hop_route h) (hop_deliver h data ns) /\ api_final_hop (hop_deliver h data ns) = false.

Definition hop_round (h : hop) (m : message) :=
  main_loop_step (hop_config h) (hop_fuel h) (hop_garbage h) (hop_installer h) (hop_install h) (Some m) (hop_daemon h, tt).

(** A payload from which a daemon makes the event of the message [c]. *)
Definition payload_of (id : session_id) (c : anslp_msg) (data : list Z) (ns : sessionid) : Prop :=
  forall a route, hands_over data ns route a ->
    map_to_event (Api_msg a) = Normal (Some (Some id, Msg_event (mk_ntlp_msg id (Some c) route (api_sii_handle a)) (api_final_hop a))).

(** A CREATE with this number, selection, lifetime and objects; a message, and
    a payload, that has one. *)
Definition creates (hops sme k lt : Z) (l : list anslp_object) (c : anslp_msg) : Prop :=
  msg_cls c = C_create /\ msg_view c (create_view hops sme k lt l).
Definition asks (hops sme k lt : Z) (l : list anslp_object) (n : ntlp_msg) : Prop :=
  exists c, get_anslp_msg n = Some c /\ creates hops sme k lt l c.
Definition carries (id : session_id) (hops sme k lt : Z) (l : list anslp_object) (data : list Z) (ns : sessionid) : Prop :=
  exists c, creates hops sme k lt l c /\ payload_of id c data ns.

(** The payload of a CREATE for the session [id] crosses the forwarders: each
    in turn takes what the one before it sent, opens a session with the
    lifetime cut down to its own maximum, and sends one message, the same
    CREATE but for the lifetime.  [Q] holds of what comes out, and of the
    lifetime. *)
Fixpoint crosses (id : session_id) (hops sme k : Z) (l : list anslp_object) (hs : list hop) (data : list Z) (ns : sessionid) (lt : Z)
  (Q : list Z -> sessionid -> Z -> Prop) : Prop :=
  match hs with
  | [] => Q data ns lt
  | h :: hs =>
      let L := Z.min lt (hop_max h) in
      exists (d' : daemon (E := E)) s n pc data' ns',
        hop_round h (Api_msg (hop_deliver h data ns)) = (Normal tt, (d', tt))
        /\ session_table (session_mgr d') !! id = Some (Nf_session s) /\ forwards n L l pc s
        /\ asks hops sme k lt l n /\ get_session_id n = id /\ get_mri n = hop_route h /\ downcast_mri (hop_route h) = Some pc
        /\ w_sent (outside_world d') = w_sent (outside_world (hop_daemon h))
             ++ [set_sendmessage data' 0 34 ns' (upcast_mri pc) 0 (mk_tx_attr true false) 5 100 10
                   (set_source INPUT_QUEUE_ADDRESS new_APIMsg)]
        /\ carries id hops sme k L l data' ns' /\ crosses id hops sme k l hs data' ns' L Q
  end.

Lemma crosses_mono id hops sme k l (Q Q' : list Z -> sessionid -> Z -> Prop) hs :
  (forall data ns lt, Q data ns lt -> Q' data ns lt) ->
  forall data ns lt, crosses id hops sme k l hs data ns lt Q -> crosses id hops sme k l hs data ns lt Q'.
Proof.
  intros HQ. induction hs as [|h hs IH]; [exact HQ|]. intros data ns lt (d' & s & n & pc & data' & ns' & Hrest).
  cbn [crosses]. exists d', s, n, pc, data', ns'. destruct Hrest as (? & ? & ? & ? & ? & ? & ? & ? & ? & Hc).
  split_and!; try done. by apply IH.
Qed.

Lemma create_crosses (id : session_id) hops sme k (l : list anslp_object) (Q : list Z -> sessionid -> Z -> Prop) :
  session_id_wf id -> (Z.of_nat (length l) < 2 ^ 17)%Z -> check_participating st_forwarder sme = false ->
  (forall c data ns lt, msg_cls c = C_create -> msg_view c (create_view hops sme k lt l) -> (0 < lt)%Z ->
     payload_of id c data ns -> Q data ns lt) ->
  forall hs c data ns lt, Forall (hop_ok id) hs -> msg_cls c = C_create -> msg_view c (create_view hops sme k lt l) ->
    (0 < lt)%Z -> payload_of id c data ns -> crosses id hops sme k l hs data ns lt Q.
Proof.
  intros Hid Hlen Hsel HQ. induction hs as [|h hs IH]; intros c data ns lt Hhs Hcls Hvw Hlt Hpay; [by eapply HQ|].
  apply Forall_cons in Hhs as [(Hok & Hc & Hd & Hedge & Hmax & Hfree & (pc & Hp & Hdn) & Hdel) Hhs].
  destruct (Hdel data ns) as [Ha Hfin]. pose proof (Hpay _ _ Ha) as Hmap. rewrite Hfin in Hmap.
  set (n := mk_ntlp_msg id (Some c) (hop_route h) (api_sii_handle (hop_deliver h data ns))) in *.
  destruct (forwarder_relays (hop_config h) (hop_fuel h) (hop_garbage h) (hop_installer h) (hop_install h) Hok
    (hop_daemon h) tt (Api_msg (hop_deliver h data ns)) n c hops sme k lt l pc)
    as (d' & s & body & data' & ns' & Erun & Hs & Hfw & Hbc & Hbv & Hsent & Hback); try done.
  cbn [crosses]. exists d', s, n, pc, data', ns'. split_and!; try done; [by exists c|by exists body|].
  apply (IH body data' ns' _ Hhs Hbc Hbv); [unfold hop_max in *; lia|exact Hback].
Qed.

(** ** The session of a request, along the path. *)
Variables (confA confB : anslp_config) (fuelA fuelB : nat) (garbageA garbageB : Z).
Variables (installerA installerB : auction_rule_installer (E := E)) (installA installB : bool).
Context (HokA : installer_ok installerA) (HokB : installer_ok installerB).

Abbreviation stepA := (main_loop_step confA fuelA garbageA installerA installA).
Abbreviation stepB := (main_loop_step confB fuelB garbageB installerB installB).

(** C6. A session is set up along a path of any length.  A user's request
    opens an initiator's session, under a new ID, and makes its daemon give
    GIST one message.  Handed from node to node, the CREATE crosses any
    number of forwarders that it does not select: no forwarder stops or
    drops it, each opens a session under the same ID that knows the request
    and both directions of the path, and each passes on exactly one message,
    the CREATE it got - the number the initiator's session waits for, the
    selection, the objects - with the lifetime cut down to its own maximum.  Whenever GIST delivers what comes out to the last node of the
    path, that node opens a responder's session under the same ID, with the
    smallest of the lifetimes, and with the requested objects to be checked
    or auctioning at once - or its daemon ends, because it refused and
    a refusal cannot be written. *)
Theorem path_setup (dA : daemon) (u : unit) (sid : session_id) (e : api_create_data) (q : queue)
  (HcA : config_ok confA) (HcB : config_ok confB) (HdA : daemon_wf dA)
  (He : event_valid (Api_create_event e)) (Hlife : (0 < ac_lifetime e)%Z) (Hq : ac_return_queue e = Some q)
  (Hobjs : (Z.of_nat (length (ac_objects e)) < 2 ^ 17)%Z)
  (Hint : forall i n, (0 < interval_of (NiSession.new_ni_session i (ni_conf confA) n garbageA) e)%Z)
  (Hfuel : size (session_table (session_mgr dA)) <= fuelA)
  (Hdist : NoDup (draws (H := H) (Platform0 := below) (S fuelA) (outside_world dA)))
  (Hmax : (0 < NrSession.nr_max_session_lifetime (nr_conf confB))%Z)
  (Hsel : check_participating st_forwarder (ac_sel_auct_entities e) = false) :
  let l := map snd (ac_objects e) in let hops := NiSession.ni_msg_hop_count (ni_conf confA) in let sme := ac_sel_auct_entities e in
  exists id s k data ns sii dA',
    stepA (Some (Anslp_event_msg sid (Some (None, Api_create_event e)))) (dA, u) = (Normal tt, (dA', u))
    /\ session_table (session_mgr dA) !! id = None
    /\ session_table (session_mgr dA') !! id = Some (Ni_session s) /\ waiting_session k s
    /\ carries id hops sme k (ac_lifetime e) l data ns
    /\ w_sent (outside_world dA') = w_sent (outside_world dA)
         ++ [set_sendmessage data 0 34 ns (flow_mri (ac_addr e)) sii (mk_tx_attr true false) 5 100 10
               (set_source INPUT_QUEUE_ADDRESS new_APIMsg)]
    /\ forall hs, Forall (hop_ok id) hs -> crosses id hops sme k l hs data ns (ac_lifetime e) (fun data' ns' lt =>
         forall a route p dB u', delivers data' ns' route a -> downcast_mri route = Some p -> daemon_wf dB ->
           session_table (session_mgr dB) !! id = None ->
           match stepB (Some (Api_msg a)) (dB, u') with
           | (Normal _, (dB', _)) => exists s' n, session_table (session_mgr dB') !! id = Some (Nr_session s')
               /\ asks hops sme k lt l n /\ get_session_id n = id /\ get_mri n = route /\ responds confB n lt l s'
           | (Raised _, _) => False
           | (Faulted f, (dB', _)) => exists x, x ∈ messages_of (w_history (outside_world dB')) /\ create_api_msg x = Faulted f
           end).
Proof.
  intros l.
  destruct (initiator_sends Hgist confA fuelA garbageA installerA installA HokA dA u sid e q HcA HdA He Hlife Hq Hobjs Hint Hfuel Hdist)
    as (id & s & c & os & v & n & dA' & Erun & Hid & Hfree & Hs & Hst & Hreq & Hv & Hw & Hsize & Hn & Hlast & a0 & Ea & Hsent).
  assert (Hnc : get_anslp_msg n = Some c) by by rewrite Hn.
  assert (Hnid : get_session_id n = id) by by rewrite Hn.
  destruct (map_and_back n c v os Hnc ltac:(by rewrite Hnid) Hv Hw Hsize) as (data & ns & Ea' & Hback).
  rewrite Ea in Ea'. injection Ea' as ->. rewrite Hnid in Hback.
  destruct Hreq as (k & Hcls & Hview).
  assert (Hpay : payload_of id c data ns) by (intros a route (Hsub & Hdata & Hsid & Hroute); by apply Hback).
  exists id, s, k, data, ns, (get_sii_handle n), dA'. split_and!; try done.
  { split; [done|]. destruct (msg_view_get c _ Hview) as (_ & _ & _ & E4 & _). cbn in E4. exists n, c.
    unfold get_anslp_create, get_anslp, has_msg_sequence_number, msn_of. rewrite Hnc, decide_True, E4 by done. by split_and!. }
  { by exists c. }
  { rewrite Hsent. by rewrite Hn at 1. }
  intros hs Hhs.
  eapply (create_crosses id _ _ k l _ Hid ltac:(unfold l; by rewrite length_map) Hsel); [|exact Hhs|exact Hcls|exact Hview|done|exact Hpay].
  intros c' data' ns' lt Hcls' Hvw' Hlt Hpay' a route p dB u' (Hsub & Hdata & Hsid & Hroute & Hfin) Hp HdB HfreeB.
  pose proof (Hpay' a route (conj Hsub (conj Hdata (conj Hsid Hroute)))) as Hmap. rewrite Hfin in Hmap.
  pose proof (responder_opens Hgist confB fuelB garbageB installerB installB HokB dB u' (Api_msg a)
    (mk_ntlp_msg id (Some c') route (api_sii_handle a)) c' _ _ _ lt l p HcB HdB Hlt Hmax Hmap eq_refl Hcls' Hvw' Hp HfreeB) as Hr.
  destruct (stepB (Some (Api_msg a)) (dB, u')) as [[[]|x|f] [dB' u'']]; [|done|done].
  destruct Hr as (s' & Hs' & Hresp). exists s', (mk_ntlp_msg id (Some c') route (api_sii_handle a)).
  split_and!; try done. by exists c'.
Qed.
End Path.
