(* ===== verification/PathBack.v ===== *)
(** * A path of nodes: the answer

    The answer of [Answer] on its way back along the path of [Path]: at each
    forwarder the RESPONSE has the requests installed, and once the local
    application has reported what it installed, it goes on with the local
    objects added. *)
From S2P Require Import NiSession NrSession NfSession NiSpec NrSpec NfSpec.
From S2P Require Import Prelude Outcome StdMap External Objects Store Messages Codec Parser SessionId NtlpMsg AuctionRule Aqueue Events GistMapper Session Installer SessionManager Dispatcher DispatcherSpec Daemon DaemonSpec Handshake Answer Path.
From stdpp Require Import gmap.

Section Path_back.
Context `{Libs} `{!LibsLaws} `{NetMsg} `{!NetMsgLaws} `{!ProtlibIE ie} `{!ProtlibIELaws ie} `{!Gist} `{!GistLaws}.
Context {E : Type} `{!Env E} `{!Protlib E} `{!Cqueue AnslpEvent}.
Context (Hgist : forall a (e : E), fst (send_to OUTPUT_QUEUE_ADDRESS a e) = true).

Lemma with_entries_map_length ks (l : objectList_t) : length (map snd (with_entries ks (map snd l) [])) <= length l.
Proof. pose proof (with_entries_length ks (map snd l) []) as Hl. cbn in Hl. by rewrite !length_map in *. Qed.

(** ** A forwarder. *)
Section Forwarder.
Variables (config : anslp_config) (fuel : nat) (garbage : Z) (installer : auction_rule_installer (E := E)) (install : bool).
Context (Hok : installer_ok installer).

#[local] Existing Instance below.
#[local] Instance back_services : Session.Dispatcher (world (E := E)) := services installer install.
#[local] Instance back_effects : Effects (world (E := E)) := node_effects installer install Hok.

Abbreviation round m du := (main_loop_step config fuel garbage installer install (Some m) du).

(** A session that waits for the answer to the CREATE of number [k], with the
    rule [r]. *)
Definition relaying_session (k : Z) (r : auction_rule) (s : NfSession.nf_session) : Prop :=
  NfSession.state s = NfSession.STATE_ANSLP_PENDING /\ rule (NfSession.base s) = Some r /\ object_responses r = []
  /\ exists n c, NfSession.create_message s = Some n /\ get_anslp_create n = Some c /\ has_msg_sequence_number c = true /\ msn_of c = k.

(** One that has the answer. *)
Definition taken_session (n : ntlp_msg) (f : bool) (r : auction_rule) (s : NfSession.nf_session) : Prop :=
  NfSession.state s = NfSession.STATE_ANSLP_PENDING_INSTALLING /\ NfSession.response_message s = Some (Msg_event n f)
  /\ rule (NfSession.base s) = Some r.

Lemma forwarder_takes (d : daemon) (u : unit) (m : message) (i : session_id) (s : NfSession.nf_session) (n : ntlp_msg) (f : bool)
  k lt l (b : anslp_msg) (r : auction_rule) :
  daemon_wf d -> session_table (session_mgr d) !! i = Some (Nf_session s) -> relaying_session k r s ->
  map_to_event m = Normal (Some (Some i, Msg_event n f)) -> get_anslp_msg n = Some b -> grants k lt l b ->
  exists d' : daemon, round m (d, u) = (Normal tt, (d', u)) /\ w_sent (outside_world d') = w_sent (outside_world d)
    /\ ((exists s', session_table (session_mgr d') !! i = Some (Nf_session s') /\ taken_session n f r s')
        \/ (session_table (session_mgr d') !! i = None
            /\ throws (install_auction_rules (Dispatcher := back_services) (NfSession.own_id s) (Some r)))).
Proof.
  intros Hd Hs (Hps & Hr & _ & last & c & Hl & Hc & Hmsn & Hk) Hmap Hb Hg. pose proof Hd as (Hn & Hst & Hacc).
  destruct (grants_says k lt l b c Hg Hmsn Hk) as (Hb1 & Hb2 & Hb3 & _). destruct Hg as [Hcls Hv].
  assert (Hresp : get_response (Msg_event n f) = Some b).
  { unfold get_response, ev_anslp, get_anslp. cbn. by rewrite Hb, decide_True. }
  assert (Hwp : wp (NfSession.process_event (Msg_event n f)) (fun o sw => exists es,
    w_history (snd sw) = w_history (outside_world d) ++ es /\ messages_of es = []
    /\ ((o = Normal tt /\ taken_session n f r (fst sw))
        \/ ((exists e, o = Raised e) /\ throws (install_auction_rules (NfSession.own_id s) (Some r))))) (s, outside_world d)).
  { apply (response_taken_run s (outside_world d) n last f b c r); try done.
    - by exists b, (grant_view k lt l).
    - intros id1 id2 s' w' H1' H2' H3' H4' _ Ht. cbn [fst snd]. eexists. split; [exact Ht|]. split; [done|]. left. by split_and!.
    - intros e id1 s' w1 w' He Ht. cbn [fst snd]. eexists. split; [exact Ht|]. split; [done|]. right. split; [by eexists|]. by exists w1, e. }
  unfold wp in Hwp. destruct (NfSession.process_event (Msg_event n f) (s, outside_world d)) as [o [s' w']] eqn:Eproc.
  cbn [fst snd] in Hwp. destruct Hwp as (es & Ht & Hes & Hcases).
  destruct (nothing_sent Hgist (outside_world d) w' es Ht Hes Hst Hacc) as [Hst' Hsent].
  assert (Hneeds : needs_session (Msg_event n f) = true).
  { unfold needs_session, is_invalid_anslp_msg. cbn. by rewrite Hb. }
  assert (Hrun : session_process (Nf_session s) (Msg_event n f) (outside_world d) = (o, (Nf_session s', w'))) by (cbn; by rewrite Eproc).
  destruct (round_serves config fuel garbage installer install d u m i (Msg_event n f) (Nf_session s) (Nf_session s') o w')
    as (d' & Erun & Hw & Htab); try done.
  { destruct Hcases as [(-> & Hs' & _)|[[e ->] _]]; [left; split; [done|]|right; by eexists].
    cbn. unfold NfSession.is_final. rewrite Hs'. by apply bool_decide_eq_false_2. }
  exists d'. split; [done|]. split; [by rewrite Hw|]. destruct Hcases as [(-> & Ht')|[[e ->] Hthrow]].
  - left. by exists s'.
  - by right.
Qed.

Lemma forwarder_returns (d : daemon) (u : unit) (sid i : session_id) (s : NfSession.nf_session) (n : ntlp_msg) (f : bool)
  k lt l (b : anslp_msg) (r : auction_rule) (objs : objectList_t) (rq : option queue) :
  daemon_wf d -> session_id_wf i -> session_table (session_mgr d) !! i = Some (Nf_session s) -> taken_session n f r s ->
  object_responses r = [] -> get_anslp_msg n = Some b -> grants k lt l b -> objs_wf objs ->
  length (object_requests r) = length objs -> (Z.of_nat (length l + length objs) < 2 ^ 17)%Z ->
  exists (d' : daemon) s' mine body data ns,
    round (Anslp_event_msg sid (Some (Some i, Api_install_event objs rq))) (d, u) = (Normal tt, (d', u))
    /\ session_table (session_mgr d') !! i = Some (Nf_session s') /\ NfSession.state s' = NfSession.STATE_ANSLP_AUCTIONING
    /\ rule (NfSession.base s') = Some (mk_rule (object_requests r) mine)
    /\ (exists ks, length ks = length objs /\ mine = with_entries ks (map snd objs) [])
    /\ w_sent (outside_world d') = w_sent (outside_world d)
         ++ [set_sendmessage data 0 34 ns (get_mri n) 0 (mk_tx_attr true false) 5 100 10 (set_source INPUT_QUEUE_ADDRESS new_APIMsg)]
    /\ grants k lt (l ++ map snd mine) body /\ payload_of i body data ns.
Proof.
  intros Hd Hi Hs (Hps & Hrm & Hr) Hnone Hb [Hcls Hv] Ho Hreq Hlen. pose proof Hd as (Hn & Hst & Hacc).
  destruct (proj1 (proj1 Hn) _ _ Hs) as [Hgi _]. change (Session.sid (NfSession.base s) = i) in Hgi.
  assert (Hresp : get_anslp_response n = Some b) by (unfold get_anslp_response, get_anslp; by rewrite Hb, decide_True).
  assert (Hwp : wp (NfSession.process_event (Api_install_event objs rq)) (fun o sw => exists ks (body : anslp_msg) tid,
    let mine := with_entries ks (map snd objs) [] in
    o = Normal tt /\ length ks = length objs /\ grants k lt (l ++ map snd mine) body
    /\ NfSession.state (fst sw) = NfSession.STATE_ANSLP_AUCTIONING /\ rule (NfSession.base (fst sw)) = Some (mk_rule (object_requests r) mine)
    /\ w_history (snd sw) = w_history (outside_world d)
         ++ [Sent (mk_ntlp_msg i (Some body) (get_mri n) 0); Timer_started i (int32 (NfSession.lifetime s)) tid]) (s, outside_world d)).
  { apply (install_passed_on_run s (outside_world d) objs rq n f b (grant_view k lt l) r); try done.
    - cbn. unfold OT_ipap_message. lia.
    - by apply Nat.eqb_eq.
    - intros ks tid s' w' mine body Hks Hbc Hbv H1' _ H3' Ht. exists ks, body, tid. cbv zeta. fold mine. rewrite Hgi in Ht. by split_and!. }
  unfold wp in Hwp. destruct (NfSession.process_event (Api_install_event objs rq) (s, outside_world d)) as [o [s' w']] eqn:Eproc.
  cbn [fst snd] in Hwp. destruct Hwp as (ks & body & tid & -> & Hks & Hg & Hs' & Hru & Ht).
  set (mine := with_entries ks (map snd objs) []) in *. pose proof Hg as [Hbc Hbv].
  assert (Hsize : (get_serialized_size body < 2 ^ 32)%Z).
  { eapply grant_size; [exact Hg|]. rewrite length_app. pose proof (with_entries_map_length ks objs). unfold mine. lia. }
  destruct (map_and_back (mk_ntlp_msg i (Some body) (get_mri n) 0) body _ _ eq_refl Hi Hbv ltac:(rewrite Hbc; constructor) Hsize)
    as (data & ns & Ea & Hback).
  destruct (one_sent Hgist (outside_world d) w' _ _ _ Ht eq_refl Ea Hacc) as [Hst' Hsent].
  assert (Hrun : session_process (Nf_session s) (Api_install_event objs rq) (outside_world d) = (Normal tt, (Nf_session s', w')))
    by (cbn; by rewrite Eproc).
  destruct (round_serves config fuel garbage installer install d u (Anslp_event_msg sid (Some (Some i, Api_install_event objs rq))) i
    (Api_install_event objs rq) (Nf_session s) (Nf_session s') (Normal tt) w') as (d' & Erun & Hw & Htab); try done.
  { left. split; [done|]. cbn. unfold NfSession.is_final. rewrite Hs'. by apply bool_decide_eq_false_2. }
  exists d', s', mine, body, data, ns. split_and!; try done.
  - by exists ks.
  - by rewrite Hw.
  - intros a route (Hsub & Hdata & Hsid & Hroute). by apply Hback.
Qed.
End Forwarder.

(** ** The way back. *)

(** A forwarder on the path, the session it has for the request, and what its
    application reports. *)
Record answering_hop := mk_answering {
  ah_hop : hop (E := E);
  ah_session : NfSession.nf_session;
  ah_rule : auction_rule;
  ah_installs : objectList_t }.

Definition answering_ok (i : session_id) (k : Z) (h : answering_hop) : Prop :=
  installer_ok (hop_installer (ah_hop h)) /\ config_ok (hop_config (ah_hop h)) /\ daemon_wf (hop_daemon (ah_hop h))
  /\ session_table (session_mgr (hop_daemon (ah_hop h))) !! i = Some (Nf_session (ah_session h))
  /\ relaying_session k (ah_rule h) (ah_session h)
  /\ objs_wf (ah_installs h) /\ length (object_requests (ah_rule h)) = length (ah_installs h)
  /\ forall data ns, hands_over data ns (hop_route (ah_hop h)) (hop_deliver (ah_hop h) data ns).

(** The two rounds of a forwarder: the RESPONSE arrives; the application has
    installed. *)
Definition taking (h : answering_hop) (data : list Z) (ns : sessionid) :=
  hop_round (ah_hop h) (Api_msg (hop_deliver (ah_hop h) data ns)).
Definition returning (h : answering_hop) (i : session_id) (d : daemon (E := E)) :=
  let h' := ah_hop h in
  main_loop_step (hop_config h') (hop_fuel h') (hop_garbage h') (hop_installer h') (hop_install h')
    (Some (Anslp_event_msg i (Some (Some i, Api_install_event (ah_installs h) None)))) (d, tt).

(** The payload of a RESPONSE crosses the forwarders on its way back: each
    keeps it, sends nothing until its application reports, and then sends one
    message - unless its installer throws, which ends its session and the way
    of the RESPONSE.  [l] are the objects collected; [Q] holds of what comes
    out. *)
Fixpoint returns (i : session_id) (hs : list answering_hop) (data : list Z) (ns : sessionid) (l : list anslp_object)
  (Q : list Z -> sessionid -> list anslp_object -> Prop) : Prop :=
  match hs with
  | [] => Q data ns l
  | h :: hs =>
      exists d1 : daemon (E := E), taking h data ns = (Normal tt, (d1, tt))
      /\ w_sent (outside_world d1) = w_sent (outside_world (hop_daemon (ah_hop h)))
      /\ ((session_table (session_mgr d1) !! i = None
           /\ throws (install_auction_rules (Dispatcher := services (hop_installer (ah_hop h)) (hop_install (ah_hop h)))
                (NfSession.own_id (ah_session h)) (Some (ah_rule h))))
          \/ exists (d2 : daemon (E := E)) s mine data' ns',
               returning h i d1 = (Normal tt, (d2, tt))
               /\ session_table (session_mgr d2) !! i = Some (Nf_session s) /\ NfSession.state s = NfSession.STATE_ANSLP_AUCTIONING
               /\ rule (NfSession.base s) = Some (mk_rule (object_requests (ah_rule h)) mine)
               /\ (exists ks, length ks = length (ah_installs h) /\ mine = with_entries ks (map snd (ah_installs h)) [])
               /\ w_sent (outside_world d2) = w_sent (outside_world d1)
                    ++ [set_sendmessage data' 0 34 ns' (hop_route (ah_hop h)) 0 (mk_tx_attr true false) 5 100 10
                          (set_source INPUT_QUEUE_ADDRESS new_APIMsg)]
               /\ returns i hs data' ns' (l ++ map snd mine) Q)
  end.

Lemma returns_mono i (Q Q' : list Z -> sessionid -> list anslp_object -> Prop) hs :
  (forall data ns l, Q data ns l -> Q' data ns l) -> forall data ns l, returns i hs data ns l Q -> returns i hs data ns l Q'.
Proof.
  intros HQ. induction hs as [|h hs IH]; [exact HQ|]. intros data ns l (d1 & H1' & H2' & Hnext). exists d1.
  split_and!; [done|done|]. destruct Hnext as [?|(d2 & s & mine & data' & ns' & H3' & H4' & H5' & H6' & H7' & H8' & Hr)]; [by left|].
  right. exists d2, s, mine, data', ns'. split_and!; try done. by apply IH.
Qed.

(** The objects the forwarders may add. *)
Definition added (hs : list answering_hop) : nat := sum_list_with (fun h => length (ah_installs h)) hs.

Lemma response_returns (i : session_id) k lt (Q : list Z -> sessionid -> list anslp_object -> Prop) :
  session_id_wf i ->
  (forall b data ns l, grants k lt l b -> payload_of i b data ns -> Q data ns l) ->
  forall hs b data ns l, Forall (answering_ok i k) hs -> grants k lt l b -> payload_of i b data ns ->
    (Z.of_nat (length l + added hs) < 2 ^ 17)%Z -> returns i hs data ns l Q.
Proof.
  intros Hi HQ. induction hs as [|h hs IH]; intros b data ns l Hhs Hg Hpay Hlen; [by eapply HQ|].
  apply Forall_cons in Hhs as [(Hok & Hc & Hd & Hs & Hrel & Ho & Hreq & Hdel) Hhs].
  pose proof (Hpay _ _ (Hdel data ns)) as Hmap. set (a := hop_deliver (ah_hop h) data ns) in *.
  set (n := mk_ntlp_msg i (Some b) (hop_route (ah_hop h)) (api_sii_handle a)) in *.
  destruct (forwarder_takes (hop_config (ah_hop h)) (hop_fuel (ah_hop h)) (hop_garbage (ah_hop h)) (hop_installer (ah_hop h))
    (hop_install (ah_hop h)) Hok (hop_daemon (ah_hop h)) tt (Api_msg a) i (ah_session h) n (api_final_hop a) k lt l b (ah_rule h))
    as (d1 & Erun1 & Hsent1 & Hnext); try done.
  cbn [returns]. exists d1. split; [done|]. split; [done|].
  destruct Hnext as [(s1 & Hs1 & Htk)|Hgone]; [right|by left].
  assert (Hd1 : daemon_wf d1).
  { eapply (round_wf (hop_config (ah_hop h)) (hop_fuel (ah_hop h)) (hop_garbage (ah_hop h)) (hop_installer (ah_hop h))
      (hop_install (ah_hop h)) Hok _ d1 tt); [done|exact Hd|exact Hmap| |exact Erun1].
    intros m [= <-]. by exists (grant_view k lt l); destruct Hg. }
  assert (Hsum : (Z.of_nat (length l + length (ah_installs h)) < 2 ^ 17)%Z) by (cbn in Hlen; lia).
  destruct (forwarder_returns (hop_config (ah_hop h)) (hop_fuel (ah_hop h)) (hop_garbage (ah_hop h)) (hop_installer (ah_hop h))
    (hop_install (ah_hop h)) Hok d1 tt i i s1 n (api_final_hop a) k lt l b (ah_rule h) (ah_installs h) None)
    as (d2 & s2 & mine & body & data' & ns' & Erun2 & Hs2 & Hst2 & Hru & (ks & Hks & Hmine) & Hsent2 & Hg2 & Hpay2); try done.
  { by destruct Hrel as (_ & _ & ? & _). }
  exists d2, s2, mine, data', ns'. split_and!; try done; [by exists ks|].
  apply (IH body data' ns' _ Hhs Hg2 Hpay2). rewrite length_app, Hmine.
  pose proof (with_entries_map_length ks (ah_installs h)). cbn in Hlen. unfold added in *. lia.
Qed.

(** ** From the responder's application to the initiator's. *)
Variables (confA confB : anslp_config) (fuelA fuelB : nat) (garbageA garbageB : Z).
Variables (installerA installerB : auction_rule_installer (E := E)) (installA installB : bool).
Context (HokA : installer_ok installerA) (HokB : installer_ok installerB).

Abbreviation stepA := (main_loop_step confA fuelA garbageA installerA installA).
Abbreviation stepB := (main_loop_step confB fuelB garbageB installerB installB).

(** C7. A session is answered along a path of any length.  The responder's
    application confirms the requests and reports as many objects as were
    requested; the session is auctioning, and its daemon has given GIST one
    message, on the inverted route of the CREATE.  Handed back from node to
    node, this RESPONSE is kept by every forwarder that waits for it, and
    goes on once the application there has reported what it installed, as one
    message with the local objects behind those it came with.  Whenever what
    comes out reaches the daemon whose session waits for the answer to the
    CREATE with the same number, that session takes the lifetime the
    responder granted, and exactly the objects all nodes of the path
    installed, in the order of the way back, hands them to its application
    and sends nothing.  The only other end, anywhere, is an installer that
    throws: its node loses the session. *)
Theorem path_answered (dB : daemon) (u : unit) (sid1 sid2 i : session_id) (s : NrSession.nr_session) (n : ntlp_msg) (k : Z)
  (r : auction_rule) (confirms installs : objectList_t) (rq1 rq2 : option queue) (hs : list answering_hop)
  (HcB : config_ok confB) (HdB : daemon_wf dB) (Hi : session_id_wf i)
  (Hs : session_table (session_mgr dB) !! i = Some (Nr_session s))
  (Hask : asked_session NrSession.STATE_ANSLP_PENDING i k n r s)
  (Hall : Forall (fun kv => confirmed confirms (fst kv) = true) (object_requests r)) (Hwf1 : objs_wf confirms)
  (Hwf2 : objs_wf installs) (Hreq : length (object_requests r) = length installs)
  (Hlen : (Z.of_nat (length installs + added hs) < 2 ^ 17)%Z) (Hhs : Forall (answering_ok i k) hs) :
  exists dB1 : daemon,
    stepB (Some (Anslp_event_msg sid1 (Some (Some i, Api_check_event confirms rq1)))) (dB, u) = (Normal tt, (dB1, u))
    /\ ((session_table (session_mgr dB1) !! i = None
         /\ throws (install_auction_rules (Dispatcher := services installerB installB) (NrSession.own_id s) (Some r)))
        \/ exists dB2 s2 data ns mine,
             stepB (Some (Anslp_event_msg sid2 (Some (Some i, Api_install_event installs rq2)))) (dB1, u) = (Normal tt, (dB2, u))
             /\ session_table (session_mgr dB2) !! i = Some (Nr_session s2) /\ NrSession.state s2 = NrSession.STATE_ANSLP_AUCTIONING
             /\ rule (NrSession.base s2) = Some (mk_rule (object_requests r) mine)
             /\ (exists ks, length ks = length installs /\ mine = with_entries ks (map snd installs) [])
             /\ w_sent (outside_world dB2) = w_sent (outside_world dB)
                  ++ [set_sendmessage data 0 34 ns (invertDirection (get_mri n)) 0 (mk_tx_attr true false) 5 100 10
                        (set_source INPUT_QUEUE_ADDRESS new_APIMsg)]
             /\ returns i hs data ns (map snd mine) (fun data' ns' l =>
                  forall a route dA sA u', hands_over data' ns' route a -> daemon_wf dA ->
                    session_table (session_mgr dA) !! i = Some (Ni_session sA) -> waiting_session k sA ->
                    exists dA' : daemon, stepA (Some (Api_msg a)) (dA, u') = (Normal tt, (dA', u'))
                      /\ w_sent (outside_world dA') = w_sent (outside_world dA)
                      /\ answered installerA installA i (NrSession.lifetime s) l (session_mgr dA'))).
Proof.
  destruct (responder_checks Hgist confB fuelB garbageB installerB installB HokB dB u sid1 i s n k confirms rq1 r)
    as (dB1 & Erun1 & Hsent1 & Hnext); try done.
  exists dB1. split; [done|]. destruct Hnext as [(s1 & Hs1 & Hl1 & Hask1)|Hgone]; [right|by left].
  assert (HdB1 : daemon_wf dB1).
  { by eapply (round_wf confB fuelB garbageB installerB installB HokB dB dB1 u
      (Anslp_event_msg sid1 (Some (Some i, Api_check_event confirms rq1))) (Some i) (Api_check_event confirms rq1)). }
  destruct (responder_answers Hgist confB fuelB garbageB installerB installB HokB dB1 u sid2 i s1 n k installs rq2 r)
    as (ks & s2 & b & dB2 & Erun2 & Hks & Hs2 & Hst2 & Hr2 & Hg & a0 & Ea0 & Hsent2); try done; [lia|].
  rewrite Hl1 in Hg. set (mine := with_entries ks (map snd installs) []) in *. pose proof Hg as [Hcls Hv].
  pose proof (with_entries_map_length ks installs) as Hml. fold mine in Hml.
  assert (Hsize : (get_serialized_size b < 2 ^ 32)%Z) by (eapply grant_size; [exact Hg|lia]).
  destruct (map_and_back (mk_ntlp_msg i (Some b) (invertDirection (get_mri n)) 0) b _ _ eq_refl Hi Hv
    ltac:(rewrite Hcls; constructor) Hsize) as (data & ns & Ea & Hback).
  rewrite Ea0 in Ea. injection Ea as ->.
  exists dB2, s2, data, ns, mine. split_and!; try done; [by exists ks|by rewrite Hsent2, Hsent1|].
  apply (response_returns i k (NrSession.lifetime s) _ Hi) with (b := b); [|done|done| |lia].
  - intros b' data' ns' l Hg' Hpay a route dA sA u' Hover HdA HsA Hwait.
    by eapply (initiator_answered Hgist confA fuelA garbageA installerA installA HokA dA u' (Api_msg a) i sA
      (mk_ntlp_msg i (Some b') route (api_sii_handle a)) (api_final_hop a) k _ l b'); [..|apply Hpay|done|].
  - intros a route (Hsub & Hdata & Hsid & Hroute). by apply Hback.
Qed.
End Path_back.
