(* ===== verification/PathRefresh.v ===== *)
(** * A path of nodes: refreshing and ending a session

    Once a session is auctioning on every node of its path, the initiator's
    REFRESH keeps it alive, and its last one, of lifetime 0, ends it.  Here
    the REFRESH goes all the way to the responder and the RESPONSE all the way
    back: each forwarder passes on both. *)
From S2P Require Import NiSession NrSession NfSession NiSpec NrSpec NfSpec.
From S2P Require Import Prelude Outcome StdMap External Objects Store Messages Codec Parser SessionId NtlpMsg AuctionRule Aqueue Events GistMapper Session Installer SessionManager Dispatcher DispatcherSpec Daemon DaemonSpec Handshake Answer Path.
From stdpp Require Import gmap.

Section Path_refresh.
Context `{Libs} `{!LibsLaws} `{NetMsg} `{!NetMsgLaws} `{!ProtlibIE ie} `{!ProtlibIELaws ie} `{!Gist} `{!GistLaws}.
Context {E : Type} `{!Env E} `{!Protlib E} `{!Cqueue AnslpEvent}.
Context (Hgist : forall a (e : E), fst (send_to OUTPUT_QUEUE_ADDRESS a e) = true).

Lemma refresh_size k lt b : refreshes k lt b -> (get_serialized_size b < 2 ^ 32)%Z.
Proof.
  intros [Hc Hv]. pose proof (wire_refresh (new_msg_sequence_number k tr_mandatory true) (new_session_lifetime lt tr_mandatory true)) as Hw.
  rewrite (serialized_size_msg C_refresh b _ _ Hv Hc Hw). unfold msg_bytes. rewrite length_app, length_be_encode.
  destruct (wire_form_builds C_refresh _ _ (proj1 Hv) Hw) as [Hwf _]. pose proof (objects_bytes_bound _ Hwf) as Hb.
  cbn [length] in Hb. lia.
Qed.

(** A message one of the nodes gives to GIST. *)
Definition given (data : list Z) (ns : sessionid) (route : mri) : APIMsg :=
  set_sendmessage data 0 34 ns route 0 (mk_tx_attr true false) 5 100 10 (set_source INPUT_QUEUE_ADDRESS new_APIMsg).

Lemma refresh_given i route k lt b : session_id_wf i -> refreshes k lt b ->
  exists data ns, create_api_msg (mk_ntlp_msg i (Some b) route 0) = Normal (given data ns route) /\ payload_of i b data ns.
Proof.
  intros Hi Hb. pose proof Hb as [Hc Hv].
  destruct (map_and_back (mk_ntlp_msg i (Some b) route 0) b _ _ eq_refl Hi Hv ltac:(rewrite Hc; constructor) (refresh_size k lt b Hb))
    as (data & ns & Ea & Hback).
  exists data, ns. split; [exact Ea|]. intros a r (Hsub & Hdata & Hsid & Hroute). by apply Hback.
Qed.

Lemma grant_given i route k lt b : session_id_wf i -> grants k lt [] b ->
  exists data ns, create_api_msg (mk_ntlp_msg i (Some b) route 0) = Normal (given data ns route) /\ payload_of i b data ns.
Proof.
  intros Hi Hb. pose proof Hb as [Hc Hv].
  destruct (map_and_back (mk_ntlp_msg i (Some b) route 0) b _ _ eq_refl Hi Hv ltac:(rewrite Hc; constructor)
    (grant_size k lt [] b Hb ltac:(done))) as (data & ns & Ea & Hback).
  exists data, ns. split; [exact Ea|]. intros a r (Hsub & Hdata & Hsid & Hroute). by apply Hback.
Qed.

(** What is left of a session whose last REFRESH was confirmed: nothing, if
    no rules were installed for it; otherwise it waits for their removal, or
    is gone because the installer threw. *)
Definition torn_down (s : session) : Prop :=
  match s with
  | Ni_session s => NiSession.state s = NiSession.STATE_ANSLP_PENDING_TEARDOWN
  | Nf_session s => NfSession.state s = NfSession.STATE_ANSLP_PENDING_TEARDOWN
  | Nr_session s => NrSession.state s = NrSession.STATE_ANSLP_PENDING_TEARDOWN
  end.
Definition wound_up (r : auction_rule) (thrown : Prop) (x : option session) : Prop :=
  (object_responses r = [] /\ x = None)
  \/ (object_responses r <> [] /\ ((exists s, x = Some s /\ torn_down s) \/ (x = None /\ thrown))).

(** It auctions, with this lifetime. *)
Definition auctioning (L : Z) (s : session) : Prop :=
  match s with
  | Ni_session s => NiSession.state s = NiSession.STATE_ANSLP_AUCTIONING /\ NiSession.lifetime s = L
  | Nf_session s => NfSession.state s = NfSession.STATE_ANSLP_AUCTIONING /\ NfSession.lifetime s = L
  | Nr_session s => NrSession.state s = NrSession.STATE_ANSLP_AUCTIONING /\ NrSession.lifetime s = L
  end.

(** What a confirmed REFRESH leaves of a session, by its lifetime. *)
Definition settled (L : Z) (r : auction_rule) (thrown : Prop) (x : option session) : Prop :=
  (L <> 0%Z -> exists s, x = Some s /\ auctioning L s) /\ (L = 0%Z -> wound_up r thrown x).

(** What a served session leaves in the table. *)
Definition remains (o : outcome unit) (s : session) : option session :=
  match o with Normal _ => if is_final s then None else Some s | _ => None end.

Lemma torn_down_open s : torn_down s -> is_final s = false.
Proof. destruct s; cbn; unfold NiSession.is_final, NfSession.is_final, NrSession.is_final; intros ->; by apply bool_decide_eq_false_2. Qed.

Lemma auctioning_open L s : auctioning L s -> is_final s = false.
Proof. destruct s; cbn; unfold NiSession.is_final, NfSession.is_final, NrSession.is_final; intros [-> _]; by apply bool_decide_eq_false_2. Qed.

Lemma settled_up L r P s : L <> 0%Z -> auctioning L s -> settled L r P (remains (Normal tt) s).
Proof. intros HL Ha. split; [|done]. intros _. exists s. split; [|done]. unfold remains. by rewrite (auctioning_open L). Qed.

Lemma settled_down L r P s : L = 0%Z -> object_responses r <> [] -> torn_down s -> settled L r P (remains (Normal tt) s).
Proof. intros HL Hr Ht. split; [done|]. intros _. right. split; [done|]. left. exists s. split; [|done]. unfold remains. by rewrite torn_down_open. Qed.

Lemma settled_refused L r (P : Prop) e s : L = 0%Z -> object_responses r <> [] -> P -> settled L r P (remains (Raised e) s).
Proof. intros HL Hr HP. split; [done|]. intros _. right. split; [done|]. by right. Qed.

Lemma settled_closed L r P s : L = 0%Z -> object_responses r = [] -> is_final s = true -> settled L r P (remains (Normal tt) s).
Proof. intros HL Hr Hf. split; [done|]. intros _. left. split; [done|]. unfold remains. by rewrite Hf. Qed.

(** ** One node. *)
Section Node.
Variables (config : anslp_config) (fuel : nat) (garbage : Z) (installer : auction_rule_installer (E := E)) (install : bool).
Context (Hok : installer_ok installer).

#[local] Existing Instance below.
#[local] Instance refresh_services : Session.Dispatcher (world (E := E)) := services installer install.
#[local] Instance refresh_effects : Effects (world (E := E)) := node_effects installer install Hok.

Abbreviation round m du := (main_loop_step config fuel garbage installer install (Some m) du).

Definition refuses (id : list Ascii.ascii) (r : auction_rule) : Prop := throws (remove_auction_rules (Dispatcher := refresh_services) id (Some r)).

Lemma message_needs_session (n : ntlp_msg) (f : bool) : is_some (get_anslp_msg n) = true -> needs_session (Msg_event n f) = true.
Proof. unfold needs_session, is_invalid_anslp_msg. cbn. by destruct (get_anslp_msg n). Qed.

(** A forwarder gets the REFRESH. *)
Lemma forwarder_renews (d : daemon) (u : unit) (m : message) (i : session_id) (s : NfSession.nf_session) (n : ntlp_msg) (f : bool) k lt b :
  daemon_wf d -> session_id_wf i -> session_table (session_mgr d) !! i = Some (Nf_session s) ->
  NfSession.state s = NfSession.STATE_ANSLP_AUCTIONING -> is_greater_than k (msn (NfSession.base s)) = true ->
  map_to_event m = Normal (Some (Some i, Msg_event n f)) -> get_session_id n = i -> get_anslp_msg n = Some b -> refreshes k lt b ->
  exists d' s' data ns, round m (d, u) = (Normal tt, (d', u))
    /\ session_table (session_mgr d') !! i = Some (Nf_session s') /\ NfSession.state s' = NfSession.STATE_ANSLP_AUCTIONING
    /\ NfSession.lifetime s' = Z.min lt (NfSession.max_lifetime s) /\ NfSession.refresh_message s' = Some n
    /\ rule (NfSession.base s') = rule (NfSession.base s)
    /\ w_sent (outside_world d') = w_sent (outside_world d) ++ [given data ns (get_mri n)] /\ payload_of i b data ns.
Proof.
  intros Hd Hi Hs Hst Hnew Hmap Hni Hb Hr. pose proof Hd as (Hn & Hrun & Hacc).
  destruct (refreshes_says k lt b Hr) as (E1 & E2 & _ & _). pose proof Hr as [Hcls Hv].
  assert (Hgr : get_refresh (Msg_event n f) = Some b) by (unfold get_refresh, ev_anslp, get_anslp; cbn; by rewrite Hb, decide_True).
  destruct (refresh_given i (get_mri n) k lt b Hi Hr) as (data & ns & Ea & Hpay).
  assert (Hfw : forwarded n = mk_ntlp_msg i (Some b) (get_mri n) 0) by (unfold forwarded; by rewrite Hni, Hb).
  assert (Hwp : wp (NfSession.process_event (Msg_event n f)) (fun o sw => exists tid, o = Normal tt
    /\ NfSession.state (fst sw) = NfSession.STATE_ANSLP_AUCTIONING /\ NfSession.lifetime (fst sw) = Z.min lt (NfSession.max_lifetime s)
    /\ NfSession.refresh_message (fst sw) = Some n /\ rule (NfSession.base (fst sw)) = rule (NfSession.base s)
    /\ w_history (snd sw) = w_history (outside_world d)
         ++ [Sent (forwarded n); Timer_started (Session.sid (NfSession.base s)) (int32 (NfSession.response_timeout s)) tid]) (s, outside_world d)).
  { apply (refresh_relayed_run s (outside_world d) n f b); try done.
    - intros x Hx. rewrite Hb in Hx. injection Hx as <-. by exists (refresh_view k lt).
    - by rewrite E1.
    - intros tid s' w' L H1' H2' H3' _ H5' _ _ Ht. exists tid. unfold L in H2'. rewrite E2 in H2'. by split_and!. }
  unfold wp in Hwp. destruct (NfSession.process_event (Msg_event n f) (s, outside_world d)) as [o [s' w']] eqn:Eproc.
  cbn [fst snd] in Hwp. destruct Hwp as (tid & -> & H1' & H2' & H3' & H4' & Ht). rewrite Hfw in Ht.
  destruct (one_sent Hgist (outside_world d) w' _ _ _ Ht eq_refl Ea Hacc) as [Hst' Hsent].
  assert (Hneeds : needs_session (Msg_event n f) = true) by (apply message_needs_session; by rewrite Hb).
  assert (Hsp : session_process (Nf_session s) (Msg_event n f) (outside_world d) = (Normal tt, (Nf_session s', w'))) by (cbn; by rewrite Eproc).
  destruct (round_serves config fuel garbage installer install d u m i (Msg_event n f) (Nf_session s) (Nf_session s') (Normal tt) w')
    as (d' & Erun & Hw & Htab); try done.
  { left. split; [done|]. cbn. unfold NfSession.is_final. rewrite H1'. by apply bool_decide_eq_false_2. }
  exists d', s', data, ns. split_and!; try done. by rewrite Hw.
Qed.
(** It gets the answer to the REFRESH it passed on. *)
Lemma forwarder_confirms (d : daemon) (u : unit) (m : message) (i : session_id) (s : NfSession.nf_session) (n last : ntlp_msg) (f : bool)
  (c b : anslp_msg) (r : auction_rule) k lt l :
  daemon_wf d -> session_id_wf i -> session_table (session_mgr d) !! i = Some (Nf_session s) ->
  NfSession.state s = NfSession.STATE_ANSLP_AUCTIONING -> rule (NfSession.base s) = Some r ->
  NfSession.refresh_message s = Some last -> get_anslp_msg last = Some c -> refreshes k l c ->
  map_to_event m = Normal (Some (Some i, Msg_event n f)) -> get_session_id n = i -> get_anslp_msg n = Some b -> grants k lt [] b ->
  exists (d' : daemon) data ns, round m (d, u) = (Normal tt, (d', u))
    /\ w_sent (outside_world d') = w_sent (outside_world d) ++ [given data ns (get_mri n)] /\ payload_of i b data ns
    /\ settled (NfSession.lifetime s) r (refuses (NfSession.own_id s) r) (session_table (session_mgr d') !! i).
Proof.
  intros Hd Hi Hs Hst Hru Hl Hc Hr Hmap Hni Hb Hg. pose proof Hd as (Hn & Hrun & Hacc).
  destruct (refreshes_says k l c Hr) as (_ & _ & E3 & E4). pose proof Hr as [Hccls _].
  destruct (grants_number k lt [] b Hg) as (G1 & G2 & G3 & _). pose proof Hg as [Hcls Hv].
  assert (Hgr : get_response (Msg_event n f) = Some b) by (unfold get_response, ev_anslp, get_anslp; cbn; by rewrite Hb, decide_True).
  destruct (grant_given i (get_mri n) k lt b Hi Hg) as (data & ns & Ea & Hpay).
  assert (Hfw : forwarded n = mk_ntlp_msg i (Some b) (get_mri n) 0) by (unfold forwarded; by rewrite Hni, Hb).
  assert (Hwp : wp (NfSession.process_event (Msg_event n f)) (fun o sw => exists es,
    w_history (snd sw) = w_history (outside_world d) ++ Sent (forwarded n) :: es /\ messages_of es = []
    /\ (o = Normal tt \/ exists e, o = Raised e)
    /\ settled (NfSession.lifetime s) r (refuses (NfSession.own_id s) r) (remains o (Nf_session (fst sw)))) (s, outside_world d)).
  { apply (refresh_confirmed_run s (outside_world d) n last f b r); try done.
    - exact (map_Forall_lookup_1 _ _ _ _ (proj2 Hn) Hs).
    - intros x Hx. rewrite Hb in Hx. injection Hx as <-. by exists (grant_view k lt []).
    - unfold is_anslp_response, is_anslp_response_msn. rewrite Hc, E3, get_msn_has, E4, Hgr, G1, G2 by done. apply Z.eqb_refl.
    - intros Hlt id w' Ht. cbn [fst snd]. eexists. split; [exact Ht|]. split_and!; [done|by left|by apply settled_up].
    - intros Hlt Hresp id t s' w' Hs' Ht. cbn [fst snd]. eexists. split; [exact Ht|]. split_and!; [done|by left|by apply settled_down].
    - intros Hlt Hresp e s' w1 w' He Ht. cbn [fst snd]. eexists. split; [exact Ht|]. split_and!; [done|by right; eexists|].
      apply settled_refused; [done|done|by exists w1, e].
    - intros Hlt Hresp s' w' Hs' Ht. cbn [fst snd]. eexists. split; [exact Ht|]. split_and!; [done|by left|].
      apply settled_closed; [done|done|]. cbn. unfold NfSession.is_final. by apply bool_decide_eq_true_2. }
  unfold wp in Hwp. destruct (NfSession.process_event (Msg_event n f) (s, outside_world d)) as [o [s' w']] eqn:Eproc.
  cbn [fst snd] in Hwp. destruct Hwp as (es & Ht & Hes & Ho & Hend). rewrite Hfw in Ht.
  destruct (first_sent Hgist (outside_world d) w' _ _ es Ht Hes Ea Hacc) as [Hst' Hsent].
  assert (Hneeds : needs_session (Msg_event n f) = true) by (apply message_needs_session; by rewrite Hb).
  assert (Hsp : session_process (Nf_session s) (Msg_event n f) (outside_world d) = (o, (Nf_session s', w'))) by (cbn; by rewrite Eproc).
  destruct (round_ends config fuel garbage installer install d u m i (Msg_event n f) (Nf_session s) (Nf_session s') o w')
    as (d' & Erun & Hw & Htab); try done.
  exists d', data, ns. rewrite Hw, Htab. by split_and!.
Qed.

(** The responder gets it: it answers. *)
Lemma responder_renewed (d : daemon) (u : unit) (m : message) (i : session_id) (s : NrSession.nr_session) (n : ntlp_msg) (f : bool)
  (b : anslp_msg) (r : auction_rule) k lt (L := granted s lt) :
  daemon_wf d -> session_id_wf i -> session_table (session_mgr d) !! i = Some (Nr_session s) ->
  NrSession.state s = NrSession.STATE_ANSLP_AUCTIONING -> rule (NrSession.base s) = Some r ->
  is_greater_than k (msn (NrSession.base s)) = true -> is_u32 L ->
  map_to_event m = Normal (Some (Some i, Msg_event n f)) -> get_session_id n = i -> get_anslp_msg n = Some b -> refreshes k lt b ->
  exists (d' : daemon) answer data ns, round m (d, u) = (Normal tt, (d', u)) /\ grants k L [] answer
    /\ w_sent (outside_world d') = w_sent (outside_world d) ++ [given data ns (invertDirection (get_mri n))] /\ payload_of i answer data ns
    /\ settled L r (refuses (NrSession.own_id s) r) (session_table (session_mgr d') !! i).
Proof.
  intros Hd Hi Hs Hst Hru Hnew HL Hmap Hni Hb Hr. pose proof Hd as (Hn & Hrun & Hacc).
  destruct (refreshes_says k lt b Hr) as (E1 & E2 & E3 & E4). pose proof Hr as [Hcls Hv].
  assert (Hgr : get_refresh (Msg_event n f) = Some b) by (unfold get_refresh, ev_anslp, get_anslp; cbn; by rewrite Hb, decide_True).
  destruct (create_success_response_view n L b _ Hb Hv HL) as (a & Ha & Hac & Hav). rewrite E3, E4 in Hav.
  assert (Hg : grants k L [] a) by by split.
  destruct (grant_given i (invertDirection (get_mri n)) k L a Hi Hg) as (data & ns & Ea & Hpay).
  assert (Hfw : create_success_response L n = mk_ntlp_msg i (Some a) (invertDirection (get_mri n)) 0).
  { rewrite <- Ha. unfold create_success_response, update_msg, create_response. cbn. by rewrite Hni. }
  assert (Hwp : wp (NrSession.process_event (Msg_event n f)) (fun o sw => exists es,
    w_history (snd sw) = w_history (outside_world d) ++ Sent (create_success_response L n) :: es /\ messages_of es = []
    /\ (o = Normal tt \/ exists e, o = Raised e)
    /\ settled L r (refuses (NrSession.own_id s) r) (remains o (Nr_session (fst sw)))) (s, outside_world d)).
  { apply (refresh_taken_run s (outside_world d) n f b r); try done; rewrite ?E1, ?E2; try done.
    - apply HL.
    - by apply not_unauthorized.
    - intros Hlt id s' w' Hs' Hl' Hk' Hr' Ht. cbn [fst snd]. eexists. split; [exact Ht|]. split_and!; [done|by left|]. apply settled_up; [fold L in Hlt; lia|done].
    - intros Hlt Hresp id t s' w' Hs' Ht. cbn [fst snd]. eexists. split; [exact Ht|]. split_and!; [done|by left|by apply settled_down].
    - intros Hlt Hresp e s' w1 w' He Ht. cbn [fst snd]. eexists. split; [exact Ht|]. split_and!; [done|by right; eexists|].
      apply settled_refused; [done|done|by exists w1, e].
    - intros Hlt Hresp s' w' Hs' Ht. cbn [fst snd]. eexists. split; [exact Ht|]. split_and!; [done|by left|].
      apply settled_closed; [done|done|]. cbn. unfold NrSession.is_final. by apply bool_decide_eq_true_2. }
  unfold wp in Hwp. destruct (NrSession.process_event (Msg_event n f) (s, outside_world d)) as [o [s' w']] eqn:Eproc.
  cbn [fst snd] in Hwp. destruct Hwp as (es & Ht & Hes & Ho & Hend). rewrite Hfw in Ht.
  destruct (first_sent Hgist (outside_world d) w' _ _ es Ht Hes Ea Hacc) as [Hst' Hsent].
  assert (Hneeds : needs_session (Msg_event n f) = true) by (apply message_needs_session; by rewrite Hb).
  assert (Hsp : session_process (Nr_session s) (Msg_event n f) (outside_world d) = (o, (Nr_session s', w'))) by (cbn; by rewrite Eproc).
  destruct (round_ends config fuel garbage installer install d u m i (Msg_event n f) (Nr_session s) (Nr_session s') o w')
    as (d' & Erun & Hw & Htab); try done.
  exists d', a, data, ns. rewrite Hw, Htab. by split_and!.
Qed.

(** The initiator's refresh timer expires, or its application ends the
    session: it sends a REFRESH. *)
Lemma initiator_renews (d : daemon) (u : unit) (m : message) (i : session_id) (s : NiSession.ni_session) (evt : event)
  (k := u32 (msn (NiSession.base s) + 1)) (lt := if is_api_teardown evt then 0%Z else NiSession.lifetime s) :
  daemon_wf d -> session_id_wf i -> session_table (session_mgr d) !! i = Some (Ni_session s) ->
  NiSession.state s = NiSession.STATE_ANSLP_AUCTIONING ->
  is_timer_of evt (NiSession.refresh_timer s) = true \/ evt = Api_teardown_event ->
  map_to_event m = Normal (Some (Some i, evt)) ->
  exists (d' : daemon) s' b data ns route, round m (d, u) = (Normal tt, (d', u))
    /\ session_table (session_mgr d') !! i = Some (Ni_session s')
    /\ NiSession.state s' = NiSession.STATE_ANSLP_AUCTIONING /\ NiSession.lifetime s' = lt
    /\ rule (NiSession.base s') = rule (NiSession.base s) /\ NiSession.routing_info s = Some route
    /\ NiSession.last_refresh_msg s' = Some (mk_ntlp_msg i (Some b) route 0) /\ refreshes k lt b
    /\ w_sent (outside_world d') = w_sent (outside_world d) ++ [given data ns route] /\ payload_of i b data ns.
Proof.
  intros Hd Hi Hs Hst Hevt Hmap. pose proof Hd as (Hn & Hrun & Hacc).
  destruct (proj1 (proj1 Hn) _ _ Hs) as [Hgi _]. change (Session.sid (NiSession.base s) = i) in Hgi.
  assert (Hwp : wp (NiSession.process_event evt) (fun o sw => exists route b es, o = Normal tt
    /\ NiSession.routing_info s = Some route /\ refreshes k lt b
    /\ NiSession.state (fst sw) = NiSession.STATE_ANSLP_AUCTIONING /\ NiSession.lifetime (fst sw) = lt
    /\ rule (NiSession.base (fst sw)) = rule (NiSession.base s) /\ NiSession.last_refresh_msg (fst sw) = Some (mk_ntlp_msg i (Some b) route 0)
    /\ w_history (snd sw) = w_history (outside_world d) ++ Sent (mk_ntlp_msg i (Some b) route 0) :: es /\ messages_of es = []) (s, outside_world d)).
  { apply (refresh_sent_run s (outside_world d) evt); try done.
    - exact (map_Forall_lookup_1 _ _ _ _ (proj2 Hn) Hs).
    - intros route b s' w' es L Hroute Hb Hs' Hl' Hr' Hlast Ht Hes. cbn [fst snd]. rewrite Hgi in *. exists route, b, es.
      split_and!; try done. by apply unsent. }
  unfold wp in Hwp. destruct (NiSession.process_event evt (s, outside_world d)) as [o [s' w']] eqn:Eproc.
  cbn [fst snd] in Hwp. destruct Hwp as (route & b & es & -> & Hroute & Hb & Hs' & Hl' & Hr' & Hlast & Ht & Hes).
  destruct (refresh_given i route k lt b Hi Hb) as (data & ns & Ea & Hpay).
  destruct (first_sent Hgist (outside_world d) w' _ _ es Ht Hes Ea Hacc) as [Hst' Hsent].
  assert (Hneeds : needs_session evt = true) by (destruct Hevt as [Ht'| ->]; [|done]; by destruct evt).
  assert (Hsp : session_process (Ni_session s) evt (outside_world d) = (Normal tt, (Ni_session s', w'))) by (cbn; by rewrite Eproc).
  destruct (round_serves config fuel garbage installer install d u m i evt (Ni_session s) (Ni_session s') (Normal tt) w')
    as (d' & Erun & Hw & Htab); try done.
  { left. split; [done|]. cbn. unfold NiSession.is_final. rewrite Hs'. by apply bool_decide_eq_false_2. }
  exists d', s', b, data, ns, route. rewrite Hw. by split_and!.
Qed.

(** It gets the answer. *)
Lemma initiator_confirmed (d : daemon) (u : unit) (m : message) (i : session_id) (s : NiSession.ni_session) (n last : ntlp_msg) (f : bool)
  (c b : anslp_msg) (r : auction_rule) k lt l :
  daemon_wf d -> session_table (session_mgr d) !! i = Some (Ni_session s) ->
  NiSession.state s = NiSession.STATE_ANSLP_AUCTIONING -> rule (NiSession.base s) = Some r ->
  NiSession.last_refresh_msg s = Some last -> get_anslp_msg last = Some c -> refreshes k l c ->
  map_to_event m = Normal (Some (Some i, Msg_event n f)) -> get_anslp_msg n = Some b -> grants k lt [] b ->
  exists (d' : daemon), round m (d, u) = (Normal tt, (d', u))
    /\ w_sent (outside_world d') = w_sent (outside_world d)
    /\ settled (NiSession.lifetime s) r (refuses (NiSession.own_id s) r) (session_table (session_mgr d') !! i).
Proof.
  intros Hd Hs Hst Hru Hl Hc Hr Hmap Hb Hg. pose proof Hd as (Hn & Hrun & Hacc).
  destruct (refreshes_says k l c Hr) as (C1 & _ & E3 & E4). pose proof Hr as [Hccls _].
  destruct (grants_number k lt [] b Hg) as (G1 & G2 & G3 & _). pose proof Hg as [Hcls Hv].
  assert (Hgr : get_response (Msg_event n f) = Some b) by (unfold get_response, ev_anslp, get_anslp; cbn; by rewrite Hb, decide_True).
  assert (Hgc : get_anslp_refresh last = Some c) by (unfold get_anslp_refresh, get_anslp; by rewrite Hc, decide_True).
  assert (Hwp : wp (NiSession.process_event (Msg_event n f)) (fun o sw => exists es,
    w_history (snd sw) = w_history (outside_world d) ++ es /\ messages_of es = []
    /\ (o = Normal tt \/ exists e, o = Raised e)
    /\ settled (NiSession.lifetime s) r (refuses (NiSession.own_id s) r) (remains o (Ni_session (fst sw)))) (s, outside_world d)).
  { apply (refresh_answered_run s (outside_world d) n last f b c r); try done.
    - unfold is_response_to_refresh. rewrite G2, C1. apply Z.eqb_refl.
    - intros Hlt id s' w' Hs' _ _ Hl' Ht. cbn [fst snd]. eexists. split; [exact Ht|]. split_and!; [done|by left|by apply settled_up].
    - intros Hlt Hresp id t s' w' Hs' _ Ht. cbn [fst snd]. eexists. split; [exact Ht|]. split_and!; [done|by left|by apply settled_down].
    - intros Hlt Hresp e s' w1 w' He _ Ht. cbn [fst snd]. eexists. split; [exact Ht|]. split_and!; [done|by right; eexists|].
      apply settled_refused; [done|done|by exists w1, e].
    - intros Hlt Hresp s' w' Hs' Ht. cbn [fst snd]. eexists. split; [exact Ht|]. split_and!; [done|by left|].
      apply settled_closed; [done|done|]. cbn. unfold NiSession.is_final. by apply bool_decide_eq_true_2. }
  unfold wp in Hwp. destruct (NiSession.process_event (Msg_event n f) (s, outside_world d)) as [o [s' w']] eqn:Eproc.
  cbn [fst snd] in Hwp. destruct Hwp as (es & Ht & Hes & Ho & Hend).
  destruct (nothing_sent Hgist (outside_world d) w' es Ht Hes Hrun Hacc) as [Hst' Hsent].
  assert (Hneeds : needs_session (Msg_event n f) = true) by (apply message_needs_session; by rewrite Hb).
  assert (Hsp : session_process (Ni_session s) (Msg_event n f) (outside_world d) = (o, (Ni_session s', w'))) by (cbn; by rewrite Eproc).
  destruct (round_ends config fuel garbage installer install d u m i (Msg_event n f) (Ni_session s) (Ni_session s') o w')
    as (d' & Erun & Hw & Htab); try done.
  exists d'. rewrite Hw, Htab. by split_and!.
Qed.
End Node.
(** ** The path. *)

(** A forwarder on the path, the session it has, and the way back: GIST hands
    the RESPONSE to it on that route. *)
Record refreshing_hop := mk_refreshing {
  rh_hop : hop (E := E);
  rh_session : NfSession.nf_session;
  rh_rule : auction_rule;
  rh_route : mri;
  rh_deliver : list Z -> sessionid -> APIMsg }.

Definition refreshing_ok (i : session_id) (k : Z) (h : refreshing_hop) : Prop :=
  let d := hop_daemon (rh_hop h) in let s := rh_session h in
  installer_ok (hop_installer (rh_hop h)) /\ config_ok (hop_config (rh_hop h)) /\ daemon_wf d
  /\ session_table (session_mgr d) !! i = Some (Nf_session s)
  /\ NfSession.state s = NfSession.STATE_ANSLP_AUCTIONING /\ rule (NfSession.base s) = Some (rh_rule h)
  /\ is_greater_than k (msn (NfSession.base s)) = true
  /\ (forall data ns, hands_over data ns (hop_route (rh_hop h)) (hop_deliver (rh_hop h) data ns))
  /\ forall data ns, hands_over data ns (rh_route h) (rh_deliver h data ns).

(** Its two rounds: the REFRESH arrives; the RESPONSE arrives. *)
Definition renewing (h : refreshing_hop) (data : list Z) (ns : sessionid) :=
  hop_round (rh_hop h) (Api_msg (hop_deliver (rh_hop h) data ns)).
Definition confirming (h : refreshing_hop) (d : daemon (E := E)) (data : list Z) (ns : sessionid) :=
  let h' := rh_hop h in
  main_loop_step (hop_config h') (hop_fuel h') (hop_garbage h') (hop_installer h') (hop_install h')
    (Some (Api_msg (rh_deliver h data ns))) (d, tt).

(** The payload of a REFRESH of lifetime [lt] goes through the forwarders,
    [turn] says what happens at the far end, and the payload that comes from
    there goes back through them, in the reverse order; [Q] holds of what
    comes out. *)
Fixpoint there_and_back (i : session_id) (lt : Z) (hs : list refreshing_hop)
  (turn : list Z -> sessionid -> (list Z -> sessionid -> Prop) -> Prop) (data : list Z) (ns : sessionid)
  (Q : list Z -> sessionid -> Prop) : Prop :=
  match hs with
  | [] => turn data ns Q
  | h :: hs =>
      let L := Z.min lt (NfSession.max_lifetime (rh_session h)) in
      exists (d1 : daemon (E := E)) s data1 ns1, renewing h data ns = (Normal tt, (d1, tt))
      /\ session_table (session_mgr d1) !! i = Some (Nf_session s) /\ auctioning L (Nf_session s)
      /\ w_sent (outside_world d1) = w_sent (outside_world (hop_daemon (rh_hop h))) ++ [given data1 ns1 (hop_route (rh_hop h))]
      /\ there_and_back i lt hs turn data1 ns1 (fun data2 ns2 =>
           exists (d2 : daemon (E := E)) data3 ns3, confirming h d1 data2 ns2 = (Normal tt, (d2, tt))
           /\ w_sent (outside_world d2) = w_sent (outside_world d1) ++ [given data3 ns3 (rh_route h)]
           /\ settled L (rh_rule h)
                (refuses (hop_installer (rh_hop h)) (hop_install (rh_hop h)) (NfSession.own_id s) (rh_rule h))
                (session_table (session_mgr d2) !! i)
           /\ Q data3 ns3)
  end.
Lemma refresh_returns (i : session_id) k lt L turn : session_id_wf i ->
  (forall b data ns Q, refreshes k lt b -> payload_of i b data ns ->
     (forall a data' ns', grants k L [] a -> payload_of i a data' ns' -> Q data' ns') -> turn data ns Q) ->
  forall hs b data ns (Q : list Z -> sessionid -> Prop), Forall (refreshing_ok i k) hs -> refreshes k lt b -> payload_of i b data ns ->
    (forall a data' ns', grants k L [] a -> payload_of i a data' ns' -> Q data' ns') -> there_and_back i lt hs turn data ns Q.
Proof.
  intros Hi Hturn. induction hs as [|h hs IH]; intros b data ns Q Hhs Hb Hpay HQ; [by eapply Hturn|].
  apply Forall_cons in Hhs as [(Hok & Hc & Hd & Hs & Hst & Hru & Hnew & Hto & Hfro) Hhs].
  pose proof (Hpay _ _ (Hto data ns)) as Hmap. set (a := hop_deliver (rh_hop h) data ns) in *.
  set (n := mk_ntlp_msg i (Some b) (hop_route (rh_hop h)) (api_sii_handle a)) in *.
  destruct (forwarder_renews (hop_config (rh_hop h)) (hop_fuel (rh_hop h)) (hop_garbage (rh_hop h)) (hop_installer (rh_hop h))
    (hop_install (rh_hop h)) Hok (hop_daemon (rh_hop h)) tt (Api_msg a) i (rh_session h) n (api_final_hop a) k lt b)
    as (d1 & s1 & data1 & ns1 & Erun1 & Hs1 & Hst1 & Hl1 & Hlast & Hr1 & Hsent1 & Hpay1); try done.
  cbn [there_and_back]. exists d1, s1, data1, ns1. split_and!; try done.
  assert (Hd1 : daemon_wf d1).
  { eapply (round_wf (hop_config (rh_hop h)) (hop_fuel (rh_hop h)) (hop_garbage (rh_hop h)) (hop_installer (rh_hop h))
      (hop_install (rh_hop h)) Hok _ d1 tt); [done|exact Hd|exact Hmap| |exact Erun1].
    intros m [= <-]. by exists (refresh_view k lt); destruct Hb. }
  apply (IH b); [done..|]. intros c data2 ns2 Hg Hpay2. pose proof (Hpay2 _ _ (Hfro data2 ns2)) as Hmap2.
  set (a2 := rh_deliver h data2 ns2) in *.
  destruct (forwarder_confirms (hop_config (rh_hop h)) (hop_fuel (rh_hop h)) (hop_garbage (rh_hop h)) (hop_installer (rh_hop h))
    (hop_install (rh_hop h)) Hok d1 tt (Api_msg a2) i s1 (mk_ntlp_msg i (Some c) (rh_route h) (api_sii_handle a2)) n (api_final_hop a2)
    b c (rh_rule h) k L lt) as (d2 & data3 & ns3 & Erun2 & Hsent2 & Hpay3 & Hend); try done; [by rewrite Hr1|].
  exists d2, data3, ns3. rewrite Hl1 in Hend. split_and!; try done. by apply (HQ c).
Qed.

(** ** From the initiator to the responder and back. *)
Variables (confA confB : anslp_config) (fuelA fuelB : nat) (garbageA garbageB : Z).
Variables (installerA installerB : auction_rule_installer (E := E)) (installA installB : bool).
Context (HokA : installer_ok installerA) (HokB : installer_ok installerB).

Abbreviation stepA := (main_loop_step confA fuelA garbageA installerA installA).
Abbreviation stepB := (main_loop_step confB fuelB garbageB installerB installB).

(** C8. A session is refreshed, or ended, along a path of any length.  The refresh
    timer of the initiator's session expires, or its application tears it
    down: its daemon gives GIST one message, a REFRESH with the next sequence
    number, whose lifetime is the session's, or 0.  Every forwarder, if the
    number is new to it, takes the lifetime up to its maximum and passes the
    REFRESH on with one message of its own; the responder takes it up to its
    maximum and answers at once, on the inverted route; every forwarder passes
    the RESPONSE on, and the initiator's session sends nothing more.
    Wherever the lifetime is not 0, the session auctions with it; where it is,
    the session is closed and gone if it had no rules installed, and otherwise
    has their removal under way, or, where the installer throws, is gone. *)
Theorem path_refreshed (dA dB : daemon) (u u' : unit) (m : message) (i : session_id) (evt : event)
  (sA : NiSession.ni_session) (sB : NrSession.nr_session) (rA rB : auction_rule) (routeA routeB : mri)
  (deliverA deliverB : list Z -> sessionid -> APIMsg) (hs : list refreshing_hop)
  (k := u32 (msn (NiSession.base sA) + 1)) (lt := if is_api_teardown evt then 0%Z else NiSession.lifetime sA)
  (LB := Z.min lt (NrSession.max_lifetime sB))
  (HcA : config_ok confA) (HdA : daemon_wf dA) (HdB : daemon_wf dB) (Hi : session_id_wf i)
  (HsA : session_table (session_mgr dA) !! i = Some (Ni_session sA)) (HstA : NiSession.state sA = NiSession.STATE_ANSLP_AUCTIONING)
  (HrA : rule (NiSession.base sA) = Some rA)
  (Hevt : is_timer_of evt (NiSession.refresh_timer sA) = true \/ evt = Api_teardown_event) (Hval : event_valid evt)
  (Hmap : map_to_event m = Normal (Some (Some i, evt)))
  (HsB : session_table (session_mgr dB) !! i = Some (Nr_session sB)) (HstB : NrSession.state sB = NrSession.STATE_ANSLP_AUCTIONING)
  (HrB : rule (NrSession.base sB) = Some rB) (HnB : is_greater_than k (msn (NrSession.base sB)) = true)
  (HmB : (0 <= NrSession.max_lifetime sB)%Z)
  (HoverA : forall data ns, hands_over data ns routeA (deliverA data ns))
  (HoverB : forall data ns, hands_over data ns routeB (deliverB data ns))
  (Hhs : Forall (refreshing_ok i k) hs) :
  exists (dA1 : daemon) s data ns route, stepA (Some m) (dA, u) = (Normal tt, (dA1, u))
    /\ session_table (session_mgr dA1) !! i = Some (Ni_session s) /\ auctioning lt (Ni_session s)
    /\ w_sent (outside_world dA1) = w_sent (outside_world dA) ++ [given data ns route]
    /\ there_and_back i lt hs (fun data1 ns1 back =>
         exists (dB1 : daemon) data2 ns2, stepB (Some (Api_msg (deliverB data1 ns1))) (dB, u') = (Normal tt, (dB1, u'))
           /\ w_sent (outside_world dB1) = w_sent (outside_world dB) ++ [given data2 ns2 (invertDirection routeB)]
           /\ settled LB rB (refuses installerB installB (NrSession.own_id sB) rB) (session_table (session_mgr dB1) !! i)
           /\ back data2 ns2) data ns (fun data2 ns2 =>
       exists dA2 : daemon, stepA (Some (Api_msg (deliverA data2 ns2))) (dA1, u) = (Normal tt, (dA2, u))
         /\ w_sent (outside_world dA2) = w_sent (outside_world dA1)
         /\ settled lt rA (refuses installerA installA (NiSession.own_id s) rA) (session_table (session_mgr dA2) !! i)).
Proof.
  destruct (initiator_renews confA fuelA garbageA installerA installA HokA dA u m i sA evt)
    as (dA1 & s & b & data & ns & route & Erun & Hs & Hst & Hl & Hr & _ & Hlast & Hb & Hsent & Hpay); try done.
  exists dA1, s, data, ns, route. split_and!; try done.
  assert (Hd1 : daemon_wf dA1) by by eapply (round_wf confA fuelA garbageA installerA installA HokA dA dA1 u m (Some i) evt).
  assert (HLB : is_u32 LB).
  { pose proof (map_Forall_lookup_1 _ _ _ _ (proj2 (proj1 HdA)) HsA) as [Hlu _]. unfold LB, lt, is_u32 in *. destruct (is_api_teardown evt); lia. }
  apply (refresh_returns i k lt LB _ Hi) with (b := b); [|done..|].
  - intros b1 data1 ns1 Q Hb1 Hpay1 HQ. pose proof (Hpay1 _ _ (HoverB data1 ns1)) as Hmap1.
    destruct (responder_renewed confB fuelB garbageB installerB installB HokB dB u' (Api_msg (deliverB data1 ns1)) i sB _ _ b1 rB k lt
      HdB Hi HsB HstB HrB HnB HLB Hmap1 eq_refl eq_refl Hb1) as (dB1 & a & data2 & ns2 & Erun1 & Hg & Hsent1 & Hpay2 & Hend).
    exists dB1, data2, ns2. split_and!; try done. by apply (HQ a).
  - intros a data2 ns2 Hg Hpay2. pose proof (Hpay2 _ _ (HoverA data2 ns2)) as Hmap2.
    destruct (initiator_confirmed confA fuelA garbageA installerA installA HokA dA1 u (Api_msg (deliverA data2 ns2)) i s _ _ _ b a rA k LB lt
      Hd1 Hs Hst ltac:(by rewrite Hr) Hlast eq_refl Hb Hmap2 eq_refl Hg) as (dA2 & Erun2 & Hsent2 & Hend).
    exists dA2. rewrite Hl in Hend. by split_and!.
Qed.
End Path_refresh.
