(* ===== verification/Config.v ===== *)
(** * The configuration: include/anslp_config.h, src/anslp_config.cpp

    The parameters of the daemon: their IDs in the order of the enumeration,
    their registration with names and defaults, and the getters.  The
    repository that stores them is a class of protlib: here it is the function
    [getpar] from IDs to values. *)
From S2P Require Import NiSession NrSession NfSession.
From S2P Require Import Prelude Outcome StdMap External Session SessionManager DispatcherSpec.

(** [anslp_configpar_id_t]. *)
Inductive anslp_configpar_id_t :=
  | anslpconf_invalid
  | anslpconf_conffilename
  | anslpconf_dispatcher_threads
  | anslpconf_is_auctioneer
  | anslpconf_install_auction_rules
  | anslpconf_auctioneer_application
  | anslpconf_auctioneer_user
  | anslpconf_auctioneer_password
  | anslpconf_auctioneer_server
  | anslpconf_auctioneer_def_xsl
  | anslpconf_auctioneer_port
  | anslpconf_ni_session_lifetime
  | anslpconf_ni_response_timeout
  | anslpconf_ni_max_session_lifetime
  | anslpconf_ni_max_retries
  | anslpconf_ni_msg_hop_count
  | anslpconf_ni_user
  | anslpconf_ni_password
  | anslpconf_ni_server
  | anslpconf_ni_port
  | anslpconf_nf_max_session_lifetime
  | anslpconf_nf_response_timeout
  | anslpconf_nf_is_edge
  | anslpconf_nr_max_session_lifetime
  | anslpconf_nr_max_retries
  | anslpconf_nr_response_timeout
  | anslpconf_maxparno.

#[export] Instance configpar_eq_dec : EqDecision anslp_configpar_id_t.
Proof. solve_decision. Defined.

(** The enumeration, in its order. *)
Definition configpar_ids : list anslp_configpar_id_t :=
  [anslpconf_invalid; anslpconf_conffilename; anslpconf_dispatcher_threads; anslpconf_is_auctioneer;
   anslpconf_install_auction_rules; anslpconf_auctioneer_application; anslpconf_auctioneer_user;
   anslpconf_auctioneer_password; anslpconf_auctioneer_server; anslpconf_auctioneer_def_xsl;
   anslpconf_auctioneer_port; anslpconf_ni_session_lifetime; anslpconf_ni_response_timeout;
   anslpconf_ni_max_session_lifetime; anslpconf_ni_max_retries; anslpconf_ni_msg_hop_count; anslpconf_ni_user;
   anslpconf_ni_password; anslpconf_ni_server; anslpconf_ni_port; anslpconf_nf_max_session_lifetime;
   anslpconf_nf_response_timeout; anslpconf_nf_is_edge; anslpconf_nr_max_session_lifetime;
   anslpconf_nr_max_retries; anslpconf_nr_response_timeout; anslpconf_maxparno].

(** The number of an ID: its position. *)
Fixpoint position (id : anslp_configpar_id_t) (l : list anslp_configpar_id_t) : nat :=
  match l with
  | [] => 0
  | x :: l => if decide (x = id) then 0 else S (position id l)
  end.
Definition configpar_number (id : anslp_configpar_id_t) : nat := position id configpar_ids.

(** [configpar<string>], [configpar<uint32>], [configpar<bool>]. *)
Inductive parameter := Par_string (s : string) | Par_uint32 (n : Z) | Par_bool (b : bool).

(** The directory the build configures. *)
Section Registration.
Variable DEF_SYSCONFDIR : string.

(** [registerAllPars]: ID, name and default, in the order of the calls. *)
Definition registerAllPars : list (anslp_configpar_id_t * string * parameter) :=
  [(anslpconf_conffilename, "config", Par_string "nsis-ka.conf");
   (anslpconf_dispatcher_threads, "dispatcher-threads", Par_uint32 1);
   (anslpconf_is_auctioneer, "as-is-auctioneer", Par_bool false);
   (anslpconf_install_auction_rules, "as-install-auction-rules", Par_bool true);
   (anslpconf_auctioneer_application, "as-auctioneer-application", Par_string "auctionManager");
   (anslpconf_auctioneer_user, "as-auctioneer-user", Par_string "admin");
   (anslpconf_auctioneer_password, "as-auctioneer-password", Par_string "admin");
   (anslpconf_auctioneer_server, "as-auctioneer-server", Par_string "localhost");
   (anslpconf_auctioneer_def_xsl, "as-auctioneer-def-xsl", Par_string (DEF_SYSCONFDIR +:+ "/reply2.xsl"));
   (anslpconf_auctioneer_port, "as-auctioneer-port", Par_uint32 12244);
   (anslpconf_ni_session_lifetime, "ni-session-lifetime", Par_uint32 30);
   (anslpconf_ni_response_timeout, "ni-response-timeout", Par_uint32 2);
   (anslpconf_ni_max_session_lifetime, "ni-max-session-lifetime", Par_uint32 30);
   (anslpconf_ni_max_retries, "ni-max-retries", Par_uint32 3);
   (anslpconf_ni_msg_hop_count, "ni-msg-hop-count", Par_uint32 20);
   (anslpconf_ni_user, "ni-user", Par_string "admin");
   (anslpconf_ni_password, "ni-password", Par_string "admin");
   (anslpconf_ni_server, "ni-server", Par_string "localhost");
   (anslpconf_ni_port, "ni-port", Par_uint32 12248);
   (anslpconf_nf_max_session_lifetime, "nf-max-session-lifetime", Par_uint32 60);
   (anslpconf_nf_response_timeout, "nf-response-timeout", Par_uint32 2);
   (anslpconf_nf_is_edge, "nf-is-edge", Par_bool false);
   (anslpconf_nr_max_session_lifetime, "nr-max-session-lifetime", Par_uint32 60);
   (anslpconf_nr_response_timeout, "nr-response-timeout", Par_uint32 2);
   (anslpconf_nr_max_retries, "nr-max-retries", Par_uint32 3)].

(** [setRepository]: the realm, then the parameters, in the repository of
    protlib the configuration is given. *)
Section Repository.
Context {configpar_repository : Type}
  (registerRealm : Z -> string -> nat -> M configpar_repository unit)
  (registerPar : Z -> nat -> string -> parameter -> M configpar_repository unit).

Definition anslp_realm : Z := 6.

Definition setRepository (newcfp_rep : option configpar_repository) : outcome configpar_repository :=
  match newcfp_rep with
  | None => Raised No_repository
  | Some cfgpar_rep =>
      match (registerRealm anslp_realm "anslp-nslp" (configpar_number anslpconf_maxparno) ;;;
             iterM (fun '(id, name, value) => registerPar anslp_realm (configpar_number id) name value) registerAllPars) cfgpar_rep with
      | (Normal _, cfgpar_rep) => Normal cfgpar_rep
      | (Raised e, _) => Raised e
      | (Faulted f, _) => Faulted f
      end
  end.
End Repository.

(** The value a parameter has before the configuration file is read. *)
Definition default_par (id : anslp_configpar_id_t) : option parameter :=
  option_map snd (list_find (fun e => fst (fst e) = id) registerAllPars ≫= fun e => Some (fst (fst (snd e)), snd (snd e))).
End Registration.

(** ** The getters the sessions, the dispatcher and the installer use. *)
Section Getters.
Variable getpar : anslp_configpar_id_t -> parameter.

Definition getpar_uint32 (id : anslp_configpar_id_t) : Z := match getpar id with Par_uint32 n => n | _ => 0 end.
Definition getpar_bool (id : anslp_configpar_id_t) : bool := match getpar id with Par_bool b => b | _ => false end.

Definition get_num_dispatcher_threads : Z := getpar_uint32 anslpconf_dispatcher_threads.
Definition is_auctioneer : bool := getpar_bool anslpconf_is_auctioneer.
Definition get_install_auction_rules : bool := getpar_bool anslpconf_install_auction_rules.
Definition is_nf_edge : bool := getpar_bool anslpconf_nf_is_edge.
(** [get_ni_session_lifetime] reads the maximum. *)
Definition get_ni_session_lifetime : Z := getpar_uint32 anslpconf_ni_max_session_lifetime.
Definition get_ni_max_retries : Z := getpar_uint32 anslpconf_ni_max_retries.
Definition get_ni_msg_hop_count : Z := getpar_uint32 anslpconf_ni_msg_hop_count.
Definition get_ni_response_timeout : Z := getpar_uint32 anslpconf_ni_response_timeout.
Definition get_nf_max_session_lifetime : Z := getpar_uint32 anslpconf_nf_max_session_lifetime.
Definition get_nf_response_timeout : Z := getpar_uint32 anslpconf_nf_response_timeout.
Definition get_nr_max_session_lifetime : Z := getpar_uint32 anslpconf_nr_max_session_lifetime.
Definition get_nr_max_retries : Z := getpar_uint32 anslpconf_nr_max_retries.
Definition get_nr_response_timeout : Z := getpar_uint32 anslpconf_nr_response_timeout.

(** What the node reads of its configuration. *)
Definition node_config : anslp_config := {|
  ni_conf := NiSession.mk_ni_config get_ni_response_timeout get_ni_max_retries get_ni_msg_hop_count;
  nf_conf := NfSession.mk_nf_config get_nf_max_session_lifetime;
  nr_conf := NrSession.mk_nr_config get_nr_max_session_lifetime get_nr_max_retries get_nr_response_timeout;
  nf_is_edge := is_nf_edge |}.
End Getters.

(** The configuration.  Every parameter of the enumeration is registered
    exactly once, with a default; but not in the order of the enumeration, as
    the comment in [registerAllPars] demands: the calls for the responder's
    retries and response timeout are swapped.  The defaults make a node
    configuration the theorems about nodes apply to.  And no session ever
    reads the initiator's two session lifetimes or the forwarder's response
    timeout. *)
Theorem parameters_registered (sysconf : string) (getpar getpar' : anslp_configpar_id_t -> parameter)
  (Hdef : forall id p, default_par sysconf id = Some p -> getpar id = p)
  (Hsame : forall id, id <> anslpconf_ni_session_lifetime -> id <> anslpconf_nf_response_timeout ->
     id <> anslpconf_ni_max_session_lifetime -> getpar' id = getpar id) :
  (forall id, id ∈ map (fun e => fst (fst e)) (registerAllPars sysconf)
     <-> id <> anslpconf_invalid /\ id <> anslpconf_maxparno)
  /\ NoDup (map (fun e => fst (fst e)) (registerAllPars sysconf))
  /\ (exists pre, map (fun e => configpar_number (fst (fst e))) (registerAllPars sysconf)
        = pre ++ [configpar_number anslpconf_nr_response_timeout; configpar_number anslpconf_nr_max_retries]
      /\ pre = seq 1 23 /\ configpar_number anslpconf_nr_max_retries = 24)
  /\ config_ok (node_config getpar)
  /\ node_config getpar' = node_config getpar.
Proof.
  split_and!.
  - intros id. split; [|intros [? ?]; destruct id; try done; apply (bool_decide_unpack _); by vm_compute].
    cbn. intros Hid. by repeat (apply elem_of_cons in Hid as [-> | Hid]; [by split|]); apply not_elem_of_nil in Hid.
  - apply (bool_decide_unpack _). vm_compute. done.
  - eexists. split_and!; [|reflexivity|reflexivity]. reflexivity.
  - unfold config_ok, node_config. cbn.
    unfold get_ni_msg_hop_count, get_nr_max_session_lifetime, get_nf_max_session_lifetime, getpar_uint32.
    rewrite (Hdef anslpconf_ni_msg_hop_count (Par_uint32 20)), (Hdef anslpconf_nr_max_session_lifetime (Par_uint32 60)),
      (Hdef anslpconf_nf_max_session_lifetime (Par_uint32 60)) by reflexivity. by split_and!.
  - unfold node_config, get_ni_response_timeout, get_ni_max_retries, get_ni_msg_hop_count, get_nf_max_session_lifetime,
      get_nr_max_session_lifetime, get_nr_max_retries, get_nr_response_timeout, is_nf_edge, getpar_uint32, getpar_bool.
    by rewrite !Hsame.
Qed.

(** The defaults, in a repository that keeps them by ID. *)
Definition default_getpar (id : anslp_configpar_id_t) : parameter :=
  match default_par "/etc" id with Some p => p | None => Par_bool false end.
Definition other_getpar (id : anslp_configpar_id_t) : parameter :=
  if decide (id = anslpconf_ni_session_lifetime) then Par_uint32 5 else default_getpar id.

Theorem parameters_registered_witness :
  config_ok (node_config default_getpar) /\ node_config other_getpar = node_config default_getpar.
Proof.
  destruct (parameters_registered "/etc" default_getpar other_getpar) as (_ & _ & _ & Hc & Hs).
  - intros id p Hp. unfold default_getpar. by rewrite Hp.
  - intros id Hid _ _. unfold other_getpar. by rewrite decide_False.
  - by split.
Defined.

(** A repository that keeps what it is told by number: it has room for every
    parameter, and the numbers the sessions ask for hold their defaults. *)
Section Config_examples.
Definition repository : Type := list (nat * string * parameter) * nat.
Definition register_realm (realm : Z) (name : string) (n : nat) : M repository unit := modify (fun r => (fst r, n)).
Definition register_par (realm : Z) (id : nat) (name : string) (p : parameter) : M repository unit := fun r =>
  if (id <? snd r)%nat then (Normal tt, (fst r ++ [(id, name, p)], snd r)) else (Faulted Out_of_bounds, r).
Definition par_of (r : repository) (id : anslp_configpar_id_t) : option parameter :=
  option_map snd (List.find (fun e => Nat.eqb (fst (fst e)) (configpar_number id)) (fst r)).

Example set_repository :
  setRepository "/etc" register_realm register_par None = Raised No_repository
  /\ exists r, setRepository "/etc" register_realm register_par (Some ([], 0)) = Normal r
       /\ length (fst r) = 25 /\ map (par_of r) configpar_ids = map (default_par "/etc") configpar_ids.
Proof.
  split; [done|].
  exists (match setRepository "/etc" register_realm register_par (Some ([], 0)) with Normal r => r | _ => ([], 0) end).
  split_and!; vm_compute; reflexivity.
Qed.
End Config_examples.
