(* ===== verification/Journal.v ===== *)
(** * The benchmark journal: include/benchmark_journal.h,
    src/benchmark_journal.cpp

    A fixed array of measuring points, filled from its start; [write_journal]
    prints the points up to the first invalid one, a line each, behind a
    header.  The mutex makes each operation one step; the clock and the text
    of the time are arguments. *)
From S2P Require Import Prelude Outcome SessionId.
From Stdlib Require Import Ascii.

(** The measuring points run from 1 to 14; the array is cleared to 0. *)
Definition INVALID_ID : Z := 0.
Definition HIGHEST_VALID_ID : Z := 14.

Record measuring_point_t := mk_point { point : Z; thread_id : Z; timestamp : Z * Z }.

Definition no_point : measuring_point_t := mk_point INVALID_ID 0 (0, 0)%Z.

Record benchmark_journal := mk_journal {
  journal_size : nat;
  journal_pos : nat;
  journal : list measuring_point_t;
  disable_journal : bool }.

(** The constructor. *)
Definition new_benchmark_journal (size : nat) : benchmark_journal :=
  mk_journal size 0 (replicate size no_point) false.

(** [add], under the mutex: [mp] is the point, the calling thread and the
    time.  The second component is whether the overflow is reported. *)
Definition add (mp : measuring_point_t) (j : benchmark_journal) : benchmark_journal * bool :=
  if (journal_pos j <? journal_size j)%nat then
    (mk_journal (journal_size j) (S (journal_pos j)) (<[journal_pos j := mp]> (journal j)) (disable_journal j), false)
  else if negb (disable_journal j) && (journal_pos j =? journal_size j)%nat then
    (mk_journal (journal_size j) (journal_pos j) (journal j) true, true)
  else (j, false).

Definition restart (j : benchmark_journal) : benchmark_journal :=
  mk_journal (journal_size j) 0 (journal j) false.

(** The points [write_journal] prints, in their order. *)
Fixpoint valid_points (l : list measuring_point_t) : list measuring_point_t :=
  match l with
  | [] => []
  | p :: l => if (point p =? INVALID_ID)%Z then [] else p :: valid_points l
  end.
Definition write_journal (j : benchmark_journal) : list measuring_point_t := valid_points (take (journal_size j) (journal j)).

(** *** The text.

    [mp_names], and the lines of the header; [created] is what [ctime] makes
    of the time, its end of line included. *)
Definition mp_names : list string :=
  ["INVALID_ID"; "PRE_PROCESSING"; "POST_PROCESSING"; "PRE_MAPPING"; "POST_MAPPING"; "PRE_SESSION_MANAGER";
   "POST_SESSION_MANAGER"; "PRE_SERIALIZE"; "POST_SERIALIZE"; "PRE_DESERIALIZE"; "POST_DESERIALIZE"; "PRE_DISPATCHER";
   "POST_DISPATCHER"; "PRE_SESSION"; "POST_SESSION"]%string.

Definition chars (s : string) : list ascii := String.list_ascii_of_string s.
Definition newline : ascii := ascii_of_nat 10.
Definition tab : ascii := ascii_of_nat 9.
Definition line (s : string) : list ascii := chars s ++ [newline].

Definition write_header (created : list ascii) : list ascii :=
  chars "# Benchmark Journal, created " ++ created
  ++ line "# $Id: benchmark_journal.cpp 2558 2007-04-04 15:17:16Z bless $"
  ++ line "# Format: <measuring point ID> <Thread ID> <seconds> <nano seconds>"
  ++ line "# Measuring points:"
  ++ concat (imap (fun i name => chars "# " ++ [tab] ++ decimal (Z.of_nat i) ++ chars " " ++ line name) mp_names)
  ++ line "#".

(** A point: four numbers with blanks between them. *)
Definition write_point (p : measuring_point_t) : list ascii :=
  decimal (point p) ++ chars " " ++ decimal (thread_id p) ++ chars " " ++ decimal (fst (timestamp p))
  ++ chars " " ++ decimal (snd (timestamp p)) ++ [newline].

Definition write_journal_stream (created : list ascii) (j : benchmark_journal) : list ascii :=
  write_header created ++ concat (map write_point (write_journal j)).

(** [write_journal(filename)]: what is in the file, if it can be opened. *)
Definition write_journal_file (opened : bool) (created : list ascii) (j : benchmark_journal) : option (list ascii) :=
  if opened then Some (write_journal_stream created j) else None.

(** A run of [add]s, and how often the overflow was reported. *)
Definition add_all (mps : list measuring_point_t) (j : benchmark_journal) : benchmark_journal * nat :=
  fold_left (fun '(j, n) mp => let '(j', r) := add mp j in (j', if (r : bool) then S n else n)) mps (j, 0).

Lemma add_all_cons mp mps j n :
  fold_left (fun '(j, n) mp => let '(j', r) := add mp j in (j', if (r : bool) then S n else n)) (mp :: mps) (j, n)
  = fold_left (fun '(j, n) mp => let '(j', r) := add mp j in (j', if (r : bool) then S n else n)) mps
      (fst (add mp j), if snd (add mp j) then S n else n).
Proof. cbn [fold_left]. by destruct (add mp j) as [j' r]. Qed.

(** Once full, a journal stays as it is; the overflow is reported once. *)
Lemma add_all_full size l mps (d : bool) n :
  fold_left (fun '(j, n) mp => let '(j', r) := add mp j in (j', if (r : bool) then S n else n)) mps
    (mk_journal size size l d, n)
  = (mk_journal size size l (d || bool_decide (mps <> [])), n + (if d then 0 else if decide (mps = []) then 0 else 1)).
Proof.
  revert d n. induction mps as [|mp mps IH]; intros d n.
  - cbn [fold_left]. rewrite decide_True by done. rewrite bool_decide_eq_false_2 by (intros E; by apply E).
    rewrite orb_false_r. destruct d; f_equal; lia.
  - rewrite add_all_cons. unfold add. cbn [journal_pos journal_size journal disable_journal].
    rewrite Nat.ltb_irrefl, Nat.eqb_refl, andb_true_r.
    rewrite bool_decide_eq_true_2 by done. rewrite decide_False by done.
    destruct d; cbn [negb fst snd]; rewrite IH; cbn [orb]; f_equal; lia.
Qed.

(** As long as there is room, the points fill the array from the position. *)
Lemma add_all_room mps size pos l d n :
  length l = size -> pos + length mps <= size ->
  fold_left (fun '(j, n) mp => let '(j', r) := add mp j in (j', if (r : bool) then S n else n)) mps
    (mk_journal size pos l d, n)
  = (mk_journal size (pos + length mps) (take pos l ++ mps ++ drop (pos + length mps) l) d, n).
Proof.
  revert pos l. induction mps as [|mp mps IH]; intros pos l Hl Hp.
  - cbn. by rewrite Nat.add_0_r, take_drop.
  - rewrite add_all_cons. unfold add. cbn [journal_pos journal_size journal disable_journal length] in *.
    rewrite (proj2 (Nat.ltb_lt _ _)) by lia. cbn [fst snd]. rewrite IH by (rewrite ?length_insert; lia).
    f_equal. f_equal; [lia|]. rewrite (take_S_r _ _ mp) by (apply list_lookup_insert_eq; lia).
    rewrite take_insert_ge, drop_insert_lt by lia. rewrite <- app_assoc. cbn.
    by replace (pos + S (length mps)) with (S (pos + length mps)) by lia.
Qed.

Lemma valid_points_all l r :
  Forall (fun p => point p <> INVALID_ID) l -> valid_points (l ++ r) = l ++ valid_points r.
Proof. induction 1 as [|p l Hp Hl IH]; [done|]. cbn. destruct (Z.eqb_spec (point p) INVALID_ID); [done|]. by rewrite IH. Qed.

Lemma valid_points_none n : valid_points (replicate n no_point) = [].
Proof. by destruct n. Qed.

Lemma add_all_app a b j n :
  fold_left (fun '(j, n) mp => let '(j', r) := add mp j in (j', if (r : bool) then S n else n)) (a ++ b) (j, n)
  = let '(j', n') := fold_left (fun '(j, n) mp => let '(j', r) := add mp j in (j', if (r : bool) then S n else n)) a (j, n) in
    fold_left (fun '(j, n) mp => let '(j', r) := add mp j in (j', if (r : bool) then S n else n)) b (j', n').
Proof. rewrite fold_left_app. by destruct (fold_left _ a _). Qed.

(** The journal records the first points and no more.  A journal of
    [size] entries that was given any points prints the first [size] of them,
    in their order; it never writes outside its array, and reports the
    overflow once if there were more.  But [restart], documented to remove
    all the points recorded so far, removes none: the points recorded after
    it overwrite as many of the old ones, and the rest of the old ones is
    printed behind them. *)
Theorem journal_records (size : nat) (mps mps' : list measuring_point_t)
  (Hv : Forall (fun p => point p <> INVALID_ID) mps) (Hv' : Forall (fun p => point p <> INVALID_ID) mps')
  (Hroom : length mps' <= size) :
  let '(j, reports) := add_all mps (new_benchmark_journal size) in
  write_journal j = take size mps
  /\ length (journal j) = size /\ journal_pos j <= size
  /\ reports = (if decide (length mps <= size) then 0 else 1)
  /\ write_journal (restart j) = write_journal j
  /\ write_journal (fst (add_all mps' (restart j))) = mps' ++ drop (length mps') (take size mps).
Proof.
  assert (Hj : exists d, add_all mps (new_benchmark_journal size)
    = (mk_journal size (length (take size mps)) (take size mps ++ replicate (size - length mps) no_point) d,
       if decide (length mps <= size) then 0 else 1)).
  { assert (E : add_all mps (new_benchmark_journal size) = add_all (take size mps ++ drop size mps) (new_benchmark_journal size)).
    { by rewrite take_drop. }
    rewrite E. clear E. unfold add_all, new_benchmark_journal. rewrite add_all_app.
    rewrite add_all_room; [|apply length_replicate|rewrite length_take; cbn; lia].
    rewrite take_0, Nat.add_0_l, drop_replicate. cbn [app]. rewrite length_take.
    destruct (decide (length mps <= size)) as [Hle|Hgt].
    - rewrite drop_ge by done. cbn. eexists. f_equal. f_equal. f_equal. f_equal. lia.
    - rewrite Nat.min_l by lia. rewrite add_all_full. cbn [orb].
      assert (Hd : drop size mps <> []) by (intros E; apply (f_equal length) in E; rewrite length_drop in E; cbn in E; lia).
      rewrite decide_False by done. replace (size - length mps) with (size - size) by lia. by eexists. }
  destruct Hj as [d ->]. assert (Hlen : length (take size mps ++ replicate (size - length mps) no_point) = size).
  { rewrite length_app, length_take, length_replicate. lia. }
  assert (Hw : valid_points (take size mps ++ replicate (size - length mps) no_point) = take size mps).
  { rewrite valid_points_all by by apply Forall_take. by rewrite valid_points_none, app_nil_r. }
  unfold write_journal, restart. cbn [journal_size journal journal_pos disable_journal]. rewrite (take_ge _ size) by lia.
  split_and!; [done|done|rewrite length_take; lia|done|done|].
  unfold add_all. rewrite add_all_room by (done || cbn; lia). cbn [fst journal_size journal]. rewrite take_0. cbn [app].
  rewrite take_ge by (rewrite length_app, length_drop, Hlen; lia). rewrite valid_points_all by done. f_equal.
  rewrite Nat.add_0_l. destruct (decide (length mps' <= length (take size mps))) as [Hle|Hgt].
  - rewrite drop_app_le by done. rewrite valid_points_all by by apply Forall_drop, Forall_take.
    by rewrite valid_points_none, app_nil_r.
  - rewrite drop_app_ge by lia. rewrite drop_replicate, valid_points_none, drop_ge by lia. done.
Qed.

Theorem journal_records_witness :
  let p n := mk_point n 7 (n, 0)%Z in
  write_journal (fst (add_all [p 3] (restart (fst (add_all [p 1; p 2; p 1] (new_benchmark_journal 2))))))%Z = [p 3; p 2]%Z.
Proof.
  intros p. pose proof (journal_records 2 [p 1; p 2; p 1]%Z [p 3]%Z) as Hj.
  destruct (add_all [p 1; p 2; p 1]%Z (new_benchmark_journal 2)) as [j r]. cbn [fst].
  destruct Hj as (_ & _ & _ & _ & _ & Hw); [by repeat constructor|by repeat constructor|cbn; lia|exact Hw].
Defined.

(** The header names the points by their numbers, and a journal without
    points is its header. *)
Example write_new_journal :
  let text := write_journal_stream (line "now") (new_benchmark_journal 3) in
  text = write_header (line "now") /\ length text = 492
  /\ take 14 (drop 186 text) = tab :: line "0 INVALID_ID".
Proof. vm_compute. split_and!; reflexivity. Qed.
Example write_one_point :
  drop (length (write_header (line "now"))) (write_journal_stream (line "now") (fst (add (mk_point 13 7 (1200, 55))%Z (new_benchmark_journal 3))))
  = line "13 7 1200 55".
Proof. reflexivity. Qed.
