(* ===== verification/XmlKey.v ===== *)
(** * Keys of XML objects: include/msg/xml_object_key.h,
    src/msg/xml_object_key.cpp

    The splitter of IPAP messages files templates and records in [std::map]s
    by these keys. *)
From S2P Require Import Prelude StdMap.

(** The type is a number of the IPAP library's enumeration, the ID a string
    of character codes. *)
Record xml_object_key := mk_xml_key { object_type : Z; id_object : list Z }.

(** [std::string::compare], by its sign. *)
Fixpoint compare (a b : list Z) : Z :=
  match a, b with
  | [], [] => 0
  | [], _ => -1
  | _, [] => 1
  | x :: a, y :: b => if (x <? y)%Z then -1 else if (y <? x)%Z then 1 else compare a b
  end.

Definition xml_object_key_eqb (a b : xml_object_key) : bool :=
  (object_type a =? object_type b)%Z && (compare (id_object a) (id_object b) =? 0)%Z.

(** [operator<] compares the IDs also when the type is greater. *)
Definition xml_object_key_ltb (a b : xml_object_key) : bool :=
  if (object_type a <? object_type b)%Z then true else (compare (id_object a) (id_object b) <? 0)%Z.

Lemma compare_refl a : compare a a = 0%Z.
Proof. induction a as [|x a IH]; [done|]. cbn. by rewrite Z.ltb_irrefl. Qed.

Lemma compare_antisym a b : compare b a = (- compare a b)%Z.
Proof.
  revert b. induction a as [|x a IH]; intros [|y b]; try done. cbn.
  destruct (Z.ltb_spec x y), (Z.ltb_spec y x); try lia; done || apply IH.
Qed.

Lemma compare_eq a b : compare a b = 0%Z -> a = b.
Proof.
  revert b. induction a as [|x a IH]; intros [|y b]; try done. cbn.
  destruct (Z.ltb_spec x y); [done|]. destruct (Z.ltb_spec y x); [done|]. intros E. f_equal; [lia|by apply IH].
Qed.

Lemma compare_trans a b c : (compare a b < 0 -> compare b c < 0 -> compare a c < 0)%Z.
Proof.
  revert b c. induction a as [|x a IH]; intros [|y b] [|z c]; try done; cbn; try lia.
  destruct (Z.ltb_spec x y), (Z.ltb_spec y x), (Z.ltb_spec y z), (Z.ltb_spec z y), (Z.ltb_spec x z), (Z.ltb_spec z x);
    try lia. apply IH.
Qed.

(** [operator<] of the XML keys is an order only among keys of one type:
    there it is the order of the IDs, transitive and total.  It is not the
    order on types and IDs a [std::map] needs: of two keys of different types,
    each is less than the other when the one of the smaller type has the
    greater ID - so that neither ordering of the two in a map is right. *)
Theorem xml_object_key_order (a b c : xml_object_key) :
  (object_type a = object_type b -> object_type b = object_type c ->
     xml_object_key_ltb a a = false
     /\ (xml_object_key_ltb a b = true -> xml_object_key_ltb b c = true -> xml_object_key_ltb a c = true)
     /\ (xml_object_key_ltb a b = false -> xml_object_key_ltb b a = false -> a = b))
  /\ ((object_type a < object_type b)%Z -> (compare (id_object b) (id_object a) < 0)%Z ->
     xml_object_key_ltb a b = true /\ xml_object_key_ltb b a = true).
Proof.
  unfold xml_object_key_ltb. split.
  - intros Et Et'. rewrite Et, Et', Z.ltb_irrefl, compare_refl. split_and!; [done|rewrite !Z.ltb_lt; apply compare_trans|].
    rewrite !Z.ltb_ge, (compare_antisym (id_object a) (id_object b)). intros Hab Hba.
    destruct a as [t x], b as [t' y]. cbn in *.
    assert (E : x = y) by (apply compare_eq; lia). subst. done.
  - intros Ht Hi. rewrite (proj2 (Z.ltb_lt _ _) Ht). split; [done|]. destruct (Z.ltb_spec (object_type b) (object_type a)); [done|].
    by apply Z.ltb_lt.
Qed.
