(* ===== verification/Splitter.v ===== *)
(** * Splitting IPAP messages: src/msg/anslp_ipap_message_splitter.cpp,
    include/msg/anslp_ipap_message_splitter.h

    Before a message is written as XML, its data records are filed by the
    object they belong to - the auction, the bid, the allocation -, each with
    the template it was made by; the templates without records are kept
    apart.  The IPAP library is not in the sources: [Ipap] has the operations
    the message classes call on its messages, templates, fields and records,
    [IpapLaws] what its containers do. *)
From Stdlib Require Import Ascii.
From S2P Require Import Prelude Outcome StdMap External SessionId XmlKey.

(** ** What the XML classes use of the IPAP library.

    [None] is a null pointer in [im_get_template], and [ipap_bad_argument]
    elsewhere. *)
Class Ipap `{Libs} := {
  ipap_template : Type;
  ipap_field : Type;
  ipap_value : Type;
  ipap_data_record : Type;
  ipap_template_container : Type;
  (* ipap_message *)
  im_records : ipap_message -> list ipap_data_record;
  im_get_template : ipap_message -> Z -> option ipap_template;
  im_template_list : ipap_message -> list Z;
  im_last_template_id : ipap_message -> Z;
  im_domain : ipap_message -> Z;
  im_version : ipap_message -> Z;
  im_exporttime : ipap_message -> Z;
  im_seqno : ipap_message -> Z;
  im_ackseqno : ipap_message -> Z;
  im_new : Z -> Z -> ipap_message;
  im_set_exporttime : Z -> ipap_message -> ipap_message;
  im_set_seqno : Z -> ipap_message -> ipap_message;
  im_set_ackseqno : Z -> ipap_message -> ipap_message;
  im_make_template : list (Z * Z * Z) -> Z -> Z -> ipap_message -> option ipap_message;
  im_include_data : Z -> ipap_data_record -> ipap_message -> option ipap_message;
  (* ipap_template *)
  t_id : ipap_template -> Z;
  t_type : ipap_template -> Z;
  t_fields : ipap_template -> list ipap_field;
  t_get_field : Z -> Z -> ipap_template -> option ipap_field;
  template_type_keys : Z -> option (list (Z * Z));
  object_type_of : Z -> option Z;
  IPAP_MAX_OBJECT_TYPE : nat;
  IPAP_SETID_AUCTION_TEMPLATE : Z;
  IPAP_SETID_BID_OBJECT_TEMPLATE : Z;
  IPAP_SETID_ASK_OBJECT_TEMPLATE : Z;
  IPAP_SETID_ALLOC_OBJECT_TEMPLATE : Z;
  IPAP_OPTNS_AUCTION_TEMPLATE : Z;
  IPAP_OPTNS_BID_OBJECT_TEMPLATE : Z;
  IPAP_OPTNS_ASK_OBJECT_TEMPLATE : Z;
  IPAP_OPTNS_ALLOC_OBJECT_TEMPLATE : Z;
  (* ipap_field, with the components of its type *)
  f_eno : ipap_field -> Z;
  f_ftype : ipap_field -> Z;
  f_coding : ipap_field -> Z;
  f_length : ipap_field -> Z;
  f_name : ipap_field -> list ascii;
  f_xml_name : ipap_field -> list ascii;
  f_write : ipap_field -> ipap_value -> list ascii;
  f_parse : ipap_field -> list ascii -> option ipap_value;
  (* ipap_data_record *)
  r_new : Z -> ipap_data_record;
  r_template_id : ipap_data_record -> Z;
  r_fields : ipap_data_record -> list ((Z * Z) * ipap_value);
  r_get : Z -> Z -> ipap_data_record -> option ipap_value;
  r_insert : Z -> Z -> ipap_value -> ipap_data_record -> ipap_data_record;
  (* ipap_template_container *)
  ct_empty : ipap_template_container;
  ct_add : ipap_template -> ipap_template_container -> ipap_template_container;
  ct_get : Z -> ipap_template_container -> option ipap_template;
  ct_list : ipap_template_container -> list Z }.

(** A template is filed under its ID, in messages and in containers. *)
Class IpapLaws `{Ipap} : Prop := {
  im_get_template_id : forall m id t, im_get_template m id = Some t -> t_id t = id;
  ct_get_empty : forall id, ct_get id ct_empty = None;
  ct_get_add : forall id t c, ct_get id (ct_add t c) = if decide (t_id t = id) then Some t else ct_get id c;
  ct_list_spec : forall id c, id ∈ ct_list c <-> is_Some (ct_get id c) }.

Section Splitter.
Context `{Ipap}.

Record splitter := mk_splitter {
  templates : ipap_template_container;
  objectTemplates : list (xml_object_key * ipap_template_container);
  objectDataRecords : list (xml_object_key * list ipap_data_record) }.

Definition new_splitter : splitter := mk_splitter ct_empty [] [].

(** The codes of the characters of a [std::string]. *)
Definition codes (s : list ascii) : list Z := map (fun c => Z.of_nat (nat_of_ascii c)) s.

Definition of_ipap {A} (o : option A) : outcome A :=
  match o with Some a => Normal a | None => Raised Ipap_bad_argument end.

(** [dataKey]: the values of the key fields, each behind a percent sign. *)
Fixpoint data_key (templ : ipap_template) (g_data : ipap_data_record) (keys : list (Z * Z)) (dataKey : list ascii)
  : outcome (list ascii) :=
  match keys with
  | [] => Normal dataKey
  | (eno, ftype) :: keys =>
      obind (of_ipap (t_get_field eno ftype templ)) (fun field =>
      obind (of_ipap (r_get eno ftype g_data)) (fun value =>
      data_key templ g_data keys (dataKey ++ "%"%char :: f_write field value)))
  end.

(** The key of a record: the type of its object, and what identifies it. *)
Definition record_key (templ : ipap_template) (g_data : ipap_data_record) : outcome xml_object_key :=
  obind (of_ipap (template_type_keys (t_type templ))) (fun keys =>
  obind (data_key templ g_data keys []) (fun dataKey =>
  obind (of_ipap (object_type_of (t_type templ))) (fun obj_type =>
  Normal (mk_xml_key obj_type (codes dataKey))))).

(** The two maps after the record, and its template. *)
Definition file_record (key : xml_object_key) (templ : ipap_template) (g_data : ipap_data_record) (s : splitter) : splitter :=
  match map_find xml_object_key_ltb key (objectTemplates s) with
  | Some c =>
      mk_splitter (templates s) (map_set xml_object_key_ltb key (ct_add templ c) (objectTemplates s))
        (map_set xml_object_key_ltb key (default [] (map_find xml_object_key_ltb key (objectDataRecords s)) ++ [g_data])
           (objectDataRecords s))
  | None =>
      mk_splitter (templates s) (map_set xml_object_key_ltb key (ct_add templ ct_empty) (objectTemplates s))
        (map_set xml_object_key_ltb key [g_data] (objectDataRecords s))
  end.

(** One round of the loop over the records. *)
Definition split_record (message : ipap_message) (g_data : ipap_data_record) (s : splitter) : outcome splitter :=
  match im_get_template message (r_template_id g_data) with
  | None => Raised (Lib_error "anslp_ipap_xml_message: required template not included in message"%string)
  | Some templ =>
      match record_key templ g_data with
      | Normal key => Normal (file_record key templ g_data s)
      | Raised Ipap_bad_argument => Raised (Lib_error "anslp_ipap_xml_message: error while reading data record"%string)
      | Raised e => Raised e
      | Faulted f => Faulted f
      end
  end.

Fixpoint split_records (message : ipap_message) (l : list ipap_data_record) (s : splitter) : outcome splitter :=
  match l with
  | [] => Normal s
  | g_data :: l => obind (split_record message g_data s) (split_records message l)
  end.

(** The templates no record was made by. *)
Fixpoint split_templates (message : ipap_message) (included : list Z) (l : list Z) (s : splitter) : outcome splitter :=
  match l with
  | [] => Normal s
  | id :: l =>
      if existsb (Z.eqb (u16 id)) included then split_templates message included l s
      else obind (of_pointer (im_get_template message id)) (fun t =>
           split_templates message included l (mk_splitter (ct_add t (templates s)) (objectTemplates s) (objectDataRecords s)))
  end.

Definition split (message : ipap_message) (s : splitter) : outcome splitter :=
  obind (split_records message (im_records message) s)
    (split_templates message (map r_template_id (im_records message)) (im_template_list message)).
End Splitter.

(** ** Keys of one type.

    [operator<] of the keys is no order across types; among the keys of one
    type it is the order of their IDs. *)
Definition id_ltb (a b : xml_object_key) : bool := (compare (id_object a) (id_object b) <? 0)%Z.

#[export] Instance id_ltb_swo : StrictWeakOrder id_ltb.
Proof.
  constructor; unfold id_ltb; intros *; rewrite ?Z.ltb_lt, ?Z.ltb_ge.
  - rewrite compare_refl. lia.
  - apply compare_trans.
  - rewrite (compare_antisym (id_object a)), (compare_antisym (id_object b) (id_object c)).
    intros H1 H2 H3 H4. rewrite (compare_eq (id_object a) (id_object b)), (compare_eq (id_object b) (id_object c)) by lia.
    rewrite compare_refl. lia.
Qed.

#[export] Instance xml_object_key_eq_dec : EqDecision xml_object_key.
Proof. solve_decision. Defined.

Section One_type.
Context (ot : Z).

Definition of_type (k : xml_object_key) : Prop := object_type k = ot.

Lemma id_ltb_same a b : of_type a -> of_type b -> xml_object_key_ltb a b = id_ltb a b.
Proof. unfold of_type, xml_object_key_ltb, id_ltb. intros -> ->. by rewrite Z.ltb_irrefl. Qed.

Lemma key_equiv_same a b : of_type a -> of_type b -> key_equiv id_ltb a b = bool_decide (a = b).
Proof.
  intros Ha Hb. apply eq_bool_prop_intro. rewrite bool_decide_spec. unfold key_equiv, id_ltb.
  rewrite (compare_antisym (id_object a)). split.
  - rewrite Is_true_true, andb_true_iff, !negb_true_iff, !Z.ltb_ge. intros [H1 H2].
    destruct a as [t x], b as [t' y]. unfold of_type in *. cbn in *. f_equal; [congruence|]. apply compare_eq. lia.
  - intros ->. by rewrite compare_refl.
Qed.

Lemma map_find_same {V} k (m : list (xml_object_key * V)) :
  of_type k -> Forall (fun kv => of_type (fst kv)) m -> map_find xml_object_key_ltb k m = map_find id_ltb k m.
Proof.
  intros Hk. induction 1 as [|[k' v] m Hk' Hm IH]; [done|]. cbn in *. unfold key_equiv. by rewrite !id_ltb_same, IH.
Qed.

Lemma map_set_same {V} k v (m : list (xml_object_key * V)) :
  of_type k -> Forall (fun kv => of_type (fst kv)) m -> map_set xml_object_key_ltb k v m = map_set id_ltb k v m.
Proof.
  intros Hk. induction 1 as [|[k' v'] m Hk' Hm IH]; [done|]. cbn in *. by rewrite !id_ltb_same, IH.
Qed.

Lemma map_find_set {V} k k' v (m : list (xml_object_key * V)) :
  of_type k -> of_type k' -> map_find id_ltb k' (map_set id_ltb k v m) = if decide (k' = k) then Some v else map_find id_ltb k' m.
Proof.
  intros Hk Hk'. case_decide as E; [subst; by apply map_find_set_eq|].
  apply map_find_set_ne. rewrite key_equiv_same by done. by apply bool_decide_eq_false_2.
Qed.

(** The entries of a map are what [find] finds. *)
Lemma map_find_elem {V} k v (m : list (xml_object_key * V)) :
  of_type k -> Forall (fun kv => of_type (fst kv)) m -> map_sorted id_ltb m ->
  (k, v) ∈ m <-> map_find id_ltb k m = Some v.
Proof.
  intros Hk. induction 1 as [|[k' v'] m Hk' Hm IH]; cbn; [by rewrite elem_of_nil|]. intros [Hall Hs].
  rewrite elem_of_cons, IH, key_equiv_same by done. destruct (bool_decide_reflect (k = k')) as [->|Hne].
  - split; [|by left; congruence]. intros [E|E]; [congruence|]. by rewrite map_find_lt in E.
  - split; [intros [[= -> ->]|E]; done|by right].
Qed.
End One_type.

(** Two maps with the same keys have them in the same order. *)
Lemma sorted_keys_unique {K A B} {lt : K -> K -> bool} `{!StrictWeakOrder lt} (m : list (K * A)) (m' : list (K * B)) :
  map_sorted lt m -> map_sorted lt m' -> (forall k, k ∈ map fst m <-> k ∈ map fst m') -> map fst m = map fst m'.
Proof.
  assert (Hin : forall C k x (l : list (K * C)), Forall (fun kv => lt k (fst kv) = true) l -> x ∈ map fst l -> lt k x = true).
  { intros C k x l Hl Hx. apply list_elem_of_fmap in Hx as (kv & -> & Hkv). rewrite Forall_forall in Hl. by apply Hl. }
  revert m'. induction m as [|[k v] m IH]; intros [|[k' v'] m']; cbn; [done|..].
  - intros _ _ Hk. exfalso. apply (not_elem_of_nil k'), Hk, list_elem_of_here.
  - intros _ _ Hk. exfalso. apply (not_elem_of_nil k), Hk, list_elem_of_here.
  - intros [Ha Hs] [Ha' Hs'] Hk. assert (k = k') as <-.
    { destruct (proj1 (elem_of_cons _ _ _) (proj1 (Hk k) (list_elem_of_here _ _))) as [|Hk1]; [done|].
      destruct (proj1 (elem_of_cons _ _ _) (proj2 (Hk k') (list_elem_of_here _ _))) as [|Hk2]; [done|].
      pose proof (Hin _ _ _ _ Ha' Hk1) as L1. pose proof (Hin _ _ _ _ Ha Hk2) as L2.
      rewrite (swo_asym _ _ L1) in L2. done. }
    f_equal. apply IH; [done..|]. intros x. specialize (Hk x). rewrite !elem_of_cons in Hk.
    split; intros Hx; [destruct (proj1 Hk (or_intror Hx)) as [->|]|destruct (proj2 Hk (or_intror Hx)) as [->|]]; try done.
    + pose proof (Hin _ _ _ _ Ha Hx) as L. by rewrite swo_irrefl in L.
    + pose proof (Hin _ _ _ _ Ha' Hx) as L. by rewrite swo_irrefl in L.
Qed.

(** Adding to the list of a key. *)
Lemma map_set_concat {K A} {lt : K -> K -> bool} `{!StrictWeakOrder lt} k (a : A) (m : list (K * list A)) :
  map_sorted lt m ->
  concat (map snd (map_set lt k (default [] (map_find lt k m) ++ [a]) m)) ≡ₚ concat (map snd m) ++ [a].
Proof.
  induction m as [|[k' l] m IH]; cbn; [done|]. intros [Hall Hs]. unfold key_equiv.
  destruct (lt k k') eqn:E1; cbn.
  - rewrite map_find_lt; [|eapply Forall_impl; [exact Hall|]; intros kv Hkv; by eapply swo_trans].
    cbn. rewrite (Permutation_cons_append (l ++ _)). done.
  - destruct (lt k' k); cbn.
    + rewrite IH by done. by rewrite app_assoc.
    + rewrite <- !app_assoc. apply Permutation_app_head, Permutation_app_comm.
Qed.

(** ** What [split] leaves. *)
Section Splitting.
Context `{Ipap} `{!IpapLaws}.
Implicit Types (m : ipap_message) (r : ipap_data_record) (l : list ipap_data_record) (s : splitter).

(** The key of a record of a message, if its template is there and has the
    key fields. *)
Definition key_of m r : option xml_object_key :=
  match im_get_template m (r_template_id r) with
  | Some t => match record_key t r with Normal k => Some k | _ => None end
  | None => None
  end.

(** Every record is made by a template of the message and belongs to an
    object of type [ot]. *)
Definition splittable m ot : Prop := Forall (fun r => exists k, key_of m r = Some k /\ of_type ot k) (im_records m).

(** The records of an object. *)
Definition class m k l : list ipap_data_record := filter (fun r => key_of m r = Some k) l.

(** The templates that made some records. *)
Definition holds_templates m l (c : ipap_template_container) : Prop :=
  forall id t, ct_get id c = Some t <-> (exists r, r ∈ l /\ r_template_id r = id) /\ im_get_template m id = Some t.

(** [s] has filed the records [l]. *)
Record filed m ot l s : Prop := {
  filed_types : Forall (fun kv => of_type ot (fst kv)) (objectDataRecords s)
    /\ Forall (fun kv => of_type ot (fst kv)) (objectTemplates s);
  filed_sorted : map_sorted id_ltb (objectDataRecords s) /\ map_sorted id_ltb (objectTemplates s);
  filed_records : forall k, of_type ot k ->
    map_find id_ltb k (objectDataRecords s) = match class m k l with [] => None | c => Some c end;
  filed_templates : forall k, of_type ot k ->
    match map_find id_ltb k (objectTemplates s) with
    | None => class m k l = []
    | Some c => class m k l <> [] /\ holds_templates m (class m k l) c
    end;
  filed_all : concat (map snd (objectDataRecords s)) ≡ₚ l }.

Lemma holds_templates_none m : holds_templates m [] ct_empty.
Proof.
  intros id t. rewrite ct_get_empty. split; [done|]. intros [(r & Hr & _) _]. by apply elem_of_nil in Hr.
Qed.

Lemma holds_templates_add m l r t c :
  im_get_template m (r_template_id r) = Some t -> holds_templates m l c -> holds_templates m (l ++ [r]) (ct_add t c).
Proof.
  intros Ht Hc id t'. rewrite ct_get_add, (im_get_template_id _ _ _ Ht). case_decide as E.
  - subst id. rewrite Ht. split; [|by intros [_ ?]]. intros [= <-]. split; [|done]. exists r. split; [|done].
    apply elem_of_app. right. by apply list_elem_of_singleton.
  - rewrite (Hc id t'). split; intros [(r' & Hr & <-) Ht']; (split; [|done]).
    + exists r'. split; [|done]. apply elem_of_app. by left.
    + apply elem_of_app in Hr as [Hr|Hr]; [by exists r'|]. by apply list_elem_of_singleton in Hr as ->.
Qed.

Lemma class_snoc m k l r :
  class m k (l ++ [r]) = class m k l ++ (if decide (key_of m r = Some k) then [r] else []).
Proof. unfold class. rewrite filter_app, filter_cons, filter_nil. by case_decide. Qed.

Lemma file_record_filed m ot l s r k t :
  filed m ot l s -> im_get_template m (r_template_id r) = Some t -> record_key t r = Normal k -> of_type ot k ->
  filed m ot (l ++ [r]) (file_record k t r s).
Proof.
  intros [[T1 T2] [S1 S2] R Te A] Ht Hk Hot.
  assert (Hkr : key_of m r = Some k) by (unfold key_of; by rewrite Ht, Hk).
  set (c := default ct_empty (map_find id_ltb k (objectTemplates s))).
  set (recs := default [] (map_find id_ltb k (objectDataRecords s))).
  assert (Hrecs : recs = class m k l) by (unfold recs; rewrite R by done; by destruct (class m k l)).
  assert (Hc : holds_templates m (class m k l) c).
  { unfold c. specialize (Te k Hot). destruct (map_find id_ltb k (objectTemplates s)); [by destruct Te|].
    rewrite Te. apply holds_templates_none. }
  assert (E : file_record k t r s = mk_splitter (templates s) (map_set id_ltb k (ct_add t c) (objectTemplates s))
    (map_set id_ltb k (recs ++ [r]) (objectDataRecords s))).
  { unfold file_record. rewrite (map_find_same ot k (objectTemplates s)), (map_find_same ot k (objectDataRecords s)) by done.
    specialize (Te k Hot). unfold c. fold recs. destruct (map_find id_ltb k (objectTemplates s)); cbn.
    all: rewrite (map_set_same ot k _ (objectTemplates s)), (map_set_same ot k _ (objectDataRecords s)) by done; try done.
    by rewrite Hrecs, Te. }
  rewrite E. split; cbn [templates objectTemplates objectDataRecords].
  - by split; apply (map_set_Forall (of_type ot)).
  - by split; apply map_set_sorted.
  - intros k' Hk'. rewrite (map_find_set ot) by done. rewrite class_snoc, Hkr. case_decide as E1.
    + subst k'. rewrite decide_True by done. rewrite Hrecs. by destruct (class m k l).
    + rewrite decide_False by congruence. rewrite app_nil_r. by apply R.
  - intros k' Hk'. rewrite (map_find_set ot) by done. rewrite class_snoc, Hkr. case_decide as E1.
    + subst k'. rewrite decide_True by done. split; [by destruct (class m k l)|by apply holds_templates_add].
    + rewrite decide_False by congruence. rewrite app_nil_r. by apply Te.
  - unfold recs. rewrite map_set_concat by done. by rewrite A.
Qed.

Lemma split_records_filed m ot todo l s :
  Forall (fun r => exists k, key_of m r = Some k /\ of_type ot k) todo -> filed m ot l s ->
  exists s', split_records m todo s = Normal s' /\ filed m ot (l ++ todo) s' /\ templates s' = templates s.
Proof.
  intros Hall. revert l s. induction Hall as [|r todo (k & Hk & Hot) Hall IH]; intros l s Hs; cbn [split_records].
  - exists s. by rewrite app_nil_r.
  - unfold key_of in Hk. unfold split_record. destruct (im_get_template m (r_template_id r)) as [t|] eqn:Et; [|done].
    destruct (record_key t r) as [k'|x|f] eqn:Ek; [|done..]. injection Hk as ->. cbn [obind].
    destruct (IH (l ++ [r]) (file_record k t r s)) as (s' & E & Hf & Ht); [by eapply file_record_filed|].
    exists s'. rewrite E, Ht. rewrite <- app_assoc in Hf. split_and!; [done|done|]. unfold file_record. by case_match.
Qed.

(** The templates that are left over. *)
Lemma split_templates_rest m included (ids : list Z) s :
  Forall (fun id => is_u16 id /\ is_Some (im_get_template m id)) ids ->
  exists s', split_templates m included ids s = Normal s'
    /\ objectTemplates s' = objectTemplates s /\ objectDataRecords s' = objectDataRecords s
    /\ forall id t, ct_get id (templates s') = Some t <->
         (id ∈ ids /\ ¬ (id ∈ included) /\ im_get_template m id = Some t)
         \/ ((id ∈ ids -> id ∈ included) /\ ct_get id (templates s) = Some t).
Proof.
  intros Hl. revert s. induction Hl as [|id ids [Hid [t Ht]] Hl IH]; intros s; cbn [split_templates].
  - exists s. split_and!; try done. intros id t. rewrite elem_of_nil. split; [by right|]. by intros [([] & _)|[_ ?]].
  - rewrite u16_small by done. destruct (existsb (Z.eqb id) included) eqn:Ei.
    + destruct (IH s) as (s' & E & E1 & E2 & Hs'). exists s'. split_and!; [done..|]. intros id' t'. rewrite Hs', elem_of_cons.
      assert (Hin : id ∈ included).
      { apply existsb_exists in Ei as (x & Hx & Heq). apply Z.eqb_eq in Heq as <-. by apply list_elem_of_In. }
      split; intros [(G1 & G2 & G3)|[G1 G2]].
      * left. auto.
      * right. split; [|done]. intros [->|?]; auto.
      * destruct G1 as [->|G1]; [done|]. left. auto.
      * right. auto.
    + rewrite Ht. cbn [of_pointer obind].
      destruct (IH (mk_splitter (ct_add t (templates s)) (objectTemplates s) (objectDataRecords s))) as (s' & E & E1 & E2 & Hs').
      exists s'. split_and!; [done..|]. intros id' t'. rewrite Hs'. cbn [templates]. rewrite ct_get_add.
      rewrite (im_get_template_id _ _ _ Ht), elem_of_cons.
      assert (Hni : ¬ (id ∈ included)).
      { intros Hin. enough (existsb (Z.eqb id) included = true) by congruence. apply existsb_exists. exists id.
        split; [by apply list_elem_of_In|apply Z.eqb_refl]. }
      destruct (decide (id = id')) as [<-|Hne]; split.
      * intros [(_ & _ & E3)|[_ [= <-]]]; left; auto.
      * intros [(_ & _ & E3)|[Hn _]]; [|destruct Hni; auto]. destruct (decide (id ∈ ids)); [by left|].
        right. split; [done|congruence].
      * intros [(G1 & G2 & G3)|[G1 G2]]; [left; auto|]. right. split; [|done]. intros [->|?]; [done|auto].
      * intros [(G1 & G2 & G3)|[G1 G2]]; [|right; auto]. destruct G1 as [->|G1]; [done|]. left. auto.
Qed.

(** What [split] leaves, for messages whose objects are of one type. *)
Lemma split_spec (m : ipap_message) (ot : Z) (Hm : splittable m ot)
  (Hl : Forall (fun id => is_u16 id /\ is_Some (im_get_template m id)) (im_template_list m)) :
  exists s, split m new_splitter = Normal s
    /\ map_sorted id_ltb (objectDataRecords s) /\ concat (map snd (objectDataRecords s)) ≡ₚ im_records m
    /\ map fst (objectTemplates s) = map fst (objectDataRecords s)
    /\ (forall k recs, (k, recs) ∈ objectDataRecords s -> of_type ot k /\ recs <> [] /\ recs = class m k (im_records m))
    /\ (forall k c, (k, c) ∈ objectTemplates s -> holds_templates m (class m k (im_records m)) c)
    /\ (forall id t, ct_get id (templates s) = Some t <->
          id ∈ im_template_list m /\ ¬ (id ∈ map r_template_id (im_records m)) /\ im_get_template m id = Some t).
Proof.
  destruct (split_records_filed m ot (im_records m) [] new_splitter Hm) as (s1 & E1 & [[T1 T2] [S1 S2] R Te A] & Ht).
  { split; try done; by split. }
  destruct (split_templates_rest m (map r_template_id (im_records m)) (im_template_list m) s1 Hl) as (s & E & Eo & Er & Hs).
  exists s. unfold split. rewrite E1. cbn [obind app] in *. rewrite Eo, Er. split_and!; [done..| | | |].
  - apply sorted_keys_unique; [done..|]. intros k. split; intros Hk; apply list_elem_of_fmap in Hk as ([k' v] & -> & Hk); cbn.
    + assert (Hot : of_type ot k') by (rewrite Forall_forall in T2; apply (T2 _ Hk)).
      apply (map_find_elem ot) in Hk; [|done..]. specialize (Te k' Hot). rewrite Hk in Te. destruct Te as [Hne _].
      specialize (R k' Hot). destruct (class m k' (im_records m)) as [|r c] eqn:Ec; [done|].
      apply (map_find_elem ot) in R; [|done..]. by apply (list_elem_of_fmap_2 fst) in R.
    + assert (Hot : of_type ot k') by (rewrite Forall_forall in T1; apply (T1 _ Hk)).
      apply (map_find_elem ot) in Hk; [|done..]. rewrite (R k' Hot) in Hk. specialize (Te k' Hot).
      destruct (map_find id_ltb k' (objectTemplates s1)) as [c|] eqn:Ef; [|by rewrite Te in Hk].
      apply (map_find_elem ot) in Ef; [|done..]. by apply (list_elem_of_fmap_2 fst) in Ef.
  - intros k recs Hk. assert (Hot : of_type ot k) by (rewrite Forall_forall in T1; apply (T1 _ Hk)).
    apply (map_find_elem ot) in Hk; [|done..]. rewrite (R k Hot) in Hk. by destruct (class m k (im_records m)); [|injection Hk as <-].
  - intros k c Hk. assert (Hot : of_type ot k) by (rewrite Forall_forall in T2; apply (T2 _ Hk)).
    apply (map_find_elem ot) in Hk; [|done..]. specialize (Te k Hot). rewrite Hk in Te. by destruct Te.
  - intros id t. rewrite (Hs id t), Ht. cbn. rewrite ct_get_empty. split; [by intros [?|[_ ?]]|by left].
Qed.

(** C32. [split] files the records of a message that are all of one object type
    [ot], with keys that can be read, when the templates the message lists
    have 16-bit IDs and are in it: across types the order of the keys is none.
    Each object has one entry, with its records in the order of the message,
    and with the templates that made them; no record is lost or doubled; the
    templates left over are those of the message no record was made by. *)
Theorem split_files (m : ipap_message) (ot : Z) (Hm : splittable m ot)
  (Hl : Forall (fun id => is_u16 id /\ is_Some (im_get_template m id)) (im_template_list m)) :
  exists s, split m new_splitter = Normal s
    /\ map_sorted id_ltb (objectDataRecords s) /\ concat (map snd (objectDataRecords s)) ≡ₚ im_records m
    /\ map fst (objectTemplates s) = map fst (objectDataRecords s)
    /\ (forall k recs, (k, recs) ∈ objectDataRecords s -> of_type ot k /\ recs <> [] /\ recs = class m k (im_records m))
    /\ (forall k c, (k, c) ∈ objectTemplates s -> holds_templates m (class m k (im_records m)) c)
    /\ (forall id t, ct_get id (templates s) = Some t <->
          id ∈ im_template_list m /\ ¬ (id ∈ map r_template_id (im_records m)) /\ im_get_template m id = Some t).
Proof. exact (split_spec m ot Hm Hl). Qed.
End Splitting.
