(* ===== verification/XmlMessage.v ===== *)
(** * IPAP messages as XML: src/msg/anslp_ipap_xml_message.cpp,
    include/msg/anslp_ipap_xml_message.h, src/msg/anslp_constants.cpp

    The auctioning application exchanges IPAP messages as XML documents.
    [get_message] splits a message and writes it with libxml2's text writer;
    [from_message] parses a document, validates it against the DTD of
    etc/ipap_xml_message.dtd and builds the message.  libxml2 is not in the
    sources: [Xml] has the calls, [XmlLaws] what they do. *)
From Stdlib Require Import Ascii.
From S2P Require Import Prelude Outcome StdMap External SessionId XmlKey Splitter.

(** ** libxml2.

    A node as the code walks it: a name, properties and children, in the
    order of [next]. *)
Inductive xml_node :=
  | Element (name : string) (properties : list (string * list ascii)) (children : list xml_node)
  | Text (content : list ascii).

(** [None] is a null pointer or a negative return code. *)
Class Xml := {
  xml_buffer : Type;
  xml_writer : Type;
  xml_document : Type;
  xml_dtd : Type;
  xml_string : Type;
  xmlBufferCreate : option xml_buffer;
  xmlNewTextWriterMemory : xml_buffer -> option xml_writer;
  xmlTextWriterStartDocument : xml_writer -> option xml_writer;
  xmlTextWriterStartDTD : string -> string -> xml_writer -> option xml_writer;
  xmlTextWriterEndDTD : xml_writer -> option xml_writer;
  xmlTextWriterStartElement : string -> xml_writer -> option xml_writer;
  xmlTextWriterWriteAttribute : string -> list ascii -> xml_writer -> option xml_writer;
  xmlTextWriterWriteString : list ascii -> xml_writer -> option xml_writer;
  xmlTextWriterEndElement : xml_writer -> option xml_writer;
  xml_content : xml_writer -> xml_string;
  xmlParseMemory : xml_string -> option xml_document;
  xmlParseDTD : string -> option xml_dtd;
  xmlValidateDtd : xml_dtd -> xml_document -> bool;
  xmlDocGetRootElement : xml_document -> option xml_node;
  xmlGetProp : string -> xml_node -> option (list ascii);
  xmlNodeListGetString : list xml_node -> option (list ascii) }.

(** *** Constants. *)
Definition DTD_NAME : string := "ipap_xml_message.dtd".
Definition IPAP_XML_ROOT : string := "IPAP_MESSAGE".
Definition IPAP_XML_RECORD : string := "DATARECORD".
Definition DATA_XML_ELEMENT : string := "FIELD".
Definition OPTION_XML_ELEMENT : string := "FIELD".

(** *** Numbers in texts. *)
Definition print_u (z : Z) : list ascii := decimal (u32 z).
Definition print_d (z : Z) : list ascii := decimal (int32 z).
Definition print_lu (z : Z) : list ascii := decimal (z mod 2 ^ 64).

(** [strtoimax(str, &end, 10)]: the value, brought into the range of
    [intmax_t], and what [end] points at. *)
Definition strtoimax (s : list ascii) : Z * list ascii :=
  let t := skip_spaces s in
  let '(neg, t) := match t with
                   | c :: t' => if Ascii.eqb c "-" then (true, t')
                                else if Ascii.eqb c "+" then (false, t') else (false, t)
                   | [] => (false, t)
                   end in
  if starts_with_digit 10 t then
    let '(v, rest) := digits_go 10 0 t in
    (Z.max (- 2 ^ 63) (Z.min (2 ^ 63 - 1) (if neg then - v else v)), rest)%Z
  else (0%Z, s).
Definition atoi (s : list ascii) : Z := int32 (fst (strtoimax s)).

(** [str_to_uint16]: [None] when [*res] is left as it was.  A value that was
    out of range ([ERANGE]) is the largest or the smallest [intmax_t]. *)
Definition str_to_uint16 (str : list ascii) : option Z :=
  let '(val, rest) := strtoimax str in
  match str, rest with
  | _ :: _, [] => if (val <? 0)%Z || (65535 <? val)%Z then None else Some val
  | _, _ => None
  end.

Section XmlMessage.
Context `{Ipap} `{!Xml}.

(** ** Writing. *)

(** A computation on the writer; its negative return codes are thrown. *)
Definition WR (A : Type) : Type := M xml_writer A.

Definition checked (op : xml_writer -> option xml_writer) (what : string) : WR unit := fun w =>
  match op w with Some w => (Normal tt, w) | None => (Raised (Bad_argument what), w) end.

Definition writeElement (elementName : string) : WR unit :=
  checked (xmlTextWriterStartElement elementName) "Error at xmlTextWriterStartElement".
Definition writeFieldValue (value : list ascii) : WR unit :=
  checked (xmlTextWriterWriteString value) "Error at xmlTextWriterWriteFormatElement".
Definition writeAttribute (attributeTag : string) (attributeName : list ascii) : WR unit :=
  checked (xmlTextWriterWriteAttribute attributeTag attributeName) "Error at xmlTextWriterWriteAttribute".
Definition closeElement : WR unit := checked xmlTextWriterEndElement "Error at xmlTextWriterEndElement".

Definition createElement_id (elementName : string) (elementId : list ascii) : WR unit :=
  writeElement elementName ;;; writeAttribute "ID" elementId.
Definition createElement (elementName : string) : WR unit := writeElement elementName.

(** The declarations [createXmlMessage] writes. *)
Definition start_document (w : xml_writer) : outcome xml_writer :=
  let start :=
    checked xmlTextWriterStartDocument "Error at xmlTextWriterStartDocument" ;;;
    checked (xmlTextWriterStartDTD IPAP_XML_ROOT DTD_NAME) "Error at xmlTextWriterStartDocument" ;;;
    checked xmlTextWriterEndDTD "Error at xmlTextWriterStartDocument" in
  match start w with
  | (Normal _, w) => Normal w
  | (Raised e, _) => Raised e
  | (Faulted f, _) => Faulted f
  end.

Definition createXmlMessage : outcome xml_writer :=
  match xmlBufferCreate with
  | None => Raised (Memory_allocation "Error creating the xml buffer")
  | Some buf =>
      match xmlNewTextWriterMemory buf with
      | None => Raised (Memory_allocation "Error creating the xml writer")
      | Some w => start_document w
      end
  end.

Definition getTemplate (s : splitter) (key : xml_object_key) (templid : Z) : outcome ipap_template :=
  match map_find xml_object_key_ltb key (objectTemplates s) with
  | Some c => match ct_get templid c with
              | Some t => Normal t
              | None => Raised (Bad_argument "Template not found in the container")
              end
  | None => Raised (Bad_argument "Template not found in the container")
  end.

Definition writeDataRecord (templ : ipap_template) (g_data : ipap_data_record) (elementName : string) : WR unit :=
  iterM (fun '((eno, ftype), value) =>
    field <- lift_outcome (of_ipap (t_get_field eno ftype templ)) ;;
    createElement elementName ;;;
    writeAttribute "NAME" (f_xml_name field) ;;;
    writeAttribute "ENO" (print_d (f_eno field)) ;;;
    writeAttribute "FTYPE" (print_d (f_ftype field)) ;;;
    writeFieldValue (f_write field value) ;;;
    closeElement) (r_fields g_data).

Definition setid_template (type : Z) : bool :=
  (type =? IPAP_SETID_AUCTION_TEMPLATE)%Z || (type =? IPAP_SETID_BID_OBJECT_TEMPLATE)%Z
  || (type =? IPAP_SETID_ASK_OBJECT_TEMPLATE)%Z || (type =? IPAP_SETID_ALLOC_OBJECT_TEMPLATE)%Z.
Definition optns_template (type : Z) : bool :=
  (type =? IPAP_OPTNS_AUCTION_TEMPLATE)%Z || (type =? IPAP_OPTNS_BID_OBJECT_TEMPLATE)%Z
  || (type =? IPAP_OPTNS_ASK_OBJECT_TEMPLATE)%Z || (type =? IPAP_OPTNS_ALLOC_OBJECT_TEMPLATE)%Z.

(** The loops both [printTemplateDataRecords] and [printOptionDataRecords]
    have, over the records of a key whose template is of a kind. *)
Definition printRecord (kind : Z -> bool) (elementName : string) (s : splitter) (key : xml_object_key)
  (g_data : ipap_data_record) : WR unit :=
  templ <- lift_outcome (getTemplate s key (r_template_id g_data)) ;;
  if kind (t_type templ) then
    createElement IPAP_XML_RECORD ;;;
    writeAttribute "TEMPLATE_ID" (print_u (r_template_id g_data)) ;;;
    writeDataRecord templ g_data elementName ;;;
    closeElement
  else ret tt.

Definition printRecords (kind : Z -> bool) (elementName : string) (s : splitter) (key : xml_object_key) : WR unit :=
  iterM (fun '(k, l) => if xml_object_key_eqb k key then iterM (printRecord kind elementName s key) l else ret tt)
    (objectDataRecords s).

Definition printTemplateDataRecords (s : splitter) (key : xml_object_key) : WR unit :=
  printRecords setid_template DATA_XML_ELEMENT s key.
Definition printOptionDataRecords (s : splitter) (key : xml_object_key) : WR unit :=
  printRecords optns_template OPTION_XML_ELEMENT s key.

Definition writeTemplate (templ : ipap_template) : WR unit :=
  createElement_id "TEMPLATE" (print_u (t_id templ)) ;;;
  writeAttribute "TYPE" (print_u (t_type templ)) ;;;
  writeAttribute "NUM_FIELDS" (print_u (Z.of_nat (length (t_fields templ)))) ;;;
  iterM (fun field =>
    createElement "TFIELD" ;;;
    writeAttribute "ENO" (print_d (f_eno field)) ;;;
    writeAttribute "FTYPE" (print_d (f_ftype field)) ;;;
    writeAttribute "CODING" (print_d (f_coding field)) ;;;
    writeAttribute "LENGTH" (print_d (f_length field)) ;;;
    writeAttribute "XML_NAME" (f_xml_name field) ;;;
    writeFieldValue (f_name field) ;;;
    closeElement) (t_fields templ) ;;;
  closeElement.

(** The map of [writeTemplates]: the templates of all objects, by ID. *)
Fixpoint add_templates (c : ipap_template_container) (ids : list Z) (m : list (Z * ipap_template))
  : outcome (list (Z * ipap_template)) :=
  match ids with
  | [] => Normal m
  | id :: ids => obind (of_ipap (ct_get id c)) (fun t => add_templates c ids (map_set Z.ltb (u16 id) t m))
  end.
Fixpoint used_templates (l : list (xml_object_key * ipap_template_container)) (m : list (Z * ipap_template))
  : outcome (list (Z * ipap_template)) :=
  match l with
  | [] => Normal m
  | (_, c) :: l => obind (add_templates c (ct_list c) m) (used_templates l)
  end.

Definition writeTemplates (s : splitter) : WR unit :=
  l <- lift_outcome (used_templates (objectTemplates s) []) ;;
  iterM (fun '(_, t) => writeTemplate t) l.

Definition writeRecords (s : splitter) (keys : list (xml_object_key * xml_object_key)) : WR unit :=
  iterM (fun '(k, _) => printTemplateDataRecords s k ;;; printOptionDataRecords s k) keys.

(** The keys of an object type; [insert] leaves an entry that is there. *)
Definition insert_key (keys : list (xml_object_key * xml_object_key)) (k : xml_object_key) : list (xml_object_key * xml_object_key) :=
  match map_find xml_object_key_ltb k keys with Some _ => keys | None => map_set xml_object_key_ltb k k keys end.
Definition keys_of_type (s : splitter) (type : Z) : list (xml_object_key * xml_object_key) :=
  fold_left (fun m k => if (XmlKey.object_type k =? type)%Z then insert_key m k else m)
    (map fst (objectTemplates s) ++ map fst (objectDataRecords s)) [].

Definition writeObjectTypeData (s : splitter) (type : Z) : WR unit :=
  let keys := keys_of_type s type in
  if (0 <? length keys)%nat then writeTemplates s ;;; writeRecords s keys else ret tt.

Definition writeNotRelatedTemplates (s : splitter) : WR unit :=
  iterM (fun id => t <- lift_outcome (of_ipap (ct_get id (templates s))) ;; writeTemplate t) (ct_list (templates s)).

Definition write_message (mes : ipap_message) (s : splitter) : WR unit :=
  createElement IPAP_XML_ROOT ;;;
  writeAttribute "LAST_TEMPLATE_ID" (print_u (im_last_template_id mes)) ;;;
  writeAttribute "DOMAIN_ID" (print_d (im_domain mes)) ;;;
  writeAttribute "VERSION" (print_d (im_version mes)) ;;;
  writeAttribute "EXPORT_TIME" (print_lu (im_exporttime mes)) ;;;
  writeAttribute "SEQ_NO" (print_lu (im_seqno mes)) ;;;
  writeAttribute "ACK_SEQ_NO" (print_lu (im_ackseqno mes)) ;;;
  writeNotRelatedTemplates s ;;;
  iterM (fun i => writeObjectTypeData s (Z.of_nat i)) (seq 0 IPAP_MAX_OBJECT_TYPE) ;;;
  closeElement.

(** [get_message]: the text, and the splitter the object keeps for the next
    call - nothing empties it. *)
Definition get_message (mes : ipap_message) (s : splitter) : outcome (xml_string * splitter) :=
  obind (split mes s) (fun s =>
  obind createXmlMessage (fun w =>
  match write_message mes s w with
  | (Normal _, w) => Normal (xml_content w, s)
  | (Raised e, _) => Raised e
  | (Faulted f, _) => Faulted f
  end)).

(** ** Reading. *)

Definition node_name (n : xml_node) : string := match n with Element name _ _ => name | Text _ => "text" end.
Definition node_children (n : xml_node) : list xml_node := match n with Element _ _ l => l | Text _ => [] end.

(** [xmlCharToString]: a null pointer is the empty string. *)
Definition xmlCharToString (in_ : option (list ascii)) : list ascii := default [] in_.
Definition prop (name : string) (n : xml_node) : list ascii := xmlCharToString (xmlGetProp name n).

(** [XMLParserValidate] and [validate], to the root of the document.  A
    document the DTD accepts declares no name space, so that [cur->ns] and
    [ns] are null everywhere. *)
Definition XMLParserValidate (dtdname : string) (buf : xml_string) (root : string) : outcome xml_node :=
  match xmlParseMemory buf with
  | None => Raised (Lib_error "XML document parse error:")
  | Some doc =>
      match xmlParseDTD dtdname with
      | None => Raised (Lib_error "Could not parse DTD")
      | Some dtd =>
          if negb (xmlValidateDtd dtd doc) then Raised (Lib_error "xml does not validate")
          else match xmlDocGetRootElement doc with
               | None => Raised (Lib_error "empty XML document")
               | Some cur => if String.eqb (node_name cur) root then Normal cur
                             else Raised (Lib_error "document of the wrong type")
               end
      end
  end.

(** [ReadTemplateFields]: [fields] is an array of [NUM_FIELDS] entries; there
    is no check of the index. *)
Fixpoint ReadTemplateFields (cur : list xml_node) (index : nat) (fields : list (Z * Z * Z)) : outcome (list (Z * Z * Z)) :=
  match cur with
  | [] => Normal fields
  | n :: cur =>
      if String.eqb (node_name n) "TFIELD" then
        let sEno := u32 (fst (strtoul (prop "ENO" n))) in
        let sFType := u16 (fst (strtoul (prop "FTYPE" n))) in
        let sLength := u16 (fst (strtoul (prop "LENGTH" n))) in
        if (index <? length fields)%nat then ReadTemplateFields cur (S index) (<[index := (sEno, sFType, sLength)]> fields)
        else Faulted Out_of_bounds
      else ReadTemplateFields cur index fields
  end.

(** The loop of [ReadRecords]: the FIELD elements of a data record. *)
Fixpoint read_fields (templ : option ipap_template) (cur2 : list xml_node) (data : ipap_data_record) : outcome ipap_data_record :=
  match cur2 with
  | [] => Normal data
  | n :: cur2 =>
      if String.eqb (node_name n) "FIELD" then
        let eno := atoi (prop "ENO" n) in
        let type := atoi (prop "FTYPE" n) in
        obind (of_pointer templ) (fun t =>
        obind (of_ipap (t_get_field eno type t)) (fun field =>
        let value := xmlCharToString (xmlNodeListGetString (node_children n)) in
        match value with
        | [] => Raised (Bad_argument "Missing value")
        | _ => obind (of_ipap (f_parse field value)) (fun val => read_fields templ cur2 (r_insert eno type val data))
        end))
      else read_fields templ cur2 data
  end.

(** [throw e] of a caught [Error &] throws an [Error]. *)
Definition rethrow {A} (o : outcome A) : outcome A :=
  match o with
  | Raised (Bad_argument what) | Raised (Memory_allocation what) => Raised (Lib_error what)
  | o => o
  end.

Definition ReadRecords (cur : xml_node) (templId : Z) (message : ipap_message) : outcome ipap_message :=
  rethrow (
    obind (read_fields (im_get_template message templId) (node_children cur) (r_new templId)) (fun data =>
    of_ipap (im_include_data templId data message))).

Section Uninitialised.
(** What is in a variable [uid] and in the array [fields] when nothing was
    stored there. *)
Context (garbage : Z) (garbage_field : Z * Z * Z).

Fixpoint read_templates (cur : list xml_node) (message : ipap_message) : outcome ipap_message :=
  match cur with
  | [] => Normal message
  | n :: cur =>
      if String.eqb (node_name n) "TEMPLATE" then
        let uid := default garbage (str_to_uint16 (prop "ID" n)) in
        let itype := atoi (prop "TYPE" n) in
        let inumFields := atoi (prop "NUM_FIELDS" n) in
        if (inumFields <=? 0)%Z then Raised (Bad_argument "Invalid template, non positive field number")
        else
          obind (ReadTemplateFields (node_children n) 0 (replicate (Z.to_nat inumFields) garbage_field)) (fun fields =>
          obind (of_ipap (im_make_template fields itype uid message)) (read_templates cur))
      else read_templates cur message
  end.

Fixpoint read_records (cur : list xml_node) (message : ipap_message) : outcome ipap_message :=
  match cur with
  | [] => Normal message
  | n :: cur =>
      if String.eqb (node_name n) "DATARECORD" then
        let uid := default garbage (str_to_uint16 (prop "TEMPLATE_ID" n)) in
        obind (ReadRecords n uid message) (read_records cur)
      else read_records cur message
  end.

(** The part of [from_message] that walks the document; [LAST_TEMPLATE_ID]
    is read and not used. *)
Definition read_message (root : xml_node) : outcome ipap_message :=
  let domainId := atoi (prop "DOMAIN_ID" root) in
  let version := atoi (prop "VERSION" root) in
  let exportTime := u32 (atoi (prop "EXPORT_TIME" root)) in
  let seqNo := u32 (atoi (prop "SEQ_NO" root)) in
  let ackseqNo := u32 (atoi (prop "ACK_SEQ_NO" root)) in
  let message := im_set_exporttime exportTime (im_set_ackseqno ackseqNo (im_set_seqno seqNo (im_new domainId version))) in
  obind (read_templates (node_children root) message) (fun message =>
  read_records (node_children root) message).

Definition from_message (dtdname : string) (str : xml_string) : outcome ipap_message :=
  rethrow (obind (XMLParserValidate dtdname str IPAP_XML_ROOT) read_message).
End Uninitialised.
End XmlMessage.
