(* ===== verification/XmlMemory.v ===== *)
(** * The memory of an XML message: src/msg/anslp_ipap_xml_message.cpp

    An [anslp_ipap_xml_message] keeps the last document it parsed behind
    [XMLDoc] and frees it in its destructor; the DTD hangs at the document.
    [XmlMessage] has the values; here are the documents, DTDs, writers and
    messages the same functions take from libxml2 and the heap, and what they
    give back, over any number of calls.  [XMLParserValidate] leaves [ns]
    null, because the documents the DTD accepts declare no name space. *)
From stdpp Require Import gmap.
From Stdlib Require Import Ascii.
From S2P Require Import Prelude Outcome StdMap External SessionId XmlKey Splitter XmlMessage.

Abbreviation address := nat.

(** What is allocated; a document points to its external subset. *)
Inductive xml_cell :=
  | Document_cell (extSubset : option address)
  | Dtd_cell
  | Message_cell
  | Digits_cell
  | Buffer_cell
  | Writer_cell.

Record xml_memory := mk_xml_memory {
  XMLDoc : option address;
  heap : gmap address xml_cell }.

(** The constructor: nothing is parsed yet. *)
Definition new_xml_message (h : gmap address xml_cell) : xml_memory := mk_xml_memory None h.

Definition XM (A : Type) : Type := M xml_memory A.

Definition alloc (c : xml_cell) : XM address := fun st =>
  let a := fresh (dom (heap st) : gset address) in (Normal a, mk_xml_memory (XMLDoc st) (<[a := c]> (heap st))).
Definition store (a : address) (c : xml_cell) : XM unit := modify (fun st => mk_xml_memory (XMLDoc st) (<[a := c]> (heap st))).
Definition free (a : address) : XM unit := fun st =>
  match heap st !! a with
  | Some _ => (Normal tt, mk_xml_memory (XMLDoc st) (delete a (heap st)))
  | None => (Faulted Double_delete, st)
  end.
Definition set_XMLDoc (p : option address) : XM unit := modify (fun st => mk_xml_memory p (heap st)).

(** [xmlFreeDoc] frees the external subset with the document. *)
Definition xmlFreeDoc (a : address) : XM unit :=
  st <- get ;;
  match heap st !! a with
  | Some (Document_cell (Some d)) => free d ;;; free a
  | Some (Document_cell None) => free a
  | _ => trip Double_delete
  end.

(** [if (XMLDoc != NULL) { xmlFreeDoc(XMLDoc); XMLDoc = NULL; }] *)
Definition free_XMLDoc : XM unit :=
  st <- get ;;
  match XMLDoc st with None => ret tt | Some a => xmlFreeDoc a ;;; set_XMLDoc None end.

(** The destructor: the DTD, then the document. *)
Definition destroy_xml_message : XM unit :=
  st <- get ;;
  match XMLDoc st with
  | None => ret tt
  | Some a =>
      match heap st !! a with
      | Some (Document_cell (Some d)) => free d ;;; store a (Document_cell None)
      | Some (Document_cell None) => ret tt
      | _ => trip Use_after_free
      end ;;;
      xmlFreeDoc a
  end.

Section XmlMemory.
Context `{Ipap} `{!Xml}.
(** As in [XmlMessage]: what is in variables nothing was stored in. *)
Context (garbage : Z) (garbage_field : Z * Z * Z).

(** [validate], between [xmlParseDTD] and the end. *)
Definition validate_root (dtd : xml_dtd) (doc : xml_document) (root : string) : outcome xml_node :=
  if negb (xmlValidateDtd dtd doc) then Raised (Lib_error "xml does not validate")
  else match xmlDocGetRootElement doc with
       | None => Raised (Lib_error "empty XML document")
       | Some cur => if String.eqb (node_name cur) root then Normal cur
                     else Raised (Lib_error "document of the wrong type")
       end.

Definition validate (dtdname : string) (a : address) (doc : xml_document) (root : string) : XM xml_node :=
  match xmlParseDTD dtdname with
  | None => free_XMLDoc ;;; raise (Lib_error "Could not parse DTD")
  | Some dtd =>
      d <- alloc Dtd_cell ;;
      catch (cur <- lift_outcome (validate_root dtd doc root) ;; store a (Document_cell (Some d)) ;;; ret cur)
        (fun e => free d ;;; free_XMLDoc ;;; raise e)
  end.

(** [XMLParserValidate]: the document that was there is forgotten. *)
Definition XMLParserValidate_on (dtdname : string) (buf : xml_string) (root : string) : XM xml_node :=
  catch
    (match xmlParseMemory buf with
     | None => set_XMLDoc None ;;; raise (Lib_error "XML document parse error:")
     | Some doc => a <- alloc (Document_cell None) ;; set_XMLDoc (Some a) ;;; validate dtdname a doc root
     end)
    (fun e => free_XMLDoc ;;; raise e).

(** [from_message]: the message it allocates is deleted when an [Error] is
    caught; [ipap_bad_argument] is none. *)
Definition from_message_on (dtdname : string) (str : xml_string) : XM (ipap_message * address) :=
  root <- XMLParserValidate_on dtdname str IPAP_XML_ROOT ;;
  p <- alloc Message_cell ;;
  catch (m <- lift_outcome (read_message garbage garbage_field root) ;; ret (m, p))
    (fun e => match e with
              | Lib_error what | Bad_argument what | Memory_allocation what => free p ;;; raise (Lib_error what)
              | e => raise e
              end).

(** [createXmlMessage] and [get_message]: [buff] is never freed, the writer
    and its buffer only on the way out. *)
Definition createXmlMessage_on : XM (xml_writer * address * address) :=
  match xmlBufferCreate with
  | None => raise (Memory_allocation "Error creating the xml buffer")
  | Some buf =>
      b <- alloc Buffer_cell ;;
      match xmlNewTextWriterMemory buf with
      | None => raise (Memory_allocation "Error creating the xml writer")
      | Some w => p <- alloc Writer_cell ;; w <- lift_outcome (start_document w) ;; ret (w, b, p)
      end
  end.

Definition get_message_on (mes : ipap_message) (s : splitter) : XM (xml_string * splitter) :=
  buff <- alloc Digits_cell ;;
  s <- lift_outcome (split mes s) ;;
  wbp <- createXmlMessage_on ;;
  let '(w, b, p) := wbp in
  w <- lift_outcome (match write_message mes s w with
                     | (Normal _, w) => Normal w
                     | (Raised e, _) => Raised e
                     | (Faulted f, _) => Faulted f
                     end) ;;
  free p ;;; free b ;;; ret (xml_content w, s).

(** One object used for several texts: exceptions are its user's business. *)
Fixpoint read_all (dtdname : string) (strs : list xml_string) : XM (list (outcome ipap_message)) :=
  match strs with
  | [] => ret []
  | str :: strs => fun st =>
      match from_message_on dtdname str st with
      | (Faulted f, st) => (Faulted f, st)
      | (o, st) => (os <- read_all dtdname strs ;; ret (obind o (fun mp => Normal (fst mp)) :: os)) st
      end
  end.

End XmlMemory.

(** ** What holds between two calls.

    The document behind [XMLDoc] has its DTD; [n] cells besides these are
    allocated. *)
Definition xml_owned (st : xml_memory) : Prop :=
  match XMLDoc st with
  | None => True
  | Some a => exists d, heap st !! a = Some (Document_cell (Some d)) /\ heap st !! d = Some Dtd_cell
  end.
Definition in_use (st : xml_memory) : nat := match XMLDoc st with None => 0 | Some _ => 2 end.

Lemma fresh_address (h : gmap address xml_cell) : h !! fresh (dom h : gset address) = None.
Proof. apply not_elem_of_dom, is_fresh. Qed.

Lemma size_free (h : gmap address xml_cell) a c : h !! a = Some c -> size h = S (size (delete a h)).
Proof.
  intros Ha. rewrite <- (insert_delete_id h a c Ha) at 1.
  by rewrite map_size_insert_None by apply lookup_delete_eq.
Qed.

Lemma two_cells (h : gmap address xml_cell) a d :
  h !! a = Some (Document_cell (Some d)) -> h !! d = Some Dtd_cell ->
  a <> d /\ size h = 2 + size (delete a (delete d h)).
Proof.
  intros Ha Hd. assert (Hn : a <> d) by congruence. split; [done|]. rewrite (size_free h d _ Hd).
  rewrite (size_free (delete d h) a (Document_cell (Some d))) by by rewrite lookup_delete_ne. done.
Qed.

(** The destructor frees the document and its DTD, and nothing twice. *)
Lemma destroy_frees st : xml_owned st ->
  exists h, destroy_xml_message st = (Normal tt, mk_xml_memory (XMLDoc st) h) /\ size (heap st) = size h + in_use st.
Proof.
  unfold xml_owned, in_use, destroy_xml_message, bind, get. destruct (XMLDoc st) as [a|] eqn:Ex.
  - intros (d & Ha & Hd). destruct (two_cells _ _ _ Ha Hd) as [Hn Hs]. rewrite Ha. unfold free. rewrite Hd.
    unfold store, modify, xmlFreeDoc, bind, get. cbn [heap XMLDoc]. rewrite lookup_insert_eq. unfold free. cbn [heap XMLDoc].
    rewrite lookup_insert_eq. eexists. rewrite Ex. split; [done|]. rewrite delete_insert_eq. lia.
  - intros _. exists (heap st). split; [by destruct st; cbn in *; subst|lia].
Qed.

(** A document that is given up is freed with its DTD, if it has one. *)
Lemma free_XMLDoc_alone a h :
  h !! a = Some (Document_cell None) ->
  free_XMLDoc (mk_xml_memory (Some a) h) = (Normal tt, mk_xml_memory None (delete a h)).
Proof.
  intros Ha. unfold free_XMLDoc, xmlFreeDoc, bind, get. cbn [heap XMLDoc]. rewrite Ha. unfold free. cbn [heap XMLDoc].
  by rewrite Ha.
Qed.

Section Xml_memory_spec.
Context `{Ipap} `{!Xml}.
Variables (garbage : Z) (garbage_field : Z * Z * Z) (dtdname : string).

Definition accepted (str : xml_string) : bool :=
  match XMLParserValidate dtdname str IPAP_XML_ROOT with Normal _ => true | _ => false end.
(** The message of the text stays: it is returned, or an exception that is
    no [Error], such as [ipap_bad_argument], goes past the handler. *)
Definition kept (str : xml_string) : bool :=
  match from_message garbage garbage_field dtdname str with
  | Normal _ => true
  | Raised (Lib_error _) => false
  | Raised _ => true
  | Faulted _ => false
  end.

(** [XMLParserValidate] on a heap: the value is that of [XmlMessage], and
    what was allocated before stays as it is. *)
Lemma parse_on str st :
  exists st', XMLParserValidate_on dtdname str IPAP_XML_ROOT st = (XMLParserValidate dtdname str IPAP_XML_ROOT, st')
    /\ xml_owned st' /\ size (heap st') = size (heap st) + in_use st'
    /\ in_use st' = (if accepted str then 2 else 0).
Proof.
  unfold XMLParserValidate_on, accepted, XMLParserValidate, catch. destruct (xmlParseMemory str) as [doc|] eqn:Ep.
  2:{ eexists. split; [reflexivity|]. cbn. split_and!; [done|lia|done]. }
  unfold alloc, set_XMLDoc, modify, bind at 1 2. cbn [heap XMLDoc].
  set (a := fresh (dom (heap st) : gset address)). pose proof (fresh_address (heap st)) as Ha. fold a in Ha.
  unfold validate. destruct (xmlParseDTD dtdname) as [dtd|] eqn:Ed.
  2:{ unfold bind at 1. rewrite (free_XMLDoc_alone a) by by rewrite lookup_insert_eq.
      eexists. split; [reflexivity|]. cbn. rewrite delete_insert_id by done. split_and!; [done|lia|done]. }
  set (h := <[a := Document_cell None]> (heap st)). unfold alloc, bind at 1, catch. cbn [heap XMLDoc].
  set (d := fresh (dom h : gset address)). pose proof (fresh_address h) as Hd. fold d in Hd.
  assert (Had : a <> d) by (intros E; rewrite <- E in Hd; subst h; by rewrite lookup_insert_eq in Hd).
  assert (Hs : size h = S (size (heap st))) by by apply map_size_insert_None.
  assert (Hbad : forall e : exn, exists st', match (free d ;;; free_XMLDoc ;;; raise e) (mk_xml_memory (Some a) (<[d:=Dtd_cell]> h)) with
      | (Raised e, s') => (free_XMLDoc ;;; raise e) s' | r => r end = (Raised e : outcome xml_node, st')
      /\ xml_owned st' /\ size (heap st') = size (heap st) + in_use st' /\ in_use st' = 0).
  { intros e. unfold free, bind at 1. cbn [heap XMLDoc]. rewrite lookup_insert_eq. rewrite delete_insert_id by done.
    unfold bind at 1. rewrite (free_XMLDoc_alone a) by (unfold h; by rewrite lookup_insert_eq).
    eexists. split; [reflexivity|]. cbn. unfold h. rewrite delete_insert_id by done. split_and!; [done|lia|done]. }
  unfold validate_root, lift_outcome, bind at 1. destruct (xmlValidateDtd dtd doc); cbn [negb]; [|apply Hbad].
  destruct (xmlDocGetRootElement doc) as [cur|]; [|apply Hbad]. destruct (String.eqb (node_name cur) IPAP_XML_ROOT); [|apply Hbad].
  eexists. split; [reflexivity|]. unfold xml_owned, in_use. cbn [XMLDoc heap]. split_and!; [|..|done].
  - exists d. rewrite lookup_insert_eq. split; [done|]. by rewrite lookup_insert_ne, lookup_insert_eq.
  - rewrite map_size_insert_Some by (exists (Document_cell None); rewrite lookup_insert_ne by done; unfold h; by rewrite lookup_insert_eq).
    rewrite map_size_insert_None by done. lia.
Qed.

Lemma free_new p c st : heap st !! p = None ->
  free p (mk_xml_memory (XMLDoc st) (<[p := c]> (heap st))) = (Normal tt, st).
Proof. intros Hp. unfold free. cbn. rewrite lookup_insert_eq, delete_insert_id by done. by destruct st. Qed.

Lemma validate_error str e : XMLParserValidate dtdname str IPAP_XML_ROOT = Raised e -> exists what, e = Lib_error what.
Proof.
  unfold XMLParserValidate. destruct (xmlParseMemory str) as [doc|]; [|intros [= <-]; eauto].
  destruct (xmlParseDTD dtdname) as [dtd|]; [|intros [= <-]; eauto].
  destruct (xmlValidateDtd dtd doc); cbn [negb]; [|intros [= <-]; eauto].
  destruct (xmlDocGetRootElement doc) as [cur|]; [|intros [= <-]; eauto]. destruct (String.eqb _ _); [done|intros [= <-]; eauto].
Qed.

(** A call of [from_message]: the text before is forgotten with its DTD. *)
Lemma from_message_step str st
  (Hf : forall f, from_message garbage garbage_field dtdname str <> Faulted f) :
  exists o st', from_message_on garbage garbage_field dtdname str st = (o, st')
    /\ obind o (fun mp => Normal (fst mp)) = from_message garbage garbage_field dtdname str
    /\ xml_owned st' /\ in_use st' = (if accepted str then 2 else 0)
    /\ size (heap st') = size (heap st) + in_use st' + (if kept str then 1 else 0).
Proof.
  destruct (parse_on str st) as (st1 & E1 & Ho & Hs & Hu). unfold from_message_on, bind at 1. rewrite E1. clear E1.
  unfold kept, from_message in *. unfold accepted in Hu |- *.
  destruct (XMLParserValidate dtdname str IPAP_XML_ROOT) as [root|e|f] eqn:Ev; cbn [obind] in *.
  - unfold bind at 1, alloc, catch. set (p := fresh (dom (heap st1) : gset address)).
    pose proof (fresh_address (heap st1)) as Hp. fold p in Hp.
    assert (Hn : xml_owned (mk_xml_memory (XMLDoc st1) (<[p:=Message_cell]> (heap st1)))).
    { unfold xml_owned in *. cbn. destruct (XMLDoc st1) as [a|]; [|done]. destruct Ho as (d & Ha & Hd).
      exists d. split; rewrite lookup_insert_ne; congruence. }
    assert (Hc : size (<[p:=Message_cell]> (heap st1)) = S (size (heap st1))) by by apply map_size_insert_None.
    unfold lift_outcome, bind, ret. destruct (read_message garbage garbage_field root) as [m|e|f] eqn:Er.
    + eexists _, _. split; [reflexivity|]. split_and!; [done|done|done|]. cbn. rewrite Hc. unfold in_use in *. cbn. lia.
    + assert (Hk : forall what, (free p ;;; raise (Lib_error what)) (mk_xml_memory (XMLDoc st1) (<[p:=Message_cell]> (heap st1)))
        = (Raised (Lib_error what) : outcome (ipap_message * address), st1)) by (intros what; unfold bind; by rewrite free_new).
      unfold bind in Hk.
      destruct e; cbn [rethrow] in *; rewrite ?Hk.
      all: eexists _, _; (split; [reflexivity|]); split_and!; try done; rewrite ?Hs; cbn.
      all: try rewrite Hc; unfold in_use in *; cbn in *; try lia.
    + by exfalso; apply (Hf f).
  - destruct (validate_error str e Ev) as [what ->]. eexists _, _. split; [reflexivity|]. cbn [rethrow obind].
    split_and!; [done|done|done|lia].
  - by exfalso; apply (Hf f).
Qed.

Definition readable (strs : list xml_string) : Prop :=
  Forall (fun str => forall f, from_message garbage garbage_field dtdname str <> Faulted f) strs.
Definition of_accepted (strs : list xml_string) : nat := length (List.filter accepted strs).
Definition of_kept (strs : list xml_string) : nat := length (List.filter kept strs).

Lemma read_all_holds strs st : readable strs ->
  exists st', read_all garbage garbage_field dtdname strs st = (Normal (map (from_message garbage garbage_field dtdname) strs), st')
    /\ (xml_owned st -> xml_owned st')
    /\ in_use st' = match last strs with None => in_use st | Some str => if accepted str then 2 else 0 end
    /\ size (heap st') = size (heap st) + 2 * of_accepted strs + of_kept strs.
Proof.
  revert st. induction strs as [|str strs IH]; intros st Hr; [exists st; cbn; split_and!; done || lia|].
  apply Forall_cons in Hr as [Hf Hr].
  destruct (from_message_step str st Hf) as (o & st1 & E1 & Eo & Ho & Hu & Hs).
  destruct (IH st1 Hr) as (st2 & E2 & Ho2 & Hu2 & Hs2). exists st2. cbn [read_all map]. rewrite E1.
  assert (Hn : forall f, o <> Faulted f) by (intros f ->; by apply (Hf f)). split_and!.
  - destruct o as [mp|e|f]; [..|by exfalso; apply (Hn f)]; unfold bind; rewrite E2; cbn; by rewrite <- Eo.
  - auto.
  - rewrite Hu2, Hu, last_cons. by destruct (last strs).
  - rewrite Hs2, Hs, Hu. unfold of_accepted, of_kept. cbn [List.filter].
    destruct (accepted str), (kept str); cbn [length]; lia.
Qed.

Lemma accepted_but_last strs :
  2 * of_accepted strs = 2 * of_accepted (removelast strs) + match last strs with None => 0 | Some str => if accepted str then 2 else 0 end.
Proof.
  induction strs as [|str strs _] using rev_ind; [done|]. rewrite removelast_last, last_snoc. unfold of_accepted.
  rewrite List.filter_app, length_app. cbn. destruct (accepted str); cbn; lia.
Qed.

(** C35. The life of an object that reads any number of texts.  What it returns
    is what [from_message] returns, and nothing is freed twice; but every
    document that was accepted is lost, with its DTD, when the next text is
    parsed, whatever becomes of that: the destructor frees the last one only.
    Beside them stay the messages, those that were not returned included. *)
Theorem xml_object_life (strs : list xml_string) (h : gmap address xml_cell) (Hr : readable strs) :
  exists st,
    (os <- read_all garbage garbage_field dtdname strs ;; destroy_xml_message ;;; ret os) (new_xml_message h)
      = (Normal (map (from_message garbage garbage_field dtdname) strs), st)
    /\ size (heap st) = size h + 2 * of_accepted (removelast strs) + of_kept strs.
Proof.
  destruct (read_all_holds strs (new_xml_message h) Hr) as (st1 & E1 & Ho & Hu & Hs).
  destruct (destroy_frees st1 (Ho I)) as (h' & E2 & Hs2).
  exists (mk_xml_memory (XMLDoc st1) h'). unfold bind at 1. rewrite E1. unfold bind at 1. rewrite E2. split; [done|].
  pose proof (accepted_but_last strs) as Ha. cbn [heap new_xml_message] in *.
  destruct (last strs); rewrite Hu in Hs2; unfold in_use in *; cbn in *; lia.
Qed.

(** [get_message] loses the buffer for its digits always, and its writer and
    text buffer when it throws after it has made them. *)
Theorem get_message_leaks (mes : ipap_message) (s : splitter) (st : xml_memory) :
  exists st', get_message_on mes s st = (get_message mes s, st') /\ XMLDoc st' = XMLDoc st
    /\ match get_message mes s with
       | Normal _ => size (heap st') = 1 + size (heap st)
       | _ => size (heap st') = 1 + size (heap st)
                + match split mes s, xmlBufferCreate with
                  | Normal _, Some b => match xmlNewTextWriterMemory b with Some _ => 2 | None => 1 end
                  | _, _ => 0
                  end
       end.
Proof.
  unfold get_message_on, get_message, createXmlMessage_on, createXmlMessage, alloc, bind at 1. cbn [heap XMLDoc].
  set (h0 := <[fresh (dom (heap st)) := Digits_cell]> (heap st)).
  assert (Hs0 : size h0 = 1 + size (heap st)) by (apply map_size_insert_None, fresh_address).
  unfold bind at 1, lift_outcome at 1. destruct (split mes s) as [s'|e|f]; cbn [obind]; [|eexists; split; [done|]; cbn; split; [done|lia]..].
  destruct xmlBufferCreate as [b|]; cbn [obind]; [|eexists; split; [done|]; cbn; split; [done|lia]].
  set (a := fresh (dom h0 : gset address)). set (h1 := <[a := Buffer_cell]> h0).
  assert (Hs1 : size h1 = 1 + size h0) by (apply map_size_insert_None, fresh_address).
  destruct (xmlNewTextWriterMemory b) as [w|]; cbn [obind].
  2:{ eexists. split; [reflexivity|]. cbn. fold a h1. split; [done|lia]. }
  unfold bind, lift_outcome. cbn [heap XMLDoc]. fold a h1.
  set (p := fresh (dom h1 : gset address)). set (h2 := <[p := Writer_cell]> h1).
  assert (Hs2 : size h2 = 1 + size h1) by (apply map_size_insert_None, fresh_address).
  destruct (start_document w) as [w1|e|f]; cbn [obind ret]; [|eexists; split; [done|]; cbn; split; [done|lia]..].
  destruct (write_message mes s' w1) as [[[]|e|f] w2]; [|eexists; split; [done|]; cbn; split; [done|lia]..].
  pose proof (free_new p Writer_cell (mk_xml_memory (XMLDoc st) h1) (fresh_address h1)) as Fp.
  pose proof (free_new a Buffer_cell (mk_xml_memory (XMLDoc st) h0) (fresh_address h0)) as Fa.
  cbn [heap XMLDoc] in Fp, Fa. fold h2 in Fp. fold h1 in Fa. rewrite Fp, Fa.
  eexists. split; [reflexivity|]. cbn. split; [done|lia].
Qed.

(** The copy constructor: the maps are copied entry by entry; [XMLDoc] and
    [ns] stay as the memory had them.  The destructor of a copy that was not
    used then frees whatever address was there. *)
Definition copy_xml_message (rest : option address) (rhs : splitter) (h : gmap address xml_cell) : splitter * xml_memory :=
  (mk_splitter (templates rhs) (map_of_entries xml_object_key_ltb (objectTemplates rhs))
     (map_of_entries xml_object_key_ltb (objectDataRecords rhs)),
   mk_xml_memory rest h).

Lemma copy_destroyed rest rhs h a : rest = Some a -> h !! a = None ->
  fst (destroy_xml_message (snd (copy_xml_message rest rhs h))) = Faulted Use_after_free.
Proof. intros -> Ha. unfold destroy_xml_message, bind, get. cbn. by rewrite Ha. Qed.
End Xml_memory_spec.
