(* ===== verification/Command.v ===== *)
(** * Commands for the auction manager: netauct_rule_installer::execute_command

    The installer's HTTP client: a POST over libcurl to the auction manager or
    to the bidding application, whose answer, if it is XML, libxslt
    translates.  libcurl, libxslt and libxml2 are the class [Http]: their state
    is [X].  What the function acquires from them and from the heap is kept in
    [held], so that the model shows what it gives back, on every path. *)
From S2P Require Import NiSession NrSession NfSession.
From S2P Require Import Prelude Outcome StdMap External Objects Store Messages SessionId NtlpMsg AuctionRule Aqueue Events Session Installer Config XmlMessage.
From Stdlib Require Import Ascii.

(** [rule_installer_destination_type_t]. *)
Inductive rule_installer_destination_type_t := RULE_INSTALLER_SERVER | RULE_INSTALLER_CLIENT.

Definition sigfail_auction_connection_broken : Z := 8.

(** What is told to libcurl before a transfer. *)
Record request := mk_request { rq_url : list ascii; rq_userpwd : list ascii; rq_post : list ascii }.

(** The libraries.  A transfer writes its answer in pieces and, when it
    fails, a text; [curl_content_type] is what [curl_easy_getinfo] answers:
    [None] for an error, [Some None] when the server sent no content type.
    [xml_parse] and [xslt_apply] make documents of an answer and [xslt_save]
    the text of one; each may fail. *)
Class Http (X : Type) := {
  curl_easy_init : X -> bool * X;
  xslt_parse_stylesheet : list ascii -> X -> bool * X;
  curl_escape : list ascii -> list ascii;
  curl_easy_perform : request -> X -> bool * list (list ascii) * list ascii * X;
  curl_content_type : X -> option (option (list ascii));
  curl_http_code : X -> option Z;
  xml_doc : Type;
  xml_parse : list ascii -> option xml_doc;
  xslt_apply : xml_doc -> option xml_doc;
  xslt_save : xml_doc -> option (list ascii);
  strerror : Z -> list ascii }.

(** What has to be given back. *)
Inductive resource := Curl_handle | Stylesheet | Url_text | Post_body | Document | Result_document | Result_text.

#[export] Instance resource_eq_dec : EqDecision resource.
Proof. solve_decision. Defined.

(** ** The configuration the installer reads. *)
Section Getters.
Variable getpar : anslp_configpar_id_t -> parameter.

Definition getpar_string (id : anslp_configpar_id_t) : list ascii := match getpar id with Par_string s => text s | _ => [] end.

Definition get_user : list ascii := getpar_string anslpconf_auctioneer_user.
Definition get_password : list ascii := getpar_string anslpconf_auctioneer_password.
Definition get_auctioneer_server : list ascii := getpar_string anslpconf_auctioneer_server.
Definition get_auctioneer_xsl : list ascii := getpar_string anslpconf_auctioneer_def_xsl.
Definition get_auctioneer_port : Z := getpar_uint32 getpar anslpconf_auctioneer_port.
Definition get_bid_user : list ascii := getpar_string anslpconf_ni_user.
Definition get_bid_password : list ascii := getpar_string anslpconf_ni_password.
Definition get_bid_server : list ascii := getpar_string anslpconf_ni_server.
Definition get_bid_port : Z := getpar_uint32 getpar anslpconf_ni_port.

(** Server, port and credentials of a destination. *)
Definition destination_of (d : rule_installer_destination_type_t) : list ascii * Z * list ascii :=
  match d with
  | RULE_INSTALLER_SERVER => (get_auctioneer_server, int32 get_auctioneer_port, get_user ++ text ":" ++ get_password)
  | RULE_INSTALLER_CLIENT => (get_bid_server, int32 get_bid_port, get_bid_user ++ text ":" ++ get_bid_password)
  end.
End Getters.

Section Command.
Context {X : Type} `{!Http X}.

(** [writedata]: the callback appends each piece to the answer. *)
Definition writedata (response piece : list ascii) : list ascii := response ++ piece.

(** [err.find_last_of(":")]; [None] for [npos]. *)
Fixpoint find_last_colon (s : list ascii) : option nat :=
  match s with
  | [] => None
  | c :: s => match find_last_colon s with
              | Some p => Some (S p)
              | None => if Ascii.eqb c ":" then Some 0 else None
              end
  end.

(** [getErr]: [npos] becomes -1, which like a colon in front gives the empty
    text. *)
Definition getErr (err : list ascii) : list ascii :=
  match find_last_colon err with
  | Some p => if (0 <? p)%nat then substr 0 p err ++ text ": " ++ strerror (Installer.atoi (substr (p + 1) (length err - p) err)) else []
  | None => []
  end.

(** The state: the libraries, and what is held. *)
Record client := mk_client { libraries : X; held : list resource }.

Definition acquire (r : resource) : M client unit := modify (fun c => mk_client (libraries c) (r :: held c)).

Fixpoint drop_one (r : resource) (l : list resource) : option (list resource) :=
  match l with
  | [] => None
  | x :: l => if decide (x = r) then Some l else option_map (cons x) (drop_one r l)
  end.

(** Giving back what is not held is a double free. *)
Definition release (r : resource) : M client unit := fun c =>
  match drop_one r (held c) with
  | Some l => (Normal tt, mk_client (libraries c) l)
  | None => (Faulted Double_delete, c)
  end.

Definition call {A} (f : X -> A * X) : M client A := fun c =>
  let '(a, x) := f (libraries c) in (Normal a, mk_client x (held c)).

Definition connection_error (msg : list ascii) : exn :=
  Installer_error (mk_request_error (String.string_of_list_ascii msg) sc_signaling_session_failures sigfail_auction_connection_broken).

(** The end of a transfer, which the source repeats in each place. *)
Definition finish : M client unit :=
  release Url_text ;;; release Post_body ;;; release Curl_handle ;;; release Stylesheet.

Definition transfer_failed (cebuf : list ascii) : M client (list ascii) :=
  finish ;;; raise (connection_error (getErr cebuf)).

(** [strcmp(ctype, "text/xml")]. *)
Definition text_xml : list ascii := text "text/xml".

(** The answer is XML: it is replaced by its translation. *)
Definition translate (response : list ascii) : M client (list ascii) :=
  let doc := xml_parse response in
  (if is_some doc then acquire Document else ret tt) ;;;
  match doc ≫= xslt_apply with
  | None => raise (connection_error (text "RESULT output could not be transformed"))
  | Some out =>
      acquire Result_document ;;;
      match xslt_save out with
      | None => trip Null_dereference
      | Some output =>
          acquire Result_text ;;;
          release Result_document ;;;
          release Document ;;;
          ret output
      end
  end.

Definition execute_command (getpar : anslp_configpar_id_t -> parameter) (destination : rule_installer_destination_type_t)
  (action post_fields : list ascii) : M client (list ascii) :=
  let stylesheet := get_auctioneer_xsl getpar in
  let '(server, port, userpwd) := destination_of getpar destination in
  curl <- call curl_easy_init ;;
  if negb curl then raise (connection_error (text "Error during policy installation"))
  else
    acquire Curl_handle ;;;
    cur <- call (xslt_parse_stylesheet stylesheet) ;;
    if negb cur then raise (connection_error (text "Error opening the xls"))
    else
      acquire Stylesheet ;;;
      let url := text "http://" ++ server ++ text ":" ++ print_d port ++ action in
      acquire Url_text ;;;
      let post_body := curl_escape post_fields in
      acquire Post_body ;;;
      res <- call (curl_easy_perform (mk_request url userpwd post_body)) ;;
      let '(ok, pieces, cebuf) := res in
      let response := fold_left writedata pieces [] in
      if negb ok then transfer_failed cebuf
      else
        c <- get ;;
        match curl_content_type (libraries c), curl_http_code (libraries c) with
        | None, _ | _, None => transfer_failed cebuf
        | Some None, Some _ => trip Null_dereference
        | Some (Some ctype), Some _ =>
            response <- (if bool_decide (ctype = text_xml) then translate response else ret response) ;;
            finish ;;;
            ret response
        end.

(** ** What it does, and what it leaves behind. *)

Lemma fold_writedata pieces acc : fold_left writedata pieces acc = acc ++ concat pieces.
Proof.
  revert acc. induction pieces as [|p pieces IH]; intros acc; cbn; [by rewrite app_nil_r|].
  rewrite IH. unfold writedata. by rewrite <- app_assoc.
Qed.

(** Everything a transfer needs. *)
Definition transfer_resources : list resource := [Post_body; Url_text; Stylesheet; Curl_handle].

Lemma finish_run x rest :
  finish (mk_client x (transfer_resources ++ rest)) = (Normal tt, mk_client x rest).
Proof. reflexivity. Qed.

Lemma finish_below x r rest :
  r ∉ transfer_resources -> finish (mk_client x (r :: transfer_resources ++ rest)) = (Normal tt, mk_client x (r :: rest)).
Proof. intros Hr. destruct r; try reflexivity; exfalso; apply Hr; unfold transfer_resources;
    repeat first [apply list_elem_of_here|apply list_elem_of_further]. Qed.

Lemma getErr_cases err :
  (getErr err = [] \/ exists pre post, err = pre ++ text ":" ++ post /\ pre <> [] /\ find_last_colon post = None
     /\ getErr err = pre ++ text ": " ++ strerror (Installer.atoi post)).
Proof.
  assert (Hsplit : forall err p, find_last_colon err = Some p ->
    exists pre post, err = pre ++ text ":" ++ post /\ length pre = p /\ find_last_colon post = None).
  { clear. induction err as [|c err IH]; intros p; cbn; [done|]. destruct (find_last_colon err) as [q|] eqn:Eq.
    - intros [= <-]. destruct (IH q eq_refl) as (pre & post & -> & <- & Hp). by exists (c :: pre), post.
    - destruct (Ascii.eqb_spec c ":") as [->|]; [|done]. intros [= <-]. by exists [], err. }
  unfold getErr. destruct (find_last_colon err) as [p|] eqn:Ep; [|by left]. destruct p as [|p]; [by left|].
  right. destruct (Hsplit err (S p) Ep) as (pre & post & -> & Hl & Hpost). exists pre, post.
  split_and!; [done|by intros ->|done|]. cbn [Nat.ltb Nat.leb]. unfold substr. cbn [drop]. f_equal.
  - rewrite <- Hl. apply take_app_length.
  - do 2 f_equal. rewrite <- Hl. rewrite app_assoc, drop_app_length' by (rewrite length_app; cbn; lia).
    rewrite take_ge; [done|]. rewrite !length_app. cbn. lia.
Qed.

(** How a transfer and a command can end, and what is held then. *)
Inductive transfer_ends : bool -> list ascii -> list ascii -> X -> outcome (list ascii) -> list resource -> Prop :=
  | transfer_error ok response cebuf x : ok = false \/ curl_content_type x = None \/ curl_http_code x = None ->
      transfer_ends ok response cebuf x (Raised (connection_error (getErr cebuf))) []
  | no_content_type response cebuf x code : curl_content_type x = Some None -> curl_http_code x = Some code ->
      transfer_ends true response cebuf x (Faulted Null_dereference) transfer_resources
  | plain_answer response cebuf x ctype code : curl_content_type x = Some (Some ctype) -> curl_http_code x = Some code ->
      ctype <> text_xml -> transfer_ends true response cebuf x (Normal response) []
  | not_translated response cebuf x code : curl_content_type x = Some (Some text_xml) -> curl_http_code x = Some code ->
      xml_parse response ≫= xslt_apply = None ->
      transfer_ends true response cebuf x (Raised (connection_error (text "RESULT output could not be transformed")))
        ((if is_some (xml_parse response) then [Document] else []) ++ transfer_resources)
  | not_saved response cebuf x code doc out : curl_content_type x = Some (Some text_xml) -> curl_http_code x = Some code ->
      xml_parse response = Some doc -> xslt_apply doc = Some out -> xslt_save out = None ->
      transfer_ends true response cebuf x (Faulted Null_dereference) (Result_document :: Document :: transfer_resources)
  | translated response cebuf x code doc out output : curl_content_type x = Some (Some text_xml) -> curl_http_code x = Some code ->
      xml_parse response = Some doc -> xslt_apply doc = Some out -> xslt_save out = Some output ->
      transfer_ends true response cebuf x (Normal output) [Result_text].

Inductive command_ends (getpar : anslp_configpar_id_t -> parameter) (destination : rule_installer_destination_type_t)
  (action post_fields : list ascii) (x : X) : outcome (list ascii) -> list resource -> Prop :=
  | no_handle x1 : curl_easy_init x = (false, x1) ->
      command_ends getpar destination action post_fields x
        (Raised (connection_error (text "Error during policy installation"))) []
  | no_stylesheet x1 x2 : curl_easy_init x = (true, x1) ->
      xslt_parse_stylesheet (get_auctioneer_xsl getpar) x1 = (false, x2) ->
      command_ends getpar destination action post_fields x
        (Raised (connection_error (text "Error opening the xls"))) [Curl_handle]
  | performed x1 x2 server port userpwd ok pieces cebuf x3 o l : curl_easy_init x = (true, x1) ->
      xslt_parse_stylesheet (get_auctioneer_xsl getpar) x1 = (true, x2) ->
      destination_of getpar destination = (server, port, userpwd) ->
      curl_easy_perform (mk_request (text "http://" ++ server ++ text ":" ++ print_d port ++ action) userpwd (curl_escape post_fields)) x2
        = (ok, pieces, cebuf, x3) ->
      transfer_ends ok (concat pieces) cebuf x3 o l ->
      command_ends getpar destination action post_fields x o l.

Lemma translate_run (response : list ascii) x :
  translate response (mk_client x transfer_resources)
  = match xml_parse response with
    | None => (Raised (connection_error (text "RESULT output could not be transformed")), mk_client x transfer_resources)
    | Some doc =>
        match xslt_apply doc with
        | None => (Raised (connection_error (text "RESULT output could not be transformed")), mk_client x (Document :: transfer_resources))
        | Some out =>
            match xslt_save out with
            | None => (Faulted Null_dereference, mk_client x (Result_document :: Document :: transfer_resources))
            | Some output => (Normal output, mk_client x (Result_text :: transfer_resources))
            end
        end
    end.
Proof.
  unfold translate. destruct (xml_parse response) as [doc|]; [|reflexivity].
  unfold bind at 1. cbn. destruct (xslt_apply doc) as [out|]; [|reflexivity].
  unfold bind at 1. cbn. destruct (xslt_save out) as [output|]; reflexivity.
Qed.

(** A command for the auction manager.  It is sent to the server of its
    destination, with the credentials configured for it and the escaped
    fields, and the answer is all that the server sent, in order, or its
    translation if it is XML.  Every failure of the transfer is reported by
    an installer error with the text of libcurl.  What was acquired is given
    back, and nothing twice, when the transfer fails and when the answer is
    not XML; but the handle is leaked when there is no stylesheet, everything
    when the translation fails, and the text of the translation always; and a
    server that sends no content type ends the program. *)
Theorem execute_command_cases (getpar : anslp_configpar_id_t -> parameter) (destination : rule_installer_destination_type_t)
  (action post_fields : list ascii) (x : X) :
  command_ends getpar destination action post_fields x
    (fst (execute_command getpar destination action post_fields (mk_client x [])))
    (held (snd (execute_command getpar destination action post_fields (mk_client x [])))).
Proof.
  enough (Hwp : wp (execute_command getpar destination action post_fields)
    (fun o c => command_ends getpar destination action post_fields x o (held c)) (mk_client x [])) by exact Hwp.
  unfold execute_command. destruct (destination_of getpar destination) as [[server port] userpwd] eqn:Ed.
  apply wp_bind. unfold wp, call. cbn [libraries held]. destruct (curl_easy_init x) as [[] x1] eqn:Ei; cbn [fst snd negb].
  2: { by eapply no_handle. }
  apply wp_bind. unfold wp at 1, acquire, modify. cbn [fst snd libraries held].
  apply wp_bind. unfold wp. cbn [libraries held]. destruct (xslt_parse_stylesheet _ x1) as [[] x2] eqn:Es; cbn [fst snd negb].
  2: { by eapply no_stylesheet. }
  do 3 (apply wp_bind; unfold wp at 1, acquire, modify; cbn [fst snd libraries held]).
  apply wp_bind. unfold wp. cbn [libraries held].
  destruct (curl_easy_perform _ x2) as [[[ok pieces] cebuf] x3] eqn:Ep; cbn [fst snd].
  rewrite fold_writedata. cbn [app]. eapply performed; [done..|].
  destruct ok; cbn [negb]; [|by apply transfer_error; left].
  change (bind get ?k ?c) with (k c c). cbn beta. cbn [libraries].
  change [Post_body; Url_text; Stylesheet; Curl_handle] with transfer_resources.
  destruct (curl_content_type x3) as [[ctype|]|] eqn:Ec; [| |apply transfer_error; by right; left].
  all: destruct (curl_http_code x3) as [code|] eqn:Eh; [|by apply transfer_error; right; right].
  2: { by eapply no_content_type. }
  case_bool_decide as Ht; [subst ctype|by eapply plain_answer].
  change (bind (translate ?r) ?k ?c) with (match translate r c with
    | (Normal a, c') => k a c' | (Raised e, c') => (Raised e, c') | (Faulted f, c') => (Faulted f, c') end). rewrite translate_run.
  destruct (xml_parse (concat pieces)) as [doc|] eqn:Ex.
  2: { pose proof (not_translated (concat pieces) cebuf x3 code Ec Eh) as Hn. rewrite Ex in Hn. by apply Hn. }
  destruct (xslt_apply doc) as [out|] eqn:Ea.
  2: { pose proof (not_translated (concat pieces) cebuf x3 code Ec Eh) as Hn. rewrite Ex in Hn. by apply Hn. }
  destruct (xslt_save out) as [output|] eqn:Eo; [by eapply translated|by eapply not_saved].
Qed.
End Command.

(** ** A server that answers in two pieces. *)
Module Command_examples.

(** Documents are their texts; a stylesheet that puts brackets around. *)
#[export] Instance two_pieces : Http (option (list ascii)) := {|
  curl_easy_init x := (true, x);
  xslt_parse_stylesheet name x := (negb (bool_decide (name = [])), x);
  curl_escape s := s;
  curl_easy_perform _ x := (true, [text "<a"; text "/>"], [], x);
  curl_content_type x := Some x;
  curl_http_code _ := Some 200%Z;
  xml_doc := list ascii;
  xml_parse s := Some s;
  xslt_apply d := Some (text "[" ++ d ++ text "]");
  xslt_save d := Some d;
  strerror n := print_d n |}.

Definition par (xsl : string) (id : anslp_configpar_id_t) : parameter :=
  match id with anslpconf_auctioneer_def_xsl => Par_string xsl | anslpconf_auctioneer_port => Par_uint32 12244 | _ => Par_string "admin" end.

Definition answer (xsl : string) (ctype : option (list ascii)) : outcome (list ascii) * list resource :=
  let '(o, c) := execute_command (par xsl) RULE_INSTALLER_SERVER (text "/add_session") (text "id=1") (mk_client ctype []) in (o, held c).

Example plain_text_answered : answer "reply.xsl" (Some (text "text/plain")) = (Normal (text "<a/>"), []).
Proof. vm_compute. reflexivity. Qed.

Example translation_leaked : answer "reply.xsl" (Some text_xml) = (Normal (text "[<a/>]"), [Result_text]).
Proof. vm_compute. reflexivity. Qed.

Example handle_leaked : answer "" (Some text_xml) = (Raised (connection_error (text "Error opening the xls")), [Curl_handle]).
Proof. vm_compute. reflexivity. Qed.

Example no_type_faults : fst (answer "reply.xsl" None) = Faulted Null_dereference.
Proof. vm_compute. reflexivity. Qed.

Example getErr_number : getErr (text "Failed to connect: 111") = text "Failed to connect: 111".
Proof. vm_compute. reflexivity. Qed.
End Command_examples.
