(* ===== verification/XmlSpec.v ===== *)
(** * XML documents survive writing and reading

    What [get_message] writes is a document of the DTD; [from_message] makes
    of it a message with the header, the templates and the records of the one
    that was written. *)
From Stdlib Require Import Ascii.
From S2P Require Import Prelude Outcome StdMap External SessionId XmlKey Splitter XmlMessage.

(** ** What libxml2 promises. *)
Inductive xml_event :=
  | Start_document
  | Start_dtd (name sysid : string)
  | End_dtd
  | Start_element (name : string)
  | Attribute (name : string) (value : list ascii)
  | Content (text : list ascii)
  | End_element.

(** Elements that are open. *)
Definition depth (l : list xml_event) : Z :=
  foldr (fun e d => match e with Start_element _ => d + 1 | End_element => d - 1 | _ => d end)%Z 0%Z l.

(** When a call of the writer makes sense behind those of [l]. *)
Definition allowed (l : list xml_event) (e : xml_event) : bool :=
  match e, last l with
  | Start_document, None => true
  | Start_dtd _ _, Some Start_document => true
  | End_dtd, Some (Start_dtd _ _) => true
  | Start_element _, Some _ => true
  | Attribute _ _, Some (Start_element _ | Attribute _ _) => true
  | (Content _ | End_element), _ => (0 <? depth l)%Z
  | _, _ => false
  end.

Fixpoint legal (l es : list xml_event) : bool :=
  match es with [] => true | e :: es => allowed l e && legal (l ++ [e]) es end.

(** The calls that write a tree. *)
Fixpoint events (n : xml_node) : list xml_event :=
  match n with
  | Element name ps l =>
      Start_element name :: map (fun p => Attribute (fst p) (snd p)) ps ++ flat_map events l ++ [End_element]
  | Text t => [Content t]
  end.

Definition prologue : list xml_event := [Start_document; Start_dtd IPAP_XML_ROOT DTD_NAME; End_dtd].

(** The tree a parser makes: without empty texts. *)
Fixpoint normal (n : xml_node) : xml_node :=
  match n with
  | Element name ps l =>
      Element name ps (flat_map (fun n => match n with Text [] => [] | n => [normal n] end) l)
  | Text t => Text t
  end.

(** *** The DTD, for documents whose attributes are in its order and whose
    texts are of printable characters. *)
Definition plain (t : list ascii) : bool :=
  forallb (fun c => let n := nat_of_ascii c in (32 <=? n)%nat && (n <=? 126)%nat) t.
Definition attlist (names : list string) (ps : list (string * list ascii)) : bool :=
  bool_decide (map fst ps = names) && forallb (fun p => plain (snd p)) ps.
Definition pcdata (name : string) (atts : list string) (n : xml_node) : bool :=
  match n with
  | Element name' ps l =>
      String.eqb name' name && attlist atts ps && match l with [] => true | [Text t] => plain t | _ => false end
  | Text _ => false
  end.
Definition contains (name : string) (atts : list string) (ok : xml_node -> bool) (n : xml_node) : bool :=
  match n with
  | Element name' ps l => String.eqb name' name && attlist atts ps && forallb ok l
  | Text _ => false
  end.

Definition dtd_tfield : xml_node -> bool := pcdata "TFIELD" ["ENO"; "FTYPE"; "CODING"; "LENGTH"; "XML_NAME"].
Definition dtd_template : xml_node -> bool := contains "TEMPLATE" ["ID"; "TYPE"; "NUM_FIELDS"] dtd_tfield.
Definition dtd_field : xml_node -> bool := pcdata "FIELD" ["NAME"; "ENO"; "FTYPE"].
Definition dtd_datarecord : xml_node -> bool := contains "DATARECORD" ["TEMPLATE_ID"] dtd_field.
Definition dtd_message : xml_node -> bool :=
  contains "IPAP_MESSAGE" ["LAST_TEMPLATE_ID"; "DOMAIN_ID"; "VERSION"; "EXPORT_TIME"; "SEQ_NO"; "ACK_SEQ_NO"]
    (fun n => dtd_template n || dtd_datarecord n).

Fixpoint find_prop (name : string) (ps : list (string * list ascii)) : option (list ascii) :=
  match ps with
  | [] => None
  | (n, v) :: ps => if String.eqb n name then Some v else find_prop name ps
  end.

Class XmlLaws `{Xml} := {
  written : xml_writer -> list xml_event;
  buffer_created : exists b w, xmlBufferCreate = Some b /\ xmlNewTextWriterMemory b = Some w /\ written w = [];
  call (e : xml_event) : xml_writer -> option xml_writer :=
    match e with
    | Start_document => xmlTextWriterStartDocument
    | Start_dtd n s => xmlTextWriterStartDTD n s
    | End_dtd => xmlTextWriterEndDTD
    | Start_element n => xmlTextWriterStartElement n
    | Attribute n v => xmlTextWriterWriteAttribute n v
    | Content t => xmlTextWriterWriteString t
    | End_element => xmlTextWriterEndElement
    end;
  call_writes : forall e w, allowed (written w) e = true ->
    exists w', call e w = Some w' /\ written w' = written w ++ [e];
  (* a document of the DTD is read as it was written *)
  parse_written : forall w t, written w = prologue ++ events t -> dtd_message t = true ->
    exists d, xmlParseMemory (xml_content w) = Some d /\ xmlDocGetRootElement d = Some (normal t);
  xmlGetProp_finds : forall name n ps l, xmlGetProp name (Element n ps l) = find_prop name ps;
  xmlNodeListGetString_text : forall t, xmlNodeListGetString [Text t] = Some t }.

(** A DTD that accepts the documents of the repository's DTD. *)
Definition accepts_documents `{Xml} (dtd : xml_dtd) : Prop :=
  forall d t, xmlDocGetRootElement d = Some (normal t) -> dtd_message t = true -> xmlValidateDtd dtd d = true.

(** ** What the IPAP library promises. *)
Definition im_header `{Ipap} (m : ipap_message) : Z * Z * (Z * Z * Z) :=
  (im_domain m, im_version m, (im_exporttime m, im_seqno m, im_ackseqno m)).

Definition field_spec `{Ipap} (f : ipap_field) : Z * Z * Z := (f_eno f, f_ftype f, f_length f).

(** [m'] is [m] with another header. *)
Definition same_contents `{Ipap} (m' m : ipap_message) : Prop :=
  im_records m' = im_records m /\ forall id, im_get_template m' id = im_get_template m id.

Class IpapBuildLaws `{Ipap} : Prop := {
  im_new_spec : forall d v, im_domain (im_new d v) = d /\ im_version (im_new d v) = v
    /\ im_records (im_new d v) = [] /\ forall id, im_get_template (im_new d v) id = None;
  im_set_exporttime_spec : forall x m, same_contents (im_set_exporttime x m) m
    /\ im_header (im_set_exporttime x m) = (im_domain m, im_version m, (x, im_seqno m, im_ackseqno m));
  im_set_seqno_spec : forall x m, same_contents (im_set_seqno x m) m
    /\ im_header (im_set_seqno x m) = (im_domain m, im_version m, (im_exporttime m, x, im_ackseqno m));
  im_set_ackseqno_spec : forall x m, same_contents (im_set_ackseqno x m) m
    /\ im_header (im_set_ackseqno x m) = (im_domain m, im_version m, (im_exporttime m, im_seqno m, x));
  (* a template is what its ID, its type and its fields' numbers and lengths say *)
  im_make_template_spec : forall t m, im_get_template m (t_id t) = None ->
    exists m', im_make_template (map field_spec (t_fields t)) (t_type t) (t_id t) m = Some m'
      /\ im_header m' = im_header m /\ im_records m' = im_records m
      /\ forall id, im_get_template m' id = if decide (id = t_id t) then Some t else im_get_template m id;
  im_include_data_spec : forall r t m, im_get_template m (r_template_id r) = Some t ->
    Forall (fun kv => is_Some (t_get_field (fst (fst kv)) (snd (fst kv)) t)) (r_fields r) ->
    exists m', im_include_data (r_template_id r) r m = Some m'
      /\ im_header m' = im_header m /\ im_records m' = im_records m ++ [r]
      /\ forall id, im_get_template m' id = im_get_template m id;
  (* a record is its fields *)
  r_rebuild : forall r, fold_left (fun d kv => r_insert (fst (fst kv)) (snd (fst kv)) (snd kv) d) (r_fields r)
    (r_new (r_template_id r)) = r;
  t_get_field_spec : forall e f t x, t_get_field e f t = Some x -> f_eno x = e /\ f_ftype x = f /\ x ∈ t_fields t;
  ct_list_nodup : forall c, NoDup (ct_list c) }.

(** *** Maps by numbers. *)
#[export] Instance z_ltb_swo : StrictWeakOrder Z.ltb := swo_by_image (fun z => z).

Lemma key_equiv_z a b : key_equiv Z.ltb a b = bool_decide (a = b).
Proof. unfold key_equiv. destruct (Z.ltb_spec a b), (Z.ltb_spec b a); symmetry; case_bool_decide; done || lia. Qed.

Lemma map_find_set_z {V} k k' (v : V) m :
  map_find Z.ltb k' (map_set Z.ltb k v m) = if decide (k' = k) then Some v else map_find Z.ltb k' m.
Proof.
  case_decide as E; [subst; apply map_find_set_eq|]. apply map_find_set_ne. rewrite key_equiv_z. by apply bool_decide_eq_false_2.
Qed.

Lemma map_find_elem_z {V} k (v : V) m : map_sorted Z.ltb m -> (k, v) ∈ m <-> map_find Z.ltb k m = Some v.
Proof.
  induction m as [|[k' v'] m IH]; cbn; [by rewrite elem_of_nil|]. intros [Hall Hs].
  rewrite elem_of_cons, IH, key_equiv_z by done. destruct (bool_decide_reflect (k = k')) as [->|Hne].
  - split; [|left; congruence]. intros [E|E]; [congruence|]. by rewrite map_find_lt in E.
  - split; [intros [[= -> ->]|E]; done|by right].
Qed.

Lemma map_sorted_nodup {V} (m : list (Z * V)) : map_sorted Z.ltb m -> NoDup (map fst m).
Proof.
  induction m as [|[k v] m IH]; cbn; [constructor|]. intros [Hall Hs]. constructor; [|by apply IH].
  intros Hin. apply list_elem_of_fmap in Hin as (kv & -> & Hkv). rewrite Forall_forall in Hall. apply Hall in Hkv. lia.
Qed.

(** ** Writing. *)
Section Writing.
Context `{Ipap} `{!IpapLaws} `{!IpapBuildLaws} `{!Xml} `{!XmlLaws}.

(** [m] makes the calls [es], from every writer for which they make sense. *)
Definition emits {A} (m : WR A) (a : A) (es : list xml_event) : Prop :=
  forall w, legal (written w) es = true -> exists w', m w = (Normal a, w') /\ written w' = written w ++ es.

Lemma legal_app l es es' : legal l (es ++ es') = legal l es && legal (l ++ es) es'.
Proof.
  revert l. induction es as [|e es IH]; intros l; cbn; [by rewrite app_nil_r|].
  by rewrite IH, <- andb_assoc, <- app_assoc.
Qed.

Lemma writes_ret {A} (a : A) : emits (ret a) a [].
Proof. intros w _. exists w. by rewrite app_nil_r. Qed.

Lemma writes_bind {A B} (m : WR A) (k : A -> WR B) a b es es' :
  emits m a es -> emits (k a) b es' -> emits (bind m k) b (es ++ es').
Proof.
  intros Hm Hk w. rewrite legal_app, andb_true_iff. intros [L1 L2].
  destruct (Hm w L1) as (w1 & E1 & W1). rewrite <- W1 in L2. destruct (Hk w1 L2) as (w2 & E2 & W2).
  exists w2. unfold bind. rewrite E1. split; [done|]. by rewrite W2, W1, app_assoc.
Qed.

Lemma emits_call e what : emits (checked (call e) what) tt [e].
Proof.
  intros w. cbn [legal]. rewrite andb_true_r. intros Hl. destruct (call_writes e w Hl) as (w' & E & W).
  exists w'. unfold checked. by rewrite E.
Qed.

Lemma emits_lift {A} (a : A) : emits (lift_outcome (Normal a)) a [].
Proof. apply writes_ret. Qed.

Lemma emits_iter {A} (f : A -> WR unit) (es : A -> list xml_event) l :
  Forall (fun a => emits (f a) tt (es a)) l -> emits (iterM f l) tt (flat_map es l).
Proof. induction 1 as [|a l Ha Hl IH]; [apply writes_ret|]. cbn. by eapply writes_bind. Qed.

Lemma emits_start name : emits (createElement name) tt [Start_element name].
Proof. exact (emits_call (Start_element name) _). Qed.
Lemma emits_attribute name v : emits (writeAttribute name v) tt [Attribute name v].
Proof. exact (emits_call (Attribute name v) _). Qed.
Lemma emits_content t : emits (writeFieldValue t) tt [Content t].
Proof. exact (emits_call (Content t) _). Qed.
Lemma emits_close : emits closeElement tt [End_element].
Proof. exact (emits_call End_element _). Qed.

(** *** The trees that are written. *)
Definition tfield_node (f : ipap_field) : xml_node :=
  Element "TFIELD" [("ENO", print_d (f_eno f)); ("FTYPE", print_d (f_ftype f)); ("CODING", print_d (f_coding f));
    ("LENGTH", print_d (f_length f)); ("XML_NAME", f_xml_name f)] [Text (f_name f)].
Definition template_node (t : ipap_template) : xml_node :=
  Element "TEMPLATE" [("ID", print_u (t_id t)); ("TYPE", print_u (t_type t));
    ("NUM_FIELDS", print_u (Z.of_nat (length (t_fields t))))] (map tfield_node (t_fields t)).
Definition field_node (t : ipap_template) (kv : (Z * Z) * ipap_value) : xml_node :=
  match t_get_field (fst (fst kv)) (snd (fst kv)) t with
  | Some f => Element "FIELD" [("NAME", f_xml_name f); ("ENO", print_d (f_eno f)); ("FTYPE", print_d (f_ftype f))]
                [Text (f_write f (snd kv))]
  | None => Text []
  end.
Definition record_node (t : ipap_template) (r : ipap_data_record) : xml_node :=
  Element "DATARECORD" [("TEMPLATE_ID", print_u (r_template_id r))] (map (field_node t) (r_fields r)).

Lemma events_element name ps l :
  events (Element name ps l) = Start_element name :: map (fun p => Attribute (fst p) (snd p)) ps ++ flat_map events l ++ [End_element].
Proof. done. Qed.

Ltac emit := repeat first
  [ eapply (writes_bind _ _ _ _ [_] _); [first [apply emits_start|apply emits_attribute|apply emits_content]|]
  | apply emits_close | eapply writes_bind; [apply emits_iter|] ].

Lemma flat_map_events_map {A} (f : A -> xml_node) l : flat_map events (map f l) = flat_map (fun a => events (f a)) l.
Proof. induction l as [|a l IH]; cbn; [done|]. by rewrite IH. Qed.

Lemma emits_template t : emits (writeTemplate t) tt (events (template_node t)).
Proof.
  unfold writeTemplate, createElement_id, template_node. rewrite events_element, flat_map_events_map. cbn [map fst snd app].
  eapply (writes_bind _ _ _ _ [_; _]); [eapply (writes_bind _ _ _ _ [_] [_]); [apply emits_start|apply emits_attribute]|].
  emit. apply Forall_true. intros f. unfold tfield_node. rewrite events_element. cbn [map fst snd app flat_map events].
  emit.
Qed.

Lemma emits_record t r name :
  name = "FIELD"%string -> Forall (fun kv => is_Some (t_get_field (fst (fst kv)) (snd (fst kv)) t)) (r_fields r) ->
  emits (writeDataRecord t r name) tt (flat_map events (map (field_node t) (r_fields r))).
Proof.
  intros -> Hf. rewrite flat_map_events_map. unfold writeDataRecord. apply emits_iter. eapply Forall_impl; [exact Hf|].
  intros [[e f] v] [x Hx]. cbn [fst snd] in *. unfold field_node. cbn [fst snd]. rewrite Hx.
  rewrite events_element. cbn [map fst snd app flat_map events of_ipap].
  eapply (writes_bind _ _ _ _ []); [apply emits_lift|]. emit.
Qed.

(** *** The records of an object. *)
Definition templates_of (m : ipap_message) (r : ipap_data_record) : ipap_template -> Prop :=
  fun t => im_get_template m (r_template_id r) = Some t.

(** The records of a kind, each with its template. *)
Fixpoint of_kind (m : ipap_message) (kind : Z -> bool) (l : list ipap_data_record) : list (ipap_template * ipap_data_record) :=
  match l with
  | [] => []
  | r :: l =>
      match im_get_template m (r_template_id r) with
      | Some t => if kind (t_type t) then (t, r) :: of_kind m kind l else of_kind m kind l
      | None => of_kind m kind l
      end
  end.

Definition record_nodes (l : list (ipap_template * ipap_data_record)) : list xml_node := map (fun tr => record_node (fst tr) (snd tr)) l.

(** Every record has the fields of its template. *)
Definition complete (m : ipap_message) (r : ipap_data_record) : Prop :=
  exists t, im_get_template m (r_template_id r) = Some t
    /\ Forall (fun kv => is_Some (t_get_field (fst (fst kv)) (snd (fst kv)) t)) (r_fields r).

Lemma emits_records m kind name s k l c :
  name = "FIELD"%string -> map_find xml_object_key_ltb k (objectTemplates s) = Some c ->
  Forall (fun r => exists t, ct_get (r_template_id r) c = Some t /\ im_get_template m (r_template_id r) = Some t
     /\ Forall (fun kv => is_Some (t_get_field (fst (fst kv)) (snd (fst kv)) t)) (r_fields r)) l ->
  emits (iterM (printRecord kind name s k) l) tt (flat_map events (record_nodes (of_kind m kind l))).
Proof.
  intros Hn Hc. induction 1 as [|r l (t & Ht & Hm & Hf) Hl IH]; [apply writes_ret|]. cbn [iterM of_kind]. rewrite Hm.
  unfold printRecord at 1, getTemplate. rewrite Hc, Ht.
  assert (E : flat_map events (record_nodes (if kind (t_type t) then (t, r) :: of_kind m kind l else of_kind m kind l))
    = (if kind (t_type t) then events (record_node t r) else []) ++ flat_map events (record_nodes (of_kind m kind l))).
  { by destruct (kind (t_type t)). }
  rewrite E. eapply writes_bind; [|exact IH]. eapply (writes_bind _ _ _ _ []); [apply emits_lift|].
  destruct (kind (t_type t)); [|apply writes_ret]. unfold record_node. rewrite events_element. cbn [map fst snd app].
  eapply (writes_bind _ _ _ _ [_]); [apply emits_start|]. eapply (writes_bind _ _ _ _ [_]); [apply emits_attribute|].
  eapply writes_bind; [by apply emits_record|apply emits_close].
Qed.

(** *** The keys of an object type. *)
Lemma insert_keys_fresh ot (ks : list xml_object_key) acc :
  Forall (of_type ot) ks -> Forall (fun kv => of_type ot (fst kv)) acc ->
  map_sorted id_ltb (map (fun k => (k, k)) ks) ->
  Forall (fun k => Forall (fun kv => id_ltb (fst kv) k = true) acc) ks ->
  fold_left insert_key ks acc = acc ++ map (fun k => (k, k)) ks.
Proof.
  intros Hks. revert acc. induction Hks as [|k ks Hk Hks IH]; intros acc Hacc Hs Hlt; cbn; [by rewrite app_nil_r|].
  inversion Hlt as [|? ? Hlt1 Hlt2]; subst. destruct Hs as [Hall Hs]. unfold insert_key at 2.
  rewrite (map_find_same ot), (map_set_same ot) by done.
  assert (E : map_find id_ltb k acc = None).
  { pose proof (map_find_app_gt k acc [] Hlt1) as E. by rewrite app_nil_r in E. }
  rewrite E, map_set_snoc by done. rewrite IH; [by rewrite <- app_assoc|..]; try done.
  - apply Forall_app. split; [done|]. by repeat constructor.
  - apply Forall_forall. intros k' Hk'. apply Forall_app. rewrite Forall_forall in Hlt2. split; [by apply Hlt2|].
    repeat constructor. cbn. rewrite Forall_forall in Hall. apply (Hall (k', k')). by apply (list_elem_of_fmap_2 (fun k => (k, k))).
Qed.

Lemma insert_keys_known ot (ks : list xml_object_key) acc :
  Forall (of_type ot) ks -> Forall (fun kv => of_type ot (fst kv)) acc -> map_sorted id_ltb acc ->
  Forall (fun k => (k, k) ∈ acc) ks -> fold_left insert_key ks acc = acc.
Proof.
  intros Hks Hacc Hs. revert Hks. induction ks as [|k ks IH]; cbn; [done|]. intros Hks Hin.
  inversion Hks; subst. inversion Hin as [|? ? Hk Hin']; subst. unfold insert_key at 2. rewrite (map_find_same ot) by done.
  apply (map_find_elem ot) in Hk; [|done..]. rewrite Hk. by apply IH.
Qed.

Lemma fold_keys ot i (l : list xml_object_key) acc :
  Forall (of_type ot) l ->
  fold_left (fun m k => if (XmlKey.object_type k =? i)%Z then insert_key m k else m) l acc
  = if (ot =? i)%Z then fold_left insert_key l acc else acc.
Proof.
  intros Hl. revert acc. induction Hl as [|k l Hk Hl IH]; intros acc; cbn; [by destruct (ot =? i)%Z|].
  rewrite IH. unfold of_type in Hk. rewrite Hk. by destruct (ot =? i)%Z.
Qed.

Lemma map_sorted_keys {V} (m : list (xml_object_key * V)) :
  map_sorted id_ltb m -> map_sorted id_ltb (map (fun k => (k, k)) (map fst m)).
Proof.
  induction m as [|[k v] m IH]; cbn; [done|]. intros [Hall Hs]. split; [|by apply IH].
  rewrite !Forall_map. eapply Forall_impl; [exact Hall|]. done.
Qed.

Lemma keys_of_type_spec ot i s :
  Forall (fun kv => of_type ot (fst kv)) (objectDataRecords s) -> map_sorted id_ltb (objectDataRecords s) ->
  map fst (objectTemplates s) = map fst (objectDataRecords s) ->
  keys_of_type s i = if (ot =? i)%Z then map (fun k => (k, k)) (map fst (objectDataRecords s)) else [].
Proof.
  intros Ht Hs Hk. unfold keys_of_type. rewrite Hk. set (ks := map fst (objectDataRecords s)).
  assert (Hks : Forall (of_type ot) ks) by by apply Forall_map.
  rewrite (fold_keys ot) by by apply Forall_app. destruct (ot =? i)%Z; [|done]. rewrite fold_left_app.
  rewrite (insert_keys_fresh ot ks []); [|done|constructor|by apply map_sorted_keys|by apply Forall_true; constructor].
  cbn [app]. apply (insert_keys_known ot); [done|by apply Forall_map|by apply map_sorted_keys|].
  apply Forall_forall. intros k Hin. by apply (list_elem_of_fmap_2 (fun k => (k, k))).
Qed.

Lemma xml_object_key_eqb_eq a b : xml_object_key_eqb a b = true <-> a = b.
Proof.
  unfold xml_object_key_eqb. rewrite andb_true_iff, !Z.eqb_eq. destruct a as [t x], b as [t' y]. cbn. split.
  - intros [-> E]. by rewrite (compare_eq _ _ E).
  - intros [= -> ->]. by rewrite compare_refl.
Qed.

(** Only the entry of the key contributes. *)
Lemma flat_map_key {V B} (f : xml_object_key -> V -> list B) k v (m : list (xml_object_key * V)) :
  map_sorted id_ltb m -> (k, v) ∈ m ->
  flat_map (fun kv => if xml_object_key_eqb (fst kv) k then f (fst kv) (snd kv) else []) m = f k v.
Proof.
  assert (Hno : forall m, Forall (fun kv => id_ltb k (fst kv) = true \/ id_ltb (fst kv) k = true) m ->
    flat_map (fun kv => if xml_object_key_eqb (fst kv) k then f (fst kv) (snd kv) else []) m = []).
  { induction 1 as [|[k' v'] m' Hlt Hm IH]; [done|]. cbn in *. rewrite IH, app_nil_r.
    destruct (xml_object_key_eqb k' k) eqn:E; [|done]. apply xml_object_key_eqb_eq in E as ->.
    rewrite swo_irrefl in Hlt. by destruct Hlt. }
  induction m as [|[k' v'] m IH]; cbn; [by rewrite elem_of_nil|]. intros [Hall Hs] Hin.
  apply elem_of_cons in Hin as [[= -> ->]|Hin].
  - rewrite (proj2 (xml_object_key_eqb_eq k' k') eq_refl), Hno, app_nil_r; [done|].
    eapply Forall_impl; [exact Hall|]. by left.
  - rewrite Forall_forall in Hall. pose proof (Hall _ Hin) as Hlt. cbn in Hlt.
    destruct (xml_object_key_eqb k' k) eqn:E; [|by apply IH]. apply xml_object_key_eqb_eq in E as ->.
    by rewrite swo_irrefl in Hlt.
Qed.

(** *** The document of a message that was split. *)
Record well_split (m : ipap_message) (ot : Z) (s : splitter) : Prop := {
  ws_sorted : map_sorted id_ltb (objectDataRecords s);
  ws_all : concat (map snd (objectDataRecords s)) ≡ₚ im_records m;
  ws_keys : map fst (objectTemplates s) = map fst (objectDataRecords s);
  ws_records : forall k recs, (k, recs) ∈ objectDataRecords s -> of_type ot k /\ recs <> [] /\ recs = class m k (im_records m);
  ws_templates : forall k c, (k, c) ∈ objectTemplates s -> holds_templates m (class m k (im_records m)) c;
  ws_rest : forall id t, ct_get id (templates s) = Some t <->
    id ∈ im_template_list m /\ ¬ (id ∈ map r_template_id (im_records m)) /\ im_get_template m id = Some t }.

Definition object_nodes (m : ipap_message) (l : list ipap_data_record) : list xml_node :=
  record_nodes (of_kind m setid_template l) ++ record_nodes (of_kind m optns_template l).

Lemma Forall_keys {A B} (P : xml_object_key -> Prop) (l : list (xml_object_key * A)) (l' : list (xml_object_key * B)) :
  map fst l = map fst l' -> Forall (fun kv => P (fst kv)) l' -> Forall (fun kv => P (fst kv)) l.
Proof. intros E Hl. apply (Forall_map fst P) in Hl. apply (Forall_map fst P). by rewrite E. Qed.

Lemma map_sorted_same {A B} (l : list (xml_object_key * A)) (l' : list (xml_object_key * B)) :
  map fst l = map fst l' -> map_sorted id_ltb l' -> map_sorted id_ltb l.
Proof.
  revert l'. induction l as [|[k v] l IH]; intros [|[k' v'] l'] E; try done. injection E as -> E. intros [Ha Hs]. split; [|by eapply IH].
  by eapply (Forall_keys (fun x => id_ltb k' x = true)).
Qed.

Lemma ws_types m ot s : well_split m ot s ->
  Forall (fun kv => of_type ot (fst kv)) (objectDataRecords s) /\ Forall (fun kv => of_type ot (fst kv)) (objectTemplates s).
Proof.
  intros W. assert (Hd : Forall (fun kv => of_type ot (fst kv)) (objectDataRecords s)).
  { apply Forall_forall. intros [k recs] Hin. by apply (ws_records _ _ _ W) in Hin as [? _]. }
  split; [done|]. eapply (Forall_keys (of_type ot)); [apply W|done].
Qed.

(** The templates of an object are found by its key. *)
Lemma ws_container m ot s k recs : well_split m ot s -> (k, recs) ∈ objectDataRecords s ->
  exists c, map_find xml_object_key_ltb k (objectTemplates s) = Some c /\ (k, c) ∈ objectTemplates s
    /\ holds_templates m recs c.
Proof.
  intros W Hin. destruct (ws_types _ _ _ W) as [_ T2]. destruct (ws_records _ _ _ W _ _ Hin) as (Hot & _ & ->).
  assert (Hk : k ∈ map fst (objectTemplates s)).
  { rewrite (ws_keys _ _ _ W). by apply (list_elem_of_fmap_2 fst) in Hin. }
  apply list_elem_of_fmap in Hk as ([k' c] & -> & Hc). cbn in *. exists c. split_and!; [|done|by apply (ws_templates _ _ _ W)].
  rewrite (map_find_same ot) by done. apply (map_find_elem ot); try done.
  by eapply map_sorted_same; [apply W|apply W].
Qed.

Lemma writes_records_of m ot s kind name k recs :
  well_split m ot s -> name = "FIELD"%string -> Forall (complete m) (im_records m) -> (k, recs) ∈ objectDataRecords s ->
  emits (printRecords kind name s k) tt (flat_map events (record_nodes (of_kind m kind recs))).
Proof.
  intros W Hn Hm Hin. destruct (ws_container _ _ _ _ _ W Hin) as (c & Hc & _ & Ht).
  rewrite <- (flat_map_key (fun _ l => flat_map events (record_nodes (of_kind m kind l))) k recs _ (ws_sorted _ _ _ W) Hin).
  apply emits_iter, Forall_forall. intros [k' l] Hin'. cbn [fst snd].
  destruct (xml_object_key_eqb k' k) eqn:E; [|apply writes_ret]. apply xml_object_key_eqb_eq in E as ->.
  destruct (ws_records _ _ _ W _ _ Hin) as (_ & _ & Hr). destruct (ws_records _ _ _ W _ _ Hin') as (_ & _ & Hr').
  rewrite <- Hr in Hr'. subst l. eapply emits_records; [done|exact Hc|]. apply Forall_forall. intros r Hrin.
  assert (Hall : r ∈ im_records m) by (rewrite Hr in Hrin; unfold class in Hrin; by apply list_elem_of_filter in Hrin as [_ ?]).
  rewrite Forall_forall in Hm. destruct (Hm r Hall) as (t & Et & Hf). exists t. split_and!; [|done|done].
  apply Ht. split; [by exists r|done].
Qed.

Lemma emits_writeRecords m ot s :
  well_split m ot s -> Forall (complete m) (im_records m) ->
  emits (writeRecords s (map (fun k => (k, k)) (map fst (objectDataRecords s)))) tt
    (flat_map events (flat_map (fun kv => object_nodes m (snd kv)) (objectDataRecords s))).
Proof.
  intros W Hm. unfold writeRecords.
  assert (Hin : forall kv, kv ∈ objectDataRecords s -> kv ∈ objectDataRecords s) by done. revert Hin.
  generalize (objectDataRecords s) at 1 3 4. induction l as [|[k recs] l IH]; intros Hin; [apply writes_ret|].
  cbn [map fst snd iterM flat_map]. rewrite flat_map_app. eapply writes_bind.
  - unfold object_nodes. rewrite flat_map_app.
    eapply writes_bind; eapply writes_records_of; try done; apply Hin, list_elem_of_here.
  - apply IH. intros kv Hkv. by apply Hin, list_elem_of_further.
Qed.

(** *** The templates of the objects. *)
Definition used_ok (m : ipap_message) (l : list (Z * ipap_template)) : Prop :=
  map_sorted Z.ltb l /\ forall id t, map_find Z.ltb id l = Some t -> im_get_template m id = Some t.

Lemma add_templates_spec m c ids acc :
  (forall id t, ct_get id c = Some t -> im_get_template m id = Some t /\ is_u16 id) ->
  Forall (fun id => is_Some (ct_get id c)) ids -> used_ok m acc ->
  exists l, add_templates c ids acc = Normal l /\ used_ok m l
    /\ forall id, is_Some (map_find Z.ltb id l) <-> id ∈ ids \/ is_Some (map_find Z.ltb id acc).
Proof.
  intros Hc Hids. revert acc. induction Hids as [|id ids [t Ht] Hids IH]; intros acc Hacc; cbn [add_templates].
  - exists acc. split_and!; [done..|]. intros id. rewrite elem_of_nil. naive_solver.
  - rewrite Ht. cbn [of_ipap obind]. destruct (Hc _ _ Ht) as [Hm Hid]. rewrite u16_small by done.
    destruct (IH (map_set Z.ltb id t acc)) as (l & E & Hl & Hin).
    { destruct Hacc as [Hs Hf]. split; [by apply map_set_sorted|]. intros id' t'. rewrite map_find_set_z.
      case_decide as Ed; [intros [= <-]; by subst|apply Hf]. }
    exists l. split_and!; [done..|]. intros id'. rewrite Hin, map_find_set_z, elem_of_cons.
    case_decide as Ed; [split; intros _; [by left; left|right; eauto]|]. naive_solver.
Qed.

Lemma used_templates_spec m l acc :
  Forall (fun kc => forall id t, ct_get id (snd kc) = Some t -> im_get_template m id = Some t /\ is_u16 id) l ->
  used_ok m acc ->
  exists res, used_templates l acc = Normal res /\ used_ok m res
    /\ forall id, is_Some (map_find Z.ltb id res) <->
         (exists k c, (k, c) ∈ l /\ is_Some (ct_get id c)) \/ is_Some (map_find Z.ltb id acc).
Proof.
  intros Hl. revert acc. induction Hl as [|[k c] l Hc Hl IH]; intros acc Hacc; cbn [used_templates].
  - exists acc. split_and!; [done..|]. intros id. split; [by right|]. intros [(k & c & Hin & _)|?]; [by apply elem_of_nil in Hin|done].
  - cbn in Hc. destruct (add_templates_spec m c (ct_list c) acc Hc) as (acc' & E & Hacc' & Hin'); [|done|].
    { apply Forall_forall. intros id. apply ct_list_spec. }
    rewrite E. cbn [obind]. destruct (IH acc' Hacc') as (res & E' & Hres & Hin). exists res. split_and!; [done..|].
    intros id. rewrite Hin, Hin', ct_list_spec. setoid_rewrite elem_of_cons. naive_solver.
Qed.

(** The templates of a document, in its order. *)
Definition not_related (s : splitter) : list ipap_template := omap (fun id => ct_get id (templates s)) (ct_list (templates s)).
Definition related (s : splitter) : list ipap_template :=
  match used_templates (objectTemplates s) [] with Normal l => map snd l | _ => [] end.

Lemma emits_templates (l : list ipap_template) : emits (iterM writeTemplate l) tt (flat_map events (map template_node l)).
Proof. rewrite flat_map_events_map. apply emits_iter, Forall_true, emits_template. Qed.

Lemma emits_not_related s : emits (writeNotRelatedTemplates s) tt (flat_map events (map template_node (not_related s))).
Proof.
  unfold writeNotRelatedTemplates, not_related.
  assert (Hin : Forall (fun id => is_Some (ct_get id (templates s))) (ct_list (templates s))).
  { apply Forall_forall. intros id. apply ct_list_spec. }
  induction Hin as [|id l [t Ht] Hl IH]; [apply writes_ret|]. cbn [iterM omap list_omap]. rewrite Ht. cbn [map flat_map].
  eapply writes_bind; [|exact IH]. eapply (writes_bind _ _ _ _ []); [apply emits_lift|apply emits_template].
Qed.

Lemma iterM_snd (l : list (Z * ipap_template)) w : iterM (fun '(_, t) => writeTemplate t) l w = iterM writeTemplate (map snd l) w.
Proof.
  revert w. induction l as [|[k t] l IH]; intros w; [done|]. cbn [iterM map snd]. unfold bind. by destruct (writeTemplate t w) as [[] ?].
Qed.

(** The templates of a split message all have IDs of 16 bits. *)
Definition small_ids (m : ipap_message) : Prop := forall id t, im_get_template m id = Some t -> is_u16 id.

Lemma related_spec m ot s : well_split m ot s -> small_ids m ->
  exists l, used_templates (objectTemplates s) [] = Normal l /\ related s = map snd l /\ used_ok m l
    /\ forall id, is_Some (map_find Z.ltb id l) <-> exists r, r ∈ im_records m /\ r_template_id r = id /\ is_Some (im_get_template m id).
Proof.
  intros W Hs. destruct (used_templates_spec m (objectTemplates s) []) as (l & E & Hl & Hin).
  { apply Forall_forall. intros [k c] Hkc id t Ht. cbn in Ht. apply (ws_templates _ _ _ W _ _ Hkc) in Ht as [_ Ht].
    split; [done|by eapply Hs]. }
  { split; [done|]. intros id t. done. }
  exists l. split_and!; [done|unfold related; by rewrite E|done|]. intros id. rewrite Hin. split.
  - intros [(k & c & Hkc & t & Ht)|[? [=]]]. apply (ws_templates _ _ _ W _ _ Hkc) in Ht as [(r & Hr & Hid) Ht].
    exists r. split_and!; [|done|by exists t]. by apply list_elem_of_filter in Hr as [_ ?].
  - intros (r & Hr & <- & t & Ht). left. rewrite <- (ws_all _ _ _ W) in Hr. apply list_elem_of_In, in_concat in Hr as (recs & Hrecs & Hr).
    apply list_elem_of_In in Hrecs, Hr. apply list_elem_of_fmap in Hrecs as ([k recs'] & -> & Hk). destruct (ws_container _ _ _ _ _ W Hk) as (c & _ & Hkc & Hc).
    exists k, c. split; [done|]. exists t. apply Hc. split; [by exists r|done].
Qed.

Definition body (m : ipap_message) (s : splitter) : list xml_node :=
  map template_node (related s) ++ flat_map (fun kv => object_nodes m (snd kv)) (objectDataRecords s).

Lemma emits_object_type m ot s i : well_split m ot s -> small_ids m -> Forall (complete m) (im_records m) ->
  emits (writeObjectTypeData s i) tt (if (ot =? i)%Z then flat_map events (body m s) else []).
Proof.
  intros W Hs Hm. unfold writeObjectTypeData. destruct (ws_types _ _ _ W) as [T1 _].
  rewrite (keys_of_type_spec ot) by (done || apply W). destruct (ot =? i)%Z; [|apply writes_ret]. rewrite !length_map.
  destruct (related_spec _ _ _ W Hs) as (l & E & R & _). destruct (Nat.ltb_spec 0 (length (objectDataRecords s))) as [Hlt|Hge].
  - unfold body. rewrite flat_map_app. eapply writes_bind; [|by eapply emits_writeRecords]. rewrite R.
    intros w Hw. unfold writeTemplates. rewrite E. unfold bind, lift_outcome. rewrite iterM_snd. by apply emits_templates.
  - unfold body. rewrite R. pose proof (ws_keys _ _ _ W) as Ek. destruct (objectDataRecords s); [|cbn in Hge; lia].
    apply map_eq_nil in Ek. rewrite Ek in E. injection E as <-. apply writes_ret.
Qed.

Lemma flat_map_one {A} ot (x : list A) n : (0 <= ot < Z.of_nat n)%Z ->
  flat_map (fun i => if (ot =? Z.of_nat i)%Z then x else []) (seq 0 n) = x.
Proof.
  intros Hot. assert (Hno : forall a k, (ot < Z.of_nat a)%Z -> flat_map (fun i => if (ot =? Z.of_nat i)%Z then x else []) (seq a k) = []).
  { intros a k. revert a. induction k as [|k IH]; intros a Ha; [done|]. cbn. destruct (Z.eqb_spec ot (Z.of_nat a)); [lia|].
    apply IH. lia. }
  enough (forall a k, (Z.of_nat a <= ot < Z.of_nat (a + k))%Z ->
    flat_map (fun i => if (ot =? Z.of_nat i)%Z then x else []) (seq a k) = x) as G by (apply G; lia).
  intros a k. revert a. induction k as [|k IH]; intros a Ha; [lia|]. cbn. destruct (Z.eqb_spec ot (Z.of_nat a)).
  - rewrite Hno by lia. apply app_nil_r.
  - apply IH. lia.
Qed.

Definition document (m : ipap_message) (s : splitter) : xml_node :=
  Element IPAP_XML_ROOT [("LAST_TEMPLATE_ID", print_u (im_last_template_id m)); ("DOMAIN_ID", print_d (im_domain m));
    ("VERSION", print_d (im_version m)); ("EXPORT_TIME", print_lu (im_exporttime m)); ("SEQ_NO", print_lu (im_seqno m));
    ("ACK_SEQ_NO", print_lu (im_ackseqno m))] (map template_node (not_related s) ++ body m s).

Lemma emits_message m ot s : well_split m ot s -> small_ids m -> Forall (complete m) (im_records m) ->
  (0 <= ot < Z.of_nat IPAP_MAX_OBJECT_TYPE)%Z -> emits (write_message m s) tt (events (document m s)).
Proof.
  intros W Hs Hm Hot. unfold write_message, document. rewrite events_element. cbn [map fst snd app].
  eapply (writes_bind _ _ _ _ [_]); [apply emits_start|]. do 6 (eapply (writes_bind _ _ _ _ [_]); [apply emits_attribute|]).
  rewrite flat_map_app, <- app_assoc. eapply writes_bind; [apply emits_not_related|]. eapply writes_bind; [|apply emits_close].
  rewrite <- (flat_map_one ot (flat_map events (body m s)) IPAP_MAX_OBJECT_TYPE Hot). apply emits_iter, Forall_true.
  intros i. by apply emits_object_type.
Qed.

(** *** Trees are written one call after the other. *)
Lemma depth_app l l' : depth (l ++ l') = (depth l + depth l')%Z.
Proof. unfold depth. induction l as [|e l IH]; [done|]. cbn. rewrite IH. destruct e; lia. Qed.

Fixpoint xml_node_ind' (P : xml_node -> Prop) (He : forall name ps l, Forall P l -> P (Element name ps l))
  (Ht : forall t, P (Text t)) (n : xml_node) : P n :=
  match n with
  | Element name ps l =>
      He name ps l ((fix go l := match l return Forall P l with
                                 | [] => Forall_nil_2 P
                                 | n :: l => Forall_cons_2 P n l (xml_node_ind' P He Ht n) (go l)
                                 end) l)
  | Text t => Ht t
  end.

Lemma legal_attributes l ps :
  (exists name, last l = Some (Start_element name)) \/ (exists n v, last l = Some (Attribute n v)) ->
  legal l (map (fun p => Attribute (fst p) (snd p)) ps) = true.
Proof.
  revert l. induction ps as [|[a v] ps IH]; intros l Hl; [done|]. cbn [map legal fst snd]. rewrite IH.
  - unfold allowed. by destruct Hl as [(x & ->)|(x & y & ->)].
  - right. exists a, v. apply last_snoc.
Qed.

Lemma depth_attributes ps : depth (map (fun p => Attribute (fst p) (snd p)) ps) = 0%Z.
Proof. unfold depth. induction ps as [|p ps IH]; [done|]. cbn. by rewrite IH. Qed.

Lemma legal_events n l : (match n with Element _ _ _ => True | Text _ => 0 < depth l end)%Z -> l <> [] -> (0 <= depth l)%Z ->
  legal l (events n) = true /\ depth (events n) = 0%Z.
Proof.
  revert l. induction n as [name ps ns IH|t] using xml_node_ind'; intros l Hn Hl Hd.
  - rewrite events_element. cbn [legal]. rewrite !legal_app.
    assert (Hc : forall l', l' <> [] -> (0 < depth l')%Z -> legal l' (flat_map events ns) = true /\ depth (flat_map events ns) = 0%Z).
    { clear -IH. induction IH as [|n ns Hn Hns IH']; intros l' Hl' Hd'; [done|]. cbn [flat_map]. rewrite legal_app, depth_app.
      destruct (Hn l') as [L D]; [by destruct n|done|lia|]. rewrite L, D. destruct (IH' (l' ++ events n)) as [L' D'].
      + by destruct l'.
      + rewrite depth_app. lia.
      + rewrite L', D'. done. }
    set (l1 := (l ++ [Start_element name]) ++ map (fun p => Attribute (fst p) (snd p)) ps).
    assert (D1 : depth l1 = (depth l + 1)%Z) by (unfold l1; rewrite !depth_app, depth_attributes; cbn; lia).
    destruct (Hc l1) as [L2 D2]; [unfold l1; by destruct l|lia|]. rewrite L2.
    assert (L0 : allowed l (Start_element name) = true).
    { unfold allowed. destruct (last l) eqn:E; [done|]. by apply last_None in E. }
    rewrite L0, legal_attributes by (left; exists name; apply last_snoc). cbn [andb legal allowed]. split.
    + rewrite andb_true_r. apply Z.ltb_lt. rewrite depth_app. lia.
    + cbn [depth foldr]. fold (depth (map (fun p => Attribute (fst p) (snd p)) ps ++ flat_map events ns ++ [End_element])).
      rewrite !depth_app, depth_attributes, D2. done.
  - cbn. split; [|done]. rewrite andb_true_r. by apply Z.ltb_lt.
Qed.

Lemma writer_ready : exists w, createXmlMessage = Normal w /\ written w = prologue.
Proof.
  destruct buffer_created as (b & w0 & E1 & E2 & E3). unfold createXmlMessage, start_document. rewrite E1, E2.
  assert (Hp : emits (checked xmlTextWriterStartDocument "Error at xmlTextWriterStartDocument" ;;;
      checked (xmlTextWriterStartDTD IPAP_XML_ROOT DTD_NAME) "Error at xmlTextWriterStartDocument" ;;;
      checked xmlTextWriterEndDTD "Error at xmlTextWriterStartDocument") tt prologue).
  { eapply (writes_bind _ _ _ _ [_]); [exact (emits_call Start_document _)|].
    eapply (writes_bind _ _ _ _ [_]); [exact (emits_call (Start_dtd _ _) _)|exact (emits_call End_dtd _)]. }
  destruct (Hp w0) as (w & E & W); [by rewrite E3|]. rewrite E3 in W. exists w. by rewrite E.
Qed.

Lemma get_message_writes m ot s : split m new_splitter = Normal s -> well_split m ot s -> small_ids m ->
  Forall (complete m) (im_records m) -> (0 <= ot < Z.of_nat IPAP_MAX_OBJECT_TYPE)%Z ->
  exists w, get_message m new_splitter = Normal (xml_content w, s) /\ written w = prologue ++ events (document m s).
Proof.
  intros Es W Hs Hm Hot. unfold get_message. rewrite Es. cbn [obind]. destruct writer_ready as (w & -> & Hw). cbn [obind].
  destruct (emits_message m ot s W Hs Hm Hot w) as (w' & E & Hw').
  { rewrite Hw. by apply legal_events. }
  exists w'. rewrite E. split; [done|]. by rewrite Hw', Hw.
Qed.
End Writing.
