(* ===== verification/XmlRoundtrip.v ===== *)
(** * XML documents survive writing and reading

    [from_message] reads what [get_message] wrote: the numbers of the
    attributes, the templates, the records, the header. *)
From Stdlib Require Import Ascii.
From S2P Require Import Prelude Outcome StdMap External SessionId XmlKey Splitter XmlMessage XmlSpec.

(** ** Numbers. *)
Lemma int32_small z : (- 2 ^ 31 <= z < 2 ^ 31)%Z -> int32 z = z.
Proof. intros Hz. unfold int32. rewrite Z.mod_small; lia. Qed.

Lemma decimal_nonneg z : (0 <= z < 10 ^ 20)%Z ->
  exists d ds, decimal z = digit d :: ds /\ decimal_go 20 z [] = digit d :: ds /\ (0 <= d < 10)%Z /\ Forall is_decimal ds
    /\ decimal_value (digit d :: ds) 0 = z /\ (d = 0%Z -> z = 0%Z /\ ds = []).
Proof.
  intros Hz. destruct (decimal_go_spec 20 20 z [] Hz) as (d & ds & E & Hd & Hds & Hv & H0 & _); [lia|].
  rewrite app_nil_r in E. exists d, ds. unfold decimal. by rewrite (proj2 (Z.ltb_ge z 0)) by lia.
Qed.

Lemma plain_digits ds : Forall is_decimal ds -> plain ds = true.
Proof.
  induction 1 as [|c ds (d & Hd & ->) Hds IH]; [done|]. cbn [plain forallb]. fold (plain ds). rewrite IH, andb_true_r.
  pattern d. by apply digit_cases.
Qed.

Lemma plain_decimal z : (- 10 ^ 20 < z < 10 ^ 20)%Z -> plain (decimal z) = true.
Proof.
  intros Hz. destruct (Z.ltb_spec z 0) as [Hn|Hn].
  - destruct (decimal_nonneg (- z)) as (d & ds & _ & E & Hd & Hds & _); [lia|]. unfold decimal.
    rewrite (proj2 (Z.ltb_lt z 0)), E by done. change (plain (?c :: ?l)) with (true && plain l).
    apply (plain_digits (_ :: _)). constructor; [by exists d|done].
  - destruct (decimal_nonneg z) as (d & ds & E & _ & Hd & Hds & _); [lia|]. rewrite E.
    apply (plain_digits (_ :: _)). constructor; [by exists d|done].
Qed.

Lemma plain_print_u z : plain (print_u z) = true.
Proof. apply plain_decimal. pose proof (u32_range z). unfold is_u32 in *. lia. Qed.
Lemma plain_print_d z : plain (print_d z) = true.
Proof. apply plain_decimal. unfold int32. pose proof (Z.mod_pos_bound (z + 2 ^ 31) (2 ^ 32) eq_refl). lia. Qed.
Lemma plain_print_lu z : plain (print_lu z) = true.
Proof. apply plain_decimal. pose proof (Z.mod_pos_bound z (2 ^ 64) eq_refl). lia. Qed.

(** [strtoimax] reads what was printed. *)
Lemma strtoimax_decimal z : (- 2 ^ 63 <= z < 2 ^ 63)%Z -> strtoimax (decimal z) = (z, []).
Proof.
  intros Hz.
  assert (Hdig : forall n, (0 <= n < 10 ^ 20)%Z -> exists d ds, decimal_go 20 n [] = digit d :: ds /\ (0 <= d < 10)%Z
    /\ starts_with_digit 10 (digit d :: ds) = true /\ digits_go 10 0 (digit d :: ds) = (n, [])).
  { intros n Hn. destruct (decimal_nonneg n Hn) as (d & ds & _ & E & Hd & Hds & Hv & _). exists d, ds. split_and!; [done|lia|lia|..].
    - unfold starts_with_digit. rewrite digit_value_digit by done. apply Z.ltb_lt. lia.
    - rewrite digits_go_decimal, Hv by (constructor; [by exists d|done]). done. }
  unfold decimal. destruct (Z.ltb_spec z 0) as [Hn|Hn].
  - destruct (Hdig (- z)%Z) as (d & ds & -> & Hd & S1 & G); [lia|]. unfold strtoimax.
    change (skip_spaces ("-"%char :: ?l)) with ("-"%char :: l). cbn iota beta. change (Ascii.eqb "-" "-") with true. cbn iota beta.
    rewrite S1, G. f_equal. lia.
  - destruct (Hdig z) as (d & ds & -> & Hd & S1 & G); [lia|]. destruct (digit_plain d Hd) as (P1 & P2 & P3 & _).
    unfold strtoimax. cbn [skip_spaces]. rewrite P1. cbn iota beta. rewrite P2, P3, S1, G. f_equal. lia.
Qed.

Lemma atoi_decimal z : (- 2 ^ 63 <= z < 2 ^ 63)%Z -> atoi (decimal z) = int32 z.
Proof. intros Hz. unfold atoi. by rewrite strtoimax_decimal. Qed.

Lemma atoi_print_d z : (- 2 ^ 31 <= z < 2 ^ 31)%Z -> atoi (print_d z) = z.
Proof. intros Hz. unfold print_d. rewrite int32_small, atoi_decimal by lia. by apply int32_small. Qed.

Lemma atoi_print_u z : (0 <= z < 2 ^ 31)%Z -> atoi (print_u z) = z.
Proof.
  intros Hz. unfold print_u. rewrite u32_small by (unfold is_u32; lia). rewrite atoi_decimal by lia. apply int32_small. lia.
Qed.

Lemma atoi_print_lu z : is_u32 z -> u32 (atoi (print_lu z)) = z.
Proof.
  unfold is_u32. intros Hz. unfold print_lu. rewrite Z.mod_small, atoi_decimal by lia. unfold int32, u32.
  destruct (Z.ltb_spec z (2 ^ 31)).
  - rewrite (Z.mod_small (z + _)) by lia. rewrite Z.mod_small; lia.
  - replace (z + 2 ^ 31)%Z with (z - 2 ^ 31 + 1 * 2 ^ 32)%Z by lia. rewrite Z_mod_plus_full, (Z.mod_small (z - _)) by lia.
    replace (z - 2 ^ 31 - 2 ^ 31)%Z with (z + (-1) * 2 ^ 32)%Z by lia. rewrite Z_mod_plus_full. apply Z.mod_small. lia.
Qed.

Lemma uint16_print_u z : is_u16 z -> str_to_uint16 (print_u z) = Some z.
Proof.
  unfold is_u16. intros Hz. unfold print_u. rewrite u32_small by (unfold is_u32; lia). unfold str_to_uint16.
  destruct (decimal_nonneg z) as (d & ds & E & _); [lia|]. rewrite strtoimax_decimal by lia. rewrite E.
  destruct (Z.ltb_spec z 0); [lia|]. destruct (Z.ltb_spec 65535 z); [lia|]. done.
Qed.

Lemma strtoul_print_d z : (0 <= z < 2 ^ 31)%Z -> fst (strtoul (print_d z)) = z.
Proof.
  intros Hz. assert (E : print_d z = snprintf_lu 11 z).
  { unfold print_d, snprintf_lu, decimal. rewrite int32_small by lia. rewrite (proj2 (Z.ltb_ge z 0)) by lia.
    destruct (decimal_go_spec 20 10 z []) as (d & ds & -> & _ & _ & _ & _ & Hl); [lia..|].
    rewrite app_nil_r, take_ge; [done|]. cbn in *. lia. }
  rewrite E, strtoul_snprintf; [done|]. unfold is_u32. lia.
Qed.

(** ** Reading. *)
Section Reading.
Context `{Ipap} `{!IpapLaws} `{!IpapBuildLaws} `{!Xml} `{!XmlLaws}.
Context (garbage : Z) (garbage_field : Z * Z * Z).

(** Fields and templates whose numbers fit the variables they are read into. *)
Definition field_ok (f : ipap_field) : Prop :=
  (0 <= f_eno f < 2 ^ 31)%Z /\ is_u16 (f_ftype f) /\ is_u16 (f_length f)
  /\ plain (f_name f) = true /\ plain (f_xml_name f) = true.
Definition template_ok (t : ipap_template) : Prop :=
  is_u16 (t_id t) /\ (0 <= t_type t < 2 ^ 31)%Z /\ (0 < Z.of_nat (length (t_fields t)) < 2 ^ 31)%Z
  /\ Forall field_ok (t_fields t).

(** The value of a field is printed as a text that can be read. *)
Definition value_ok (t : ipap_template) (kv : (Z * Z) * ipap_value) : Prop :=
  exists f, t_get_field (fst (fst kv)) (snd (fst kv)) t = Some f /\ f_write f (snd kv) <> []
    /\ plain (f_write f (snd kv)) = true /\ f_parse f (f_write f (snd kv)) = Some (snd kv).

Lemma prop_find name n ps l : prop name (Element n ps l) = default [] (find_prop name ps).
Proof. unfold prop, xmlCharToString. by rewrite xmlGetProp_finds. Qed.

Ltac find_props := rewrite !prop_find; cbn [find_prop String.eqb Ascii.eqb Bool.eqb from_option id].

Definition element (n : xml_node) : bool := match n with Element _ _ _ => true | Text _ => false end.

Lemma normal_children name ps l :
  Forall (fun n => element n = true) l -> normal (Element name ps l) = Element name ps (map normal l).
Proof. intros Hl. cbn. f_equal. induction Hl as [|[] l Hn Hl IH]; [done| |done]. cbn. by rewrite IH. Qed.

Lemma element_map {A} (f : A -> xml_node) l : (forall a, element (f a) = true) -> Forall (fun n => element n = true) (map f l).
Proof. intros Hf. apply Forall_map, Forall_true, Hf. Qed.

Lemma normal_template t : normal (template_node t) = Element "TEMPLATE" [("ID", print_u (t_id t)); ("TYPE", print_u (t_type t));
    ("NUM_FIELDS", print_u (Z.of_nat (length (t_fields t))))] (map normal (map tfield_node (t_fields t))).
Proof. unfold template_node. by rewrite normal_children by by apply element_map. Qed.

Lemma read_template_fields fs ds :
  Forall field_ok fs ->
  ReadTemplateFields (map normal (map tfield_node fs)) (length ds) (map field_spec ds ++ replicate (length fs) garbage_field)
  = Normal (map field_spec (ds ++ fs)).
Proof.
  intros Hfs. revert ds. induction Hfs as [|f fs (A1 & A2 & A3 & _) Hfs IH]; intros ds; [by rewrite !app_nil_r|].
  cbn [map normal tfield_node ReadTemplateFields node_name]. change (String.eqb "TFIELD" "TFIELD") with true. cbn iota.
  find_props. rewrite !strtoul_print_d by (unfold is_u16 in *; lia).
  cbn [length replicate]. rewrite length_app, length_map. cbn [length]. rewrite length_replicate.
  destruct (Nat.ltb_spec (length ds) (length ds + S (length fs))); [|lia].
  rewrite u32_small, !u16_small by (done || (unfold is_u32; lia)).
  rewrite insert_app_r_alt by (rewrite length_map; lia). rewrite length_map, Nat.sub_diag. cbn [insert list_insert].
  specialize (IH (ds ++ [f])). rewrite length_app, map_app, <- !app_assoc in IH. cbn [length map app] in IH.
  rewrite Nat.add_1_r in IH. unfold field_spec at 2 in IH. by rewrite IH.
Qed.

(** A template is read and made. *)
Lemma read_template t rest msg : template_ok t -> im_get_template msg (t_id t) = None ->
  exists msg', read_templates garbage garbage_field (normal (template_node t) :: rest) msg
      = read_templates garbage garbage_field rest msg'
    /\ im_header msg' = im_header msg /\ im_records msg' = im_records msg
    /\ forall id, im_get_template msg' id = if decide (id = t_id t) then Some t else im_get_template msg id.
Proof.
  intros (A1 & A2 & A3 & A4) Hn. destruct (im_make_template_spec t msg Hn) as (msg' & E & Hm'). exists msg'. split; [|done].
  rewrite normal_template. cbn [read_templates node_name node_children]. change (String.eqb "TEMPLATE" "TEMPLATE") with true. cbn iota.
  find_props. rewrite uint16_print_u, !atoi_print_u by (done || lia).
  destruct (Z.leb_spec (Z.of_nat (length (t_fields t))) 0); [lia|]. rewrite Nat2Z.id.
  pose proof (read_template_fields (t_fields t) [] A4) as Er. cbn [length map app] in Er. rewrite Er. cbn [obind from_option]. unfold id.
  by rewrite E.
Qed.

Lemma read_all_templates ts rest msg : Forall template_ok ts -> NoDup (map t_id ts) ->
  Forall (fun t => im_get_template msg (t_id t) = None) ts ->
  exists msg', read_templates garbage garbage_field (map normal (map template_node ts) ++ rest) msg
      = read_templates garbage garbage_field rest msg'
    /\ im_header msg' = im_header msg /\ im_records msg' = im_records msg
    /\ (forall t, t ∈ ts -> im_get_template msg' (t_id t) = Some t)
    /\ (forall id, ¬ (id ∈ map t_id ts) -> im_get_template msg' id = im_get_template msg id).
Proof.
  intros Hts. revert msg. induction Hts as [|t ts Ht Hts IH]; intros msg Hnd Hn.
  - exists msg. split_and!; try done. intros t Ht. by apply elem_of_nil in Ht.
  - cbn [map] in Hnd. apply NoDup_cons in Hnd as [Hni Hnd]. apply Forall_cons in Hn as [Hn1 Hn].
    destruct (read_template t (map normal (map template_node ts) ++ rest) msg Ht Hn1) as (m1 & E1 & Hh1 & Hr1 & Hg1).
    destruct (IH m1 Hnd) as (m2 & E2 & Hh2 & Hr2 & Hg2 & Hg3).
    { apply Forall_forall. intros t' Ht'. rewrite Hg1, decide_False; [rewrite Forall_forall in Hn; by apply Hn|].
      intros E. apply Hni. rewrite <- E. by apply (list_elem_of_fmap_2 t_id). }
    exists m2. cbn [map app]. rewrite E1, E2. split_and!; [done|congruence|congruence|..].
    + intros t' Ht'. apply elem_of_cons in Ht' as [->|Ht']; [|by apply Hg2]. by rewrite Hg3, Hg1, decide_True by done.
    + intros id Hid. cbn [map] in Hid. rewrite elem_of_cons in Hid. rewrite Hg3, Hg1, decide_False by naive_solver. done.
Qed.

Lemma read_templates_skip l msg : Forall (fun n => node_name n = "DATARECORD"%string) l ->
  read_templates garbage garbage_field l msg = Normal msg.
Proof. induction 1 as [|n l Hn Hl IH]; [done|]. cbn [read_templates]. by rewrite Hn. Qed.

Lemma read_records_skip l rest msg : Forall (fun n => node_name n = "TEMPLATE"%string) l ->
  read_records garbage (l ++ rest) msg = read_records garbage rest msg.
Proof. induction 1 as [|n l Hn Hl IH]; [done|]. cbn [app read_records]. by rewrite Hn. Qed.

Lemma value_field t kv : value_ok t kv -> exists f, t_get_field (fst (fst kv)) (snd (fst kv)) t = Some f
  /\ normal (field_node t kv) = Element "FIELD" [("NAME", f_xml_name f); ("ENO", print_d (f_eno f)); ("FTYPE", print_d (f_ftype f))]
       [Text (f_write f (snd kv))]
  /\ f_eno f = fst (fst kv) /\ f_ftype f = snd (fst kv) /\ f ∈ t_fields t.
Proof.
  intros (f & Hf & Hne & _). exists f. split; [done|]. unfold field_node. rewrite Hf. split; [|by apply t_get_field_spec].
  cbn. by destruct (f_write f (snd kv)).
Qed.

Lemma read_fields_written t kvs data : template_ok t -> Forall (value_ok t) kvs ->
  read_fields (Some t) (map normal (map (field_node t) kvs)) data
  = Normal (fold_left (fun d kv => r_insert (fst (fst kv)) (snd (fst kv)) (snd kv) d) kvs data).
Proof.
  intros (_ & _ & _ & Hfs) Hkvs. revert data. induction Hkvs as [|kv kvs Hkv Hkvs IH]; intros data; [done|].
  destruct (value_field t kv Hkv) as (f & Hf & En & Ee & Et & Hin). destruct Hkv as (f' & Hf' & Hne & _ & Hp).
  rewrite Hf in Hf'. injection Hf' as <-. rewrite Forall_forall in Hfs. destruct (Hfs f Hin) as (A1 & A2 & _).
  cbn [map]. rewrite En. cbn [read_fields node_name node_children]. change (String.eqb "FIELD" "FIELD") with true. cbn iota.
  find_props. unfold id. rewrite !atoi_print_d, Ee, Et by (unfold is_u16 in *; lia). cbn [of_pointer obind]. rewrite Hf.
  cbn [of_ipap obind]. rewrite xmlNodeListGetString_text. cbn [xmlCharToString from_option id].
  destruct (f_write f (snd kv)) as [|c v] eqn:Ew; [done|]. unfold xmlCharToString. cbn [from_option id]. rewrite Hp. cbn [of_ipap obind]. apply IH.
Qed.

(** Records that can be written and read, with their templates. *)
Definition record_ok (tr : ipap_template * ipap_data_record) : Prop :=
  template_ok (fst tr) /\ r_template_id (snd tr) = t_id (fst tr) /\ Forall (value_ok (fst tr)) (r_fields (snd tr)).

Lemma record_written t r msg : record_ok (t, r) -> im_get_template msg (t_id t) = Some t ->
  exists msg', ReadRecords (normal (record_node t r)) (t_id t) msg = Normal msg'
    /\ im_header msg' = im_header msg /\ im_records msg' = im_records msg ++ [r]
    /\ forall id, im_get_template msg' id = im_get_template msg id.
Proof.
  intros (Ht & Hid & Hf) Hg. cbn [fst snd] in *. rewrite <- Hid in *. destruct (im_include_data_spec r t msg Hg) as (msg' & E & Hm').
  { eapply Forall_impl; [exact Hf|]. intros kv (f & E & _). by exists f. }
  exists msg'. split; [|done]. unfold ReadRecords, record_node. rewrite Hg.
  assert (Hel : Forall (fun n => element n = true) (map (field_node t) (r_fields r))).
  { apply Forall_map. eapply Forall_impl; [exact Hf|]. intros kv (f & E' & _). cbn. unfold field_node. by rewrite E'. }
  rewrite normal_children by done. cbn [node_children]. rewrite read_fields_written by done. cbn [obind].
  rewrite r_rebuild, E. done.
Qed.

Lemma read_all_records trs msg :
  Forall (fun tr => record_ok tr /\ im_get_template msg (t_id (fst tr)) = Some (fst tr)) trs ->
  exists msg', read_records garbage (map normal (record_nodes trs)) msg = Normal msg'
    /\ im_header msg' = im_header msg /\ im_records msg' = im_records msg ++ map snd trs
    /\ forall id, im_get_template msg' id = im_get_template msg id.
Proof.
  intros Htrs. revert msg Htrs. induction trs as [|[t r] trs IH]; intros msg Htrs.
  - exists msg. by rewrite app_nil_r.
  - apply Forall_cons in Htrs as [[Hok Hg] Htrs]. cbn [fst] in Hg. destruct (record_written t r msg Hok Hg) as (m1 & E1 & Hh1 & Hr1 & Hg1).
    destruct (IH m1) as (m2 & E2 & Hh2 & Hr2 & Hg2).
    { eapply Forall_impl; [exact Htrs|]. intros tr [? ?]. by rewrite Hg1. }
    exists m2. cbn [record_nodes map fst snd] in *. split_and!; [|congruence|rewrite Hr2, Hr1, <- app_assoc; done|intros id; by rewrite Hg2].
    destruct Hok as ((Hu & _) & Hid & _). cbn [fst snd] in *. unfold record_node at 1. cbn [normal read_records node_name].
    change (String.eqb "DATARECORD" "DATARECORD") with true. cbn iota. find_props.
    rewrite uint16_print_u by by rewrite Hid. cbn [from_option]. unfold id.
    change (Element "DATARECORD" _ _) with (normal (record_node t r)). rewrite Hid, E1. cbn [obind]. exact E2.
Qed.

(** ** The documents of messages whose objects are of one type. *)
Record printable (m : ipap_message) (ot : Z) : Prop := {
  p_types : splittable m ot;
  p_listed : forall id, id ∈ im_template_list m <-> is_Some (im_get_template m id);
  p_templates : forall id t, im_get_template m id = Some t -> template_ok t;
  p_records : Forall (fun r => exists t, im_get_template m (r_template_id r) = Some t
    /\ setid_template (t_type t) = negb (optns_template (t_type t)) /\ Forall (value_ok t) (r_fields r)) (im_records m);
  p_int : (- 2 ^ 31 <= im_domain m < 2 ^ 31)%Z /\ (- 2 ^ 31 <= im_version m < 2 ^ 31)%Z;
  p_u32 : is_u32 (im_exporttime m) /\ is_u32 (im_seqno m) /\ is_u32 (im_ackseqno m) }.

(** The records in the order of the document. *)
Definition of_object (m : ipap_message) (l : list ipap_data_record) : list (ipap_template * ipap_data_record) :=
  of_kind m setid_template l ++ of_kind m optns_template l.
Definition in_order (m : ipap_message) (s : splitter) : list (ipap_template * ipap_data_record) :=
  flat_map (fun kv => of_object m (snd kv)) (objectDataRecords s).

Lemma body_nodes m s : body m s = map template_node (related s) ++ record_nodes (in_order m s).
Proof.
  unfold body, in_order. f_equal. induction (objectDataRecords s) as [|kv l IH]; [done|]. cbn [flat_map].
  rewrite IH. unfold record_nodes, object_nodes, of_object, record_nodes. by rewrite !map_app.
Qed.

Lemma of_kind_in m kind l tr : tr ∈ of_kind m kind l -> snd tr ∈ l /\ im_get_template m (r_template_id (snd tr)) = Some (fst tr).
Proof.
  induction l as [|r l IH]; cbn [of_kind]; [by rewrite elem_of_nil|]. rewrite elem_of_cons.
  destruct (im_get_template m (r_template_id r)) as [t|] eqn:E; [|naive_solver].
  destruct (kind (t_type t)); [|naive_solver]. rewrite elem_of_cons. intros [->|?]; naive_solver.
Qed.

Lemma of_object_perm m l :
  Forall (fun r => exists t, im_get_template m (r_template_id r) = Some t
    /\ setid_template (t_type t) = negb (optns_template (t_type t))) l -> map snd (of_object m l) ≡ₚ l.
Proof.
  unfold of_object. induction 1 as [|r l (t & Ht & Hk) Hl IH]; [done|]. cbn [of_kind]. rewrite Ht, Hk.
  destruct (optns_template (t_type t)); cbn [negb]; rewrite ?map_app in *; cbn [map snd app]; [|by rewrite IH].
  rewrite <- Permutation_middle. by rewrite IH.
Qed.

Context (m : ipap_message) (ot : Z) (s : splitter) (Hp : printable m ot) (W : well_split m ot s).

Lemma printable_small : small_ids m.
Proof. intros id t Ht. pose proof (im_get_template_id _ _ _ Ht) as <-. by apply (p_templates _ _ Hp) in Ht as [? _]. Qed.

Lemma printable_complete : Forall (complete m) (im_records m).
Proof.
  eapply Forall_impl; [apply (p_records _ _ Hp)|]. intros r (t & Ht & _ & Hf). exists t. split; [done|].
  eapply Forall_impl; [exact Hf|]. intros kv (f & E & _). by exists f.
Qed.

Lemma split_record_in kv r : kv ∈ objectDataRecords s -> r ∈ snd kv -> r ∈ im_records m.
Proof.
  intros Hkv Hr. rewrite <- (ws_all _ _ _ W). apply list_elem_of_In, in_concat. exists (snd kv).
  split; apply list_elem_of_In; [by apply list_elem_of_fmap_2|done].
Qed.

Lemma in_order_perm : map snd (in_order m s) ≡ₚ im_records m.
Proof.
  rewrite <- (ws_all _ _ _ W). unfold in_order.
  assert (Hin : forall kv, kv ∈ objectDataRecords s -> map snd (of_object m (snd kv)) ≡ₚ snd kv).
  { intros kv Hkv. apply of_object_perm, Forall_forall. intros r Hr. pose proof (p_records _ _ Hp) as Hrec.
    rewrite Forall_forall in Hrec. destruct (Hrec r (split_record_in kv r Hkv Hr)) as (t & Ht & Hk & _). by exists t. }
  induction (objectDataRecords s) as [|kv l IH]; [done|]. cbn [flat_map map concat]. rewrite map_app. rewrite Hin by apply list_elem_of_here.
  apply Permutation_app_head, IH. intros kv' Hkv'. by apply Hin, list_elem_of_further.
Qed.

Lemma in_order_ok : Forall (fun tr => record_ok tr /\ im_get_template m (t_id (fst tr)) = Some (fst tr)) (in_order m s).
Proof.
  apply Forall_forall. intros tr Htr. unfold in_order in Htr. apply list_elem_of_In, in_flat_map in Htr as (kv & Hkv & Htr).
  apply list_elem_of_In in Hkv, Htr. assert (Hin : snd tr ∈ snd kv /\ im_get_template m (r_template_id (snd tr)) = Some (fst tr)).
  { apply elem_of_app in Htr as [Htr|Htr]; by apply of_kind_in in Htr. }
  destruct Hin as [Hr Ht]. pose proof (im_get_template_id _ _ _ Ht) as Hid. rewrite Hid. split; [|done].
  pose proof (p_records _ _ Hp) as Hrec. rewrite Forall_forall in Hrec.
  destruct (Hrec _ (split_record_in kv _ Hkv Hr)) as (t & Ht' & _ & Hf). rewrite Ht in Ht'. injection Ht' as <-.
  split_and!; [by apply (p_templates _ _ Hp) in Ht|done|done].
Qed.

(** *** The templates of the document are those of the message, once each. *)
Definition written_templates : list ipap_template := not_related s ++ related s.

Lemma not_related_ids : map t_id (not_related s) = ct_list (templates s).
Proof.
  unfold not_related. assert (Hin : Forall (fun id => exists t, ct_get id (templates s) = Some t /\ t_id t = id) (ct_list (templates s))).
  { apply Forall_forall. intros id Hid. apply ct_list_spec in Hid as [t Ht]. exists t. split; [done|].
    apply (ws_rest _ _ _ W) in Ht as (_ & _ & Ht). by eapply im_get_template_id. }
  induction Hin as [|id l (t & Ht & Hid) Hl IH]; [done|]. cbn. rewrite Ht. cbn. by rewrite IH, Hid.
Qed.

Lemma related_ids : exists l, related s = map snd l /\ map t_id (related s) = map fst l /\ used_ok m l
  /\ forall id, id ∈ map fst l <-> exists r, r ∈ im_records m /\ r_template_id r = id /\ is_Some (im_get_template m id).
Proof.
  destruct (related_spec m ot s W printable_small) as (l & _ & -> & Hl & Hin). exists l. destruct Hl as [Hs Hg].
  split_and!; [done| |by split|].
  - rewrite map_map. apply map_ext_in. intros [id t] Hit. apply list_elem_of_In, map_find_elem_z in Hit; [|done].
    by eapply im_get_template_id, Hg.
  - intros id. rewrite <- Hin. split.
    + intros Hid. apply list_elem_of_fmap in Hid as ([id' t] & -> & Hit). apply map_find_elem_z in Hit; [|done]. by exists t.
    + intros [t Ht]. apply map_find_elem_z in Ht; [|done]. by apply (list_elem_of_fmap_2 fst) in Ht.
Qed.

Lemma written_known t : t ∈ written_templates -> im_get_template m (t_id t) = Some t.
Proof.
  assert (Hid : forall id, im_get_template m id = Some t -> im_get_template m (t_id t) = Some t).
  { intros id Ht. by rewrite (im_get_template_id _ _ _ Ht). }
  unfold written_templates. rewrite elem_of_app. intros [Ht|Ht].
  - unfold not_related in Ht. apply list_elem_of_omap in Ht as (id & _ & Ht). apply (ws_rest _ _ _ W) in Ht as (_ & _ & Ht). by eapply Hid.
  - destruct related_ids as (l & E & _ & [Hs Hg] & _). rewrite E in Ht. apply list_elem_of_fmap in Ht as ([id t'] & -> & Ht).
    apply map_find_elem_z, Hg in Ht; [|done]. by eapply Hid.
Qed.

Lemma written_nodup : NoDup (map t_id written_templates).
Proof.
  unfold written_templates. rewrite map_app, not_related_ids. destruct related_ids as (l & _ & -> & [Hs _] & Hin).
  apply NoDup_app. split_and!; [apply ct_list_nodup| |by apply map_sorted_nodup].
  intros id Hid Hl. apply Hin in Hl as (r & Hr & <- & _). apply ct_list_spec in Hid as [t Ht].
  apply (ws_rest _ _ _ W) in Ht as (_ & Hn & _). apply Hn. by apply list_elem_of_fmap_2.
Qed.

Lemma written_all id t : im_get_template m id = Some t -> id ∈ map t_id written_templates.
Proof.
  intros Ht. unfold written_templates. rewrite map_app, not_related_ids, elem_of_app.
  destruct related_ids as (l & _ & -> & _ & Hin). destruct (decide (id ∈ map r_template_id (im_records m))) as [Hr|Hr].
  - right. apply list_elem_of_fmap in Hr as (r & -> & Hr). apply Hin. exists r. split_and!; [done|done|by exists t].
  - left. apply ct_list_spec. exists t. apply (ws_rest _ _ _ W). split_and!; [|done|done]. apply (p_listed _ _ Hp). by exists t.
Qed.

(** *** The document is one of the DTD. *)
Lemma attlist_intro names ps : map fst ps = names -> Forall (fun p => plain (snd p) = true) ps -> attlist names ps = true.
Proof.
  intros E Hp'. unfold attlist. rewrite bool_decide_eq_true_2 by done. cbn [andb].
  induction Hp' as [|p ps Hp1 Hp2 IH] in names, E |- *; [done|]. cbn [forallb]. rewrite Hp1. by apply (IH _ eq_refl).
Qed.

Lemma forallb_nodes {A} (ok : xml_node -> bool) (f : A -> xml_node) l : Forall (fun a => ok (f a) = true) l -> forallb ok (map f l) = true.
Proof. induction 1 as [|a l Ha Hl IH]; [done|]. cbn. by rewrite Ha. Qed.

Ltac plain_text :=
  lazymatch goal with
  | |- plain (print_u _) = true => apply plain_print_u
  | |- plain (print_d _) = true => apply plain_print_d
  | |- plain (print_lu _) = true => apply plain_print_lu
  | |- _ => assumption
  end.
Ltac atts :=
  lazymatch goal with
  | |- Forall _ _ => repeat apply Forall_cons_2; [cbn [snd]; plain_text..|apply Forall_nil_2]
  | |- _ => reflexivity
  end.

Lemma dtd_template_written t : template_ok t -> dtd_template (template_node t) = true.
Proof.
  intros (_ & _ & _ & Hf). unfold dtd_template, template_node, contains. rewrite String.eqb_refl.
  rewrite (attlist_intro ["ID"; "TYPE"; "NUM_FIELDS"]%string) by atts. cbn [andb]. apply forallb_nodes.
  eapply Forall_impl; [exact Hf|]. intros f (_ & _ & _ & Hn & Hx). unfold dtd_tfield, pcdata, tfield_node. rewrite String.eqb_refl.
  rewrite (attlist_intro ["ENO"; "FTYPE"; "CODING"; "LENGTH"; "XML_NAME"]%string) by atts. done.
Qed.

Lemma dtd_record_written tr : record_ok tr -> dtd_datarecord (record_node (fst tr) (snd tr)) = true.
Proof.
  intros ((_ & _ & _ & Hfs) & _ & Hf). unfold dtd_datarecord, record_node, contains. rewrite String.eqb_refl.
  rewrite (attlist_intro ["TEMPLATE_ID"]%string) by atts. cbn [andb]. apply forallb_nodes.
  eapply Forall_impl; [exact Hf|]. intros kv (f & Ef & _ & Hv & _). unfold field_node. rewrite Ef.
  apply t_get_field_spec in Ef as (_ & _ & Hin). rewrite Forall_forall in Hfs. apply Hfs in Hin as (_ & _ & _ & _ & Hx).
  unfold dtd_field, pcdata. rewrite String.eqb_refl. rewrite (attlist_intro ["NAME"; "ENO"; "FTYPE"]%string) by atts. done.
Qed.

Lemma document_children :
  document m s = Element IPAP_XML_ROOT [("LAST_TEMPLATE_ID", print_u (im_last_template_id m)); ("DOMAIN_ID", print_d (im_domain m));
    ("VERSION", print_d (im_version m)); ("EXPORT_TIME", print_lu (im_exporttime m)); ("SEQ_NO", print_lu (im_seqno m));
    ("ACK_SEQ_NO", print_lu (im_ackseqno m))] (map template_node written_templates ++ record_nodes (in_order m s)).
Proof. unfold document, written_templates. by rewrite body_nodes, map_app, app_assoc. Qed.

Lemma written_ok : Forall template_ok written_templates.
Proof. apply Forall_forall. intros t Ht. by apply written_known, (p_templates _ _ Hp) in Ht. Qed.

Lemma dtd_document : dtd_message (document m s) = true.
Proof.
  rewrite document_children. unfold dtd_message, contains. rewrite String.eqb_refl.
  rewrite (attlist_intro ["LAST_TEMPLATE_ID"; "DOMAIN_ID"; "VERSION"; "EXPORT_TIME"; "SEQ_NO"; "ACK_SEQ_NO"]%string) by atts.
  cbn [andb]. rewrite forallb_app. apply andb_true_iff. split; apply forallb_nodes.
  - eapply Forall_impl; [apply written_ok|]. intros t Ht. by rewrite dtd_template_written.
  - eapply Forall_impl; [apply in_order_ok|]. intros tr [Htr _]. rewrite dtd_record_written by done. apply orb_true_r.
Qed.

(** *** The document is read. *)
Lemma document_normal :
  normal (document m s) = Element IPAP_XML_ROOT [("LAST_TEMPLATE_ID", print_u (im_last_template_id m)); ("DOMAIN_ID", print_d (im_domain m));
    ("VERSION", print_d (im_version m)); ("EXPORT_TIME", print_lu (im_exporttime m)); ("SEQ_NO", print_lu (im_seqno m));
    ("ACK_SEQ_NO", print_lu (im_ackseqno m))]
    (map normal (map template_node written_templates) ++ map normal (record_nodes (in_order m s))).
Proof.
  rewrite document_children, <- map_app. apply normal_children, Forall_app. split; by apply element_map.
Qed.

(** What a message has, whatever the order of its records. *)
Definition same_message (m' : ipap_message) : Prop :=
  im_header m' = im_header m /\ im_records m' = map snd (in_order m s) /\ forall id, im_get_template m' id = im_get_template m id.

Lemma read_contents m0 : im_header m0 = im_header m -> im_records m0 = [] -> (forall id, im_get_template m0 id = None) ->
  exists m', obind (read_templates garbage garbage_field (node_children (normal (document m s))) m0)
    (fun message => read_records garbage (node_children (normal (document m s))) message) = Normal m' /\ same_message m'.
Proof.
  intros Hh Hr Hg. rewrite document_normal. cbn [node_children].
  destruct (read_all_templates written_templates (map normal (record_nodes (in_order m s))) m0) as (m1 & E1 & Hh1 & Hr1 & Hg1 & Hg1').
  { apply written_ok. } { apply written_nodup. } { apply Forall_true. intros t. apply Hg. }
  assert (Hsame : forall id, im_get_template m1 id = im_get_template m id).
  { intros id. destruct (decide (id ∈ map t_id written_templates)) as [Hid|Hid].
    - apply list_elem_of_fmap in Hid as (t & -> & Ht). by rewrite Hg1, written_known.
    - rewrite Hg1', Hg by done. destruct (im_get_template m id) as [t|] eqn:Et; [|done]. by apply written_all in Et. }
  destruct (read_all_records (in_order m s) m1) as (m2 & E2 & Hh2 & Hr2 & Hg2).
  { eapply Forall_impl; [apply in_order_ok|]. intros tr [? ?]. by rewrite Hsame. }
  exists m2. rewrite E1, read_templates_skip.
  - cbn [obind]. rewrite read_records_skip, E2.
    + split; [done|]. split_and!; [congruence|by rewrite Hr2, Hr1, Hr|intros id; by rewrite Hg2, Hsame].
    + apply Forall_map, Forall_map, Forall_true. done.
  - apply Forall_map, Forall_map, Forall_true. done.
Qed.

Lemma document_read dtdname dtd str d :
  xmlParseMemory str = Some d -> xmlDocGetRootElement d = Some (normal (document m s)) ->
  xmlParseDTD dtdname = Some dtd -> accepts_documents dtd ->
  exists m', from_message garbage garbage_field dtdname str = Normal m' /\ same_message m'.
Proof.
  intros Ed Er Et Ha. unfold from_message, read_message, XMLParserValidate. rewrite Ed, Et, (Ha d _ Er dtd_document), Er. cbn [negb].
  assert (Hn : node_name (normal (document m s)) = IPAP_XML_ROOT) by by rewrite document_normal.
  rewrite Hn, String.eqb_refl. cbn [obind rethrow].
  destruct (p_int _ _ Hp) as [P1 P2]. destruct (p_u32 _ _ Hp) as (P3 & P4 & P5).
  assert (Hprop : forall name, prop name (normal (document m s)) = default [] (find_prop name
    [("LAST_TEMPLATE_ID", print_u (im_last_template_id m)); ("DOMAIN_ID", print_d (im_domain m));
     ("VERSION", print_d (im_version m)); ("EXPORT_TIME", print_lu (im_exporttime m)); ("SEQ_NO", print_lu (im_seqno m));
     ("ACK_SEQ_NO", print_lu (im_ackseqno m))]%string)) by (intros name; rewrite document_normal; apply prop_find).
  rewrite !Hprop. cbn [find_prop String.eqb Ascii.eqb Bool.eqb from_option id]. unfold id.
  rewrite !atoi_print_d, !atoi_print_lu by done.
  destruct (im_new_spec (im_domain m) (im_version m)) as (N1 & N2 & N3 & N4).
  destruct (im_set_seqno_spec (im_seqno m) (im_new (im_domain m) (im_version m))) as [[C1 C1'] A1].
  destruct (im_set_ackseqno_spec (im_ackseqno m) (im_set_seqno (im_seqno m) (im_new (im_domain m) (im_version m)))) as [[C2 C2'] A2].
  set (m2 := im_set_ackseqno _ _) in *. destruct (im_set_exporttime_spec (im_exporttime m) m2) as [[C3 C3'] A3].
  destruct (read_contents (im_set_exporttime (im_exporttime m) m2)) as (m' & E & Hm').
  - unfold im_header in *. congruence.
  - congruence.
  - intros id. by rewrite C3', C2', C1'.
  - exists m'. rewrite E. done.
Qed.
End Reading.

Section Roundtrip.
Context `{Ipap} `{!IpapLaws} `{!IpapBuildLaws} `{!Xml} `{!XmlLaws}.

End Roundtrip.

(** ** Documents the writer never makes. *)
Section Errors.
Context `{Ipap} `{!Xml}.

Definition tfields (l : list xml_node) : list xml_node := filter (fun n => node_name n = "TFIELD"%string) l.

Lemma too_many_fields cur index fields : index <= length fields < index + length (tfields cur) ->
  ReadTemplateFields cur index fields = Faulted Out_of_bounds.
Proof.
  revert index fields. induction cur as [|n cur IH]; intros index fields; [cbn; lia|]. cbn [ReadTemplateFields].
  unfold tfields. rewrite filter_cons. destruct (String.eqb_spec (node_name n) "TFIELD") as [E|E].
  - rewrite decide_True by done. cbn [length]. intros Hl. destruct (Nat.ltb_spec index (length fields)); [|done].
    apply IH. rewrite length_insert. unfold tfields. lia.
  - rewrite decide_False by done. apply IH.
Qed.

(** [NUM_FIELDS] of a template is believed: a document the DTD accepts -
    it does not relate the attribute to the TFIELD elements - whose first
    template has more of them makes [from_message] write behind the end of the
    array it reads the fields into; one that says there are none is refused. *)
Theorem template_fields_unchecked (garbage : Z) (garbage_field : Z * Z * Z) (dtdname : string) (dtd : xml_dtd) (str : xml_string)
  (d : xml_document) (ps : list (string * list ascii)) (t : xml_node) (rest : list xml_node)
  (Hd : xmlParseMemory str = Some d) (Hr : xmlDocGetRootElement d = Some (Element IPAP_XML_ROOT ps (t :: rest)))
  (Hdtd : xmlParseDTD dtdname = Some dtd) (Hv : xmlValidateDtd dtd d = true) (Ht : node_name t = "TEMPLATE"%string) :
  ((atoi (prop "NUM_FIELDS" t) <= 0)%Z ->
     from_message garbage garbage_field dtdname str = Raised (Lib_error "Invalid template, non positive field number"))
  /\ ((0 < atoi (prop "NUM_FIELDS" t) < Z.of_nat (length (tfields (node_children t))))%Z ->
     from_message garbage garbage_field dtdname str = Faulted Out_of_bounds).
Proof.
  unfold from_message, read_message, XMLParserValidate. rewrite Hd, Hdtd, Hv, Hr. cbn [negb node_name]. rewrite String.eqb_refl.
  cbn [obind node_children read_templates]. rewrite Ht. change (String.eqb "TEMPLATE" "TEMPLATE") with true. cbn iota.
  split; intros Hn; destruct (Z.leb_spec (atoi (prop "NUM_FIELDS" t)) 0); try lia; [done|].
  rewrite too_many_fields; [done|]. rewrite length_replicate. lia.
Qed.
End Errors.
