(* ===== verification/XmlExamples.v ===== *)
(** * Concrete IPAP messages and XML documents

    A small IPAP library - fields are triples of numbers, values are texts -
    and a libxml2 whose documents are the calls that wrote them. *)
From stdpp Require Import gmap.
From Stdlib Require Import Ascii.
From S2P Require Import Prelude Outcome StdMap External SessionId XmlKey Splitter XmlMessage XmlMemory XmlSpec XmlRoundtrip.

(** ** The IPAP library. *)
Record template := mk_template { tid : Z; ttype : Z; tfs : list (Z * Z * Z) }.
Record record := mk_record { rid : Z; rfs : list ((Z * Z) * list ascii) }.
Record message := mk_message { mtemplates : list template; mrecords : list record; mhead : Z * Z * (Z * Z * Z) }.

#[export] Instance example_libs : Libs := {|
  uuid := Z; uuid_compare a b := (a - b)%Z; hostaddress := Z; mri := Z; mri_pathcoupled := Z;
  new_mri_pathcoupled _ _ _ _ _ _ _ _ _ _ _ := 0%Z; upcast_mri z := z; downcast_mri := Some; invertDirection z := z;
  pc_invertDirection z := z; get_sourceaddress z := z; get_sourceprefix z := z; get_sourceport z := z; get_destaddress z := z;
  get_destprefix z := z; get_destport z := z; get_protocol z := z; get_flowlabel z := z; get_ds_field z := z; get_spi z := z;
  get_downstream _ := true; ipap_message := message; ipap_default := mk_message [] [] (0, 0, (0, 0, 0))%Z;
  ipap_eqb _ _ := true; ipap_get_offset _ := 0%Z; ipap_get_message _ := None; ipap_require_output _ := true;
  ipap_close m := m; ipap_import _ _ := None |}.

Definition get_template (m : message) (id : Z) : option template := List.find (fun t => Z.eqb (tid t) id) (mtemplates m).

#[export] Instance example_ipap : Ipap := {|
  ipap_template := template; ipap_field := (Z * Z * Z)%type; ipap_value := list ascii; ipap_data_record := record;
  ipap_template_container := gmap Z template;
  im_records := mrecords : ipap_message -> _; im_get_template := get_template; im_template_list m := map tid (mtemplates m);
  im_last_template_id _ := 300%Z; im_domain m := fst (fst (mhead m)); im_version m := snd (fst (mhead m));
  im_exporttime m := fst (fst (snd (mhead m))); im_seqno m := snd (fst (snd (mhead m))); im_ackseqno m := snd (snd (mhead m));
  im_new d v := mk_message [] [] (d, v, (0, 0, 0))%Z;
  im_set_exporttime x m := mk_message (mtemplates m) (mrecords m) (fst (mhead m), (x, snd (fst (snd (mhead m))), snd (snd (mhead m))));
  im_set_seqno x m := mk_message (mtemplates m) (mrecords m) (fst (mhead m), (fst (fst (snd (mhead m))), x, snd (snd (mhead m))));
  im_set_ackseqno x m := mk_message (mtemplates m) (mrecords m) (fst (mhead m), (fst (snd (mhead m)), x));
  im_make_template fs ty id m := Some (mk_message (mk_template id ty fs :: mtemplates m) (mrecords m) (mhead m));
  im_include_data _ r m := Some (mk_message (mtemplates m) (mrecords m ++ [r]) (mhead m));
  t_id := tid; t_type := ttype; t_fields := tfs;
  t_get_field e f t := List.find (fun x => Z.eqb (fst (fst x)) e && Z.eqb (snd (fst x)) f) (tfs t);
  template_type_keys _ := Some [(1, 0)]%Z; object_type_of ty := Some (ty mod 4)%Z; IPAP_MAX_OBJECT_TYPE := 4;
  IPAP_SETID_AUCTION_TEMPLATE := 0; IPAP_SETID_BID_OBJECT_TEMPLATE := 1; IPAP_SETID_ASK_OBJECT_TEMPLATE := 2;
  IPAP_SETID_ALLOC_OBJECT_TEMPLATE := 3; IPAP_OPTNS_AUCTION_TEMPLATE := 4; IPAP_OPTNS_BID_OBJECT_TEMPLATE := 5;
  IPAP_OPTNS_ASK_OBJECT_TEMPLATE := 6; IPAP_OPTNS_ALLOC_OBJECT_TEMPLATE := 7;
  f_eno f := fst (fst f); f_ftype f := snd (fst f); f_coding _ := 0%Z; f_length f := snd f;
  f_name _ := String.list_ascii_of_string "quantity"; f_xml_name _ := String.list_ascii_of_string "Quantity";
  f_write _ v := v; f_parse _ s := Some s;
  r_new id := mk_record id []; r_template_id := rid; r_fields := rfs;
  r_get e f r := option_map snd (List.find (fun x => Z.eqb (fst (fst x)) e && Z.eqb (snd (fst x)) f) (rfs r));
  r_insert e f v r := mk_record (rid r) (rfs r ++ [((e, f), v)]);
  ct_empty := ∅; ct_add t c := <[tid t := t]> c; ct_get id c := c !! id; ct_list c := (map_to_list c).*1 |}.

#[export] Instance example_ipap_laws : IpapLaws.
Proof.
  split; cbn.
  - intros m id t Ht. apply List.find_some in Ht as [_ Ht]. by apply Z.eqb_eq.
  - intros id. apply lookup_empty.
  - intros id t c. case_decide as E; [subst; apply lookup_insert_eq|by apply lookup_insert_ne].
  - intros id c. rewrite list_elem_of_fmap. split.
    + intros ([k t] & -> & Hin). exists t. by apply elem_of_map_to_list.
    + intros [t Ht]. exists (id, t). split; [done|]. by apply elem_of_map_to_list.
Qed.

Lemma insert_all kvs r : fold_left (fun d kv => mk_record (rid d) (rfs d ++ [((fst (fst kv), snd (fst kv)), snd kv)])) kvs r
  = mk_record (rid r) (rfs r ++ kvs).
Proof.
  revert r. induction kvs as [|[[e f] v] kvs IH]; intros [i l]; cbn; [by rewrite app_nil_r|]. rewrite IH. cbn. by rewrite <- app_assoc.
Qed.

#[export] Instance example_build_laws : IpapBuildLaws.
Proof.
  split; cbn.
  - done.
  - intros x [ts rs [[d v] [[a b] c]]]. done.
  - intros x [ts rs [[d v] [[a b] c]]]. done.
  - intros x [ts rs [[d v] [[a b] c]]]. done.
  - intros [i ty fs] m Hn. exists (mk_message (mk_template i ty fs :: mtemplates m) (mrecords m) (mhead m)).
    assert (Ef : map field_spec fs = fs) by (rewrite <- (map_id fs) at 2; apply map_ext; by intros [[? ?] ?]).
    split; [exact (f_equal (fun l => Some (mk_message (mk_template i ty l :: mtemplates m) (mrecords m) (mhead m))) Ef)|].
    split_and!; [done..|]. intros id. unfold get_template. cbn. case_decide as E; [subst; by rewrite Z.eqb_refl|].
    by rewrite (proj2 (Z.eqb_neq i id)).
  - intros r t m _ _. eexists. split; [done|]. done.
  - intros [i l]. rewrite insert_all. done.
  - intros e f t x Hx. apply List.find_some in Hx as [Hin Hx]. apply andb_true_iff in Hx as [E1 E2].
    apply Z.eqb_eq in E1, E2. split_and!; [done|done|by apply list_elem_of_In].
  - intros c. apply NoDup_fst_map_to_list.
Qed.

(** ** libxml2. *)
#[export] Instance xml_event_eq_dec : EqDecision xml_event.
Proof. solve_decision. Defined.

Definition add_child (n : xml_node) (st : list (string * list (string * list ascii) * list xml_node)) :=
  match st with (name, ps, l) :: st => (name, ps, l ++ [n]) :: st | [] => [] end.

(** The tree the calls have written. *)
Fixpoint build (st : list (string * list (string * list ascii) * list xml_node)) (es : list xml_event) : option xml_node :=
  match es, st with
  | Start_element name :: es, _ => build ((name, [], []) :: st) es
  | Attribute a v :: es, (name, ps, l) :: st => build ((name, ps ++ [(a, v)], l) :: st) es
  | Content t :: es, _ :: _ => build (add_child (Text t) st) es
  | [End_element], [(name, ps, l)] => Some (Element name ps l)
  | End_element :: es, (name, ps, l) :: ((_ :: _) as st) => build (add_child (Element name ps l) st) es
  | _, _ => None
  end.

Definition parse_events (es : list xml_event) : option xml_node := option_map normal (build [] (drop 3 es)).
Definition put (e : xml_event) (es : list xml_event) : option (list xml_event) := Some (es ++ [e]).

#[export] Instance example_xml : Xml := {|
  xml_buffer := unit; xml_writer := list xml_event; xml_document := xml_node; xml_dtd := unit; xml_string := list xml_event;
  xmlBufferCreate := Some tt; xmlNewTextWriterMemory _ := Some []; xmlTextWriterStartDocument := put Start_document;
  xmlTextWriterStartDTD n s := put (Start_dtd n s); xmlTextWriterEndDTD := put End_dtd;
  xmlTextWriterStartElement n := put (Start_element n); xmlTextWriterWriteAttribute n v := put (Attribute n v);
  xmlTextWriterWriteString t := put (Content t); xmlTextWriterEndElement := put End_element;
  xml_content w := w; xmlParseMemory := parse_events; xmlParseDTD _ := Some tt; xmlValidateDtd _ d := dtd_message d;
  xmlDocGetRootElement := Some;
  xmlGetProp name n := match n with Element _ ps _ => find_prop name ps | Text _ => None end;
  xmlNodeListGetString l := match l with [Text t] => Some t | _ => None end |}.

Lemma build_attributes name ps qs l st es :
  build ((name, ps, l) :: st) (map (fun p => Attribute (fst p) (snd p)) qs ++ es) = build ((name, ps ++ qs, l) :: st) es.
Proof.
  revert ps. induction qs as [|[a v] qs IH]; intros ps; cbn [map app build fst snd]; [by rewrite app_nil_r|].
  by rewrite IH, <- app_assoc.
Qed.

Lemma build_events t st es : st <> [] -> build st (events t ++ es) = build (add_child t st) es.
Proof.
  revert st es. induction t as [name ps ns IH|t] using xml_node_ind'; intros st es Hst; [|by destruct st].
  rewrite events_element, <- app_comm_cons, <- app_assoc. cbn [build]. rewrite build_attributes. cbn [app].
  assert (Hl : forall l es, build ((name, ps, l) :: st) (flat_map events ns ++ es) = build ((name, ps, l ++ ns) :: st) es).
  { clear -IH. induction IH as [|n ns Hn Hns IH']; intros l es; cbn [flat_map app]; [by rewrite app_nil_r|].
    rewrite <- app_assoc, Hn by done. cbn [add_child]. rewrite IH', <- app_assoc. done. }
  rewrite <- app_assoc, Hl. destruct st as [|[[n' ps'] l'] st]; [done|]. cbn. by destruct es.
Qed.

Lemma build_tree name ps ns : build [] (events (Element name ps ns)) = Some (Element name ps ns).
Proof.
  rewrite events_element. cbn [build]. rewrite build_attributes. cbn [app].
  assert (Hl : forall l, build [(name, ps, l)] (flat_map events ns ++ [End_element]) = Some (Element name ps (l ++ ns))).
  { induction ns as [|n ns IH]; intros l; cbn [flat_map app]; [by rewrite app_nil_r|].
    rewrite <- app_assoc, build_events by done. cbn [add_child]. rewrite IH, <- app_assoc. done. }
  apply (Hl []).
Qed.

#[export] Instance example_xml_laws : XmlLaws.
Proof.
  apply (Build_XmlLaws example_xml (fun w => w)); cbn.
  - by exists tt, [].
  - intros e w _. exists (w ++ [e]). by destruct e.
  - intros w t -> Ht. exists (normal t). split; [|done].
    destruct t as [name ps l|]; [|done]. exact (f_equal (option_map normal) (build_tree name ps l)).
  - done.
  - done.
Qed.

(** *** The DTD accepts what a parser makes of a document of it. *)
Lemma normal_children_ok (ok : xml_node -> bool) l :
  (forall n, ok n = true -> element n = true /\ ok (normal n) = true) -> forallb ok l = true ->
  forallb ok (flat_map (fun n => match n with Text [] => [] | n => [normal n] end) l) = true.
Proof.
  intros Hok. induction l as [|n l IH]; cbn [forallb flat_map]; [done|]. rewrite andb_true_iff. intros [Hn Hl].
  destruct (Hok n Hn) as [He Hn']. rewrite forallb_app, IH, andb_true_r by done. destruct n; [|done]. cbn [forallb]. by rewrite Hn'.
Qed.

Lemma contains_normal name atts ok n :
  (forall n, ok n = true -> element n = true /\ ok (normal n) = true) -> contains name atts ok n = true ->
  element n = true /\ contains name atts ok (normal n) = true.
Proof.
  intros Hok. destruct n as [name' ps l|]; [|done]. cbn [contains normal element]. rewrite !andb_true_iff.
  intros [[-> ->] Hl]. split; [done|]. by rewrite normal_children_ok.
Qed.

Lemma pcdata_normal name atts n : pcdata name atts n = true -> element n = true /\ pcdata name atts (normal n) = true.
Proof.
  destruct n as [name' ps l|]; [|done]. cbn [pcdata normal element]. rewrite !andb_true_iff. intros [[-> ->] Hl]. split; [done|].
  destruct l as [|[|t] [|]]; try done. destruct t; done.
Qed.

Lemma dtd_normal n : dtd_message n = true -> dtd_message (normal n) = true.
Proof.
  intros Hn. apply contains_normal in Hn as [_ Hn]; [done|]. clear n Hn. intros n. rewrite !orb_true_iff. intros [Hn|Hn].
  - apply contains_normal in Hn as [? ?]; [auto|]. intros. by apply pcdata_normal.
  - apply contains_normal in Hn as [? ?]; [auto|]. intros. by apply pcdata_normal.
Qed.

Lemma example_dtd_accepts : accepts_documents (tt : xml_dtd).
Proof. intros d t [= ->] Ht. by apply dtd_normal. Qed.

(** ** A message: two bids, with their options, and a template no record uses. *)
Section Xml_examples.
Definition text (s : string) : list ascii := String.list_ascii_of_string s.
Definition bid : template := mk_template 256 1 [(1, 0, 8); (2, 0, 65535)]%Z.
Definition options : template := mk_template 257 5 [(1, 0, 8); (30, 0, 4)]%Z.
Definition ask : template := mk_template 258 2 [(1, 0, 8)]%Z.
Definition bids : ipap_message := mk_message [bid; options; ask]
  [mk_record 256 [((1, 0), text "b2"); ((2, 0), text "700")]%Z; mk_record 257 [((1, 0), text "b1"); ((30, 0), text "<&>")]%Z;
   mk_record 256 [((1, 0), text "b1"); ((2, 0), text "650")]%Z; mk_record 257 [((1, 0), text "b2"); ((30, 0), text "x")]%Z]
  (17, -1, (4294967295, 2, 3))%Z.

Lemma bids_splittable : splittable bids 1.
Proof. repeat apply Forall_cons_2; [eexists; split; [vm_compute; reflexivity|reflexivity]..|apply Forall_nil_2]. Qed.

Lemma bids_templates id t : im_get_template bids id = Some t -> t ∈ [bid; options; ask].
Proof. intros Ht. apply List.find_some in Ht as [Ht _]. by apply list_elem_of_In. Qed.

Lemma bids_listed id : id ∈ im_template_list bids <-> is_Some (im_get_template bids id).
Proof.
  split.
  - intros Hid. change (id ∈ [256; 257; 258]%Z) in Hid. rewrite !elem_of_cons, elem_of_nil in Hid.
    destruct Hid as [->|[->|[->|[]]]]; by eexists.
  - intros [t Ht]. pose proof (im_get_template_id _ _ _ Ht) as <-. apply bids_templates in Ht. exact (list_elem_of_fmap_2 tid _ _ Ht).
Qed.

Lemma bids_printable : printable bids 1.
Proof.
  split; [apply bids_splittable|apply bids_listed| | |split; cbn; lia|repeat split; cbn; lia].
  - intros id t Ht. apply bids_templates in Ht. rewrite !elem_of_cons, elem_of_nil in Ht.
    destruct Ht as [->|[->|[->|[]]]]; unfold template_ok, field_ok, is_u16; cbn; split_and!; try lia; repeat constructor; lia || done.
  - repeat apply Forall_cons_2; [eexists; split; [reflexivity|split; [reflexivity|]]..|apply Forall_nil_2].
    all: repeat apply Forall_cons_2; [eexists; split; [reflexivity|split_and!; done]..|apply Forall_nil_2].
Qed.

Theorem split_files_witness :
  exists s, split bids new_splitter = Normal s /\ length (objectDataRecords s) = 2.
Proof.
  destruct (split_files bids 1 bids_splittable) as (s & E & _).
  - apply Forall_forall. intros id Hid. split; [|by apply bids_listed]. apply bids_listed in Hid as [t Ht].
    pose proof (im_get_template_id _ _ _ Ht) as <-. by apply (p_templates _ _ bids_printable) in Ht as [? _].
  - exists s. split; [done|]. vm_compute in E. injection E as <-. reflexivity.
Defined.


(** An object that has written a message writes its records again with the
    next one, here the same. *)
Definition data_records (es : list xml_event) : nat :=
  length (filter (fun e => e = Start_element "DATARECORD") es).
Example get_message_again :
  match get_message bids new_splitter with
  | Normal (str, s) => data_records str = 4 /\ match get_message bids s with Normal (str, _) => data_records str = 8 | _ => False end
  | _ => False
  end.
Proof. vm_compute. split; reflexivity. Qed.

(** An object that reads a message, no document at all, and the message
    twice more: two of the three documents are lost, and three messages are
    its user's. *)
Definition bids_text : xml_string :=
  match get_message bids new_splitter with Normal (str, _) => str | _ => prologue end.
Definition no_text : xml_string := prologue.

Theorem xml_object_life_witness :
  exists os st, (os <- read_all 0 (0, 0, 0)%Z DTD_NAME [bids_text; no_text; bids_text; bids_text] ;;
                 destroy_xml_message ;;; ret os) (new_xml_message ∅) = (Normal os, st)
    /\ size (heap st) = 2 * 2 + 3.
Proof.
  destruct (xml_object_life 0 (0, 0, 0)%Z DTD_NAME [bids_text; no_text; bids_text; bids_text] ∅) as (st & E & Hs).
  - repeat apply Forall_cons_2; [intros f; vm_compute; done..|apply Forall_nil_2].
  - eexists _, st. split; [exact E|]. rewrite Hs. vm_compute. reflexivity.
Defined.

(** A document with a template of two fields that says it has one. *)
Definition liar : xml_node :=
  Element "TEMPLATE" [("ID", text "256"); ("TYPE", text "1"); ("NUM_FIELDS", text "1")]
    [Element "TFIELD" [("ENO", text "1"); ("FTYPE", text "0"); ("CODING", text "0"); ("LENGTH", text "8"); ("XML_NAME", text "id")] [];
     Element "TFIELD" [("ENO", text "2"); ("FTYPE", text "0"); ("CODING", text "0"); ("LENGTH", text "8"); ("XML_NAME", text "q")] []].
Definition liars : xml_node :=
  Element IPAP_XML_ROOT [("LAST_TEMPLATE_ID", text "256"); ("DOMAIN_ID", text "1"); ("VERSION", text "1"); ("EXPORT_TIME", text "0");
    ("SEQ_NO", text "1"); ("ACK_SEQ_NO", text "0")] [liar].

Theorem template_fields_unchecked_witness :
  from_message 0 (0, 0, 0)%Z DTD_NAME (prologue ++ events liars : xml_string) = Faulted Out_of_bounds.
Proof.
  refine (proj2 (template_fields_unchecked 0 (0, 0, 0)%Z DTD_NAME (tt : @xml_dtd example_xml) _ _ _ liar [] _ _ _ _ _) _).
  - vm_compute. reflexivity.
  - reflexivity.
  - reflexivity.
  - vm_compute. reflexivity.
  - reflexivity.
  - vm_compute. split; reflexivity.
Defined.
End Xml_examples.
