(* ===== verification/Startup.v ===== *)
(** * Start and stop: src/main.cpp, src/anslp_daemon.cpp

    [main] reads its command line, [anslp_daemon::startup] chooses the rule
    installer, tells GIST the addresses of the node and registers with it,
    [main_loop] runs, [shutdown] removes the rules.  What belongs to the
    operating system and to the NTLP - [getopt], [AddressList], the thread of
    GIST - appears by its results and by the calls made to it. *)
From S2P Require Import NiSession NrSession NfSession.
From S2P Require Import Prelude Outcome StdMap External Objects Store Messages Codec Parser SessionId NtlpMsg AuctionRule Aqueue Events GistMapper Session Installer SessionManager Dispatcher DispatcherSpec Daemon DaemonSpec.
From stdpp Require Import gmap.
From Stdlib Require Import Ascii.

(** ** The command line. *)

(** The configuration file, or the status [exit] is called with: [options] is
    what [getopt] returns before -1, [rest] the number of arguments left,
    [conffilename] the value of the parameter before. *)
Fixpoint parse_commandline (options : list (ascii * list ascii)) (rest : nat) (conffilename : list ascii) : Z + list ascii :=
  match options with
  | (c, optarg) :: options =>
      if Ascii.eqb c "c" then parse_commandline options rest optarg else inl 1%Z
  | [] =>
      match conffilename with
      | [] => inl 1%Z
      | _ => if (0 <? rest)%nat then inl 1%Z else inr conffilename
      end
  end.

(** The file given last is used; anything but [-c], an argument left over and
    an empty name are refused.  Without an option the name of the default
    stands, so that the usage line, which has [-c] as mandatory, is not
    printed for a command line without it. *)
Lemma parse_commandline_cases options rest conffilename :
  parse_commandline options rest conffilename
  = if forallb (fun o => Ascii.eqb (fst o) "c") options && (rest =? 0)%nat
       && negb (bool_decide (last (conffilename :: map snd options) = Some []))
    then inr (default [] (last (conffilename :: map snd options))) else inl 1%Z.
Proof.
  revert conffilename. induction options as [|[c o] options IH]; intros f.
  - cbn. destruct f; [by destruct (rest =? 0)%nat|]. destruct rest; [|done]. cbn. by rewrite bool_decide_false.
  - cbn [parse_commandline forallb fst map snd]. destruct (Ascii.eqb c "c"); [|done]. cbn [andb]. rewrite IH. done.
Qed.

(** ** The interfaces of the mobile node. *)

(** [std::stringstream]: what is left to read, and its state bits. *)
Record istream := mk_istream { chars : list ascii; eofbit : bool; failbit : bool }.

Fixpoint take_word (s : list ascii) : list ascii * list ascii :=
  match s with
  | c :: s' => if is_space c then ([], s) else let '(w, r) := take_word s' in (c :: w, r)
  | [] => ([], [])
  end.

(** [std::string token; in >> token]: nothing is read from a stream at its
    end, and the stream fails. *)
Definition extract (s : istream) : list ascii * istream :=
  if eofbit s || failbit s then ([], mk_istream (chars s) (eofbit s) true)
  else match skip_spaces (chars s) with
       | [] => ([], mk_istream [] true true)
       | l => let '(token, r) := take_word l in
              (token, mk_istream r (match r with [] => true | _ => false end) false)
       end.

(** [while (in) ...]: the names given to [add_interface]. *)
Fixpoint tokens (fuel : nat) (s : istream) : outcome (list (list ascii)) :=
  if failbit s then Normal []
  else match fuel with
       | O => Faulted Loop_bound
       | S fuel => let '(token, s) := extract s in obind (tokens fuel s) (fun l => Normal (token :: l))
       end.

Definition coa_interfaces (coa_iface : list ascii) : outcome (list (list ascii)) :=
  match coa_iface with
  | [] => Normal []
  | _ => tokens (length coa_iface + 2) (mk_istream coa_iface false false)
  end.

(** The words of a text: what stands between white space. *)
Fixpoint split_spaces (word : list ascii) (s : list ascii) : list (list ascii) :=
  match s with
  | [] => [rev word]
  | c :: s => if is_space c then rev word :: split_spaces [] s else split_spaces (c :: word) s
  end.
Definition words (s : list ascii) : list (list ascii) := filter (fun w => w <> []) (split_spaces [] s).

Lemma split_spaces_skip s : words s = words (skip_spaces s).
Proof.
  induction s as [|c s IH]; [done|]. cbn [skip_spaces]. destruct (is_space c) eqn:E; [|done].
  rewrite <- IH. unfold words. cbn [split_spaces]. rewrite E. cbn. done.
Qed.

Lemma split_spaces_word acc s :
  split_spaces acc s = (rev acc ++ fst (take_word s)) :: (match snd (take_word s) with [] => [] | _ :: r => split_spaces [] r end).
Proof.
  revert acc. induction s as [|c s IH]; intros acc; [cbn; by rewrite app_nil_r|]. cbn [split_spaces take_word].
  destruct (is_space c); [cbn; by rewrite app_nil_r|]. rewrite IH. destruct (take_word s) as [w r]. cbn. by rewrite <- app_assoc.
Qed.

Lemma take_word_length s : length (snd (take_word s)) <= length s.
Proof.
  induction s as [|c s IH]; cbn; [done|]. destruct (is_space c); [done|]. destruct (take_word s). cbn in *. lia.
Qed.
Lemma skip_spaces_length s : length (skip_spaces s) <= length s.
Proof. induction s as [|c s IH]; cbn; [done|]. destruct (is_space c); cbn; lia. Qed.
Lemma skip_spaces_head s c r : skip_spaces s = c :: r -> is_space c = false.
Proof.
  induction s as [|d s IH]; cbn; [done|]. destruct (is_space d) eqn:E; [done|]. by intros [= <- _].
Qed.
Lemma take_word_head s c r : snd (take_word s) = c :: r -> is_space c = true.
Proof.
  induction s as [|d s IH]; cbn; [done|]. destruct (is_space d) eqn:E; [by intros [= <- _]|]. by destruct (take_word s).
Qed.

(** The first word and what is behind it. *)
Lemma words_first s c l : skip_spaces s = c :: l ->
  words s = fst (take_word (c :: l)) :: words (snd (take_word (c :: l))).
Proof.
  intros Hs. rewrite split_spaces_skip, Hs. unfold words. rewrite split_spaces_word. cbn [rev app].
  pose proof (skip_spaces_head s c l Hs) as Hc.
  assert (Hne : fst (take_word (c :: l)) <> []) by (cbn; rewrite Hc; by destruct (take_word l)).
  rewrite filter_cons_True by done. f_equal.
  destruct (snd (take_word (c :: l))) as [|d r] eqn:Er; [done|]. apply take_word_head in Er. cbn [split_spaces]. by rewrite Er.
Qed.

Lemma tokens_words fuel s : length s + 2 <= fuel ->
  tokens fuel (mk_istream s false false) = Normal (words s ++ [[]]).
Proof.
  revert s. induction fuel as [|fuel IH]; intros s Hf; [lia|]. cbn [tokens failbit]. unfold extract. cbn [eofbit failbit chars orb].
  destruct (skip_spaces s) as [|c l] eqn:Es.
  - cbn [tokens failbit]. rewrite split_spaces_skip, Es. destruct fuel; [lia|]. done.
  - rewrite (words_first s c l Es). pose proof (take_word_length l) as Hl. pose proof (skip_spaces_length s) as Hk. rewrite Es in Hk.
    assert (Hlt : length (snd (take_word (c :: l))) < length s).
    { cbn [take_word]. rewrite (skip_spaces_head s c l Es). destruct (take_word l) as [w r]. cbn in *. lia. }
    destruct (take_word (c :: l)) as [w [|d r]] eqn:Ew; cbn [fst snd] in *.
    + destruct fuel as [|fuel]; [lia|]. cbn. destruct fuel; [lia|]. done.
    + rewrite IH by lia. done.
Qed.

(** The loop over the interfaces of the mobile node ends and gives
    [add_interface] the words of the parameter, in their order - and then, on
    every list that is not empty, one interface with an empty name: the loop
    tests the stream before it reads, and uses what it could not read. *)
Theorem interfaces_are_words (coa_iface : list ascii) :
  coa_interfaces coa_iface = Normal (match coa_iface with [] => [] | _ => words coa_iface ++ [[]] end).
Proof. destruct coa_iface as [|c l]; [done|]. unfold coa_interfaces. by apply tokens_words. Qed.

(** ** The addresses of the node. *)
Section Addresses.
Context `{Libs}.

(** Parameters of GIST, and what the daemon asks of addresses. *)
Variables (netaddress : Type) (net_of_host : hostaddress -> netaddress)
  (net_is_ip_unspec : netaddress -> bool) (host_is_ip_unspec : hostaddress -> bool).

Record gistconf := mk_gistconf {
  localaddrv4 : list hostaddress;
  localaddrv6 : list hostaddress;
  home_netprefix : netaddress;
  home_address : hostaddress;
  coa_iface : list ascii;
  homeagent_address : hostaddress;
  homeagent_address_alt : hostaddress }.

Inductive property := ConfiguredAddr_P | HomeNet_P | HomeAddr_P | HAAddr_P | AltHAAddr_P.

(** The calls of [AddressList]; a property that is not given is its default. *)
Inductive address_call :=
  | Add_host_prop (p : property)
  | Add_property (a : netaddress) (p : option property)
  | Ignore_locals
  | By_interface
  | Add_interface (name : list ascii).

Definition home_agent (a : hostaddress) (p : property) : list address_call :=
  if negb (host_is_ip_unspec a)
  then [Add_property (net_of_host a) (Some p); Add_property (net_of_host a) (Some ConfiguredAddr_P)]
  else [].

Definition startup_addresses (g : gistconf) : outcome (list address_call) :=
  obind (coa_interfaces (coa_iface g)) (fun names =>
  Normal ((match localaddrv4 g, localaddrv6 g with
           | [], [] => [Add_host_prop ConfiguredAddr_P; Add_host_prop ConfiguredAddr_P; Add_host_prop ConfiguredAddr_P]
           | _, _ => []
           end)
    ++ map (fun a => Add_property (net_of_host a) None) (localaddrv4 g)
    ++ map (fun a => Add_property (net_of_host a) None) (localaddrv6 g)
    ++ (if negb (net_is_ip_unspec (home_netprefix g)) then [Add_property (home_netprefix g) (Some HomeNet_P)] else [])
    ++ home_agent (home_address g) HomeAddr_P
    ++ concat (map (fun name => [Ignore_locals; By_interface; Add_interface name]) names)
    ++ home_agent (homeagent_address g) HAAddr_P
    ++ home_agent (homeagent_address_alt g) AltHAAddr_P)).

(** The start-up never stops at the addresses, and every local address of the
    configuration is among them. *)
Lemma startup_addresses_total g : exists l, startup_addresses g = Normal l
  /\ forall a, a ∈ localaddrv4 g ++ localaddrv6 g -> Add_property (net_of_host a) None ∈ l.
Proof.
  unfold startup_addresses, coa_interfaces. destruct (coa_iface g) as [|c l]; [|rewrite tokens_words by done]; cbn [obind];
    (eexists; split; [done|]); intros a Ha; rewrite !elem_of_app, !list_elem_of_fmap;
    (apply elem_of_app in Ha as [Ha|Ha]; [right; left|right; right; left]; by exists a).
Qed.
End Addresses.

(** ** The life of the daemon. *)
Section Life.
Context `{Libs} `{!LibsLaws} `{NetMsg} `{!NetMsgLaws} `{!ProtlibIE ie} `{!ProtlibIELaws ie} `{!Gist} `{!GistLaws}.
Context {E : Type} `{!Env E} `{!Protlib E} `{!Cqueue AnslpEvent}.

(** The registration with GIST, and [sleep]. *)
Variables (set_register : Z -> Z -> APIMsg -> APIMsg) (sleep : Z -> E -> E).

Definition registration : APIMsg := set_register NSLP_ID 0%Z (set_source INPUT_QUEUE_ADDRESS new_APIMsg).

(** [do ... while ( ! success )] *)
Fixpoint register (fuel : nat) : M E unit := fun e =>
  match fuel with
  | O => (Faulted Loop_bound, e)
  | S fuel =>
      let '(success, e) := send_to OUTPUT_QUEUE_ADDRESS registration e in
      let e := sleep 1%Z e in
      if (success : bool) then (Normal tt, e) else register fuel e
  end.

(** The environment after [n] attempts. *)
Fixpoint attempts (n : nat) (e : E) : E :=
  match n with O => e | S n => attempts n (sleep 1%Z (snd (send_to OUTPUT_QUEUE_ADDRESS registration e))) end.
Definition accepts (e : E) : bool := fst (send_to OUTPUT_QUEUE_ADDRESS registration e).

Lemma register_refused n e fuel : (forall k, k < n -> accepts (attempts k e) = false) ->
  register (n + fuel) e = register fuel (attempts n e).
Proof.
  revert e. induction n as [|n IH]; intros e Hr; [done|]. cbn [Nat.add register attempts].
  pose proof (Hr 0 ltac:(lia)) as Hr0. unfold accepts in Hr0. cbn in Hr0. destruct (send_to _ _ e) as [b e1] eqn:Es. cbn in Hr0. subst b.
  cbn [snd]. apply IH. intros k Hk. specialize (Hr (S k) ltac:(lia)). cbn in Hr. by rewrite Es in Hr.
Qed.

(** The loop ends with the first attempt GIST accepts, a second for each; as
    long as none is accepted it goes on. *)
Lemma register_ends n e fuel : (forall k, k < n -> accepts (attempts k e) = false) -> accepts (attempts n e) = true -> n < fuel ->
  register fuel e = (Normal tt, attempts (S n) e).
Proof.
  intros Hr Ha Hf. replace fuel with (n + S (fuel - n - 1)) by lia. rewrite register_refused by done.
  assert (Ht : forall n e, attempts (S n) e = sleep 1%Z (snd (send_to OUTPUT_QUEUE_ADDRESS registration (attempts n e)))).
  { clear. induction n as [|n IH]; intros e; [done|]. cbn [attempts] in *. apply IH. }
  rewrite Ht. unfold accepts in Ha. cbn [register]. destruct (send_to _ _ (attempts n e)) as [b e1]. cbn in Ha. by subst b.
Qed.

Lemma register_waits fuel e : (forall k, k < fuel -> accepts (attempts k e) = false) -> fst (register fuel e) = Faulted Loop_bound.
Proof. intros Hr. pose proof (register_refused fuel e 0 Hr) as E1. rewrite Nat.add_0_r in E1. by rewrite E1. Qed.

(** *** The installer. *)
(** [installQueue] says whether the queue is not null. *)
Definition choose_installer (is_auctioneer get_install_auction_rules installQueue : bool) : auction_rule_installer (E := E) :=
  if installQueue then
    if is_auctioneer || get_install_auction_rules then netauct_rule_installer get_install_auction_rules is_auctioneer
    else nop_auction_rule_installer
  else nop_auction_rule_installer.

(** [shutdown]: the errors of the installer are logged. *)
Definition shutdown (installer : auction_rule_installer (E := E)) : M (FastQueue (E := AnslpEvent) * E) unit :=
  catch (i_remove_all installer ;;; ret tt) (fun x => match x with Installer_error _ => ret tt | x => raise x end).

Lemma shutdown_cases is_auctioneer get_install_auction_rules installQueue s :
  shutdown (choose_installer is_auctioneer get_install_auction_rules installQueue) s
  = (if installQueue && is_auctioneer && negb get_install_auction_rules then Faulted Missing_return else Normal tt, s).
Proof. destruct s, installQueue, is_auctioneer, get_install_auction_rules; reflexivity. Qed.

Lemma choose_installer_ok is_auctioneer get_install_auction_rules installQueue :
  installer_ok (choose_installer is_auctioneer get_install_auction_rules installQueue).
Proof.
  destruct (installers_keep_contract (E := E) get_install_auction_rules is_auctioneer) as [Hn Ha].
  unfold choose_installer. by destruct installQueue, (is_auctioneer || get_install_auction_rules).
Qed.

(** *** From the start to the end.

    [installQueue] is the queue of the auctioning application, if the program
    that runs the daemon gives it one; [main] does not. *)
Variables (config : anslp_config) (is_auctioneer get_install_auction_rules : bool) (attempts_max ids_max : nat) (garbage : Z).

Lemma nothing_accounted : accounted (E := E) [] [] None.
Proof. done. Qed.
Definition first_world (q : FastQueue (E := AnslpEvent)) (e : E) : world (E := E) := mk_world [] [] None q e nothing_accounted.
Definition first_daemon (q : FastQueue (E := AnslpEvent)) (e : E) : daemon (E := E) := mk_daemon new_session_manager (first_world q e).

(** One thread: start-up, the main loop for the messages that come in, and
    the end.  The daemon that is left is the one the loop left. *)
Definition life (installQueue : bool) (msgs : list (option message)) (q : FastQueue (E := AnslpEvent)) (e : E)
  : outcome unit * daemon (E := E) :=
  match register attempts_max e with
  | (Normal _, e) =>
      let installer := choose_installer is_auctioneer get_install_auction_rules installQueue in
      match main_loop config ids_max garbage installer get_install_auction_rules msgs (first_daemon q e, tt) with
      | (Normal _, (d, _)) => (fst (shutdown installer (w_queue (outside_world d), w_env (outside_world d))), d)
      | (o, (d, _)) => (o, d)
      end
  | (o, e) => (o, first_daemon q e)
  end.

Lemma first_daemon_wf q e : daemon_wf (first_daemon q e).
Proof. split; [split; [split; [done|cbn; lia]|by intros i s]|by split]. Qed.

Lemma life_cases (installQueue : bool) (msgs : list (option message)) (q : FastQueue (E := AnslpEvent)) (e : E) (n : nat)
  (Hc : config_ok config) (Hv : Forall msg_ok msgs)
  (Hr : forall k, k < n -> accepts (attempts k e) = false) (Ha : accepts (attempts n e) = true) (Hn : n < attempts_max) :
  let installer := choose_installer is_auctioneer get_install_auction_rules installQueue in
  let d0 := first_daemon q (attempts (S n) e) in
  match life installQueue msgs q e with
  | (Normal _, d) => path (msg_step config) ∅ msgs (node_of (session_mgr d)) /\ w_stopped (outside_world d) = None
      /\ installQueue && is_auctioneer && negb get_install_auction_rules = false
  | (Raised _, _) => False
  | (Faulted f, d) =>
      (f = Missing_return /\ installQueue && is_auctioneer && negb get_install_auction_rules = true
       /\ path (msg_step config) ∅ msgs (node_of (session_mgr d)))
      \/ exists pre msg post d1, msgs = pre ++ msg :: post
           /\ main_loop config ids_max garbage installer get_install_auction_rules pre (d0, tt) = (Normal tt, (d1, tt))
           /\ msg_fault config ids_max garbage installer get_install_auction_rules d1 msg f
  end.
Proof.
  intros installer d0. unfold life. rewrite (register_ends n e attempts_max Hr Ha Hn). fold installer d0.
  pose proof (choose_installer_ok is_auctioneer get_install_auction_rules installQueue) as Hok. fold installer in Hok.
  pose proof (run_refines _ _ _ _ _ _ _ msgs d0 tt (main_loop_step_ok config ids_max garbage installer get_install_auction_rules Hok Hc)
    (first_daemon_wf q _) Hv) as Hrun.
  unfold refines_run in Hrun. change (run_events _ msgs (d0, tt)) with
    (main_loop config ids_max garbage installer get_install_auction_rules msgs (d0, tt)) in Hrun.
  destruct (main_loop _ _ _ _ _ msgs (d0, tt)) as [[u|x|f] [d []]].
  - destruct Hrun as [Hwf Hp]. unfold installer. rewrite shutdown_cases. cbn [fst].
    assert (Hp' : path (msg_step config) ∅ msgs (node_of (session_mgr d))) by exact Hp.
    destruct (installQueue && is_auctioneer && negb get_install_auction_rules); [by left|]. split_and!; [done|apply Hwf|done].
  - by destruct Hrun as (? & ? & ? & ? & ? & _ & _ & _ & [] & _).
  - right. destruct Hrun as (pre & msg & post & d1 & [] & E1 & E2 & _ & Hf). by exists pre, msg, post, d1.
Qed.

(** C9. The life of a daemon: once GIST has accepted the registration, at
    whatever attempt, the main loop takes the empty table of sessions along
    the protocols of the messages that come in, with whichever installer the
    configuration and the queue choose; then the daemon shuts down.  That
    fails in one case only: an auctioneer that installs no rules has the
    netauct installer, whose [remove_all] then ends without a return. *)
Theorem daemon_life (installQueue : bool) (msgs : list (option message)) (q : FastQueue (E := AnslpEvent)) (e : E) (n : nat)
  (Hc : config_ok config) (Hv : Forall msg_ok msgs)
  (Hr : forall k, k < n -> accepts (attempts k e) = false) (Ha : accepts (attempts n e) = true) (Hn : n < attempts_max) :
  let installer := choose_installer is_auctioneer get_install_auction_rules installQueue in
  let d0 := first_daemon q (attempts (S n) e) in
  match life installQueue msgs q e with
  | (Normal _, d) => path (msg_step config) ∅ msgs (node_of (session_mgr d)) /\ w_stopped (outside_world d) = None
      /\ installQueue && is_auctioneer && negb get_install_auction_rules = false
  | (Raised _, _) => False
  | (Faulted f, d) =>
      (f = Missing_return /\ installQueue && is_auctioneer && negb get_install_auction_rules = true
       /\ path (msg_step config) ∅ msgs (node_of (session_mgr d)))
      \/ exists pre msg post d1, msgs = pre ++ msg :: post
           /\ main_loop config ids_max garbage installer get_install_auction_rules pre (d0, tt) = (Normal tt, (d1, tt))
           /\ msg_fault config ids_max garbage installer get_install_auction_rules d1 msg f
  end.
Proof. by apply life_cases. Qed.
End Life.
