(* ===== verification/Main.v ===== *)
(** * The program: src/main.cpp

    [main] reads the command line and the configuration file and runs the
    daemon with what it read.  The reader of the file and the starter of the
    threads are protlib's: the first is the argument [load], for the second a
    daemon of one dispatcher thread is run, which is the default; more of
    them are the subject of [Threads].  [main] gives the daemon no queue of an
    auctioning application. *)
From S2P Require Import NiSession NrSession NfSession.
From S2P Require Import Prelude Outcome StdMap External Objects Store Messages Codec Parser SessionId NtlpMsg AuctionRule Aqueue Events GistMapper Session Installer SessionManager Dispatcher DispatcherSpec Daemon DaemonSpec Config Command Startup.
From stdpp Require Import gmap.
From Stdlib Require Import Ascii.

Section Main.
Context `{Libs} `{!LibsLaws} `{NetMsg} `{!NetMsgLaws} `{!ProtlibIE ie} `{!ProtlibIELaws ie} `{!Gist} `{!GistLaws}.
Context {E : Type} `{!Env E} `{!Protlib E} `{!Cqueue AnslpEvent}.
Variables (set_register : Z -> Z -> APIMsg -> APIMsg) (sleep : Z -> E -> E) (attempts_max ids_max : nat) (garbage : Z).

Abbreviation parameters := (anslp_configpar_id_t -> parameter).

(** [cfgfile.load]: the parameters after it, or [configParException]. *)
Variable load : list ascii -> parameters -> option parameters.

(** [conf->getparref<string>(anslpconf_conffilename) = file] *)
Definition set_conffilename (file : list ascii) (getpar : parameters) : parameters := fun id =>
  if decide (id = anslpconf_conffilename) then Par_string (String.string_of_list_ascii file) else getpar id.

(** What the program returns to its caller, and the daemon at the end; for
    a daemon that was not started, the one it would have begun with. *)
Definition main (options : list (ascii * list ascii)) (rest : nat) (getpar : parameters) (msgs : list (option message))
  (q : FastQueue (E := AnslpEvent)) (e : E) : outcome Z * daemon (E := E) :=
  match parse_commandline options rest (getpar_string getpar anslpconf_conffilename) with
  | inl code => (Normal code, first_daemon q e)
  | inr file =>
      match load file (set_conffilename file getpar) with
      | None => (Normal 1%Z, first_daemon q e)
      | Some conf =>
          match life set_register sleep (node_config conf) (is_auctioneer conf) (get_install_auction_rules conf)
                  attempts_max ids_max garbage false msgs q e with
          | (Normal _, d) => (Normal 0%Z, d)
          | (Raised x, d) => (Raised x, d)
          | (Faulted f, d) => (Faulted f, d)
          end
      end
  end.

(** A command line of [-c] options only, whose last file - the default one, if
    there is none - has a name. *)
Definition taken (options : list (ascii * list ascii)) (rest : nat) (name file : list ascii) : Prop :=
  Forall (fun o => fst o = "c"%char) options /\ rest = 0 /\ last (name :: map snd options) = Some file /\ file <> [].

Lemma parse_commandline_taken options rest name file :
  parse_commandline options rest name = inr file <-> taken options rest name file.
Proof.
  assert (Hf : forallb (fun o : ascii * list ascii => Ascii.eqb (fst o) "c") options = true <-> Forall (fun o => fst o = "c"%char) options).
  { rewrite forallb_forall, List.Forall_forall. setoid_rewrite Ascii.eqb_eq. done. }
  assert (Hl : exists f, last (name :: map snd options) = Some f).
  { destruct (last (name :: map snd options)) as [f|] eqn:El; [by exists f|]. by apply last_None in El. }
  destruct Hl as [f El]. rewrite parse_commandline_cases. unfold taken. rewrite El. cbn [default].
  destruct (forallb _ options && (rest =? 0)%nat && negb (bool_decide (Some f = Some []))) eqn:Eb.
  - apply andb_true_iff in Eb as [[Ec%Hf Er%Nat.eqb_eq]%andb_true_iff En%negb_true_iff%bool_decide_eq_false].
    split; [intros [= <-]; split_and!; try done; congruence|by intros (_ & _ & [= ->] & _)].
  - split; [done|]. intros (Ec & -> & [= ->] & Hne). rewrite (proj2 Hf Ec) in Eb. cbn in Eb.
    rewrite bool_decide_eq_false_2 in Eb by congruence. done.
Qed.

(** C10. The program from its command line on.  A command line that is not
    taken - an option but [-c], an argument, or no file name - ends it with 1,
    and so does a file that cannot be read; nothing has been given to GIST.
    Otherwise, once GIST has accepted the registration, it is a daemon that
    keeps the protocols of what comes in, and it returns 0 - whatever the
    parameters of the auctioneer say, because the installer is always the one
    that does nothing: the shutdown cannot fail, and no message of the run
    can end it but by a fault of the daemon itself. *)
Theorem main_runs (options : list (ascii * list ascii)) (rest : nat) (getpar : parameters) (msgs : list (option message))
  (q : FastQueue (E := AnslpEvent)) (e : E) (n : nat) (name := getpar_string getpar anslpconf_conffilename)
  (Hc : forall file conf, load file (set_conffilename file getpar) = Some conf -> config_ok (node_config conf))
  (Hv : Forall msg_ok msgs)
  (Hr : forall k, k < n -> accepts set_register (attempts set_register sleep k e) = false)
  (Ha : accepts set_register (attempts set_register sleep n e) = true) (Hn : n < attempts_max) :
  ((forall file, ~ taken options rest name file) -> main options rest getpar msgs q e = (Normal 1%Z, first_daemon q e))
  /\ forall file, taken options rest name file ->
     match load file (set_conffilename file getpar) with
     | None => main options rest getpar msgs q e = (Normal 1%Z, first_daemon q e)
     | Some conf =>
         match main options rest getpar msgs q e with
         | (Normal code, d) => code = 0%Z /\ path (msg_step (node_config conf)) ∅ msgs (node_of (session_mgr d))
             /\ w_stopped (outside_world d) = None
         | (Raised _, _) => False
         | (Faulted f, d) =>
             exists pre msg post d1, msgs = pre ++ msg :: post
             /\ main_loop (node_config conf) ids_max garbage nop_auction_rule_installer (get_install_auction_rules conf) pre
                  (first_daemon q (attempts set_register sleep (S n) e), tt) = (Normal tt, (d1, tt))
             /\ msg_fault (node_config conf) ids_max garbage nop_auction_rule_installer (get_install_auction_rules conf) d1 msg f
         end
     end.
Proof.
  unfold main. fold name. split.
  - intros Hno. destruct (parse_commandline _ _ _) as [code|file] eqn:Ep; [|by apply parse_commandline_taken, Hno in Ep].
    rewrite parse_commandline_cases in Ep. destruct (_ && _); [done|]. by injection Ep as <-.
  - intros file Ht. rewrite (proj2 (parse_commandline_taken _ _ _ _) Ht).
    destruct (load file _) as [conf|] eqn:El; [|done].
    pose proof (life_cases set_register sleep (node_config conf) (is_auctioneer conf) (get_install_auction_rules conf) attempts_max ids_max
      garbage false msgs q e n (Hc file conf El) Hv Hr Ha Hn) as Hl. cbn zeta in Hl.
    destruct (life _ _ _ _ _ _ _ _ _ _ _ _) as [[u|x|f] d]; [|done|].
    + destruct Hl as (Hp & Hs & _). by split_and!.
    + destruct Hl as [(_ & Hb & _)|(pre & msg & post & d1 & E1 & E2 & E3)]; [done|]. by exists pre, msg, post, d1.
Qed.
End Main.
