(* ===== verification/DaemonExamples.v ===== *)
(** * Daemons at work

    Daemons on a platform that counts and a GIST that takes every message: the
    theorems about daemons are applied to them. *)
From S2P Require Import NiSession NrSession NfSession NiSpec NrSpec NfSpec.
From S2P Require Import Prelude Outcome StdMap External Objects Store Messages Codec Parser SessionId NtlpMsg AuctionRule Aqueue Events GistMapper Session Installer SessionManager Dispatcher DispatcherSpec SessionExamples DispatcherExamples Daemon DaemonSpec Handshake Answer Path PathBack PathRefresh Config Command XmlKey Startup Main.
From stdpp Require Import gmap.

Module Daemon_examples.
Import Concrete Concrete_queue Codec_examples Ntlp_examples Mapper_examples Installer_examples Session_examples Dispatcher_examples.

#[export] Instance counting_protlib : Protlib Z := {|
  send_to _ _ n := (true, n);
  new_message_id n := (n, (n + 1)%Z);
  start_relative _ _ _ n := n |}.

Lemma start_accounted : accounted (E := Z) [] [] None.
Proof. done. Qed.

Definition start : world (E := Z) := mk_world [] [] None open_queue 100%Z start_accounted.
Definition idle : daemon (E := Z) := mk_daemon new_session_manager start.

Lemma idle_wf : daemon_wf idle.
Proof. split; [exact empty_wf|by split]. Qed.

Lemma gist_takes a (e : Z) : fst (send_to OUTPUT_QUEUE_ADDRESS a e) = true.
Proof. done. Qed.

Lemma nop_ok : installer_ok (E := Z) nop_auction_rule_installer.
Proof. constructor; cbn [nop_auction_rule_installer i_check i_create i_remove i_put_response i_auction_interaction];
  intros; unfold nop_auction_interaction; auto with anslp. Qed.

(** A request of the API, a routing state check, a payload that is no message, a timer nobody
    waits for, and a round without a message. *)
Definition user_request : message := Anslp_event_msg ex_sid (Some (None, Api_create_event (Ni.request 30))).
Definition inbox : list (option message) :=
  [Some user_request;  Some (Api_msg (recv (1, 2, 3, 4)%Z None true));
   Some (Api_msg (recv (1, 2, 3, 4)%Z (Some ex_garbage) false)); Some (Anslp_timer_msg ex_sid 5); None].

Lemma inbox_ok : Forall msg_ok inbox.
Proof.
  repeat apply Forall_cons_2; [..|apply Forall_nil_2]; intros m [= <-].
  - intros ev [= <-]. apply (Ni.request_valid 30). u32.
  - by intros data [=].
  - intros data [= <-]. split; [repeat constructor; unfold byte; lia|done].
  - done.
Qed.

Abbreviation ex_step := (main_loop_step conf 10 0 nop_auction_rule_installer true).

Theorem daemon_refines_protocol_witness :
  refines_run ex_step (fun d => node_of (session_mgr d)) daemon_wf (msg_step conf) (fun _ _ _ => False)
    (msg_fault conf 10 0 nop_auction_rule_installer true) inbox idle tt
  /\ size (session_table (session_mgr (fst (snd (main_loop conf 10 0 nop_auction_rule_installer true inbox (idle, tt)))))) = 1.
Proof.
  split; [|vm_compute; reflexivity].
  apply daemon_refines_protocol; [exact nop_ok|exact conf_ok|exact idle_wf|exact inbox_ok].
Defined.

(** The daemon [main] starts, from its registration to its end; and an
    auctioneer that installs no rules, which nothing has reached. *)
Definition ex_life := life (E := Z) (fun _ _ a => a) (fun _ e => e) conf.

Definition quiet_inbox : list (option message) := [Some user_request; Some (Anslp_timer_msg ex_sid 5); None].

Lemma quiet_inbox_ok : Forall msg_ok quiet_inbox.
Proof.
  pose proof inbox_ok as Hv. unfold inbox in Hv. rewrite !Forall_cons in Hv. unfold quiet_inbox. rewrite !Forall_cons. by destruct Hv as (?&?&?&?&?&?).
Qed.

Lemma ex_life_returns : fst (ex_life false true 1 10 0 false quiet_inbox open_queue 100%Z) = Normal tt.
Proof. vm_compute. reflexivity. Qed.

Theorem daemon_life_witness :
  path (msg_step conf) ∅ quiet_inbox (node_of (session_mgr (snd (ex_life false true 1 10 0 false quiet_inbox open_queue 100%Z))))
  /\ fst (ex_life true false 1 10 0 true [] open_queue 100%Z) = Faulted Missing_return.
Proof.
  split; [|vm_compute; reflexivity].
  pose proof (daemon_life (E := Z) (fun _ _ a => a) (fun _ e => e) conf false true 1 10 0 false quiet_inbox open_queue 100%Z 0
    conf_ok quiet_inbox_ok ltac:(intros k Hk; lia) eq_refl ltac:(lia)) as Hl.
  pose proof ex_life_returns as Hr. unfold ex_life in *. destruct (life _ _ _ _ _ _ _ _ _ _ _ _) as [o d]. cbn [fst snd] in *. subst o. apply Hl.
Defined.

(** The program with the default parameters: one that serves, one that is
    given an argument, and one whose file is missing. *)
Definition ex_load (file : list Ascii.ascii) (getpar : anslp_configpar_id_t -> parameter) : option (anslp_configpar_id_t -> parameter) :=
  if (1 <? length file)%nat then Some getpar else None.
Definition ex_main (options : list (Ascii.ascii * list Ascii.ascii)) (rest : nat) :=
  main (E := Z) (fun _ _ a => a) (fun _ e => e) 1 10 0 ex_load options rest default_getpar quiet_inbox open_queue 100%Z.

Theorem main_runs_witness :
  fst (ex_main [] 0) = Normal 0%Z /\ fst (ex_main [] 1) = Normal 1%Z
  /\ fst (ex_main [(Ascii.ascii_of_nat 99, [Ascii.ascii_of_nat 120])] 0) = Normal 1%Z
  /\ exists c, path (msg_step c) ∅ quiet_inbox (node_of (session_mgr (snd (ex_main [] 0)))).
Proof.
  assert (E0 : fst (ex_main [] 0) = Normal 0%Z) by (vm_compute; reflexivity).
  assert (Hmain : forall options rest, _) by
    (intros options rest; refine (main_runs (E := Z) (fun _ _ a => a) (fun _ e => e) 1 10 0 ex_load options rest default_getpar quiet_inbox
       open_queue 100%Z 0 _ quiet_inbox_ok _ eq_refl _);
     [|lia|lia]; intros file c Hl; unfold ex_load in Hl; destruct (1 <? length file)%nat; [|done]; injection Hl as <-; exact (proj1 parameters_registered_witness)).
  split; [done|]. split; [|split].
  - destruct (Hmain [] 1) as [Hno _]. unfold ex_main. rewrite Hno; [done|]. by intros file (_ & ? & _).
  - destruct (Hmain [(Ascii.ascii_of_nat 99, [Ascii.ascii_of_nat 120])] 0) as [_ Hf]. unfold ex_main.
    specialize (Hf [Ascii.ascii_of_nat 120]). rewrite Hf; [done|]. split_and!; [by repeat constructor|done|done|done].
  - destruct (Hmain [] 0) as [_ Hf]. unfold ex_main in *.
    destruct (last [getpar_string default_getpar anslpconf_conffilename]) as [file|] eqn:El; [|done].
    specialize (Hf file). injection El as El. destruct (main _ _ _ _ _ _ _ _ _ _ _ _) as [o d]. cbn [fst snd] in *. subst o.
    assert (Ht : taken [] 0 (getpar_string default_getpar anslpconf_conffilename) file) by (subst file; split_and!; done).
    specialize (Hf Ht). subst file. destruct Hf as (_ & Hp & _). eexists. exact Hp.
Defined.

(** A CREATE with a lifetime and an information code: the parser takes it,
    the session it opens does not. *)
Definition ex_stray : list Z := [1; 0; 0; 0;  0; 0xF8; 0; 1; 0; 0; 0; 30;  0; 0xF4; 0; 1; 2; 1; 0; 0]%Z.

Lemma stray_payload_stops_daemon :
  fst (ex_step (Some (Api_msg (recv (1, 2, 3, 4)%Z (Some ex_stray) false))) (idle, tt)) = Faulted Null_dereference.
Proof. vm_compute. reflexivity. Qed.

(** A node asks for a session; another gets the payload. *)
Theorem session_setup_witness :
  exists id data ns dA', ex_step (Some user_request) (idle, tt) = (Normal tt, (dA', tt))
    /\ length (w_sent (outside_world dA')) = 1
    /\ (forall a, delivers data ns (Pathcoupled ex_pc) a ->
         match ex_step (Some (Api_msg a)) (idle, tt) with
         | (Normal _, (dB', _)) => exists s', session_table (session_mgr dB') !! id = Some (Nr_session s')
             /\ NrSession.lifetime s' = 30%Z
         | (Raised _, _) => False
         | (Faulted _, _) => True
         end).
Proof.
  destruct (session_setup (E := Z) gist_takes conf conf 10 10 0 0 nop_auction_rule_installer
    nop_auction_rule_installer true true nop_ok nop_ok idle tt ex_sid (Ni.request 30) 0)
    as (id & s & c & data & ns & sii & dA' & Hrun & Hfree & _ & _ & _ & Hsent & Hdel).
  - exact conf_ok.
  - exact conf_ok.
  - exact idle_wf.
  - apply Ni.request_valid. u32.
  - reflexivity.
  - reflexivity.
  - reflexivity.
  - intros i n. reflexivity.
  - apply Nat.leb_le. vm_compute. reflexivity.
  - vm_compute. repeat (constructor; [by set_solver|]). constructor.
  - reflexivity.
  - exists id, data, ns, dA'. split; [exact Hrun|]. split; [by rewrite Hsent|].
    intros a Ha. pose proof (Hdel a (Pathcoupled ex_pc) ex_pc idle tt Ha eq_refl idle_wf Hfree) as Hb. revert Hb.
    destruct (ex_step (Some (Api_msg a)) (idle, tt)) as [[[]|x|f] [dB' u']]; [|done|done].
    intros (s' & Hs' & Hl & _). exists s'. split; [exact Hs'|]. exact Hl.
Defined.

(** A request that selects the first node only, and two forwarders with
    maxima of their own on the way. *)
Definition far_request : api_create_data :=
  mk_api_create [] (mk_addressing 1 2 1000 2000 6)%Z 30 sme_first ex_objs (Some 0).

Definition ex_hop (max : Z) : hop (E := Z) :=
  mk_hop (mk_config Ni.conf (NfSession.mk_nf_config max) Nr.conf false) 10 0 nop_auction_rule_installer true idle (Pathcoupled ex_pc)
    (fun data ns => mk_api None RecvMessage (Some ns) (Some data) false (Some (Pathcoupled ex_pc)) 5 false (Other_error 0) None).

Lemma ex_hop_ok id max : is_u32 max -> (0 < max)%Z -> hop_ok id (ex_hop max).
Proof.
  intros Hu Hmax. split_and!; try done; try apply conf_ok; [exact nop_ok|exact idle_wf|by exists ex_pc].
Qed.

Theorem path_setup_witness :
  exists id k data ns dA', ex_step (Some (Anslp_event_msg ex_sid (Some (None, Api_create_event far_request)))) (idle, tt)
      = (Normal tt, (dA', tt))
    /\ length (w_sent (outside_world dA')) = 1
    /\ crosses id (NiSession.ni_msg_hop_count (ni_conf conf)) sme_first k (map snd ex_objs) [ex_hop 20; ex_hop 40] data ns 30 (fun data' ns' lt =>
         forall a, delivers data' ns' (Pathcoupled ex_pc) a ->
         match ex_step (Some (Api_msg a)) (idle, tt) with
         | (Normal _, (dB', _)) => exists s', session_table (session_mgr dB') !! id = Some (Nr_session s')
             /\ NrSession.lifetime s' = Z.min lt 60
         | (Raised _, _) => False
         | (Faulted _, _) => True
         end).
Proof.
  destruct (path_setup (E := Z) gist_takes conf conf 10 10 0 0 nop_auction_rule_installer
    nop_auction_rule_installer true true nop_ok nop_ok idle tt ex_sid far_request 0)
    as (id & s & k & data & ns & sii & dA' & Hrun & Hfree & _ & _ & _ & Hsent & Hpath).
  - exact conf_ok.
  - exact conf_ok.
  - exact idle_wf.
  - split_and!; [exact ex_objs_wf|done|u32].
  - reflexivity.
  - reflexivity.
  - reflexivity.
  - intros i n. reflexivity.
  - apply Nat.leb_le. vm_compute. reflexivity.
  - vm_compute. repeat (constructor; [by set_solver|]). constructor.
  - reflexivity.
  - reflexivity.
  - exists id, k, data, ns, dA'. split; [exact Hrun|]. split; [by rewrite Hsent|].
    eapply crosses_mono; [|apply Hpath; repeat apply Forall_cons_2; [apply ex_hop_ok; first [u32|lia]..|apply Forall_nil_2]].
    intros data' ns' lt Hdel a Ha. pose proof (Hdel a (Pathcoupled ex_pc) ex_pc idle tt Ha eq_refl idle_wf Hfree) as Hb. revert Hb.
    destruct (ex_step (Some (Api_msg a)) (idle, tt)) as [[[]|x|f] [dB' u']]; [|done|done].
    intros (s' & n & Hs' & _ & _ & _ & Hl & _). exists s'. split; [exact Hs'|]. exact Hl.
Defined.

(** A daemon with a single session. *)
Definition busy (s : session) : daemon (E := Z) := mk_daemon (add_session s new_session_manager) start.

Lemma busy_wf s : session_wf s -> is_final s = false -> daemon_wf (busy s).
Proof.
  intros Hs Hf. split; [|by split]. split; [split; [|cbn; lia]|].
  - intros i s' Hi. cbn in Hi. apply lookup_insert_Some in Hi as [[<- <-]|[_ Hi]]; [by split|by rewrite lookup_empty in Hi].
  - cbn. apply map_Forall_insert_2; [done|apply map_Forall_empty].
Qed.

(** The responder's application confirms and installs; whoever gets the
    payload at the waiting initiator has the two objects. *)
Definition ex_asked : NrSession.nr_session := Nr.under_way NrSession.STATE_ANSLP_PENDING ex_rule.

Definition ex_confirmation : message := Anslp_event_msg ex_sid (Some (Some ex_sid, Api_check_event ex_objs None)).

Lemma ex_installer_runs :
  is_some (session_table (session_mgr (fst (snd (ex_step (Some ex_confirmation) (busy (Nr_session ex_asked), tt))))) !! ex_sid) = true.
Proof. vm_compute. reflexivity. Qed.

(** A forwarder on the way back that waits for the answer. *)
Definition ex_forwarding : NfSession.nf_session := Nf.under_way NfSession.STATE_ANSLP_PENDING ex_rule.

Definition ex_answering : answering_hop (E := Z) :=
  mk_answering (mk_hop conf 10 0 nop_auction_rule_installer true (busy (Nf_session ex_forwarding)) (Pathcoupled ex_pc)
      (fun data ns => mk_api None RecvMessage (Some ns) (Some data) false (Some (Pathcoupled ex_pc)) 5 true (Other_error 0) None))
    ex_forwarding ex_rule ex_objs.

Lemma ex_answering_ok : answering_ok ex_sid 77 ex_answering.
Proof.
  split; [exact nop_ok|]. split; [exact conf_ok|].
  split; [apply busy_wf; [exact (Nf.nf_under_way_wf _ _)|reflexivity]|].
  split; [apply lookup_insert_eq|]. split.
  - split; [reflexivity|]. split; [reflexivity|]. split; [reflexivity|]. exists ex_ntlp, ex_create. repeat split; reflexivity.
  - split; [exact ex_objs_wf|]. split; [reflexivity|]. intros data ns. repeat split.
Qed.

Theorem path_answered_witness :
  exists dB1 dB2 data ns (mine : objectList_t),
    ex_step (Some ex_confirmation) (busy (Nr_session ex_asked), tt) = (Normal tt, (dB1, tt))
    /\ ex_step (Some (Anslp_event_msg ex_sid (Some (Some ex_sid, Api_install_event ex_objs None)))) (dB1, tt) = (Normal tt, (dB2, tt))
    /\ length (w_sent (outside_world dB2)) = 1
    /\ returns ex_sid [ex_answering] data ns (map snd mine) (fun data' ns' l =>
         forall a, hands_over data' ns' (Pathcoupled ex_pc) a ->
           exists dA', ex_step (Some (Api_msg a)) (busy (Ni_session Ni.waiting), tt) = (Normal tt, (dA', tt))
             /\ answered nop_auction_rule_installer true ex_sid (NrSession.lifetime ex_asked) l (session_mgr dA')).
Proof.
  destruct (path_answered (E := Z) gist_takes conf conf 10 10 0 0 nop_auction_rule_installer
    nop_auction_rule_installer true true nop_ok nop_ok (busy (Nr_session ex_asked)) tt ex_sid ex_sid ex_sid ex_asked
    ex_ntlp 77 ex_rule ex_objs ex_objs None None [ex_answering])
    as (dB1 & Hrun1 & Hnext).
  - exact conf_ok.
  - apply busy_wf; [|reflexivity]. apply Nr.nr_under_way_wf; [by right|done].
  - split_and!; u32.
  - apply lookup_insert_eq.
  - split_and!; try reflexivity. eexists. split_and!; reflexivity.
  - repeat constructor.
  - exact ex_objs_wf.
  - exact ex_objs_wf.
  - reflexivity.
  - reflexivity.
  - apply Forall_cons_2; [exact ex_answering_ok|apply Forall_nil_2].
  - pose proof ex_installer_runs as Hlive. unfold ex_confirmation in *. rewrite Hrun1 in Hlive.
    destruct Hnext as [[Hgone _]|(dB2 & s2 & data & ns & mine & Hrun2 & _ & _ & _ & _ & Hsent & Hback)];
      [exfalso; cbn [fst snd] in Hlive; by rewrite Hgone in Hlive|].
    exists dB1, dB2, data, ns, mine. split; [exact Hrun1|]. split; [exact Hrun2|]. split; [by rewrite Hsent|].
    eapply returns_mono; [|exact Hback]. intros data' ns' l Hdel a Ha.
    destruct (Hdel a (Pathcoupled ex_pc) (busy (Ni_session Ni.waiting)) Ni.waiting tt Ha) as (dA' & Hrun & _ & Hans).
    + apply busy_wf; [exact Ni.waiting_wf|reflexivity].
    + apply lookup_insert_eq.
    + split; [reflexivity|]. eexists _, _. split_and!; reflexivity.
    + exists dA'. split; [exact Hrun|exact Hans].
Defined.

(** The application at the initiator, which has no rules installed, tears its
    session down; a forwarder and the responder have rules. *)
Definition ex_leaving : NiSession.ni_session :=
  NiSession.set_base (set_msn 77 (set_rule (Some ex_rule) (NiSession.base Ni.auctioning))) Ni.auctioning.
Definition ex_carrying : NfSession.nf_session := Nf.under_way NfSession.STATE_ANSLP_AUCTIONING ex_installed_rule.
Definition ex_teardown : message := Anslp_event_msg ex_sid (Some (Some ex_sid, Api_teardown_event)).

Lemma ex_leaving_wf : NiSpec.ni_wf ex_leaving.
Proof. unfold NiSpec.ni_wf; cbn; split_and!; try u32; try done; by eexists. Qed.

Definition ex_handed (data : list Z) (ns : sessionid) : APIMsg :=
  mk_api None RecvMessage (Some ns) (Some data) false (Some (Pathcoupled ex_pc)) 5 true (Other_error 0) None.

Definition ex_refreshing : refreshing_hop (E := Z) :=
  mk_refreshing (mk_hop conf 10 0 nop_auction_rule_installer true (busy (Nf_session ex_carrying)) (Pathcoupled ex_pc) ex_handed)
    ex_carrying ex_installed_rule (Pathcoupled ex_pc) ex_handed.

Lemma ex_refreshing_ok : refreshing_ok ex_sid 78 ex_refreshing.
Proof.
  split; [exact nop_ok|]. split; [exact conf_ok|].
  split; [apply busy_wf; [exact (Nf.nf_under_way_wf _ _)|reflexivity]|].
  split; [apply lookup_insert_eq|]. split; [reflexivity|]. split; [reflexivity|]. split; [vm_compute; reflexivity|].
  split; intros data ns; repeat split.
Qed.

Theorem path_refreshed_witness :
  exists dA1 dF1 dB1 dF2 dA2 data1 ns1 data2 ns2 data3 ns3 data4 ns4,
    ex_step (Some ex_teardown) (busy (Ni_session ex_leaving), tt) = (Normal tt, (dA1, tt))
    /\ ex_step (Some (Api_msg (ex_handed data1 ns1))) (busy (Nf_session ex_carrying), tt) = (Normal tt, (dF1, tt))
    /\ ex_step (Some (Api_msg (ex_handed data2 ns2))) (busy (Nr_session Nr.auctioning), tt) = (Normal tt, (dB1, tt))
    /\ ex_step (Some (Api_msg (ex_handed data3 ns3))) (dF1, tt) = (Normal tt, (dF2, tt))
    /\ ex_step (Some (Api_msg (ex_handed data4 ns4))) (dA1, tt) = (Normal tt, (dA2, tt))
    /\ session_table (session_mgr dA2) !! ex_sid = None.
Proof.
  destruct (path_refreshed (E := Z) gist_takes conf conf 10 10 0 0 nop_auction_rule_installer nop_auction_rule_installer true true
    nop_ok nop_ok (busy (Ni_session ex_leaving)) (busy (Nr_session Nr.auctioning)) tt tt ex_teardown ex_sid Api_teardown_event
    ex_leaving Nr.auctioning ex_rule ex_installed_rule (Pathcoupled ex_pc) (Pathcoupled ex_pc) ex_handed ex_handed [ex_refreshing])
    as (dA1 & s & data1 & ns1 & route & E1 & _ & _ & _ & dF1 & sF & data2 & ns2 & E2 & _ & _ & _
        & dB1 & data3 & ns3 & E3 & _ & _ & dF2 & data4 & ns4 & E4 & _ & _ & dA2 & E5 & _ & Hend).
  - exact conf_ok.
  - apply busy_wf; [exact ex_leaving_wf|reflexivity].
  - apply busy_wf; [exact Nr.auctioning_wf|reflexivity].
  - split_and!; u32.
  - apply lookup_insert_eq.
  - reflexivity.
  - reflexivity.
  - by right.
  - done.
  - reflexivity.
  - apply lookup_insert_eq.
  - reflexivity.
  - reflexivity.
  - vm_compute. reflexivity.
  - done.
  - intros data ns. repeat split.
  - intros data ns. repeat split.
  - apply Forall_cons_2; [exact ex_refreshing_ok|apply Forall_nil_2].
  - exists dA1, dF1, dB1, dF2, dA2, data1, ns1, data2, ns2, data3, ns3, data4, ns4.
    split; [exact E1|]. split; [exact E2|]. split; [exact E3|]. split; [exact E4|]. split; [exact E5|].
    destruct (proj2 Hend eq_refl) as [[_ Hgone]|[Hno _]]; [exact Hgone|done].
Defined.

Theorem xml_object_key_order_witness :
  xml_object_key_ltb (mk_xml_key 1 [98]%Z) (mk_xml_key 2 [97]%Z) = true
  /\ xml_object_key_ltb (mk_xml_key 2 [97]%Z) (mk_xml_key 1 [98]%Z) = true.
Proof.
  apply (xml_object_key_order (mk_xml_key 1 [98]%Z) (mk_xml_key 2 [97]%Z) (mk_xml_key 1 [])%Z); reflexivity.
Defined.
End Daemon_examples.
