(* ===== verification/Sequential.v ===== *)
(** * One worker at a time is the dispatcher

    [Dispatcher.process] handles an event as a whole; [Threads] cuts it into
    the steps between which threads interleave.  When no worker takes an
    event before the last one is dealt with, the steps are those of
    [Dispatcher.process]: the same sessions, done sessions, world and faults,
    whichever worker takes which event.  No law of the environment is used. *)
From S2P Require Import NiSession NrSession NfSession.
From S2P Require Import Prelude Outcome StdMap External Objects Store Messages SessionId NtlpMsg AuctionRule Events Session SessionManager Dispatcher DispatcherSpec Threads Locks.
From stdpp Require Import gmap.

Section Sequential.
Context `{Libs} {W : Type} `{!Dispatcher W} `{!Platform W}.
Context (send_receive_answer : session_id -> mri -> M W unit).
Variables (config : anslp_config) (fuel : nat) (garbage : Z).

Abbreviation incoming := (option session_id * event)%type.
Abbreviation execute := (Threads.execute send_receive_answer config fuel garbage).
Abbreviation run := (Threads.run send_receive_answer config fuel garbage).
Abbreviation dispatch := (DispatcherSpec.dispatch send_receive_answer config fuel garbage).
Implicit Types (P : pool (W := W)) (t : thread) (p q : pointer) (ev : incoming) (c : position) (x : shared_session) (w : W).

(** ** The session manager of a pool. *)
Definition objects_at P (l : list pointer) : list session := omap (fun p => object <$> heap P !! p) l.
Definition sequential P : session_manager := mk_manager (session_table (manager P)) (objects_at P (finished P)).

Record stored P : Prop := {
  st_table : forall i p, table P !! i = Some p -> exists x, heap P !! p = Some x /\ get_id (object x) = i /\ ~ (p ∈ finished P);
  st_finished : Forall (fun p => is_Some (heap P !! p)) (finished P);
  st_nodup : NoDup (finished P);
  st_next : forall p x, heap P !! p = Some x -> p < next P }.
Definition unlocked P : Prop := forall i p x, table P !! i = Some p -> heap P !! p = Some x -> lock_ x = None.

Lemma sequential_lookup P i : session_table (sequential P) !! i = (p ← table P !! i; object <$> heap P !! p).
Proof. cbn. by rewrite lookup_omap. Qed.

Lemma sequential_eq P m : (forall i, session_table (sequential P) !! i = session_table m !! i) -> objects_at P (finished P) = sessionDone m ->
  sequential P = m.
Proof. intros Ht Hd. destruct m as [tb dn]. unfold sequential. cbn in Hd. rewrite Hd. f_equal. by apply map_eq. Qed.

Lemma objects_at_set p x P l : p ∉ l -> objects_at (set_shared p x P) l = objects_at P l.
Proof.
  intros Hn. apply list_omap_ext, Forall_Forall2_diag, Forall_forall. intros q Hq. cbn. by rewrite lookup_insert_ne by (intros ->; done).
Qed.

(** A session is written to. *)
Lemma sequential_set P i p x s l : stored P -> table P !! i = Some p -> heap P !! p = Some x -> get_id s = i ->
  sequential (set_shared p (mk_shared s l) P) = add_session s (sequential P) /\ stored (set_shared p (mk_shared s l) P).
Proof.
  intros Hs Hi Hx Hid. destruct (st_table _ Hs i p Hi) as (x' & Hx' & Hxi & Hnf). rewrite Hx in Hx'. injection Hx' as <-.
  assert (Hinj : forall j, table P !! j = Some p -> j = i).
  { intros j Hj. destruct (st_table _ Hs j p Hj) as (y & Hy & Hyj & _). congruence. }
  split; [|split].
  - apply sequential_eq; [|by apply objects_at_set]. intros j. rewrite sequential_lookup. cbn -[get_id]. rewrite Hid. destruct (decide (j = i)) as [->|Hne].
    + rewrite Hi, lookup_insert_eq. cbn. by rewrite lookup_insert_eq.
    + rewrite lookup_insert_ne by done. rewrite lookup_omap. destruct (table P !! j) as [q|] eqn:Ej; [|done]. cbn.
      rewrite lookup_insert_ne; [done|]. intros ->. by apply Hne, Hinj.
  - intros j q Hj. cbn in Hj |- *. destruct (decide (q = p)) as [->|Hne].
    + exists (mk_shared s l). rewrite lookup_insert_eq. split_and!; [done|rewrite (Hinj j Hj); done|done].
    + rewrite lookup_insert_ne by done. by apply (st_table _ Hs).
  - cbn. eapply Forall_impl; [apply (st_finished _ Hs)|]. cbn. intros q Hq. destruct (decide (q = p)) as [->|Hne].
    + rewrite lookup_insert_eq. by eexists.
    + by rewrite lookup_insert_ne.
  - apply (st_nodup _ Hs).
  - intros q y. cbn. rewrite lookup_insert_Some. intros [[<- _]|[_ Hy]]; by eapply (st_next _ Hs).
Qed.

(** A session is created. *)
Lemma sequential_new P s : stored P -> sequential (file_new s P) = add_session s (sequential P) /\ stored (file_new s P).
Proof.
  intros Hs.
  assert (Hold : forall p x, heap P !! p = Some x -> <[next P := mk_shared s None]> (heap P) !! p = Some x).
  { intros p x Hx. apply (st_next _ Hs) in Hx as Hp. rewrite lookup_insert_ne by lia. done. }
  assert (Hfin : forall q, q ∈ finished P -> q <> next P).
  { intros q Hq ->. pose proof (st_finished _ Hs) as Hf. rewrite Forall_forall in Hf. destruct (Hf _ Hq) as [x Hx].
    apply (st_next _ Hs) in Hx. lia. }
  split; [|split].
  - apply sequential_eq.
    + intros j. rewrite sequential_lookup. cbn -[get_id]. destruct (decide (j = get_id s)) as [->|Hne].
      * rewrite !lookup_insert_eq. cbn. by rewrite lookup_insert_eq.
      * rewrite !lookup_insert_ne by done. rewrite lookup_omap. destruct (table P !! j) as [q|] eqn:Ej; [|done]. cbn.
        destruct (st_table _ Hs j q Ej) as (y & Hy & _). by rewrite (Hold q y Hy), Hy.
    + apply (objects_at_set (next P) (mk_shared s None) P). intros Hn. by apply (Hfin _ Hn).
  - intros j q Hj. cbn -[get_id] in Hj |- *. apply lookup_insert_Some in Hj as [[<- <-]|[Hne Hj]].
    + exists (mk_shared s None). rewrite lookup_insert_eq. split_and!; [done|done|]. intros Hn. by apply (Hfin _ Hn).
    + destruct (st_table _ Hs j q Hj) as (y & Hy & Hyj & Hn). exists y. by rewrite (Hold q y Hy).
  - cbn. eapply Forall_impl; [apply (st_finished _ Hs)|]. cbn. intros q [y Hy]. rewrite (Hold q y Hy). by eexists.
  - apply (st_nodup _ Hs).
  - intros q y. cbn. rewrite lookup_insert_Some. intros [[<- _]|[_ Hy]]; [lia|]. apply (st_next _ Hs) in Hy. lia.
Qed.

(** A session is removed. *)
Lemma objects_at_length P l : Forall (fun p => is_Some (heap P !! p)) l -> length (objects_at P l) = length l.
Proof. unfold objects_at. induction 1 as [|p l [x Hx] _ IH]; [done|]. cbn. rewrite Hx. cbn. by rewrite IH. Qed.

Lemma objects_at_delete h P P' l : h ∉ l -> heap P' = delete h (heap P) -> objects_at P' l = objects_at P l.
Proof.
  intros Hn Hh. apply list_omap_ext, Forall_Forall2_diag, Forall_forall. intros q Hq. rewrite Hh.
  by rewrite lookup_delete_ne by (intros ->; done).
Qed.

Lemma sequential_removed P i p x : stored P -> table P !! i = Some p -> heap P !! p = Some x ->
  sequential (store_done p (erase i P))
    = store_session_asdone (object x) (mk_manager (delete i (session_table (sequential P))) (sessionDone (sequential P)))
  /\ stored (store_done p (erase i P)).
Proof.
  intros Hs Hi Hx. destruct (st_table _ Hs i p Hi) as (x' & Hx' & Hxi & Hnf). rewrite Hx in Hx'. injection Hx' as <-.
  set (done := finished P ++ [p]).
  assert (Hlive : Forall (fun q => is_Some (heap P !! q)) done).
  { apply Forall_app. split; [apply (st_finished _ Hs)|]. by repeat constructor. }
  assert (Hnd : NoDup done).
  { apply NoDup_app. split_and!; [apply (st_nodup _ Hs)| |apply NoDup_singleton]. by intros q Hq ->%list_elem_of_singleton. }
  assert (Hobj : objects_at P done = sessionDone (sequential P) ++ [object x]).
  { unfold objects_at, done. rewrite omap_app. cbn. by rewrite Hx. }
  assert (Htab : forall P', table P' = delete i (table P) -> (forall j q, table P !! j = Some q -> j <> i -> heap P' !! q = heap P !! q) ->
    forall j, session_table (sequential P') !! j = delete i (session_table (sequential P)) !! j).
  { intros P' Ht Hh j. rewrite sequential_lookup, Ht. destruct (decide (j = i)) as [->|Hne]; [by rewrite !lookup_delete_eq|].
    rewrite !lookup_delete_ne by done. rewrite sequential_lookup. destruct (table P !! j) as [q|] eqn:Ej; [|done]. cbn. by erewrite Hh. }
  assert (Hout : forall j q, delete i (table P) !! j = Some q -> j <> i /\ table P !! j = Some q /\ q ∉ done).
  { intros j q [Hne Hj]%lookup_delete_Some. split_and!; [done|done|]. unfold done. rewrite elem_of_app, list_elem_of_singleton.
    destruct (st_table _ Hs j q Hj) as (y & Hy & Hyj & Hn). intros [?| ->]; [done|]. congruence. }
  assert (Hlen : length (sessionDone (sequential P) ++ [object x]) = length done) by (rewrite <- Hobj; by apply objects_at_length).
  unfold store_done, store_session_asdone. cbn [finished erase sessionDone]. fold done. rewrite Hlen.
  destruct (DONE_SESSION_LIST_SIZE <? length done)%nat eqn:Esz.
  - destruct done as [|h l] eqn:Ed; [by destruct (finished P)|]. apply NoDup_cons in Hnd as [Hh Hnd]. apply Forall_cons in Hlive as [[y Hy] Hlive].
    split; [|split].
    + apply sequential_eq.
      * apply Htab; [done|]. intros j q Hj Hne. cbn. rewrite lookup_delete_ne; [done|]. intros <-.
        destruct (Hout j h) as (_ & _ & Hn); [by rewrite lookup_delete_ne|]. apply Hn. by left.
      * cbn [sessionDone finished tail]. rewrite <- Hobj. unfold objects_at at 2. cbn. rewrite Hy. cbn. by apply (objects_at_delete h P).
    + intros j q Hj. cbn in Hj |- *. destruct (Hout j q Hj) as (Hne & Hj' & Hn). destruct (st_table _ Hs j q Hj') as (z & Hz & Hzj & _).
      exists z. rewrite lookup_delete_ne by (intros <-; apply Hn; by left). split_and!; [done|done|]. intros Hq. apply Hn. by right.
    + cbn. apply Forall_forall. intros q Hq. rewrite Forall_forall in Hlive. rewrite lookup_delete_ne by (intros <-; done). by apply Hlive.
    + done.
    + intros q z. cbn. rewrite lookup_delete_Some. intros [_ Hz]. by eapply (st_next _ Hs).
  - split; [|split].
    + apply sequential_eq; [by apply Htab|]. cbn [sessionDone finished]. by rewrite <- Hobj.
    + intros j q Hj. cbn in Hj |- *. destruct (Hout j q Hj) as (Hne & Hj' & Hn). destruct (st_table _ Hs j q Hj') as (z & Hz & Hzj & _). by exists z.
    + done.
    + done.
    + apply (st_next _ Hs).
Qed.

(** A session is opened: [create_session] looks at the table only. *)
Lemma create_session_seq m1 m2 ev w : session_table m1 = session_table m2 ->
  match create_session config fuel garbage (fst ev) (snd ev) (m1, w), create_session config fuel garbage (fst ev) (snd ev) (m2, w) with
  | (Normal (Some s), (_, w1)), (o, (m, w2)) => o = Normal (Some s) /\ m = add_session s m2 /\ w2 = w1
  | (Normal None, (_, w1)), (o, (m, w2)) => o = Normal None /\ m = m2 /\ w2 = w1
  | (Raised e, _), (o, _) => o = Raised e
  | (Faulted f, _), (o, _) => o = Faulted f
  end.
Proof.
  destruct m1 as [tb d1], m2 as [tb2 d2], ev as [id evt]. cbn [session_table fst snd]. intros <-.
  unfold create_session, create_ni_session, create_nr_session, create_nf_session, bind, the, outside, update, deref, ret, trip.
  cbv beta iota delta [session_table].
  destruct (is_api_create evt).
  - destruct (create_unique_id fuel tb w) as [[i|e|f] w1]; cbn beta iota; [|done..].
    by destruct (create_random_number w1) as [[n|e|f] w2].
  - destruct (is_anslp_create evt); [|done]. destruct id as [i|]; [|done]. cbn beta iota.
    destruct (is_for_this_node evt), (nf_is_edge config); cbn beta iota; by destruct (create_random_number w) as [[n|e|f] w2].
Qed.

(** ** The steps of one worker. *)
Abbreviation go t := (Step t).

Lemma execute_at t c P : workers P !! t = Some c -> execute (Step t) P =
  match c with
  | Waiting => Normal P
  | Looking ev => look send_receive_answer t ev P
  | Creating ev => create config fuel garbage t ev P
  | Acquiring p ev => use p P (fun x => match acquire t (lock_ x) with
                                        | Some m => Normal (goto t (Processing p ev) (set_shared p (mk_shared (object x) m) P))
                                        | None => Normal P
                                        end)
  | Processing p ev => handle t p ev P
  | Releasing p => use p P (fun x => Normal (goto t (Checking p) (set_shared p (mk_shared (object x) (release (lock_ x))) P)))
  | Checking p => use p P (fun x => Normal (goto t (if is_final (object x) then Removing p else Waiting) P))
  | Removing p => Threads.remove t p P
  end.
Proof.
  intros Ht. unfold Threads.execute, Threads.step. rewrite Ht. destruct c; try done. cbn. unfold use.
  destruct (heap P !! p) as [x|]; [|done]. by destruct (acquire t (lock_ x)).
Qed.

Lemma at_goto t c P : t < length (workers P) -> workers (goto t c P) !! t = Some c.
Proof. intros Hl. cbn. by apply list_lookup_insert_eq. Qed.

Lemma waits k t P : workers P !! t = Some Waiting -> run (replicate k (go t)) P = Normal P.
Proof. intros Ht. induction k as [|k IH]; [done|]. cbn [replicate Threads.run]. by rewrite (execute_at t _ P Ht). Qed.

(** A pool is as another but for the position of the workers. *)
Definition same_store P P' : Prop :=
  heap P' = heap P /\ next P' = next P /\ table P' = table P /\ finished P' = finished P /\ surroundings P' = surroundings P.

(** What is left when worker [t] has dealt with its event: it waits, the
    others are where they were. *)
Definition leaves t P (w : W) (m : session_manager) P' : Prop :=
  workers P' = <[t := Waiting]> (workers P) /\ surroundings P' = w /\ sequential P' = m /\ stored P' /\ unlocked P'.

Lemma unlocked_set p s P : unlocked P -> unlocked (set_shared p (mk_shared s None) P).
Proof.
  intros Hu i q x Hi Hx. cbn in Hi, Hx. apply lookup_insert_Some in Hx as [[_ <-]|[_ Hx]]; [done|by eapply Hu].
Qed.

(** The heap of a pool of which the session at [p] alone may be locked. *)
Lemma unlocked_removed p i P : stored P -> table P !! i = Some p ->
  (forall j q x, table P !! j = Some q -> heap P !! q = Some x -> q <> p -> lock_ x = None) ->
  unlocked (store_done p (erase i P)).
Proof.
  intros Hs Hi Hu j q x Hj Hx. apply store_done_heap in Hx. destruct (store_done_same p (erase i P)) as (_ & Et & _).
  rewrite Et in Hj. cbn in Hj, Hx. apply lookup_delete_Some in Hj as [Hne Hj]. eapply Hu; [done|done|]. intros ->. apply Hne.
  destruct (st_table _ Hs i p Hi) as (y & Hy & Hyi & _), (st_table _ Hs j p Hj) as (z & Hz & Hzj & _). congruence.
Qed.

Create Rewrite HintDb pools.
(** Pools that are written to more than once. *)
Lemma goto_goto t c c' P : goto t c (goto t c' P) = goto t c P.
Proof. unfold goto. cbn. by rewrite list_insert_insert_eq. Qed.
Lemma set_set p x y P : set_shared p x (set_shared p y P) = set_shared p x P.
Proof. unfold set_shared. cbn. by rewrite insert_insert_eq. Qed.
Lemma set_goto p x t c P : set_shared p x (goto t c P) = goto t c (set_shared p x P).
Proof. done. Qed.
Lemma set_world p x w P : set_shared p x (set_surroundings w P) = set_surroundings w (set_shared p x P).
Proof. done. Qed.
Lemma world_goto w t c P : set_surroundings w (goto t c P) = goto t c (set_surroundings w P).
Proof. done. Qed.
Lemma removed_goto p i t c P : store_done p (erase i (goto t c P)) = goto t c (store_done p (erase i P)).
Proof. unfold store_done. cbn [finished erase goto]. by destruct (DONE_SESSION_LIST_SIZE <? _)%nat. Qed.
Lemma heap_set p x P : heap (set_shared p x P) !! p = Some x.
Proof. cbn. apply lookup_insert_eq. Qed.
#[local] Hint Rewrite goto_goto set_set set_goto set_world world_goto removed_goto : pools.

Lemma stored_same P P' : heap P' = heap P -> next P' = next P -> table P' = table P -> finished P' = finished P -> stored P -> stored P'.
Proof. intros E1 E2 E3 E4 []. split; rewrite ?E1, ?E2, ?E3, ?E4; auto. Qed.

(** The worker at its session: with or without the removal. *)
Lemma leaves_kept t P i p x s w : stored P -> unlocked P -> table P !! i = Some p -> heap P !! p = Some x -> get_id s = i ->
  leaves t P w (add_session s (sequential P)) (goto t Waiting (set_surroundings w (set_shared p (mk_shared s None) P))).
Proof.
  intros Hs Hu Hi Hx Hid. destruct (sequential_set P i p x s None Hs Hi Hx Hid) as [Es Hs'].
  split_and!; [done|done|exact Es|by eapply stored_same; [..|exact Hs']|by apply (unlocked_set p s P)].
Qed.

Lemma leaves_removed t P i p x s l w : stored P -> unlocked P -> table P !! i = Some p -> heap P !! p = Some x -> get_id s = i ->
  leaves t P w (store_session_asdone s (without i (sequential P)))
    (goto t Waiting (store_done p (erase i (set_surroundings w (set_shared p (mk_shared s l) P))))).
Proof.
  intros Hs Hu Hi Hx Hid. destruct (sequential_set P i p x s l Hs Hi Hx Hid) as [Es Hs1].
  set (P1 := set_surroundings w (set_shared p (mk_shared s l) P)).
  assert (Hs1' : stored P1) by (by eapply stored_same; [..|exact Hs1]).
  assert (Hx1 : heap P1 !! p = Some (mk_shared s l)) by apply heap_set.
  destruct (sequential_removed P1 i p _ Hs1' Hi Hx1) as [Er Hs2]. destruct (store_done_same p (erase i P1)) as (En & Et & Ew).
  split_and!; [cbn; by rewrite Ew|cbn [surroundings goto]; unfold store_done; by destruct (DONE_SESSION_LIST_SIZE <? _)%nat| | |].
  - change (sequential (store_done p (erase i P1)) = store_session_asdone s (without i (sequential P))). rewrite Er.
    change (sequential P1) with (sequential (set_shared p (mk_shared s l) P)). rewrite Es. unfold without, add_session. cbn [session_table sessionDone].
    by rewrite Hid, delete_insert_eq.
  - by eapply stored_same; [..|exact Hs2].
  - change (unlocked (store_done p (erase i P1))). apply unlocked_removed; [done|done|]. intros j q y Hj Hy Hne. cbn in Hj, Hy.
    rewrite lookup_insert_ne in Hy by done. by eapply Hu.
Qed.

Lemma serve t p ev x P k : stored P -> unlocked P -> workers P !! t = Some (Acquiring p ev) ->
  heap P !! p = Some x -> table P !! get_id (object x) = Some p ->
  match served (sequential P) (get_id (object x)) (session_process (object x) (snd ev) (surroundings P)) with
  | (Normal _, (m, w)) => exists P', run (replicate (5 + k) (go t)) P = Normal P' /\ leaves t P w m P'
  | (Raised _, _) => False
  | (Faulted f, _) => run (replicate (5 + k) (go t)) P = Faulted f
  end.
Proof.
  intros Hs Hu Ht Hx Hi. assert (Hlt : t < length (workers P)) by by eapply lookup_lt_Some.
  pose proof (session_process_id (object x) (snd ev) (surroundings P)) as Hid. set (i := get_id (object x)) in *.
  assert (Hl : lock_ x = None) by by eapply Hu.
  destruct (session_process (object x) (snd ev) (surroundings P)) as [o [s w]] eqn:Ep. cbn [fst snd] in Hid.
  set (P1 l := set_surroundings w (set_shared p (mk_shared s l) P)).
  assert (Hx1 : forall l, heap (P1 l) !! p = Some (mk_shared s l)) by (intros l; apply heap_set).
  assert (S1 : execute (go t) P = Normal (goto t (Processing p ev) (set_shared p (mk_shared (object x) (Some t)) P))).
  { rewrite (execute_at t _ P Ht). unfold use. rewrite Hx. cbn. by rewrite Hl. }
  assert (S2 : execute (go t) (goto t (Processing p ev) (set_shared p (mk_shared (object x) (Some t)) P))
    = match o with Normal _ => Normal (goto t (Releasing p) (P1 (Some t))) | Raised _ => Normal (goto t (Removing p) (P1 (Some t)))
      | Faulted f => Faulted f end).
  { rewrite (execute_at t _ _ (at_goto t _ (set_shared p (mk_shared (object x) (Some t)) P) Hlt)). unfold handle, use.
    change (heap (goto t (Processing p ev) (set_shared p (mk_shared (object x) (Some t)) P)))
      with (heap (set_shared p (mk_shared (object x) (Some t)) P)).
    rewrite heap_set. cbn [object lock_ surroundings goto set_shared]. rewrite Ep. cbn beta iota zeta.
    by destruct o; autorewrite with pools. }
  assert (S3 : execute (go t) (goto t (Releasing p) (P1 (Some t))) = Normal (goto t (Checking p) (P1 None))).
  { rewrite (execute_at t _ _ (at_goto t _ (P1 (Some t)) Hlt)). unfold use. change (heap (goto t (Releasing p) (P1 (Some t)))) with (heap (P1 (Some t))).
    rewrite Hx1. unfold P1. cbn [object lock_]. by autorewrite with pools. }
  assert (S4 : execute (go t) (goto t (Checking p) (P1 None)) = Normal (goto t (if is_final s then Removing p else Waiting) (P1 None))).
  { rewrite (execute_at t _ _ (at_goto t _ (P1 None) Hlt)). unfold use. change (heap (goto t (Checking p) (P1 None))) with (heap (P1 None)).
    rewrite Hx1. cbn [object]. by rewrite goto_goto. }
  assert (S5 : forall l, execute (go t) (goto t (Removing p) (P1 l)) = Normal (goto t Waiting (store_done p (erase i (P1 l))))).
  { intros l. rewrite (execute_at t _ _ (at_goto t _ (P1 l) Hlt)). unfold Threads.remove, use.
    change (heap (goto t (Removing p) (P1 l))) with (heap (P1 l)). rewrite Hx1. cbn [object]. rewrite Hid. cbv zeta.
    change (table (goto t (Removing p) (P1 l))) with (table P). rewrite Hi, Hx1. by rewrite removed_goto, goto_goto. }
  assert (Sw : forall k c P', workers P' = <[t := c]> (workers P) -> c = Waiting -> run (replicate k (go t)) P' = Normal P').
  { intros k' c P' Hw ->. apply waits. rewrite Hw. by apply list_lookup_insert_eq. }
  cbn [Nat.add replicate Threads.run]. rewrite S1. cbn [obind]. rewrite S2. unfold served. destruct o as [u|e|f]; cbn [obind]; [| |done].
  - rewrite S3. cbn [obind]. rewrite S4. cbn [obind]. destruct (is_final s).
    + rewrite S5. cbn [obind]. pose proof (leaves_removed t P i p x s None w Hs Hu Hi Hx Hid) as Hlv.
      eexists. split; [|exact Hlv]. eapply Sw; [apply Hlv|done].
    + pose proof (leaves_kept t P i p x s w Hs Hu Hi Hx Hid) as Hlv.
      eexists. split; [|exact Hlv]. apply (Sw (S k) _ _ (proj1 Hlv) eq_refl).
  - rewrite S5. cbn [obind]. pose proof (leaves_removed t P i p x s (Some t) w Hs Hu Hi Hx Hid) as Hlv.
    eexists. split; [|exact Hlv]. apply (Sw (S (S k)) _ _ (proj1 Hlv) eq_refl).
Qed.

(** ** One event. *)
Definition turn t ev : list move := Take t ev :: replicate 7 (go t).

(** What [dispatch] and the steps of the worker agree on. *)
Definition agrees t P (r : outcome unit * (session_manager * W)) (o : outcome (pool (W := W))) : Prop :=
  match r with
  | (Normal _, (m, w)) => exists P', o = Normal P' /\ leaves t P w m P'
  | (Raised _, _) => o = Faulted Terminated
  | (Faulted f, _) => o = Faulted f
  end.

Lemma agrees_goto t c P r o : agrees t (goto t c P) r o -> agrees t P r o.
Proof.
  destruct r as [[u|e|f] [m w]]; [|done..]. intros (P' & -> & Hw & Hr). exists P'. split; [done|]. split; [|done].
  rewrite Hw. cbn. by rewrite list_insert_insert_eq.
Qed.

Lemma agrees_serve t p ev x P k : stored P -> unlocked P -> workers P !! t = Some (Acquiring p ev) ->
  heap P !! p = Some x -> table P !! get_id (object x) = Some p ->
  agrees t P (process_session (object x) (snd ev) (sequential P, surroundings P)) (run (replicate (5 + k) (go t)) P).
Proof.
  intros Hs Hu Ht Hx Hi. rewrite process_session_served by (rewrite sequential_lookup, Hi; cbn; by rewrite Hx).
  pose proof (serve t p ev x P k Hs Hu Ht Hx Hi) as Hserve. unfold agrees. by destruct (served _ _ _) as [[u|e|f] [m w]].
Qed.

(** A message is sent and nothing else. *)
Lemma agrees_sent t (a : M W unit) P k : t < length (workers P) -> stored P -> unlocked P ->
  agrees t P (outside a (sequential P, surroundings P))
    (obind (obind (in_world a P) (fun P => Normal (goto t Waiting P))) (run (replicate k (go t)))).
Proof.
  intros Hlt Hs Hu. unfold agrees, outside, in_world. destruct (a (surroundings P)) as [[v|e|f] w]; [|done..]. cbn.
  exists (goto t Waiting (set_surroundings w P)). split.
  - apply waits. cbn. by apply list_lookup_insert_eq.
  - split_and!; [done|done|done|by eapply stored_same; [..|exact Hs]|done].
Qed.

Lemma agrees_look t ev P k : workers P !! t = Some (Looking ev) -> stored P -> unlocked P ->
  agrees t P ((s <- (match (match fst ev with Some i => get_session i (sequential P) | None => None end) with
                     | Some s => ret (Some s) | None => create_session config fuel garbage (fst ev) (snd ev) end) ;;
               match s with Some s => process_session s (snd ev) | None => ret tt end) (sequential P, surroundings P))
    (obind (match (match fst ev with Some i => table P !! i | None => None end) with
            | Some p => Normal (goto t (Acquiring p ev) P)
            | None => Normal (goto t (Creating ev) P)
            end) (run (replicate (6 + k) (go t)))).
Proof.
  intros Ht Hs Hu. assert (Hlt : t < length (workers P)) by by eapply lookup_lt_Some.
  assert (E : (match fst ev with Some i => get_session i (sequential P) | None => None end)
    = p ← (match fst ev with Some i => table P !! i | None => None end); object <$> heap P !! p).
  { destruct (fst ev) as [i|]; [|done]. apply sequential_lookup. }
  rewrite E. destruct (match fst ev with Some i => table P !! i | None => None end) as [p|] eqn:El; cbn [mbind option_bind obind].
  - assert (Hp : exists i, table P !! i = Some p) by (destruct (fst ev) as [i|]; [by exists i|done]). destruct Hp as [i Hi].
    destruct (st_table _ Hs i p Hi) as (x & Hx & Hxi & _). rewrite Hx. cbn [fmap option_fmap option_map].
    apply (agrees_goto t (Acquiring p ev)). replace (6 + k) with (5 + S k) by lia.
    apply (agrees_serve t p ev x (goto t (Acquiring p ev) P)); [by eapply stored_same; [..|exact Hs]|done|by apply at_goto|done|by rewrite Hxi].
  - apply (agrees_goto t (Creating ev)). cbn [Nat.add replicate Threads.run].
    rewrite (execute_at t _ _ (at_goto t (Creating ev) P Hlt)). unfold create, bind.
    pose proof (create_session_seq (manager P) (sequential P) ev (surroundings P) eq_refl) as Hseq.
    change (manager (goto t (Creating ev) P)) with (manager P). change (surroundings (goto t (Creating ev) P)) with (surroundings P).
    destruct (create_session config fuel garbage (fst ev) (snd ev) (manager P, surroundings P)) as [[[s|]|e|f] [m1 w1]];
      destruct (create_session config fuel garbage (fst ev) (snd ev) (sequential P, surroundings P)) as [o [m2 w2]]; cbn beta iota in Hseq |- *.
    + destruct Hseq as (-> & -> & ->). cbn [obind].
      destruct (sequential_new P s Hs) as [En Hs'].
      set (P1 := goto t (Acquiring (next P) ev) (file_new s (set_surroundings w1 (goto t (Creating ev) P)))).
      assert (Hx : heap P1 !! next P = Some (mk_shared s None)) by (cbn; apply lookup_insert_eq).
      rewrite <- En. apply (agrees_goto t Waiting).
      enough (Hag : agrees t P1 (process_session s (snd ev) (sequential (file_new s P), w1)) (run (replicate (5 + k) (go t)) P1)).
      { revert Hag. unfold agrees. destruct (process_session _ _ _) as [[u|e|f] [m w]]; [|done..]. intros (P' & Hr & Hw & Hl).
        exists P'. split; [exact Hr|]. split; [|done]. rewrite Hw. cbn. by rewrite !list_insert_insert_eq. }
      apply (agrees_serve t (next P) ev (mk_shared s None) P1 k); [by eapply stored_same; [..|exact Hs']| | |done|cbn -[get_id]; apply lookup_insert_eq].
      * intros j q y Hj Hy. cbn -[get_id] in Hj, Hy. apply lookup_insert_Some in Hy as [[_ <-]|[Hne Hy]]; [done|].
        apply lookup_insert_Some in Hj as [[_ <-]|[_ Hj]]; [done|]. by eapply Hu.
      * apply at_goto. cbn. by rewrite length_insert.
    + destruct Hseq as (-> & -> & ->). cbn [obind]. exists (goto t Waiting (set_surroundings w1 (goto t (Creating ev) P))). split.
      * apply (waits (5 + k) t). apply at_goto. cbn. by rewrite length_insert.
      * split_and!; [done|done|done|by eapply stored_same; [..|exact Hs]|done].
    + by subst o.
    + by subst o.
Qed.

Lemma agrees_turn t ev P : workers P !! t = Some Waiting -> stored P -> unlocked P ->
  agrees t P (dispatch ev (sequential P, surroundings P)) (run (turn t ev) P).
Proof.
  intros Ht Hs Hu. assert (Hlt : t < length (workers P)) by by eapply lookup_lt_Some.
  set (P0 := goto t (Looking ev) P). assert (Ht0 : workers P0 !! t = Some (Looking ev)) by by apply at_goto.
  assert (Hs0 : stored P0) by (by eapply stored_same; [..|exact Hs]).
  assert (Hl0 : t < length (workers P0)) by by eapply lookup_lt_Some.
  apply (agrees_goto t (Looking ev)). fold P0. unfold turn. cbn [Threads.run Threads.execute]. rewrite Ht. fold P0. cbn [obind].
  change (replicate 7 (go t)) with (go t :: replicate (6 + 0) (go t)). cbn [Threads.run]. rewrite (execute_at t _ P0 Ht0).
  change (sequential P) with (sequential P0). change (surroundings P) with (surroundings P0).
  pose proof (agrees_look t ev P0 0 Ht0 Hs0 Hu) as Hlook.
  unfold DispatcherSpec.dispatch, process, look. destruct ev as [id evt]. cbn [fst snd] in *.
  assert (Hgen : agrees t P0 ((if is_invalid_anslp_msg evt then
        n <- deref (ev_msg evt) ;; outside (send_message (create_response sc_protocol_error 0 n))
      else
        m <- the ;;
        s <- (match (match id with Some i => get_session i m | None => None end) with
              | Some s => ret (Some s)
              | None => create_session config fuel garbage id evt
              end) ;;
        match s with Some s => process_session s evt | None => ret tt end) (sequential P0, surroundings P0))
    (obind (if is_invalid_anslp_msg evt then
        obind (of_pointer (ev_msg evt)) (fun n =>
        obind (in_world (send_message (create_response sc_protocol_error 0 n)) P0) (fun P => Normal (goto t Waiting P)))
      else
        match (match id with Some i => table P0 !! i | None => None end) with
        | Some p => Normal (goto t (Acquiring p (id, evt)) P0)
        | None => Normal (goto t (Creating (id, evt)) P0)
        end) (run (replicate (6 + 0) (go t))))).
  { destruct (is_invalid_anslp_msg evt); [|exact Hlook]. destruct (ev_msg evt) as [n|]; [|done]. by apply agrees_sent. }
  destruct evt as [| | |route|n b|tid|e|o q|o q|a l ms q|a sv c ot q|a o q|a l ms sv c ot q| |o q]; try exact Hgen.
  - destruct id as [i|]; [|done]. apply (agrees_sent t (send_receive_answer i route) P0 6); done.
  - destruct id as [i|]; [exact Hgen|done].
Qed.

(** C4. Threads add nothing to the dispatcher as long as they take turns: a
    schedule in which every event is dealt with before the next one is taken,
    by whatever worker, computes what [Dispatcher.process] computes on the
    events in that order - the same sessions, list of done sessions and world,
    and all workers wait again; or the same fault, an exception being the end
    of the program. *)
Theorem turns_are_dispatch (n : nat) (w : W) (l : list (thread * incoming)) (Hl : Forall (fun a => a.1 < n) l) :
  let o := run (concat (map (fun a => turn a.1 a.2) l)) (start n w) in
  match run_events dispatch (map snd l) (new_session_manager, w) with
  | (Normal _, (m, w')) => exists P, o = Normal P /\ sequential P = m /\ surroundings P = w' /\ workers P = replicate n Waiting
  | (Raised _, _) => o = Faulted Terminated
  | (Faulted f, _) => o = Faulted f
  end.
Proof.
  assert (Hgen : forall P, workers P = replicate n Waiting -> stored P -> unlocked P ->
    let o := run (concat (map (fun a => turn a.1 a.2) l)) P in
    match run_events dispatch (map snd l) (sequential P, surroundings P) with
    | (Normal _, (m, w')) => exists P', o = Normal P' /\ sequential P' = m /\ surroundings P' = w' /\ workers P' = replicate n Waiting
    | (Raised _, _) => o = Faulted Terminated
    | (Faulted f, _) => o = Faulted f
    end).
  { induction Hl as [|[t ev] l Ht _ IH]; intros P Hw Hs Hu; cbn [map concat run_events fst snd] in *; [by exists P|].
    assert (Hwt : workers P !! t = Some Waiting) by (rewrite Hw; by apply lookup_replicate_2).
    pose proof (agrees_turn t ev P Hwt Hs Hu) as Hag. unfold bind, agrees in *. rewrite run_app.
    destruct (dispatch ev (sequential P, surroundings P)) as [[u|e|f] [m w1]]; [|by rewrite Hag..].
    destruct Hag as (P1 & -> & Hw1 & <- & <- & Hs1 & Hu1). cbn [obind]. apply IH; [|done|done].
    rewrite Hw1, Hw. by apply list_insert_id, lookup_replicate_2. }
  apply (Hgen (start n w)); [done| |done]. split; [done|constructor|constructor|done].
Qed.
End Sequential.
