(* ===== verification/EventMemory.v ===== *)
(** * The memory of an event: include/events.h

    In [Events] an event is a value.  In the program it owns what it points
    to - a session ID, a message or its routing information, objects - and
    its destructor deletes that.  Here the pointers are explicit: [setObject]
    on pointers is [setObject] on values as long as every object is given to
    one event, under one key and once; then the destructor gives back exactly
    the memory the event took. *)
From S2P Require Import Prelude Outcome StdMap External Objects Store Messages SessionId NtlpMsg AuctionRule Events.
From stdpp Require Import gmap.

Section EventMemory.
Context `{Libs} `{!LibsLaws}.

Abbreviation address := nat.

(** What an event may own. *)
Inductive cell :=
  | Cell_session_id (i : session_id)
  | Cell_mri (m : mri)
  | Cell_msg (n : ntlp_msg)
  | Cell_object (o : anslp_object).

Abbreviation memory := (gmap address cell).

Definition new (c : cell) (h : memory) : address * memory := let a := fresh (dom h : gset address) in (a, <[a := c]> h).

(** [if ( p != NULL ) delete p;] *)
Definition delete_ (p : option address) (h : memory) : outcome memory :=
  match p with
  | None => Normal h
  | Some a => match h !! a with Some _ => Normal (delete a h) | None => Faulted Double_delete end
  end.

(** [mspec_objects]. *)
Definition object_pointers := list (mspec_rule_key * option address).

(** An event by what it points to. *)
Inductive event_object :=
  | Bare_event (sid : option address)
  | Mri_event (sid mri : option address)
  | Message_event (sid msg : option address)
  | Objects_event (sid : option address) (mspec_objects : object_pointers).

(** The constructor of [msg_event]. *)
Definition new_msg_event (sid msg : option address) : outcome event_object :=
  match msg with Some _ => Normal (Message_event sid msg) | None => Faulted Assertion_failed end.

(** [setObject]; [mspec_objects[key]] is the null pointer for a new key. *)
Definition setObject_at (k : mspec_rule_key) (obj : option address) (l : object_pointers) (h : memory) : outcome (object_pointers * memory) :=
  match obj with
  | None => Normal (l, h)
  | Some _ =>
      let old := default None (map_find mspec_rule_key_ltb k l) in
      obind (delete_ old h) (fun h => Normal (map_set mspec_rule_key_ltb k obj l, h))
  end.

(** The destructors: that of the class, then that of [event]. *)
Fixpoint destroy_objects (l : object_pointers) (h : memory) : outcome memory :=
  match l with [] => Normal h | (_, p) :: l => obind (delete_ p h) (destroy_objects l) end.

Definition destroy (e : event_object) (h : memory) : outcome memory :=
  match e with
  | Bare_event sid => delete_ sid h
  | Mri_event sid p | Message_event sid p => obind (delete_ p h) (delete_ sid)
  | Objects_event sid l => obind (destroy_objects l h) (delete_ sid)
  end.

(** A sequence of [setObject] calls, each with a key and a new object: how an
    event is filled by whoever makes it.  Not a function of the code. *)
Fixpoint fill (given : list (mspec_rule_key * anslp_object)) (l : object_pointers) (h : memory) : outcome (object_pointers * memory) :=
  match given with
  | [] => Normal (l, h)
  | (k, o) :: given =>
      let '(a, h) := new (Cell_object o) h in
      obind (setObject_at k (Some a) l h) (fun '(l, h) => fill given l h)
  end.

(** ** What the destructor frees. *)
Definition addresses (l : object_pointers) : list address := omap snd l.
Definition owned (e : event_object) : list address :=
  match e with
  | Bare_event sid => option_list sid
  | Mri_event sid p | Message_event sid p => option_list p ++ option_list sid
  | Objects_event sid l => addresses l ++ option_list sid
  end.
Definition owns (l : list address) (h : memory) : Prop := NoDup l /\ Forall (fun a => is_Some (h !! a)) l.

(** Deletion of a list of addresses, one after the other. *)
Fixpoint delete_all (l : list address) (h : memory) : outcome memory :=
  match l with [] => Normal h | a :: l => obind (delete_ (Some a) h) (delete_all l) end.

Lemma delete_all_app l l' h : delete_all (l ++ l') h = obind (delete_all l h) (delete_all l').
Proof. revert h. induction l as [|a l IH]; intros h; [done|]. cbn. destruct (h !! a); [apply IH|done]. Qed.

Lemma delete_option p h : delete_ p h = delete_all (option_list p) h.
Proof. destruct p as [a|]; [|done]. cbn. by destruct (h !! a). Qed.

Lemma destroy_objects_all l h : destroy_objects l h = delete_all (addresses l) h.
Proof. revert h. induction l as [|[k [a|]] l IH]; intros h; [done| |apply IH]. cbn. destruct (h !! a); [apply IH|done]. Qed.

Lemma obind_ext {A B} (o : outcome A) (f g : A -> outcome B) : (forall a, f a = g a) -> obind o f = obind o g.
Proof. intros E. destruct o; [apply E|done..]. Qed.

Lemma destroy_all e h : destroy e h = delete_all (owned e) h.
Proof.
  destruct e as [sid|sid p|sid p|sid l]; cbn [destroy owned]; [apply delete_option|..]; rewrite delete_all_app, ?delete_option, ?destroy_objects_all;
    apply obind_ext; intros h'; apply delete_option.
Qed.

Lemma owns_cons a l h : owns (a :: l) h <-> is_Some (h !! a) /\ owns l (delete a h).
Proof.
  unfold owns. rewrite NoDup_cons, Forall_cons. split.
  - intros [[Hn Hd] [Ha Hl]]. split_and!; [done|done|]. rewrite Forall_forall in Hl |- *. intros b Hb.
    rewrite lookup_delete_ne by (intros ->; done). by apply Hl.
  - intros (Ha & Hd & Hl). rewrite Forall_forall in Hl. split_and!; [|done|done|].
    + intros Hn. apply Hl in Hn. rewrite lookup_delete_eq in Hn. by destruct Hn.
    + apply Forall_forall. intros b Hb. destruct (Hl b Hb) as [c Hc]. apply lookup_delete_Some in Hc as [_ Hc]. by exists c.
Qed.

Lemma delete_all_owned l h : owns l h -> exists h', delete_all l h = Normal h' /\ forall a, h' !! a = if decide (a ∈ l) then None else h !! a.
Proof.
  revert h. induction l as [|b l IH]; intros h Ho.
  - exists h. split; [done|]. intros a. by rewrite decide_False by apply not_elem_of_nil.
  - apply owns_cons in Ho as [[c Hc] Ho]. cbn. rewrite Hc. cbn. destruct (IH _ Ho) as (h' & E & Hh). exists h'. split; [done|].
    intros a. rewrite Hh. destruct (decide (a ∈ l)) as [Hin|Hn]; [by rewrite decide_True by by right|].
    destruct (decide (a = b)) as [->|Hne]; [rewrite decide_True by left; apply lookup_delete_eq|].
    rewrite decide_False; [by apply lookup_delete_ne|]. by intros [?|?]%elem_of_cons.
Qed.

Lemma delete_all_not_owned l h : ~ owns l h -> delete_all l h = Faulted Double_delete.
Proof.
  revert h. induction l as [|b l IH]; intros h Ho; [by destruct Ho; split; constructor|]. cbn.
  destruct (h !! b) as [c|] eqn:E; [|done]. apply IH. intros Ho'. apply Ho, owns_cons. by rewrite E.
Qed.

(** ** An event that owns its objects. *)

(** The object list of [Events] that a list of pointers stands for. *)
Definition points_to (h : memory) (l : object_pointers) (v : objectList_t) : Prop :=
  Forall2 (fun e kv => fst e = fst kv /\ exists a, snd e = Some a /\ h !! a = Some (Cell_object (snd kv))) l v.

Lemma map_set_Forall2 {V V'} (R : mspec_rule_key * V -> mspec_rule_key * V' -> Prop) k v v' l l' :
  (forall e e', R e e' -> fst e = fst e') -> (forall j, R (j, v) (j, v')) ->
  Forall2 R l l' -> Forall2 R (map_set mspec_rule_key_ltb k v l) (map_set mspec_rule_key_ltb k v' l').
Proof.
  intros Hk Hv. induction 1 as [|[k1 v1] [k2 v2] l l' Hr Hl IH]; cbn; [by repeat constructor|].
  pose proof (Hk _ _ Hr) as E. cbn in E. subst k2.
  destruct (mspec_rule_key_ltb k k1), (mspec_rule_key_ltb k1 k); repeat constructor; auto.
Qed.

Lemma map_set_addresses k p l : map_sorted mspec_rule_key_ltb l ->
  option_list (default None (map_find mspec_rule_key_ltb k l)) ++ addresses (map_set mspec_rule_key_ltb k p l)
    ≡ₚ option_list p ++ addresses l.
Proof.
  induction l as [|[k1 p1] l IH]; cbn; [by destruct p|]. intros [Hall Hs]. unfold key_equiv.
  destruct (mspec_rule_key_ltb k k1) eqn:E1; cbn [negb andb].
  - rewrite (map_find_lt k l); [by destruct p, p1|]. eapply Forall_impl; [exact Hall|]. intros [k2 p2] Hk. by eapply swo_trans.
  - destruct (mspec_rule_key_ltb k1 k) eqn:E2; cbn [negb andb].
    + specialize (IH Hs). destruct p1 as [a|]; cbn; [|exact IH]. rewrite <- !Permutation_middle. by constructor.
    + cbn. destruct p1 as [a|], p as [b|]; cbn; try done. constructor.
Qed.

(** The list of [l] is that of the base memory [h0] and what the event owns. *)
Record holds_objects (h0 h : memory) (l : object_pointers) (v : objectList_t) : Prop := {
  ho_points : points_to h l v;
  ho_sorted : map_sorted mspec_rule_key_ltb l;
  ho_nodup : NoDup (addresses l);
  ho_new : Forall (fun a => h0 !! a = None) (addresses l);
  ho_rest : forall a, a ∉ addresses l -> h !! a = h0 !! a }.

Lemma points_to_live h l v : points_to h l v -> Forall (fun a => is_Some (h !! a)) (addresses l).
Proof.
  unfold points_to, addresses. induction 1 as [|[k p] [k' o] l v (E & a & Ea & Ha) Hl IH]; [constructor|]. cbn in *. subst p. cbn.
  constructor; [by eexists|done].
Qed.

Lemma points_to_mono h h' l v : (forall a, a ∈ addresses l -> h' !! a = h !! a) -> points_to h l v -> points_to h' l v.
Proof.
  unfold points_to, addresses. intros Hh Hp. induction Hp as [|[k p] [k' o] l v (E & a & Ea & Ha) Hl IH]; [constructor|]. cbn in *. subst p.
  constructor; [|apply IH; intros b Hb; apply Hh; by right]. split; [done|]. exists a. split; [done|]. rewrite Hh; [done|by left].
Qed.

(** [setObject] of an object of its own. *)
Lemma set_new_object h0 h l v k o a : holds_objects h0 h l v -> h !! a = None ->
  exists l' h', setObject_at k (Some a) l (<[a := Cell_object o]> h) = Normal (l', h')
    /\ holds_objects h0 h' l' (setObject k (Some o) v).
Proof.
  intros [Hp Hs Hd Hn Hr] Ha. set (h1 := <[a := Cell_object o]> h).
  assert (Hfresh : a ∉ addresses l).
  { intros Hin. apply points_to_live in Hp. rewrite Forall_forall in Hp. destruct (Hp a Hin) as [c Hc]. congruence. }
  assert (Ha0 : h0 !! a = None) by (by rewrite <- Hr).
  assert (Hp1 : points_to h1 l v).
  { eapply points_to_mono; [|exact Hp]. intros b Hb. unfold h1. rewrite lookup_insert_ne; [done|]. by intros ->. }
  set (old := option_list (default None (map_find mspec_rule_key_ltb k l))). set (l' := map_set mspec_rule_key_ltb k (Some a) l).
  pose proof (map_set_addresses k (Some a) l Hs) as Hperm. fold old l' in Hperm. cbn [option_list app] in Hperm.
  assert (Hnd : NoDup (old ++ addresses l')) by (rewrite Hperm; by constructor).
  apply NoDup_app in Hnd as (Hnold & Hdisj & Hnl').
  assert (Hlive : owns old h1).
  { split; [done|]. apply Forall_forall. intros b Hb. assert (Hin : b ∈ a :: addresses l) by (rewrite <- Hperm; apply elem_of_app; by left).
    apply elem_of_cons in Hin as [->|Hin]; [unfold h1; rewrite lookup_insert_eq; by eexists|].
    apply points_to_live in Hp1. rewrite Forall_forall in Hp1. by apply Hp1. }
  destruct (delete_all_owned old h1 Hlive) as (h' & Edel & Hh'). exists l', h'. split.
  - unfold setObject_at. rewrite delete_option. fold old h1. by rewrite Edel.
  - split; [|by apply map_set_sorted|done| |].
    + eapply (points_to_mono h1).
      { intros b Hb. rewrite Hh', decide_False; [done|]. intros Hin. by apply (Hdisj b). }
      apply map_set_Forall2; [by intros e e' [? _]| |exact Hp1]. intros j. split; [done|]. exists a. split; [done|]. apply lookup_insert_eq.
    + apply Forall_forall. intros b Hb. assert (Hin : b ∈ a :: addresses l) by (rewrite <- Hperm; apply elem_of_app; by right).
      apply elem_of_cons in Hin as [->|Hin]; [done|]. rewrite Forall_forall in Hn. by apply Hn.
    + intros b Hb. rewrite Hh'. destruct (decide (b ∈ old)) as [Hin|Hout].
      * assert (Hin' : b ∈ a :: addresses l) by (rewrite <- Hperm; apply elem_of_app; by left).
        symmetry. apply elem_of_cons in Hin' as [->|Hin']; [done|]. rewrite Forall_forall in Hn. by apply Hn.
      * assert (Hno : b ∉ a :: addresses l) by (rewrite <- Hperm, elem_of_app; tauto). apply not_elem_of_cons in Hno as [Hne Hno].
        unfold h1. rewrite lookup_insert_ne by done. by apply Hr.
Qed.

Lemma fill_holds given h0 h l v : holds_objects h0 h l v ->
  exists l' h', fill given l h = Normal (l', h')
    /\ holds_objects h0 h' l' (fold_left (fun v kv => setObject (fst kv) (Some (snd kv)) v) given v).
Proof.
  revert h l v. induction given as [|[k o] given IH]; intros h l v Ho; cbn; [by exists l, h|].
  destruct (set_new_object h0 h l v k o (fresh (dom h : gset address)) Ho) as (l1 & h1 & E & Ho1).
  { apply not_elem_of_dom, is_fresh. }
  assert (Hf : fill ((k, o) :: given) l h = obind (Normal (l1, h1)) (fun '(l, h) => fill given l h)) by (rewrite <- E; reflexivity).
  change (exists l' h', fill ((k, o) :: given) l h = Normal (l', h')
    /\ holds_objects h0 h' l' (fold_left (fun v kv => setObject (fst kv) (Some (snd kv)) v) given (setObject k (Some o) v))).
  rewrite Hf. by apply IH.
Qed.

Lemma destroy_cases e h :
  (owns (owned e) h /\ exists h', destroy e h = Normal h' /\ forall a, h' !! a = if decide (a ∈ owned e) then None else h !! a)
  \/ (~ owns (owned e) h /\ destroy e h = Faulted Double_delete).
Proof.
  rewrite destroy_all. assert (Hdec : owns (owned e) h \/ ~ owns (owned e) h).
  { unfold owns. destruct (decide (NoDup (owned e) /\ Forall (fun a => is_Some (h !! a)) (owned e))); auto. }
  destruct Hdec as [Ho|Ho]; [left|right]; (split; [done|]); [by apply delete_all_owned|by apply delete_all_not_owned].
Qed.

(** C34. An event that is given objects of its own, by [setObject] with any
    keys in any order, repeated ones included, holds what [Events.setObject]
    computes; [delete] of the event gives back exactly the memory the event
    and its objects took: nothing is deleted twice, nothing of others is
    touched and nothing is left. *)
Theorem event_objects_freed (given : list (mspec_rule_key * anslp_object)) (h : memory) :
  exists l h', fill given [] h = Normal (l, h')
    /\ points_to h' l (fold_left (fun v kv => setObject (fst kv) (Some (snd kv)) v) given [])
    /\ destroy (Objects_event None l) h' = Normal h.
Proof.
  destruct (fill_holds given h h [] []) as (l & h' & E & Ho); [split; [constructor|done|constructor|constructor|done]|].
  exists l, h'. split_and!; [done|apply Ho|]. destruct (destroy_cases (Objects_event None l) h') as [(_ & h2 & E2 & Hh)|[Hn _]].
  - rewrite E2. f_equal. apply map_eq. intros a. rewrite Hh. cbn [owned option_list]. rewrite app_nil_r.
    destruct (decide (a ∈ addresses l)) as [Hin|Hout]; [|by apply (ho_rest _ _ _ _ Ho)].
    symmetry. pose proof (ho_new _ _ _ _ Ho) as Hf. rewrite Forall_forall in Hf. by apply Hf.
  - destruct Hn. cbn [owned option_list]. rewrite app_nil_r. split; [apply (ho_nodup _ _ _ _ Ho)|].
    eapply points_to_live, (ho_points _ _ _ _ Ho).
Qed.

(** An object set twice is lost: the second [setObject] under the same key
    deletes the object it then stores, and the destructor of the event deletes
    it again. *)
Theorem object_set_twice (k : mspec_rule_key) (a : address) (l : object_pointers) (h : memory)
  (Hs : map_sorted mspec_rule_key_ltb l) (Ha : is_Some (h !! a)) (Hk : map_find mspec_rule_key_ltb k l = Some (Some a)) :
  exists l', setObject_at k (Some a) l h = Normal (l', delete a h)
    /\ destroy (Objects_event None l') (delete a h) = Faulted Double_delete.
Proof.
  destruct Ha as [c Hc]. exists (map_set mspec_rule_key_ltb k (Some a) l). split.
  - unfold setObject_at. rewrite Hk. cbn. by rewrite Hc.
  - destruct (destroy_cases (Objects_event None (map_set mspec_rule_key_ltb k (Some a) l)) (delete a h)) as [([_ Hall] & _)|[_ E]]; [|done].
    exfalso. pose proof (map_set_addresses k (Some a) l Hs) as Hp. rewrite Hk in Hp. cbn in Hp. apply Permutation_cons_inv in Hp.
    assert (Hin : a ∈ addresses l).
    { apply list_elem_of_omap. clear -Hk. induction l as [|[k1 p1] l IH]; [done|]. cbn in Hk. destruct (key_equiv _ _ _).
      - injection Hk as ->. exists (k1, Some a). split; [by left|done].
      - destruct (IH Hk) as (x & Hx & E). exists x. split; [by right|done]. }
    cbn [owned option_list] in Hall. rewrite app_nil_r, Forall_forall in Hall. destruct (Hall a) as [c' Hc']; [by rewrite Hp|].
    by rewrite lookup_delete_eq in Hc'.
Qed.
End EventMemory.

Module Memory_examples.
Import Concrete.

(** Three objects under two keys. *)
Definition given : list (mspec_rule_key * anslp_object) :=
  [(1%Z, default_session_lifetime); (2%Z, default_session_lifetime); (1%Z, default_session_lifetime)].

Theorem event_objects_freed_witness :
  exists l h', fill given [] ∅ = Normal (l, h') /\ destroy (Objects_event None l) h' = Normal ∅ /\ length l = 2.
Proof.
  destruct (event_objects_freed given ∅) as (l & h' & E & Hp & Hd). exists l, h'. split_and!; [exact E|exact Hd|].
  apply Forall2_length in Hp. rewrite Hp. reflexivity.
Defined.
End Memory_examples.
