(* ===== verification/ThreadsExamples.v ===== *)
(** * Workers at work

    Two workers in the concrete world of [Session.Concrete_world]: the
    theorems about threads that have hypotheses are applied to schedules of
    theirs.  Whether two workers are concerned with one session is decided by
    computing the session IDs each of them is concerned with. *)
From S2P Require Import NiSession NrSession NfSession NiSpec NrSpec NfSpec.
From S2P Require Import Prelude Outcome StdMap External Objects Store Messages Codec SessionId NtlpMsg AuctionRule Events Session SessionManager Dispatcher DispatcherSpec Threads Locks WorkersSpec Sequential SessionExamples DispatcherExamples.
From stdpp Require Import gmap.

Module Threads_examples.
Import Concrete Codec_examples Ntlp_examples Concrete_world Session_examples Dispatcher_examples.

Abbreviation workers_pool := (pool (W := world)).
Definition ex_run := run (W := world) answer conf 10 0.
Definition ex_start := start (W := world) 2.

(** ** Who is concerned with what, computed. *)
Definition pointer_of (c : position) : option pointer :=
  match c with Acquiring p _ | Processing p _ | Releasing p | Checking p | Removing p => Some p | _ => None end.
Definition ids (P : workers_pool) (c : position) : list session_id :=
  option_list (event_of c ≫= fst) ++ option_list (pointer_of c ≫= fun p => (fun x => get_id (object x)) <$> heap P !! p).

Lemma concerned_ids (P : workers_pool) c i : concerned P c i -> i ∈ ids P c.
Proof.
  unfold ids. rewrite elem_of_app. intros [(ev & He & Hi)|(p & x & Ha & Hx & Hi)].
  - left. rewrite He. cbn. rewrite Hi. by left.
  - right. assert (E : pointer_of c = Some p) by (destruct c; cbn in *; congruence || done). rewrite E. cbn -[get_id]. rewrite Hx. cbn -[get_id]. rewrite Hi. by left.
Qed.

Definition apart (P : workers_pool) : bool :=
  forallb (fun '(t, c) => forallb (fun '(t', c') => bool_decide (t = t') || forallb (fun i => negb (bool_decide (i ∈ ids P c'))) (ids P c))
    (imap pair (workers P))) (imap pair (workers P)).
Fixpoint apart_run (l : list move) (P : workers_pool) : bool :=
  apart P && match l with
             | [] => true
             | a :: l => match execute answer conf 10 0 a P with Normal P' => apart_run l P' | _ => true end
             end.

Lemma apart_disjoint P : apart P = true -> WorkersSpec.disjoint P.
Proof.
  assert (Hin : forall t c, workers P !! t = Some c -> In (t, c) (imap pair (workers P))).
  { intros t c Ht. apply list_elem_of_In, list_elem_of_lookup. exists t. by rewrite list_lookup_imap, Ht. }
  intros Ha t t' c c' i Ht Ht' Hi%concerned_ids Hi'%concerned_ids. unfold apart in Ha. rewrite forallb_forall in Ha.
  apply Hin, Ha in Ht. rewrite forallb_forall in Ht. apply Hin, Ht in Ht'. apply orb_true_iff in Ht' as [E|Hn]; [by apply bool_decide_eq_true in E|].
  rewrite forallb_forall in Hn. apply list_elem_of_In, Hn, negb_true_iff, bool_decide_eq_false in Hi. done.
Qed.

Lemma apart_run_disjoint l P : apart_run l P = true -> disjoint_run answer conf 10 0 l P.
Proof.
  revert P. induction l as [|a l IH]; intros P [Ha Hr]%andb_true_iff; (split; [by apply apart_disjoint|]); [done|].
  destruct (execute _ _ _ _ _ _); [by apply IH|done..].
Qed.

(** ** Two sessions at the same time. *)

(** A node forwards a CREATE while it answers a request of an application. *)
Definition both : list move :=
  [Take 0 opening; Take 1 request; Step 0; Step 1; Step 1; Step 0; Step 1; Step 0; Step 0; Step 1; Step 0; Step 1; Step 0; Step 1; Step 1].

Lemma both_valid : Forall valid_move both.
Proof.
  pose proof events_valid as Hv. apply Forall_cons in Hv as [Ho Hv]. apply Forall_cons in Hv as [Hr _].
  repeat (apply Forall_cons; split); done.
Qed.

(** How far a worker is. *)
Definition stage (c : position) : nat :=
  match c with
  | Waiting => 0 | Looking _ => 1 | Creating _ => 2 | Acquiring _ _ => 3 | Processing _ _ => 4 | Releasing _ => 5 | Checking _ => 6
  | Removing _ => 7
  end.

Lemma both_handled : (fun ev => (fst ev, is_api_create (snd ev))) <$> along answer conf 10 0 handled_by both (start 2 start_world)
  = [(Some ex_sid, false); (None, true)].
Proof. vm_compute. reflexivity. Qed.
Lemma both_done : match ex_run both (ex_start start_world) with Normal P => Some (map stage (workers P), size (view P)) | _ => None end
  = Some ([0; 0], 2).
Proof. vm_compute. reflexivity. Qed.

Theorem workers_refine_node_witness :
  exists P evs, ex_run both (ex_start start_world) = Normal P /\ path (node_step conf) ∅ evs (view P)
    /\ (fun ev => (fst ev, is_api_create (snd ev))) <$> evs = [(Some ex_sid, false); (None, true)]
    /\ Forall (fun c => c = Waiting) (workers P) /\ size (view P) = 2.
Proof.
  assert (Hd : disjoint_run answer conf 10 0 both (start 2 start_world)) by (apply apart_run_disjoint; vm_compute; reflexivity).
  pose proof (workers_refine_node answer answer_does conf 10 0 conf_ok 2 start_world both both_valid Hd) as Hr.
  pose proof both_handled as Eh. pose proof both_done as Ed. unfold ex_run, ex_start in *. destruct (run _ _ _ _ _ _) as [P|e|f]; [|done|done].
  destruct Hr as (_ & Hp & _). injection Ed as Ew Es. eexists P, _. split_and!; [done|exact Hp|exact Eh| |done].
  clear -Ew. destruct (workers P) as [|[] [|[] [|]]]; try done. by repeat constructor.
Defined.

(** The same events, one after the other. *)
Definition in_turn : list (thread * (option session_id * event)) := [(0, opening); (1, request)].

Lemma in_turn_done : match run_events ex_dispatch (map snd in_turn) (new_session_manager, start_world) with (Normal _, _) => true | _ => false end = true.
Proof. vm_compute. reflexivity. Qed.

Theorem turns_are_dispatch_witness :
  exists P, ex_run (concat (map (fun a => turn a.1 a.2) in_turn)) (ex_start start_world) = Normal P
    /\ sequential P = fst (snd (run_events ex_dispatch (map snd in_turn) (new_session_manager, start_world)))
    /\ workers P = [Waiting; Waiting].
Proof.
  assert (Hl : Forall (fun a : thread * (option session_id * event) => a.1 < 2) in_turn) by (repeat constructor).
  pose proof (turns_are_dispatch answer conf 10 0 2 start_world in_turn Hl) as Ht. pose proof in_turn_done as Hd.
  unfold ex_dispatch, ex_run, ex_start in *.
  destruct (run_events _ _ _) as [[u|e|f] [m w]]; [|done..]. destruct Ht as (P & E & Hs & _ & Hw). exists P. by split_and!.
Defined.

(** ** One session, two workers. *)

(** What a schedule leaves: how far the workers are and at which session, its
    lock, and the pointer its ID is filed under. *)
Definition seen (P : workers_pool) : list (nat * option pointer) * option mutex * option pointer * list pointer :=
  (map (fun c => (stage c, pointer_of c)) (workers P), lock_ <$> heap P !! 0, x ← heap P !! 0; table P !! get_id (object x), finished P).
Definition sees (l : list move) (w : world) := match ex_run l (ex_start w) with Normal P => Some (seen P) | _ => None end.

Lemma sees_run l w v : sees l w = Some v -> exists P, ex_run l (ex_start w) = Normal P /\ seen P = v.
Proof. unfold sees. destruct (ex_run l (ex_start w)) as [P|e|f]; [|done..]. intros [= <-]. by exists P. Qed.

Lemma seen_0 P a b m i fs : seen P = ([a; b], Some m, i, fs) -> exists x c d, heap P !! 0 = Some x /\ workers P = [c; d]
  /\ (stage c, pointer_of c) = a /\ (stage d, pointer_of d) = b /\ lock_ x = m /\ table P !! get_id (object x) = i /\ finished P = fs.
Proof.
  unfold seen. destruct (heap P !! 0) as [x|]; [|done]. destruct (workers P) as [|c [|d [|]]]; try done. intros [= <- <- <- <- <-].
  by exists x, c, d.
Qed.

(** Two copies of a CREATE: the second waits while the first is processed. *)
Definition copies : list move := [Take 0 opening; Take 1 opening; Step 0; Step 0; Step 1; Step 0; Step 1].

Lemma copies_seen : sees copies start_world = Some ([(4, Some 0); (3, Some 0)], Some (Some 0), Some 0, []).
Proof. vm_compute. reflexivity. Qed.

Theorem session_mutual_exclusion_witness :
  exists P x, ex_run copies (ex_start start_world) = Normal P /\ holds P 0 0 /\ 0 = 0 /\ lock_ x = Some 0
    /\ exists ev, workers P !! 1 = Some (Acquiring 0 ev).
Proof.
  destruct (sees_run _ _ _ copies_seen) as (P & E & Hs). destruct (seen_0 _ _ _ _ _ _ Hs) as (x & c & d & Ex & Ew & Ec & Ed & _).
  destruct c as [| | | |p1 ev1| | |]; try discriminate Ec. injection Ec as ->.
  destruct d as [| | |p2 ev2| | | |]; try discriminate Ed. injection Ed as ->.
  assert (Hh : holds P 0 0) by (exists (Processing 0 ev1); split; [by rewrite Ew|done]).
  exists P, x. split_and!; [exact E|exact Hh| | |exists ev2; by rewrite Ew].
  all: apply (session_mutual_exclusion answer conf 10 0 2 start_world copies P 0 0 0 x E Ex Hh Hh).
Defined.

(** A CREATE for this node without a path-coupled MRI: its handler throws. *)
Definition pathless : option session_id * event :=
  (Some ex_sid, Msg_event (mk_ntlp_msg ex_sid (Some ex_create) (Other_mri true) 0) true).
Definition pathless_copies : list move := [Take 0 pathless; Step 0; Step 0; Take 1 pathless; Step 1; Step 0].
Definition later : list move := [Step 1; Step 0; Step 1; Take 0 request; Step 0; Step 1; Step 0; Step 0; Step 0; Step 1].

Lemma pathless_seen : sees pathless_copies start_world = Some ([(4, Some 0); (3, Some 0)], Some (Some 0), Some 0, []).
Proof. vm_compute. reflexivity. Qed.
Lemma later_runs : is_some (sees (pathless_copies ++ Step 0 :: later) start_world) = true.
Proof. vm_compute. reflexivity. Qed.
Lemma pathless_throws : match ex_run pathless_copies (ex_start start_world) with
  | Normal P => match workers P !! 0, heap P !! 0 with
                | Some (Processing _ ev), Some x => match session_process (object x) (snd ev) (surroundings P) with (Raised _, _) => true | _ => false end
                | _, _ => false
                end
  | _ => false end = true.
Proof. vm_compute. reflexivity. Qed.

Theorem abandoned_lock_blocks_witness :
  exists P P', ex_run pathless_copies (ex_start start_world) = Normal P /\ ex_run (Step 0 :: later) P = Normal P'
    /\ exists ev, workers P' !! 1 = Some (Acquiring 0 ev).
Proof.
  destruct (sees_run _ _ _ pathless_seen) as (P & E & Hs). destruct (seen_0 _ _ _ _ _ _ Hs) as (x & c & d & Ex & Ew & Ec & Ed & El & _).
  destruct c as [| | | |p1 ev1| | |]; try discriminate Ec. injection Ec as ->.
  destruct d as [| | |p2 ev| | | |]; try discriminate Ed. injection Ed as ->.
  pose proof later_runs as Hl. unfold sees, ex_run in Hl. rewrite run_app in Hl. unfold ex_run in *. rewrite E in Hl. cbn [obind] in Hl.
  pose proof pathless_throws as Ht. unfold ex_run in Ht. rewrite E, Ex, Ew in Ht. change ([Processing 0 ev1; Acquiring 0 ev] !! 0) with (Some (Processing 0 ev1)) in Ht. cbv beta iota in Ht.
  destruct (session_process (object x) (snd ev1) (surroundings P)) as [[u|e|f] [s w1]] eqn:Eproc; [done| |done].
  destruct (run answer conf 10 0 (Step 0 :: later) P) as [P'|e'|f] eqn:E'; [|done..]. exists P, P'. split_and!; [done|done|exists ev].
  apply (abandoned_lock_blocks answer conf 10 0 2 start_world w1 pathless_copies later P P' 0 0 ev1 x e s E);
    [by rewrite Ew|done|done|done|by rewrite Ew].
Defined.

(** The same workers, brought to rest. *)
Theorem workers_finish_witness :
  exists P l', ex_run pathless_copies (ex_start start_world) = Normal P /\ length l' <= 14
    /\ comes_to_rest answer conf 10 0 (start 2 start_world) pathless_copies P l'.
Proof.
  destruct (sees_run _ _ _ pathless_seen) as (P & E & Hs). destruct (seen_0 _ _ _ _ _ _ Hs) as (x & c & d & _ & Ew & _).
  destruct (workers_finish answer conf 10 0 2 start_world pathless_copies P E) as (l' & Hl & _ & Hrest). rewrite Ew in Hl.
  exists P, l'. split_and!; [exact E|exact Hl|exact Hrest].
Defined.

(** Two copies of a CREATE that is refused: both workers find the session
    final. *)
Definition refused_copies : list move :=
  [Take 0 opening; Take 1 opening; Step 0; Step 0; Step 1; Step 0; Step 0; Step 0; Step 0; Step 1; Step 1; Step 1; Step 1].

Lemma refused_seen : sees refused_copies denying_world = Some ([(7, Some 0); (7, Some 0)], Some None, Some 0, []).
Proof. vm_compute. reflexivity. Qed.

Theorem double_removal_crashes_witness :
  exists P, ex_run refused_copies (ex_start denying_world) = Normal P /\ ex_run [Step 0; Step 1] P = Faulted Null_dereference.
Proof.
  destruct (sees_run _ _ _ refused_seen) as (P & E & Hs). destruct (seen_0 _ _ _ _ _ _ Hs) as (x & c & d & Ex & Ew & Ec & Ed & _ & Et & Ef).
  destruct c as [| | | | | | |p1]; try discriminate Ec. injection Ec as ->.
  destruct d as [| | | | | | |p2]; try discriminate Ed. injection Ed as ->.
  exists P. split; [exact E|].
  apply (double_removal_crashes answer conf 10 0 P 0 1 0 x); [done|by rewrite Ew|by rewrite Ew|done|done|rewrite Ef; apply Nat.ltb_lt; vm_compute; reflexivity].
Defined.
End Threads_examples.
